(* ===== verification/_CoqProject ===== *)
-Q . S2P
Prelude.v
GoStrings.v
GoEncoding.v
GoFlag.v
Api.v
Names.v
PortAllocator.v
PortAllocatorSpec.v
Annotations.v
GoSort.v
LoadBalancers.v
Hostname.v
EnvoySnapshot.v
DataPath.v
NetApi.v
Effects.v
Guards.v
Predicates.v
Objects.v
Finalized.v
ApiServer.v
Services.v
RouteDataPath.v
RouteResources.v
LBController.v
TenantController.v
BridgeService.v
Routes.v
RouteController.v
EnvoyController.v
Bootstrap.v
Metrics.v
MetricValues.v
EnvoyServer.v
CCMNode.v
CCMService.v
CCMSources.v
SyncSecrets.v
Permissions.v
Tenants.v
GatewayCRDs.v
CommandLine.v
Commands.v
Lifecycle.v
ServiceLifecycle.v
Watches.v
Rbac.v
Charts.v
ServiceLoop.v
RouteLifecycle.v
EndToEnd.v
DeepCopy.v
ApiTypesCE.v
ApiTypesEE.v
Copies.v
Registration.v
