(* ===== verification/Prelude.v ===== *)
(** * KubeLB: a verification development

    KubeLB gives the Services, Ingresses and Gateway API routes of many tenant
    clusters load balancers that run in one management cluster, the KubeLB cluster.  In
    every tenant cluster a cloud controller manager (the CCM) turns each Service of
    type LoadBalancer into a LoadBalancer object, each Ingress, Gateway, HTTPRoute and
    GRPCRoute into a Route object and each labelled Secret into a SyncSecret, all in the
    tenant's namespace of the KubeLB cluster.  There the manager allocates a port for
    every endpoint port, creates a Service (and the Ingress or route) whose target
    ports are those ports, and hands an Envoy proxy a snapshot with a listener at each
    allocated port that forwards to the node addresses of the tenant at its node port.
    The tenant controller of the manager gives each Tenant its namespace, a role and
    the kubeconfig its CCM works with, and takes everything back when the Tenant goes.

    This library models the Go program under src/ (cmd/, internal/ and api/), with what its
    charts and roles under charts/ and config/ say about how it is run, as executable
    functions and proves what makes it correct.

    ** How the program is modelled

    A computation that can panic is a [go A]; an error is a value of the sum
    [error + A]; a pointer is an [option]; a map is a [gomap] (with its nil); an
    integer is a [Z], with [int32], [uint32] and [int64] where the code converts.  Maps
    the code shares by reference live in a heap where a claim depends on it
    (Annotations.v); elsewhere an aliased argument that the code changes is returned
    (MapLoadBalancer, GenerateServiceForLBCluster, reconcileService), and a package
    variable is passed as state (GenerateBootstrap).  For the deep copies of the API
    objects all memory is explicit: pointers, slices and maps refer to cells of a heap
    (DeepCopy.v).  A controller is a program tree
    [prog] over calls to the API servers, the port allocator, the snapshot cache and the
    outside (Effects.v); a theorem with [all_runs] holds for every sequence of answers,
    one with [run] for a given handler.  A kind is read and written in one of the two
    clusters: LoadBalancers, Routes, Addresses, SyncSecrets and what the manager creates
    in the KubeLB cluster, the sources in the tenant's; Secrets and SyncSecrets exist in
    both and have a kind for each ([KSecret] and [KTenantSecret]).

    ApiServer.v is an executable API server for all kinds: objects by namespace and
    name, UIDs, resource versions with conflicts, deletion that waits for finalizers,
    lists, deletion of collections, status updates, and the string data of Secrets.  It
    is the handler of the theorems about what a sequence of reconciliations achieves.

    Code that is not in the repository is a parameter: [equality.Semantic.DeepEqual]
    (class [SemanticDeepEqual], law [SemanticMaps]), the finalizer helpers
    ([Finalizers], [FinalizerLaws]), Unicode case mapping beyond ASCII ([Unicode]), IPv6
    addresses ([IPv6]), the scheme and the unstructured converter, YAML and kubeconfig
    decoders, the embedded files, protobuf marshalling and hashing,
    [SetControllerReference], the random source (a stream), the number of retries of
    the manager, the delivery of events ([EventSource], [EventSourceLaws]), the Prometheus
    client ([Prometheus], [PrometheusLaws]), the types of other packages with their copy
    functions ([External], [ExternalLaws]), the flags of the logger ([ZapFlags], [ZapLaws]) and
    the scheme of the clients ([RuntimeScheme], [SchemeLaws]).  Instances with the documented behaviour serve the witnesses.

    ** The files

    - Prelude: Go values, errors, loops with an index, strings; the hint database.
    - GoStrings, GoSort, GoEncoding: the functions of [strings], [strconv], [sort],
      [base64], [html/template] and [net] in use; GoFlag: parsing a command line ([flag]),
      booleans and paths.
    - Api: the types of api/ce/kubelb.k8c.io/v1alpha1 and the core types; NetApi: the
      Ingress, Gateway API, workload, RBAC, Secret, EndpointSlice and CRD types.
    - Names (internal/kubelb/utils.go): labels, key patterns, generated names, and when
      keys are unambiguous.
    - PortAllocator, PortAllocatorSpec (internal/port-lookup): the allocator with its two
      tables, its invariant [wf], an abstract allocator [Spec] and the simulation,
      termination, exhaustion, round trips, recovery from the status.
    - Annotations (utils.go, internal/util/kubernetes, shared.go): propagation, merging.
    - LoadBalancers, Hostname (internal/kubelb/loadbalancer.go): mapping a Service,
      detecting differences, the ports of the created Service, hostnames.
    - EnvoySnapshot (internal/envoy/resource.go): clusters, listeners, [MapSnapshot].
    - DataPath, RouteDataPath: the data paths inside the manager, over the components
      above.
    - Effects, Guards: programs, runs, and what runs have in common.
    - Predicates (internal/util/predicate): the event filters.
    - Objects, Finalized, ApiServer: objects of any kind, the frame that the controllers
      with a finalizer share, the API server.
    - Services, RouteResources, Routes (internal/resources): replicating Services,
      recreating Ingress, Gateway, HTTPRoute and GRPCRoute, generating Routes.
    - LBController, RouteController, EnvoyController, TenantController, BridgeService
      (internal/controllers/kubelb): the reconcilers with their cleanup, status and
      orphan handling, handler by handler.
    - Bootstrap (internal/envoy/bootstrap.go, server.go): the static configuration of a
      proxy and the server that makes it; EnvoyServer (server.go, logger.go): starting the
      gRPC server, what its callbacks count, and the logger.
    - CCMNode, CCMService, CCMSources (internal/controllers/ccm): the reconcilers of the
      CCM for nodes, Services, and Ingress, Gateway, HTTPRoute and GRPCRoute, the last
      four as one program over the class [RouteSource] of what differs.
    - SyncSecrets: the three controllers that carry a Secret from a tenant's cluster to
      the KubeLB cluster, in internal/controllers/ccm and internal/controllers/kubelb.
    - GatewayCRDs (internal/controllers/ccm/gateway_crd_controller.go,
      internal/resources/reconciling): installing and keeping the Gateway API CRDs.
    - Metrics (internal/metrics): the factory, every metric and its registration, the
      generated document, the places that use a metric; MetricValues: what the metrics of
      the CCM's operations and the gauges of Routes and LoadBalancers count.
    - Watches (SetupWithManager of every controller): what each controller watches, its
      filters, and the requests an event stands for.
    - CommandLine, Commands (cmd/): the options and flags of the two programs, and the
      steps from the command line to the running controllers.
    - Rbac (the [+kubebuilder:rbac] markers of every controller): the markers as rules, the
      requests a call stands for, and what rules grant; Charts (charts/, config/): the arguments
      and ClusterRoles that the charts render, and the generated roles.
    - Permissions, Tenants, Lifecycle, ServiceLifecycle, ServiceLoop, RouteLifecycle,
      EndToEnd: the components put together, as described next.
    - DeepCopy: memory and the statements of the generated copy functions; ApiTypesCE and
      ApiTypesEE: the types of api/ce and api/ee and their functions; Copies: the claim;
      Registration: what the packages register and which kinds the clients know.

    ** What the theorems show

    - The data path: a port of a tenant's Service reaches exactly the tenant's ready
      nodes through Service, listener and cluster ([end_to_end], [route_data_path],
      [bridge_data_path]); listeners of different load balancers never share a port
      ([listeners_isolated]) and stay in the range of the allocator
      ([listener_ports_bounded]); every listener has its cluster.
    - The allocator keeps its invariant in every reachable state, refines the abstract
      allocator, terminates while ports are left, and is rebuilt from the status after
      a restart ([status_restores_allocator]), before any controller is set up
      ([manager_sets_up_ready]).
    - The controllers take resources only under a stored finalizer, give the finalizer
      up last, delete only orphans, publish only what is alive, and settle: applied
      objects are not written again ([reconcileService_converges],
      [CreateOrUpdateHTTPRoute_converges], [secret_replicated]).
    - The CCM writes only what follows from objects it read, has the LoadBalancer, Route
      and Addresses right when it reports success, and finds the object of a changed
      LoadBalancer or Route again ([ReconcileService_syncs], [ReconcileSource_wraps],
      [ReconcileNode_publishes], [enqueueLoadBalancer_mapped], [enqueueRoutes_mapped]).
    - A Service from beginning to end: it gets its LoadBalancer and the addresses of the
      LoadBalancer after two runs, after which nothing is written ([service_converges]);
      deleted, it goes away with its LoadBalancer once the CCM and the manager have run
      ([deleted_service_goes_away]).  Likewise a deleted Ingress, Gateway, HTTPRoute or
      GRPCRoute, with its Route and the Services made for it ([deleted_source_goes_away]).
    - Controllers in a cluster that changes: however the queue of the CCM's Service
      controller is run and whatever others write in between, a Service whose request is
      not queued is in step with its LoadBalancer ([no_change_lost]); and a change that
      wakes the Envoy control plane controller for no tenant leaves the snapshot of every
      tenant as it is ([snapshot_not_stale]).
    - Copies of API objects look like the original and share no memory with it, for every
      type of both editions ([deep_copies_sound]); exactly the types that are objects are
      registered, and the clients know the kinds they are used with ([types_registered]).
    - Deployment: the role that follows from the markers is enough for every call of the
      manager ([manager_within_role]) and so are the roles of its chart and of config/
      ([manager_roles_agree]); the arguments the chart of the CCM renders are parsed to the
      options its values stand for ([ccm_chart_options]), and the role it renders from the
      same values is enough for the controllers these options set up, and has no rule for
      one that is left out ([ccm_chart_sufficient]).
    - Metrics: registration does not panic, what is registered is what is documented,
      and no use of a metric panics ([metrics_sound], [docs_up_to_date],
      [operations_accounted]).
    - Tenants: what a Tenant is given ([reconcile_tenant_provisions],
      [kubeconfig_round_trip]); that a CCM, whatever its flags, makes only calls that the
      role of its tenant grants in the tenant's namespace ([ccm_confined]); that Secrets
      arrive ([secret_replicated]); and that a deleted Tenant goes away with all it has,
      under any interleaving of the controllers involved ([deleted_tenant_goes_away]).
    - The proxy: the admin interface is reachable from outside only for two requests
      ([admin_contained]), the probes of the pod are among them ([probes_answered]).
    - Pure functions meet independent specifications: hostname validity, well-formed
      generated names ([GenerateName_label]), annotation propagation and merging, the
      comparison of load balancers, collected references.
    - Defects: theorems that exhibit what the code does wrong (two keys of one call with
      one port, lost allocations for unsorted ports, live Services deleted as orphans,
      leaked ports, dropped errors, a panic on mirror filters of backends, ignored
      replicas, a load balancer pointed at itself, Ingresses that cannot be deleted, a
      status overwritten by a placeholder, Secrets written for ever, finalizers that are
      never removed, ports of the proxy given to tenants, an endpoint at the admin
      interface, addresses that are not noticed in the global topology, gauges that stick,
      LoadBalancers with a hostname that stay when the Gateway API is off
      ([hostname_cleanup_stuck]), a namespace that is never read, an admin interface opened by
      the default values of a chart, rules that the markers of the CCM lack).

    ** Bounds and fuel

    Only the loop of [allocatePort] needs fuel: it draws random ports until one is
    free.  [AllocatePorts_terminates] gives a fuel that is enough for a fair source
    while a port is free, and [AllocatePorts_exhausted] shows that none is enough when
    no port is free.  [retryOnConflict] repeats as often as the parameter says; the CCM
    passes the four further attempts of [retry.DefaultRetry].  All other recursion is
    structural.

    ** What is not modelled

    The mutex of the allocator: its operations are atomic steps.  Log messages and the
    events that are recorded, which nothing reads.  Signal handling.  The libraries the
    program calls (client-go, controller-runtime, go-control-plane, gRPC, Prometheus), which are
    parameters.  Of the charts, all templates but the arguments and the ClusterRoles.  The
    scripts and manifests of the tests. *)
From Stdlib Require Import Ascii.
From stdpp Require Import base gmap sets list strings pretty fin_maps.

(** The development's hint database: invariants and the lemmas that preserve them. *)
Create HintDb kubelb.

(** A decidable closed goal, by evaluating its decision procedure. *)
Ltac computed := apply (bool_decide_unpack _); vm_compute; exact I.

(** ** Go values *)

(** A computation of the Go program that either yields a value or panics
    (an index out of range, a nil dereference). *)
Inductive go (A : Type) : Type :=
  | Done (a : A)
  | Panics.
Arguments Done {A} a.
Arguments Panics {A}.

Global Instance go_ret : MRet go := λ A a, Done a.
Global Instance go_bind : MBind go := λ A B f m,
  match m with Done a => f a | Panics => Panics end.
Global Instance go_eq_dec `{EqDecision A} : EqDecision (go A).
Proof. solve_decision. Defined.

Definition is_done {A} (m : go A) : bool :=
  match m with Done _ => true | Panics => false end.

(** A value or an error, [error] first as in [if err != nil { return err }]. *)
Global Instance result_ret (E : Type) : MRet (sum E) := λ A a, inr a.
Global Instance result_bind (E : Type) : MBind (sum E) := λ A B f m,
  match m with inl e => inl e | inr a => f a end.

(** Errors: a status of the API server with its reason, [fmt.Errorf(msg)],
    [fmt.Errorf("msg: %w", err)]. *)
Inductive api_reason :=
  | NotFound | AlreadyExists | Conflict | OtherReason (r : string).
Inductive error :=
  | StatusError (reason : api_reason)
  | Errorf (msg : string)
  | Wrapf (msg : string) (err : error).

Global Instance api_reason_eq_dec : EqDecision api_reason.
Proof. solve_decision. Defined.
Global Instance error_eq_dec : EqDecision error.
Proof. solve_decision. Defined.

(** The status in the chain of an error, as [errors.As] finds it. *)
Fixpoint reason_of (err : error) : option api_reason :=
  match err with
  | StatusError r => Some r
  | Errorf _ => None
  | Wrapf _ err => reason_of err
  end.
Definition IsNotFound (err : error) : bool := bool_decide (reason_of err = Some NotFound).
Definition IsAlreadyExists (err : error) : bool := bool_decide (reason_of err = Some AlreadyExists).

(** [client.IgnoreNotFound] *)
Definition IgnoreNotFound (err : option error) : option error :=
  match err with
  | Some e => if IsNotFound e then None else Some e
  | None => None
  end.

(** [if err != nil { return fmt.Errorf("msg: %w", err) }] *)
Definition wrap {A} (msg : string) (r : error + A) : error + A :=
  match r with inl e => inl (Wrapf msg e) | inr a => inr a end.

(** [l[i]] of a slice: out of range panics. *)
Definition at_index {A} (l : list A) (i : nat) : go A :=
  match l !! i with Some a => Done a | None => Panics end.

(** [l[i] = x] of a slice: out of range panics. *)
Definition set_index {A} (l : list A) (i : nat) (x : A) : go (list A) :=
  if decide (i < length l) then Done (<[i:=x]> l) else Panics.

(** [for i, x := range l] with an accumulator. *)
Fixpoint fold_index {A B} (f : nat → B → A → B) (i : nat) (acc : B) (l : list A) : B :=
  match l with
  | [] => acc
  | x :: l => fold_index f (S i) (f i acc x) l
  end.

(** The same loop when the body may panic. *)
Fixpoint go_fold {A B} (f : nat → B → A → go B) (i : nat) (acc : B) (l : list A) : go B :=
  match l with
  | [] => Done acc
  | x :: l => acc ← f i acc x; go_fold f (S i) acc l
  end.

(** [for i, x := range l { out = append(out, f(i, x)) }] when [f] may panic. *)
Fixpoint go_map {A B} (f : nat → A → go B) (i : nat) (l : list A) : go (list B) :=
  match l with
  | [] => Done []
  | x :: l => y ← f i x; ys ← go_map f (S i) l; Done (y :: ys)
  end.

(** *** Machine integers: a conversion keeps the low 32 bits. *)
Definition uint32 (z : Z) : Z := (z `mod` 2 ^ 32)%Z.
Definition int32 (z : Z) : Z := ((z + 2 ^ 31) `mod` 2 ^ 32 - 2 ^ 31)%Z.

Definition in_int32 (z : Z) : Prop := (- 2 ^ 31 ≤ z < 2 ^ 31)%Z.

Lemma int32_id z : in_int32 z → int32 z = z.
Proof. unfold in_int32, int32. intros ?. rewrite Z.mod_small; lia. Qed.

Lemma uint32_id z : (0 ≤ z < 2 ^ 32)%Z → uint32 z = z.
Proof. apply Z.mod_small. Qed.

(** *** Maps with Go's nil map: reading nil gives the zero value. *)
Definition gomap V : Type := option (gmap string V).

Definition contents {V} (m : gomap V) : gmap string V := default ∅ m.

(** [m[k]] of a [map[string]string]: the zero value [""] when absent. *)
Definition get_str (m : gomap string) (k : string) : string :=
  default "" (contents m !! k).

(** ** Lists *)

Section loops.
Context {A B : Type}.

Lemma fold_index_ind (P : nat → B → Prop) (f : nat → B → A → B) i acc l :
  P i acc →
  (∀ j b x, l !! j = Some x → P (i + j) b → P (S (i + j)) (f (i + j) b x)) →
  P (i + length l) (fold_index f i acc l).
Proof.
  revert i acc. induction l as [|x l IH]; intros i acc H0 Hs; simpl.
  { by rewrite Nat.add_0_r. }
  replace (i + S (length l)) with (S i + length l) by lia. apply IH.
  - specialize (Hs 0 acc x eq_refl). rewrite Nat.add_0_r in Hs. auto.
  - intros j b y Hj Hb. replace (S i + j) with (i + S j) in * by lia.
    by apply (Hs (S j)).
Qed.

Lemma go_map_Done (f : nat → A → go B) i l ys :
  go_map f i l = Done ys →
  length ys = length l ∧
  ∀ j x, l !! j = Some x → ∃ y, ys !! j = Some y ∧ f (i + j) x = Done y.
Proof.
  revert i ys. induction l as [|x l IH]; intros i ys; simpl.
  { intros [= <-]. split; [done|]. intros j y Hj. by destruct j. }
  destruct (f i x) as [y|] eqn:Hy; simpl; [|done].
  destruct (go_map f (S i) l) as [ys'|] eqn:Hl; simpl; [|done].
  intros [= <-]. destruct (IH _ _ Hl) as [Hlen Hall]. split; [simpl; lia|].
  intros [|j] z; simpl; [intros [= <-]; exists y; by rewrite Nat.add_0_r|].
  intros Hz. destruct (Hall j z Hz) as (w & ? & ?). exists w.
  by replace (i + S j) with (S i + j) by lia.
Qed.

Lemma go_map_total (f : nat → A → go B) i l :
  (∀ j x, l !! j = Some x → is_done (f (i + j) x) = true) →
  ∃ ys, go_map f i l = Done ys.
Proof.
  revert i. induction l as [|x l IH]; intros i Hf; simpl; [by eexists|].
  pose proof (Hf 0 x eq_refl) as H0. rewrite Nat.add_0_r in H0.
  destruct (f i x) as [y|]; [|done]. simpl.
  destruct (IH (S i)) as [ys ->]; [|by eexists].
  intros j z Hj. replace (S i + j) with (i + S j) by lia. by apply Hf.
Qed.
End loops.

(** ** Strings *)

Section string_lemmas.
Implicit Types s t u : string.

Lemma sapp_nil_l s : "" +:+ s = s.
Proof. done. Qed.
Lemma sapp_cons c s t : String c s +:+ t = String c (s +:+ t).
Proof. done. Qed.
Lemma sapp_nil_r s : s +:+ "" = s.
Proof. induction s as [|c s IH]; [done|]. by rewrite sapp_cons, IH. Qed.
Lemma sapp_assoc s t u : (s +:+ t) +:+ u = s +:+ t +:+ u.
Proof. induction s as [|c s IH]; [done|]. by rewrite !sapp_cons, IH. Qed.
Lemma slen_app s t :
  String.length (s +:+ t) = String.length s + String.length t.
Proof. induction s as [|c s IH]; [done|]. rewrite sapp_cons. simpl. by rewrite IH. Qed.

Lemma sapp_inj_l s t u : s +:+ t = s +:+ u → t = u.
Proof. induction s as [|c s IH]; [done|]. rewrite !sapp_cons. intros [= ?]. auto. Qed.

(** Two concatenations agree piecewise when the left parts have one length. *)
Lemma sapp_inj_len s t s' t' :
  String.length s = String.length s' →
  s +:+ t = s' +:+ t' → s = s' ∧ t = t'.
Proof.
  revert s'. induction s as [|c s IH]; intros [|c' s'] Hlen; simpl in Hlen; try lia.
  - done.
  - rewrite !sapp_cons. intros [= -> H]. destruct (IH s') as [-> ->]; [lia|done|done].
Qed.
Lemma sapp_inj_len_r s t s' t' :
  String.length t = String.length t' →
  s +:+ t = s' +:+ t' → s = s' ∧ t = t'.
Proof.
  intros Hlen H. apply sapp_inj_len; [|done].
  apply (f_equal String.length) in H. rewrite !slen_app in H. lia.
Qed.
Lemma sapp_inj_r s t u : s +:+ u = t +:+ u → s = t.
Proof. intros H. by apply sapp_inj_len_r in H as [??]. Qed.
End string_lemmas.

(** [lacks c s]: the byte [c] does not occur in [s]. *)
Fixpoint lacks (c : Ascii.ascii) (s : string) : bool :=
  match s with
  | EmptyString => true
  | String c' s => negb (bool_decide (c = c')) && lacks c s
  end.

Lemma lacks_app c s t : lacks c (s +:+ t) = lacks c s && lacks c t.
Proof.
  induction s as [|c' s IH]; [done|]. rewrite sapp_cons. simpl.
  rewrite IH. by destruct (negb _).
Qed.

(** A string is cut at the first occurrence of a byte in one way only. *)
Lemma cut_first_inj c s t s' t' :
  lacks c s = true → lacks c s' = true →
  s +:+ String c t = s' +:+ String c t' → s = s' ∧ t = t'.
Proof.
  revert s'. induction s as [|d s IH]; intros [|d' s']; simpl.
  - rewrite !sapp_nil_l. intros _ _ [= ->]. done.
  - rewrite sapp_nil_l, sapp_cons. intros _ H [= -> _].
    by rewrite bool_decide_eq_true_2 in H.
  - rewrite sapp_nil_l, sapp_cons. intros H _ [= -> _].
    by rewrite bool_decide_eq_true_2 in H.
  - rewrite !sapp_cons. intros [_ H]%andb_true_iff [_ H']%andb_true_iff [= -> E].
    by destruct (IH s' H H' E) as [-> ->].
Qed.

(** ... and at the last one. *)
Lemma cut_last_inj c s t s' t' :
  lacks c t = true → lacks c t' = true →
  s +:+ String c t = s' +:+ String c t' → s = s' ∧ t = t'.
Proof.
  revert s'. induction s as [|d s IH]; intros [|d' s'] Ht Ht'.
  - rewrite !sapp_nil_l. intros [= ->]. done.
  - rewrite sapp_nil_l, sapp_cons. intros [= -> E]. exfalso.
    rewrite E, lacks_app in Ht. simpl in Ht.
    rewrite bool_decide_eq_true_2, andb_false_r in Ht; done.
  - rewrite sapp_nil_l, sapp_cons. intros [= -> E]. exfalso.
    rewrite <- E, lacks_app in Ht'. simpl in Ht'.
    rewrite bool_decide_eq_true_2, andb_false_r in Ht'; done.
  - rewrite !sapp_cons. intros [= -> E].
    by destruct (IH s' Ht Ht' E) as [-> ->].
Qed.

(** ** The verbs of [fmt.Sprintf] the program uses: [%d] and [%v] of an integer. *)
Definition dash : Ascii.ascii := "-"%char.

Lemma pretty_N_char_no_dash x : pretty_N_char x ≠ dash.
Proof. unfold pretty_N_char. by repeat case_match. Qed.

Lemma pretty_N_go_lacks x s :
  lacks dash s = true → lacks dash (pretty_N_go x s) = true.
Proof.
  revert s. induction (N.lt_wf_0 x) as [x _ IH]; intros s Hs.
  assert (x = 0 ∨ 0 < x)%N as [->|?] by lia; [by rewrite pretty_N_go_0|].
  rewrite pretty_N_go_step by done. apply IH; [by apply N.div_lt|]. simpl.
  rewrite bool_decide_eq_false_2; [done|]. intros E. by apply (pretty_N_char_no_dash (x `mod` 10)%N).
Qed.

Lemma pretty_N_lacks (x : N) : lacks dash (pretty x) = true.
Proof.
  unfold pretty, pretty_N. case_decide; [done|]. by apply pretty_N_go_lacks.
Qed.

Lemma pretty_Z_lacks (z : Z) : (0 ≤ z)%Z → lacks dash (pretty z) = true.
Proof. destruct z as [|p|p]; [done| |lia]. intros _. apply (pretty_N_lacks (Npos p)). Qed.

Lemma pretty_nat_lacks (n : nat) : lacks dash (pretty n) = true.
Proof. apply pretty_N_lacks. Qed.

Lemma pretty_N_go_ne_nil x c s : pretty_N_go x (String c s) ≠ "".
Proof.
  revert c s. induction (N.lt_wf_0 x) as [x _ IH]; intros c s.
  assert (x = 0 ∨ 0 < x)%N as [->|?] by lia; [by rewrite pretty_N_go_0|].
  rewrite pretty_N_go_step by done. apply IH. by apply N.div_lt.
Qed.

Lemma pretty_N_ne_nil (x : N) : pretty x ≠ "".
Proof.
  unfold pretty, pretty_N. case_decide; [done|].
  rewrite pretty_N_go_step by lia. apply pretty_N_go_ne_nil.
Qed.

(** A decimal number followed by a dash can be read back in one way only;
    a leading minus sign does not get in the way. *)
Lemma pretty_Z_dash_inj (x y : Z) s t :
  pretty x +:+ String dash s = pretty y +:+ String dash t → x = y ∧ s = t.
Proof.
  assert (∀ (p : N) u v, pretty p +:+ u ≠ String dash v) as Hsign.
  { intros p u v. pose proof (pretty_N_ne_nil p). pose proof (pretty_N_lacks p) as Hl.
    destruct (pretty p) as [|c w]; [done|]. rewrite sapp_cons. intros [= -> _].
    by simpl in Hl. }
  assert (∀ (p q : N) u v, pretty p +:+ String dash u = pretty q +:+ String dash v →
    p = q ∧ u = v) as Hpos.
  { intros p q u v E. apply cut_first_inj in E as [E ->]; auto using pretty_N_lacks.
    by apply (inj pretty) in E. }
  destruct x as [|x|x], y as [|y|y]; intros E.
  - by apply (Hpos 0 0)%N in E as [_ ->].
  - by apply (Hpos 0 (Npos y))%N in E as [? ->].
  - by destruct (Hsign 0%N (String dash s) (pretty y +:+ String dash t)).
  - by apply (Hpos (Npos x) 0)%N in E as [? ->].
  - by apply (Hpos (Npos x) (Npos y))%N in E as [[= ->] ->].
  - by destruct (Hsign (Npos x) (String dash s) (pretty y +:+ String dash t)).
  - by destruct (Hsign 0%N (String dash t) (pretty x +:+ String dash s)).
  - by destruct (Hsign (Npos y) (String dash t) (pretty x +:+ String dash s)).
  - injection E as E. by apply (Hpos (Npos x) (Npos y)) in E as [[= ->] ->].
Qed.
