(* ===== verification/GoStrings.v ===== *)
(** * The parts of Go's [strings] package the program uses

    Go strings are byte sequences, here Rocq's [string].  The functions below
    follow the documented behaviour of [strings.HasPrefix], [TrimPrefix],
    [HasSuffix], [Contains], [Split] (one-byte separators), [TrimSpace] and
    [ToLower].  The last two consult the Unicode tables when a string has a byte
    outside ASCII; those tables are the class parameter [Unicode], and on ASCII
    strings nothing depends on it. *)
From Stdlib Require Import Ascii.
From stdpp Require Import base list strings.
From S2P Require Import Prelude.

(** What the Unicode tables do to a string with non-ASCII bytes. *)
Class Unicode := {
  unicode_lower : string → string;
  unicode_trim_space : string → string
}.

(** ** Bytes *)

Definition byte_in (lo hi : ascii) (c : ascii) : bool :=
  (N_of_ascii lo <=? N_of_ascii c)%N && (N_of_ascii c <=? N_of_ascii hi)%N.

Definition is_ascii_byte (c : ascii) : bool := (N_of_ascii c <? 128)%N.

Definition is_upper : ascii → bool := byte_in "A" "Z".
Definition is_lower : ascii → bool := byte_in "a" "z".
Definition is_digit : ascii → bool := byte_in "0" "9".

Definition lower_byte (c : ascii) : ascii :=
  if is_upper c then ascii_of_N (N_of_ascii c + 32) else c.

Fixpoint all_bytes (p : ascii → bool) (s : string) : bool :=
  match s with
  | EmptyString => true
  | String c s => p c && all_bytes p s
  end.

Fixpoint map_bytes (f : ascii → ascii) (s : string) : string :=
  match s with
  | EmptyString => EmptyString
  | String c s => String (f c) (map_bytes f s)
  end.

Definition is_ascii : string → bool := all_bytes is_ascii_byte.

(** ** Prefixes and suffixes *)

Fixpoint HasPrefix (s prefix : string) {struct prefix} : bool :=
  match prefix, s with
  | EmptyString, _ => true
  | String c p, String d s => bool_decide (c = d) && HasPrefix s p
  | String _ _, EmptyString => false
  end.

Fixpoint drop_bytes (n : nat) (s : string) : string :=
  match n, s with
  | S n, String _ s => drop_bytes n s
  | _, _ => s
  end.

Fixpoint take_bytes (n : nat) (s : string) : string :=
  match n, s with
  | S n, String c s => String c (take_bytes n s)
  | _, _ => EmptyString
  end.

Definition TrimPrefix (s prefix : string) : string :=
  if HasPrefix s prefix then drop_bytes (String.length prefix) s else s.

Definition HasSuffix (s suffix : string) : bool :=
  bool_decide (String.length suffix ≤ String.length s) &&
  bool_decide (drop_bytes (String.length s - String.length suffix) s = suffix).

Fixpoint Contains (s sub : string) : bool :=
  HasPrefix s sub ||
  match s with
  | EmptyString => false
  | String _ s => Contains s sub
  end.

(** [strings.Split(s, sep)] for a one-byte separator; never empty. *)
Fixpoint Split (s : string) (sep : ascii) : list string :=
  match s with
  | EmptyString => [""]
  | String c s =>
      match Split s sep with
      | [] => [""]
      | w :: ws => if decide (c = sep) then "" :: w :: ws else String c w :: ws
      end
  end.

(** [strings.Join]. *)
Fixpoint Join (ws : list string) (sep : ascii) : string :=
  match ws with
  | [] => ""
  | [w] => w
  | w :: ws => w +:+ String sep (Join ws sep)
  end.

Fixpoint trim_left (s : string) : string :=
  match s with
  | String c s' => if Ascii.is_space c then trim_left s' else s
  | EmptyString => EmptyString
  end.

Fixpoint trim_right (s : string) : string :=
  match s with
  | EmptyString => EmptyString
  | String c s =>
      match trim_right s with
      | EmptyString => if Ascii.is_space c then EmptyString else String c EmptyString
      | t => String c t
      end
  end.

Definition TrimSpace `{Unicode} (s : string) : string :=
  if is_ascii s then trim_right (trim_left s) else unicode_trim_space s.

Definition ToLower `{Unicode} (s : string) : string :=
  if is_ascii s then map_bytes lower_byte s else unicode_lower s.

(** [strconv.Atoi]: an optional sign and decimal digits in the range of a 64-bit
    int, [None] for the parse error. *)
Fixpoint parse_digits (acc : Z) (s : string) : option Z :=
  match s with
  | EmptyString => Some acc
  | String c s =>
      match Ascii.is_nat c with
      | Some d => parse_digits (acc * 10 + Z.of_nat d) s
      | None => None
      end
  end.

Definition Atoi (s : string) : option Z :=
  let in_range z := if decide (- 2 ^ 63 ≤ z < 2 ^ 63)%Z then Some z else None in
  match s with
  | EmptyString => None
  | String c t =>
      if decide (c = "-"%char) then
        match t with
        | EmptyString => None
        | _ => z ← parse_digits 0 t; in_range (- z)%Z
        end
      else if decide (c = "+"%char) then
        match t with
        | EmptyString => None
        | _ => z ← parse_digits 0 t; in_range z
        end
      else z ← parse_digits 0 s; in_range z
  end.

(** ** Facts *)

Lemma HasPrefix_spec s p : HasPrefix s p = true ↔ ∃ t, s = p +:+ t.
Proof.
  revert s. induction p as [|c p IH]; intros s; simpl.
  - split; [|done]. intros _. by exists s.
  - destruct s as [|d s]; simpl.
    + split; [done|]. intros [t E]. by rewrite sapp_cons in E.
    + rewrite andb_true_iff, bool_decide_eq_true, IH. split.
      * intros [-> [t ->]]. by exists t.
      * intros [t E]. rewrite sapp_cons in E. injection E as -> ->. eauto.
Qed.

Lemma drop_bytes_app s t : drop_bytes (String.length s) (s +:+ t) = t.
Proof. induction s as [|c s IH]; simpl; [by destruct t|done]. Qed.

Lemma TrimPrefix_app p t : TrimPrefix (p +:+ t) p = t.
Proof.
  unfold TrimPrefix. rewrite (proj2 (HasPrefix_spec _ _)) by eauto.
  apply drop_bytes_app.
Qed.

Lemma TrimPrefix_no s p : HasPrefix s p = false → TrimPrefix s p = s.
Proof. unfold TrimPrefix. by intros ->. Qed.

Lemma take_drop_bytes n s : take_bytes n s +:+ drop_bytes n s = s.
Proof.
  revert s. induction n as [|n IH]; intros [|c s]; simpl; try done.
  by rewrite sapp_cons, IH.
Qed.

Lemma length_take_bytes n s : String.length (take_bytes n s) = n `min` String.length s.
Proof. revert s. induction n as [|n IH]; intros [|c s]; simpl; try done. by rewrite IH. Qed.

Lemma length_drop_bytes n s : String.length (drop_bytes n s) = String.length s - n.
Proof. revert s. induction n as [|n IH]; intros [|c s]; simpl; auto. Qed.

Lemma length_map_bytes f s : String.length (map_bytes f s) = String.length s.
Proof. induction s as [|c s IH]; simpl; [done|by rewrite IH]. Qed.

Lemma map_bytes_app f s t : map_bytes f (s +:+ t) = map_bytes f s +:+ map_bytes f t.
Proof. induction s as [|c s IH]; [done|]. rewrite !sapp_cons. simpl. by rewrite sapp_cons, IH. Qed.

Lemma all_bytes_app p s t : all_bytes p (s +:+ t) = all_bytes p s && all_bytes p t.
Proof.
  induction s as [|c s IH]; [done|]. rewrite !sapp_cons. simpl. rewrite IH.
  by destruct (p c).
Qed.

Lemma all_bytes_impl (p q : ascii → bool) s :
  (∀ c, p c = true → q c = true) → all_bytes p s = true → all_bytes q s = true.
Proof.
  intros Hpq. induction s as [|c s IH]; simpl; [done|].
  rewrite !andb_true_iff. intros [? ?]; auto.
Qed.

(** ToLower keeps the length of an ASCII string. *)
Lemma length_ToLower `{Unicode} s :
  is_ascii s = true → String.length (ToLower s) = String.length s.
Proof. unfold ToLower. intros ->. apply length_map_bytes. Qed.

(** *** Splitting and joining *)

Lemma Split_nonempty s sep : Split s sep ≠ [].
Proof. destruct s as [|c s]; simpl; [done|]. by repeat case_match. Qed.

Lemma Join_Split s sep : Join (Split s sep) sep = s.
Proof.
  induction s as [|c s IH]; simpl; [done|].
  pose proof (Split_nonempty s sep) as Hne.
  destruct (Split s sep) as [|w ws]; [done|].
  destruct (decide (c = sep)) as [->|Hc].
  - simpl in IH |- *. by destruct ws; simpl in *; rewrite sapp_nil_l, IH.
  - destruct ws as [|w' ws]; simpl in *; [by rewrite IH|]. by rewrite sapp_cons, IH.
Qed.

Lemma Split_lacks s sep : Forall (λ w, lacks sep w = true) (Split s sep).
Proof.
  induction s as [|c s IH]; simpl; [by repeat constructor|].
  destruct (Split s sep) as [|w ws]; [by repeat constructor|].
  inversion IH; subst. case_decide as Hc; constructor; simpl; auto.
  rewrite bool_decide_eq_false_2 by congruence. done.
Qed.

Lemma Split_app_sep s t sep :
  lacks sep s = true → Split (s +:+ String sep t) sep = s :: Split t sep.
Proof.
  induction s as [|c s IH].
  - intros _. rewrite sapp_nil_l. simpl. pose proof (Split_nonempty t sep).
    destruct (Split t sep); [done|]. by rewrite decide_True.
  - rewrite sapp_cons. simpl. intros [Hc Hs]%andb_true_iff. rewrite (IH Hs).
    rewrite decide_False; [done|]. apply negb_true_iff, bool_decide_eq_false in Hc. congruence.
Qed.

Lemma Split_no_sep s sep : lacks sep s = true → Split s sep = [s].
Proof.
  induction s as [|c s IH]; [done|]. simpl. intros [Hc Hs]%andb_true_iff.
  rewrite (IH Hs), decide_False; [done|].
  apply negb_true_iff, bool_decide_eq_false in Hc. congruence.
Qed.

Lemma Split_short s sep : Split s sep !! 1 = None → lacks sep s = true.
Proof.
  intros H. pose proof (Join_Split s sep) as HJ. pose proof (Split_lacks s sep) as Hl.
  destruct (Split s sep) as [|w [|w' ws]] eqn:E; [by destruct (Split_nonempty s sep)| |done].
  simpl in HJ. subst w. by inversion Hl.
Qed.

Lemma Split_Join ws sep : ws ≠ [] → Forall (λ w, lacks sep w = true) ws → Split (Join ws sep) sep = ws.
Proof.
  intros Hne Hws. induction Hws as [|w ws Hw Hws IH]; [done|].
  destruct ws as [|w' ws]; [by apply Split_no_sep|].
  change (Join (w :: w' :: ws) sep) with (w +:+ String sep (Join (w' :: ws) sep)).
  rewrite Split_app_sep by done. by rewrite IH.
Qed.
