(* ===== verification/GoEncoding.v ===== *)
(** * Encodings of Go's standard library

    [encoding/base64] (standard alphabet, padded), the escaping of [html/template] in the
    text context, [net.ParseIP] of dotted addresses and [net.JoinHostPort]. *)
From Stdlib Require Import Ascii.
From stdpp Require Import base list strings pretty.
From S2P Require Import Prelude GoStrings.

(** ** Base64 *)

Definition base64_alphabet : string := "ABCDEFGHIJKLMNOPQRSTUVWXYZabcdefghijklmnopqrstuvwxyz0123456789+/".
Definition base64_digit (n : nat) : ascii :=
  default "="%char (String.get n base64_alphabet).
Definition base64_group (a b c : nat) : list ascii :=
  [base64_digit (a / 4); base64_digit (a mod 4 * 16 + b / 16);
   base64_digit (b mod 16 * 4 + c / 64); base64_digit (c mod 64)].

Fixpoint base64 (l : list ascii) : list ascii :=
  match l with
  | [] => []
  | [a] => take 2 (base64_group (nat_of_ascii a) 0 0) ++ ["="%char; "="%char]
  | [a; b] => take 3 (base64_group (nat_of_ascii a) (nat_of_ascii b) 0) ++ ["="%char]
  | a :: b :: c :: l => base64_group (nat_of_ascii a) (nat_of_ascii b) (nat_of_ascii c) ++ base64 l
  end.

Definition base64_string (s : string) : string :=
  String.string_of_list_ascii (base64 (String.list_ascii_of_string s)).

(** Decoding, as the specification. *)
Fixpoint index_of (c : ascii) (s : string) : option nat :=
  match s with
  | EmptyString => None
  | String d s => if decide (c = d) then Some 0 else S <$> index_of c s
  end.
Definition base64_value (c : ascii) : option nat := index_of c base64_alphabet.

Definition base64_bytes (d1 d2 d3 d4 : nat) : list ascii :=
  [ascii_of_nat (d1 * 4 + d2 / 16); ascii_of_nat (d2 mod 16 * 16 + d3 / 4); ascii_of_nat (d3 mod 4 * 64 + d4)].

Fixpoint base64_decode (l : list ascii) : option (list ascii) :=
  match l with
  | [] => Some []
  | c1 :: c2 :: c3 :: c4 :: l =>
      d1 ← base64_value c1; d2 ← base64_value c2;
      match base64_value c3, base64_value c4, l with
      | Some d3, Some d4, _ => (app (base64_bytes d1 d2 d3 d4)) <$> base64_decode l
      | Some d3, None, [] => if decide (c4 = "="%char) then Some (take 2 (base64_bytes d1 d2 d3 0)) else None
      | None, None, [] => if decide (c3 = "="%char ∧ c4 = "="%char) then Some (take 1 (base64_bytes d1 d2 0 0)) else None
      | _, _, _ => None
      end
  | _ => None
  end.

Lemma base64_digits_ok :
  Forall (λ n, base64_value (base64_digit n) = Some n ∧ (base64_digit n = "+"%char → n = 62)) (seq 0 64).
Proof. computed. Qed.

Lemma base64_value_digit n : n < 64 → base64_value (base64_digit n) = Some n.
Proof. intros Hn. pose proof base64_digits_ok as H. rewrite list.Forall_forall in H. apply H, elem_of_seq. lia. Qed.

Lemma base64_digit_plus n : n < 64 → base64_digit n = "+"%char → n = 62.
Proof. intros Hn. pose proof base64_digits_ok as H. rewrite list.Forall_forall in H. apply H, elem_of_seq. lia. Qed.

(** Bytes in threes, as the encoding takes them. *)
Lemma list_three_ind {A} (P : list A → Prop) :
  P [] → (∀ a, P [a]) → (∀ a b, P [a; b]) → (∀ a b c l, P l → P (a :: b :: c :: l)) → ∀ l, P l.
Proof.
  intros H0 H1 H2 H3. fix IH 1. intros [|a [|b [|c l]]]; [done|apply H1|apply H2|]. apply H3, IH.
Qed.

(** The digits of a two-digit number. *)
Lemma two_digits n x y : y < n → (x * n + y) / n = x ∧ (x * n + y) mod n = y.
Proof.
  intros Hy. rewrite Nat.div_add_l, Nat.div_small by lia. split; [lia|].
  rewrite (Nat.add_comm (x * n)), Nat.Div0.mod_add. by apply Nat.mod_small.
Qed.

Lemma base64_group_decode a b c :
  a < 256 → b < 256 → c < 256 →
  a / 4 < 64 ∧ a mod 4 * 16 + b / 16 < 64 ∧ b mod 16 * 4 + c / 64 < 64 ∧ c mod 64 < 64 ∧
  a / 4 * 4 + (a mod 4 * 16 + b / 16) / 16 = a ∧
  (a mod 4 * 16 + b / 16) mod 16 * 16 + (b mod 16 * 4 + c / 64) / 4 = b ∧
  (b mod 16 * 4 + c / 64) mod 4 * 64 + c mod 64 = c.
Proof.
  intros Ha Hb Hc.
  pose proof (Nat.div_mod_eq a 4). pose proof (Nat.div_mod_eq b 16). pose proof (Nat.div_mod_eq c 64).
  pose proof (Nat.mod_upper_bound a 4 ltac:(done)). pose proof (Nat.mod_upper_bound b 16 ltac:(done)).
  pose proof (Nat.mod_upper_bound c 64 ltac:(done)).
  destruct (two_digits 16 (a mod 4) (b / 16)) as [-> ->]; [lia|].
  destruct (two_digits 4 (b mod 16) (c / 64)) as [-> ->]; [lia|]. lia.
Qed.

Lemma base64_round_trip l : base64_decode (base64 l) = Some l.
Proof.
  induction l as [|a|a b|a b c l IH] using list_three_ind; [done|..].
  - pose proof (nat_ascii_bounded a). destruct (base64_group_decode (nat_of_ascii a) 0 0) as (? & ? & _ & _ & E & _); [lia..|].
    cbn [base64 base64_group take app base64_decode]. rewrite !base64_value_digit by done. cbn -[Nat.div Nat.modulo Nat.mul Nat.add].
    by rewrite E, ascii_nat_embedding.
  - pose proof (nat_ascii_bounded a). pose proof (nat_ascii_bounded b).
    destruct (base64_group_decode (nat_of_ascii a) (nat_of_ascii b) 0) as (? & ? & ? & _ & E1 & E2 & _); [lia..|].
    cbn [base64 base64_group take app base64_decode]. rewrite !base64_value_digit by done. cbn -[Nat.div Nat.modulo Nat.mul Nat.add].
    by rewrite E1, E2, !ascii_nat_embedding.
  - pose proof (nat_ascii_bounded a). pose proof (nat_ascii_bounded b). pose proof (nat_ascii_bounded c).
    destruct (base64_group_decode (nat_of_ascii a) (nat_of_ascii b) (nat_of_ascii c)) as (? & ? & ? & ? & E1 & E2 & E3); [lia..|].
    cbn [base64 base64_group app base64_decode]. rewrite !base64_value_digit by done. cbn [mbind option_bind].
    rewrite IH. unfold base64_bytes. cbn [fmap option_fmap option_map app]. by rewrite E1, E2, E3, !ascii_nat_embedding.
Qed.

(** The encoding consists of digits and padding. *)
Lemma base64_all (P : ascii → Prop) l : (∀ n, n < 64 → P (base64_digit n)) → P "="%char → Forall P (base64 l).
Proof.
  intros HP Heq. assert (∀ a b c, a < 256 → b < 256 → c < 256 → Forall P (base64_group a b c)) as Hg.
  { intros a b c Ha Hb Hc. destruct (base64_group_decode a b c) as (? & ? & ? & ? & _); [done..|].
    repeat constructor; by apply HP. }
  induction l as [|a|a b|a b c l IH] using list_three_ind; [constructor|..].
  - apply Forall_app_2; [|by repeat constructor]. apply list.Forall_take, Hg; [apply nat_ascii_bounded|lia|lia].
  - apply Forall_app_2; [|by repeat constructor]. apply list.Forall_take, Hg; [apply nat_ascii_bounded..|lia].
  - apply Forall_app_2; [|done]. apply Hg; apply nat_ascii_bounded.
Qed.

(** Of a text in ASCII, only the bytes of > and ~ put a plus sign into the encoding. *)
Definition plus_free (c : ascii) : bool :=
  is_ascii_byte c && negb (bool_decide (c = ">"%char)) && negb (bool_decide (c = "~"%char)).

Lemma plus_free_spec c : plus_free c = true → nat_of_ascii c < 128 ∧ nat_of_ascii c ≠ 62 ∧ nat_of_ascii c ≠ 126.
Proof.
  unfold plus_free, is_ascii_byte. rewrite !andb_true_iff, !negb_true_iff, !bool_decide_eq_false, N.ltb_lt.
  intros [[Hc H1] H2]. unfold nat_of_ascii. split; [lia|].
  split; intros E; [apply H1|apply H2]; rewrite <- (ascii_nat_embedding c); unfold nat_of_ascii; by rewrite E.
Qed.

Lemma base64_group_plus_free a b c :
  a < 128 → b < 128 → c < 128 → c ≠ 62 → c ≠ 126 → Forall (λ d, d ≠ "+"%char) (base64_group a b c).
Proof.
  intros Ha Hb Hc H1 H2.
  pose proof (Nat.div_mod_eq a 4). pose proof (Nat.div_mod_eq b 16). pose proof (Nat.div_mod_eq c 64).
  pose proof (Nat.mod_upper_bound a 4 ltac:(done)). pose proof (Nat.mod_upper_bound b 16 ltac:(done)).
  pose proof (Nat.mod_upper_bound c 64 ltac:(done)).
  repeat constructor; (intros E%base64_digit_plus; lia).
Qed.

Lemma base64_plus_free l : Forall (λ c, plus_free c = true) l → Forall (λ d, d ≠ "+"%char) (base64 l).
Proof.
  induction l as [|a|a b|a b c l IH] using list_three_ind; intros Hl; [done|..].
  - inversion_clear Hl as [|? ? Ha _]. apply plus_free_spec in Ha as (? & ? & ?).
    apply Forall_app_2; [|by repeat constructor]. apply list.Forall_take, base64_group_plus_free; lia.
  - inversion_clear Hl as [|? ? Ha Hl']. inversion_clear Hl' as [|? ? Hb _].
    apply plus_free_spec in Ha as (? & ? & ?). apply plus_free_spec in Hb as (? & ? & ?).
    apply Forall_app_2; [|by repeat constructor]. apply list.Forall_take, base64_group_plus_free; lia.
  - inversion_clear Hl as [|? ? Ha Hl1]. inversion_clear Hl1 as [|? ? Hb Hl2]. inversion_clear Hl2 as [|? ? Hc Hl3].
    apply plus_free_spec in Ha as (? & ? & ?). apply plus_free_spec in Hb as (? & ? & ?). apply plus_free_spec in Hc as (? & ? & ?).
    apply Forall_app_2; [|by apply IH]. apply base64_group_plus_free; lia.
Qed.

(** ** [html/template], in the text context *)

Definition html_replacement (c : ascii) : string :=
  let n := nat_of_ascii c in
  if decide (n = 0) then String (ascii_of_nat 239) (String (ascii_of_nat 191) (String (ascii_of_nat 189) ""))
  else if decide (n = 34) then "&#34;"
  else if decide (n = 38) then "&amp;"
  else if decide (n = 39) then "&#39;"
  else if decide (n = 43) then "&#43;"
  else if decide (n = 60) then "&lt;"
  else if decide (n = 62) then "&gt;"
  else String c "".

Fixpoint html_escape (s : string) : string :=
  match s with
  | EmptyString => ""
  | String c s => html_replacement c +:+ html_escape s
  end.

(** Bytes that are not escaped. *)
Definition html_plain (c : ascii) : bool := bool_decide (html_replacement c = String c "").

Lemma html_escape_plain s : all_bytes html_plain s = true → html_escape s = s.
Proof.
  induction s as [|c s IH]; [done|]. simpl. unfold html_plain at 1. rewrite andb_true_iff, bool_decide_eq_true.
  intros [-> Hs]. by rewrite (IH Hs).
Qed.

Lemma html_replacement_long c : html_plain c = false → 1 < String.length (html_replacement c).
Proof.
  unfold html_plain. rewrite bool_decide_eq_false. unfold html_replacement.
  repeat (case_decide; [simpl; lia|]). done.
Qed.

Lemma html_replacement_nonempty c : 1 ≤ String.length (html_replacement c).
Proof. unfold html_replacement. repeat (case_decide; [simpl; lia|]). simpl. lia. Qed.

Lemma html_escape_length s : String.length s ≤ String.length (html_escape s).
Proof.
  induction s as [|c s IH]; simpl; [lia|]. rewrite slen_app. pose proof (html_replacement_nonempty c). lia.
Qed.

(** A text survives the template exactly when none of its bytes is escaped. *)
Lemma html_escape_exact s : html_escape s = s ↔ all_bytes html_plain s = true.
Proof.
  split; [|apply html_escape_plain]. induction s as [|c s IH]; [done|]. simpl. intros E.
  destruct (html_plain c) eqn:Hc.
  - apply bool_decide_eq_true in Hc. rewrite Hc in E. injection E as E. by apply IH.
  - exfalso. apply html_replacement_long in Hc. apply (f_equal String.length) in E. simpl in E.
    rewrite slen_app in E. pose proof (html_escape_length s). lia.
Qed.

Lemma all_bytes_Forall (p : ascii → bool) l :
  Forall (λ c, p c = true) l → all_bytes p (String.string_of_list_ascii l) = true.
Proof. induction 1 as [|c l Hc _ IH]; simpl; [done|]. by rewrite Hc, IH. Qed.

Lemma Forall_all_bytes (p : ascii → bool) s :
  all_bytes p s = true → Forall (λ c, p c = true) (String.list_ascii_of_string s).
Proof. induction s as [|c s IH]; simpl; [constructor|]. intros [? ?]%andb_true_iff. constructor; auto. Qed.

(** A certificate in ASCII without > and ~, as PEM is, passes the template unchanged. *)
Lemma base64_string_plain s : all_bytes plus_free s = true → all_bytes html_plain (base64_string s) = true.
Proof.
  intros Hs%Forall_all_bytes%base64_plus_free. apply all_bytes_Forall.
  assert (Forall (λ c, c = "+"%char ∨ html_plain c = true) (base64 (String.list_ascii_of_string s))) as Hd.
  { apply base64_all; [|by right].
    assert (Forall (λ n, base64_digit n = "+"%char ∨ html_plain (base64_digit n) = true) (seq 0 64)) as Hall by computed.
    intros n Hn. rewrite list.Forall_forall in Hall. apply Hall, elem_of_seq. lia. }
  rewrite list.Forall_forall in Hs, Hd |- *. intros c Hc. specialize (Hs c Hc). by destruct (Hd c Hc).
Qed.

Lemma base64_string_lacks c s :
  c ≠ "="%char → Forall (λ n, base64_digit n ≠ c) (seq 0 64) → lacks c (base64_string s) = true.
Proof.
  intros Hc Hd. unfold base64_string. assert (Forall (λ d, d ≠ c) (base64 (String.list_ascii_of_string s))) as H.
  { apply base64_all; [|done]. intros n Hn. rewrite list.Forall_forall in Hd. apply Hd, elem_of_seq. lia. }
  induction H as [|d l Hd' _ IH]; simpl; [done|]. by rewrite bool_decide_false, IH.
Qed.

Lemma base64_string_decode s :
  base64_decode (String.list_ascii_of_string (base64_string s)) = Some (String.list_ascii_of_string s).
Proof.
  unfold base64_string. rewrite String.list_ascii_of_string_of_list_ascii. apply base64_round_trip.
Qed.

(** ** [net] *)

(** [net.ParseIP] then [String] of an address with colons. *)
Class IPv6 := ipv6_text : string → option string.

(** One field of a dotted address: no leading zeros, at most 255. *)
Definition parse_octet (s : string) : option Z :=
  match s with
  | EmptyString => None
  | String c t =>
      if decide (c = "0"%char ∧ t ≠ "") then None
      else z ← parse_digits 0 s; if decide (z ≤ 255)%Z then Some z else None
  end.
Definition parse_ipv4 (s : string) : option (list Z) :=
  match Split s "." with
  | [a; b; c; d] => a ← parse_octet a; b ← parse_octet b; c ← parse_octet c; d ← parse_octet d; Some [a; b; c; d]
  | _ => None
  end.
(** The first of the two bytes decides. *)
Fixpoint ip_family (s : string) : option ascii :=
  match s with
  | EmptyString => None
  | String c s => if decide (c = "."%char ∨ c = ":"%char) then Some c else ip_family s
  end.

(** The text of the parsed address, [None] for nil. *)
Definition ParseIP `{IPv6} (s : string) : option string :=
  match ip_family s with
  | None => None
  | Some c =>
      if decide (c = "."%char) then (λ l, Join (pretty <$> l) ".") <$> parse_ipv4 s
      else ipv6_text s
  end.

Definition JoinHostPort (host port : string) : string :=
  if Contains host ":" then "[" +:+ host +:+ "]:" +:+ port else host +:+ ":" +:+ port.
