(* ===== verification/GoFlag.v ===== *)
(** * The parts of Go's [flag], [strconv] and [path/filepath] packages the commands use

    [flag.Parse] over the definitions of [flag.StringVar], [flag.BoolVar] and
    [flag.Var]: [-x], [--x], [-x=v] and [-x v], the terminator [--], and the exits of
    [flag.ExitOnError].  A definition is a function that puts the value into the options.
    The main lemma is that arguments of the form [--name=value] are the assignments
    they look like, in order. *)
From Stdlib Require Import Ascii.
From stdpp Require Import base list strings.
From S2P Require Import Prelude GoStrings.

(** ** Booleans *)

Definition ParseBool (s : string) : option bool :=
  if decide (s ∈ ["1"; "t"; "T"; "true"; "TRUE"; "True"]) then Some true
  else if decide (s ∈ ["0"; "f"; "F"; "false"; "FALSE"; "False"]) then Some false
  else None.
Definition FormatBool (b : bool) : string := if b then "true" else "false".

Lemma ParseBool_FormatBool b : ParseBool (FormatBool b) = Some b.
Proof. by destruct b. Qed.

(** ** Paths *)

Definition dotdot : string := "..".

(** The elements of a path that [Clean] keeps; [out] is reversed. *)
Fixpoint clean_elements (rooted : bool) (out ws : list string) : list string :=
  match ws with
  | [] => reverse out
  | w :: ws =>
      if decide (w = "" ∨ w = ".") then clean_elements rooted out ws
      else if decide (w = dotdot) then
        match out with
        | x :: out' =>
            if decide (x = dotdot) then clean_elements rooted (w :: out) ws else clean_elements rooted out' ws
        | [] => if rooted then clean_elements rooted [] ws else clean_elements rooted [w] ws
        end
      else clean_elements rooted (w :: out) ws
  end.
Definition Clean (path : string) : string :=
  let rooted := HasPrefix path "/" in
  let cleaned := (if rooted then "/" else "") +:+ Join (clean_elements rooted [] (Split path "/")) "/" in
  if decide (cleaned = "") then "." else cleaned.

(** [filepath.Join] leaves empty elements out. *)
Definition filepath_join (elem : list string) : string :=
  match filter (λ w, w ≠ "") elem with
  | [] => ""
  | ws => Clean (Join ws "/")
  end.

(** ** Definitions of flags *)

Section flags.
Context {O : Type}.

Inductive flag_var :=
  | BoolVar (set : bool → O → O)
  | StringVar (set : string → O → O)
  | Var (set : string → O → option O).

(** The value of a definition is set; [None] when it is refused. *)
Definition set_flag (f : flag_var) (v : string) (o : O) : option O :=
  match f with
  | BoolVar set => (λ b, set b o) <$> ParseBool v
  | StringVar set => Some (set v o)
  | Var set => set v o
  end.

Fixpoint lookup_flag (formal : list (string * flag_var)) (n : string) : option flag_var :=
  match formal with
  | [] => None
  | (m, f) :: formal => if decide (m = n) then Some f else lookup_flag formal n
  end.

(** ** Arguments *)

(** What one argument is. *)
Inductive argument :=
  | NotFlag
  | Terminator
  | BadSyntax
  | Flag (n : string) (value : option string).

Fixpoint cut_equals (s : string) : string * option string :=
  match s with
  | EmptyString => ("", None)
  | String c s =>
      if decide (c = "="%char) then ("", Some s)
      else let '(n, v) := cut_equals s in (String c n, v)
  end.

Definition flag_name (s : string) : argument :=
  match s with
  | EmptyString => BadSyntax
  | String c _ =>
      if decide (c = "-"%char ∨ c = "="%char) then BadSyntax
      else let '(n, v) := cut_equals s in Flag n v
  end.

Definition read_argument (s : string) : argument :=
  match s with
  | String c (String d s) =>
      if decide (c = "-"%char) then
        if decide (d = "-"%char) then
          if decide (s = "") then Terminator else flag_name s
        else flag_name (String d s)
      else NotFlag
  | _ => NotFlag
  end.

(** ** Parsing *)

(** The options and the arguments that are left, or the code of [os.Exit]. *)
Inductive parsed :=
  | Parsed (o : O) (rest : list string)
  | Exit (code : Z).

Fixpoint parse (formal : list (string * flag_var)) (args : list string) (o : O) : parsed :=
  match args with
  | [] => Parsed o []
  | s :: rest =>
      match read_argument s with
      | NotFlag => Parsed o (s :: rest)
      | Terminator => Parsed o rest
      | BadSyntax => Exit 2
      | Flag n value =>
          match lookup_flag formal n with
          | None => if decide (n = "help" ∨ n = "h") then Exit 0 else Exit 2
          | Some (BoolVar _ as f) =>
              match set_flag f (default "true" value) o with
              | Some o => parse formal rest o
              | None => Exit 2
              end
          | Some f =>
              match value, rest with
              | Some v, _ => match set_flag f v o with Some o => parse formal rest o | None => Exit 2 end
              | None, v :: rest => match set_flag f v o with Some o => parse formal rest o | None => Exit 2 end
              | None, [] => Exit 2
              end
          end
      end
  end.

(** ** Assignments *)

(** [--name=value] *)
Definition assignment (a : string * string) : string := "--" +:+ a.1 +:+ "=" +:+ a.2.

(** A name that can be written in an argument. *)
Definition flag_name_ok (n : string) : bool :=
  lacks "=" n && match n with EmptyString => false | String c _ => negb (bool_decide (c = "-"%char)) end.

Fixpoint assign (formal : list (string * flag_var)) (l : list (string * string)) (o : O) : option O :=
  match l with
  | [] => Some o
  | (n, v) :: l => f ← lookup_flag formal n; o ← set_flag f v o; assign formal l o
  end.

Lemma cut_equals_app n v : lacks "=" n = true → cut_equals (n +:+ "=" +:+ v) = (n, Some v).
Proof.
  induction n as [|c n IH]; simpl; intros Hl; [done|].
  apply andb_true_iff in Hl as [Hc Hn]. rewrite decide_False.
  - change (String.append n (String "=" v)) with (n +:+ "=" +:+ v). by rewrite IH.
  - intros ->. done.
Qed.

Lemma read_assignment n v : flag_name_ok n = true → read_argument (assignment (n, v)) = Flag n (Some v).
Proof.
  unfold flag_name_ok. intros [Hl Hn]%andb_true_iff. destruct n as [|c n]; [done|].
  assert (read_argument (assignment (String c n, v)) = flag_name (String c n +:+ "=" +:+ v)) as -> by done.
  assert (c ≠ "-"%char ∧ c ≠ "="%char) as [H1 H2].
  { split; intros ->; [done|]. by simpl in Hl. }
  unfold flag_name. rewrite cut_equals_app by done. simpl. by rewrite decide_False by (by intros [?|?]).
Qed.

(** One such argument is one assignment. *)
Lemma parse_assignment formal n v f o o' args :
  flag_name_ok n = true → lookup_flag formal n = Some f → set_flag f v o = Some o' →
  parse formal (assignment (n, v) :: args) o = parse formal args o'.
Proof.
  intros Hn Hf Hs. cbn [parse]. rewrite read_assignment, Hf by done.
  destruct f; change (default "true" (Some v)) with v; by rewrite Hs.
Qed.

(** Arguments written as assignments are assigned, and nothing is left; a name that
    is not defined or a value that is refused ends the program. *)
Lemma parse_assignments formal l o :
  Forall (λ a, flag_name_ok a.1 = true) l →
  (∀ o', assign formal l o = Some o' → parse formal (assignment <$> l) o = Parsed o' []) ∧
  (assign formal l o = None → ∃ code, parse formal (assignment <$> l) o = Exit code).
Proof.
  intros Hl. revert o. induction Hl as [|[n v] l Hn _ IH]; intros o; [split; [by intros ? [= <-]|done]|].
  cbn [assign fmap list_fmap parse]. rewrite read_assignment by done.
  destruct (lookup_flag formal n) as [f|]; simpl.
  - destruct f; cbn [default]; destruct (set_flag _ v o) as [o1|]; simpl; try apply IH; (split; [done|by eexists]).
  - split; [done|]. case_decide; by eexists.
Qed.
End flags.
Arguments flag_var : clear implicits.
Arguments parsed : clear implicits.

(** ** Examples *)

Example join_home : filepath_join ["/home/nonroot"; ".kube"; "kubelb"] = "/home/nonroot/.kube/kubelb".
Proof. reflexivity. Qed.
Example join_no_home : filepath_join [""; ".kube"; "kubelb"] = ".kube/kubelb".
Proof. reflexivity. Qed.
Example clean_up : Clean "/a/../../b/./c//" = "/b/c" ∧ Clean "../a/.." = ".." ∧ Clean "" = ".".
Proof. repeat split; reflexivity. Qed.

Section examples.
Let formal : list (string * flag_var (string * bool)) :=
  [("name", StringVar (λ v o, (v, o.2))); ("on", BoolVar (λ b o, (o.1, b)))].

(** A boolean flag does not take the next argument, another one does. *)
Example parse_forms :
  parse formal ["-on"; "--name"; "x"; "--"; "-on"] ("", false) = Parsed ("x", true) ["-on"] ∧
  parse formal ["--on"; "false"; "-name=x"] ("", false) = Parsed ("", true) ["false"; "-name=x"] ∧
  parse formal ["-name"] ("", false) = Exit 2 ∧ parse formal ["--on=maybe"] ("", false) = Exit 2 ∧
  parse formal ["-h"] ("", false) = Exit 0 ∧ parse formal ["-other=1"] ("", false) = Exit 2.
Proof. repeat split; reflexivity. Qed.
End examples.
