(* ===== verification/Api.v ===== *)
(** * The API types

    [Module Core] holds the Kubernetes types the program reads and writes,
    reduced to the fields it uses; a field that is only carried along is an
    [opaque] value.  [Module V1alpha1] holds KubeLB's own resources
    (api/ce/kubelb.k8c.io/v1alpha1), field by field.

    A Go pointer is an [option]; a map is a [gomap] ([None] is the nil map); a
    slice is a list, and a [gslice] where the code distinguishes the nil slice
    from an empty one (by [reflect.DeepEqual]); an [int32], [int64], [uint64] is
    a [Z]. *)
From stdpp Require Import base gmap list strings.
From S2P Require Import Prelude GoStrings.

(** A value the code only copies and compares. *)
Definition opaque : Type := string.

(** A slice whose nil value is distinguished. *)
Definition gslice A : Type := option (list A).
Definition elems {A} (s : gslice A) : list A := default [] s.

Module Core.

Record OwnerReference := {
  or_apiVersion : string; or_kind : string; or_name : string; or_uid : string;
  or_controller : option bool
}.

Record ObjectMeta := {
  name : string;
  namespace : string;
  uid : string;
  resourceVersion : string;
  labels : gomap string;
  annotations : gomap string;
  finalizers : list string;
  deletionTimestamp : option opaque;
  ownerReferences : list OwnerReference
}.

Definition zero_meta : ObjectMeta :=
  {| name := ""; namespace := ""; uid := ""; resourceVersion := ""; labels := None;
     annotations := None; finalizers := []; deletionTimestamp := None;
     ownerReferences := [] |}.

Record TypeMeta := { apiVersion : string; kind : string }.

Record NamespacedName := { nn_namespace : string; nn_name : string }.

Record ObjectReference := { ref_name : string; ref_namespace : string }.

(** [intstr.IntOrString]. *)
Inductive IntOrString :=
  | FromInt (i : Z)
  | FromString (s : string).

(** The [IntVal] field: the zero value when the variant is a string. *)
Definition IntVal (t : IntOrString) : Z :=
  match t with FromInt i => i | FromString _ => 0 end.

(** [IntValue()]: the conversion of a string gives 0 when it does not parse. *)
Definition IntValue (t : IntOrString) : Z :=
  match t with FromInt i => i | FromString s => default 0%Z (Atoi s) end.

Record ServicePort := {
  sp_name : string;
  sp_protocol : string;
  sp_port : Z;
  sp_targetPort : IntOrString;
  sp_nodePort : Z;
  sp_appProtocol : option string
}.

Record ServiceSpec := {
  ss_ports : list ServicePort;
  ss_selector : gomap string;
  ss_type : string;
  ss_clusterIP : string;
  ss_clusterIPs : list string;
  ss_loadBalancerClass : option string;
  ss_ipFamilies : list string;
  ss_ipFamilyPolicy : option string;
  ss_sessionAffinity : string;
  ss_externalTrafficPolicy : string;
  ss_internalTrafficPolicy : option string;
  ss_rest : opaque
}.

Record LoadBalancerIngress := { ing_ip : string; ing_hostname : string; ing_rest : opaque }.

Record Service := {
  svc_type : TypeMeta;
  svc_meta : ObjectMeta;
  svc_spec : ServiceSpec;
  svc_ingress : gslice LoadBalancerIngress;
  svc_conditions : opaque
}.

Definition ProtocolTCP : string := "TCP".
Definition ProtocolUDP : string := "UDP".
Definition ServiceTypeClusterIP : string := "ClusterIP".
Definition ServiceTypeNodePort : string := "NodePort".
Definition ServiceTypeLoadBalancer : string := "LoadBalancer".
Definition ClusterIPNone : string := "None".
Definition LastAppliedConfigAnnotation : string :=
  "kubectl.kubernetes.io/last-applied-configuration".

(** [unstructured.Unstructured]: the accessors the code uses. *)
Record Unstructured := { u_type : TypeMeta; u_meta : ObjectMeta; u_spec : opaque }.

#[export] Instance OwnerReference_eq_dec : EqDecision OwnerReference.
Proof. solve_decision. Defined.
#[export] Instance ObjectMeta_eq_dec : EqDecision ObjectMeta.
Proof. solve_decision. Defined.
#[export] Instance TypeMeta_eq_dec : EqDecision TypeMeta.
Proof. solve_decision. Defined.
#[export] Instance NamespacedName_eq_dec : EqDecision NamespacedName.
Proof. solve_decision. Defined.
#[export] Instance ObjectReference_eq_dec : EqDecision ObjectReference.
Proof. solve_decision. Defined.
#[export] Instance IntOrString_eq_dec : EqDecision IntOrString.
Proof. solve_decision. Defined.
#[export] Instance ServicePort_eq_dec : EqDecision ServicePort.
Proof. solve_decision. Defined.
#[export] Instance ServiceSpec_eq_dec : EqDecision ServiceSpec.
Proof. solve_decision. Defined.
#[export] Instance LoadBalancerIngress_eq_dec : EqDecision LoadBalancerIngress.
Proof. solve_decision. Defined.
#[export] Instance Service_eq_dec : EqDecision Service.
Proof. solve_decision. Defined.
#[export] Instance Unstructured_eq_dec : EqDecision Unstructured.
Proof. solve_decision. Defined.

(** Field updates. *)
Definition with_finalizers (fs : list string) (m : ObjectMeta) : ObjectMeta :=
  {| name := name m; namespace := namespace m; uid := uid m;
     resourceVersion := resourceVersion m; labels := labels m;
     annotations := annotations m; finalizers := fs;
     deletionTimestamp := deletionTimestamp m; ownerReferences := ownerReferences m |}.
Definition with_annotations (a : gomap string) (m : ObjectMeta) : ObjectMeta :=
  {| name := name m; namespace := namespace m; uid := uid m;
     resourceVersion := resourceVersion m; labels := labels m;
     annotations := a; finalizers := finalizers m;
     deletionTimestamp := deletionTimestamp m; ownerReferences := ownerReferences m |}.
Definition with_labels (l : gomap string) (m : ObjectMeta) : ObjectMeta :=
  {| name := name m; namespace := namespace m; uid := uid m;
     resourceVersion := resourceVersion m; labels := l;
     annotations := annotations m; finalizers := finalizers m;
     deletionTimestamp := deletionTimestamp m; ownerReferences := ownerReferences m |}.
(** [Name], [Namespace] and [UID]. *)
Definition with_identity (n ns u : string) (m : ObjectMeta) : ObjectMeta :=
  {| name := n; namespace := ns; uid := u;
     resourceVersion := resourceVersion m; labels := labels m;
     annotations := annotations m; finalizers := finalizers m;
     deletionTimestamp := deletionTimestamp m; ownerReferences := ownerReferences m |}.
(** [ResourceVersion] and [UID], copied from an existing object before an update. *)
Definition with_version (rv u : string) (m : ObjectMeta) : ObjectMeta :=
  {| name := name m; namespace := namespace m; uid := u;
     resourceVersion := rv; labels := labels m;
     annotations := annotations m; finalizers := finalizers m;
     deletionTimestamp := deletionTimestamp m; ownerReferences := ownerReferences m |}.
Definition with_owners (o : list OwnerReference) (m : ObjectMeta) : ObjectMeta :=
  {| name := name m; namespace := namespace m; uid := uid m;
     resourceVersion := resourceVersion m; labels := labels m;
     annotations := annotations m; finalizers := finalizers m;
     deletionTimestamp := deletionTimestamp m; ownerReferences := o |}.
Definition with_ports (ps : list ServicePort) (s : ServiceSpec) : ServiceSpec :=
  {| ss_ports := ps; ss_selector := ss_selector s; ss_type := ss_type s;
     ss_clusterIP := ss_clusterIP s; ss_clusterIPs := ss_clusterIPs s;
     ss_loadBalancerClass := ss_loadBalancerClass s; ss_ipFamilies := ss_ipFamilies s;
     ss_ipFamilyPolicy := ss_ipFamilyPolicy s; ss_sessionAffinity := ss_sessionAffinity s;
     ss_externalTrafficPolicy := ss_externalTrafficPolicy s;
     ss_internalTrafficPolicy := ss_internalTrafficPolicy s; ss_rest := ss_rest s |}.

Definition zero_spec : ServiceSpec :=
  {| ss_ports := []; ss_selector := None; ss_type := ""; ss_clusterIP := "";
     ss_clusterIPs := []; ss_loadBalancerClass := None; ss_ipFamilies := [];
     ss_ipFamilyPolicy := None; ss_sessionAffinity := ""; ss_externalTrafficPolicy := "";
     ss_internalTrafficPolicy := None; ss_rest := "" |}.

Definition zero_service : Service :=
  {| svc_type := {| apiVersion := ""; kind := "" |}; svc_meta := zero_meta;
     svc_spec := zero_spec; svc_ingress := None; svc_conditions := "" |}.

End Core.

Module V1alpha1.
Import Core.

(** ** common_types.go *)

Definition DefaultAddressName : string := "default".

Record EndpointAddress := { ea_ip : string; ea_hostname : string }.

Record EndpointPort := { ep_name : string; ep_port : Z; ep_protocol : string }.

Record LoadBalancerEndpoints := {
  le_name : string;
  le_addresses : list EndpointAddress;
  le_addressesReference : option ObjectReference;
  le_ports : list EndpointPort
}.

Inductive AnnotatedResource :=
  | ResourceAll | ResourceService | ResourceIngress | ResourceGateway
  | ResourceHTTPRoute | ResourceGRPCRoute | ResourceTCPRoute | ResourceUDPRoute
  | ResourceTLSRoute.

#[export] Instance AnnotatedResource_eq_dec : EqDecision AnnotatedResource.
Proof. solve_decision. Defined.

(** [DefaultAnnotations] is a [map[AnnotatedResource]Annotations]: a partial
    function from the nine enumerated keys, nil when the field is unset. *)
Record AnnotationSettings := {
  propagatedAnnotations : option (gmap string string);
  propagateAllAnnotations : option bool;
  defaultAnnotations : option (AnnotatedResource → option (gmap string string))
}.

(** ** loadbalancer_types.go *)

Record LoadBalancerPort := { lp_name : string; lp_protocol : string; lp_port : Z }.

Record LoadBalancerSpec := {
  ls_endpoints : list LoadBalancerEndpoints;
  ls_ports : list LoadBalancerPort;
  ls_hostname : string;
  ls_type : string
}.

Record HostnameStatus := {
  hs_hostname : string; hs_tlsEnabled : bool; hs_dnsRecordCreated : bool
}.

(** [ServicePort]: the core port with the port of the upstream endpoint. *)
Record UpstreamServicePort := { usp_port : ServicePort; upstreamTargetPort : Z }.

Record LoadBalancerStatus := {
  lst_ingress : gslice LoadBalancerIngress;
  lst_ports : gslice UpstreamServicePort;
  lst_hostname : option HostnameStatus
}.

Record LoadBalancer := {
  lb_meta : ObjectMeta; lb_spec : LoadBalancerSpec; lb_status : LoadBalancerStatus
}.

(** ** addresses_types.go *)

Record Addresses := { ad_meta : ObjectMeta; ad_addresses : list EndpointAddress }.

(** ** route_types.go *)

Record Condition := {
  cond_type : string; cond_reason : string; cond_status : bool; cond_message : string;
  cond_lastTransitionTime : Z
}.

Record ResourceState := {
  rs_apiVersion : string; rs_kind : string; rs_name : string; rs_namespace : string;
  rs_generatedName : string; rs_status : opaque; rs_conditions : list Condition
}.

Record RouteServiceStatus := { rss_state : ResourceState; rss_ports : list ServicePort }.

Record RouteResourcesStatus := {
  rrs_source : string;
  rrs_services : gomap RouteServiceStatus;
  rrs_route : ResourceState
}.

Record KubernetesSource := { ks_route : Unstructured; ks_services : list Service }.

Record RouteSpec := {
  rsp_endpoints : list LoadBalancerEndpoints;
  rsp_kubernetes : option KubernetesSource
}.

Record Route := {
  rt_type : TypeMeta; rt_meta : ObjectMeta; rt_spec : RouteSpec;
  rt_status : RouteResourcesStatus
}.

(** An [UpstreamService] embeds a [corev1.Service] and nothing else, so the
    conversion keeps the services in order. *)
Definition ConvertServicesToUpstreamServices (services : list Service) : list Service :=
  foldl (λ acc service, acc ++ [service]) [] services.

(** ** tenant_types.go *)

Record CertificatesSettings := { defaultClusterIssuer : option string }.

Record DNSSettings := {
  wildcardDomain : option string;
  allowExplicitHostnames : option bool;
  useDNSAnnotations : option bool;
  useCertificateAnnotations : option bool
}.

Record LoadBalancerSettings := { lbs_class : option string; lbs_disable : bool }.
Record IngressSettings := { is_class : option string; is_disable : bool }.
Record GatewayAPISettings := {
  ga_class : option string; ga_defaultGateway : option ObjectReference; ga_disable : bool
}.

Record TenantSpec := {
  ts_annotations : AnnotationSettings;
  ts_loadBalancer : LoadBalancerSettings;
  ts_ingress : IngressSettings;
  ts_gatewayAPI : GatewayAPISettings;
  ts_dns : DNSSettings;
  ts_certificates : CertificatesSettings
}.

Record Tenant := { tn_type : TypeMeta; tn_meta : ObjectMeta; tn_spec : TenantSpec }.

(** ** config_types.go *)

Definition EnvoyProxyTopologyShared : string := "shared".
Definition EnvoyProxyTopologyDedicated : string := "dedicated".
Definition EnvoyProxyTopologyGlobal : string := "global".

Record ConfigDNSSettings := {
  cd_wildcardDomain : string;
  cd_allowExplicitHostnames : bool;
  cd_useDNSAnnotations : bool;
  cd_useCertificateAnnotations : bool
}.

Record EnvoyProxyOverloadManager := {
  om_enabled : bool; om_maxActiveDownstreamConnections : Z; om_maxHeapSizeBytes : Z
}.

(** Durations in nanoseconds. *)
Record EnvoyProxyGracefulShutdown := {
  gs_disabled : bool;
  gs_drainTimeout : option Z;
  gs_minDrainDuration : option Z;
  gs_terminationGracePeriodSeconds : option Z;
  gs_shutdownManagerImage : string
}.

Record EnvoyProxy := {
  ep_topology : string;
  ep_useDaemonset : bool;
  ep_replicas : Z;
  ep_singlePodPerNode : bool;
  ep_nodeSelector : gomap string;
  ep_tolerations : list opaque;
  ep_resources : option opaque;
  ep_affinity : option opaque;
  ep_image : string;
  ep_gracefulShutdown : option EnvoyProxyGracefulShutdown;
  ep_overloadManager : option EnvoyProxyOverloadManager
}.

Record ConfigSpec := {
  cs_annotations : AnnotationSettings;
  cs_envoyProxy : EnvoyProxy;
  cs_loadBalancer : LoadBalancerSettings;
  cs_ingress : IngressSettings;
  cs_gatewayAPI : GatewayAPISettings;
  cs_dns : ConfigDNSSettings;
  cs_certificates : CertificatesSettings
}.

Record Config := { cf_meta : ObjectMeta; cf_spec : ConfigSpec }.

Definition IsGlobalTopology (c : Config) : bool :=
  bool_decide (ep_topology (cs_envoyProxy (cf_spec c)) = EnvoyProxyTopologyGlobal).

(** ** sync_secret_types.go *)

(** [Data] is a [map[string][]byte], with the bytes as a string. *)
Record SyncSecret := {
  syn_type : TypeMeta; syn_meta : ObjectMeta; syn_immutable : option bool;
  syn_data : gomap string; syn_stringData : gomap string; syn_secretType : string
}.

(** ** tenant_state_types.go *)

Record Version := { v_gitVersion : string; v_gitCommit : string; v_buildDate : string; v_edition : string }.
Record LoadBalancerState := { lbst_disable : bool }.
Record TenantStateStatus := {
  tss_version : Version; tss_lastUpdated : Z; tss_conditions : list Condition;
  tss_loadBalancer : LoadBalancerState
}.
Record TenantState := { tst_meta : ObjectMeta; tst_status : TenantStateStatus }.

(** ** Decidable equality, for [reflect.DeepEqual] and [==] *)

#[export] Instance EndpointAddress_eq_dec : EqDecision EndpointAddress.
Proof. solve_decision. Defined.
#[export] Instance EndpointPort_eq_dec : EqDecision EndpointPort.
Proof. solve_decision. Defined.
#[export] Instance LoadBalancerEndpoints_eq_dec : EqDecision LoadBalancerEndpoints.
Proof. solve_decision. Defined.
#[export] Instance LoadBalancerPort_eq_dec : EqDecision LoadBalancerPort.
Proof. solve_decision. Defined.
#[export] Instance LoadBalancerSpec_eq_dec : EqDecision LoadBalancerSpec.
Proof. solve_decision. Defined.
#[export] Instance HostnameStatus_eq_dec : EqDecision HostnameStatus.
Proof. solve_decision. Defined.
#[export] Instance UpstreamServicePort_eq_dec : EqDecision UpstreamServicePort.
Proof. solve_decision. Defined.
#[export] Instance LoadBalancerStatus_eq_dec : EqDecision LoadBalancerStatus.
Proof. solve_decision. Defined.
#[export] Instance LoadBalancer_eq_dec : EqDecision LoadBalancer.
Proof. solve_decision. Defined.
#[export] Instance Condition_eq_dec : EqDecision Condition.
Proof. solve_decision. Defined.
#[export] Instance ResourceState_eq_dec : EqDecision ResourceState.
Proof. solve_decision. Defined.
#[export] Instance RouteServiceStatus_eq_dec : EqDecision RouteServiceStatus.
Proof. solve_decision. Defined.
#[export] Instance RouteResourcesStatus_eq_dec : EqDecision RouteResourcesStatus.
Proof. solve_decision. Defined.
#[export] Instance KubernetesSource_eq_dec : EqDecision KubernetesSource.
Proof. solve_decision. Defined.
#[export] Instance RouteSpec_eq_dec : EqDecision RouteSpec.
Proof. solve_decision. Defined.
#[export] Instance SyncSecret_eq_dec : EqDecision SyncSecret.
Proof. solve_decision. Defined.
#[export] Instance Version_eq_dec : EqDecision Version.
Proof. solve_decision. Defined.
#[export] Instance LoadBalancerState_eq_dec : EqDecision LoadBalancerState.
Proof. solve_decision. Defined.
#[export] Instance TenantStateStatus_eq_dec : EqDecision TenantStateStatus.
Proof. solve_decision. Defined.
#[export] Instance EnvoyProxyOverloadManager_eq_dec : EqDecision EnvoyProxyOverloadManager.
Proof. solve_decision. Defined.
#[export] Instance EnvoyProxyGracefulShutdown_eq_dec : EqDecision EnvoyProxyGracefulShutdown.
Proof. solve_decision. Defined.
#[export] Instance EnvoyProxy_eq_dec : EqDecision EnvoyProxy.
Proof. solve_decision. Defined.

End V1alpha1.
