(* ===== verification/Names.v ===== *)
(** * Names, labels and lookup keys (internal/kubelb/utils.go)

    The labels KubeLB puts on the objects it owns, the [fmt.Sprintf] patterns
    from which the port table and the Envoy snapshot build their keys, the
    generated object names, and what makes those keys unambiguous. *)
From Stdlib Require Import Ascii.
From stdpp Require Import base gmap list strings pretty.
From S2P Require Import Prelude GoStrings Api.
Import Core V1alpha1.

Definition LabelOriginNamespace : string := "kubelb.k8c.io/origin-ns".
Definition LabelOriginName : string := "kubelb.k8c.io/origin-name".
Definition LabelOriginResourceKind : string := "kubelb.k8c.io/origin-resource-kind".
Definition LabelLoadBalancerNamespace : string := "kubelb.k8c.io/lb-namespace".
Definition LabelLoadBalancerName : string := "kubelb.k8c.io/lb-name".
Definition LabelTenantName : string := "kubelb.k8c.io/tenant".
Definition LabelManagedBy : string := "kubelb.k8c.io/managed-by".
Definition LabelControllerName : string := "kubelb".
Definition LabelBridgeService : string := "bridge-service".
Definition LabelAppKubernetesName : string := "app.kubernetes.io/name".
Definition LabelAppKubernetesType : string := "app.kubernetes.io/type".
Definition LabelAppKubernetesInstance : string := "app.kubernetes.io/instance".
Definition LabelAppKubernetesManagedBy : string := "app.kubernetes.io/managed-by".

Definition ServiceKind : string := "Service".
Definition DefaultRouteStatus : string := "{}".
Definition NameSuffixLength : nat := 4.
Definition MaxNameLength : nat := 60.
Definition AnnotationRequestWildcardDomain : string := "kubelb.k8c.io/request-wildcard-domain".

(** ** Keys *)

(** ["%s-%s-ep-%d-port-%d-%s"] *)
Definition EnvoyResourceIdentifierPattern (ns n : string) (i : nat) (port : Z) (proto : string) : string :=
  ns +:+ "-" +:+ n +:+ "-ep-" +:+ pretty i +:+ "-port-" +:+ pretty port +:+ "-" +:+ proto.

(** ["%s-%s-ep-%d"] *)
Definition EnvoyEndpointPattern (ns n : string) (i : nat) : string :=
  ns +:+ "-" +:+ n +:+ "-ep-" +:+ pretty i.

(** ["tenant-%s-route-%s-%s-%s"] *)
Definition EnvoyEndpointRoutePattern (ns svcns svc route : string) : string :=
  "tenant-" +:+ ns +:+ "-route-" +:+ svcns +:+ "-" +:+ svc +:+ "-" +:+ route.

(** ["tenant-%s-route-%s-%s-%s-svc-%s-port-%d-%s"] *)
Definition EnvoyRoutePortIdentifierPattern (ns svcns svc route svcuid : string) (port : Z) (proto : string) : string :=
  "tenant-" +:+ ns +:+ "-route-" +:+ svcns +:+ "-" +:+ svc +:+ "-" +:+ route
    +:+ "-svc-" +:+ svcuid +:+ "-port-" +:+ pretty port +:+ "-" +:+ proto.

(** ["%v-%s"] *)
Definition EnvoyListenerPattern (port : Z) (proto : string) : string :=
  pretty port +:+ "-" +:+ proto.

(** ["%s/%s"] *)
Definition RouteServiceMapKey (ns n : string) : string := ns +:+ "/" +:+ n.

(** ** Generated names *)

(** [uid[len(uid)-NameSuffixLength:]]: a UID shorter than the suffix panics. *)
Definition uid_suffix (u : string) : go string :=
  if decide (String.length u < NameSuffixLength) then Panics
  else Done (drop_bytes (String.length u - NameSuffixLength) u).

(** [s[:n]] *)
Definition slice_to (s : string) (n : nat) : go string :=
  if decide (String.length s < n) then Panics else Done (take_bytes n s).

Definition GenerateName (appendUID : bool) (u n ns : string) : go string :=
  let output := ns +:+ "-" +:+ n in
  uidSuffix ← uid_suffix u;
  if bool_decide (MaxNameLength ≤ String.length output) ||
     (appendUID && bool_decide (MaxNameLength ≤ String.length output + String.length uidSuffix + 1))
  then
    output ← slice_to output (MaxNameLength - (NameSuffixLength + 1));
    Done (output +:+ "-" +:+ uidSuffix)
  else if appendUID then Done (output +:+ "-" +:+ uidSuffix)
  else Done output.

Definition GetName (m : ObjectMeta) : string :=
  match labels m with
  | Some l => match l !! LabelOriginName with Some v => v | None => name m end
  | None => name m
  end.

Definition GetNamespace (m : ObjectMeta) : string :=
  match labels m with
  | Some l => match l !! LabelOriginNamespace with Some v => v | None => namespace m end
  | None => namespace m
  end.

Definition AddKubeLBLabels (l : gomap string) (n ns gvk : string) : gmap string string :=
  let l := default ∅ l in
  let l := <[LabelOriginName := n]> l in
  let l := <[LabelOriginNamespace := ns]> l in
  let l := <[LabelManagedBy := LabelControllerName]> l in
  if decide (gvk = "") then l else <[LabelOriginResourceKind := gvk]> l.

(** The name under which the ports of a route are filed: the name of the
    embedded resource, else the origin label, else the name of the Route. *)
Definition originalRouteName (r : Route) (src : KubernetesSource) : string :=
  if decide (name (u_meta (ks_route src)) ≠ "") then name (u_meta (ks_route src))
  else
    let lbl := get_str (labels (rt_meta r)) LabelOriginName in
    if decide (lbl ≠ "") then lbl else name (rt_meta r).

(** ** Unambiguous keys *)

Lemma EnvoyListenerPattern_inj p q s t :
  EnvoyListenerPattern p s = EnvoyListenerPattern q t → p = q ∧ s = t.
Proof. apply pretty_Z_dash_inj. Qed.

(** The index of an endpoint can be read back from its key. *)
Lemma EnvoyEndpointPattern_split ns n i ns' n' i' :
  EnvoyEndpointPattern ns n i = EnvoyEndpointPattern ns' n' i' →
  i = i' ∧ ns +:+ "-" +:+ n = ns' +:+ "-" +:+ n'.
Proof.
  unfold EnvoyEndpointPattern. intros E.
  assert (∀ a b c, a +:+ "-" +:+ b +:+ "-ep-" +:+ c =
    (a +:+ "-" +:+ b +:+ "-ep") +:+ String dash c) as Hshape.
  { intros a b c. by rewrite !sapp_assoc. }
  rewrite !Hshape in E. apply cut_last_inj in E as [E1 E2]; auto using pretty_nat_lacks.
  apply (inj pretty) in E2 as ->. split; [done|].
  apply (sapp_inj_r _ _ "-ep"). by rewrite !sapp_assoc.
Qed.

(** LoadBalancer objects are named by UIDs, which have one length; under names of
    one length the key determines namespace, name and index. *)
Lemma EnvoyEndpointPattern_inj ns n i ns' n' i' :
  String.length n = String.length n' →
  EnvoyEndpointPattern ns n i = EnvoyEndpointPattern ns' n' i' →
  ns = ns' ∧ n = n' ∧ i = i'.
Proof.
  intros Hlen [-> E]%EnvoyEndpointPattern_split.
  rewrite <- !sapp_assoc in E. apply sapp_inj_len_r in E as [E ->]; [|done].
  by apply sapp_inj_r in E as ->.
Qed.

Lemma EnvoyEndpointPattern_index_inj ns n i i' :
  EnvoyEndpointPattern ns n i = EnvoyEndpointPattern ns n i' → i = i'.
Proof. by intros [-> _]%EnvoyEndpointPattern_split. Qed.

(** The key of one port of one endpoint. *)
Lemma EnvoyResourceIdentifierPattern_split ns n i p s ns' n' i' p' s' :
  EnvoyResourceIdentifierPattern ns n i p s =
    EnvoyResourceIdentifierPattern ns' n' i' p' s' →
  ns = ns' → n = n' → i = i' ∧ p = p' ∧ s = s'.
Proof.
  unfold EnvoyResourceIdentifierPattern. intros E -> ->.
  do 4 apply sapp_inj_l in E. 
  change "-port-" with (String dash "port-") in E.
  rewrite !sapp_cons in E.
  apply cut_first_inj in E as [Ei E]; auto using pretty_nat_lacks.
  apply (inj pretty) in Ei as ->. injection E as E.
  rewrite !sapp_nil_l in E.
  by apply pretty_Z_dash_inj in E as [-> ->].
Qed.

(** ** Generated names *)

Lemma uid_suffix_length u x : uid_suffix u = Done x → String.length x = NameSuffixLength.
Proof.
  unfold uid_suffix. case_decide; [done|]. intros [= <-].
  rewrite length_drop_bytes. unfold NameSuffixLength in *. lia.
Qed.

Lemma uid_suffix_done u : NameSuffixLength ≤ String.length u → ∃ x, uid_suffix u = Done x.
Proof. intros ?. unfold uid_suffix. rewrite decide_False by lia. by eexists. Qed.

(** The branch taken: either the name is cut to make room for the suffix, or it
    is short enough to stand (with the suffix, when one is asked for). *)
Lemma GenerateName_cases b u n ns x :
  uid_suffix u = Done x →
  (GenerateName b u n ns =
     Done (take_bytes (MaxNameLength - (NameSuffixLength + 1)) (ns +:+ "-" +:+ n)
           +:+ "-" +:+ x) ∧
   MaxNameLength - (NameSuffixLength + 1) ≤ String.length (ns +:+ "-" +:+ n)) ∨
  (b = true ∧ GenerateName b u n ns = Done ((ns +:+ "-" +:+ n) +:+ "-" +:+ x) ∧
   String.length (ns +:+ "-" +:+ n) + NameSuffixLength + 1 < MaxNameLength) ∨
  (b = false ∧ GenerateName b u n ns = Done (ns +:+ "-" +:+ n) ∧
   String.length (ns +:+ "-" +:+ n) < MaxNameLength).
Proof.
  intros Hx. pose proof (uid_suffix_length _ _ Hx) as Hlen.
  unfold GenerateName. rewrite Hx. simpl. rewrite Hlen.
  unfold MaxNameLength, NameSuffixLength in *.
  generalize (ns +:+ "-" +:+ n). intros out.
  destruct (bool_decide _) eqn:H1; simpl.
  { left. apply bool_decide_eq_true in H1. unfold slice_to.
    rewrite decide_False by lia. split; [done|lia]. }
  apply bool_decide_eq_false in H1. destruct b; simpl.
  - destruct (bool_decide _) eqn:H2; simpl.
    + left. apply bool_decide_eq_true in H2. unfold slice_to.
      rewrite decide_False by lia. split; [done|lia].
    + right; left. apply bool_decide_eq_false in H2. repeat split; lia.
  - right; right. repeat split; lia.
Qed.

(** A generated name is never longer than 60 bytes. *)
Lemma GenerateName_bounds b u n ns :
  NameSuffixLength ≤ String.length u →
  ∃ out, GenerateName b u n ns = Done out ∧ String.length out ≤ MaxNameLength.
Proof.
  intros (x & Hx)%uid_suffix_done. pose proof (uid_suffix_length _ _ Hx) as Hlen.
  destruct (GenerateName_cases b u n ns x Hx) as [[-> H]|[(-> & -> & H)|(-> & -> & H)]];
    (eexists; split; [done|]); rewrite ?slen_app, ?length_take_bytes; rewrite ?slen_app in H;
    unfold MaxNameLength, NameSuffixLength in *; simpl String.length in *; lia.
Qed.

Lemma GenerateName_suffix u n ns u' n' ns' out :
  GenerateName true u n ns = Done out →
  GenerateName true u' n' ns' = Done out →
  uid_suffix u = uid_suffix u'.
Proof.
  intros H1 H2.
  destruct (uid_suffix u) as [x|] eqn:Hx; [|by unfold GenerateName in H1; rewrite Hx in H1].
  destruct (uid_suffix u') as [x'|] eqn:Hx'; [|by unfold GenerateName in H2; rewrite Hx' in H2].
  pose proof (uid_suffix_length _ _ Hx). pose proof (uid_suffix_length _ _ Hx').
  assert (∀ u n ns x, uid_suffix u = Done x → GenerateName true u n ns = Done out →
    ∃ p, out = p +:+ x) as Hend.
  { intros v m ms y Hy Hv. destruct (GenerateName_cases true v m ms y Hy)
      as [[E _]|[(_ & E & _)|(? & _)]]; [| |done]; rewrite Hv in E; injection E as ->;
      eexists; by rewrite <- sapp_assoc. }
  destruct (Hend _ _ _ _ Hx H1) as [p ->]. destruct (Hend _ _ _ _ Hx' H2) as [p' E].
  apply sapp_inj_len_r in E as [_ ->]; [done|lia].
Qed.
