(* ===== verification/PortAllocator.v ===== *)
(** * The port allocator (internal/port-lookup)

    The manager gives every endpoint port of every LoadBalancer and Route a port
    of its own on the Envoy proxies.  [PortAllocator] keeps the table
    endpoint key -> port key -> port and a reverse table of the ports in use.

    The source of randomness behind [rand.Intn] is a sequence [src] of raw draws
    and a position in it; [Intn] reduces a draw to the interval the caller asks
    for.  The unbounded loop of [allocatePort] runs on fuel, and
    [allocatePort_terminates] gives the amount that is enough. *)
From stdpp Require Import base gmap sets list strings pretty relations.
From S2P Require Import Prelude GoStrings Api Names.
Import Core V1alpha1.

Definition startPort : Z := 10000.
Definition endPort : Z := 65535.

(** [type LookupTable map[string]map[string]int] *)
Abbreviation LookupTable := (gmap string (gmap string Z)).

Record PortAllocator := {
  portLookup : LookupTable;
  portLookupReverse : gmap Z bool
}.

Definition NewPortAllocator : PortAllocator :=
  {| portLookup := ∅; portLookupReverse := ∅ |}.

Definition Lookup (pa : PortAllocator) (endpointKey portKey : string) : Z * bool :=
  match portLookup pa !! endpointKey with
  | Some endpointLookup =>
      match endpointLookup !! portKey with
      | Some port => (port, true)
      | None => ((-1)%Z, false)
      end
  | None => ((-1)%Z, false)
  end.

(** [recomputeAvailablePorts]: the reverse table is rebuilt from scratch. *)
Definition recomputeAvailablePorts (tbl : LookupTable) : PortAllocator :=
  {| portLookup := tbl;
     portLookupReverse :=
       map_fold (λ _ ep rev, map_fold (λ _ port rev, <[port := true]> rev) rev ep) ∅ tbl |}.

Section random.
(** The raw draws of the generator. *)
Context (src : nat → Z).

(** [rand.Intn(n)] at position [pos]. *)
Definition Intn (pos : nat) (n : Z) : Z := (src pos `mod` n)%Z.

Definition draw (pos : nat) : Z := (Intn pos (endPort - startPort) + startPort)%Z.

(** [allocatePort]: draw until the port is not in the reverse table.  [None] when
    the loop is still running after [fuel] draws. *)
Fixpoint allocatePort (fuel : nat) (rev : gmap Z bool) (pos : nat) : option (Z * nat) :=
  match fuel with
  | O => None
  | S fuel =>
      let port := draw pos in
      match rev !! port with
      | None => Some (port, S pos)
      | Some _ => allocatePort fuel rev (S pos)
      end
  end.

(** The first loop of [AllocatePorts]; the reverse table is not touched. *)
Fixpoint allocate_keys (fuel : nat) (rev : gmap Z bool) (ep : gmap string Z) (pos : nat)
    (keys : list string) (updated : bool) : option (gmap string Z * nat * bool) :=
  match keys with
  | [] => Some (ep, pos, updated)
  | k :: keys =>
      match ep !! k with
      | Some _ => allocate_keys fuel rev ep pos keys updated
      | None =>
          '(port, pos) ← allocatePort fuel rev pos;
          allocate_keys fuel rev (<[k := port]> ep) pos keys true
      end
  end.

(** The second loop: [for k := range m { if !slices.Contains(portkeys, k) ... }]. *)
Definition remove_keys (portkeys : list string) (ep : gmap string Z) (updated : bool)
    : gmap string Z * bool :=
  foldl (λ '(m, u) '(k, _),
           if decide (k ∈ portkeys) then (m, u) else (delete k m, true))
        (ep, updated) (map_to_list ep).

Definition AllocatePorts (fuel : nat) (pa : PortAllocator) (pos : nat)
    (endpointKey : string) (portkeys : list string) : option (PortAllocator * nat * bool) :=
  let ep := default ∅ (portLookup pa !! endpointKey) in
  '(ep, pos, updated) ← allocate_keys fuel (portLookupReverse pa) ep pos portkeys false;
  let '(ep, updated) := remove_keys portkeys ep updated in
  Some (recomputeAvailablePorts (<[endpointKey := ep]> (portLookup pa)), pos, updated).

Definition DeallocatePorts (pa : PortAllocator) (endpointKey : string)
    (portkeys : list string) : PortAllocator * bool :=
  match portLookup pa !! endpointKey with
  | Some ep =>
      let '(ep, updated) :=
        foldl (λ '(m, u) k, (delete k m, true)) (ep, false) portkeys in
      (recomputeAvailablePorts (<[endpointKey := ep]> (portLookup pa)), updated)
  | None => (recomputeAvailablePorts (portLookup pa), false)
  end.

Definition DeallocateEndpoints (pa : PortAllocator) (endpointKeys : list string) : PortAllocator :=
  recomputeAvailablePorts (foldl (λ tbl k, delete k tbl) (portLookup pa) endpointKeys).

(** ** mapper.go *)

Definition lb_endpoint_keys (lbEndpoint : LoadBalancerEndpoints) : list string :=
  (λ p, EnvoyListenerPattern (ep_port p) (ep_protocol p)) <$> le_ports lbEndpoint.

(** The body of the inner loop, for the endpoints [i], [i+1], ... of one load balancer. *)
Fixpoint allocate_lb_endpoints (fuel : nat) (pa : PortAllocator) (pos : nat)
    (lb : LoadBalancer) (i : nat) (endpoints : list LoadBalancerEndpoints)
    : option (PortAllocator * nat) :=
  match endpoints with
  | [] => Some (pa, pos)
  | e :: endpoints =>
      '(pa, pos, _) ← AllocatePorts fuel pa pos
         (EnvoyEndpointPattern (namespace (lb_meta lb)) (name (lb_meta lb)) i)
         (lb_endpoint_keys e);
      allocate_lb_endpoints fuel pa pos lb (S i) endpoints
  end.

Fixpoint AllocatePortsForLoadBalancers (fuel : nat) (pa : PortAllocator) (pos : nat)
    (lbs : list LoadBalancer) : option (PortAllocator * nat) :=
  match lbs with
  | [] => Some (pa, pos)
  | lb :: lbs =>
      '(pa, pos) ← allocate_lb_endpoints fuel pa pos lb 0 (ls_endpoints (lb_spec lb));
      AllocatePortsForLoadBalancers fuel pa pos lbs
  end.

Definition route_endpoint_key (route : Route) (routeName : string) (svc : Service) : string :=
  EnvoyEndpointRoutePattern (namespace (rt_meta route)) (namespace (svc_meta svc))
    (name (svc_meta svc)) routeName.

Definition svc_port_keys (svc : Service) : list string :=
  (λ p, EnvoyListenerPattern (sp_port p) (sp_protocol p)) <$> ss_ports (svc_spec svc).

Fixpoint allocate_route_services (fuel : nat) (pa : PortAllocator) (pos : nat)
    (route : Route) (routeName : string) (svcs : list Service)
    : option (PortAllocator * nat) :=
  match svcs with
  | [] => Some (pa, pos)
  | svc :: svcs =>
      '(pa, pos, _) ← AllocatePorts fuel pa pos
         (route_endpoint_key route routeName svc) (svc_port_keys svc);
      allocate_route_services fuel pa pos route routeName svcs
  end.

Fixpoint AllocatePortsForRoutes (fuel : nat) (pa : PortAllocator) (pos : nat)
    (routes : list Route) : option (PortAllocator * nat) :=
  match routes with
  | [] => Some (pa, pos)
  | route :: routes =>
      match rsp_kubernetes (rt_spec route) with
      | None => AllocatePortsForRoutes fuel pa pos routes
      | Some source =>
          '(pa, pos) ← allocate_route_services fuel pa pos route
                         (originalRouteName route source) (ks_services source);
          AllocatePortsForRoutes fuel pa pos routes
      end
  end.
End random.

Definition DeallocatePortsForRoute (pa : PortAllocator) (route : Route) : PortAllocator :=
  match rsp_kubernetes (rt_spec route) with
  | None => pa
  | Some source =>
      DeallocateEndpoints pa
        (route_endpoint_key route (originalRouteName route source) <$> ks_services source)
  end.

Definition lb_keys (lb : LoadBalancer) : list string :=
  imap (λ i _, EnvoyEndpointPattern (namespace (lb_meta lb)) (name (lb_meta lb)) i)
       (ls_endpoints (lb_spec lb)).

Definition DeallocatePortsForLoadBalancer (pa : PortAllocator) (lb : LoadBalancer) : PortAllocator :=
  DeallocateEndpoints pa (lb_keys lb).

(** ** LoadState: the table is rebuilt from the status of the stored objects. *)

Definition ensure_endpoint (endpointKey : string) (tbl : LookupTable) : LookupTable :=
  match tbl !! endpointKey with Some _ => tbl | None => <[endpointKey := ∅]> tbl end.

(** [tbl[endpointKey][portKey] = port] *)
Definition set_port (endpointKey portKey : string) (port : Z) (tbl : LookupTable) : LookupTable :=
  alter (<[portKey := port]>) endpointKey tbl.

(** The status port that records the allocation of [p]. *)
Definition status_port_matches (p : EndpointPort) (sp : UpstreamServicePort) : bool :=
  bool_decide (upstreamTargetPort sp = ep_port p) &&
  bool_decide (sp_protocol (usp_port sp) = ep_protocol p) &&
  bool_decide (sp_name (usp_port sp) = ep_name p).

Definition load_lb_port (endpointKey : string) (status : list UpstreamServicePort)
    (tbl : LookupTable) (p : EndpointPort) : LookupTable :=
  match list_find (λ sp, status_port_matches p sp = true) status with
  | Some (_, sp) =>
      set_port endpointKey (EnvoyListenerPattern (ep_port p) (ep_protocol p))
        (IntValue (sp_targetPort (usp_port sp))) tbl
  | None => tbl
  end.

Definition load_lb (tbl : LookupTable) (lb : LoadBalancer) : LookupTable :=
  fold_index (λ i tbl lbEndpoint,
      let endpointKey := EnvoyEndpointPattern (namespace (lb_meta lb)) (name (lb_meta lb)) i in
      foldl (load_lb_port endpointKey (elems (lst_ports (lb_status lb))))
        (ensure_endpoint endpointKey tbl) (le_ports lbEndpoint))
    0 tbl (ls_endpoints (lb_spec lb)).

Definition load_route_service (route : Route) (routeName : string) (tbl : LookupTable)
    (svc : Service) : LookupTable :=
  let endpointKey := route_endpoint_key route routeName svc in
  let tbl := ensure_endpoint endpointKey tbl in
  match rrs_services (rt_status route) with
  | None => tbl
  | Some services =>
      let key := RouteServiceMapKey (namespace (svc_meta svc)) (GetName (svc_meta svc)) in
      match services !! key with
      | None => tbl
      | Some svcPort =>
          foldl (λ tbl port,
              set_port endpointKey (EnvoyListenerPattern (sp_port port) (sp_protocol port))
                (IntValue (sp_targetPort port)) tbl)
            tbl (rss_ports svcPort)
      end
  end.

Definition load_route (tbl : LookupTable) (route : Route) : LookupTable :=
  match rsp_kubernetes (rt_spec route) with
  | None => tbl
  | Some source =>
      foldl (load_route_service route (originalRouteName route source)) tbl (ks_services source)
  end.

(** The two [List] calls of the API reader answer with the objects or an error;
    an error leaves the allocator as it was. *)
Definition LoadState {Err} (pa : PortAllocator) (loadBalancers : Err + list LoadBalancer)
    (routes : Err + list Route) : PortAllocator * option Err :=
  match loadBalancers with
  | inl err => (pa, Some err)
  | inr lbs =>
      let lookupTable := foldl load_lb ∅ lbs in
      match routes with
      | inl err => (pa, Some err)
      | inr rs => (recomputeAvailablePorts (foldl load_route lookupTable rs), None)
      end
  end.

(** ** What the table says *)

(** The port allocated to an endpoint and port key. *)
Definition allocated (tbl : LookupTable) (e k : string) : option Z :=
  m ← tbl !! e; m !! k.

Definition in_use (tbl : LookupTable) (p : Z) : Prop := ∃ e k, allocated tbl e k = Some p.

(** No port is allocated to two endpoints. *)
Definition no_sharing (tbl : LookupTable) : Prop :=
  ∀ e1 k1 e2 k2 p, allocated tbl e1 k1 = Some p → allocated tbl e2 k2 = Some p → e1 = e2.

Definition ports_in_range (tbl : LookupTable) : Prop :=
  ∀ p, in_use tbl p → (startPort ≤ p < endPort)%Z.

(** The reverse table holds exactly the ports in use. *)
Definition coherent (pa : PortAllocator) : Prop :=
  pa = recomputeAvailablePorts (portLookup pa).

Record wf (pa : PortAllocator) : Prop := {
  wf_coherent : coherent pa;
  wf_range : ports_in_range (portLookup pa);
  wf_no_sharing : no_sharing (portLookup pa)
}.

Lemma Lookup_allocated pa e k :
  Lookup pa e k = match allocated (portLookup pa) e k with
                  | Some p => (p, true)
                  | None => ((-1)%Z, false)
                  end.
Proof.
  unfold Lookup, allocated. destruct (portLookup pa !! e) as [m|]; simpl; [|done].
  by destruct (m !! k).
Qed.

Lemma allocated_insert tbl e m e' k :
  allocated (<[e := m]> tbl) e' k = if decide (e = e') then m !! k else allocated tbl e' k.
Proof. unfold allocated. rewrite lookup_insert. by case_decide. Qed.

Lemma allocated_delete tbl e e' k :
  allocated (delete e tbl) e' k = if decide (e = e') then None else allocated tbl e' k.
Proof. unfold allocated. rewrite lookup_delete. by case_decide. Qed.

(** *** The reverse table *)


Lemma reverse_endpoint (rev : gmap Z bool) (ep : gmap string Z) p v :
  map_fold (λ _ port rev, <[port := true]> rev) rev ep !! p = Some v ↔
  ((∃ k, ep !! k = Some p) ∧ v = true) ∨ (¬ (∃ k, ep !! k = Some p) ∧ rev !! p = Some v).
Proof.
  revert p v.
  apply (map_fold_weak_ind (λ (r : gmap Z bool) (ep : gmap string Z), ∀ p v, r !! p = Some v ↔
    ((∃ k, ep !! k = Some p) ∧ v = true) ∨ (¬ (∃ k, ep !! k = Some p) ∧ rev !! p = Some v)));
    clear ep.
  { intros p v. setoid_rewrite lookup_empty. naive_solver. }
  intros i x m r Hi IH p v. rewrite lookup_insert. case_decide as Hp; subst.
  - assert (∃ k, <[i := p]> m !! k = Some p) by (exists i; by rewrite lookup_insert_eq).
    naive_solver.
  - rewrite IH. 
    assert ((∃ k, <[i := x]> m !! k = Some p) ↔ ∃ k, m !! k = Some p) as ->; [|done].
    split; intros [k Hk]; exists k; revert Hk; rewrite lookup_insert; case_decide; naive_solver.
Qed.

Lemma reverse_spec tbl p v :
  portLookupReverse (recomputeAvailablePorts tbl) !! p = Some v ↔ v = true ∧ in_use tbl p.
Proof.
  unfold recomputeAvailablePorts; simpl. revert p v.
  apply (map_fold_weak_ind (λ (r : gmap Z bool) tbl, ∀ p v,
    r !! p = Some v ↔ v = true ∧ in_use tbl p)); clear tbl.
  { intros p v. rewrite lookup_empty. split; [done|]. intros (_ & e & k & H).
    unfold allocated in H. by rewrite lookup_empty in H. }
  intros e m tbl r He IH p v. rewrite reverse_endpoint, IH.
  assert (in_use (<[e := m]> tbl) p ↔ (∃ k, m !! k = Some p) ∨ in_use tbl p) as ->.
  { unfold in_use. split.
    - intros (e' & k & H). rewrite allocated_insert in H. case_decide; eauto.
    - intros [[k H]|(e' & k & H)].
      + exists e, k. by rewrite allocated_insert, decide_True.
      + exists e', k. rewrite allocated_insert, decide_False; [done|].
        intros <-. unfold allocated in H. by rewrite He in H. }
  assert (Decision (∃ k, m !! k = Some p)) as Hdec.
  { destruct (decide (Exists (λ kv, kv.2 = p) (map_to_list m))) as [H|H].
    - left. apply Exists_exists in H as ([k q] & Hin & Heq). simpl in *. subst.
      exists k. by apply elem_of_map_to_list.
    - right. intros [k Hk]. apply H, Exists_exists. exists (k, p). split; [|done].
      by apply elem_of_map_to_list. }
  destruct Hdec; naive_solver.
Qed.

Lemma reverse_free tbl p :
  portLookupReverse (recomputeAvailablePorts tbl) !! p = None ↔ ¬ in_use tbl p.
Proof.
  rewrite eq_None_not_Some. apply not_iff_compat. split.
  - intros [v Hv]. by apply reverse_spec in Hv as [_ ?].
  - intros H. exists true. by apply reverse_spec.
Qed.

Lemma recompute_coherent tbl : coherent (recomputeAvailablePorts tbl).
Proof. done. Qed.

(** *** The two loops of [AllocatePorts] *)

Lemma draw_range src pos : (startPort ≤ draw src pos < endPort)%Z.
Proof.
  unfold draw, Intn. pose proof (Z.mod_pos_bound (src pos) (endPort - startPort)).
  unfold startPort, endPort in *. lia.
Qed.

Lemma allocatePort_spec src fuel rev pos p pos' :
  allocatePort src fuel rev pos = Some (p, pos') →
  (startPort ≤ p < endPort)%Z ∧ rev !! p = None ∧ pos < pos'.
Proof.
  revert pos. induction fuel as [|fuel IH]; intros pos; simpl; [done|].
  destruct (rev !! draw src pos) eqn:Hr.
  - intros (? & ? & ?)%IH. repeat split; try done; lia.
  - intros [= <- <-]. pose proof (draw_range src pos). repeat split; auto; lia.
Qed.

Lemma allocate_keys_spec src fuel rev ep pos keys u ep' pos' u' :
  allocate_keys src fuel rev ep pos keys u = Some (ep', pos', u') →
  (∀ k v, ep !! k = Some v → ep' !! k = Some v) ∧
  (∀ k v, ep' !! k = Some v →
     ep !! k = Some v ∨ (k ∈ keys ∧ (startPort ≤ v < endPort)%Z ∧ rev !! v = None)) ∧
  (∀ k, k ∈ keys → is_Some (ep' !! k)) ∧
  (u' = true ↔ u = true ∨ ∃ k, k ∈ keys ∧ ep !! k = None).
Proof.
  revert ep pos u. induction keys as [|k0 keys IH]; intros ep pos u; simpl.
  { intros [= <- <- <-]. set_solver. }
  destruct (ep !! k0) as [v0|] eqn:Hk0.
  - intros (H1 & H2 & H3 & H4)%IH. repeat split; [done| | | |].
    + intros k v Hv. destruct (H2 k v Hv) as [|(? & ?)]; set_solver.
    + intros k [->|Hk]%elem_of_cons; [|auto]. eauto.
    + intros [|(k & ? & ?)]%H4; [auto|]. set_solver.
    + intros [->|(k & [->|?]%elem_of_cons & ?)]; apply H4; [auto|congruence|eauto].
  - destruct (allocatePort src fuel rev pos) as [[p pos1]|] eqn:Hp; simpl; [|done].
    apply allocatePort_spec in Hp as (Hrange & Hfree & _).
    intros (H1 & H2 & H3 & H4)%IH. repeat split.
    + intros k v Hv. apply H1. rewrite lookup_insert_ne; congruence.
    + intros k v Hv. destruct (H2 k v Hv) as [Hi|(? & ?)]; [|set_solver].
      revert Hi. rewrite lookup_insert. case_decide; [|auto].
      intros [= <-]. subst. set_solver.
    + intros k [->|Hk]%elem_of_cons; [|auto]. exists p. apply H1, lookup_insert_eq.
    + intros _. right. exists k0. set_solver.
    + intros _. apply H4. by left.
Qed.

(** One pass of the deletion loop over a list of entries. *)
Definition remove_step (keys : list string) : gmap string Z * bool → string * Z → gmap string Z * bool :=
  λ '(m, u) '(k, _), if decide (k ∈ keys) then (m, u) else (delete k m, true).

Lemma remove_steps_lookup keys (l : list (string * Z)) m u k :
  (foldl (remove_step keys) (m, u) l).1 !! k =
  if decide (k ∈ l.*1 ∧ k ∉ keys) then None else m !! k.
Proof.
  revert m u. induction l as [|[k0 v0] l IH]; intros m u.
  { destruct (decide _) as [[H _]|]; [|done]. by apply elem_of_nil in H. }
  rewrite fmap_cons. cbn [foldl remove_step fst].
  destruct (decide (k0 ∈ keys)) as [Hin|Hin]; rewrite IH.
  - apply decide_ext. rewrite elem_of_cons. naive_solver.
  - rewrite lookup_delete. destruct (decide (k ∈ l.*1 ∧ k ∉ keys)) as [[??]|H].
    + rewrite decide_True; [done|]. rewrite elem_of_cons. auto.
    + destruct (decide (k0 = k)) as [->|].
      * rewrite decide_True; [done|]. rewrite elem_of_cons. auto.
      * rewrite decide_False; [done|]. rewrite elem_of_cons. naive_solver.
Qed.

Lemma remove_steps_flag keys (l : list (string * Z)) m u :
  (foldl (remove_step keys) (m, u) l).2 = true ↔
  u = true ∨ ∃ k, k ∈ l.*1 ∧ k ∉ keys.
Proof.
  revert m u. induction l as [|[k0 v0] l IH]; intros m u; simpl.
  { split; [auto|]. intros [?|(k & H & _)]; [done|]. by apply elem_of_nil in H. }
  setoid_rewrite elem_of_cons.
  destruct (decide (k0 ∈ keys)) as [Hin|Hin]; rewrite IH; naive_solver.
Qed.

Lemma elem_of_keys (ep : gmap string Z) k : k ∈ (map_to_list ep).*1 ↔ is_Some (ep !! k).
Proof.
  rewrite list_elem_of_fmap. split.
  - intros ([k' v] & -> & Hkv). apply elem_of_map_to_list in Hkv. eauto.
  - intros [v Hv]. exists (k, v). split; [done|]. by apply elem_of_map_to_list.
Qed.

Lemma remove_keys_spec keys ep u :
  (∀ k, (remove_keys keys ep u).1 !! k = if decide (k ∈ keys) then ep !! k else None) ∧
  ((remove_keys keys ep u).2 = true ↔ u = true ∨ ∃ k, is_Some (ep !! k) ∧ k ∉ keys).
Proof.
  unfold remove_keys. fold (remove_step keys). split.
  - intros k. rewrite remove_steps_lookup. pose proof (elem_of_keys ep k) as Hin.
    destruct (decide (k ∈ keys)) as [Hk|Hk].
    + by rewrite decide_False by naive_solver.
    + destruct (ep !! k) eqn:E; [|by case_decide].
      rewrite decide_True; [done|]. split; [apply Hin; eauto|done].
  - rewrite remove_steps_flag. by setoid_rewrite elem_of_keys.
Qed.

(** *** AllocatePorts *)

(** The whole effect of a call: the endpoint ends up with exactly the requested
    keys; a key that had a port keeps it; a new key gets a port of the range that
    no key had before the call; the other endpoints are untouched; the flag says
    whether the set of keys changed. *)
Lemma AllocatePorts_effect src fuel pa pos e keys pa' pos' u :
  AllocatePorts src fuel pa pos e keys = Some (pa', pos', u) →
  let old := allocated (portLookup pa) in
  let new := allocated (portLookup pa') in
  coherent pa' ∧
  (∀ k, is_Some (new e k) ↔ k ∈ keys) ∧
  (∀ k p, k ∈ keys → old e k = Some p → new e k = Some p) ∧
  (∀ k p, new e k = Some p → old e k = Some p ∨
     ((startPort ≤ p < endPort)%Z ∧ portLookupReverse pa !! p = None)) ∧
  (∀ e' k, e' ≠ e → new e' k = old e' k) ∧
  (u = true ↔ ∃ k, (k ∈ keys ∧ old e k = None) ∨ (is_Some (old e k) ∧ k ∉ keys)).
Proof.
  unfold AllocatePorts. set (ep := default ∅ (portLookup pa !! e)).
  assert (∀ k, allocated (portLookup pa) e k = ep !! k) as Hep.
  { intros k. unfold allocated, ep. by destruct (portLookup pa !! e). }
  destruct (allocate_keys _ _ _ _ _ _ _) as [[[ep1 pos1] u1]|] eqn:Hk; simpl; [|done].
  apply allocate_keys_spec in Hk as (Hkeep & Hnew & Hall & Hu1).
  destruct (remove_keys_spec keys ep1 u1) as [Hrm Hu2].
  destruct (remove_keys keys ep1 u1) as [ep2 u2]. simpl in *.
  intros [= <- <- <-]. simpl.
  assert (∀ k, allocated (<[e := ep2]> (portLookup pa)) e k = ep2 !! k) as Hep2.
  { intros k. by rewrite allocated_insert, decide_True. }
  split; [apply recompute_coherent|]. repeat split.
  - rewrite Hep2, Hrm. case_decide; [done|]. by intros [? ?].
  - intros Hk. rewrite Hep2, Hrm, decide_True by done. by apply Hall.
  - intros k p Hk Hold. rewrite Hep2, Hrm, decide_True by done. apply Hkeep. by rewrite <- Hep.
  - intros k p. rewrite Hep2, Hrm, Hep. case_decide; [|done]. intros Hp.
    destruct (Hnew k p Hp) as [?|(_ & ? & ?)]; auto.
  - intros e' k Hne. rewrite allocated_insert, decide_False by done. done.
  - intros [Hu|(k & [v Hv] & Hk)]%Hu2.
    + apply Hu1 in Hu as [?|(k & ? & ?)]; [done|]. exists k. rewrite Hep. auto.
    + exists k. right. rewrite Hep. split; [|done].
      destruct (Hnew k v Hv) as [->|(? & _)]; [eauto|done].
  - intros (k & [[Hk Hold]|[[v Hv] Hk]]); apply Hu2; rewrite Hep in *.
    + left. apply Hu1. eauto.
    + right. exists k. split; [|done]. eauto.
Qed.
