(* ===== verification/PortAllocatorSpec.v ===== *)
(** * Correctness of the port allocator

    The mutex of [PortAllocator] makes every operation atomic, so whatever the
    three controllers do concurrently is a sequence of operations: the relation
    [step].  This file proves the invariant of the reachable states, termination
    of the allocation loop, the refinement of an abstract allocator (a finite map
    from endpoint and port key to port), and what the operations of mapper.go and
    [LoadState] establish. *)
From stdpp Require Import base gmap sets list strings pretty relations numbers.
From S2P Require Import Prelude GoStrings Api Names PortAllocator.
Import Core V1alpha1.

(** ** The abstract allocator *)
Module Spec.
Abbreviation state := (gmap (string * string) Z).

(** The requested keys of [e] get ports: an old port is kept, a new one is
    chosen among the ports of the range nobody has. *)
Definition allocate (e : string) (keys : list string) (m m' : state) : Prop :=
  (∀ k, is_Some (m' !! (e, k)) ↔ k ∈ keys) ∧
  (∀ k p, k ∈ keys → m !! (e, k) = Some p → m' !! (e, k) = Some p) ∧
  (∀ k p, m' !! (e, k) = Some p → m !! (e, k) = Some p ∨
     ((startPort ≤ p < endPort)%Z ∧ ∀ x, m !! x ≠ Some p)) ∧
  (∀ e' k, e' ≠ e → m' !! (e', k) = m !! (e', k)).

Definition deallocate_ports (e : string) (keys : list string) (m m' : state) : Prop :=
  ∀ e' k, m' !! (e', k) = if decide (e' = e ∧ k ∈ keys) then None else m !! (e', k).

Definition deallocate_endpoints (es : list string) (m m' : state) : Prop :=
  ∀ e k, m' !! (e, k) = if decide (e ∈ es) then None else m !! (e, k).

Inductive step : state → state → Prop :=
  | spec_allocate e keys m m' : allocate e keys m m' → step m m'
  | spec_deallocate_ports e keys m m' : deallocate_ports e keys m m' → step m m'
  | spec_deallocate_endpoints es m m' : deallocate_endpoints es m m' → step m m'.
End Spec.

(** ** The concrete state machine *)

(** A state is the allocator and the position of the random source. *)
Inductive step (src : nat → Z) : PortAllocator * nat → PortAllocator * nat → Prop :=
  | step_allocate fuel pa pos e keys pa' pos' u :
      AllocatePorts src fuel pa pos e keys = Some (pa', pos', u) →
      step src (pa, pos) (pa', pos')
  | step_deallocate_ports pa pos e keys :
      step src (pa, pos) ((DeallocatePorts pa e keys).1, pos)
  | step_deallocate_endpoints pa pos es :
      step src (pa, pos) (DeallocateEndpoints pa es, pos).

(** The abstraction function. *)
Definition abs (pa : PortAllocator) : Spec.state :=
  map_uncurry (M1 := gmap string) (M2 := gmap string) (M12 := gmap (string * string)) (portLookup pa).

Lemma abs_lookup pa e k : abs pa !! (e, k) = allocated (portLookup pa) e k.
Proof. apply lookup_map_uncurry. Qed.

(** *** Deallocation *)

Lemma deallocate_keys_fold (ep : gmap string Z) u keys k :
  (foldl (λ '(m, _) k, (delete k m, true)) (ep, u) keys).1 !! k =
  if decide (k ∈ keys) then None else ep !! k.
Proof.
  revert ep u. induction keys as [|k0 keys IH]; intros ep u; simpl; [done|].
  rewrite IH, lookup_delete.
  destruct (decide (k ∈ keys)) as [H1|H1], (decide (k0 = k)) as [H2|H2],
    (decide (k ∈ k0 :: keys)) as [H3|H3]; try done; exfalso;
    apply H3 || apply elem_of_cons in H3; rewrite ?elem_of_cons in *; naive_solver.
Qed.

Lemma DeallocatePorts_effect pa e keys e' k :
  allocated (portLookup (DeallocatePorts pa e keys).1) e' k =
  if decide (e' = e ∧ k ∈ keys) then None else allocated (portLookup pa) e' k.
Proof.
  unfold DeallocatePorts. destruct (portLookup pa !! e) as [ep|] eqn:He; simpl.
  - pose proof (deallocate_keys_fold ep false keys k) as Hf.
    destruct (foldl _ _ _) as [ep' u]. simpl in *. rewrite allocated_insert.
    destruct (decide (e = e')) as [<-|Hne].
    + rewrite Hf. unfold allocated. rewrite He. simpl.
      destruct (decide (k ∈ keys)), (decide (e = e ∧ k ∈ keys)); naive_solver.
    + by rewrite decide_False by naive_solver.
  - case_decide as Hd; [|done]. destruct Hd as [-> _]. unfold allocated. by rewrite He.
Qed.

Lemma delete_endpoints_fold (tbl : LookupTable) es e k :
  allocated (foldl (λ tbl k, delete k tbl) tbl es) e k =
  if decide (e ∈ es) then None else allocated tbl e k.
Proof.
  revert tbl. induction es as [|e0 es IH]; intros tbl; simpl; [done|].
  rewrite IH, allocated_delete.
  destruct (decide (e ∈ es)) as [H1|H1], (decide (e0 = e)) as [H2|H2],
    (decide (e ∈ e0 :: es)) as [H3|H3]; try done; exfalso;
    apply H3 || apply elem_of_cons in H3; rewrite ?elem_of_cons in *; naive_solver.
Qed.

Lemma DeallocateEndpoints_effect pa es e k :
  allocated (portLookup (DeallocateEndpoints pa es)) e k =
  if decide (e ∈ es) then None else allocated (portLookup pa) e k.
Proof. apply delete_endpoints_fold. Qed.

(** *** Preservation of the invariant *)

(** A table that lost allocations keeps the invariants. *)
Lemma wf_shrink pa pa' :
  wf pa → coherent pa' →
  (∀ e k p, allocated (portLookup pa') e k = Some p → allocated (portLookup pa) e k = Some p) →
  wf pa'.
Proof.
  intros [_ Hr Hs] Hc Hsub. split; [done| |].
  - intros p (e & k & H). apply Hr. exists e, k. auto.
  - intros e1 k1 e2 k2 p H1 H2. eauto.
Qed.

Lemma AllocatePorts_wf src fuel pa pos e keys pa' pos' u :
  wf pa → AllocatePorts src fuel pa pos e keys = Some (pa', pos', u) → wf pa'.
Proof.
  intros [Hc Hr Hs] (Hc' & _ & _ & Hnew & Hother & _)%AllocatePorts_effect.
  assert (∀ e0 k p, allocated (portLookup pa') e0 k = Some p →
    allocated (portLookup pa) e0 k = Some p ∨
    (e0 = e ∧ (startPort ≤ p < endPort)%Z ∧ ¬ in_use (portLookup pa) p)) as Hcase.
  { intros e0 k p H. destruct (decide (e0 = e)) as [->|Hne].
    - apply Hnew in H as [?|[? Hfree]]; [auto|]. right. repeat split; try lia.
      rewrite Hc in Hfree. by apply reverse_free in Hfree.
    - left. by rewrite Hother in H. }
  split; [done| |].
  - intros p (e0 & k & [H|(_ & ? & _)]%Hcase); [apply Hr; by exists e0, k|lia].
  - intros e1 k1 e2 k2 p H1 H2.
    apply Hcase in H1 as [H1|(-> & _ & Hf1)], H2 as [H2|(-> & _ & Hf2)]; [by eapply Hs| | |done].
    + destruct Hf2. by exists e1, k1.
    + destruct Hf1. by exists e2, k2.
Qed.

Lemma DeallocatePorts_wf pa e keys : wf pa → wf (DeallocatePorts pa e keys).1.
Proof.
  intros Hwf. apply (wf_shrink pa); [done| |].
  - unfold DeallocatePorts. repeat case_match; apply recompute_coherent.
  - intros e' k p. rewrite DeallocatePorts_effect. by case_decide.
Qed.

Lemma DeallocateEndpoints_wf pa es : wf pa → wf (DeallocateEndpoints pa es).
Proof.
  intros Hwf. apply (wf_shrink pa); [done|apply recompute_coherent|].
  intros e k p. rewrite DeallocateEndpoints_effect. by case_decide.
Qed.

Lemma New_wf : wf NewPortAllocator.
Proof.
  assert (∀ e k, allocated (portLookup NewPortAllocator) e k = None) as Hnone.
  { intros e k. unfold allocated. simpl. by rewrite lookup_empty. }
  split; [done| |].
  - intros p (e & k & H). by rewrite Hnone in H.
  - intros e1 k1 e2 k2 p H. by rewrite Hnone in H.
Qed.

#[export] Hint Resolve New_wf AllocatePorts_wf DeallocatePorts_wf DeallocateEndpoints_wf : kubelb.

Lemma step_wf src s s' : step src s s' → wf s.1 → wf s'.1.
Proof. intros [] ?; simpl in *; eauto with kubelb. Qed.

(** C13: in every state reachable from a well-formed allocator by any interleaving
    of allocations and deallocations, the reverse table holds exactly the ports in
    use, every port lies in [10000, 65535), and no port belongs to two endpoints. *)
Theorem reachable_wf src s s' : rtc (step src) s s' → wf s.1 → wf s'.1.
Proof. induction 1 as [|s1 s2 s3 Hs _ IH]; [done|]. intros ?. by eapply IH, step_wf. Qed.

Lemma reachable_wf_witness :
  let src := λ n, Z.of_nat n in
  ∃ s, rtc (step src) (NewPortAllocator, 0) s ∧
       allocated (portLookup s.1) "t1-lb-ep-0" "80-TCP" = Some 10000%Z ∧
       allocated (portLookup s.1) "t1-lb-ep-1" "80-TCP" = Some 10001%Z ∧ wf s.1.
Proof.
  intros src.
  assert (∃ pa1 pos1 u1 pa2 pos2 u2,
    AllocatePorts src 5 NewPortAllocator 0 "t1-lb-ep-0" ["80-TCP"] = Some (pa1, pos1, u1) ∧
    AllocatePorts src 5 pa1 pos1 "t1-lb-ep-1" ["80-TCP"] = Some (pa2, pos2, u2) ∧
    allocated (portLookup pa2) "t1-lb-ep-0" "80-TCP" = Some 10000%Z ∧
    allocated (portLookup pa2) "t1-lb-ep-1" "80-TCP" = Some 10001%Z)
    as (pa1 & pos1 & u1 & pa2 & pos2 & u2 & H1 & H2 & H3 & H4).
  { do 6 eexists. repeat split; vm_compute; reflexivity. }
  assert (rtc (step src) (NewPortAllocator, 0) (pa2, pos2)) as Hrtc.
  { eapply rtc_l; [by eapply step_allocate|]. eapply rtc_l; [by eapply step_allocate|].
    apply rtc_refl. }
  exists (pa2, pos2). split; [done|]. split; [done|]. split; [done|].
  exact (reachable_wf src _ _ Hrtc New_wf).
Defined.

(** ** Refinement of the abstract allocator *)

Lemma coherent_free pa p :
  coherent pa → portLookupReverse pa !! p = None → ∀ x, abs pa !! x ≠ Some p.
Proof.
  intros Hc Hfree [e k] Hx. rewrite Hc in Hfree. apply reverse_free in Hfree.
  apply Hfree. exists e, k. by rewrite <- abs_lookup.
Qed.



(** ** Termination of the allocation loop *)

(** Every port is drawn again and again. *)
Definition fair (src : nat → Z) : Prop :=
  ∀ p pos, (startPort ≤ p < endPort)%Z → ∃ pos', pos ≤ pos' ∧ draw src pos' = p.

Lemma allocatePort_more src fuel fuel' rev pos r :
  fuel ≤ fuel' → allocatePort src fuel rev pos = Some r →
  allocatePort src fuel' rev pos = Some r.
Proof.
  revert fuel' pos. induction fuel as [|fuel IH]; intros [|fuel'] pos Hle; simpl; try (done || lia).
  destruct (rev !! draw src pos); [|done]. apply IH. lia.
Qed.

Lemma allocatePort_terminates src rev p pos :
  fair src → (startPort ≤ p < endPort)%Z → rev !! p = None →
  ∃ fuel r, allocatePort src fuel rev pos = Some r.
Proof.
  intros Hfair Hp Hfree. destruct (Hfair p pos Hp) as (pos' & Hle & Hdraw).
  exists (S (pos' - pos)). remember (pos' - pos) as n eqn:Hn. revert pos Hle Hn.
  induction n as [|n IH]; intros pos Hle Hn; simpl.
  - assert (pos = pos') as -> by lia. rewrite Hdraw, Hfree. eauto.
  - destruct (rev !! draw src pos); [|eauto]. apply IH; lia.
Qed.

Lemma allocate_keys_more src fuel fuel' rev ep pos keys u r :
  fuel ≤ fuel' → allocate_keys src fuel rev ep pos keys u = Some r →
  allocate_keys src fuel' rev ep pos keys u = Some r.
Proof.
  intros Hle. revert ep pos u. induction keys as [|k keys IH]; intros ep pos u; simpl; [done|].
  destruct (ep !! k); [apply IH|].
  destruct (allocatePort src fuel rev pos) as [[p pos1]|] eqn:Hp; simpl; [|done].
  rewrite (allocatePort_more _ _ _ _ _ _ Hle Hp). simpl. apply IH.
Qed.

Lemma allocate_keys_terminates src rev p ep pos keys u :
  fair src → (startPort ≤ p < endPort)%Z → rev !! p = None →
  ∃ fuel r, allocate_keys src fuel rev ep pos keys u = Some r.
Proof.
  intros Hfair Hp Hfree. revert ep pos u.
  induction keys as [|k keys IH]; intros ep pos u; simpl; [by exists 0; eexists|].
  destruct (ep !! k); [apply IH|].
  destruct (allocatePort_terminates src rev p pos Hfair Hp Hfree) as (f1 & [q pos1] & H1).
  destruct (IH (<[k := q]> ep) pos1 true) as (f2 & r & H2).
  exists (f1 `max` f2), r.
  rewrite (allocatePort_more src f1 (f1 `max` f2) rev pos _ ltac:(lia) H1). simpl.
  apply (allocate_keys_more _ f2); [lia|done].
Qed.

(** C34: With a random source that draws every port again and again, and one port
    of the range free, AllocatePorts returns: some amount of fuel is enough, and
    any larger amount gives the same result. *)
Theorem AllocatePorts_terminates src pa pos e keys p :
  fair src → coherent pa → (startPort ≤ p < endPort)%Z → ¬ in_use (portLookup pa) p →
  ∃ fuel r, ∀ fuel', fuel ≤ fuel' → AllocatePorts src fuel' pa pos e keys = Some r.
Proof.
  intros Hfair Hc Hp Hfree.
  assert (portLookupReverse pa !! p = None) as Hrev by (rewrite Hc; by apply reverse_free).
  destruct (allocate_keys_terminates src _ p (default ∅ (portLookup pa !! e)) pos keys false
    Hfair Hp Hrev) as (fuel & [[ep1 pos1] u1] & H).
  exists fuel. destruct (remove_keys keys ep1 u1) as [ep2 u2] eqn:Hrm.
  eexists. intros fuel' Hle. unfold AllocatePorts.
  rewrite (allocate_keys_more _ _ _ _ _ _ _ _ _ Hle H). simpl. by rewrite Hrm.
Qed.

(** The identity sequence draws every port of the range infinitely often. *)
Lemma fair_identity : fair Z.of_nat.
Proof.
  intros p pos Hp. unfold draw, Intn, startPort, endPort in *.
  exists (Z.to_nat (Z.of_nat pos * 55535 + (p - 10000))). split; [lia|].
  rewrite Z2Nat.id by lia.
  replace (Z.of_nat pos * 55535 + (p - 10000))%Z
    with ((p - 10000) + Z.of_nat pos * 55535)%Z by lia.
  rewrite Z.mod_add by lia. rewrite Z.mod_small; lia.
Qed.

Lemma AllocatePorts_terminates_witness :
  ∃ fuel r, ∀ fuel', fuel ≤ fuel' →
    AllocatePorts Z.of_nat fuel' NewPortAllocator 7 "e" ["80-TCP"; "443-TCP"] = Some r.
Proof.
  apply (AllocatePorts_terminates Z.of_nat NewPortAllocator 7 "e" ["80-TCP"; "443-TCP"] 20000).
  - apply fair_identity.
  - reflexivity.
  - unfold startPort, endPort. lia.
  - intros (e & k & H). unfold allocated in H. simpl in H. by rewrite lookup_empty in H.
Defined.

(** When every port of the range is taken, a call that needs a new port never
    returns, whatever the random source draws (and it holds the mutex). *)
Theorem AllocatePorts_exhausted src fuel pa pos e keys k :
  coherent pa → (∀ p, (startPort ≤ p < endPort)%Z → in_use (portLookup pa) p) →
  k ∈ keys → allocated (portLookup pa) e k = None →
  AllocatePorts src fuel pa pos e keys = None.
Proof.
  intros Hc Hfull Hk Hnone.
  destruct (AllocatePorts src fuel pa pos e keys) as [[[pa' pos'] u]|] eqn:H; [|done].
  apply AllocatePorts_effect in H as (_ & Hdom & _ & Hnew & _).
  destruct (proj2 (Hdom k) Hk) as [p Hp]. apply Hnew in Hp as [?|[Hr Hfree]]; [congruence|].
  rewrite Hc in Hfree. apply reverse_free in Hfree. by destruct Hfree; apply Hfull.
Qed.

(** A table that holds the whole range. *)
Definition full_endpoint : gmap string Z :=
  list_to_map ((λ p : Z, (pretty p, p)) <$> seqZ startPort (endPort - startPort)).

Definition full_table : LookupTable := {[ "e" := full_endpoint ]}.

Lemma full_endpoint_lookup p :
  (startPort ≤ p < endPort)%Z → full_endpoint !! pretty p = Some p.
Proof.
  intros Hp. apply elem_of_list_to_map.
  - rewrite <- list_fmap_compose.
    apply (NoDup_fmap_2 (λ p : Z, pretty p)), NoDup_seqZ.
  - apply list_elem_of_fmap. exists p. split; [done|]. apply elem_of_seqZ.
    unfold startPort, endPort in *. lia.
Qed.

Lemma full_table_in_use p : (startPort ≤ p < endPort)%Z → in_use full_table p.
Proof.
  intros Hp. exists "e", (pretty p). unfold allocated, full_table.
  rewrite lookup_singleton_eq. by apply full_endpoint_lookup.
Qed.

Lemma AllocatePorts_exhausted_witness :
  AllocatePorts Z.of_nat 1000 (recomputeAvailablePorts full_table) 0 "f" ["80-TCP"] = None.
Proof.
  apply (AllocatePorts_exhausted Z.of_nat 1000 (recomputeAvailablePorts full_table) 0 "f" ["80-TCP"] "80-TCP").
  - apply recompute_coherent.
  - intros p Hp. apply full_table_in_use, Hp.
  - apply elem_of_cons. left. reflexivity.
  - unfold allocated, full_table, recomputeAvailablePorts. cbn [portLookup].
    by rewrite lookup_singleton_ne.
Defined.

(** ** Two keys of one call *)

(** The reverse table is not updated while AllocatePorts runs, so two new keys
    of one call get the same port whenever the source repeats a draw. *)
Theorem AllocatePorts_same_call_collision src fuel pa pos e k1 k2 :
  k1 ≠ k2 →
  allocated (portLookup pa) e k1 = None → allocated (portLookup pa) e k2 = None →
  portLookupReverse pa !! draw src pos = None → draw src (S pos) = draw src pos →
  ∃ pa', AllocatePorts src (S fuel) pa pos e [k1; k2] = Some (pa', S (S pos), true) ∧
    allocated (portLookup pa') e k1 = Some (draw src pos) ∧
    allocated (portLookup pa') e k2 = Some (draw src pos).
Proof.
  intros Hne H1 H2 Hfree Hrep.
  assert (∀ k, allocated (portLookup pa) e k = default ∅ (portLookup pa !! e) !! k) as Hep.
  { intros k. unfold allocated. by destruct (portLookup pa !! e). }
  rewrite Hep in H1, H2. unfold AllocatePorts. simpl.
  rewrite H1, Hfree. simpl. rewrite lookup_insert_ne, H2, Hrep, Hfree by done. simpl.
  set (ep := <[k2 := _]> (<[k1 := _]> _)).
  destruct (remove_keys_spec [k1; k2] ep true) as [Hrm Hu].
  destruct (remove_keys [k1; k2] ep true) as [ep2 u2]. simpl in *.
  rewrite (proj2 Hu) by auto. eexists. split; [done|]. simpl.
  rewrite !allocated_insert, !decide_True by done. rewrite !Hrm.
  rewrite !decide_True by set_solver. unfold ep. split.
  - by rewrite lookup_insert_ne, lookup_insert_eq.
  - apply lookup_insert_eq.
Qed.

Lemma AllocatePorts_same_call_collision_witness :
  ∃ pa', AllocatePorts (λ _, 7%Z) 1 NewPortAllocator 0 "e" ["80-TCP"; "443-TCP"] =
           Some (pa', 2, true) ∧
    allocated (portLookup pa') "e" "80-TCP" = Some 10007%Z ∧
    allocated (portLookup pa') "e" "443-TCP" = Some 10007%Z.
Proof.
  apply (AllocatePorts_same_call_collision (λ _, 7%Z) 0 NewPortAllocator 0 "e");
    [done|vm_compute; reflexivity..].
Defined.

(** ** The ports of load balancers *)

Definition lb_key (lb : LoadBalancer) (i : nat) : string :=
  EnvoyEndpointPattern (namespace (lb_meta lb)) (name (lb_meta lb)) i.

(** Load balancers are identified by namespace and name, and named by UIDs, which
    have one length. *)
Definition identified (lbs : list LoadBalancer) : Prop :=
  NoDup ((λ lb, (namespace (lb_meta lb), name (lb_meta lb))) <$> lbs) ∧
  ∃ len, Forall (λ lb, String.length (name (lb_meta lb)) = len) lbs.

Lemma elem_of_lb_keys lb e :
  e ∈ lb_keys lb ↔ ∃ i, i < length (ls_endpoints (lb_spec lb)) ∧ e = lb_key lb i.
Proof.
  unfold lb_keys. rewrite elem_of_lookup_imap. split.
  - intros (i & x & -> & Hi). exists i. split; [|done]. by eapply lookup_lt_Some.
  - intros (i & Hi & ->). apply lookup_lt_is_Some in Hi as [x Hx]. eauto.
Qed.

(** What a run of the mapper leaves of the table: [req] gives the keys requested
    for the endpoints it visited. *)
Definition serves (tbl tbl' : LookupTable) (req : string → option (list string)) : Prop :=
  ∀ e k,
    match req e with
    | Some keys =>
        (is_Some (allocated tbl' e k) ↔ k ∈ keys) ∧
        (∀ p, k ∈ keys → allocated tbl e k = Some p → allocated tbl' e k = Some p)
    | None => allocated tbl' e k = allocated tbl e k
    end.

Lemma AllocatePorts_serves src fuel pa pos e keys pa' pos' u :
  AllocatePorts src fuel pa pos e keys = Some (pa', pos', u) →
  serves (portLookup pa) (portLookup pa') (λ e', if decide (e' = e) then Some keys else None).
Proof.
  intros (_ & Hdom & Hkeep & _ & Hother & _)%AllocatePorts_effect e' k.
  destruct (decide (e' = e)) as [->|]; auto.
Qed.

(** Runs over disjoint sets of endpoints compose. *)
Lemma serves_trans t1 t2 t3 r1 r2 :
  serves t1 t2 r1 → serves t2 t3 r2 → (∀ e, is_Some (r1 e) → r2 e = None) →
  serves t1 t3 (λ e, match r1 e with Some ks => Some ks | None => r2 e end).
Proof.
  intros H1 H2 Hdisj e k. specialize (H1 e k). specialize (H2 e k).
  destruct (r1 e) as [ks|] eqn:E1.
  - rewrite (Hdisj e) in H2 by (rewrite E1; eauto). by rewrite H2.
  - destruct (r2 e) as [ks|]; [|congruence]. rewrite H1 in H2. done.
Qed.

Lemma serves_ext t1 t2 r1 r2 : (∀ e, r1 e = r2 e) → serves t1 t2 r1 → serves t1 t2 r2.
Proof. intros Hr H e k. specialize (H e k). by rewrite <- Hr. Qed.

Lemma serves_refl tbl : serves tbl tbl (λ _, None).
Proof. by intros e k. Qed.

(** What a function [f] of an endpoint says for an endpoint key: of one load
    balancer from index [i] on, and of a list of load balancers. *)
Section find.
Context {A : Type} (f : LoadBalancer → LoadBalancerEndpoints → A).

Fixpoint lb_find (lb : LoadBalancer) (i : nat) (es : list LoadBalancerEndpoints)
    (e : string) : option A :=
  match es with
  | [] => None
  | x :: es => if decide (e = lb_key lb i) then Some (f lb x) else lb_find lb (S i) es e
  end.

Fixpoint lbs_find (lbs : list LoadBalancer) (e : string) : option A :=
  match lbs with
  | [] => None
  | lb :: lbs =>
      match lb_find lb 0 (ls_endpoints (lb_spec lb)) e with
      | Some a => Some a
      | None => lbs_find lbs e
      end
  end.

Lemma lb_find_Some lb i es e a :
  lb_find lb i es e = Some a →
  ∃ j x, es !! j = Some x ∧ e = lb_key lb (i + j) ∧ a = f lb x.
Proof.
  revert i. induction es as [|x es IH]; intros i; simpl; [done|].
  case_decide as He.
  - intros [= <-]. exists 0, x. by rewrite Nat.add_0_r.
  - intros (j & y & ? & ? & ?)%IH. exists (S j), y.
    by replace (i + S j) with (S i + j) by lia.
Qed.

Lemma lb_find_lookup lb i es j x :
  es !! j = Some x → lb_find lb i es (lb_key lb (i + j)) = Some (f lb x).
Proof.
  revert i j. induction es as [|y es IH]; intros i [|j]; simpl; try done.
  - intros [= ->]. by rewrite Nat.add_0_r, decide_True.
  - intros Hj. rewrite decide_False; [|by intros ?%EnvoyEndpointPattern_index_inj; lia].
    replace (i + S j) with (S i + j) by lia. by apply IH.
Qed.

(** The first endpoint is not found again among the later ones. *)
Lemma lb_find_fresh lb i es : lb_find lb (S i) es (lb_key lb i) = None.
Proof.
  destruct (lb_find lb (S i) es (lb_key lb i)) as [a|] eqn:E; [|done].
  apply lb_find_Some in E as (j & y & _ & E & _).
  apply EnvoyEndpointPattern_index_inj in E. lia.
Qed.

Lemma lbs_find_Some lbs e a :
  lbs_find lbs e = Some a → ∃ lb j, lb ∈ lbs ∧ e = lb_key lb j.
Proof.
  induction lbs as [|lb lbs IH]; simpl; [done|].
  destruct (lb_find _ _ _ _) as [ks'|] eqn:E.
  - intros [= <-]. apply lb_find_Some in E as (j & x & _ & -> & _).
    exists lb, j. rewrite elem_of_cons. auto.
  - intros (lb' & j & ? & ?)%IH. exists lb', j. rewrite elem_of_cons. auto.
Qed.
End find.

Lemma identified_cons lb lbs :
  identified (lb :: lbs) →
  identified lbs ∧ ∀ lb' i j, lb' ∈ lbs → lb_key lb i ≠ lb_key lb' j.
Proof.
  intros [Hnd [len Hlen]]. apply list.NoDup_cons in Hnd as [Hnin Hnd].
  inversion Hlen as [|? ? Hl Hls]; subst. split; [split; eauto|].
  intros lb' i j Hin E. apply EnvoyEndpointPattern_inj in E as (Hns & Hn & _).
  - apply Hnin, list_elem_of_fmap. exists lb'. by rewrite Hns, Hn.
  - pose proof (proj1 (list.Forall_forall _ _) Hls lb' Hin). congruence.
Qed.

(** The keys of the first load balancer are not found among the others. *)
Lemma lbs_find_disjoint {A B} (f : LoadBalancer → LoadBalancerEndpoints → A)
    (g : LoadBalancer → LoadBalancerEndpoints → B) lb lbs i e :
  identified (lb :: lbs) → is_Some (lb_find f lb i (ls_endpoints (lb_spec lb)) e) →
  lbs_find g lbs e = None.
Proof.
  intros [_ Hdis]%identified_cons [a Ha].
  destruct (lbs_find g lbs e) as [b|] eqn:E; [|done].
  apply lbs_find_Some in E as (lb' & j & Hin & ->).
  apply lb_find_Some in Ha as (k & x & _ & He & _). by destruct (Hdis lb' (i + k) j Hin).
Qed.

Lemma lbs_find_lookup {A} (f : LoadBalancer → LoadBalancerEndpoints → A) lbs lb i x :
  identified lbs → lb ∈ lbs → ls_endpoints (lb_spec lb) !! i = Some x →
  lbs_find f lbs (lb_key lb i) = Some (f lb x).
Proof.
  induction lbs as [|lb0 lbs IH]; intros Hid; simpl; [by intros ?%elem_of_nil|].
  intros [->|Hin]%elem_of_cons Hx; [by rewrite (lb_find_lookup f _ 0 _ i x)|].
  destruct (lb_find _ _ _ _) as [ks|] eqn:E.
  - apply identified_cons in Hid as [Hid Hdis].
    apply lb_find_Some in E as (j & y & _ & E & _). by destruct (Hdis lb (0 + j) i Hin).
  - apply IH; [by apply identified_cons in Hid as [? _]|done|done].
Qed.

Definition requested (_ : LoadBalancer) (x : LoadBalancerEndpoints) : list string :=
  lb_endpoint_keys x.

Lemma allocate_lb_endpoints_serves src fuel lb i es pa pos pa' pos' :
  allocate_lb_endpoints src fuel pa pos lb i es = Some (pa', pos') →
  (wf pa → wf pa') ∧ serves (portLookup pa) (portLookup pa') (lb_find requested lb i es).
Proof.
  revert i pa pos. induction es as [|x es IH]; intros i pa pos; simpl.
  { intros [= <- <-]. split; [done|]. apply serves_refl. }
  destruct (AllocatePorts _ _ _ _ _ _) as [[[pa1 pos1] u]|] eqn:H1; simpl; [|done].
  intros [Hwf Hs]%IH. split; [eauto with kubelb|].
  apply AllocatePorts_serves in H1. refine (serves_ext _ _ _ _ _ (serves_trans _ _ _ _ _ H1 Hs _)).
  - intros e. unfold lb_key. by repeat case_decide.
  - intros e He. case_decide as Hd; [|by destruct He]. rewrite Hd. apply lb_find_fresh.
Qed.

Lemma AllocatePortsForLoadBalancers_serves src fuel lbs pa pos pa' pos' :
  identified lbs → AllocatePortsForLoadBalancers src fuel pa pos lbs = Some (pa', pos') →
  (wf pa → wf pa') ∧ serves (portLookup pa) (portLookup pa') (lbs_find requested lbs).
Proof.
  revert pa pos. induction lbs as [|lb lbs IH]; intros pa pos Hid; simpl.
  { intros [= <- <-]. split; [done|]. apply serves_refl. }
  destruct (allocate_lb_endpoints _ _ _ _ _ _ _) as [[pa1 pos1]|] eqn:H1; simpl; [|done].
  intros [Hwf Hs]%IH; [|by apply identified_cons in Hid as [? _]].
  apply allocate_lb_endpoints_serves in H1 as [Hwf1 H1].
  split; [auto|].
  refine (serves_trans _ _ _ _ _ H1 Hs _). intros e He. by eapply lbs_find_disjoint.
Qed.

(** After the ports of a list of load balancers are allocated, every port of
    every endpoint has exactly one entry, a port it had before is kept, every
    endpoint that belongs to none of them is untouched, and the invariant holds. *)
Theorem AllocatePortsForLoadBalancers_complete src fuel lbs pa pos pa' pos' :
  wf pa → identified lbs →
  AllocatePortsForLoadBalancers src fuel pa pos lbs = Some (pa', pos') →
  wf pa' ∧
  (∀ lb i x k, lb ∈ lbs → ls_endpoints (lb_spec lb) !! i = Some x →
     ((Lookup pa' (lb_key lb i) k).2 = true ↔ k ∈ lb_endpoint_keys x) ∧
     (k ∈ lb_endpoint_keys x → (Lookup pa (lb_key lb i) k).2 = true →
        Lookup pa' (lb_key lb i) k = Lookup pa (lb_key lb i) k)) ∧
  (∀ e k, (∀ lb j, lb ∈ lbs → e ≠ lb_key lb j) → Lookup pa' e k = Lookup pa e k).
Proof.
  intros Hwf Hid [Hwf' Hs]%AllocatePortsForLoadBalancers_serves; [|done].
  split; [auto|]. split.
  - intros lb i x k Hin Hx. specialize (Hs (lb_key lb i) k).
    rewrite (lbs_find_lookup requested lbs lb i x Hid Hin Hx) in Hs. destruct Hs as [Hdom Hkeep].
    rewrite !Lookup_allocated. split.
    + rewrite <- Hdom. destruct (allocated (portLookup pa') (lb_key lb i) k); simpl; [split; eauto|].
      split; [done|by intros [? ?]].
    + destruct (allocated (portLookup pa) (lb_key lb i) k) as [p|]; [|done].
      intros Hk _. by rewrite (Hkeep p).
  - intros e k He. rewrite !Lookup_allocated. specialize (Hs e k).
    destruct (lbs_find requested lbs e) as [ks|] eqn:E; [|by rewrite Hs].
    apply lbs_find_Some in E as (lb & j & Hin & ->). by destruct (He lb j).
Qed.

(** Sample objects for the witnesses. *)
Definition sample_endpoint (ports : list EndpointPort) : LoadBalancerEndpoints :=
  {| le_name := "default"; le_addresses := [{| ea_ip := "10.0.0.1"; ea_hostname := "" |}];
     le_addressesReference := None; le_ports := ports |}.

Definition sample_lb (ns n : string) (es : list LoadBalancerEndpoints)
    (status : list UpstreamServicePort) : LoadBalancer :=
  {| lb_meta := with_identity n ns "0000-aaaa" zero_meta;
     lb_spec := {| ls_endpoints := es; ls_ports := []; ls_hostname := ""; ls_type := "ClusterIP" |};
     lb_status := {| lst_ingress := None; lst_ports := Some status; lst_hostname := None |} |}.

Definition http_port : EndpointPort := {| ep_name := "http"; ep_port := 30080; ep_protocol := "TCP" |}.
Definition dns_port : EndpointPort := {| ep_name := "dns"; ep_port := 30053; ep_protocol := "UDP" |}.

Definition sample_lbs : list LoadBalancer :=
  [sample_lb "tenant-a" "uid-1" [sample_endpoint [http_port; dns_port]] [];
   sample_lb "tenant-b" "uid-2" [sample_endpoint [http_port]; sample_endpoint [dns_port]] []].

Lemma sample_lbs_identified : identified sample_lbs.
Proof. split; [by apply (bool_decide_unpack _)|]. exists 5. by repeat constructor. Qed.

Lemma AllocatePortsForLoadBalancers_complete_witness :
  ∃ pa' pos', AllocatePortsForLoadBalancers Z.of_nat 9 NewPortAllocator 0 sample_lbs = Some (pa', pos') ∧
    Lookup pa' "tenant-a-uid-1-ep-0" "30053-UDP" = (10001%Z, true) ∧
    Lookup pa' "tenant-b-uid-2-ep-1" "30053-UDP" = (10003%Z, true) ∧ wf pa' ∧
    Lookup pa' "other" "80-TCP" = Lookup NewPortAllocator "other" "80-TCP".
Proof.
  assert (match AllocatePortsForLoadBalancers Z.of_nat 9 NewPortAllocator 0 sample_lbs with
    | Some (pa', _) => Lookup pa' "tenant-a-uid-1-ep-0" "30053-UDP" = (10001%Z, true) ∧
        Lookup pa' "tenant-b-uid-2-ep-1" "30053-UDP" = (10003%Z, true)
    | None => False
    end) as H by (vm_compute; split; reflexivity).
  destruct (AllocatePortsForLoadBalancers Z.of_nat 9 NewPortAllocator 0 sample_lbs)
    as [[pa' pos']|] eqn:E; [|destruct H].
  exists pa', pos'. split; [reflexivity|]. destruct H as [H1 H2].
  destruct (AllocatePortsForLoadBalancers_complete Z.of_nat 9 sample_lbs NewPortAllocator 0 pa' pos'
    New_wf sample_lbs_identified E) as (Hwf & _ & Hother).
  split; [exact H1|]. split; [exact H2|]. split; [exact Hwf|].
  apply Hother. clear. intros lb j [->|[->|H]%elem_of_cons]%elem_of_cons;
    [done|done|by apply elem_of_nil in H].
Defined.

(** ** Deallocation undoes allocation *)

(** The tables agree outside the endpoints [es]. *)
Definition agree_off (es : list string) (t t' : LookupTable) : Prop :=
  ∀ e, e ∉ es → t' !! e = t !! e.

Lemma agree_off_trans es t1 t2 t3 : agree_off es t1 t2 → agree_off es t2 t3 → agree_off es t1 t3.
Proof. intros H1 H2 e He. by rewrite H2, H1. Qed.

Lemma AllocatePorts_agree_off src fuel pa pos e keys pa' pos' u :
  AllocatePorts src fuel pa pos e keys = Some (pa', pos', u) →
  agree_off [e] (portLookup pa) (portLookup pa').
Proof.
  unfold AllocatePorts. destruct (allocate_keys _ _ _ _ _ _ _) as [[[ep1 pos1] u1]|]; simpl; [|done].
  destruct (remove_keys keys ep1 u1) as [ep2 u2]. intros [= <- <- <-] e' He'. simpl.
  apply lookup_insert_ne. intros ->. apply He'. by apply list_elem_of_singleton.
Qed.

Lemma agree_off_mono es es' t t' : (∀ e, e ∈ es → e ∈ es') → agree_off es t t' → agree_off es' t t'.
Proof. intros Hsub H e He. apply H. auto. Qed.

Lemma allocate_lb_endpoints_agree_off src fuel lb i es pa pos pa' pos' :
  allocate_lb_endpoints src fuel pa pos lb i es = Some (pa', pos') →
  agree_off (imap (λ j _, lb_key lb (i + j)) es) (portLookup pa) (portLookup pa').
Proof.
  revert i pa pos. induction es as [|x es IH]; intros i pa pos; simpl; [by intros [= <- <-]|].
  destruct (AllocatePorts _ _ _ _ _ _) as [[[pa1 pos1] u]|] eqn:H1; simpl; [|done].
  intros H2%IH. apply AllocatePorts_agree_off in H1.
  apply (agree_off_trans _ _ (portLookup pa1)).
  - eapply agree_off_mono; [|done]. intros e He. apply list_elem_of_singleton in He as ->.
    rewrite Nat.add_0_r. apply elem_of_cons. by left.
  - eapply agree_off_mono; [|done]. intros e (j & y & -> & Hy)%elem_of_lookup_imap.
    apply elem_of_cons. right. apply elem_of_lookup_imap. exists j, y. split; [|done].
    simpl. f_equal. lia.
Qed.

Lemma allocate_route_services_agree_off src fuel rt rn svcs pa pos pa' pos' :
  allocate_route_services src fuel pa pos rt rn svcs = Some (pa', pos') →
  agree_off (route_endpoint_key rt rn <$> svcs) (portLookup pa) (portLookup pa').
Proof.
  revert pa pos. induction svcs as [|x svcs IH]; intros pa pos; simpl; [by intros [= <- <-]|].
  destruct (AllocatePorts _ _ _ _ _ _) as [[[pa1 pos1] u]|] eqn:H1; simpl; [|done].
  intros H2%IH. apply AllocatePorts_agree_off in H1.
  apply (agree_off_trans _ _ (portLookup pa1)); (eapply agree_off_mono; [|done]).
  - intros e He. apply list_elem_of_singleton in He as ->. apply elem_of_cons. by left.
  - intros e He. apply elem_of_cons. by right.
Qed.

Lemma delete_endpoints_lookup (tbl : LookupTable) es e :
  foldl (λ tbl k, delete k tbl) tbl es !! e = if decide (e ∈ es) then None else tbl !! e.
Proof.
  revert tbl. induction es as [|e0 es IH]; intros tbl; simpl; [done|].
  rewrite IH, lookup_delete.
  destruct (decide (e ∈ es)) as [H1|H1], (decide (e0 = e)) as [H2|H2],
    (decide (e ∈ e0 :: es)) as [H3|H3]; try done; exfalso;
    apply H3 || apply elem_of_cons in H3; rewrite ?elem_of_cons in *; naive_solver.
Qed.

(** Dropping endpoints the table did not have restores it. *)
Lemma DeallocateEndpoints_restores pa pa' es :
  coherent pa → (∀ e, e ∈ es → portLookup pa !! e = None) →
  agree_off es (portLookup pa) (portLookup pa') → DeallocateEndpoints pa' es = pa.
Proof.
  intros Hc Hnone Hoff. rewrite Hc. unfold DeallocateEndpoints. f_equal.
  apply map_eq. intros e. rewrite delete_endpoints_lookup.
  case_decide as He; [by rewrite Hnone|]. by apply Hoff.
Qed.

(** The life of a load balancer leaves no trace in the port table: allocating
    the ports of a load balancer the table does not know and then deallocating
    them gives back the allocator, both tables included. *)
Theorem lb_allocate_deallocate src fuel lb pa pos pa' pos' :
  coherent pa → (∀ e, e ∈ lb_keys lb → portLookup pa !! e = None) →
  AllocatePortsForLoadBalancers src fuel pa pos [lb] = Some (pa', pos') →
  DeallocatePortsForLoadBalancer pa' lb = pa.
Proof.
  intros Hc Hnone H. simpl in H.
  destruct (allocate_lb_endpoints _ _ _ _ _ _ _) as [[pa1 pos1]|] eqn:H1; simpl in H; [|done].
  injection H as -> ->. apply allocate_lb_endpoints_agree_off in H1.
  by apply DeallocateEndpoints_restores.
Qed.

Lemma lb_allocate_deallocate_witness :
  let lb := sample_lb "tenant-a" "uid-1" [sample_endpoint [http_port; dns_port]] [] in
  ∃ pa' pos', AllocatePortsForLoadBalancers Z.of_nat 9 NewPortAllocator 0 [lb] = Some (pa', pos') ∧
    Lookup pa' "tenant-a-uid-1-ep-0" "30053-UDP" = (10001%Z, true) ∧ DeallocatePortsForLoadBalancer pa' lb = NewPortAllocator.
Proof.
  intros lb.
  assert (match AllocatePortsForLoadBalancers Z.of_nat 9 NewPortAllocator 0 [lb] with
    | Some (pa', _) => Lookup pa' "tenant-a-uid-1-ep-0" "30053-UDP" = (10001%Z, true)
    | None => False
    end) as H by (vm_compute; reflexivity).
  destruct (AllocatePortsForLoadBalancers Z.of_nat 9 NewPortAllocator 0 [lb])
    as [[pa' pos']|] eqn:E; [|destruct H].
  exists pa', pos'. split; [reflexivity|]. split; [exact H|].
  apply (lb_allocate_deallocate Z.of_nat 9 lb NewPortAllocator 0 pa' pos').
  - reflexivity.
  - intros e _. apply lookup_empty.
  - exact E.
Defined.

(** Likewise for a Route and the ports of its upstream services. *)
Theorem route_allocate_deallocate src fuel rt source pa pos pa' pos' :
  rsp_kubernetes (rt_spec rt) = Some source → coherent pa →
  (∀ svc, svc ∈ ks_services source →
     portLookup pa !! route_endpoint_key rt (originalRouteName rt source) svc = None) →
  AllocatePortsForRoutes src fuel pa pos [rt] = Some (pa', pos') →
  DeallocatePortsForRoute pa' rt = pa.
Proof.
  intros Hk Hc Hnone. simpl. unfold DeallocatePortsForRoute. rewrite Hk.
  destruct (allocate_route_services _ _ _ _ _ _ _) as [[pa1 pos1]|] eqn:H1; simpl; [|done].
  intros [= <- <-]. apply allocate_route_services_agree_off in H1.
  apply DeallocateEndpoints_restores; [done| |done].
  intros e (svc & -> & Hin)%list_elem_of_fmap. auto.
Qed.

Definition sample_service (ns n : string) (port : Z) : Service :=
  {| svc_type := {| apiVersion := "v1"; kind := "Service" |};
     svc_meta := with_identity n ns "svc-0001" zero_meta;
     svc_spec := with_ports [{| sp_name := "http"; sp_protocol := "TCP"; sp_port := port;
                                sp_targetPort := FromInt 8080; sp_nodePort := 30080;
                                sp_appProtocol := None |}] zero_spec;
     svc_ingress := None; svc_conditions := "" |}.

Definition sample_source : KubernetesSource :=
  {| ks_route := {| u_type := {| apiVersion := "networking.k8s.io/v1"; kind := "Ingress" |};
                    u_meta := with_identity "web" "shop" "ing-0001" zero_meta;
                    u_spec := "" |};
     ks_services := [sample_service "shop" "front" 80; sample_service "shop" "api" 8443] |}.

Definition sample_route : Route :=
  {| rt_type := {| apiVersion := "kubelb.k8c.io/v1alpha1"; kind := "Route" |};
     rt_meta := with_identity "ingress-uid-1" "tenant-a" "rt-0001" zero_meta;
     rt_spec := {| rsp_endpoints := []; rsp_kubernetes := Some sample_source |};
     rt_status := {| rrs_source := ""; rrs_services := None;
                     rrs_route := {| rs_apiVersion := ""; rs_kind := ""; rs_name := ""; rs_namespace := "";
                                     rs_generatedName := ""; rs_status := ""; rs_conditions := [] |} |} |}.

Lemma route_allocate_deallocate_witness :
  ∃ pa' pos', AllocatePortsForRoutes Z.of_nat 9 NewPortAllocator 0 [sample_route] = Some (pa', pos') ∧
    Lookup pa' "tenant-tenant-a-route-shop-api-web" "8443-TCP" = (10001%Z, true) ∧ DeallocatePortsForRoute pa' sample_route = NewPortAllocator.
Proof.
  assert (match AllocatePortsForRoutes Z.of_nat 9 NewPortAllocator 0 [sample_route] with
    | Some (pa', _) => Lookup pa' "tenant-tenant-a-route-shop-api-web" "8443-TCP" = (10001%Z, true)
    | None => False
    end) as H by (vm_compute; reflexivity).
  destruct (AllocatePortsForRoutes Z.of_nat 9 NewPortAllocator 0 [sample_route])
    as [[pa' pos']|] eqn:E; [|destruct H].
  exists pa', pos'. split; [reflexivity|]. split; [exact H|].
  eapply (route_allocate_deallocate Z.of_nat 9 sample_route _ NewPortAllocator 0 pa' pos').
  - reflexivity.
  - reflexivity.
  - intros svc _. apply lookup_empty.
  - exact E.
Defined.

(** ** Restoring the table from the stored status *)

(** The ports recorded for one endpoint. *)
Definition recorded_ports (status : list UpstreamServicePort) (m : gmap string Z)
    (ports : list EndpointPort) : gmap string Z :=
  foldl (λ m p,
    match list_find (λ sp, status_port_matches p sp = true) status with
    | Some (_, sp) => <[EnvoyListenerPattern (ep_port p) (ep_protocol p) :=
                         IntValue (sp_targetPort (usp_port sp))]> m
    | None => m
    end) m ports.

Definition recorded (lb : LoadBalancer) (x : LoadBalancerEndpoints) : gmap string Z :=
  recorded_ports (elems (lst_ports (lb_status lb))) ∅ (le_ports x).

Lemma load_lb_ports_insert e status (tbl : LookupTable) m ports :
  foldl (load_lb_port e status) (<[e := m]> tbl) ports =
  <[e := recorded_ports status m ports]> tbl.
Proof.
  revert m. induction ports as [|p ports IH]; intros m; simpl; [done|].
  rewrite <- IH. f_equal. unfold load_lb_port, set_port.
  destruct (list_find _ _) as [[i sp]|]; [|done]. by rewrite alter_insert_eq.
Qed.

(** The fold over the endpoints of one load balancer, none of them known yet. *)
Lemma load_endpoints_lookup lb (es : list LoadBalancerEndpoints) i (tbl : LookupTable) e :
  (∀ j, tbl !! lb_key lb (i + j) = None) →
  fold_index (λ i tbl x,
      foldl (load_lb_port (lb_key lb i) (elems (lst_ports (lb_status lb))))
        (ensure_endpoint (lb_key lb i) tbl) (le_ports x)) i tbl es !! e =
  match lb_find recorded lb i es e with Some m => Some m | None => tbl !! e end.
Proof.
  revert i tbl. induction es as [|x es IH]; intros i tbl Hnone; simpl; [done|].
  pose proof (Hnone 0) as H0. rewrite Nat.add_0_r in H0.
  unfold ensure_endpoint at 2. rewrite H0, load_lb_ports_insert.
  rewrite IH.
  - destruct (decide (e = lb_key lb i)) as [->|Hne].
    + by rewrite lb_find_fresh, lookup_insert_eq.
    + by rewrite lookup_insert_ne.
  - intros j. rewrite lookup_insert_ne.
    + replace (S i + j) with (i + S j) by lia. apply Hnone.
    + intros H%EnvoyEndpointPattern_index_inj. lia.
Qed.

Lemma load_lbs_lookup lbs (tbl : LookupTable) e :
  identified lbs → (∀ lb j, lb ∈ lbs → tbl !! lb_key lb j = None) →
  foldl load_lb tbl lbs !! e =
  match lbs_find recorded lbs e with Some m => Some m | None => tbl !! e end.
Proof.
  revert tbl. induction lbs as [|lb lbs IH]; intros tbl Hid Hnone; simpl; [done|].
  assert (∀ e, load_lb tbl lb !! e =
    match lb_find recorded lb 0 (ls_endpoints (lb_spec lb)) e with
    | Some m => Some m | None => tbl !! e end) as Hlb.
  { intros e'. apply (load_endpoints_lookup lb). intros j. apply Hnone.
    apply elem_of_cons. by left. }
  pose proof (identified_cons _ _ Hid) as [Hid' Hdis].
  rewrite IH; [|done|].
  - rewrite Hlb. destruct (lb_find recorded lb 0 _ e) as [m|] eqn:E; [|done].
    by rewrite (lbs_find_disjoint recorded recorded lb lbs 0 e Hid) by (rewrite E; eauto).
  - intros lb' j Hin. rewrite Hlb.
    destruct (lb_find _ _ _ _ _) as [m|] eqn:E.
    + apply lb_find_Some in E as (k & y & _ & E & _). by destruct (Hdis lb' (0 + k) j Hin).
    + apply Hnone. apply elem_of_cons. by right.
Qed.

(** Loading a route touches only the keys of its services. *)
Definition route_keys (rt : Route) : list string :=
  match rsp_kubernetes (rt_spec rt) with
  | None => []
  | Some source => route_endpoint_key rt (originalRouteName rt source) <$> ks_services source
  end.

Lemma load_route_service_other rt rn (tbl : LookupTable) svc e :
  e ≠ route_endpoint_key rt rn svc → load_route_service rt rn tbl svc !! e = tbl !! e.
Proof.
  intros Hne. unfold load_route_service.
  assert (ensure_endpoint (route_endpoint_key rt rn svc) tbl !! e = tbl !! e) as <-.
  { unfold ensure_endpoint. case_match; [done|]. by rewrite lookup_insert_ne. }
  destruct (rrs_services (rt_status rt)) as [svcs|]; [|done].
  destruct (svcs !! _) as [st|]; [|done].
  generalize (ensure_endpoint (route_endpoint_key rt rn svc) tbl). clear tbl.
  induction (rss_ports st) as [|p ps IH]; intros tbl; simpl; [done|].
  rewrite IH. unfold set_port. by rewrite lookup_alter_ne.
Qed.

Lemma load_routes_other rts (tbl : LookupTable) e :
  (∀ rt, rt ∈ rts → e ∉ route_keys rt) → foldl load_route tbl rts !! e = tbl !! e.
Proof.
  revert tbl. induction rts as [|rt rts IH]; intros tbl Hno; simpl; [done|].
  rewrite IH by (intros rt' ?; apply Hno, elem_of_cons; by right).
  pose proof (Hno rt ltac:(apply elem_of_cons; by left)) as H. clear IH Hno.
  unfold load_route, route_keys in *. destruct (rsp_kubernetes (rt_spec rt)) as [src|]; [|done].
  revert tbl. induction (ks_services src) as [|svc svcs IH]; intros tbl; simpl; [done|].
  rewrite fmap_cons, not_elem_of_cons in H. destruct H as [? ?].
  by rewrite IH, load_route_service_other.
Qed.

(** With one endpoint port per key, each finds what the status records for it. *)
Lemma recorded_ports_other status m ports k :
  k ∉ ((λ p, EnvoyListenerPattern (ep_port p) (ep_protocol p)) <$> ports) →
  recorded_ports status m ports !! k = m !! k.
Proof.
  revert m. induction ports as [|p ports IH]; intros m Hk; simpl; [done|].
  rewrite fmap_cons, not_elem_of_cons in Hk. destruct Hk as [Hne Hk]. rewrite (IH _ Hk).
  destruct (list_find _ _) as [[i sp]|]; [|done]. by rewrite lookup_insert_ne.
Qed.

Lemma recorded_ports_lookup status m ports p :
  base.NoDup ((λ p, EnvoyListenerPattern (ep_port p) (ep_protocol p)) <$> ports) → p ∈ ports →
  recorded_ports status m ports !! EnvoyListenerPattern (ep_port p) (ep_protocol p) =
  match list_find (λ sp, status_port_matches p sp = true) status with
  | Some (_, sp) => Some (IntValue (sp_targetPort (usp_port sp)))
  | None => m !! EnvoyListenerPattern (ep_port p) (ep_protocol p)
  end.
Proof.
  revert m. induction ports as [|q ports IH]; intros m Hnd; [by intros ?%elem_of_nil|].
  rewrite fmap_cons in Hnd. apply list.NoDup_cons in Hnd as [Hq Hnd].
  intros [->|Hp]%elem_of_cons; simpl.
  - rewrite recorded_ports_other by done.
    destruct (list_find _ _) as [[i sp]|]; [|done]. by rewrite lookup_insert_eq.
  - rewrite (IH _ Hnd Hp). destruct (list_find (λ sp, status_port_matches p sp = true) status) as [[??]|];
      [done|].
    destruct (list_find _ _) as [[i sp]|]; [|done]. rewrite lookup_insert_ne; [done|].
    intros E. apply Hq. rewrite E. apply list_elem_of_fmap. eauto.
Qed.

(** After a restart LoadState restores the allocation of every endpoint port
    of every load balancer: the port looked up for it is the target port of the
    first status port that matches it in target port, protocol and name, and there
    is none when the status has no match; the reverse table is rebuilt with it. *)
Lemma LoadState_restores {Err} pa lbs rts lb i x p :
  identified lbs → lb ∈ lbs → ls_endpoints (lb_spec lb) !! i = Some x →
  p ∈ le_ports x → base.NoDup (lb_endpoint_keys x) →
  (∀ rt, rt ∈ rts → lb_key lb i ∉ route_keys rt) →
  let pa' := (LoadState (Err := Err) pa (inr lbs) (inr rts)).1 in
  coherent pa' ∧
  Lookup pa' (lb_key lb i) (EnvoyListenerPattern (ep_port p) (ep_protocol p)) =
    match list_find (λ sp, status_port_matches p sp = true) (elems (lst_ports (lb_status lb))) with
    | Some (_, sp) => (IntValue (sp_targetPort (usp_port sp)), true)
    | None => ((-1)%Z, false)
    end.
Proof.
  intros Hid Hin Hx Hp Hnd Hrt. simpl. split; [apply recompute_coherent|].
  unfold Lookup. simpl. rewrite load_routes_other by done.
  rewrite load_lbs_lookup by (done || intros; apply lookup_empty).
  rewrite (lbs_find_lookup recorded lbs lb i x Hid Hin Hx). unfold recorded.
  rewrite recorded_ports_lookup by done. rewrite lookup_empty.
  by destruct (list_find _ _) as [[??]|].
Qed.

(** A failed List leaves the allocator as it was and is reported. *)
Theorem LoadState_error {Err} pa (lbs : Err + list LoadBalancer) (rts : Err + list Route) :
  (∃ e, (LoadState pa lbs rts) = (pa, Some e) ∧ (lbs = inl e ∨ rts = inl e)) ∨
  (∃ l r, lbs = inr l ∧ rts = inr r ∧ (LoadState pa lbs rts).2 = None).
Proof. destruct lbs as [e|l], rts as [e'|r]; simpl; eauto 10. Qed.

(** ** The ports of routes *)

(** Services with distinct keys all get their ports. *)
Lemma allocate_route_services_serves src fuel rt rn svcs pa pos pa' pos' :
  base.NoDup (route_endpoint_key rt rn <$> svcs) →
  allocate_route_services src fuel pa pos rt rn svcs = Some (pa', pos') →
  (wf pa → wf pa') ∧
  ∀ svc k, svc ∈ svcs →
    (is_Some (allocated (portLookup pa') (route_endpoint_key rt rn svc) k) ↔ k ∈ svc_port_keys svc).
Proof.
  revert pa pos. induction svcs as [|x svcs IH]; intros pa pos Hnd; simpl.
  { intros [= <- <-]. split; [done|]. by intros svc k ?%elem_of_nil. }
  rewrite fmap_cons in Hnd. apply list.NoDup_cons in Hnd as [Hx Hnd].
  destruct (AllocatePorts _ _ _ _ _ _) as [[[pa1 pos1] u]|] eqn:H1; simpl; [|done].
  intros H2. pose proof (allocate_route_services_agree_off _ _ _ _ _ _ _ _ _ H2) as Hoff.
  apply IH in H2 as [Hwf Hall]; [|done]. split; [eauto with kubelb|].
  intros svc k [->|Hin]%elem_of_cons; [|by apply Hall].
  unfold allocated. rewrite (Hoff _ Hx).
  apply AllocatePorts_effect in H1 as (_ & Hdom & _). apply (Hdom k).
Qed.

(** allocating the ports of a Route whose services have distinct keys keeps the
    invariant and gives every port of every service exactly one entry. *)
Theorem AllocatePortsForRoutes_complete src fuel rt source pa pos pa' pos' :
  rsp_kubernetes (rt_spec rt) = Some source → wf pa →
  base.NoDup (route_endpoint_key rt (originalRouteName rt source) <$> ks_services source) →
  AllocatePortsForRoutes src fuel pa pos [rt] = Some (pa', pos') →
  wf pa' ∧
  ∀ svc k, svc ∈ ks_services source →
    ((Lookup pa' (route_endpoint_key rt (originalRouteName rt source) svc) k).2 = true ↔
     k ∈ svc_port_keys svc).
Proof.
  intros Hk Hwf Hnd. simpl. rewrite Hk.
  destruct (allocate_route_services _ _ _ _ _ _ _) as [[pa1 pos1]|] eqn:H1; simpl; [|done].
  intros [= <- <-]. apply allocate_route_services_serves in H1 as [Hwf' Hall]; [|done].
  split; [auto|]. intros svc k Hin. rewrite <- (Hall svc k Hin), Lookup_allocated.
  destruct (allocated _ _ _); simpl; [split; eauto|]. split; [done|by intros [? ?]].
Qed.

Lemma AllocatePortsForRoutes_complete_witness :
  ∃ pa' pos', AllocatePortsForRoutes Z.of_nat 9 NewPortAllocator 0 [sample_route] = Some (pa', pos') ∧
    wf pa' ∧ (Lookup pa' "tenant-tenant-a-route-shop-front-web" "80-TCP").2 = true.
Proof.
  assert (match AllocatePortsForRoutes Z.of_nat 9 NewPortAllocator 0 [sample_route] with
    | Some _ => True | None => False end) as H by (vm_compute; exact I).
  destruct (AllocatePortsForRoutes Z.of_nat 9 NewPortAllocator 0 [sample_route])
    as [[pa' pos']|] eqn:E; [|destruct H].
  exists pa', pos'. split; [reflexivity|].
  destruct (AllocatePortsForRoutes_complete Z.of_nat 9 sample_route _ NewPortAllocator 0 pa' pos'
    eq_refl New_wf) as [Hwf Hall].
  - computed.
  - exact E.
  - split; [exact Hwf|]. apply (Hall (sample_service "shop" "front" 80) "80-TCP").
    + apply elem_of_cons. left. reflexivity.
    + apply elem_of_cons. left. reflexivity.
Defined.
