(* ===== verification/Annotations.v ===== *)
(** * Annotations (internal/kubelb/utils.go, internal/controllers/kubelb/shared.go,
      internal/util/kubernetes/util.go)

    Which annotations of a LoadBalancer or Route reach the objects created for it,
    which defaults are added, and how the annotations of an existing object are
    compared and merged.

    Go maps are shared by reference and [PropagateAnnotations] hands back its
    argument in one branch, so the maps it works on live in a [heap]; the
    contents of the result are also given as a pure function, [propagated]. *)
From Stdlib Require Import Ascii.
From stdpp Require Import base gmap sets list strings.
From S2P Require Import Prelude GoStrings Api Names.
Import Core V1alpha1.

(** internal/resources: the annotations of external-dns and cert-manager. *)
Definition ExternalDNSHostnameAnnotation : string := "external-dns.alpha.kubernetes.io/hostname".
Definition ExternalDNSTTLAnnotation : string := "external-dns.alpha.kubernetes.io/ttl".
Definition ExternalDNSTTLDefault : string := "10".
Definition CertManagerClusterIssuerAnnotation : string := "cert-manager.io/cluster-issuer".

(** ** The heap of maps *)

Abbreviation loc := nat (only parsing).
Abbreviation heap := (gmap nat (gmap string string)).
(** A value of type [map[string]string]: nil or a reference. *)
Definition mapref : Type := option loc.

Definition mread (h : heap) (r : mapref) : gmap string string :=
  match r with Some l => default ∅ (h !! l) | None => ∅ end.

Arguments mread : simpl never.

(** [make(map[string]string)], filled with [m]. *)
Definition malloc (h : heap) (m : gmap string string) : heap * loc :=
  let l := fresh (dom h) in (<[l := m]> h, l).

Arguments malloc : simpl never.

(** [r[k] = v] *)
Definition mwrite (h : heap) (l : loc) (k v : string) : heap := alter (<[k := v]>) l h.

(** ** Propagation *)

(** One loop of [applyDefaultAnnotations]. *)
Definition add_missing (h : heap) (l : loc) (defaults : gmap string string) : heap :=
  foldl (λ h '(k, v),
           match mread h (Some l) !! k with Some _ => h | None => mwrite h l k v end)
        h (map_to_list defaults).

Definition applyDefaultAnnotations (h : heap) (l : loc) (annotations : AnnotationSettings)
    (resource : AnnotatedResource) : heap :=
  match defaultAnnotations annotations with
  | None => h
  | Some defaults =>
      let h := match defaults resource with Some d => add_missing h l d | None => h end in
      match defaults ResourceAll with Some d => add_missing h l d | None => h end
  end.

Definition is_true (b : option bool) : bool := match b with Some true => true | _ => false end.

Section propagate.
Context `{Unicode}.

(** The values a permitted annotation may take; none listed means all. *)
Definition filter_values (v : string) : list string :=
  if decide (v = "") then [] else TrimSpace <$> Split v ","%char.

Definition permitted_map (permitted : gmap string string) : gmap string (list string) :=
  foldl (λ pm '(k, v),
           match pm !! k with Some _ => pm | None => <[k := filter_values v]> pm end)
        ∅ (map_to_list permitted).

Definition filter_annotations (pm : gmap string (list string)) (lb : gmap string string)
    : gmap string string :=
  foldl (λ a '(k, v),
           match pm !! k with
           | Some [] => <[k := v]> a
           | Some vfs => if decide (v ∈ vfs) then <[k := v]> a else a
           | None => a
           end)
        ∅ (map_to_list lb).

Definition PropagateAnnotations (h : heap) (loadbalancer : mapref)
    (annotations : AnnotationSettings) (resource : AnnotatedResource) : heap * loc :=
  let '(h, loadbalancer) :=
    match loadbalancer with Some l => (h, l) | None => malloc h ∅ end in
  if is_true (propagateAllAnnotations annotations) then
    (applyDefaultAnnotations h loadbalancer annotations resource, loadbalancer)
  else
    let permitted := default ∅ (propagatedAnnotations annotations) in
    let '(h, a) := malloc h (filter_annotations (permitted_map permitted)
                               (mread h (Some loadbalancer))) in
    (applyDefaultAnnotations h a annotations resource, a).
End propagate.

(** ** Precedence of the settings (shared.go) *)

Definition GetAnnotations (tenant : Tenant) (config : Config) : AnnotationSettings :=
  let t := ts_annotations (tn_spec tenant) in
  let c := cs_annotations (cf_spec config) in
  let '(all, some) :=
    if is_true (propagateAllAnnotations c) then (propagateAllAnnotations c, None)
    else match propagatedAnnotations c with Some m => (None, Some m) | None => (None, None) end in
  let '(all, some) :=
    if is_true (propagateAllAnnotations t) then (propagateAllAnnotations t, some)
    else match propagatedAnnotations t with Some m => (all, Some m) | None => (all, some) end in
  {| propagateAllAnnotations := all; propagatedAnnotations := some;
     defaultAnnotations :=
       match defaultAnnotations t with
       | Some d => Some d
       | None => defaultAnnotations c
       end |}.

(** ** DNS and certificate annotations *)

Definition tenant_or_config (tenant : option bool) (config : bool) : bool :=
  match tenant with Some b => b | None => config end.

(** A nil map is replaced by a new one that nobody else holds. *)
Definition AddDNSAndCertificateAnnotations (h : heap) (annotations : mapref) (tenant : Tenant)
    (config : Config) (hostname : string) (skipCertificateAnnotations : bool) : heap :=
  let '(h, l) := match annotations with Some l => (h, l) | None => malloc h ∅ end in
  let tdns := ts_dns (tn_spec tenant) in
  let cdns := cs_dns (cf_spec config) in
  let h :=
    if tenant_or_config (useDNSAnnotations tdns) (cd_useDNSAnnotations cdns)
    then mwrite (mwrite h l ExternalDNSHostnameAnnotation hostname)
           l ExternalDNSTTLAnnotation ExternalDNSTTLDefault
    else h in
  if skipCertificateAnnotations then h
  else if tenant_or_config (useCertificateAnnotations tdns) (cd_useCertificateAnnotations cdns) then
    match defaultClusterIssuer (ts_certificates (tn_spec tenant)) with
    | Some issuer => mwrite h l CertManagerClusterIssuerAnnotation issuer
    | None =>
        match defaultClusterIssuer (cs_certificates (cf_spec config)) with
        | Some issuer => mwrite h l CertManagerClusterIssuerAnnotation issuer
        | None => h
        end
    end
  else h.

(** ** Comparing and merging (internal/util/kubernetes/util.go) *)

(** [equality.Semantic.DeepEqual] of apimachinery on a type [A]. *)
Class SemanticDeepEqual (A : Type) := semantic_deep_equal : A → A → bool.

(** Its documented behaviour on maps: the entries decide, and a nil map equals an
    empty one. *)
Class SemanticMaps `{SemanticDeepEqual (gomap string)} : Prop :=
  semantic_maps a b : semantic_deep_equal a b = true ↔ contents a = contents b.

Section compare.
Context `{SemanticDeepEqual (gomap string)}.

Definition CompareAnnotations (a b : gomap string) : bool :=
  match a, b with
  | None, None => true
  | None, _ | _, None => false
  | Some x, Some y =>
      if semantic_deep_equal a b then true
      else semantic_deep_equal (Some (delete LastAppliedConfigAnnotation x))
             (Some (delete LastAppliedConfigAnnotation y))
  end.

(** [maps.Copy] twice: the desired annotations overwrite the existing ones. *)
Definition MergeAnnotations (existing desired : gomap string) : gomap string :=
  if CompareAnnotations existing desired then existing
  else Some (contents desired ∪ contents existing).
End compare.

(** ** Facts about the heap *)

Lemma mread_malloc h m : mread (malloc h m).1 (Some (malloc h m).2) = m.
Proof. unfold mread. simpl. by rewrite lookup_insert_eq. Qed.

Lemma malloc_old h m l : l ∈ dom h → (malloc h m).1 !! l = h !! l.
Proof.
  intros Hl. unfold malloc. cbn [fst]. apply lookup_insert_ne. intros E.
  rewrite <- E in Hl. by apply is_fresh in Hl.
Qed.

Lemma malloc_fresh h m : (malloc h m).2 ∉ dom h.
Proof. apply is_fresh. Qed.

Lemma malloc_dom h m : (malloc h m).2 ∈ dom (malloc h m).1.
Proof. simpl. rewrite dom_insert. apply elem_of_union_l, elem_of_singleton. done. Qed.

Lemma mwrite_read h l k v : l ∈ dom h → mread (mwrite h l k v) (Some l) = <[k := v]> (mread h (Some l)).
Proof.
  intros [m Hm]%elem_of_dom. unfold mread, mwrite. by rewrite lookup_alter_eq, Hm.
Qed.

Lemma mwrite_other h l l' k v : l' ≠ l → mwrite h l k v !! l' = h !! l'.
Proof. intros. by apply lookup_alter_ne. Qed.

Lemma mwrite_dom h l k v : dom (mwrite h l k v) = dom h.
Proof. apply dom_alter_L. Qed.

Lemma add_missing_other h l d l' : l' ≠ l → add_missing h l d !! l' = h !! l'.
Proof.
  intros Hne. unfold add_missing. revert h.
  induction (map_to_list d) as [|[k v] kvs IH]; intros h; [done|]. cbn [foldl].
  rewrite IH. destruct (mread h (Some l) !! k); [done|]. by apply mwrite_other.
Qed.

Lemma add_missing_dom h l d : dom (add_missing h l d) = dom h.
Proof.
  unfold add_missing. revert h.
  induction (map_to_list d) as [|[k v] kvs IH]; intros h; [done|]. cbn [foldl].
  rewrite IH. destruct (mread h (Some l) !! k); [done|]. apply mwrite_dom.
Qed.

(** The loop over a list of entries with distinct keys. *)
Lemma add_missing_loop h l (kvs : list (string * string)) :
  l ∈ dom h → base.NoDup (kvs.*1) →
  mread (foldl (λ h '(k, v),
           match mread h (Some l) !! k with Some _ => h | None => mwrite h l k v end) h kvs) (Some l) =
  mread h (Some l) ∪ list_to_map kvs.
Proof.
  revert h. induction kvs as [|[k v] kvs IH]; intros h Hl Hnd; cbn [foldl].
  { by rewrite list_to_map_nil, (right_id_L ∅ (∪)). }
  cbn [fmap list_fmap] in Hnd. apply list.NoDup_cons in Hnd as [Hk Hnd]. simpl in Hk.
  destruct (mread h (Some l) !! k) as [w|] eqn:Hw.
  - rewrite IH by done. apply map_eq. intros j. rewrite !lookup_union, list_to_map_cons.
    destruct (decide (j = k)) as [->|Hne].
    + by rewrite Hw, !union_Some_l.
    + by rewrite lookup_insert_ne.
  - rewrite IH by (done || by rewrite mwrite_dom). rewrite mwrite_read by done.
    rewrite list_to_map_cons. apply map_eq. intros j. rewrite !lookup_union.
    destruct (decide (j = k)) as [->|Hne].
    + rewrite !lookup_insert_eq, Hw. by rewrite union_Some_l, (left_id_L None (∪)).
    + by rewrite !lookup_insert_ne.
Qed.

Lemma add_missing_read h l d :
  l ∈ dom h → mread (add_missing h l d) (Some l) = mread h (Some l) ∪ d.
Proof.
  intros Hl. unfold add_missing. rewrite add_missing_loop; [|done|apply NoDup_fst_map_to_list].
  by rewrite list_to_map_to_list.
Qed.

(** ** What is propagated *)

(** The defaults of a kind of resource, none when the field is unset. *)
Definition defaults_for (s : AnnotationSettings) (r : AnnotatedResource) : gmap string string :=
  match defaultAnnotations s with Some d => default ∅ (d r) | None => ∅ end.

Lemma applyDefaultAnnotations_read h l s r :
  l ∈ dom h →
  mread (applyDefaultAnnotations h l s r) (Some l) =
  mread h (Some l) ∪ defaults_for s r ∪ defaults_for s ResourceAll.
Proof.
  intros Hl. unfold applyDefaultAnnotations, defaults_for.
  destruct (defaultAnnotations s) as [d|]; [|by rewrite !(right_id_L ∅ (∪))].
  destruct (d r) as [dr|], (d ResourceAll) as [da|]; cbn [default from_option id];
    rewrite ?add_missing_read by (done || by rewrite add_missing_dom);
    by repeat rewrite (right_id_L ∅ (∪)).
Qed.

Lemma applyDefaultAnnotations_other h l s r l' :
  l' ≠ l → applyDefaultAnnotations h l s r !! l' = h !! l'.
Proof.
  intros Hne. unfold applyDefaultAnnotations.
  destruct (defaultAnnotations s) as [d|]; [|done].
  destruct (d r), (d ResourceAll); by rewrite ?add_missing_other.
Qed.

Section propagated.
Context `{Unicode}.

(** May annotation [k] with value [v] pass? *)
Definition passes (s : AnnotationSettings) (k v : string) : bool :=
  is_true (propagateAllAnnotations s) ||
  match default ∅ (propagatedAnnotations s) !! k with
  | Some f => bool_decide (filter_values f = []) || bool_decide (v ∈ filter_values f)
  | None => false
  end.

(** The annotations that reach a resource of kind [r]. *)
Definition propagated (s : AnnotationSettings) (r : AnnotatedResource)
    (lb : gmap string string) : gmap string string :=
  filter (λ kv, passes s kv.1 kv.2 = true) lb ∪ defaults_for s r ∪ defaults_for s ResourceAll.

Lemma permitted_map_loop (kvs : list (string * string)) (pm : gmap string (list string)) :
  base.NoDup (kvs.*1) → (∀ k, k ∈ kvs.*1 → pm !! k = None) →
  foldl (λ pm '(k, v),
     match pm !! k with Some _ => pm | None => <[k := filter_values v]> pm end) pm kvs =
  (filter_values <$> list_to_map kvs) ∪ pm.
Proof.
  revert pm. induction kvs as [|[k v] kvs IH]; intros pm Hnd Hnone; cbn [foldl].
  { by rewrite list_to_map_nil, fmap_empty, (left_id_L ∅ (∪)). }
  cbn [fmap list_fmap] in Hnd. apply list.NoDup_cons in Hnd as [Hk Hnd]. simpl in Hk.
  rewrite Hnone by (cbn [fmap list_fmap fst]; apply elem_of_cons; by left).
  rewrite IH; [|done|].
  - rewrite list_to_map_cons, fmap_insert. apply map_eq. intros j. rewrite !lookup_union.
    destruct (decide (j = k)) as [->|Hne].
    + rewrite !lookup_insert_eq, lookup_fmap, (not_elem_of_list_to_map_1 kvs k Hk). simpl.
      by rewrite union_Some_l, (left_id_L None (∪)).
    + by rewrite !lookup_insert_ne.
  - intros j Hj. rewrite lookup_insert_ne by (intros ->; done).
    apply Hnone. cbn [fmap list_fmap]. apply elem_of_cons. by right.
Qed.

Lemma permitted_map_spec m : permitted_map m = filter_values <$> m.
Proof.
  unfold permitted_map. rewrite permitted_map_loop.
  - by rewrite list_to_map_to_list, (right_id_L ∅ (∪)).
  - apply NoDup_fst_map_to_list.
  - intros. apply lookup_empty.
Qed.

Lemma filter_annotations_loop (pm : gmap string (list string)) (kvs : list (string * string)) a :
  base.NoDup (kvs.*1) →
  foldl (λ a '(k, v),
           match pm !! k with
           | Some [] => <[k := v]> a
           | Some vfs => if decide (v ∈ vfs) then <[k := v]> a else a
           | None => a
           end) a kvs =
  filter (λ kv, match pm !! kv.1 with
                | Some f => bool_decide (f = []) || bool_decide (kv.2 ∈ f)
                | None => false end = true) (list_to_map (M := gmap string string) kvs) ∪ a.
Proof.
  revert a. induction kvs as [|[k v] kvs IH]; intros a Hnd; cbn [foldl].
  { by rewrite list_to_map_nil, map_filter_empty, (left_id_L ∅ (∪)). }
  cbn [fmap list_fmap] in Hnd. apply list.NoDup_cons in Hnd as [Hk Hnd]. simpl in Hk.
  assert (list_to_map (M := gmap string string) kvs !! k = None) as Hnone.
  { by apply not_elem_of_list_to_map_1. }
  rewrite IH, list_to_map_cons by done.
  set (P := λ kv, _ = true).
  assert (∀ x : gmap string string, filter P x ∪ <[k := v]> a = <[k := v]> (filter P x ∪ a) ∨
     is_Some (filter P x !! k)) as Hins.
  { intros x. destruct (filter P x !! k) as [w|] eqn:E; [eauto|]. left. apply map_eq.
    intros j. rewrite lookup_union. destruct (decide (j = k)) as [->|Hne].
    - by rewrite !lookup_insert_eq, E, (left_id_L None (∪)).
    - by rewrite !lookup_insert_ne, lookup_union. }
  destruct (Hins (list_to_map kvs)) as [Hi|[w Hw]].
  2: { apply map_lookup_filter_Some in Hw as [Hw _]. congruence. }
  assert (P (k, v) → filter P (<[k := v]> (list_to_map kvs)) ∪ a =
    <[k := v]> (filter P (list_to_map (M := gmap string string) kvs) ∪ a)) as Hyes.
  { intros HP. rewrite map_filter_insert_True by done. by rewrite insert_union_l. }
  assert (¬ P (k, v) → filter P (<[k := v]> (list_to_map kvs)) ∪ a =
    filter P (list_to_map (M := gmap string string) kvs) ∪ a) as Hno.
  { intros HP. rewrite map_filter_insert_False by done. by rewrite delete_id. }
  destruct (pm !! k) as [[|f fs]|] eqn:Hf.
  - rewrite Hi, Hyes; [done|]. unfold P. simpl. by rewrite Hf.
  - destruct (decide (v ∈ f :: fs)) as [Hv|Hv].
    + rewrite Hi, Hyes; [done|]. unfold P. simpl. rewrite Hf.
      by rewrite (bool_decide_eq_true_2 _ Hv), orb_true_r.
    + rewrite Hno; [done|]. unfold P. simpl. rewrite Hf.
      by rewrite (bool_decide_eq_false_2 _ Hv).
  - rewrite Hno; [done|]. unfold P. simpl. by rewrite Hf.
Qed.

Lemma filter_annotations_spec s lb :
  is_true (propagateAllAnnotations s) = false →
  filter_annotations (permitted_map (default ∅ (propagatedAnnotations s))) lb =
  filter (λ kv, passes s kv.1 kv.2 = true) lb.
Proof.
  intros Hall. unfold filter_annotations. rewrite filter_annotations_loop.
  - rewrite list_to_map_to_list, (right_id_L ∅ (∪)). apply map_filter_ext.
    intros k v _. unfold passes. rewrite Hall, permitted_map_spec, lookup_fmap. simpl.
    by destruct (default ∅ (propagatedAnnotations s) !! k).
  - apply NoDup_fst_map_to_list.
Qed.

Lemma filter_all s (lb : gmap string string) :
  is_true (propagateAllAnnotations s) = true →
  filter (λ kv, passes s kv.1 kv.2 = true) lb = lb.
Proof.
  intros Hall. apply map_filter_id. intros k v _. unfold passes. by rewrite Hall.
Qed.

(** The contents of the result, in both branches. *)
Lemma PropagateAnnotations_contents h lb s r :
  (∀ l, lb = Some l → l ∈ dom h) →
  let '(h', l') := PropagateAnnotations h lb s r in
  mread h' (Some l') = propagated s r (mread h lb).
Proof.
  intros Hlb. unfold PropagateAnnotations, propagated.
  set (hl := match lb with Some l => (h, l) | None => malloc h ∅ end).
  assert (hl.2 ∈ dom hl.1 ∧ mread hl.1 (Some hl.2) = mread h lb) as [Hdom Hread].
  { unfold hl. destruct lb as [l|]; [split; [by apply Hlb|done]|].
    split; [apply malloc_dom|apply mread_malloc]. }
  destruct hl as [h1 l1]. cbn [fst snd] in *.
  destruct (is_true (propagateAllAnnotations s)) eqn:Hall.
  - rewrite applyDefaultAnnotations_read, Hread by done. by rewrite filter_all.
  - rewrite Hread, filter_annotations_spec by done.
    set (m := filter _ (mread h lb)).
    pose proof (mread_malloc h1 m) as Hm. pose proof (malloc_dom h1 m).
    destruct (malloc h1 m) as [h2 l2]. cbn [fst snd] in *.
    rewrite applyDefaultAnnotations_read by done. by rewrite Hm.
Qed.
End propagated.

(** C35: PropagateAnnotations returns a map that holds exactly the permitted
    annotations of the load balancer, then the defaults of the resource kind, then
    the defaults for all kinds, each only for keys not yet there.  The map is the
    load balancer's own when everything is propagated (the defaults are then
    written into it), a new one otherwise; every other map is left alone. *)
Theorem PropagateAnnotations_spec `{Unicode} h lb s r h' l' :
  (∀ l, lb = Some l → l ∈ dom h) →
  PropagateAnnotations h lb s r = (h', l') →
  mread h' (Some l') = propagated s r (mread h lb) ∧
  (if is_true (propagateAllAnnotations s) then lb = Some l' ∨ l' ∉ dom h else l' ∉ dom h) ∧
  (∀ l, l ∈ dom h → l ≠ l' → h' !! l = h !! l).
Proof.
  intros Hlb Heq. pose proof (PropagateAnnotations_contents h lb s r Hlb) as Hread.
  rewrite Heq in Hread. split; [done|]. revert Heq. unfold PropagateAnnotations.
  set (hl := match lb with Some l => (h, l) | None => malloc h ∅ end).
  assert ((∀ l, l ∈ dom h → hl.1 !! l = h !! l) ∧ (lb = Some hl.2 ∨ hl.2 ∉ dom h)) as [Hold Hwhich].
  { unfold hl. destruct lb as [l|]; [by auto|].
    split; [intros; by apply malloc_old|right; apply malloc_fresh]. }
  destruct hl as [h1 l1]. cbn [fst snd] in *.
  assert (∀ l, l ∈ dom h → l ∈ dom h1) as Hsub.
  { intros l Hl. apply elem_of_dom. rewrite Hold by done. by apply elem_of_dom. }
  destruct (is_true (propagateAllAnnotations s)).
  - intros [= <- <-]. split; [done|]. intros l Hl Hne.
    rewrite applyDefaultAnnotations_other by done. auto.
  - set (m := filter_annotations _ _). pose proof (malloc_fresh h1 m) as Hf.
    pose proof (malloc_old h1 m) as Hold1. destruct (malloc h1 m) as [h2 l2]. cbn [fst snd] in *.
    intros [= <- <-]. split; [auto|]. intros l Hl Hne.
    rewrite applyDefaultAnnotations_other, Hold1 by auto. auto.
Qed.

Definition sample_settings (all : bool) : AnnotationSettings :=
  {| propagatedAnnotations := Some {[ "team" := "red, blue"; "note" := "" ]};
     propagateAllAnnotations := Some all;
     defaultAnnotations := Some (λ r, match r with
       | ResourceService => Some {[ "tier" := "gold" ]}
       | ResourceAll => Some {[ "tier" := "any"; "owner" := "kubelb" ]}
       | _ => None end) |}.

(** An implementation of the Unicode parameter, for evaluating on ASCII strings. *)
Definition no_unicode : Unicode := {| unicode_lower := id; unicode_trim_space := id |}.

Lemma PropagateAnnotations_spec_witness :
  let h : heap := {[ 0 := {[ "team" := "blue"; "note" := "x"; "secret" := "s" ]} ]} in
  let '(h', l') := PropagateAnnotations (H := no_unicode) h (Some 0) (sample_settings false) ResourceService in
  mread h' (Some l') =
    propagated (H := no_unicode) (sample_settings false) ResourceService (mread h (Some 0)) ∧
  mread h' (Some l') = {[ "team" := "blue"; "note" := "x"; "tier" := "gold"; "owner" := "kubelb" ]} ∧
  h' !! 0 = h !! 0.
Proof.
  intros h.
  destruct (PropagateAnnotations (H := no_unicode) h (Some 0) (sample_settings false) ResourceService)
    as [h' l'] eqn:E.
  assert (0 ∈ dom h) as Hdom by (by apply (bool_decide_unpack _)).
  destruct (PropagateAnnotations_spec (H := no_unicode) h (Some 0) (sample_settings false)
    ResourceService h' l') as (H1 & H2 & H3).
  - intros l [= <-]. exact Hdom.
  - exact E.
  - split; [exact H1|]. split.
    + rewrite H1. computed.
    + apply H3; [exact Hdom|]. intros <-. by apply H2.
Defined.

(** When everything is propagated, the defaults of one kind of resource end up
    in the annotations of the load balancer itself: a later propagation from it to
    another kind of resource carries them too. *)
Theorem PropagateAnnotations_leaks_defaults `{Unicode} h l s r r' k v h' l' :
  l ∈ dom h → is_true (propagateAllAnnotations s) = true →
  mread h (Some l) !! k = None → defaults_for s r !! k = Some v →
  PropagateAnnotations h (Some l) s r = (h', l') →
  mread h' (Some l) !! k = Some v ∧
  propagated s r' (mread h' (Some l)) !! k = Some v.
Proof.
  intros Hl Hall Hk Hd Heq.
  pose proof (PropagateAnnotations_contents h (Some l) s r ltac:(by intros ? [= <-])) as Hread.
  rewrite Heq in Hread. unfold PropagateAnnotations in Heq. rewrite Hall in Heq.
  injection Heq as _ ->. assert (mread h' (Some l') !! k = Some v) as Hv.
  { rewrite Hread. unfold propagated. rewrite filter_all by done.
    rewrite !lookup_union, Hk, Hd. by rewrite (left_id_L None (∪)), union_Some_l. }
  split; [done|]. unfold propagated. rewrite filter_all by done.
  by rewrite !lookup_union, Hv, !union_Some_l.
Qed.

Lemma PropagateAnnotations_leaks_defaults_witness :
  let h : heap := {[ 0 := {[ "team" := "blue" ]} ]} in
  let h' := (PropagateAnnotations (H := no_unicode) h (Some 0) (sample_settings true) ResourceService).1 in
  propagated (H := no_unicode) (sample_settings true) ResourceIngress (mread h' (Some 0)) !! "tier" = Some "gold" ∧
  propagated (H := no_unicode) (sample_settings true) ResourceIngress (mread h (Some 0)) !! "tier" = Some "any".
Proof.
  intros h h'. split.
  - destruct (PropagateAnnotations (H := no_unicode) h (Some 0) (sample_settings true) ResourceService)
      as [h2 l2] eqn:E.
    apply (PropagateAnnotations_leaks_defaults (H := no_unicode) h 0 (sample_settings true)
      ResourceService ResourceIngress "tier" "gold" h' l2).
    + by apply (bool_decide_unpack _).
    + reflexivity.
    + reflexivity.
    + reflexivity.
    + unfold h'. rewrite E. reflexivity.
  - vm_compute. reflexivity.
Defined.

(** The effective settings of a tenant.  Everything is propagated when the
    tenant or the configuration says so; otherwise the tenant's list of permitted
    annotations counts, and the configuration's when the tenant has none.  The
    default annotations are the tenant's when it sets any, else the
    configuration's.  In particular a tenant cannot narrow a configuration that
    propagates everything. *)
Theorem GetAnnotations_precedence `{Unicode} tenant config k v :
  let t := ts_annotations (tn_spec tenant) in
  let c := cs_annotations (cf_spec config) in
  let s := GetAnnotations tenant config in
  passes s k v =
    (if is_true (propagateAllAnnotations t) || is_true (propagateAllAnnotations c) then true
     else match propagatedAnnotations t with
          | Some _ => passes {| propagateAllAnnotations := None;
                                propagatedAnnotations := propagatedAnnotations t;
                                defaultAnnotations := None |} k v
          | None => passes {| propagateAllAnnotations := None;
                              propagatedAnnotations := propagatedAnnotations c;
                              defaultAnnotations := None |} k v
          end) ∧
  ∀ r, defaults_for s r =
    match defaultAnnotations t with Some d => default ∅ (d r) | None => defaults_for
      {| propagateAllAnnotations := None; propagatedAnnotations := None;
         defaultAnnotations := defaultAnnotations c |} r end.
Proof.
  intros t c s. unfold s, GetAnnotations. fold t c.
  destruct t as [ts ta td], c as [cs ca cd]; simpl. split.
  - unfold passes.
    destruct (is_true ca) eqn:Hca, (is_true ta) eqn:Hta, cs, ts; simpl; by rewrite ?Hca, ?Hta.
  - intros r. unfold defaults_for.
    destruct (is_true ca), (is_true ta), cs, ts, td, cd; done.
Qed.

(** The same on values, for callers that hold the annotations of one object: the
    map handed back and the annotations of the object afterwards. *)
Definition propagate `{Unicode} (lb : gomap string) (s : AnnotationSettings) (r : AnnotatedResource)
    : gmap string string * gomap string :=
  let result := propagated s r (contents lb) in
  (result, match lb with
           | Some _ => if is_true (propagateAllAnnotations s) then Some result else lb
           | None => None
           end).

(** It agrees with the function on the heap. *)
Lemma propagate_heap `{Unicode} h lb s r h' l' :
  (∀ l, lb = Some l → l ∈ dom h) →
  PropagateAnnotations h lb s r = (h', l') →
  let before : gomap string := match lb with Some l => Some (mread h (Some l)) | None => None end in
  let after : gomap string := match lb with Some l => Some (mread h' (Some l)) | None => None end in
  propagate before s r = (mread h' (Some l'), after).
Proof.
  intros Hlb Heq before after. pose proof (PropagateAnnotations_contents h lb s r Hlb) as Hread.
  rewrite Heq in Hread. unfold propagate, before, after. destruct lb as [l|]; [|by rewrite Hread].
  change (contents (Some (mread h (Some l)))) with (mread h (Some l)).
  rewrite <- Hread. f_equal. unfold PropagateAnnotations in Heq.
  destruct (is_true (propagateAllAnnotations s)); [by injection Heq as _ ->|].
  set (m := filter_annotations _ _) in Heq.
  pose proof (malloc_old h m l (Hlb l eq_refl)) as Hold. pose proof (malloc_fresh h m) as Hf.
  destruct (malloc h m) as [h2 l2]. cbn [fst snd] in *. injection Heq as <- <-. f_equal.
  assert (l ≠ l2) by (intros ->; by apply Hf, Hlb).
  unfold mread. by rewrite applyDefaultAnnotations_other, Hold.
Qed.

(** ** DNS and certificates *)

(** What is written: the hostname and TTL for external-dns, the issuer for
    cert-manager. *)
Definition dns_annotations (tenant : Tenant) (config : Config) (hostname : string) : gmap string string :=
  if tenant_or_config (useDNSAnnotations (ts_dns (tn_spec tenant)))
       (cd_useDNSAnnotations (cs_dns (cf_spec config)))
  then {[ ExternalDNSHostnameAnnotation := hostname;
          ExternalDNSTTLAnnotation := ExternalDNSTTLDefault ]}
  else ∅.

Definition cluster_issuer (tenant : Tenant) (config : Config) : option string :=
  match defaultClusterIssuer (ts_certificates (tn_spec tenant)) with
  | Some issuer => Some issuer
  | None => defaultClusterIssuer (cs_certificates (cf_spec config))
  end.

Definition certificate_annotations (tenant : Tenant) (config : Config) (skip : bool) : gmap string string :=
  if negb skip && tenant_or_config (useCertificateAnnotations (ts_dns (tn_spec tenant)))
                    (cd_useCertificateAnnotations (cs_dns (cf_spec config)))
  then match cluster_issuer tenant config with
       | Some issuer => {[ CertManagerClusterIssuerAnnotation := issuer ]}
       | None => ∅
       end
  else ∅.

(** The two writes after the map is chosen. *)
Definition write_dns (h : heap) (l : loc) tenant config hostname skip : heap :=
  AddDNSAndCertificateAnnotations h (Some l) tenant config hostname skip.

Lemma write_dns_other h l tenant config hostname skip l' :
  l' ≠ l → write_dns h l tenant config hostname skip !! l' = h !! l'.
Proof.
  intros Hne. unfold write_dns, AddDNSAndCertificateAnnotations.
  repeat case_match; by rewrite ?mwrite_other.
Qed.

Lemma write_dns_read h l tenant config hostname skip :
  l ∈ dom h →
  mread (write_dns h l tenant config hostname skip) (Some l) =
  certificate_annotations tenant config skip ∪ dns_annotations tenant config hostname ∪ mread h (Some l).
Proof.
  intros Hl. unfold write_dns, AddDNSAndCertificateAnnotations, certificate_annotations, dns_annotations.
  set (d := tenant_or_config (useDNSAnnotations _) _).
  set (c := tenant_or_config (useCertificateAnnotations _) _).
  set (h1 := if d then _ else h).
  assert (l ∈ dom h1 ∧ mread h1 (Some l) = (if d then {[ ExternalDNSHostnameAnnotation := hostname;
          ExternalDNSTTLAnnotation := ExternalDNSTTLDefault ]} else ∅) ∪ mread h (Some l)) as [Hd Hr].
  { unfold h1. destruct d; [|by rewrite (left_id_L ∅ (∪))]. rewrite !mwrite_dom. split; [done|].
    rewrite !mwrite_read by (done || by rewrite mwrite_dom).
    rewrite insert_insert_ne by done. by rewrite <- insert_union_l, <- insert_union_singleton_l. }
  unfold cluster_issuer. destruct skip; simpl; [by rewrite Hr, (left_id_L ∅ (∪))|].
  destruct c; simpl; [|by rewrite Hr, (left_id_L ∅ (∪))].
  destruct (defaultClusterIssuer _); [|destruct (defaultClusterIssuer _)];
    rewrite ?mwrite_read, Hr by done;
    rewrite <- ?(assoc_L (∪)), <- ?insert_union_singleton_l; try done.
  by rewrite (left_id_L ∅ (∪)).
Qed.

(** On an object that has annotations, the DNS annotations and the cluster
    issuer are written over what was there, each exactly when the tenant's setting,
    or the configuration's where the tenant has none, asks for it, with the
    tenant's issuer before the configuration's; an object without annotations gets
    nothing, because they are written into a map nobody holds. *)
Theorem AddDNSAndCertificateAnnotations_spec h annotations tenant config hostname skip :
  (∀ l, annotations = Some l → l ∈ dom h) →
  let h' := AddDNSAndCertificateAnnotations h annotations tenant config hostname skip in
  mread h' annotations =
    (if decide (annotations = None) then ∅
     else certificate_annotations tenant config skip ∪ dns_annotations tenant config hostname
            ∪ mread h annotations) ∧
  (∀ l, l ∈ dom h → annotations ≠ Some l → h' !! l = h !! l).
Proof.
  intros Hl h'. unfold h'. destruct annotations as [l|].
  - rewrite decide_False by done. split; [by apply write_dns_read, Hl|].
    intros l' _ Hne. apply write_dns_other. congruence.
  - rewrite decide_True by done. split; [done|]. intros l Hin _.
    change (write_dns (malloc h ∅).1 (malloc h ∅).2 tenant config hostname skip !! l = h !! l).
    rewrite write_dns_other; [by apply malloc_old|].
    intros ->. by apply (malloc_fresh h ∅).
Qed.

(** Sample settings for the witnesses. *)
Definition no_annotation_settings : AnnotationSettings :=
  {| propagatedAnnotations := None; propagateAllAnnotations := None; defaultAnnotations := None |}.

Definition sample_tenant (dns : DNSSettings) (issuer : option string) : Tenant :=
  {| tn_type := {| apiVersion := "kubelb.k8c.io/v1alpha1"; kind := "Tenant" |};
     tn_meta := with_identity "a" "" "tenant-0001" zero_meta;
     tn_spec := {| ts_annotations := no_annotation_settings;
                   ts_loadBalancer := {| lbs_class := None; lbs_disable := false |};
                   ts_ingress := {| is_class := None; is_disable := false |};
                   ts_gatewayAPI := {| ga_class := None; ga_defaultGateway := None; ga_disable := false |};
                   ts_dns := dns;
                   ts_certificates := {| defaultClusterIssuer := issuer |} |} |}.

Definition sample_config (dns : ConfigDNSSettings) (issuer : option string) : Config :=
  {| cf_meta := with_identity "default" "kubelb" "config-0001" zero_meta;
     cf_spec := {| cs_annotations := no_annotation_settings;
                   cs_envoyProxy :=
                     {| ep_topology := EnvoyProxyTopologyShared; ep_useDaemonset := false; ep_replicas := 3;
                        ep_singlePodPerNode := false; ep_nodeSelector := None; ep_tolerations := [];
                        ep_resources := None; ep_affinity := None; ep_image := "";
                        ep_gracefulShutdown := None; ep_overloadManager := None |};
                   cs_loadBalancer := {| lbs_class := None; lbs_disable := false |};
                   cs_ingress := {| is_class := None; is_disable := false |};
                   cs_gatewayAPI := {| ga_class := None; ga_defaultGateway := None; ga_disable := false |};
                   cs_dns := dns;
                   cs_certificates := {| defaultClusterIssuer := issuer |} |} |}.

Lemma AddDNSAndCertificateAnnotations_spec_witness :
  let h : heap := {[ 0 := {[ "team" := "blue" ]} ]} in
  let tenant := sample_tenant {| wildcardDomain := None; allowExplicitHostnames := None;
                  useDNSAnnotations := Some true; useCertificateAnnotations := None |} None in
  let config := sample_config {| cd_wildcardDomain := ""; cd_allowExplicitHostnames := false;
                  cd_useDNSAnnotations := false; cd_useCertificateAnnotations := true |} (Some "letsencrypt") in
  mread (AddDNSAndCertificateAnnotations h (Some 0) tenant config "a.example.com" false) (Some 0) =
  {[ "team" := "blue"; ExternalDNSHostnameAnnotation := "a.example.com";
     ExternalDNSTTLAnnotation := "10"; CertManagerClusterIssuerAnnotation := "letsencrypt" ]}.
Proof.
  intros h tenant config.
  destruct (AddDNSAndCertificateAnnotations_spec h (Some 0) tenant config "a.example.com" false) as [H _].
  - intros l [= <-]. by apply (bool_decide_unpack _).
  - rewrite H. computed.
Defined.

(** ** Comparing and merging *)

Section compare_laws.
Context `{SemanticMaps}.
Implicit Types a b c : gomap string.

(** The relation CompareAnnotations decides: both nil, or equal entries apart
    from the last applied configuration. *)
Definition same_annotations a b : Prop :=
  match a, b with
  | None, None => True
  | Some x, Some y =>
      delete LastAppliedConfigAnnotation x = delete LastAppliedConfigAnnotation y
  | _, _ => False
  end.

Lemma CompareAnnotations_iff a b : CompareAnnotations a b = true ↔ same_annotations a b.
Proof.
  destruct a as [x|], b as [y|]; simpl; try done.
  destruct (@semantic_deep_equal (gomap string) _ (Some x) (Some y)) eqn:E.
  - apply semantic_maps in E. change (x = y) in E. by subst.
  - rewrite semantic_maps. done.
Qed.

Global Instance same_annotations_equiv : Equivalence same_annotations.
Proof.
  split.
  - by intros [x|].
  - by intros [x|] [y|]; simpl.
  - intros [x|] [y|] [z|]; simpl; try done. congruence.
Qed.

Global Instance CompareAnnotations_proper :
  Proper (same_annotations ==> same_annotations ==> eq) CompareAnnotations.
Proof.
  intros a a' Ha b b' Hb. apply eq_true_iff_eq. rewrite !CompareAnnotations_iff.
  by rewrite Ha, Hb.
Qed.

Lemma MergeAnnotations_same a b : same_annotations a b → MergeAnnotations a b = a.
Proof. intros ?%CompareAnnotations_iff. unfold MergeAnnotations. by rewrite H1. Qed.

Lemma MergeAnnotations_different a b :
  ¬ same_annotations a b → MergeAnnotations a b = Some (contents b ∪ contents a).
Proof.
  intros Hne. unfold MergeAnnotations. destruct (CompareAnnotations a b) eqn:E; [|done].
  by apply CompareAnnotations_iff in E.
Qed.

Lemma same_annotations_dec a b : same_annotations a b ∨ ¬ same_annotations a b.
Proof.
  destruct (CompareAnnotations a b) eqn:E.
  - left. by apply CompareAnnotations_iff.
  - right. intros ?%CompareAnnotations_iff. congruence.
Qed.

Global Instance MergeAnnotations_proper :
  Proper (same_annotations ==> same_annotations ==> same_annotations) MergeAnnotations.
Proof.
  intros a a' Ha b b' Hb. destruct (same_annotations_dec a b) as [Hs|Hs].
  - rewrite !MergeAnnotations_same; [done| |done]. by rewrite <- Ha, Hs.
  - rewrite !MergeAnnotations_different; [|by rewrite <- Ha, <- Hb|done].
    assert (∀ x y, same_annotations x y → delete LastAppliedConfigAnnotation (contents x) =
      delete LastAppliedConfigAnnotation (contents y)) as Hc by (by intros [?|] [?|]).
    simpl. rewrite !delete_union. by rewrite (Hc _ _ Ha), (Hc _ _ Hb).
Qed.
End compare_laws.

(** Merging keeps every existing annotation the desired ones do not set, and
    takes every desired one; the last applied configuration alone may stay as it
    was when nothing else differs. *)
Theorem MergeAnnotations_lookup `{SemanticMaps} existing desired k :
  k ≠ LastAppliedConfigAnnotation →
  contents (MergeAnnotations existing desired) !! k =
    match contents desired !! k with Some v => Some v | None => contents existing !! k end.
Proof.
  intros Hk. destruct (same_annotations_dec existing desired) as [Hs|Hs].
  - rewrite MergeAnnotations_same by done.
    destruct existing as [x|], desired as [y|]; simpl in *; try done.
    rewrite <- (lookup_delete_ne x LastAppliedConfigAnnotation k) by done.
    rewrite Hs, lookup_delete_ne by done. by destruct (y !! k).
  - rewrite MergeAnnotations_different by done. simpl. rewrite lookup_union.
    destruct (contents desired !! k), (contents existing !! k); done.
Qed.

(** An implementation of the comparison. *)
Definition semantic_by_contents : SemanticDeepEqual (gomap string) :=
  λ a b, bool_decide (contents a = contents b).

Lemma semantic_by_contents_maps : @SemanticMaps semantic_by_contents.
Proof. intros a b. apply bool_decide_eq_true. Qed.

Lemma MergeAnnotations_lookup_witness :
  contents (@MergeAnnotations semantic_by_contents (Some {[ "a" := "1"; "b" := "2" ]}) (Some {[ "b" := "3" ]}))
    !! "a" = Some "1".
Proof.
  rewrite (@MergeAnnotations_lookup semantic_by_contents semantic_by_contents_maps
    (Some {[ "a" := "1"; "b" := "2" ]}) (Some {[ "b" := "3" ]}) "a"); [reflexivity|discriminate].
Defined.

(** One update is enough: once an object carries the merged annotations, the
    next reconciliation computes the same annotations again and finds no
    difference, so it does not update the object. *)
Lemma MergeAnnotations_converges `{SemanticMaps} existing desired :
  let merged := MergeAnnotations existing desired in
  same_annotations (MergeAnnotations merged desired) merged ∧
  CompareAnnotations merged (MergeAnnotations merged desired) = true.
Proof.
  intros merged. assert (same_annotations (MergeAnnotations merged desired) merged) as Hs.
  { unfold merged. destruct (same_annotations_dec existing desired) as [Hs|Hs].
    { by rewrite (MergeAnnotations_same existing desired Hs), MergeAnnotations_same. }
    rewrite (MergeAnnotations_different existing desired Hs).
    destruct (same_annotations_dec (Some (contents desired ∪ contents existing)) desired) as [Hs'|Hs'].
    - by rewrite MergeAnnotations_same.
    - rewrite MergeAnnotations_different by done. simpl.
      by rewrite (assoc_L (∪)), (idemp_L (∪)). }
  split; [done|]. apply CompareAnnotations_iff. by symmetry.
Qed.

(** AddDNSAndCertificateAnnotations on the value of a non-nil map. *)
Definition add_dns (annotations : gmap string string) (tenant : Tenant) (config : Config)
    (hostname : string) (skip : bool) : gmap string string :=
  certificate_annotations tenant config skip ∪ dns_annotations tenant config hostname ∪ annotations.

Lemma add_dns_heap h l tenant config hostname skip :
  l ∈ dom h →
  mread (AddDNSAndCertificateAnnotations h (Some l) tenant config hostname skip) (Some l) =
  add_dns (mread h (Some l)) tenant config hostname skip.
Proof. apply write_dns_read. Qed.
