(* ===== verification/GoSort.v ===== *)
(** * [sort.Slice] by a string key

    [sort.Slice] guarantees a permutation of the slice that is sorted by the
    comparison; it sorts short slices by insertion.  [sort_by] is that insertion
    sort, and [sort_by_unique] says that when the keys are distinct no other
    sorted permutation exists, so the choice of algorithm does not matter. *)
From stdpp Require Import base list strings sorting.
From S2P Require Import Prelude.

Section sort.
Context {A : Type} (key : A → string).

(** [x] moves left past every element it is less than. *)
Fixpoint insert_by (x : A) (l : list A) : list A :=
  match l with
  | [] => [x]
  | y :: l => if String.ltb (key x) (key y) then x :: y :: l else y :: insert_by x l
  end.

Definition sort_by (l : list A) : list A := foldl (λ acc x, insert_by x acc) [] l.

Definition by_key (x y : A) : Prop := String.le (key x) (key y).

Global Instance by_key_trans : Transitive by_key.
Proof. intros x y z. apply (transitivity (R := String.le)). Qed.

Lemma ltb_le x y : String.ltb x y = true → String.le x y.
Proof. unfold String.ltb, String.le, String.leb. by destruct (String.compare x y). Qed.
Lemma ltb_ge x y : String.ltb x y = false → String.le y x.
Proof.
  unfold String.ltb, String.le, String.leb. rewrite (String.compare_antisym y x).
  by destruct (String.compare x y).
Qed.

Lemma insert_by_perm x l : insert_by x l ≡ₚ x :: l.
Proof.
  induction l as [|y l IH]; simpl; [done|]. case_match; [done|].
  rewrite IH. apply Permutation_swap.
Qed.

Lemma sort_by_perm l : sort_by l ≡ₚ l.
Proof.
  unfold sort_by. assert (∀ acc, foldl (λ acc x, insert_by x acc) acc l ≡ₚ acc ++ l) as H;
    [|apply H].
  induction l as [|x l IH]; intros acc; simpl; [by rewrite app_nil_r|].
  rewrite IH, insert_by_perm. apply (Permutation_middle acc l x).
Qed.

Lemma insert_by_sorted x l : StronglySorted by_key l → StronglySorted by_key (insert_by x l).
Proof.
  induction l as [|y l IH]; intros Hs; simpl; [by repeat constructor|].
  apply StronglySorted_cons in Hs as [Hy Hs].
  destruct (String.ltb (key x) (key y)) eqn:E.
  - apply ltb_le in E. apply StronglySorted_cons. split.
    + constructor; [done|]. eapply Forall_impl; [exact Hy|]. intros z Hz. by transitivity y.
    + by apply StronglySorted_cons.
  - apply ltb_ge in E. apply StronglySorted_cons. split; [|auto].
    rewrite insert_by_perm. by constructor.
Qed.

Lemma sort_by_sorted l : StronglySorted by_key (sort_by l).
Proof.
  unfold sort_by. assert (∀ acc, StronglySorted by_key acc →
    StronglySorted by_key (foldl (λ acc x, insert_by x acc) acc l)) as H; [|apply H; constructor].
  induction l as [|x l IH]; intros acc Ha; simpl; [done|]. by apply IH, insert_by_sorted.
Qed.

(** With distinct keys there is one sorted permutation. *)
Lemma sort_by_unique l l' :
  base.NoDup (key <$> l) → l' ≡ₚ l → StronglySorted by_key l' → l' = sort_by l.
Proof.
  intros Hnd Hp Hs. apply (StronglySorted_unique_strong by_key); [|done|apply sort_by_sorted|].
  - intros x y Hx Hy Hxy Hyx. rewrite Hp in Hx. rewrite sort_by_perm in Hy.
    assert (key x = key y) as Hk by (by apply (anti_symm String.le)).
    apply list_elem_of_lookup in Hx as [i Hi], Hy as [j Hj].
    assert (i = j) as ->; [|congruence].
    eapply NoDup_lookup; [exact Hnd| |]; rewrite list_lookup_fmap; [by rewrite Hi|].
    by rewrite Hj, Hk.
  - by rewrite sort_by_perm.
Qed.

(** Sorting commutes with a change that keeps the keys. *)
Lemma sort_by_map (g : A → A) l : (∀ x, key (g x) = key x) → sort_by (g <$> l) = g <$> sort_by l.
Proof.
  intros Hg. assert (∀ x l, insert_by (g x) (g <$> l) = g <$> insert_by x l) as Hi.
  { intros x l'. induction l' as [|y l' IH]; simpl; [done|]. rewrite !Hg.
    destruct (String.ltb (key x) (key y)); [done|]. change (g <$> y :: insert_by x l') with (g y :: (g <$> insert_by x l')).
    by rewrite <- IH. }
  unfold sort_by. change [] with (g <$> ([] : list A)) at 1. generalize (@nil A).
  induction l as [|x l IH]; intros acc; cbn [foldl]; [done|].
  change (g <$> x :: l) with (g x :: (g <$> l)). cbn [foldl]. by rewrite Hi, IH.
Qed.
End sort.
