(* ===== verification/LoadBalancers.v ===== *)
(** * LoadBalancer objects (internal/kubelb/loadbalancer.go)

    The CCM of a tenant maps a Service to a LoadBalancer ([MapLoadBalancer]) and
    updates the stored one when [LoadBalancerIsDesiredState] finds a difference;
    the manager derives the ports of the Service it creates
    ([CreateServicePorts]). *)
From stdpp Require Import base gmap sets list strings pretty sorting.
From S2P Require Import Prelude GoStrings Api Names PortAllocator PortAllocatorSpec Annotations GoSort.
Import Core V1alpha1.

(** ** MapLoadBalancer *)

Section map.
Context `{Unicode}.

(** The name of a port, made up when it has none. *)
Definition port_name (port : ServicePort) : string :=
  if decide (sp_name port ≠ "") then ToLower (sp_name port)
  else pretty (sp_port port) +:+ "-" +:+ ToLower (sp_protocol port).

Definition lb_service_port (port : ServicePort) : LoadBalancerPort :=
  {| lp_name := port_name port; lp_protocol := sp_protocol port; lp_port := sp_port port |}.

Definition lb_endpoint_port (port : ServicePort) : EndpointPort :=
  {| ep_name := port_name port; ep_port := sp_nodePort port; ep_protocol := sp_protocol port |}.

Definition map_endpoints (userService : Service) (clusterEndpoints : list string)
    (useAddressesReference : bool) : LoadBalancerEndpoints :=
  {| le_name := "";
     le_addresses :=
       if useAddressesReference then []
       else (λ e, {| ea_ip := e; ea_hostname := "" |}) <$> clusterEndpoints;
     le_addressesReference :=
       if useAddressesReference
       then Some {| ref_name := DefaultAddressName; ref_namespace := "" |} else None;
     le_ports := lb_endpoint_port <$> ss_ports (svc_spec userService) |}.

(** The annotations map is shared with the Service, so the entry is deleted from
    both: the second component is the Service after the call. *)
Definition MapLoadBalancer (userService : Service) (clusterEndpoints : list string)
    (useAddressesReference : bool) (clusterName : string) : LoadBalancer * Service :=
  let annotations : gomap string :=
    match annotations (svc_meta userService) with
    | Some a => Some (delete LastAppliedConfigAnnotation a)
    | None => None
    end in
  ({| lb_meta :=
        {| name := uid (svc_meta userService);
           namespace := clusterName;
           uid := ""; resourceVersion := "";
           labels := Some {[ LabelOriginNamespace := namespace (svc_meta userService);
                             LabelOriginName := name (svc_meta userService);
                             LabelTenantName := clusterName ]};
           annotations := annotations;
           finalizers := []; deletionTimestamp := None; ownerReferences := [] |};
      lb_spec :=
        {| ls_endpoints := [map_endpoints userService clusterEndpoints useAddressesReference];
           ls_ports := lb_service_port <$> ss_ports (svc_spec userService);
           ls_hostname := "";
           ls_type := ss_type (svc_spec userService) |};
      lb_status := {| lst_ingress := None; lst_ports := None; lst_hostname := None |} |},
   {| svc_type := svc_type userService;
      svc_meta := with_annotations annotations (svc_meta userService);
      svc_spec := svc_spec userService; svc_ingress := svc_ingress userService;
      svc_conditions := svc_conditions userService |}).
End map.

(** ** LoadBalancerIsDesiredState *)

(** [for i := range desired { if !f(actual[i], desired[i]) { return false } }] *)
Fixpoint all_at {A} (f : A → A → go bool) (actual : list A) (i : nat) (desired : list A) : go bool :=
  match desired with
  | [] => Done true
  | d :: desired =>
      a ← at_index actual i;
      ok ← f a d;
      if ok : bool then all_at f actual (S i) desired else Done false
  end.

Section desired.
Context `{SemanticDeepEqual (gomap string)}.

Definition loadBalancerPortIsDesiredState (actual desired : LoadBalancerPort) : bool :=
  bool_decide (lp_protocol actual = lp_protocol desired) &&
  bool_decide (lp_port actual = lp_port desired).

Definition endpointPortIsDesiredState (actual desired : EndpointPort) : bool :=
  bool_decide (ep_port actual = ep_port desired) &&
  bool_decide (ep_protocol actual = ep_protocol desired).

Definition endpointAddressIsDesiredState (actual desired : EndpointAddress) : bool :=
  bool_decide (ea_hostname actual = ea_hostname desired) &&
  bool_decide (ea_ip actual = ea_ip desired).

(** The body of the loop over the endpoints; the two inner calls have their
    arguments swapped in the code, as here. *)
Definition endpoints_desired (actual desired : LoadBalancerEndpoints) : go bool :=
  if decide (length (le_addresses desired) ≠ length (le_addresses actual)) then Done false
  else if decide (length (le_ports desired) ≠ length (le_ports actual)) then Done false
  else
    addrs ← all_at (λ a d, Done (endpointAddressIsDesiredState d a))
              (le_addresses actual) 0 (le_addresses desired);
    if addrs : bool then
      all_at (λ a d, Done (endpointPortIsDesiredState d a)) (le_ports actual) 0 (le_ports desired)
    else Done false.

Definition LoadBalancerIsDesiredState (actual desired : LoadBalancer) : go bool :=
  if decide (ls_type (lb_spec actual) ≠ ls_type (lb_spec desired)) then Done false
  else if decide (length (ls_ports (lb_spec actual)) ≠ length (ls_ports (lb_spec desired))) then Done false
  else
    ports ← all_at (λ a d, Done (loadBalancerPortIsDesiredState a d))
              (ls_ports (lb_spec actual)) 0 (ls_ports (lb_spec desired));
    if negb ports then Done false
    else if decide (length (ls_endpoints (lb_spec actual)) ≠ length (ls_endpoints (lb_spec desired))) then Done false
    else
      eps ← all_at endpoints_desired (ls_endpoints (lb_spec actual)) 0 (ls_endpoints (lb_spec desired));
      if negb eps then Done false
      else Done (CompareAnnotations (annotations (lb_meta actual)) (annotations (lb_meta desired))).
End desired.

(** ** CreateServicePorts *)

(** [type PortAllocator interface]: what the load balancer code needs of the
    allocator. *)
Class PortLookup := portLookupFn : string → string → Z * bool.

Definition service_port_matches (lbPort : LoadBalancerPort) (sp : ServicePort) : Prop :=
  sp_name sp = lp_name lbPort ∨ (sp_port sp = lp_port lbPort ∧ sp_protocol sp = lp_protocol lbPort).

#[export] Instance service_port_matches_dec lbPort sp : Decision (service_port_matches lbPort sp).
Proof. unfold service_port_matches. apply _. Defined.

Section create.
Context `{PortLookup}.

(** The node port an endpoint listens on for the [i]-th port. *)
Definition endpoint_target (ep : LoadBalancerEndpoints) (i : nat) (lbPort : LoadBalancerPort) : go Z :=
  p ← at_index (le_ports ep) i;
  Done (match list_find (λ q, ep_name q = lp_name lbPort) (le_ports ep) with
        | Some (_, q) => ep_port q
        | None => ep_port p
        end).

(** The target port of the created Service: the port the allocator gave, else the
    endpoint's own. *)
Definition allocated_target (lb : LoadBalancer) (lbPort : LoadBalancerPort) (target : Z) : Z :=
  match portLookupFn (EnvoyEndpointPattern (namespace (lb_meta lb)) (name (lb_meta lb)) 0)
          (EnvoyListenerPattern target (lp_protocol lbPort)) with
  | (value, true) => int32 value
  | (_, false) => target
  end.

Definition service_port (lb : LoadBalancer) (existing : Service) (ep : LoadBalancerEndpoints)
    (i : nat) (lbPort : LoadBalancerPort) : go ServicePort :=
  target ← endpoint_target ep i lbPort;
  let existingPort := list_find (service_port_matches lbPort) (ss_ports (svc_spec existing)) in
  Done {| sp_name := lp_name lbPort; sp_protocol := lp_protocol lbPort; sp_port := lp_port lbPort;
          sp_targetPort := FromInt (allocated_target lb lbPort target);
          sp_nodePort := match existingPort with Some (_, sp) => sp_nodePort sp | None => 0 end;
          sp_appProtocol := None |}.

Definition CreateServicePorts (loadBalancer : LoadBalancer) (existingService : Service)
    : go (list ServicePort) :=
  match ls_endpoints (lb_spec loadBalancer) with
  | [] => Done []
  | ep :: _ =>
      desiredPorts ← go_map (service_port loadBalancer existingService ep) 0
                       (ls_ports (lb_spec loadBalancer));
      Done (sort_by sp_name desiredPorts)
  end.
End create.

(** ** The check for differences *)

Lemma all_at_spec {A} (f : A → A → go bool) (P : A → A → Prop) `{∀ a d, Decision (P a d)} actual desired :
  length actual = length desired →
  (∀ a d, f a d = Done (bool_decide (P a d))) →
  all_at f actual 0 desired = Done (bool_decide (Forall2 P actual desired)).
Proof.
  intros Hlen Hf.
  assert (∀ pre actual, length actual = length desired →
    all_at f (pre ++ actual) (length pre) desired = Done (bool_decide (Forall2 P actual desired)))
    as Hgen; [|by apply (Hgen [])].
  clear Hlen actual. induction desired as [|d desired IH]; intros pre [|a actual] Hlen; simpl in *; try lia.
  { done. }
  unfold at_index. rewrite lookup_app_r, Nat.sub_diag by lia. simpl. rewrite Hf. simpl.
  destruct (bool_decide (P a d)) eqn:E.
  - apply bool_decide_eq_true in E. specialize (IH (pre ++ [a]) actual).
    rewrite <- app_assoc, length_app in IH. simpl in IH.
    replace (S (length pre)) with (length pre + 1) by lia. rewrite IH by lia.
    apply (f_equal Done), bool_decide_ext. rewrite Forall2_cons. tauto.
  - apply bool_decide_eq_false in E. apply (f_equal Done). symmetry. apply bool_decide_eq_false.
    rewrite Forall2_cons. tauto.
Qed.

(** What has to agree, endpoint by endpoint and for the whole object. *)
Definition same_port (a d : LoadBalancerPort) : Prop :=
  lp_protocol a = lp_protocol d ∧ lp_port a = lp_port d.
Definition same_endpoint_port (a d : EndpointPort) : Prop :=
  ep_port a = ep_port d ∧ ep_protocol a = ep_protocol d.

Record same_endpoints (a d : LoadBalancerEndpoints) : Prop := {
  same_addresses : le_addresses a = le_addresses d;
  same_endpoint_ports : Forall2 same_endpoint_port (le_ports a) (le_ports d)
}.

Record same_load_balancer (a d : LoadBalancer) : Prop := {
  same_type : ls_type (lb_spec a) = ls_type (lb_spec d);
  same_ports : Forall2 same_port (ls_ports (lb_spec a)) (ls_ports (lb_spec d));
  same_lb_endpoints : Forall2 same_endpoints (ls_endpoints (lb_spec a)) (ls_endpoints (lb_spec d));
  same_lb_annotations : same_annotations (annotations (lb_meta a)) (annotations (lb_meta d))
}.

#[export] Instance same_port_dec a d : Decision (same_port a d).
Proof. unfold same_port. apply _. Defined.
#[export] Instance same_endpoint_port_dec a d : Decision (same_endpoint_port a d).
Proof. unfold same_endpoint_port. apply _. Defined.
#[export] Instance same_endpoints_dec a d : Decision (same_endpoints a d).
Proof.
  refine (cast_if_and (decide (le_addresses a = le_addresses d))
            (decide (Forall2 same_endpoint_port (le_ports a) (le_ports d))));
    [by split|by intros []..].
Defined.

Lemma same_address_eq a d :
  endpointAddressIsDesiredState a d = bool_decide (a = d).
Proof.
  unfold endpointAddressIsDesiredState. destruct a as [i h], d as [i' h']; simpl.
  rewrite <- bool_decide_and. apply bool_decide_ext. naive_solver.
Qed.

Lemma endpoints_desired_spec a d : endpoints_desired a d = Done (bool_decide (same_endpoints a d)).
Proof.
  unfold endpoints_desired.
  destruct (decide (length (le_addresses d) ≠ length (le_addresses a))) as [Hl|Hl].
  { rewrite bool_decide_eq_false_2; [done|]. intros [E _]. by rewrite E in Hl. }
  destruct (decide (length (le_ports d) ≠ length (le_ports a))) as [Hp|Hp].
  { rewrite bool_decide_eq_false_2; [done|]. intros [_ E%Forall2_length]. lia. }
  rewrite (all_at_spec _ (λ x y : EndpointAddress, x = y));
    [|lia|intros; rewrite same_address_eq; by apply (f_equal Done), bool_decide_ext].
  rewrite (all_at_spec _ same_endpoint_port); [|lia|].
  2: { intros x y. unfold endpointPortIsDesiredState. rewrite <- bool_decide_and.
       apply (f_equal Done), bool_decide_ext. unfold same_endpoint_port. naive_solver. }
  assert (Forall2 (λ x y, x = y) (le_addresses a) (le_addresses d) ↔ le_addresses a = le_addresses d)
    as Heq by (symmetry; apply list_eq_Forall2).
  rewrite (bool_decide_ext _ _ Heq).
  destruct (bool_decide (le_addresses a = le_addresses d)) eqn:E; simpl.
  - apply (f_equal Done). apply bool_decide_eq_true in E. apply bool_decide_ext. split; [by split|by intros []].
  - apply (f_equal Done). apply bool_decide_eq_false in E. symmetry. apply bool_decide_eq_false. by intros [].
Qed.

Lemma desired_cases `{SemanticMaps} a d :
  (LoadBalancerIsDesiredState a d = Done true ∧ same_load_balancer a d) ∨
  (LoadBalancerIsDesiredState a d = Done false ∧ ¬ same_load_balancer a d).
Proof.
  unfold LoadBalancerIsDesiredState.
  destruct (decide (ls_type (lb_spec a) ≠ ls_type (lb_spec d))) as [Ht|Ht].
  { right. split; [done|]. by intros []. }
  destruct (decide (length (ls_ports (lb_spec a)) ≠ _)) as [Hp|Hp].
  { right. split; [done|]. intros [_ E%Forall2_length _ _]. lia. }
  rewrite (all_at_spec _ same_port); [|lia|].
  2: { intros x y. unfold loadBalancerPortIsDesiredState. by rewrite <- bool_decide_and. }
  simpl. destruct (bool_decide (Forall2 same_port _ _)) eqn:Hps; simpl.
  2: { right. split; [done|]. apply bool_decide_eq_false in Hps. by intros []. }
  apply bool_decide_eq_true in Hps.
  destruct (decide (length (ls_endpoints (lb_spec a)) ≠ _)) as [He|He].
  { right. split; [done|]. intros [_ _ E%Forall2_length _]. lia. }
  rewrite (all_at_spec _ same_endpoints); [|lia|apply endpoints_desired_spec].
  simpl. destruct (bool_decide (Forall2 same_endpoints _ _)) eqn:Hes; simpl.
  2: { right. split; [done|]. apply bool_decide_eq_false in Hes. by intros []. }
  apply bool_decide_eq_true in Hes.
  assert (ls_type (lb_spec a) = ls_type (lb_spec d)) as Ht'.
  { destruct (decide (ls_type (lb_spec a) = ls_type (lb_spec d))); tauto. }
  destruct (CompareAnnotations _ _) eqn:Ha; [left|right]; (split; [done|]).
  - apply CompareAnnotations_iff in Ha. by split.
  - intros [_ _ _ Hs%CompareAnnotations_iff]. congruence.
Qed.

Lemma desired_true `{SemanticMaps} a d :
  LoadBalancerIsDesiredState a d = Done true ↔ same_load_balancer a d.
Proof. destruct (desired_cases a d) as [[-> ?]|[-> ?]]; by split. Qed.

(** C36: The check for differences never panics and says yes exactly when type,
    ports (number, protocol), endpoints (addresses, ports) agree position by
    position and the annotations agree.  Port names, hostnames and address
    references are not looked at. *)
Theorem LoadBalancerIsDesiredState_spec `{SemanticMaps} actual desired :
  ∃ b, LoadBalancerIsDesiredState actual desired = Done b ∧
       (b = true ↔ same_load_balancer actual desired).
Proof. destruct (desired_cases actual desired) as [[-> ?]|[-> ?]]; eexists; by split. Qed.

Definition sample_user_service (ports : list ServicePort) (a : gomap string) : Service :=
  {| svc_type := {| apiVersion := "v1"; kind := "Service" |};
     svc_meta := with_annotations a (with_identity "web" "shop" "6f3c-0001" zero_meta);
     svc_spec := with_ports ports
       {| ss_ports := []; ss_selector := None; ss_type := ServiceTypeLoadBalancer; ss_clusterIP := "";
          ss_clusterIPs := []; ss_loadBalancerClass := None; ss_ipFamilies := [];
          ss_ipFamilyPolicy := None; ss_sessionAffinity := ""; ss_externalTrafficPolicy := "";
          ss_internalTrafficPolicy := None; ss_rest := "" |};
     svc_ingress := None; svc_conditions := "" |}.

Definition sample_port (n : string) (port nodePort : Z) : ServicePort :=
  {| sp_name := n; sp_protocol := "TCP"; sp_port := port; sp_targetPort := FromInt 8080;
     sp_nodePort := nodePort; sp_appProtocol := None |}.

Definition sample_ports : list ServicePort := [sample_port "Web" 80 30080; sample_port "" 443 30443].

Lemma LoadBalancerIsDesiredState_spec_witness :
  let lb := (MapLoadBalancer (H := no_unicode) (sample_user_service sample_ports None)
               ["10.0.0.1"] false "tenant-a").1 in
  ∃ b, @LoadBalancerIsDesiredState semantic_by_contents lb lb = Done b ∧
       (b = true ↔ same_load_balancer lb lb).
Proof.
  intros lb. exact (@LoadBalancerIsDesiredState_spec semantic_by_contents semantic_by_contents_maps lb lb).
Defined.

(** ** Drift between a Service and its LoadBalancer *)

Definition same_service_port (p q : ServicePort) : Prop :=
  sp_port p = sp_port q ∧ sp_protocol p = sp_protocol q ∧ sp_nodePort p = sp_nodePort q.


Lemma map_ports_same `{Unicode} ps qs :
  Forall2 same_port (lb_service_port <$> ps) (lb_service_port <$> qs) ∧
  Forall2 same_endpoint_port (lb_endpoint_port <$> ps) (lb_endpoint_port <$> qs) ↔
  Forall2 same_service_port ps qs.
Proof.
  rewrite !Forall2_fmap. unfold same_port, same_endpoint_port, same_service_port. simpl. split.
  - intros [H1 H2]. induction H1; inversion H2; subst; constructor; naive_solver.
  - intros Hf. split; (eapply Forall2_impl; [exact Hf|]; naive_solver).
Qed.

(** The stored LoadBalancer of a Service counts as up to date for an edited
    Service exactly when the service type, the list of port, protocol and node
    port, the endpoint addresses (unless they are referenced) and the annotations
    are the same; in particular mapping a Service that did not change leads to no
    update, and renaming a port goes unnoticed. *)
Theorem MapLoadBalancer_drift `{Unicode} `{SemanticMaps} old new oldEndpoints newEndpoints ref cluster :
  LoadBalancerIsDesiredState (MapLoadBalancer old oldEndpoints ref cluster).1
                             (MapLoadBalancer new newEndpoints ref cluster).1 = Done true ↔
  ss_type (svc_spec old) = ss_type (svc_spec new) ∧
  Forall2 same_service_port (ss_ports (svc_spec old)) (ss_ports (svc_spec new)) ∧
  (ref = true ∨ oldEndpoints = newEndpoints) ∧
  same_annotations (annotations (svc_meta old)) (annotations (svc_meta new)).
Proof.
  rewrite desired_true, <- map_ports_same.
  assert (∀ es es' : list string, (if ref then [] else (λ e, {| ea_ip := e; ea_hostname := "" |}) <$> es) =
    (if ref then [] else (λ e, {| ea_ip := e; ea_hostname := "" |}) <$> es') ↔ ref = true ∨ es = es') as Haddr.
  { intros es es'. destruct ref; [naive_solver|]. split; [|naive_solver].
    intros E. right. refine (list_fmap_eq_inj _ _ _ _ E). by intros x y [= ->]. }
  assert (same_annotations (annotations (lb_meta (MapLoadBalancer old oldEndpoints ref cluster).1))
            (annotations (lb_meta (MapLoadBalancer new newEndpoints ref cluster).1)) ↔
          same_annotations (annotations (svc_meta old)) (annotations (svc_meta new))) as Hann.
  { simpl. destruct (annotations (svc_meta old)), (annotations (svc_meta new)); simpl; try done.
    by rewrite !delete_delete_eq. }
  split.
  - intros [H1' H2 H3 H4]. apply Hann in H4. simpl in *. apply Forall2_cons in H3 as [[H3 H5] _].
    apply Haddr in H3. auto.
  - intros (H1' & [H2 H3] & H4 & H5). split; [done|done| |by apply Hann].
    simpl. constructor; [|constructor]. split; [by apply Haddr|done].
Qed.

Lemma MapLoadBalancer_drift_witness :
  @LoadBalancerIsDesiredState semantic_by_contents
    (MapLoadBalancer (H := no_unicode) (sample_user_service sample_ports None) ["10.0.0.1"] false "a").1
    (MapLoadBalancer (H := no_unicode)
       (sample_user_service [sample_port "renamed" 80 30080; sample_port "" 443 30443] None)
       ["10.0.0.1"] false "a").1 = Done true.
Proof.
  apply (MapLoadBalancer_drift (H := no_unicode) (H0 := semantic_by_contents) (H1 := semantic_by_contents_maps)).
  split; [reflexivity|]. split; [repeat constructor|]. split; [by right|exact I].
Defined.

(** ** The ports of the created Service *)

(** The allocator discharges the interface of the load balancer code. *)
Definition allocator_lookup (pa : PortAllocator) : PortLookup := λ e k, Lookup pa e k.

Section create_lemmas.
Context `{PortLookup}.

Lemma service_port_done lb existing ep i lbPort :
  is_done (service_port lb existing ep i lbPort) = bool_decide (i < length (le_ports ep)).
Proof.
  unfold service_port, endpoint_target, at_index.
  destruct (le_ports ep !! i) eqn:E; simpl.
  - symmetry. apply bool_decide_eq_true. by eapply lookup_lt_Some.
  - symmetry. apply bool_decide_eq_false. apply lookup_ge_None in E. lia.
Qed.

(** The loop panics at the first port without an endpoint port at its index. *)
Lemma create_ports_done lb existing ep i ports :
  is_done (go_map (service_port lb existing ep) i ports) =
  bool_decide (ports = [] ∨ i + length ports ≤ length (le_ports ep)).
Proof.
  revert i. induction ports as [|p ports IH]; intros i; simpl.
  { done. }
  pose proof (service_port_done lb existing ep i p) as Hd.
  specialize (IH (S i)).
  destruct (service_port lb existing ep i p); simpl in *.
  - symmetry in Hd. apply bool_decide_eq_true in Hd.
    destruct (go_map _ (S i) ports); simpl in *; rewrite IH; apply bool_decide_ext;
      (split; [intros [->|?]; right; simpl; lia|]);
      intros [?|?]; [done| |done|]; destruct ports; [by left|right|by left|right]; simpl in *; lia.
  - symmetry in Hd. apply bool_decide_eq_false in Hd. symmetry. apply bool_decide_eq_false.
    intros [?|?]; [done|]. lia.
Qed.

(** What one entry holds. *)
Lemma service_port_fields lb existing ep i lbPort sp :
  service_port lb existing ep i lbPort = Done sp →
  sp_name sp = lp_name lbPort ∧ sp_port sp = lp_port lbPort ∧ sp_protocol sp = lp_protocol lbPort ∧
  ∃ target, endpoint_target ep i lbPort = Done target ∧
    sp_targetPort sp = FromInt (allocated_target lb lbPort target).
Proof.
  unfold service_port. destruct (endpoint_target ep i lbPort) as [t|]; simpl; [|done].
  intros [= <-]. simpl. eauto 10.
Qed.
End create_lemmas.

(** With endpoints, CreateServicePorts panics exactly when there are more
    ports than endpoint ports, even where every port is found by its name. *)
Theorem CreateServicePorts_panics `{PortLookup} lb existing :
  CreateServicePorts lb existing = Panics ↔
  ∃ ep eps, ls_endpoints (lb_spec lb) = ep :: eps ∧
    length (le_ports ep) < length (ls_ports (lb_spec lb)).
Proof.
  unfold CreateServicePorts. destruct (ls_endpoints (lb_spec lb)) as [|ep eps].
  { split; [done|]. by intros (? & ? & ? & _). }
  pose proof (create_ports_done lb existing ep 0 (ls_ports (lb_spec lb))) as Hd.
  destruct (go_map _ _ _); simpl in *; symmetry in Hd.
  - apply bool_decide_eq_true in Hd. split; [done|]. intros (? & ? & [= <- <-] & ?).
    destruct Hd as [Hd|?]; [rewrite Hd in *; simpl in *; lia|lia].
  - apply bool_decide_eq_false in Hd. split; [|done]. intros _. exists ep, eps. split; [done|].
    destruct (decide (length (le_ports ep) < length (ls_ports (lb_spec lb)))); [done|].
    exfalso. apply Hd. right. lia.
Qed.

Lemma list_find_name (ps : list EndpointPort) i p :
  base.NoDup (ep_name <$> ps) → ps !! i = Some p →
  list_find (λ q, ep_name q = ep_name p) ps = Some (i, p).
Proof.
  intros Hnd Hi. apply list_find_Some. split; [done|]. split; [done|].
  intros j q Hj Hlt E. assert (i = j); [|lia].
  eapply NoDup_lookup; [exact Hnd| |]; rewrite list_lookup_fmap; [by rewrite Hi|].
  by rewrite Hj; simpl; rewrite E.
Qed.

Lemma endpoint_target_mapped `{Unicode} svc eps ref i p :
  base.NoDup (port_name <$> ss_ports (svc_spec svc)) → ss_ports (svc_spec svc) !! i = Some p →
  endpoint_target (map_endpoints svc eps ref) i (lb_service_port p) = Done (sp_nodePort p).
Proof.
  intros Hnd Hi. unfold endpoint_target, at_index. simpl.
  rewrite list_lookup_fmap, Hi. simpl.
  pose proof (list_find_name (lb_endpoint_port <$> ss_ports (svc_spec svc)) i (lb_endpoint_port p)) as Hf.
  simpl in Hf. rewrite Hf; [done| |by rewrite list_lookup_fmap, Hi].
  by rewrite <- list_fmap_compose.
Qed.

(** The allocated target of a port that has an entry. *)
Lemma allocated_target_lookup pa lb lbPort target p :
  wf pa →
  Lookup pa (lb_key lb 0) (EnvoyListenerPattern target (lp_protocol lbPort)) = (p, true) →
  allocated_target (H := allocator_lookup pa) lb lbPort target = p ∧ (startPort ≤ p < endPort)%Z.
Proof.
  intros Hwf Hl. assert (startPort ≤ p < endPort)%Z as Hr.
  { apply (wf_range _ Hwf). exists (lb_key lb 0), (EnvoyListenerPattern target (lp_protocol lbPort)).
    rewrite Lookup_allocated in Hl.
    destruct (allocated _ _ _); [by injection Hl as ->|by injection Hl]. }
  split; [|done]. unfold allocated_target, portLookupFn, allocator_lookup.
  unfold lb_key in Hl. rewrite Hl. apply int32_id. unfold in_int32, startPort, endPort in *. lia.
Qed.

(** The stored object of a mapped LoadBalancer: the API server and the manager add
    to the metadata and the status. *)
Record stored_as (lb mapped : LoadBalancer) : Prop := {
  stored_name : name (lb_meta lb) = name (lb_meta mapped);
  stored_namespace : namespace (lb_meta lb) = namespace (lb_meta mapped);
  stored_spec : lb_spec lb = lb_spec mapped
}.

Lemma stored_as_refl lb : stored_as lb lb.
Proof. done. Qed.

(** The port of a mapped Service, after the ports of all load balancers were
    allocated: its entry in the created Service and its entry in the allocator. *)
Lemma created_port `{Unicode} src fuel lbs pa pos pa' pos' lb svc eps ref cluster existing :
  stored_as lb (MapLoadBalancer svc eps ref cluster).1 →
  wf pa → identified lbs → lb ∈ lbs →
  AllocatePortsForLoadBalancers src fuel pa pos lbs = Some (pa', pos') →
  base.NoDup (port_name <$> ss_ports (svc_spec svc)) →
  ∃ ports, CreateServicePorts (H := allocator_lookup pa') lb existing = Done ports ∧
    StronglySorted (by_key sp_name) ports ∧ length ports = length (ss_ports (svc_spec svc)) ∧
    ∀ p, p ∈ ss_ports (svc_spec svc) → ∃ q port, q ∈ ports ∧
      sp_name q = port_name p ∧ sp_port q = sp_port p ∧ sp_protocol q = sp_protocol p ∧
      sp_targetPort q = FromInt port ∧ (startPort ≤ port < endPort)%Z ∧
      Lookup pa' (lb_key lb 0) (EnvoyListenerPattern (sp_nodePort p) (sp_protocol p)) = (port, true).
Proof.
  intros [_ _ Hspec] Hwf Hid Hin [Hwf' Hs]%AllocatePortsForLoadBalancers_serves Hnd; [|done].
  assert (ls_endpoints (lb_spec lb) !! 0 = Some (map_endpoints svc eps ref)) as Hep by by rewrite Hspec.
  specialize (Hwf' Hwf). unfold CreateServicePorts. rewrite Hspec. simpl.
  pose proof (create_ports_done (H := allocator_lookup pa') lb existing (map_endpoints svc eps ref) 0
    (lb_service_port <$> ss_ports (svc_spec svc))) as Hd.
  rewrite bool_decide_eq_true_2 in Hd by (right; simpl; rewrite !length_fmap; lia).
  destruct (go_map _ _ _) as [ports|] eqn:Hports; [|done].
  apply go_map_Done in Hports as [Hlen Hports]. rewrite length_fmap in Hlen.
  exists (sort_by sp_name ports). split; [done|]. split; [apply sort_by_sorted|].
  split; [by rewrite sort_by_perm|].
  intros p (i & Hi)%list_elem_of_lookup.
  destruct (Hports i (lb_service_port p)) as (q & Hq & Hsp); [by rewrite list_lookup_fmap, Hi|].
  apply service_port_fields in Hsp as (Hn & Hp & Hpr & target & Ht & Htarget).
  rewrite Nat.add_0_l, (endpoint_target_mapped _ _ _ _ _ Hnd Hi) in Ht. injection Ht as <-.
  pose proof (Hs (lb_key lb 0) (EnvoyListenerPattern (sp_nodePort p) (sp_protocol p))) as Hk.
  rewrite (lbs_find_lookup requested lbs lb 0 (map_endpoints svc eps ref) Hid Hin Hep) in Hk.
  destruct Hk as [Hk _]. destruct (proj2 Hk) as [v Hv].
  { apply list_elem_of_fmap. exists (lb_endpoint_port p). split; [done|].
    simpl. apply list_elem_of_fmap. exists p. split; [done|]. by eapply list_elem_of_lookup_2. }
  assert (Lookup pa' (lb_key lb 0) (EnvoyListenerPattern (sp_nodePort p) (sp_protocol p)) = (v, true)) as Hl
    by (by rewrite Lookup_allocated, Hv).
  destruct (allocated_target_lookup pa' lb (lb_service_port p) (sp_nodePort p) v Hwf' Hl) as [Ha Hr].
  exists q, v. split; [rewrite sort_by_perm; by eapply list_elem_of_lookup_2|].
  rewrite Htarget, Ha. done.
Qed.

(** From a tenant's Service to the Service of the manager.  Once the ports of
    all load balancers are allocated, the LoadBalancer mapped from a Service with
    distinct port names gets a Service whose ports are the Service's own, sorted by
    name, each with the target port the allocator holds for its node port and
    protocol, in the range [10000, 65535). *)
Theorem CreateServicePorts_end_to_end `{Unicode} src fuel lbs pa pos pa' pos' svc eps ref cluster existing :
  let lb := (MapLoadBalancer svc eps ref cluster).1 in
  wf pa → identified lbs → lb ∈ lbs →
  AllocatePortsForLoadBalancers src fuel pa pos lbs = Some (pa', pos') →
  base.NoDup (port_name <$> ss_ports (svc_spec svc)) →
  ∃ ports, CreateServicePorts (H := allocator_lookup pa') lb existing = Done ports ∧
    StronglySorted (by_key sp_name) ports ∧
    length ports = length (ss_ports (svc_spec svc)) ∧
    ∀ p, p ∈ ss_ports (svc_spec svc) → ∃ q, q ∈ ports ∧
      sp_name q = port_name p ∧ sp_port q = sp_port p ∧ sp_protocol q = sp_protocol p ∧
      (startPort ≤ IntVal (sp_targetPort q) < endPort)%Z ∧
      Lookup pa' (lb_key lb 0) (EnvoyListenerPattern (sp_nodePort p) (sp_protocol p)) =
        (IntVal (sp_targetPort q), true).
Proof.
  intros lb Hwf Hid Hin Halloc Hnd.
  destruct (created_port src fuel lbs pa pos pa' pos' lb svc eps ref cluster existing
    (stored_as_refl lb) Hwf Hid Hin Halloc Hnd) as (ports & Hports & Hsorted & Hlen & Hall).
  exists ports. repeat (split; [done|]). intros p Hp.
  destruct (Hall p Hp) as (q & port & Hq & Hn & Hqp & Hpr & Ht & Hr & Hl). exists q. by rewrite Ht.
Qed.

Lemma CreateServicePorts_end_to_end_witness :
  let svc := sample_user_service sample_ports None in
  let lb := (MapLoadBalancer (H := no_unicode) svc ["10.0.0.1"] false "tenant-a").1 in
  ∃ pa' pos', AllocatePortsForLoadBalancers Z.of_nat 9 NewPortAllocator 0 [lb] = Some (pa', pos') ∧
    ∃ ports, CreateServicePorts (H := allocator_lookup pa') lb zero_service = Done ports ∧
      StronglySorted (by_key sp_name) ports ∧ length ports = 2.
Proof.
  intros svc lb.
  assert (match AllocatePortsForLoadBalancers Z.of_nat 9 NewPortAllocator 0 [lb] with
    | Some _ => True | None => False end) as Hsome by (vm_compute; exact I).
  destruct (AllocatePortsForLoadBalancers Z.of_nat 9 NewPortAllocator 0 [lb])
    as [[pa' pos']|] eqn:E; [|destruct Hsome].
  exists pa', pos'. split; [reflexivity|].
  destruct (CreateServicePorts_end_to_end (H := no_unicode) Z.of_nat 9 [lb] NewPortAllocator 0 pa' pos'
    svc ["10.0.0.1"] false "tenant-a" zero_service) as (ports & H1 & H2 & H3 & _).
  - apply New_wf.
  - split; [computed|]. exists 9. by repeat constructor.
  - apply elem_of_cons. left. reflexivity.
  - exact E.
  - computed.
  - exists ports. split; [exact H1|]. split; [exact H2|exact H3].
Defined.

(** ** Node ports are kept *)

Definition with_node_port (n : Z) (sp : ServicePort) : ServicePort :=
  {| sp_name := sp_name sp; sp_protocol := sp_protocol sp; sp_port := sp_port sp;
     sp_targetPort := sp_targetPort sp; sp_nodePort := n; sp_appProtocol := sp_appProtocol sp |}.

(** The port with the node port of the existing port it matches. *)
Definition renumber (existing : list ServicePort) (sp : ServicePort) : ServicePort :=
  with_node_port (match list_find (λ q, sp_name q = sp_name sp ∨ (sp_port q = sp_port sp ∧ sp_protocol q = sp_protocol sp)) existing with
                  | Some (_, q) => sp_nodePort q
                  | None => 0
                  end) sp.

(** Equal but for the node port. *)
Definition same_but_node_port (p q : ServicePort) : Prop := ∃ n, q = with_node_port n p.

Section stable.
Context `{PortLookup}.

Lemma service_ports_renumber lb e0 e1 ep i ports :
  go_map (service_port lb e1 ep) i ports =
  (ps ← go_map (service_port lb e0 ep) i ports; Done ((renumber (ss_ports (svc_spec e1)) <$> ps) : list ServicePort)).
Proof.
  revert i. induction ports as [|p ports IH]; intros i; cbn [go_map]; [done|].
  rewrite IH. unfold service_port. destruct (endpoint_target ep i p) as [t|]; simpl; [|done].
  destruct (go_map _ (S i) ports) as [ps|]; simpl; [|done]. do 2 f_equal.
Qed.

Lemma CreateServicePorts_renumber lb e0 e1 :
  CreateServicePorts lb e1 =
  (ps ← CreateServicePorts lb e0; Done ((renumber (ss_ports (svc_spec e1)) <$> ps) : list ServicePort)).
Proof.
  unfold CreateServicePorts. destruct (ls_endpoints (lb_spec lb)) as [|ep eps]; [done|].
  rewrite (service_ports_renumber lb e0 e1). destruct (go_map _ _ _) as [ps|]; simpl; [|done].
  by rewrite sort_by_map.
Qed.

(** The names and numbers of the created ports are those of the LoadBalancer. *)
Lemma CreateServicePorts_names lb existing ps :
  CreateServicePorts lb existing = Done ps → ls_endpoints (lb_spec lb) ≠ [] →
  sp_name <$> ps ≡ₚ lp_name <$> ls_ports (lb_spec lb) ∧
  (λ p, (sp_port p, sp_protocol p)) <$> ps ≡ₚ (λ p, (lp_port p, lp_protocol p)) <$> ls_ports (lb_spec lb).
Proof.
  unfold CreateServicePorts. destruct (ls_endpoints (lb_spec lb)) as [|ep eps]; [done|]. intros Hc _.
  destruct (go_map _ 0 _) as [raw|] eqn:E; simpl in Hc; [injection Hc as <-|done].
  rewrite sort_by_perm.
  assert (∀ i raw ports, go_map (service_port lb existing ep) i ports = Done raw →
    sp_name <$> raw = lp_name <$> ports ∧
    (λ p, (sp_port p, sp_protocol p)) <$> raw = (λ p, (lp_port p, lp_protocol p)) <$> ports) as Hraw.
  { clear. intros i raw ports. revert i raw. induction ports as [|p ports IH]; intros i raw; simpl.
    { by intros [= <-]. }
    destruct (service_port lb existing ep i p) as [sp|] eqn:Es; simpl; [|done].
    destruct (go_map _ (S i) ports) as [rest|] eqn:Er; simpl; [|done]. intros [= <-].
    apply service_port_fields in Es as (E1 & E2 & E3 & _). apply IH in Er as [E4 E5].
    split; [exact (f_equal2 cons E1 E4)|]. refine (f_equal2 cons _ E5). by rewrite E2, E3. }
  apply Hraw in E as [-> ->]. done.
Qed.

Lemma renumber_own ps ps' :
  base.NoDup (sp_name <$> ps) → base.NoDup ((λ p, (sp_port p, sp_protocol p)) <$> ps) →
  Forall2 same_but_node_port ps ps' → renumber ps' <$> ps = ps'.
Proof.
  intros Hn Hp Hs. apply list_eq. intros i. rewrite list_lookup_fmap.
  destruct (ps !! i) as [p|] eqn:Ei; simpl.
  2: { symmetry. apply lookup_ge_None. rewrite <- (Forall2_length _ _ _ Hs). by apply lookup_ge_None. }
  destruct (Forall2_lookup_l _ _ _ _ _ Hs Ei) as (p' & Ei' & [n ->]). rewrite Ei'. f_equal.
  unfold renumber.
  enough (list_find (λ q, sp_name q = sp_name p ∨ (sp_port q = sp_port p ∧ sp_protocol q = sp_protocol p)) ps'
          = Some (i, with_node_port n p)) as -> by done.
  apply list_find_Some. split; [done|]. split; [by left|]. intros j q' Hj Hlt Hm.
  destruct (Forall2_lookup_r _ _ _ _ _ Hs Hj) as (q & Hj' & [m ->]). simpl in Hm.
  assert (j = i); [|lia]. destruct Hm as [Hm|[Hm1 Hm2]].
  - eapply NoDup_lookup; [exact Hn| |]; rewrite list_lookup_fmap; [by rewrite Hj'|]. by rewrite Ei, Hm.
  - eapply NoDup_lookup; [exact Hp| |]; rewrite list_lookup_fmap; [by rewrite Hj'|].
    simpl. by rewrite Ei, Hm1, Hm2.
Qed.

(** Computing the ports again from a Service that has them, with the node ports
    the API server assigned, gives the same ports. *)
Lemma CreateServicePorts_stable lb e0 e1 ps :
  CreateServicePorts lb e0 = Done ps → ls_endpoints (lb_spec lb) ≠ [] →
  base.NoDup (lp_name <$> ls_ports (lb_spec lb)) →
  base.NoDup ((λ p, (lp_port p, lp_protocol p)) <$> ls_ports (lb_spec lb)) →
  Forall2 same_but_node_port ps (ss_ports (svc_spec e1)) →
  CreateServicePorts lb e1 = Done (ss_ports (svc_spec e1)).
Proof.
  intros Hc Hne Hn Hp Hs. rewrite (CreateServicePorts_renumber lb e0 e1), Hc. simpl. f_equal.
  destruct (CreateServicePorts_names lb e0 ps Hc Hne) as [Hpn Hpp].
  apply renumber_own; [by rewrite Hpn|by rewrite Hpp|done].
Qed.
End stable.
