(* ===== verification/Hostname.v ===== *)
(** * Hostnames (internal/kubelb/loadbalancer.go)

    The validation of hostnames, with a matcher for the regular expression of a
    label, the generation of a random hostname below the wildcard domain of a
    tenant, and the decision whether a load balancer gets a hostname at all. *)
From Stdlib Require Import Ascii.
From stdpp Require Import base gmap sets list strings pretty.
From S2P Require Import Prelude GoStrings Api Names Annotations.
Import Core V1alpha1.

(** ** Regular expressions: the constructs the pattern of a label uses *)
Inductive regex :=
  | Bytes (p : ascii → bool)           (* a character class *)
  | Seq (r1 r2 : regex)
  | Opt (r : regex)                    (* r? *)
  | UpTo (r : regex) (n : nat).        (* r{0,n} *)

(** What may remain of a string after a match of [r] at its start. *)
Fixpoint rest (r : regex) (s : string) : list string :=
  match r with
  | Bytes p => match s with String c t => if p c then [t] else [] | EmptyString => [] end
  | Seq r1 r2 => rest r1 s ≫= rest r2
  | Opt r => s :: rest r s
  | UpTo r n =>
      (fix go n s := match n with O => [s] | S n => s :: (rest r s ≫= go n) end) n s
  end.

(** [MatchString] of the anchored pattern [^r$]. *)
Definition MatchString (r : regex) (s : string) : bool := bool_decide ("" ∈ rest r s).

Definition alnum (c : ascii) : bool := is_lower c || is_digit c.
Definition ldh (c : ascii) : bool := alnum c || bool_decide (c = "-"%char).

(** [^[a-z0-9]([a-z0-9-]{0,61}[a-z0-9])?$] *)
Definition labelRegex : regex := Seq (Bytes alnum) (Opt (Seq (UpTo (Bytes ldh) 61) (Bytes alnum))).

Section hostname.
Context `{Unicode}.

Definition valid_label (label : string) : bool :=
  negb (bool_decide (label = "") || bool_decide (63 < String.length label)) &&
  MatchString labelRegex (ToLower label).

Definition isValidHostname (hostname : string) : bool :=
  if bool_decide (hostname = "") || bool_decide (253 < String.length hostname) then false
  else if Contains hostname ".." || HasPrefix hostname "." || HasSuffix hostname "." then false
  else
    let labels := Split hostname "."%char in
    if bool_decide (length labels < 2) then false
    else forallb valid_label labels.

(** [hex.EncodeToString] *)
Definition hex_digit (n : N) : ascii :=
  if (n <? 10)%N then ascii_of_N (48 + n) else ascii_of_N (87 + n).

Definition EncodeToString (bytes : list ascii) : string :=
  foldr (λ b acc, String (hex_digit (N_of_ascii b / 16))
                    (String (hex_digit (N_of_ascii b `mod` 16)) acc)) "" bytes.

Definition baseDomain (tenant : DNSSettings) (config : ConfigDNSSettings) : option string :=
  match wildcardDomain tenant with
  | Some w => if decide (w ≠ "") then Some w
              else if decide (cd_wildcardDomain config ≠ "") then Some (cd_wildcardDomain config) else None
  | None => if decide (cd_wildcardDomain config ≠ "") then Some (cd_wildcardDomain config) else None
  end.

Definition trim_wildcard (domain : string) : string :=
  TrimPrefix (TrimPrefix (TrimPrefix domain "*.") "**.") "*".

(** ["lb-%d.%s"] *)
Definition fallback_hostname (now : Z) (domain : string) : string :=
  "lb-" +:+ pretty now +:+ "." +:+ domain.

(** [random]: the eight bytes of [rand.Read], [None] when it fails; [now]: the
    Unix time. *)
Definition GenerateHostname (random : option (list ascii)) (now : Z)
    (tenant : DNSSettings) (config : ConfigDNSSettings) : string :=
  match baseDomain tenant config with
  | None => ""
  | Some domain =>
      match random with
      | None => fallback_hostname now domain
      | Some bytes =>
          let randomPrefix := ToLower (EncodeToString bytes) in
          let domain := trim_wildcard domain in
          if negb (isValidHostname domain) then ""
          else
            let hostname := randomPrefix +:+ "." +:+ domain in
            if negb (isValidHostname hostname) then fallback_hostname now domain else hostname
      end
  end.
End hostname.

Definition ShouldConfigureHostname (annotations : gomap string) (hostname : string)
    (tenant : Tenant) (config : Config) : bool :=
  let tdns := ts_dns (tn_spec tenant) in
  let cdns := cs_dns (cf_spec config) in
  if decide (hostname ≠ "") then
    if is_true (allowExplicitHostnames tdns) then true
    else cd_allowExplicitHostnames cdns && bool_decide (allowExplicitHostnames tdns = None)
  else
    match contents annotations !! AnnotationRequestWildcardDomain with
    | None => false
    | Some val =>
        if decide (val ≠ "true") then false
        else if match wildcardDomain tdns with Some w => bool_decide (w ≠ "") | None => false end then true
        else bool_decide (cd_wildcardDomain cdns ≠ "") && bool_decide (wildcardDomain tdns = None)
    end.

(** ** The matcher *)

(** What a bounded repetition of a class may leave. *)
Lemma elem_of_upto p n s t :
  t ∈ rest (UpTo (Bytes p) n) s ↔
  ∃ u, s = u +:+ t ∧ String.length u ≤ n ∧ all_bytes p u = true.
Proof.
  revert s. induction n as [|n IH]; intros s.
  - simpl. rewrite list_elem_of_singleton. split.
    + intros ->. by exists "".
    + intros ([|] & -> & Hl & _); [done|simpl in Hl; lia].
  - change (rest (UpTo (Bytes p) (S n)) s)
      with (s :: (rest (Bytes p) s ≫= rest (UpTo (Bytes p) n))).
    rewrite elem_of_cons, list_elem_of_bind. split.
    + intros [->|(v & Hv & Hin)]; [exists ""; split; [done|split; [simpl; lia|done]]|].
      apply IH in Hv as (u & -> & Hl & Hu). destruct s as [|c s]; simpl in Hin; [by apply elem_of_nil in Hin|].
      destruct (p c) eqn:Hc; [|by apply elem_of_nil in Hin].
      apply list_elem_of_singleton in Hin as <-. exists (String c u).
      rewrite sapp_cons. simpl. rewrite Hc. repeat split; [lia|done].
    + intros ([|c u] & -> & Hl & Hu); [by left|right]. simpl in Hl, Hu.
      apply andb_true_iff in Hu as [Hc Hu]. exists (u +:+ t). split.
      * apply IH. exists u. repeat split; [lia|done].
      * rewrite sapp_cons. simpl. rewrite Hc. by apply list_elem_of_singleton.
Qed.

(** The language of the pattern: one to 63 letters, digits and dashes, with a
    letter or digit at both ends. *)
Lemma labelRegex_language s :
  MatchString labelRegex s = true ↔
  (∃ c, s = String c "" ∧ alnum c = true) ∨
  (∃ c u d, s = String c (u +:+ String d "") ∧ alnum c = true ∧ alnum d = true ∧
     String.length u ≤ 61 ∧ all_bytes ldh u = true).
Proof.
  unfold MatchString. rewrite bool_decide_eq_true.
  change (rest labelRegex s) with
    (rest (Bytes alnum) s ≫= λ t, t :: (rest (UpTo (Bytes ldh) 61) t ≫= rest (Bytes alnum))).
  rewrite list_elem_of_bind. setoid_rewrite elem_of_cons. setoid_rewrite list_elem_of_bind.
  setoid_rewrite elem_of_upto.
  assert (∀ x y p, y ∈ rest (Bytes p) x ↔ ∃ c, x = String c y ∧ p c = true) as Hb.
  { intros [|c x] y p; simpl; [split; [by intros ?%elem_of_nil|by intros (? & ? & _)]|].
    destruct (p c) eqn:Hc.
    - rewrite list_elem_of_singleton. split; [intros ->; eauto|]. by intros (? & [= -> ->] & _).
    - split; [by intros ?%elem_of_nil|]. intros (? & [= -> ->] & ?). congruence. }
  setoid_rewrite Hb. split.
  - intros (t & [<-|(v & (d & -> & Hd) & u & -> & Hl & Hu)] & c & -> & Hc).
    + left. eauto.
    + right. exists c, u, d. auto.
  - intros [(c & -> & Hc)|(c & u & d & -> & Hc & Hd & Hl & Hu)].
    + exists "". split; [by left|eauto].
    + exists (u +:+ String d ""). split; [right; exists (String d ""); eauto 10|eauto].
Qed.

(** ** Labels *)

Definition letter_digit (c : ascii) : bool := is_upper c || is_lower c || is_digit c.

(** A label of a DNS name, in any case. *)
Record dns_label (s : string) : Prop := {
  dl_length : 1 ≤ String.length s ≤ 63;
  dl_bytes : all_bytes (λ c, letter_digit c || bool_decide (c = "-"%char)) s = true;
  dl_first : HasPrefix s "-" = false;
  dl_last : HasSuffix s "-" = false
}.

Lemma alnum_lower c : alnum (lower_byte c) = letter_digit c.
Proof. by destruct c as [[] [] [] [] [] [] [] []]. Qed.
Lemma ldh_lower c : ldh (lower_byte c) = letter_digit c || bool_decide (c = "-"%char).
Proof. by destruct c as [[] [] [] [] [] [] [] []]. Qed.
Lemma dash_not_letter c : bool_decide ("-"%char = c) = true → letter_digit c = false.
Proof. intros <-%bool_decide_eq_true. done. Qed.
Lemma letter_or_dash c :
  letter_digit c || bool_decide (c = "-"%char) = true →
  bool_decide ("-"%char = c) = false → letter_digit c = true.
Proof.
  rewrite orb_true_iff, bool_decide_eq_true, bool_decide_eq_false. naive_solver.
Qed.

Lemma snoc_cases s : s = "" ∨ ∃ u d, s = u +:+ String d "".
Proof.
  induction s as [|c s [->|(u & d & ->)]]; [by left|right; by exists "", c|right].
  exists (String c u), d. by rewrite sapp_cons.
Qed.

Lemma sapp_snoc_inj u d v e : u +:+ String d "" = v +:+ String e "" → u = v ∧ d = e.
Proof. intros [-> [= ->]]%sapp_inj_len_r; done. Qed.

Lemma HasSuffix_snoc u d : HasSuffix (u +:+ String d "") "-" = bool_decide ("-"%char = d).
Proof.
  unfold HasSuffix. rewrite slen_app. simpl.
  rewrite bool_decide_eq_true_2 by lia. simpl.
  replace (String.length u + 1 - 1) with (String.length u) by lia.
  rewrite drop_bytes_app. apply bool_decide_ext. split; [by intros [= ->]|by intros <-].
Qed.

Lemma map_lower_all p q u :
  (∀ c, p (lower_byte c) = q c) → all_bytes p (map_bytes lower_byte u) = all_bytes q u.
Proof. intros Hp. induction u as [|c u IH]; simpl; [done|]. by rewrite Hp, IH. Qed.

Lemma map_bytes_snoc_inv f s u d :
  map_bytes f s = u +:+ String d "" →
  ∃ u' d', s = u' +:+ String d' "" ∧ u = map_bytes f u' ∧ d = f d'.
Proof.
  destruct (snoc_cases s) as [->|(u' & d' & ->)].
  - intros E%(f_equal String.length). rewrite slen_app in E. simpl in E. lia.
  - rewrite map_bytes_app. intros [<- <-]%sapp_snoc_inj. eauto.
Qed.

(** On ASCII labels the code accepts exactly the labels of DNS. *)
Lemma valid_label_spec `{Unicode} s :
  is_ascii s = true → valid_label s = true ↔ dns_label s.
Proof.
  intros Ha. unfold valid_label, ToLower. rewrite Ha, andb_true_iff, negb_true_iff, orb_false_iff.
  rewrite !bool_decide_eq_false, labelRegex_language. split.
  - intros [[Hne Hlen] [(c & E & Hc)|(c & u & d & E & Hc & Hd & Hl & Hu)]].
    + destruct s as [|c0 [|]]; simpl in E; try done. injection E as <-.
      rewrite alnum_lower in Hc. split; simpl; [lia|by rewrite Hc| |].
      * destruct (bool_decide _) eqn:Hb; [|done]. apply dash_not_letter in Hb. congruence.
      * change (String c0 "") with ("" +:+ String c0 ""). rewrite HasSuffix_snoc.
        destruct (bool_decide _) eqn:Hb; [|done]. apply dash_not_letter in Hb. congruence.
    + destruct s as [|c0 s]; simpl in E; [done|]. injection E as <- E.
      apply map_bytes_snoc_inv in E as (u' & d' & -> & -> & ->).
      rewrite alnum_lower in Hc, Hd. rewrite (map_lower_all _ _ _ ldh_lower) in Hu. split.
      * simpl in *. lia.
      * simpl. rewrite all_bytes_app, Hc, Hu. simpl. by rewrite Hd.
      * simpl. destruct (bool_decide _) eqn:Hb; [|done]. apply dash_not_letter in Hb. congruence.
      * rewrite <- sapp_cons, HasSuffix_snoc.
        destruct (bool_decide _) eqn:Hb; [|done]. apply dash_not_letter in Hb. congruence.
  - intros [Hlen Hb Hf Hs]. destruct s as [|c s]; [simpl in Hlen; lia|].
    split; [split; [done|lia]|]. simpl in Hb, Hf. apply andb_true_iff in Hb as [Hc Hb].
    rewrite andb_true_r in Hf. pose proof (letter_or_dash _ Hc Hf) as Hc'.
    destruct (snoc_cases s) as [->|(u & d & ->)].
    + left. exists (lower_byte c). split; [done|]. by rewrite alnum_lower.
    + right. rewrite all_bytes_app in Hb. simpl in Hb. rewrite andb_true_r in Hb.
      apply andb_true_iff in Hb as [Hu Hd].
      rewrite <- sapp_cons, HasSuffix_snoc in Hs. pose proof (letter_or_dash _ Hd Hs) as Hd'.
      exists (lower_byte c), (map_bytes lower_byte u), (lower_byte d). simpl.
      rewrite map_bytes_app, !alnum_lower, (map_lower_all _ _ _ ldh_lower), length_map_bytes.
      simpl in Hlen. rewrite slen_app in Hlen. simpl in Hlen. repeat split; auto. lia.
Qed.

(** ** Hostnames *)

Lemma Split_app s t sep : Split (s +:+ String sep t) sep = Split s sep ++ Split t sep.
Proof.
  induction s as [|c s IH].
  - rewrite sapp_nil_l. simpl. pose proof (Split_nonempty t sep).
    destruct (Split t sep); [done|]. by rewrite decide_True.
  - rewrite sapp_cons. simpl. rewrite IH. pose proof (Split_nonempty s sep).
    destruct (Split s sep); [done|]. simpl. by case_decide.
Qed.

Lemma Contains_spec s sub : Contains s sub = true ↔ ∃ a b, s = a +:+ sub +:+ b.
Proof.
  induction s as [|c s IH].
  - simpl. rewrite orb_false_r, HasPrefix_spec. split.
    + intros [b E]. by exists "", b.
    + intros (a & b & E). destruct a; [by exists b|done].
  - cbn [Contains]. rewrite orb_true_iff, HasPrefix_spec, IH. split.
    + intros [[b E]|(a & b & ->)]; [by exists "", b|]. by exists (String c a), b.
    + intros (a & b & E). destruct a as [|c' a]; [left; by exists b|right].
      rewrite sapp_cons in E. injection E as _ E. by exists a, b.
Qed.

Lemma HasSuffix_spec s suf : HasSuffix s suf = true → ∃ t, s = t +:+ suf.
Proof.
  unfold HasSuffix. rewrite andb_true_iff, !bool_decide_eq_true. intros [_ E].
  exists (take_bytes (String.length s - String.length suf) s).
  rewrite <- (take_drop_bytes (String.length s - String.length suf) s) at 1. by rewrite E.
Qed.

(** A leading, trailing or doubled dot leaves an empty label. *)
Lemma dots_empty_label s :
  Contains s ".." || HasPrefix s "." || HasSuffix s "." = true → "" ∈ Split s "."%char.
Proof.
  rewrite !orb_true_iff. intros [[(a & b & ->)%Contains_spec|[t ->]%HasPrefix_spec]|[t ->]%HasSuffix_spec].
  - change (".." +:+ b) with (String "." (String "." b)). rewrite Split_app.
    apply elem_of_app. right. change (String "." b) with ("" +:+ String "." b).
    rewrite Split_app. apply elem_of_cons. by left.
  - change ("." +:+ t) with ("" +:+ String "." t). rewrite Split_app. apply elem_of_cons. by left.
  - rewrite Split_app. apply elem_of_app. right. apply elem_of_cons. by left.
Qed.

Lemma forallb_Forall_true {A} (f : A → bool) l :
  forallb f l = true ↔ Forall (λ x, f x = true) l.
Proof.
  induction l as [|x l IH]; simpl; [split; [constructor|done]|].
  by rewrite andb_true_iff, IH, Forall_cons.
Qed.

Lemma valid_label_nonempty `{Unicode} : valid_label "" = false.
Proof. done. Qed.

(** The three checks for dots are implied by the check of the labels. *)
Lemma isValidHostname_labels `{Unicode} s :
  isValidHostname s = true ↔
  String.length s ≤ 253 ∧ 2 ≤ length (Split s "."%char) ∧
  Forall (λ l, valid_label l = true) (Split s "."%char).
Proof.
  unfold isValidHostname. rewrite <- forallb_Forall_true.
  destruct (Contains s ".." || HasPrefix s "." || HasSuffix s ".") eqn:Hd.
  - split; [by case_match|]. intros (_ & _ & Hf). exfalso.
    apply dots_empty_label in Hd. apply forallb_Forall_true in Hf.
    apply (proj1 (list.Forall_forall _ _) Hf) in Hd. by rewrite valid_label_nonempty in Hd.
  - destruct (bool_decide (s = "")) eqn:He.
    { apply bool_decide_eq_true in He as ->. simpl. split; [done|]. intros (_ & H2 & _). lia. }
    simpl. destruct (bool_decide (253 < String.length s)) eqn:Hl.
    { apply bool_decide_eq_true in Hl. split; [done|]. lia. }
    apply bool_decide_eq_false in Hl.
    destruct (bool_decide (length (Split s "."%char) < 2)) eqn:H2.
    { apply bool_decide_eq_true in H2. split; [done|]. lia. }
    apply bool_decide_eq_false in H2. split.
    + intros Hf. split; [lia|]. split; [lia|done].
    + by intros (_ & _ & Hf).
Qed.

Lemma Split_ascii s sep : is_ascii s = true → Forall (λ l, is_ascii l = true) (Split s sep).
Proof.
  induction s as [|c s IH]; simpl; [by repeat constructor|].
  unfold is_ascii at 1. simpl. intros [Hc Hs]%andb_true_iff. specialize (IH Hs).
  destruct (Split s sep) as [|w ws]; [by repeat constructor|].
  inversion IH; subst. case_decide; constructor; auto. unfold is_ascii. simpl. by rewrite Hc.
Qed.

(** C37: On ASCII strings isValidHostname accepts exactly the DNS names of at least
    two labels and at most 253 bytes whose labels have 1 to 63 letters, digits and
    dashes with no dash at either end; the separate checks for leading, trailing
    and doubled dots reject nothing else. *)
Theorem isValidHostname_spec `{Unicode} s :
  is_ascii s = true →
  isValidHostname s = true ↔
  String.length s ≤ 253 ∧ 2 ≤ length (Split s "."%char) ∧ Forall dns_label (Split s "."%char).
Proof.
  intros Ha. rewrite isValidHostname_labels.
  assert (Forall (λ l, valid_label l = true) (Split s "."%char) ↔ Forall dns_label (Split s "."%char)) as ->;
    [|done].
  pose proof (Split_ascii s "."%char Ha) as Hl.
  induction Hl as [|l ls Hl _ IH]; [by rewrite !Forall_nil|].
  by rewrite !Forall_cons, (valid_label_spec l Hl), IH.
Qed.

Lemma isValidHostname_spec_witness :
  isValidHostname (H := no_unicode) "App-1.example.com" = true ↔
  String.length "App-1.example.com" ≤ 253 ∧ 2 ≤ length (Split "App-1.example.com" "."%char) ∧
  Forall dns_label (Split "App-1.example.com" "."%char).
Proof. apply (isValidHostname_spec (H := no_unicode) "App-1.example.com"). reflexivity. Defined.

(** ** Generated hostnames *)

Lemma hex_digit_alnum n : (n < 16)%N → alnum (hex_digit n) = true ∧ is_ascii_byte (hex_digit n) = true ∧
  lower_byte (hex_digit n) = hex_digit n.
Proof.
  intros Hn. destruct n as [|p]; [done|].
  do 15 (destruct p as [p|p|]; try done; try lia).
Qed.

Lemma EncodeToString_facts bytes :
  String.length (EncodeToString bytes) = 2 * length bytes ∧
  all_bytes alnum (EncodeToString bytes) = true ∧
  is_ascii (EncodeToString bytes) = true ∧
  map_bytes lower_byte (EncodeToString bytes) = EncodeToString bytes.
Proof.
  induction bytes as [|b bytes (H1 & H2 & H3 & H4)]; [done|].
  assert (N_of_ascii b / 16 < 16)%N as Hq.
  { apply N.Div0.div_lt_upper_bound. pose proof (N_ascii_bounded b). lia. }
  assert (N_of_ascii b `mod` 16 < 16)%N as Hr by (apply N.mod_lt; lia).
  destruct (hex_digit_alnum _ Hq) as (A1 & A2 & A3), (hex_digit_alnum _ Hr) as (B1 & B2 & B3).
  unfold is_ascii in *. cbn [EncodeToString foldr all_bytes map_bytes String.length length].
  fold (EncodeToString bytes). rewrite A1, A2, A3, B1, B2, B3, H1, H2, H3, H4. repeat split. lia.
Qed.

Lemma alnum_not_dash s : all_bytes alnum s = true → lacks "-"%char s = true.
Proof.
  induction s as [|c s IH]; simpl; [done|]. intros [Hc Hs]%andb_true_iff. rewrite (IH Hs), andb_true_r.
  apply negb_true_iff, bool_decide_eq_false. by intros <-.
Qed.

Lemma hex_label bytes :
  1 ≤ length bytes ≤ 31 → dns_label (EncodeToString bytes).
Proof.
  intros Hlen. destruct (EncodeToString_facts bytes) as (Hl & Ha & _ & _).
  pose proof (alnum_not_dash _ Ha) as Hd. split.
  - lia.
  - eapply all_bytes_impl; [|exact Ha]. intros c Hc. unfold letter_digit, alnum in *.
    by destruct (is_upper c), (is_lower c), (is_digit c).
  - destruct (HasPrefix _ _) eqn:E; [|done]. apply HasPrefix_spec in E as [t E].
    by rewrite E in Hd.
  - destruct (HasSuffix _ _) eqn:E; [|done]. apply HasSuffix_spec in E as [t E].
    rewrite E, lacks_app in Hd. by rewrite andb_false_r in Hd.
Qed.

Lemma hex_digit_inj m n : (m < 16)%N → (n < 16)%N → hex_digit m = hex_digit n → m = n.
Proof.
  intros Hm Hn E. assert (N_of_ascii (hex_digit m) = N_of_ascii (hex_digit n)) as E' by (by rewrite E).
  unfold hex_digit in E'. destruct (m <? 10)%N eqn:Em, (n <? 10)%N eqn:En;
    rewrite ?N.ltb_lt, ?N.ltb_ge in *; rewrite !N_ascii_embedding in E'; lia.
Qed.

Lemma EncodeToString_inj bs bs' : EncodeToString bs = EncodeToString bs' → bs = bs'.
Proof.
  revert bs'. induction bs as [|b bs IH]; intros [|b' bs'] E; try done.
  cbn [EncodeToString foldr] in E. fold (EncodeToString bs) (EncodeToString bs') in E.
  injection E as E1 E2 E. apply IH in E as ->. f_equal.
  assert (∀ c, N_of_ascii c / 16 < 16)%N as Hq.
  { intros c. apply N.Div0.div_lt_upper_bound. pose proof (N_ascii_bounded c). lia. }
  apply hex_digit_inj in E1; [|apply Hq..]. apply hex_digit_inj in E2; [|apply N.mod_lt; lia..].
  rewrite <- (ascii_N_embedding b), <- (ascii_N_embedding b'). f_equal.
  rewrite (N.Div0.div_mod (N_of_ascii b) 16), (N.Div0.div_mod (N_of_ascii b') 16). by rewrite E1, E2.
Qed.

Lemma ToLower_hex `{Unicode} bytes : ToLower (EncodeToString bytes) = EncodeToString bytes.
Proof.
  destruct (EncodeToString_facts bytes) as (_ & _ & Ha & Hlow). unfold ToLower. by rewrite Ha.
Qed.

(** A valid name stays valid below a random label, when there is room. *)
Lemma prefixed_valid `{Unicode} bytes domain :
  length bytes = 8 → isValidHostname domain = true →
  isValidHostname (EncodeToString bytes +:+ "." +:+ domain) = bool_decide (String.length domain ≤ 236).
Proof.
  intros Hb (Hl & H2 & Hf)%isValidHostname_labels.
  destruct (EncodeToString_facts bytes) as (Hlen & Ha & Has & _). rewrite Hb in Hlen.
  apply eq_true_iff_eq. rewrite isValidHostname_labels, bool_decide_eq_true.
  change ("." +:+ domain) with (String "." domain).
  rewrite Split_app_sep.
  2: { clear -Ha. revert Ha. generalize (EncodeToString bytes) as s.
       induction s as [|c s IH]; simpl; [done|]. intros [Hc Hs]%andb_true_iff. rewrite (IH Hs), andb_true_r.
       apply negb_true_iff, bool_decide_eq_false. by intros <-. }
  rewrite slen_app, Hlen. simpl String.length. simpl length. rewrite Forall_cons.
  assert (valid_label (EncodeToString bytes) = true) as Hv.
  { apply valid_label_spec; [done|]. apply hex_label. lia. }
  split; [lia|]. intros ?. split; [lia|]. split; [lia|]. done.
Qed.

(** With a valid wildcard domain of at most 236 bytes a generated hostname is a
    valid DNS name: sixteen hexadecimal digits below the domain without its
    asterisk; different random bytes give different hostnames. *)
Theorem GenerateHostname_valid `{Unicode} bytes now tenant config domain :
  baseDomain tenant config = Some domain → length bytes = 8 →
  isValidHostname (trim_wildcard domain) = true → String.length (trim_wildcard domain) ≤ 236 →
  let hostname := GenerateHostname (Some bytes) now tenant config in
  hostname = EncodeToString bytes +:+ "." +:+ trim_wildcard domain ∧
  isValidHostname hostname = true ∧
  ∀ bytes', length bytes' = 8 → GenerateHostname (Some bytes') now tenant config = hostname → bytes' = bytes.
Proof.
  intros Hd Hb Hv Hlen.
  assert (∀ bs, length bs = 8 → GenerateHostname (Some bs) now tenant config =
    EncodeToString bs +:+ "." +:+ trim_wildcard domain) as Hgen.
  { intros bs Hbs. unfold GenerateHostname. rewrite Hd, Hv. simpl. rewrite ToLower_hex.
    rewrite (prefixed_valid _ _ Hbs Hv), bool_decide_eq_true_2 by done. done. }
  intros hostname. unfold hostname. rewrite (Hgen bytes Hb). split; [done|]. split.
  { by rewrite (prefixed_valid _ _ Hb Hv), bool_decide_eq_true_2. }
  intros bytes' Hb'. rewrite (Hgen bytes' Hb'). intros E%sapp_inj_r. by apply EncodeToString_inj.
Qed.

Definition wildcard_dns (w : string) : DNSSettings :=
  {| wildcardDomain := Some w; allowExplicitHostnames := None;
     useDNSAnnotations := None; useCertificateAnnotations := None |}.
Definition no_config_dns : ConfigDNSSettings :=
  {| cd_wildcardDomain := ""; cd_allowExplicitHostnames := false;
     cd_useDNSAnnotations := false; cd_useCertificateAnnotations := false |}.

Lemma GenerateHostname_valid_witness :
  let bytes := replicate 8 "a"%char in
  GenerateHostname (H := no_unicode) (Some bytes) 1700000000 (wildcard_dns "*.apps.example.com") no_config_dns =
    "6161616161616161.apps.example.com" ∧
  isValidHostname (H := no_unicode)
    (GenerateHostname (H := no_unicode) (Some bytes) 1700000000 (wildcard_dns "*.apps.example.com") no_config_dns) = true.
Proof.
  intros bytes.
  destruct (GenerateHostname_valid (H := no_unicode) bytes 1700000000 (wildcard_dns "*.apps.example.com")
    no_config_dns "*.apps.example.com") as (H1 & H2 & _).
  - reflexivity.
  - reflexivity.
  - vm_compute. reflexivity.
  - vm_compute. lia.
  - split; [rewrite H1; vm_compute; reflexivity|exact H2].
Defined.

(** A domain of 237 bytes or more gets the fallback name made of the time; with
    a time of ten digits that is longer than 253 bytes, so not a valid hostname, as
    soon as the domain has 240. *)
Theorem GenerateHostname_long_domain `{Unicode} bytes now tenant config domain :
  baseDomain tenant config = Some domain → length bytes = 8 →
  isValidHostname (trim_wildcard domain) = true → 237 ≤ String.length (trim_wildcard domain) →
  let hostname := GenerateHostname (Some bytes) now tenant config in
  hostname = fallback_hostname now (trim_wildcard domain) ∧
  (String.length (pretty now) = 10 → 240 ≤ String.length (trim_wildcard domain) →
     isValidHostname hostname = false).
Proof.
  intros Hd Hb Hv Hlen hostname.
  assert (hostname = fallback_hostname now (trim_wildcard domain)) as Hg.
  { unfold hostname, GenerateHostname. rewrite Hd, Hv. simpl. rewrite ToLower_hex.
    rewrite (prefixed_valid _ _ Hb Hv), bool_decide_eq_false_2 by lia. done. }
  split; [done|]. intros Hp H240. rewrite Hg.
  destruct (isValidHostname (fallback_hostname now (trim_wildcard domain))) eqn:E; [|done].
  apply isValidHostname_labels in E as [El _]. unfold fallback_hostname in El.
  rewrite !slen_app, Hp in El. simpl in El. lia.
Qed.

(** A domain of 245 bytes: five labels of 48. *)
Definition long_domain : string :=
  Join (replicate 5 (EncodeToString (replicate 24 "a"%char))) "."%char.

Lemma GenerateHostname_long_domain_witness :
  isValidHostname (H := no_unicode) long_domain = true ∧
  isValidHostname (H := no_unicode)
    (GenerateHostname (H := no_unicode) (Some (replicate 8 "a"%char)) 1700000000
       (wildcard_dns long_domain) no_config_dns) = false.
Proof.
  split; [vm_compute; reflexivity|].
  apply (GenerateHostname_long_domain (H := no_unicode) (replicate 8 "a"%char) 1700000000
    (wildcard_dns long_domain) no_config_dns long_domain).
  - vm_compute. reflexivity.
  - reflexivity.
  - vm_compute. reflexivity.
  - vm_compute. lia.
  - vm_compute. reflexivity.
  - vm_compute. lia.
Defined.

(** Who decides about a hostname.  An explicit hostname needs the permission of
    the tenant, or of the configuration when the tenant says nothing; a generated
    one needs the request annotation and a wildcard domain of the tenant, or of the
    configuration when the tenant has none.  Whenever a hostname is to be generated,
    GenerateHostname has a domain to work with. *)
Theorem ShouldConfigureHostname_spec annotations hostname tenant config :
  let tdns := ts_dns (tn_spec tenant) in
  let cdns := cs_dns (cf_spec config) in
  (ShouldConfigureHostname annotations hostname tenant config = true ↔
     (hostname ≠ "" ∧
      default (cd_allowExplicitHostnames cdns) (allowExplicitHostnames tdns) = true) ∨
     (hostname = "" ∧
      contents annotations !! AnnotationRequestWildcardDomain = Some "true" ∧
      default (cd_wildcardDomain cdns) (wildcardDomain tdns) ≠ "")) ∧
  (ShouldConfigureHostname annotations "" tenant config = true →
     baseDomain tdns cdns = Some (default (cd_wildcardDomain cdns) (wildcardDomain tdns))).
Proof.
  intros tdns cdns. unfold ShouldConfigureHostname, baseDomain. fold tdns cdns. split.
  - destruct (decide (hostname ≠ "")) as [Hh|Hh].
    + destruct (allowExplicitHostnames tdns) as [[]|]; simpl.
      * naive_solver.
      * rewrite andb_false_r. naive_solver.
      * rewrite andb_true_r. naive_solver.
    + assert (hostname = "") as -> by (destruct (decide (hostname = "")); tauto).
      destruct (contents annotations !! _) as [val|]; [|naive_solver].
      destruct (decide (val ≠ "true")) as [Hv|Hv]; [naive_solver|].
      assert (val = "true") as -> by (destruct (decide (val = "true")); tauto).
      destruct (wildcardDomain tdns) as [w|]; simpl.
      * destruct (bool_decide (w ≠ "")) eqn:Hw; [apply bool_decide_eq_true in Hw|apply bool_decide_eq_false in Hw];
          rewrite ?andb_false_r; naive_solver.
      * rewrite andb_true_r, bool_decide_eq_true. naive_solver.
  - rewrite decide_False by naive_solver.
    destruct (contents annotations !! _) as [val|]; [|done].
    destruct (decide (val ≠ "true")); [done|].
    destruct (wildcardDomain tdns) as [w|]; simpl.
    + destruct (bool_decide (w ≠ "")) eqn:Hw.
      * apply bool_decide_eq_true in Hw. by rewrite decide_True.
      * by rewrite andb_false_r.
    + rewrite andb_true_r. intros Hc%bool_decide_eq_true. by rewrite decide_True.
Qed.

(** ** Generated names are labels *)

Lemma label_intro s c t v d :
  s = String c t → s = v +:+ String d "" → alnum c = true → alnum d = true → all_bytes ldh t = true →
  String.length s ≤ 63 → MatchString labelRegex s = true.
Proof.
  intros -> E Hc Hd Ht Hlen. apply labelRegex_language. destruct v as [|c' v].
  - rewrite sapp_nil_l in E. injection E as -> ->. left. by exists d.
  - rewrite sapp_cons in E. injection E as <- ->. right. exists c, v, d.
    rewrite all_bytes_app in Ht. apply andb_true_iff in Ht as [Hv _].
    simpl in Hlen. rewrite slen_app in Hlen. simpl in Hlen. repeat split; try done. lia.
Qed.

Lemma alnum_ldh c : alnum c = true → ldh c = true.
Proof. unfold ldh. by intros ->. Qed.

Lemma label_elim s :
  MatchString labelRegex s = true →
  ∃ c t v d, s = String c t ∧ s = v +:+ String d "" ∧ alnum c = true ∧ alnum d = true ∧ all_bytes ldh t = true.
Proof.
  intros [(c & -> & Hc)|(c & u & d & -> & Hc & Hd & _ & Hu)]%labelRegex_language.
  - exists c, "", "", c. by rewrite sapp_nil_l.
  - exists c, (u +:+ String d ""), (String c u), d. rewrite sapp_cons, all_bytes_app, Hu. simpl.
    by rewrite alnum_ldh.
Qed.

Lemma alnum_snoc x :
  x ≠ "" → all_bytes alnum x = true → ∃ y d, x = y +:+ String d "" ∧ alnum d = true ∧ all_bytes ldh x = true.
Proof.
  intros Hx Ha. assert (all_bytes ldh x = true) as Hl by (eapply all_bytes_impl; [exact alnum_ldh|exact Ha]).
  destruct (snoc_cases x) as [->|(y & d & ->)]; [done|]. exists y, d. split; [done|]. split; [|done].
  rewrite all_bytes_app in Ha. apply andb_true_iff in Ha as [_ Ha]. simpl in Ha. by rewrite andb_true_r in Ha.
Qed.

Lemma take_ldh k c z :
  all_bytes ldh z = true → ∃ w, take_bytes (S k) (String c z) = String c w ∧ all_bytes ldh w = true.
Proof.
  intros Hz. exists (take_bytes k z). split; [done|].
  rewrite <- (take_drop_bytes k z), all_bytes_app in Hz. by apply andb_true_iff in Hz as [Hz _].
Qed.

(** The names the manager generates for Services and routes are well formed.
    From a namespace and a name that are DNS labels and a UID that ends in letters
    or digits, the result is a DNS label again, of at most 60 bytes, whether it is
    cut, gets the suffix, or stands as it is. *)
Theorem GenerateName_label b u n ns :
  MatchString labelRegex ns = true → MatchString labelRegex n = true →
  NameSuffixLength ≤ String.length u →
  all_bytes alnum (drop_bytes (String.length u - NameSuffixLength) u) = true →
  ∃ out, GenerateName b u n ns = Done out ∧ MatchString labelRegex out = true ∧ String.length out ≤ MaxNameLength.
Proof.
  intros (c & t & _ & _ & -> & _ & Hc & _ & Ht)%label_elim Hn Hu Hx.
  destruct (GenerateName_bounds b u n (String c t) Hu) as (out & Hout & Hlen).
  exists out. split; [done|]. split; [|done].
  apply label_elim in Hn as (c' & t' & v & d & En & Ev & Hc' & Hd & Ht').
  assert (all_bytes ldh n = true) as Hnl by (rewrite En; simpl; by rewrite alnum_ldh).
  set (x := drop_bytes _ u) in Hx. assert (uid_suffix u = Done x) as Hux.
  { unfold uid_suffix. by rewrite decide_False by lia. }
  destruct (alnum_snoc x) as (y & e & Hy & He & Hxl); [|done|].
  { intros E. pose proof (uid_suffix_length _ _ Hux) as Hl. by rewrite E in Hl. }
  assert (String.length out ≤ 63) as Hlen' by (unfold MaxNameLength in Hlen; lia).
  destruct (take_ldh (MaxNameLength - NameSuffixLength - 2) c (t +:+ "-" +:+ n)) as (w & Hw & Hwl).
  { by rewrite !all_bytes_app, Ht, Hnl. }
  destruct (GenerateName_cases b u n (String c t) x Hux) as [[E _]|[(_ & E & _)|(_ & E & _)]];
    rewrite sapp_cons in E; try change (MaxNameLength - _) with (S (MaxNameLength - NameSuffixLength - 2)) in E; rewrite ?Hw in E;
    (match type of E with _ = Done ?o => assert (out = o) as Eo by congruence end);
    subst out; clear Hout E Hw.
  - rewrite sapp_cons. eapply (label_intro _ c _ (String c (w +:+ "-" +:+ y)) e); [done| |done|done| |done].
    + by rewrite Hy, !sapp_cons, !sapp_assoc, !sapp_cons, !sapp_nil_l.
    + by rewrite !all_bytes_app, Hwl, Hxl.
  - rewrite !sapp_cons. eapply (label_intro _ c _ (String c ((t +:+ "-" +:+ n) +:+ "-" +:+ y)) e); [done| |done|done| |done].
    + by rewrite Hy, !sapp_cons, !sapp_assoc, !sapp_cons, !sapp_nil_l.
    + rewrite ?sapp_nil_l. repeat first [rewrite all_bytes_app|progress simpl]. by rewrite Ht, Hnl, Hxl.
  - rewrite !sapp_cons. eapply (label_intro _ c _ (String c (t +:+ "-" +:+ v)) d); [done| |done|done| |done].
    + by rewrite Ev, !sapp_cons, !sapp_assoc, !sapp_cons, !sapp_nil_l.
    + rewrite ?sapp_nil_l. repeat first [rewrite all_bytes_app|progress simpl]. by rewrite Ht, Hnl.
Qed.

Lemma GenerateName_label_witness :
  ∃ out, GenerateName true "0b0f1f2e-7d54-4f0c-9f0a-1c2d3e4f5a6b" "front" "shop" = Done out ∧
    MatchString labelRegex out = true ∧ String.length out ≤ MaxNameLength.
Proof. apply (GenerateName_label true "0b0f1f2e-7d54-4f0c-9f0a-1c2d3e4f5a6b" "front" "shop"); vm_compute; [reflexivity..| |reflexivity]; lia. Defined.
