(* ===== verification/EnvoySnapshot.v ===== *)
(** * The Envoy snapshot (internal/envoy/resource.go)

    [MapSnapshot] turns the load balancers and routes of one proxy into the
    listeners and clusters Envoy is configured with: one listener and one cluster
    per endpoint port, named by the same key.

    The Envoy messages are records of the fields the code sets; a message packed
    by [anypb.New] is kept as it is.  The parameters are the client's answers for
    Addresses objects ([getAddresses]; each is asked for once per call, because the
    answer is kept in [addressesMap]) and go-control-plane's [MarshalResource] and
    [HashResource], which determine the version. *)
From stdpp Require Import base gmap sets list strings pretty.
From S2P Require Import Prelude GoStrings Api Names PortAllocator PortAllocatorSpec.
Import Core V1alpha1.

(** ** Envoy messages *)

Inductive SocketProtocol := SocketTCP | SocketUDP.

Record LbEndpoint := { lbe_protocol : SocketProtocol; lbe_address : string; lbe_port : Z }.

Record HealthCheck := {
  hc_timeout : Z; hc_interval : Z; hc_unhealthyThreshold : Z; hc_healthyThreshold : Z;
  hc_noTrafficInterval : Z
}.

Inductive HttpProtocolOptions := Http1ProtocolOptions | Http2ProtocolOptions.

Record Cluster := {
  cl_name : string;
  cl_connectTimeout : Z;
  cl_discoveryType : string;
  cl_lbPolicy : string;
  cl_dnsLookupFamily : string;
  cl_assignmentName : string;
  cl_endpoints : list LbEndpoint;
  cl_healthChecks : list HealthCheck;
  cl_bufferLimit : Z;
  cl_healthyPanicThreshold : Z;
  cl_protocolOptions : option HttpProtocolOptions
}.

Record HttpConnectionManager := {
  hcm_codecType : string;
  hcm_statPrefix : string;
  hcm_routeName : string;
  hcm_domains : list string;
  hcm_pathPrefix : string;
  hcm_cluster : string;
  hcm_httpFilters : list string;
  hcm_accessLog : string;
  hcm_maxConcurrentStreams : Z;
  hcm_initialStreamWindowSize : Z;
  hcm_initialConnectionWindowSize : Z;
  hcm_idleTimeout : Z;
  hcm_useRemoteAddress : bool;
  hcm_xffNumTrustedHops : Z;
  hcm_generateRequestId : bool
}.

(** What a listener does with a connection. *)
Inductive ListenerFilter :=
  | TcpProxy (statPrefix cluster : string) (accessLog : string)
  | UdpProxy (statPrefix cluster : string)
  | HttpManager (m : HttpConnectionManager).

Record Listener := {
  li_name : string;
  li_protocol : SocketProtocol;
  li_address : string;
  li_port : Z;
  li_filter : ListenerFilter;
  li_reusePort : bool
}.

(** The cluster a filter forwards to. *)
Definition forwards_to (f : ListenerFilter) : string :=
  match f with
  | TcpProxy _ c _ => c
  | UdpProxy _ c => c
  | HttpManager m => hcm_cluster m
  end.

(** ** Builders *)

Definition endpointAddressReferencePattern (ns n : string) : string := ns +:+ "-address-" +:+ n.

Definition defaultHealthCheck : HealthCheck :=
  {| hc_timeout := 5; hc_interval := 5; hc_unhealthyThreshold := 3; hc_healthyThreshold := 2;
     hc_noTrafficInterval := 5 |}.

Definition IsHTTPRoute (routeKind : string) : bool :=
  bool_decide (routeKind = "HTTPRoute") || bool_decide (routeKind = "GRPCRoute") ||
  bool_decide (routeKind = "Ingress").

Definition makeCluster (clusterName : string) (lbEndpoints : list LbEndpoint)
    (protocol routeKind : string) : Cluster :=
  {| cl_name := clusterName;
     cl_connectTimeout := 5;
     cl_discoveryType := "STRICT_DNS";
     cl_lbPolicy := "ROUND_ROBIN";
     cl_dnsLookupFamily := "V4_ONLY";
     cl_assignmentName := clusterName;
     cl_endpoints := lbEndpoints;
     cl_healthChecks := if decide (protocol = ProtocolUDP) then [] else [defaultHealthCheck];
     cl_bufferLimit := 32768;
     cl_healthyPanicThreshold := 0;
     cl_protocolOptions :=
       if decide (routeKind = "GRPCRoute") then Some Http2ProtocolOptions
       else if IsHTTPRoute routeKind then Some Http1ProtocolOptions else None |}.

Definition makeEndpoint (address : string) (port : Z) : LbEndpoint :=
  {| lbe_protocol := SocketTCP; lbe_address := address; lbe_port := port |}.

Definition makeTCPListener (clusterName listenerName : string) (listenerPort : Z) : Listener :=
  {| li_name := listenerName; li_protocol := SocketTCP; li_address := "0.0.0.0"; li_port := listenerPort;
     li_filter := TcpProxy listenerName clusterName "/dev/stdout"; li_reusePort := false |}.

Definition makeUDPListener (clusterName listenerName : string) (listenerPort : Z) : Listener :=
  {| li_name := listenerName; li_protocol := SocketUDP; li_address := "0.0.0.0"; li_port := listenerPort;
     li_filter := UdpProxy listenerName clusterName; li_reusePort := true |}.

Definition makeHTTPListener (listenerName clusterName : string) (listenerPort : Z) : Listener :=
  {| li_name := listenerName; li_protocol := SocketTCP; li_address := "0.0.0.0"; li_port := listenerPort;
     li_filter := HttpManager
       {| hcm_codecType := "AUTO"; hcm_statPrefix := listenerName;
          hcm_routeName := listenerName +:+ "_route"; hcm_domains := ["*"]; hcm_pathPrefix := "/";
          hcm_cluster := clusterName; hcm_httpFilters := ["envoy.filters.http.router"];
          hcm_accessLog := "/dev/stdout"; hcm_maxConcurrentStreams := 2 ^ 31 - 1;
          hcm_initialStreamWindowSize := 2 ^ 31 - 1; hcm_initialConnectionWindowSize := 2 ^ 31 - 1;
          hcm_idleTimeout := 60; hcm_useRemoteAddress := true; hcm_xffNumTrustedHops := 1;
          hcm_generateRequestId := true |};
     li_reusePort := false |}.

Definition getOriginalRouteName (route : Route) : string :=
  match rsp_kubernetes (rt_spec route) with
  | Some source => originalRouteName route source
  | None =>
      let lbl := get_str (labels (rt_meta route)) LabelOriginName in
      if decide (lbl ≠ "") then lbl else name (rt_meta route)
  end.

Definition getRouteKind (route : Route) : string :=
  let label := get_str (labels (rt_meta route)) LabelOriginResourceKind in
  match rsp_kubernetes (rt_spec route) with
  | Some source => if decide (kind (u_type (ks_route source)) ≠ "") then kind (u_type (ks_route source)) else label
  | None => label
  end.

(** ** MapSnapshot *)

Abbreviation addresses_map := (gmap string (list EndpointAddress)).

Definition with_addresses (a : list EndpointAddress) (e : LoadBalancerEndpoints) : LoadBalancerEndpoints :=
  {| le_name := le_name e; le_addresses := a;
     le_addressesReference := le_addressesReference e; le_ports := le_ports e |}.

(** A listener, if the protocol has one, and a cluster. *)
Definition envoy_resource : Type := option Listener * Cluster.

Record Snapshot := { sn_version : string; sn_clusters : list Cluster; sn_listeners : list Listener }.

Section snapshot.
(** [client.Get] of an Addresses object. *)
Context (getAddresses : string → string → error + Addresses).
(** [envoycache.MarshalResource] and [envoycache.HashResource]. *)
Context (MarshalResource : Cluster + Listener → error + string) (HashResource : string → string).

(** The addresses of an endpoint, from the object it refers to if it refers to one. *)
Definition resolve_addresses (addressesMap : addresses_map) (ns : string) (e : LoadBalancerEndpoints)
    : error + (addresses_map * LoadBalancerEndpoints) :=
  match le_addressesReference e with
  | None => inr (addressesMap, e)
  | Some ref =>
      let key := endpointAddressReferencePattern ns (ref_name ref) in
      match addressesMap !! key with
      | Some val => inr (addressesMap, with_addresses val e)
      | None =>
          addresses ← wrap "failed to get addresses" (getAddresses ns (ref_name ref));
          inr (<[key := ad_addresses addresses]> addressesMap, with_addresses (ad_addresses addresses) e)
      end
  end.

(** The port of the listener of an endpoint port. *)
Definition lb_listener_port (portAllocator : option PortAllocator) (lb : LoadBalancer) (i : nat)
    (p : EndpointPort) : Z :=
  match portAllocator with
  | None => uint32 (ep_port p)
  | Some pa =>
      match Lookup pa (EnvoyEndpointPattern (namespace (lb_meta lb)) (name (lb_meta lb)) i)
              (EnvoyListenerPattern (ep_port p) (ep_protocol p)) with
      | (value, true) => uint32 value
      | (_, false) => uint32 (ep_port p)
      end
  end.

Definition lb_resource_key (lb : LoadBalancer) (i : nat) (p : EndpointPort) : string :=
  EnvoyResourceIdentifierPattern (namespace (lb_meta lb)) (name (lb_meta lb)) i (ep_port p) (ep_protocol p).

(** The body of the innermost loop for load balancers. *)
Definition lb_port_resource (portAllocator : option PortAllocator) (lb : LoadBalancer) (i : nat)
    (e : LoadBalancerEndpoints) (p : EndpointPort) : envoy_resource :=
  let key := lb_resource_key lb i p in
  let lbEndpoints := (λ a, makeEndpoint (ea_ip a) (uint32 (ep_port p))) <$> le_addresses e in
  let port := lb_listener_port portAllocator lb i p in
  (if decide (ep_protocol p = ProtocolTCP) then Some (makeTCPListener key key port)
   else if decide (ep_protocol p = ProtocolUDP) then Some (makeUDPListener key key port)
   else None,
   makeCluster key lbEndpoints (ep_protocol p) "").

Fixpoint lb_resources (portAllocator : option PortAllocator) (addressesMap : addresses_map)
    (lb : LoadBalancer) (i : nat) (es : list LoadBalancerEndpoints)
    : error + (addresses_map * list envoy_resource) :=
  match es with
  | [] => inr (addressesMap, [])
  | e :: es =>
      '(addressesMap, e) ← resolve_addresses addressesMap (namespace (lb_meta lb)) e;
      '(addressesMap, rs) ← lb_resources portAllocator addressesMap lb (S i) es;
      inr (addressesMap, (lb_port_resource portAllocator lb i e <$> le_ports e) ++ rs)
  end.

Fixpoint lbs_resources (portAllocator : option PortAllocator) (addressesMap : addresses_map)
    (lbs : list LoadBalancer) : error + (addresses_map * list envoy_resource) :=
  match lbs with
  | [] => inr (addressesMap, [])
  | lb :: lbs =>
      '(addressesMap, rs) ← lb_resources portAllocator addressesMap lb 0 (ls_endpoints (lb_spec lb));
      '(addressesMap, rs') ← lbs_resources portAllocator addressesMap lbs;
      inr (addressesMap, rs ++ rs')
  end.

(** The first loop over the endpoints of a route. *)
Fixpoint resolve_all (addressesMap : addresses_map) (ns : string) (es : list LoadBalancerEndpoints)
    : error + (addresses_map * list LoadBalancerEndpoints) :=
  match es with
  | [] => inr (addressesMap, [])
  | e :: es =>
      '(addressesMap, e) ← resolve_addresses addressesMap ns e;
      '(addressesMap, es) ← resolve_all addressesMap ns es;
      inr (addressesMap, e :: es)
  end.

(** [portAllocator.Lookup] for routes: there is no check for nil. *)
Definition lookup_or_panic (portAllocator : option PortAllocator) (e k : string) : go (Z * bool) :=
  match portAllocator with Some pa => Done (Lookup pa e k) | None => Panics end.

Definition route_resource_key (route : Route) (routeName : string) (svc : Service) (p : ServicePort) : string :=
  EnvoyRoutePortIdentifierPattern (namespace (rt_meta route)) (namespace (svc_meta svc))
    (name (svc_meta svc)) routeName (uid (svc_meta svc)) (sp_port p) (sp_protocol p).

Definition route_port_resource (portAllocator : option PortAllocator) (route : Route)
    (routeName routeKind : string) (es : list LoadBalancerEndpoints) (svc : Service)
    (p : ServicePort) : go envoy_resource :=
  let endpointKey := route_endpoint_key route routeName svc in
  let lbEndpoints :=
    es ≫= λ e, (λ a, makeEndpoint (ea_ip a) (uint32 (sp_nodePort p))) <$> le_addresses e in
  '(value, exists_) ← lookup_or_panic portAllocator endpointKey
                        (EnvoyListenerPattern (sp_port p) (sp_protocol p));
  let listenerPort := if exists_ : bool then uint32 value else uint32 (sp_port p) in
  let key := route_resource_key route routeName svc p in
  Done (if decide (sp_protocol p = ProtocolTCP) then
          if IsHTTPRoute routeKind then Some (makeHTTPListener key key listenerPort)
          else Some (makeTCPListener key key listenerPort)
        else if decide (sp_protocol p = ProtocolUDP) then Some (makeUDPListener key key listenerPort)
        else None,
        makeCluster key lbEndpoints (sp_protocol p) routeKind).

Fixpoint route_services_resources (portAllocator : option PortAllocator) (route : Route)
    (routeName routeKind : string) (es : list LoadBalancerEndpoints) (svcs : list Service)
    : go (list envoy_resource) :=
  match svcs with
  | [] => Done []
  | svc :: svcs =>
      rs ← go_map (λ _, route_port_resource portAllocator route routeName routeKind es svc) 0
             (ss_ports (svc_spec svc));
      rs' ← route_services_resources portAllocator route routeName routeKind es svcs;
      Done (rs ++ rs')
  end.

Fixpoint routes_resources (portAllocator : option PortAllocator) (addressesMap : addresses_map)
    (routes : list Route) : go (error + list envoy_resource) :=
  match routes with
  | [] => Done (inr [])
  | route :: routes =>
      match rsp_kubernetes (rt_spec route) with
      | None => routes_resources portAllocator addressesMap routes
      | Some source =>
          match resolve_all addressesMap (namespace (rt_meta route)) (rsp_endpoints (rt_spec route)) with
          | inl err => Done (inl err)
          | inr (addressesMap, es) =>
              rs ← route_services_resources portAllocator route (getOriginalRouteName route)
                     (getRouteKind route) es (ks_services source);
              rest ← routes_resources portAllocator addressesMap routes;
              Done (rs' ← rest; inr (rs ++ rs'))
          end
      end
  end.

(** The bytes the version is a hash of. *)
Fixpoint marshal_all (rs : list (Cluster + Listener)) : error + string :=
  match rs with
  | [] => inr ""
  | r :: rs => mr ← wrap "failed to marshal resource" (MarshalResource r); content ← marshal_all rs; inr (mr +:+ content)
  end.

Definition listeners_of (rs : list envoy_resource) : list Listener := omap fst rs.
Definition clusters_of (rs : list envoy_resource) : list Cluster := snd <$> rs.

Definition MapSnapshot (loadBalancers : list LoadBalancer) (routes : list Route)
    (portAllocator : option PortAllocator) : go (error + Snapshot) :=
  match lbs_resources portAllocator ∅ loadBalancers with
  | inl err => Done (inl err)
  | inr (addressesMap, rs) =>
      result ← routes_resources portAllocator addressesMap routes;
      Done (rs' ← result;
            let cluster := clusters_of (rs ++ rs') in
            let listener := listeners_of (rs ++ rs') in
            content ← marshal_all ((inl <$> cluster) ++ (inr <$> listener));
            inr {| sn_version := HashResource content; sn_clusters := cluster; sn_listeners := listener |})
  end.
End snapshot.

(** ** Listeners and clusters belong together *)

(** The listener carries the name of the cluster and forwards to it. *)
Definition paired (r : envoy_resource) : Prop :=
  cl_assignmentName r.2 = cl_name r.2 ∧
  ∀ l, r.1 = Some l → li_name l = cl_name r.2 ∧ forwards_to (li_filter l) = cl_name r.2.

(** The resource of an endpoint port of one of the load balancers. *)
Definition from_lb (pa : option PortAllocator) (lbs : list LoadBalancer) (r : envoy_resource) : Prop :=
  ∃ lb i e x p, lb ∈ lbs ∧ ls_endpoints (lb_spec lb) !! i = Some e ∧ le_ports x = le_ports e ∧
    p ∈ le_ports e ∧ r = lb_port_resource pa lb i x p.

(** The resource of a service port of one of the routes. *)
Definition from_route (pa : option PortAllocator) (routes : list Route) (r : envoy_resource) : Prop :=
  ∃ rt source svc es p, rt ∈ routes ∧ rsp_kubernetes (rt_spec rt) = Some source ∧
    svc ∈ ks_services source ∧ p ∈ ss_ports (svc_spec svc) ∧
    route_port_resource pa rt (getOriginalRouteName rt) (getRouteKind rt) es svc p = Done r.

Section pairs.
Context (getAddresses : string → string → error + Addresses).

Lemma lb_port_resource_paired pa lb i e p : paired (lb_port_resource pa lb i e p).
Proof.
  split; [done|]. intros l. unfold lb_port_resource. simpl. repeat case_decide; by intros [= <-].
Qed.

Lemma route_port_resource_paired pa rt rn rk es svc p r :
  route_port_resource pa rt rn rk es svc p = Done r → paired r.
Proof.
  unfold route_port_resource. destruct (lookup_or_panic _ _ _) as [[v b]|]; simpl; [|done].
  intros [= <-]. split; [done|]. intros l. simpl.
  repeat case_decide; try destruct (IsHTTPRoute rk); by intros [= <-].
Qed.

Lemma resolve_addresses_ports am ns e am' e' :
  resolve_addresses getAddresses am ns e = inr (am', e') → le_ports e' = le_ports e.
Proof.
  unfold resolve_addresses. destruct (le_addressesReference e) as [ref|]; [|by intros [= _ <-]].
  destruct (_ !! _); [by intros [= _ <-]|].
  destruct (getAddresses _ _); simpl; [done|by intros [= _ <-]].
Qed.

Lemma lb_resources_origin pa am lb i es am' rs :
  lb_resources getAddresses pa am lb i es = inr (am', rs) →
  ∀ r, r ∈ rs → ∃ j e x p, es !! j = Some e ∧ le_ports x = le_ports e ∧ p ∈ le_ports e ∧
    r = lb_port_resource pa lb (i + j) x p.
Proof.
  revert am i am' rs. induction es as [|e es IH]; intros am i am' rs; simpl.
  { by intros [= <- <-] r ?%elem_of_nil. }
  destruct (resolve_addresses _ _ _ _) as [|[am1 e1]] eqn:E1; simpl; [done|].
  destruct (lb_resources _ _ _ _ _ _) as [|[am2 rs2]] eqn:E2; simpl; [done|].
  intros [= <- <-] r [(p & -> & Hp)%list_elem_of_fmap|Hr]%elem_of_app.
  - apply resolve_addresses_ports in E1. exists 0, e, e1, p. rewrite Nat.add_0_r. by rewrite <- E1.
  - destruct (IH _ _ _ _ E2 r Hr) as (j & e' & x & p & Hj & Hx & Hp & ->).
    exists (S j), e', x, p. by rewrite Nat.add_succ_r.
Qed.

Lemma lbs_resources_origin pa am lbs am' rs :
  lbs_resources getAddresses pa am lbs = inr (am', rs) → ∀ r, r ∈ rs → from_lb pa lbs r.
Proof.
  revert am am' rs. induction lbs as [|lb lbs IH]; intros am am' rs; simpl.
  { by intros [= <- <-] r ?%elem_of_nil. }
  destruct (lb_resources _ _ _ _ _ _) as [|[am1 rs1]] eqn:E1; simpl; [done|].
  destruct (lbs_resources _ _ _ _) as [|[am2 rs2]] eqn:E2; simpl; [done|].
  intros [= <- <-] r [Hr|Hr]%elem_of_app.
  - destruct (lb_resources_origin _ _ _ _ _ _ _ E1 r Hr) as (j & e & x & p & H).
    exists lb, j, e, x, p. split; [apply elem_of_cons; by left|done].
  - destruct (IH _ _ _ E2 r Hr) as (lb' & j & e & x & p & Hin & H).
    exists lb', j, e, x, p. split; [apply elem_of_cons; by right|done].
Qed.

Lemma route_services_resources_origin pa rt rn rk es svcs rs :
  route_services_resources pa rt rn rk es svcs = Done rs →
  ∀ r, r ∈ rs → ∃ svc p, svc ∈ svcs ∧ p ∈ ss_ports (svc_spec svc) ∧
    route_port_resource pa rt rn rk es svc p = Done r.
Proof.
  revert rs. induction svcs as [|svc svcs IH]; intros rs; simpl; [by intros [= <-] r ?%elem_of_nil|].
  destruct (go_map _ _ _) as [rs1|] eqn:E1; simpl; [|done].
  destruct (route_services_resources _ _ _ _ _ _) as [rs2|] eqn:E2; simpl; [|done].
  intros [= <-] r [Hr|Hr]%elem_of_app.
  - apply go_map_Done in E1 as [Hlen Hall]. apply list_elem_of_lookup in Hr as [j Hj].
    destruct (lookup_lt_is_Some_2 (ss_ports (svc_spec svc)) j) as [p Hp].
    { rewrite <- Hlen. by eapply lookup_lt_Some. }
    destruct (Hall j p Hp) as (r' & Hr' & Hdone). assert (r = r') as -> by congruence.
    exists svc, p. split; [apply elem_of_cons; by left|]. split; [by eapply list_elem_of_lookup_2|done].
  - destruct (IH _ eq_refl r Hr) as (svc' & p & Hin & H). exists svc', p.
    split; [apply elem_of_cons; by right|done].
Qed.

Lemma routes_resources_origin pa am routes rs :
  routes_resources getAddresses pa am routes = Done (inr rs) → ∀ r, r ∈ rs → from_route pa routes r.
Proof.
  revert am rs. induction routes as [|rt routes IH]; intros am rs; simpl.
  { by intros [= <-] r ?%elem_of_nil. }
  assert (∀ r, from_route pa routes r → from_route pa (rt :: routes) r) as Hmore.
  { intros r (rt' & src & svc & es & p & Hin & H). exists rt', src, svc, es, p.
    split; [apply elem_of_cons; by right|done]. }
  destruct (rsp_kubernetes (rt_spec rt)) as [src|] eqn:Hk; [|intros H r Hr; apply Hmore; by eapply IH].
  destruct (resolve_all _ _ _ _) as [|[am1 es]]; [done|].
  destruct (route_services_resources _ _ _ _ _ _) as [rs1|] eqn:E1; simpl; [|done].
  destruct (routes_resources _ _ _ _) as [[err|rs2]|] eqn:E2; simpl; [done| |done].
  intros [= <-] r [Hr|Hr]%elem_of_app; [|apply Hmore; by eapply IH].
  destruct (route_services_resources_origin _ _ _ _ _ _ _ E1 r Hr) as (svc & p & H).
  exists rt, src, svc, es, p. split; [apply elem_of_cons; by left|]. by split.
Qed.
End pairs.

(** What a successful call consists of. *)
Lemma MapSnapshot_inv get marshal hash lbs routes pa s :
  MapSnapshot get marshal hash lbs routes pa = Done (inr s) →
  ∃ am rs rs', lbs_resources get pa ∅ lbs = inr (am, rs) ∧
    routes_resources get pa am routes = Done (inr rs') ∧
    sn_clusters s = clusters_of (rs ++ rs') ∧ sn_listeners s = listeners_of (rs ++ rs').
Proof.
  unfold MapSnapshot. destruct (lbs_resources _ _ _ _) as [|[am rs]] eqn:E1; [done|].
  destruct (routes_resources _ _ _ _) as [[err|rs']|] eqn:E2; simpl; [done| |done].
  destruct (marshal_all _ _) as [|content]; simpl; [done|].
  intros [= <-]. simpl. exists am, rs, rs'. done.
Qed.

Lemma elem_of_listeners rs l : l ∈ listeners_of rs ↔ ∃ c, (Some l, c) ∈ rs.
Proof.
  unfold listeners_of. rewrite list_elem_of_omap. split.
  - intros ([ol c] & Hin & E). simpl in E. subst. eauto.
  - intros [c Hin]. by exists (Some l, c).
Qed.

Lemma elem_of_clusters rs c : c ∈ clusters_of rs ↔ ∃ ol, (ol, c) ∈ rs.
Proof.
  unfold clusters_of. rewrite list_elem_of_fmap. split.
  - intros ([ol c'] & -> & Hin). eauto.
  - intros [ol Hin]. by exists (ol, c).
Qed.

(** Everything in a snapshot comes from a port of one of the load balancers or routes. *)
Lemma snapshot_origin get marshal hash lbs routes pa s :
  MapSnapshot get marshal hash lbs routes pa = Done (inr s) →
  ∃ rs, sn_clusters s = clusters_of rs ∧ sn_listeners s = listeners_of rs ∧
    ∀ r, r ∈ rs → from_lb pa lbs r ∨ from_route pa routes r.
Proof.
  intros (am & rs & rs' & H1 & H2 & -> & ->)%MapSnapshot_inv. exists (rs ++ rs').
  do 2 (split; [done|]). intros r [Hr|Hr]%elem_of_app.
  - left. by eapply lbs_resources_origin.
  - right. by eapply routes_resources_origin.
Qed.

Lemma origin_paired pa lbs routes r : from_lb pa lbs r ∨ from_route pa routes r → paired r.
Proof.
  intros [(lb & i & e & x & p & _ & _ & _ & _ & ->)|(rt & src & svc & es & p & _ & _ & _ & _ & H)].
  - apply lb_port_resource_paired.
  - by eapply route_port_resource_paired.
Qed.

(** Every listener of a snapshot forwards to a cluster of the same snapshot,
    the one that carries its name; no listener refers to a missing cluster. *)
Theorem MapSnapshot_listeners_have_clusters get marshal hash lbs routes pa s :
  MapSnapshot get marshal hash lbs routes pa = Done (inr s) →
  ∀ l, l ∈ sn_listeners s → ∃ c, c ∈ sn_clusters s ∧
    cl_name c = li_name l ∧ forwards_to (li_filter l) = cl_name c ∧ cl_assignmentName c = cl_name c.
Proof.
  intros (rs & -> & -> & Ho)%snapshot_origin l Hl. apply elem_of_listeners in Hl as [c Hin].
  destruct (origin_paired _ _ _ _ (Ho _ Hin)) as [Ha Hpair].
  destruct (Hpair l eq_refl) as [Hn Hf]. exists c. split; [|done].
  apply elem_of_clusters. eauto.
Qed.

(** A client that knows the addresses of one namespace, and trivial encoders. *)
Definition sample_addresses (ns n : string) : error + Addresses :=
  if decide (n = DefaultAddressName) then
    inr {| ad_meta := with_identity n ns "addr-0001" zero_meta;
           ad_addresses := [{| ea_ip := "10.1.0.1"; ea_hostname := "" |};
                            {| ea_ip := "10.1.0.2"; ea_hostname := "" |}] |}
  else inl (StatusError NotFound).

Definition sample_marshal (r : Cluster + Listener) : error + string :=
  inr (match r with inl c => cl_name c | inr l => li_name l end).

Lemma MapSnapshot_listeners_have_clusters_witness :
  let s := MapSnapshot sample_addresses sample_marshal id sample_lbs [sample_route] (Some NewPortAllocator) in
  match s with
  | Done (inr s) => length (sn_listeners s) = 6 ∧
      ∀ l, l ∈ sn_listeners s → ∃ c, c ∈ sn_clusters s ∧ cl_name c = li_name l ∧
        forwards_to (li_filter l) = cl_name c ∧ cl_assignmentName c = cl_name c
  | _ => False
  end.
Proof.
  intros s. assert (match s with Done (inr s) => length (sn_listeners s) = 6 | _ => False end) as Hlen
    by (vm_compute; reflexivity).
  destruct s as [[|s']|] eqn:E; [destruct Hlen| |destruct Hlen]. split; [exact Hlen|].
  exact (MapSnapshot_listeners_have_clusters sample_addresses sample_marshal id sample_lbs [sample_route]
    (Some NewPortAllocator) s' E).
Defined.

(** ** What a load balancer contributes *)

Section contents.
Context (getAddresses : string → string → error + Addresses).

(** References name the default Addresses object of the namespace, the only one the
    CCM refers to. *)
Definition default_refs (es : list LoadBalancerEndpoints) : Prop :=
  ∀ e ref, e ∈ es → le_addressesReference e = Some ref → ref_name ref = DefaultAddressName.

(** The addresses an endpoint stands for. *)
Definition effective_addresses (ns : string) (e : LoadBalancerEndpoints) : list EndpointAddress :=
  match le_addressesReference e with
  | None => le_addresses e
  | Some ref => match getAddresses ns (ref_name ref) with inr a => ad_addresses a | inl _ => [] end
  end.

(** The cache of addresses holds what the client answered. *)
Definition cached (am : addresses_map) : Prop :=
  ∀ ns a, am !! endpointAddressReferencePattern ns DefaultAddressName = Some a →
    ∃ ad, getAddresses ns DefaultAddressName = inr ad ∧ ad_addresses ad = a.

Lemma cached_empty : cached ∅.
Proof. intros ns a. by rewrite lookup_empty. Qed.

Lemma with_same_addresses e : with_addresses (le_addresses e) e = e.
Proof. by destruct e. Qed.

Lemma resolve_addresses_spec am ns e am' e' :
  cached am → (∀ ref, le_addressesReference e = Some ref → ref_name ref = DefaultAddressName) →
  resolve_addresses getAddresses am ns e = inr (am', e') →
  cached am' ∧ e' = with_addresses (effective_addresses ns e) e.
Proof.
  intros Hc Hdef. unfold resolve_addresses, effective_addresses.
  destruct (le_addressesReference e) as [ref|] eqn:Href.
  2: { intros [= <- <-]. by rewrite with_same_addresses. }
  specialize (Hdef ref eq_refl). rewrite Hdef.
  destruct (am !! _) as [a|] eqn:Ha.
  - intros [= <- <-]. apply Hc in Ha as (ad & Hget & <-). by rewrite Hget.
  - destruct (getAddresses ns DefaultAddressName) as [|ad] eqn:Hget; simpl; [done|].
    intros [= <- <-]. split; [|done]. intros ns' a'. rewrite lookup_insert. case_decide as Heq; [|apply Hc].
    intros [= <-]. unfold endpointAddressReferencePattern in Heq. apply sapp_inj_r in Heq as <-. eauto.
Qed.

Lemma lb_resources_elem pa am lb i es am' rs :
  cached am → default_refs es → lb_resources getAddresses pa am lb i es = inr (am', rs) →
  cached am' ∧
  ∀ j x p, es !! j = Some x → p ∈ le_ports x →
    lb_port_resource pa lb (i + j) (with_addresses (effective_addresses (namespace (lb_meta lb)) x) x) p ∈ rs.
Proof.
  revert am i am' rs. induction es as [|e es IH]; intros am i am' rs Hc Hdef; simpl.
  { intros [= <- <-]. split; [done|]. intros j x p Hj. by rewrite lookup_nil in Hj. }
  destruct (resolve_addresses _ _ _ _) as [|[am1 e1]] eqn:E1; simpl; [done|].
  destruct (lb_resources _ _ _ _ _ _) as [|[am2 rs2]] eqn:E2; simpl; [done|].
  intros [= <- <-]. apply resolve_addresses_spec in E1 as [Hc1 ->]; [|done|].
  2: { intros ref. apply Hdef. apply elem_of_cons. by left. }
  apply IH in E2 as [Hc2 Hall]; [|done|].
  2: { intros x ref Hx. apply Hdef. apply elem_of_cons. by right. }
  split; [done|]. intros [|j] x p; simpl.
  - intros [= ->] Hp. rewrite Nat.add_0_r. apply elem_of_app. left.
    apply list_elem_of_fmap. by exists p.
  - intros Hj Hp. apply elem_of_app. right. replace (i + S j) with (S i + j) by lia. by apply Hall.
Qed.

Lemma lbs_resources_elem pa am lbs am' rs lb :
  cached am → (∀ lb, lb ∈ lbs → default_refs (ls_endpoints (lb_spec lb))) →
  lbs_resources getAddresses pa am lbs = inr (am', rs) → lb ∈ lbs →
  ∀ j x p, ls_endpoints (lb_spec lb) !! j = Some x → p ∈ le_ports x →
    lb_port_resource pa lb j (with_addresses (effective_addresses (namespace (lb_meta lb)) x) x) p ∈ rs.
Proof.
  revert am am' rs. induction lbs as [|lb0 lbs IH]; intros am am' rs Hc Hdef; simpl.
  { by intros _ ?%elem_of_nil. }
  destruct (lb_resources _ _ _ _ _ _) as [|[am1 rs1]] eqn:E1; simpl; [done|].
  destruct (lbs_resources _ _ _ _) as [|[am2 rs2]] eqn:E2; simpl; [done|].
  intros [= <- <-]. apply lb_resources_elem in E1 as [Hc1 H1]; [|done|].
  2: { apply Hdef. apply elem_of_cons. by left. }
  intros [->|Hin]%elem_of_cons j x p Hj Hp; apply elem_of_app.
  - left. by apply (H1 j x p).
  - right. eapply IH; [exact Hc1| |exact E2|exact Hin|exact Hj|exact Hp].
    intros lb' Hlb'. apply Hdef. apply elem_of_cons. by right.
Qed.
End contents.

(** The listener and the cluster of an allocated endpoint port. *)
Lemma snapshot_lb_pair get marshal hash lbs routes pa s lb i x p port :
  MapSnapshot get marshal hash lbs routes (Some pa) = Done (inr s) →
  (∀ lb, lb ∈ lbs → default_refs (ls_endpoints (lb_spec lb))) →
  lb ∈ lbs → ls_endpoints (lb_spec lb) !! i = Some x → p ∈ le_ports x →
  Lookup pa (lb_key lb i) (EnvoyListenerPattern (ep_port p) (ep_protocol p)) = (port, true) →
  ep_protocol p = ProtocolTCP ∨ ep_protocol p = ProtocolUDP →
  ∃ l c, l ∈ sn_listeners s ∧ c ∈ sn_clusters s ∧ li_port l = uint32 port ∧
    li_name l = lb_resource_key lb i p ∧ forwards_to (li_filter l) = cl_name c ∧
    cl_endpoints c = (λ a, makeEndpoint (ea_ip a) (uint32 (ep_port p)))
                       <$> effective_addresses get (namespace (lb_meta lb)) x.
Proof.
  intros (am & rs & rs' & H1 & _ & -> & ->)%MapSnapshot_inv Hdef Hlb Hx Hp Hl Hproto.
  pose proof (lbs_resources_elem get (Some pa) ∅ lbs am rs lb (cached_empty get) Hdef H1 Hlb i x p Hx Hp) as Hin.
  unfold lb_port_resource, lb_listener_port in Hin. unfold lb_key in Hl. rewrite Hl in Hin.
  destruct Hproto as [Hpr|Hpr].
  - rewrite decide_True in Hin by done. eexists _, _.
    split; [apply elem_of_listeners; eexists; apply elem_of_app; left; exact Hin|].
    split; [apply elem_of_clusters; eexists; apply elem_of_app; left; exact Hin|]. done.
  - rewrite decide_False, decide_True in Hin by (done || by rewrite Hpr). eexists _, _.
    split; [apply elem_of_listeners; eexists; apply elem_of_app; left; exact Hin|].
    split; [apply elem_of_clusters; eexists; apply elem_of_app; left; exact Hin|]. done.
Qed.

(** A snapshot has, for every endpoint port of every load balancer, the cluster
    of its key with one endpoint per address (looked up where the endpoint refers
    to an Addresses object) at the node port, and for TCP and UDP a listener of the
    same name on the port the allocator holds. *)
Theorem MapSnapshot_load_balancers get marshal hash lbs routes pa s lb i x p port :
  MapSnapshot get marshal hash lbs routes (Some pa) = Done (inr s) →
  (∀ lb, lb ∈ lbs → default_refs (ls_endpoints (lb_spec lb))) →
  lb ∈ lbs → ls_endpoints (lb_spec lb) !! i = Some x → p ∈ le_ports x →
  Lookup pa (lb_key lb i) (EnvoyListenerPattern (ep_port p) (ep_protocol p)) = (port, true) →
  let key := lb_resource_key lb i p in
  let hosts := (λ a, makeEndpoint (ea_ip a) (uint32 (ep_port p)))
                 <$> effective_addresses get (namespace (lb_meta lb)) x in
  makeCluster key hosts (ep_protocol p) "" ∈ sn_clusters s ∧
  (ep_protocol p = ProtocolTCP → makeTCPListener key key (uint32 port) ∈ sn_listeners s) ∧
  (ep_protocol p = ProtocolUDP → makeUDPListener key key (uint32 port) ∈ sn_listeners s).
Proof.
  intros (am & rs & rs' & H1 & _ & -> & ->)%MapSnapshot_inv Hdef Hlb Hx Hp Hl.
  pose proof (lbs_resources_elem get (Some pa) ∅ lbs am rs lb (cached_empty get) Hdef H1 Hlb i x p Hx Hp) as Hin.
  unfold lb_port_resource, lb_listener_port in Hin. unfold lb_key in Hl. rewrite Hl in Hin. simpl in Hin.
  split; [|split].
  - apply elem_of_clusters. eexists. apply elem_of_app. left. exact Hin.
  - intros Htcp. apply elem_of_listeners. eexists. apply elem_of_app. left.
    rewrite decide_True in Hin by done. exact Hin.
  - intros Hudp. apply elem_of_listeners. eexists. apply elem_of_app. left.
    rewrite decide_False, decide_True in Hin by (done || by rewrite Hudp). exact Hin.
Qed.

Lemma MapSnapshot_load_balancers_witness :
  let lb := sample_lb "tenant-a" "uid-1"
    [{| le_name := ""; le_addresses := [];
        le_addressesReference := Some {| ref_name := "default"; ref_namespace := "" |};
        le_ports := [http_port] |}] [] in
  let pa := recomputeAvailablePorts {[ "tenant-a-uid-1-ep-0" := {[ "30080-TCP" := 12345%Z ]} ]} in
  match MapSnapshot sample_addresses sample_marshal id [lb] [] (Some pa) with
  | Done (inr s) =>
      makeTCPListener "tenant-a-uid-1-ep-0-port-30080-TCP" "tenant-a-uid-1-ep-0-port-30080-TCP" 12345
        ∈ sn_listeners s
  | _ => False
  end.
Proof.
  intros lb pa.
  assert (match MapSnapshot sample_addresses sample_marshal id [lb] [] (Some pa) with
    | Done (inr _) => True | _ => False end) as Hok by (vm_compute; exact I).
  destruct (MapSnapshot sample_addresses sample_marshal id [lb] [] (Some pa)) as [[|s]|] eqn:E;
    [destruct Hok| |destruct Hok].
  assert (∀ lb', lb' ∈ [lb] → default_refs (ls_endpoints (lb_spec lb'))) as Hrefs.
  { intros lb' ->%list_elem_of_singleton e ref ->%list_elem_of_singleton [= <-]. reflexivity. }
  eapply (MapSnapshot_load_balancers sample_addresses sample_marshal id [lb] [] pa s lb 0 _ http_port 12345 E Hrefs);
    [apply list_elem_of_singleton; reflexivity|reflexivity|apply list_elem_of_singleton; reflexivity
    |vm_compute; reflexivity|reflexivity].
Defined.
