(* ===== verification/DataPath.v ===== *)
(** * The data path of a load balancer

    The pieces of the manager put together: a tenant's Service is mapped to a
    LoadBalancer, the allocator gives its ports listener ports, the Service the
    manager creates targets them, and the Envoy snapshot listens on them and
    forwards to the node ports of the tenant cluster. *)
From stdpp Require Import base gmap sets list strings pretty sorting.
From S2P Require Import Prelude GoStrings Api Names PortAllocator PortAllocatorSpec Annotations GoSort LoadBalancers EnvoySnapshot.
Import Core V1alpha1.

Lemma uint32_port p : (startPort ≤ p < endPort)%Z → uint32 p = p.
Proof. intros H. apply uint32_id. unfold startPort, endPort in H. lia. Qed.

(** The data path.  Take any set of load balancers that contains the stored
    object of one mapped from a Service with distinct port names, allocate their
    ports, create the Service and build the snapshot.  Then every TCP or UDP port of
    the Service is a port of the created Service whose target is the port of a
    listener of the snapshot, and that listener forwards to a cluster whose hosts are
    the addresses of the tenant's nodes at the node port of the original port. *)
Lemma data_path `{Unicode} get marshal hash src fuel lbs routes pa pos pa' pos' s
    lb svc eps ref cluster existing p :
  stored_as lb (MapLoadBalancer svc eps ref cluster).1 →
  wf pa → identified lbs → lb ∈ lbs →
  (∀ lb, lb ∈ lbs → default_refs (ls_endpoints (lb_spec lb))) →
  base.NoDup (port_name <$> ss_ports (svc_spec svc)) →
  AllocatePortsForLoadBalancers src fuel pa pos lbs = Some (pa', pos') →
  MapSnapshot get marshal hash lbs routes (Some pa') = Done (inr s) →
  p ∈ ss_ports (svc_spec svc) → sp_protocol p = ProtocolTCP ∨ sp_protocol p = ProtocolUDP →
  ∃ ports q l c,
    CreateServicePorts (H := allocator_lookup pa') lb existing = Done ports ∧
    q ∈ ports ∧ sp_port q = sp_port p ∧ sp_protocol q = sp_protocol p ∧
    l ∈ sn_listeners s ∧ sp_targetPort q = FromInt (li_port l) ∧
    c ∈ sn_clusters s ∧ forwards_to (li_filter l) = cl_name c ∧
    cl_endpoints c = (λ a, makeEndpoint (ea_ip a) (uint32 (sp_nodePort p))) <$>
      (if ref then match get cluster DefaultAddressName with
                   | inr ad => ad_addresses ad | inl _ => [] end
       else (λ e, {| ea_ip := e; ea_hostname := "" |}) <$> eps).
Proof.
  intros Hst Hwf Hid Hin Hdef Hnd Halloc Hsnap Hp Hproto.
  destruct (created_port src fuel lbs pa pos pa' pos' lb svc eps ref cluster existing Hst Hwf Hid Hin Halloc Hnd)
    as (ports & Hports & _ & _ & Hall).
  destruct (Hall p Hp) as (q & port & Hq & _ & Hqp & Hqpr & Hqt & Hr & Hl).
  destruct Hst as [_ Hns Hspec].
  assert (lb_endpoint_port p ∈ le_ports (map_endpoints svc eps ref)) as Hport.
  { simpl. apply list_elem_of_fmap. by exists p. }
  assert (ls_endpoints (lb_spec lb) !! 0 = Some (map_endpoints svc eps ref)) as Hep by by rewrite Hspec.
  destruct (snapshot_lb_pair get marshal hash lbs routes pa' s lb 0 (map_endpoints svc eps ref)
    (lb_endpoint_port p) port Hsnap Hdef Hin Hep Hport Hl Hproto)
    as (l & c & Hls & Hcs & Hlp & _ & Hf & Hhosts).
  exists ports, q, l, c. rewrite Hqt, Hlp, (uint32_port port Hr), Hhosts, Hns.
  repeat (split; [done|]). unfold effective_addresses. by destruct ref.
Qed.

(** Isolation of the listeners.  In a well-formed allocator, two load balancers
    named by UIDs never get the same listener port for two different endpoints: a
    shared port means the same namespace, the same load balancer and the same
    endpoint. *)
Theorem listeners_isolated pa lb1 i1 p1 v1 lb2 i2 p2 v2 :
  wf pa →
  String.length (name (lb_meta lb1)) = String.length (name (lb_meta lb2)) →
  Lookup pa (lb_key lb1 i1) (EnvoyListenerPattern (ep_port p1) (ep_protocol p1)) = (v1, true) →
  Lookup pa (lb_key lb2 i2) (EnvoyListenerPattern (ep_port p2) (ep_protocol p2)) = (v2, true) →
  lb_listener_port (Some pa) lb1 i1 p1 = lb_listener_port (Some pa) lb2 i2 p2 →
  namespace (lb_meta lb1) = namespace (lb_meta lb2) ∧ name (lb_meta lb1) = name (lb_meta lb2) ∧ i1 = i2.
Proof.
  intros Hwf Hlen H1 H2. unfold lb_listener_port. unfold lb_key in *. rewrite H1, H2.
  rewrite Lookup_allocated in H1, H2.
  destruct (allocated _ _ _) as [w1|] eqn:A1 in H1; [|done]. injection H1 as ->.
  destruct (allocated _ _ _) as [w2|] eqn:A2 in H2; [|done]. injection H2 as ->.
  rewrite !uint32_port by (apply (wf_range _ Hwf); eexists _, _; eassumption).
  intros ->. apply EnvoyEndpointPattern_inj; [done|]. by eapply (wf_no_sharing _ Hwf).
Qed.

Lemma listeners_isolated_witness :
  let lb1 := sample_lb "tenant-a" "uid-1" [sample_endpoint [http_port]] [] in
  let lb2 := sample_lb "tenant-b" "uid-2" [sample_endpoint [http_port]] [] in
  ∃ pa, lb_listener_port (Some pa) lb1 0 http_port ≠ lb_listener_port (Some pa) lb2 0 http_port.
Proof.
  intros lb1 lb2.
  assert (match AllocatePortsForLoadBalancers Z.of_nat 9 NewPortAllocator 0 [lb1; lb2] with
    | Some (pa, _) => Lookup pa (lb_key lb1 0) "30080-TCP" = (10000%Z, true) ∧
                      Lookup pa (lb_key lb2 0) "30080-TCP" = (10001%Z, true)
    | None => False end) as Hok by (vm_compute; split; reflexivity).
  destruct (AllocatePortsForLoadBalancers Z.of_nat 9 NewPortAllocator 0 [lb1; lb2]) as [[pa pos]|] eqn:Ea;
    [|destruct Hok].
  destruct Hok as [H1 H2]. exists pa. intros E.
  assert (wf pa) as Hwf.
  { apply (AllocatePortsForLoadBalancers_serves Z.of_nat 9 [lb1; lb2] NewPortAllocator 0 pa pos);
      [|exact Ea|exact New_wf].
    split; [computed|]. exists 5. by repeat constructor. }
  destruct (listeners_isolated pa lb1 0 http_port 10000 lb2 0 http_port 10001 Hwf eq_refl H1 H2 E) as [H _].
  discriminate H.
Defined.
