(* ===== verification/NetApi.v ===== *)
(** * Networking types: Ingress and the Gateway API; the workload types of the proxy

    The resources of the tenant clusters that KubeLB replicates, reduced to the
    fields it reads or writes; the rest of each is an opaque value.  HTTPRoute and
    GRPCRoute have the same shape as far as the code looks at them. *)
From stdpp Require Import base gmap list strings.
From S2P Require Import Prelude GoStrings Api.
Import Core V1alpha1.

(** ** networking.k8s.io/v1 *)

Record IngressServiceBackend := { isb_name : string; isb_port : Z; isb_portName : string }.
Record IngressBackend := { ib_service : option IngressServiceBackend; ib_resource : option opaque }.
Record HTTPIngressPath := { hip_path : string; hip_pathType : option string; hip_backend : IngressBackend }.
(** [http] is a pointer; the paths are all it holds. *)
Record IngressRule := { ir_host : string; ir_http : option (list HTTPIngressPath) }.
Record IngressTLS := { itls_hosts : list string; itls_secretName : string }.
Record IngressSpec := {
  isp_className : option string;
  isp_defaultBackend : option IngressBackend;
  isp_tls : list IngressTLS;
  isp_rules : list IngressRule
}.
Record Ingress := { in_type : TypeMeta; in_meta : ObjectMeta; in_spec : IngressSpec; in_status : opaque }.

(** ** gateway.networking.k8s.io/v1 *)

Record BackendObjectReference := {
  bor_kind : option string; bor_name : string; bor_namespace : option string; bor_port : option Z;
  bor_rest : opaque
}.
(** [RequestMirror] is a pointer to a struct around its backend reference. *)
Record RouteFilter := { rf_requestMirror : option BackendObjectReference; rf_rest : opaque }.
Record BackendRef := { br_ref : BackendObjectReference; br_filters : list RouteFilter; br_rest : opaque }.
Record RouteRule := { rr_filters : list RouteFilter; rr_backendRefs : list BackendRef; rr_rest : opaque }.
Record ParentReference := { pr_name : string; pr_namespace : option string; pr_rest : opaque }.
Record GatewayRouteSpec := {
  grs_parentRefs : list ParentReference; grs_hostnames : list string; grs_rules : list RouteRule
}.
Record GatewayRoute := {
  gr_type : TypeMeta; gr_meta : ObjectMeta; gr_spec : GatewayRouteSpec; gr_status : opaque
}.
Definition HTTPRoute : Type := GatewayRoute.
Definition GRPCRoute : Type := GatewayRoute.

Record SecretObjectReference := { sor_name : string; sor_namespace : option string; sor_rest : opaque }.
Record GatewayListener := { gl_name : string; gl_tls : option (list SecretObjectReference); gl_rest : opaque }.
Record GatewaySpec := { gws_className : string; gws_listeners : list GatewayListener; gws_rest : opaque }.
Record Gateway := { gw_type : TypeMeta; gw_meta : ObjectMeta; gw_spec : GatewaySpec; gw_status : opaque }.

(** ** core/v1, rbac/v1, discovery/v1 and apiextensions/v1 *)

(** [Data] is a [map[string][]byte], with the bytes as a string. *)
Record Secret := {
  sec_meta : ObjectMeta; sec_immutable : option bool; sec_data : gomap string;
  sec_stringData : gomap string; sec_type : string
}.
Record Namespace := { nsp_meta : ObjectMeta }.
Record ServiceAccount := { sa_meta : ObjectMeta }.
Record ConfigMap := { cm_meta : ObjectMeta; cm_data : gomap string }.

Record PolicyRule := { pol_apiGroups : list string; pol_resources : list string; pol_verbs : list string }.
Record Role := { role_meta : ObjectMeta; role_rules : list PolicyRule }.
Record RoleRef := { rref_apiGroup : string; rref_kind : string; rref_name : string }.
Record Subject := { sub_kind : string; sub_name : string; sub_namespace : string }.
Record RoleBinding := { rb_meta : ObjectMeta; rb_roleRef : RoleRef; rb_subjects : list Subject }.

Record SliceEndpoint := { se_addresses : list string; se_ready : option bool }.
Record SlicePort := { slp_name : option string; slp_port : option Z; slp_protocol : option string }.
Record EndpointSlice := {
  es_meta : ObjectMeta; es_addressType : string; es_endpoints : list SliceEndpoint; es_ports : list SlicePort
}.

(** Of a CRD's specification, the group and the conversion strategy. *)
Record CRDSpec := { crds_group : string; crds_conversion : option string; crds_rest : opaque }.
Record CustomResourceDefinition := { crd_meta : ObjectMeta; crd_spec : CRDSpec }.

(** Nodes: of the status, the conditions and the addresses. *)
Record NodeCondition := { ncond_type : string; ncond_status : string }.
Record NodeAddress := { naddr_type : string; naddr_address : string }.
Record Node := { node_meta : ObjectMeta; node_conditions : list NodeCondition; node_addresses : list NodeAddress }.

(** ** apps/v1: the proxy's pods *)

Record HTTPGetAction := { hg_path : string; hg_port : IntOrString; hg_scheme : string }.
Record Probe := {
  pb_httpGet : HTTPGetAction; pb_timeoutSeconds : Z; pb_periodSeconds : Z;
  pb_successThreshold : Z; pb_failureThreshold : Z; pb_rest : opaque
}.
Record ContainerPort := { cp_name : string; cp_containerPort : Z; cp_protocol : string; cp_rest : opaque }.
Record Container := {
  ct_name : string; ct_image : string; ct_command : list string; ct_args : list string;
  ct_ports : list ContainerPort; ct_resources : opaque;
  ct_startupProbe : option Probe; ct_readinessProbe : option Probe; ct_livenessProbe : option Probe;
  ct_preStop : option HTTPGetAction;
  ct_rest : opaque
}.
Record TopologySpreadConstraint := {
  tsc_maxSkew : Z; tsc_topologyKey : string; tsc_whenUnsatisfiable : string; tsc_matchLabels : gmap string string
}.
Record PodTemplateSpec := {
  pt_meta : ObjectMeta; pt_terminationGracePeriodSeconds : option Z; pt_containers : list Container;
  pt_affinity : option opaque; pt_tolerations : list opaque; pt_nodeSelector : gomap string;
  pt_topologySpreadConstraints : list TopologySpreadConstraint; pt_rest : opaque
}.
Record Deployment := {
  dp_meta : ObjectMeta; dp_replicas : option Z; dp_selector : option (gmap string string);
  dp_template : PodTemplateSpec; dp_rest : opaque
}.
Record DaemonSet := {
  ds_meta : ObjectMeta; ds_selector : option (gmap string string); ds_template : PodTemplateSpec; ds_rest : opaque
}.

#[export] Instance Secret_eq_dec : EqDecision Secret.
Proof. solve_decision. Defined.
#[export] Instance Namespace_eq_dec : EqDecision Namespace.
Proof. solve_decision. Defined.
#[export] Instance ServiceAccount_eq_dec : EqDecision ServiceAccount.
Proof. solve_decision. Defined.
#[export] Instance PolicyRule_eq_dec : EqDecision PolicyRule.
Proof. solve_decision. Defined.
#[export] Instance Role_eq_dec : EqDecision Role.
Proof. solve_decision. Defined.
#[export] Instance RoleRef_eq_dec : EqDecision RoleRef.
Proof. solve_decision. Defined.
#[export] Instance Subject_eq_dec : EqDecision Subject.
Proof. solve_decision. Defined.
#[export] Instance RoleBinding_eq_dec : EqDecision RoleBinding.
Proof. solve_decision. Defined.
#[export] Instance SliceEndpoint_eq_dec : EqDecision SliceEndpoint.
Proof. solve_decision. Defined.
#[export] Instance SlicePort_eq_dec : EqDecision SlicePort.
Proof. solve_decision. Defined.
#[export] Instance EndpointSlice_eq_dec : EqDecision EndpointSlice.
Proof. solve_decision. Defined.
#[export] Instance CRDSpec_eq_dec : EqDecision CRDSpec.
Proof. solve_decision. Defined.
#[export] Instance CustomResourceDefinition_eq_dec : EqDecision CustomResourceDefinition.
Proof. solve_decision. Defined.

#[export] Instance HTTPGetAction_eq_dec : EqDecision HTTPGetAction.
Proof. solve_decision. Defined.
#[export] Instance Probe_eq_dec : EqDecision Probe.
Proof. solve_decision. Defined.
#[export] Instance ContainerPort_eq_dec : EqDecision ContainerPort.
Proof. solve_decision. Defined.
#[export] Instance Container_eq_dec : EqDecision Container.
Proof. solve_decision. Defined.
#[export] Instance TopologySpreadConstraint_eq_dec : EqDecision TopologySpreadConstraint.
Proof. solve_decision. Defined.
#[export] Instance PodTemplateSpec_eq_dec : EqDecision PodTemplateSpec.
Proof. solve_decision. Defined.

#[export] Instance IngressServiceBackend_eq_dec : EqDecision IngressServiceBackend.
Proof. solve_decision. Defined.
#[export] Instance IngressBackend_eq_dec : EqDecision IngressBackend.
Proof. solve_decision. Defined.
#[export] Instance HTTPIngressPath_eq_dec : EqDecision HTTPIngressPath.
Proof. solve_decision. Defined.
#[export] Instance IngressRule_eq_dec : EqDecision IngressRule.
Proof. solve_decision. Defined.
#[export] Instance IngressTLS_eq_dec : EqDecision IngressTLS.
Proof. solve_decision. Defined.
#[export] Instance IngressSpec_eq_dec : EqDecision IngressSpec.
Proof. solve_decision. Defined.
#[export] Instance Ingress_eq_dec : EqDecision Ingress.
Proof. solve_decision. Defined.
#[export] Instance BackendObjectReference_eq_dec : EqDecision BackendObjectReference.
Proof. solve_decision. Defined.
#[export] Instance RouteFilter_eq_dec : EqDecision RouteFilter.
Proof. solve_decision. Defined.
#[export] Instance BackendRef_eq_dec : EqDecision BackendRef.
Proof. solve_decision. Defined.
#[export] Instance RouteRule_eq_dec : EqDecision RouteRule.
Proof. solve_decision. Defined.
#[export] Instance ParentReference_eq_dec : EqDecision ParentReference.
Proof. solve_decision. Defined.
#[export] Instance GatewayRouteSpec_eq_dec : EqDecision GatewayRouteSpec.
Proof. solve_decision. Defined.
#[export] Instance GatewayRoute_eq_dec : EqDecision GatewayRoute.
Proof. solve_decision. Defined.
#[export] Instance SecretObjectReference_eq_dec : EqDecision SecretObjectReference.
Proof. solve_decision. Defined.
#[export] Instance GatewayListener_eq_dec : EqDecision GatewayListener.
Proof. solve_decision. Defined.
#[export] Instance GatewaySpec_eq_dec : EqDecision GatewaySpec.
Proof. solve_decision. Defined.
#[export] Instance Gateway_eq_dec : EqDecision Gateway.
Proof. solve_decision. Defined.

(** Field updates. *)
Definition with_in_meta (m : ObjectMeta) (o : Ingress) : Ingress :=
  {| in_type := in_type o; in_meta := m; in_spec := in_spec o; in_status := in_status o |}.
Definition with_in_spec (s : IngressSpec) (o : Ingress) : Ingress :=
  {| in_type := in_type o; in_meta := in_meta o; in_spec := s; in_status := in_status o |}.
Definition with_gr_meta (m : ObjectMeta) (o : GatewayRoute) : GatewayRoute :=
  {| gr_type := gr_type o; gr_meta := m; gr_spec := gr_spec o; gr_status := gr_status o |}.
Definition with_gr_spec (s : GatewayRouteSpec) (o : GatewayRoute) : GatewayRoute :=
  {| gr_type := gr_type o; gr_meta := gr_meta o; gr_spec := s; gr_status := gr_status o |}.
Definition with_gw_meta (m : ObjectMeta) (o : Gateway) : Gateway :=
  {| gw_type := gw_type o; gw_meta := m; gw_spec := gw_spec o; gw_status := gw_status o |}.
Definition with_gw_spec (s : GatewaySpec) (o : Gateway) : Gateway :=
  {| gw_type := gw_type o; gw_meta := gw_meta o; gw_spec := s; gw_status := gw_status o |}.
Definition with_lb_meta (m : ObjectMeta) (lb : LoadBalancer) : LoadBalancer :=
  {| lb_meta := m; lb_spec := lb_spec lb; lb_status := lb_status lb |}.
Definition with_lb_status (s : LoadBalancerStatus) (lb : LoadBalancer) : LoadBalancer :=
  {| lb_meta := lb_meta lb; lb_spec := lb_spec lb; lb_status := s |}.
Definition with_rt_meta (m : ObjectMeta) (o : Route) : Route :=
  {| rt_type := rt_type o; rt_meta := m; rt_spec := rt_spec o; rt_status := rt_status o |}.
Definition with_rt_status (s : RouteResourcesStatus) (o : Route) : Route :=
  {| rt_type := rt_type o; rt_meta := rt_meta o; rt_spec := rt_spec o; rt_status := s |}.
Definition with_svc_meta (m : ObjectMeta) (s : Service) : Service :=
  {| svc_type := svc_type s; svc_meta := m; svc_spec := svc_spec s; svc_ingress := svc_ingress s;
     svc_conditions := svc_conditions s |}.
Definition with_svc_ingress (i : gslice LoadBalancerIngress) (s : Service) : Service :=
  {| svc_type := svc_type s; svc_meta := svc_meta s; svc_spec := svc_spec s;
     svc_ingress := i; svc_conditions := svc_conditions s |}.
Definition with_in_status (s : opaque) (o : Ingress) : Ingress :=
  {| in_type := in_type o; in_meta := in_meta o; in_spec := in_spec o; in_status := s |}.
Definition with_gw_status (s : opaque) (o : Gateway) : Gateway :=
  {| gw_type := gw_type o; gw_meta := gw_meta o; gw_spec := gw_spec o; gw_status := s |}.
Definition with_gr_status (s : opaque) (o : GatewayRoute) : GatewayRoute :=
  {| gr_type := gr_type o; gr_meta := gr_meta o; gr_spec := gr_spec o; gr_status := s |}.
Definition with_sec_meta (m : ObjectMeta) (o : Secret) : Secret :=
  {| sec_meta := m; sec_immutable := sec_immutable o; sec_data := sec_data o;
     sec_stringData := sec_stringData o; sec_type := sec_type o |}.
Definition with_syn_meta (m : ObjectMeta) (o : SyncSecret) : SyncSecret :=
  {| syn_type := syn_type o; syn_meta := m; syn_immutable := syn_immutable o; syn_data := syn_data o;
     syn_stringData := syn_stringData o; syn_secretType := syn_secretType o |}.
Definition with_tn_meta (m : ObjectMeta) (o : Tenant) : Tenant :=
  {| tn_type := tn_type o; tn_meta := m; tn_spec := tn_spec o |}.
