(* ===== verification/Effects.v ===== *)
(** * Effects of the controllers

    A controller is a program that talks to the API server, to the port allocator
    and to the outside (clock, random source, DNS and TLS probes).  Such a program
    is a tree [prog]: a result, a panic, or a call and a continuation for every
    response.  [all_runs p Q] says that [Q] holds of the log and the result of
    every run of [p], whatever the responses are; [run] runs a program against a
    handler and [all_runs_sound] says that such runs are among those. *)
From Stdlib Require Import Ascii.
From stdpp Require Import base gmap list strings.
From S2P Require Import Prelude GoStrings Api PortAllocator EnvoySnapshot NetApi.
Import Core V1alpha1.

(** ** Calls and responses *)

Inductive kind :=
  | KLoadBalancer | KService | KTenant | KConfig | KRoute | KIngress | KHTTPRoute | KGRPCRoute
  | KGateway | KSecret | KNamespace | KDeployment | KDaemonSet | KNode | KAddresses
  | KServiceAccount | KRole | KRoleBinding | KConfigMap | KEndpointSlice | KTenantState | KCRD
  | KSyncSecret
  (* Secrets and SyncSecrets of a tenant's cluster; the others are the KubeLB cluster's *)
  | KTenantSecret | KTenantSyncSecret.

Definition objT (k : kind) : Type :=
  match k with
  | KLoadBalancer => LoadBalancer
  | KService => Service
  | KTenant => Tenant
  | KConfig => Config
  | KRoute => Route
  | KIngress => Ingress
  | KHTTPRoute => HTTPRoute
  | KGRPCRoute => GRPCRoute
  | KGateway => Gateway
  | KSecret | KTenantSecret => Secret
  | KNamespace => Namespace
  | KDeployment => Deployment
  | KDaemonSet => DaemonSet
  | KNode => Node
  | KAddresses => Addresses
  | KServiceAccount => ServiceAccount
  | KRole => Role
  | KRoleBinding => RoleBinding
  | KConfigMap => ConfigMap
  | KEndpointSlice => EndpointSlice
  | KTenantState => TenantState
  | KCRD => CustomResourceDefinition
  | KSyncSecret | KTenantSyncSecret => SyncSecret
  end.

Inductive call :=
  (* the API server; [List] in one namespace or in all, by labels *)
  | Get (k : kind) (ns n : string)
  | ListIn (k : kind) (ns : option string) (selector : gmap string string)
  | Create (k : kind) (o : objT k)
  | Update (k : kind) (o : objT k)
  | StatusUpdate (k : kind) (o : objT k)
  | StatusPatch (k : kind) (o original : objT k)
  | Delete (k : kind) (ns n : string)
  (* the port allocator *)
  | AllocateLBs (lbs : list LoadBalancer)
  | AllocateRoutes (rs : list Route)
  | DeallocateLB (lb : LoadBalancer)
  | DeallocateRoute (r : Route)
  | DeallocateKeys (es : list string)
  | ReadPorts
  | ReadAllocator
  (* the snapshot cache of the xDS server *)
  | GetSnapshot (node : string)
  | SetSnapshot (node : string) (s : Snapshot)
  | ClearSnapshot (node : string)
  (* the Addresses objects, as one reads them while a snapshot is mapped *)
  | ReadAddresses
  (* the outside *)
  | RandomBytes (n : nat)
  | Now
  (* the resolver; a GET that is not checked for its certificate, each with a timeout *)
  | LookupIPAddr (hostname : string)
  | HTTPGet (url : string)
  (* [DeleteAllOf] in a namespace *)
  | DeleteAllOf (k : kind) (ns : string)
  (* k8c.io/reconciler: the object is what the function makes of it, or of an empty one *)
  | Ensure (k : kind) (ns n : string) (f : objT k → error + objT k)
  (* controllerutil.CreateOrUpdate: the same, and the object is handed back *)
  | CreateOrUpdate (k : kind) (ns n : string) (f : objT k → error + objT k).

(** What a call answers.  [ReadPorts] answers with the allocator's [Lookup] function
    at that time, [ReadAllocator] with the allocator, [ReadAddresses] with the reads of
    Addresses, [HTTPGet] with the status code.  A successful write answers with the object as the server
    stored it, and the client puts it in place of the caller's. *)
Definition resp (c : call) : Type :=
  match c with
  | Get k _ _ => error + objT k
  | ListIn k _ _ => error + list (objT k)
  | Create k _ | Update k _ | StatusUpdate k _ | StatusPatch k _ _ => error + objT k
  | Delete _ _ _ => option error
  | AllocateLBs _ | AllocateRoutes _ | DeallocateLB _ | DeallocateRoute _ | DeallocateKeys _ => unit
  | ReadPorts => string → string → Z * bool
  | ReadAllocator => PortAllocator
  | GetSnapshot _ => error + Snapshot
  | SetSnapshot _ _ => option error
  | ClearSnapshot _ => unit
  | ReadAddresses => string → string → error + Addresses
  | RandomBytes _ => option (list ascii)
  | Now => Z
  | LookupIPAddr _ => error + list string
  | HTTPGet _ => error + Z
  | DeleteAllOf _ _ => option error
  | Ensure _ _ _ _ => option error
  | CreateOrUpdate k _ _ _ => error + objT k
  end.

(** The answers of an API server that has nothing and accepts every write: what a
    handler says to the calls it does not treat. *)
Definition default_resp (c : call) : resp c :=
  match c as c return resp c with
  | Get _ _ _ => inl (StatusError NotFound)
  | ListIn _ _ _ => inr []
  | Create _ o | Update _ o | StatusUpdate _ o | StatusPatch _ o _ => inr o
  | Delete _ _ _ => None
  | AllocateLBs _ | AllocateRoutes _ | DeallocateLB _ | DeallocateRoute _ | DeallocateKeys _ => ()
  | ReadPorts => λ _ _, ((-1)%Z, false)
  | ReadAllocator => NewPortAllocator
  | GetSnapshot _ => inl (Errorf "no snapshot")
  | SetSnapshot _ _ => None
  | ClearSnapshot _ => ()
  | ReadAddresses => λ _ _, inl (StatusError NotFound)
  | RandomBytes _ => None
  | Now => 0%Z
  | LookupIPAddr _ => inl (Errorf "no such host")
  | HTTPGet _ => inl (Errorf "connection refused")
  | DeleteAllOf _ _ => None
  | Ensure _ _ _ _ => None
  | CreateOrUpdate _ _ _ _ => inl (StatusError NotFound)
  end.

Inductive prog (A : Type) : Type :=
  | Ret (a : A)
  | Crash
  | Do (c : call) (k : resp c → prog A).
Arguments Ret {A} a.
Arguments Crash {A}.
Arguments Do {A} c k.

Global Instance prog_ret : MRet prog := λ A a, Ret a.
Fixpoint prog_bind_ {A B} (f : A → prog B) (p : prog A) : prog B :=
  match p with
  | Ret a => f a
  | Crash => Crash
  | Do c k => Do c (λ r, prog_bind_ f (k r))
  end.
Global Instance prog_bind : MBind prog := λ A B f p, prog_bind_ f p.

Definition perform (c : call) : prog (resp c) := Do c Ret.

(** A computation that may panic. *)
Definition lift {A} (m : go A) : prog A :=
  match m with Done a => Ret a | Panics => Crash end.

(** A program that fails: [return ..., err]. *)
Definition outcome A : Type := error + A.
Definition ok {A} (a : A) : prog (outcome A) := Ret (inr a).
Definition fail {A} (e : error) : prog (outcome A) := Ret (inl e).

(** [if err != nil { return err }] *)
Definition try {A B} (p : prog (outcome A)) (f : A → prog (outcome B)) : prog (outcome B) :=
  r ← p; match r with inl e => fail e | inr a => f a end.
(** [if err != nil { return fmt.Errorf("msg: %w", err) }] *)
Definition try_wrap {A B} (msg : string) (p : prog (outcome A)) (f : A → prog (outcome B))
    : prog (outcome B) :=
  r ← p; match r with inl e => fail (Wrapf msg e) | inr a => f a end.

Notation "x <-! p ;; q" := (try p (λ x, q)) (at level 80, p at next level, right associativity).
Notation "x <-[ m ] p ;; q" := (try_wrap m p (λ x, q)) (at level 80, p at next level, right associativity).

(** A delete whose NotFound error is ignored. *)
Definition delete_ignoring (k : kind) (ns n : string) (wrap_err : error → error) : prog (outcome unit) :=
  r ← perform (Delete k ns n);
  match r with
  | Some e => if IsNotFound e then ok () else fail (wrap_err e)
  | None => ok ()
  end.

(** [EnsureNamedObject] of the reconciler library, or the [Reconcile…] function made
    from it for one object. *)
Definition ensure (k : kind) (ns n : string) (f : objT k → error + objT k) : prog (outcome unit) :=
  e ← perform (Ensure k ns n f); match e with Some e => fail e | None => ok () end.

(** The pattern of every [CreateOrUpdate] function: look the object up, create it
    when it is not there, update it when it differs.  [same] compares the existing
    object with the desired one and [updated] is what is sent then.  The first component
    of the result is the caller's object afterwards. *)
Definition create_or_update_object (k : kind) (ns n : string) (desired : objT k) (same : objT k → bool)
    (updated : objT k → objT k) (getMsg createMsg updateMsg : string) : prog (objT k * outcome unit) :=
  existing ← perform (Get k ns n);
  match existing with
  | inl e =>
      if IsNotFound e then
        created ← perform (Create k desired);
        Ret (match created with
             | inl e => (desired, inl (Wrapf createMsg e))
             | inr o => (o, inr ())
             end)
      else Ret (desired, inl (Wrapf getMsg e))
  | inr existing =>
      if same existing then Ret (desired, inr ())
      else
        sent ← perform (Update k (updated existing));
        Ret (match sent with
             | inl e => (updated existing, inl (Wrapf updateMsg e))
             | inr o => (o, inr ())
             end)
  end.

(** When only the error matters. *)
Definition create_or_update (k : kind) (ns n : string) (desired : objT k) (same : objT k → bool)
    (updated : objT k → objT k) (getMsg createMsg updateMsg : string) : prog (outcome unit) :=
  r ← create_or_update_object k ns n desired same updated getMsg createMsg updateMsg;
  Ret r.2.

(** [retry.RetryOnConflict]: the function runs again while it answers with a
    conflict, at most [steps] times in all. *)
Fixpoint retryOnConflict {A} (steps : nat) (fn : prog (outcome A)) : prog (outcome A) :=
  match steps with
  | O => fn
  | S steps =>
      r ← fn;
      match r with
      | inl e => if bool_decide (reason_of e = Some Conflict) then retryOnConflict steps fn else fail e
      | inr a => ok a
      end
  end.

(** ** Watches *)

(** An event of the watch on objects of type [A]. *)
Inductive watch_event A :=
  | CreateEvent (o : A) | UpdateEvent (old new : A) | DeleteEvent (o : A) | GenericEvent (o : A).
Arguments CreateEvent {A} o.
Arguments UpdateEvent {A} old new.
Arguments DeleteEvent {A} o.
Arguments GenericEvent {A} o.

(** ** Runs *)

Definition event : Type := {c : call & resp c}.

(** [Q] holds of the log and the result of every run. *)
Fixpoint all_runs {A} (p : prog A) (Q : list event → go A → Prop) (log : list event) : Prop :=
  match p with
  | Ret a => Q log (Done a)
  | Crash => Q log Panics
  | Do c k => ∀ r : resp c, all_runs (k r) Q (log ++ [existT c r])
  end.

(** A run against a handler: a state and an answer to every call. *)
Section run.
Context {S : Type} (handle : S → ∀ c, S * resp c).

Fixpoint run {A} (p : prog A) (s : S) (log : list event) : S * list event * go A :=
  match p with
  | Ret a => (s, log, Done a)
  | Crash => (s, log, Panics)
  | Do c k => let '(s', r) := handle s c in run (k r) s' (log ++ [existT c r])
  end.

Lemma run_perform {B} c (f : resp c → prog B) s log :
  run (perform c ≫= f) s log = let '(s', r) := handle s c in run (f r) s' (log ++ [existT c r]).
Proof. done. Qed.

Lemma run_bind {A B} (p : prog A) (f : A → prog B) s log :
  run (p ≫= f) s log =
    let '(s', log', res) := run p s log in
    match res with Done a => run (f a) s' log' | Panics => (s', log', Panics) end.
Proof.
  revert s log. induction p as [a| |c k IH]; intros s log; simpl; [done|done|].
  destruct (handle s c) as [s' r]. apply IH.
Qed.

Lemma run_try {A B} (p : prog (outcome A)) (f : A → prog (outcome B)) s log s' log' a :
  run p s log = (s', log', Done (inr a)) → run (try p f) s log = run (f a) s' log'.
Proof. intros E. unfold try, outcome in *. by rewrite run_bind, E. Qed.

Lemma run_try_fail {A B} (p : prog (outcome A)) (f : A → prog (outcome B)) s log s' log' e :
  run p s log = (s', log', Done (inl e)) → run (try p f) s log = (s', log', Done (inl e)).
Proof. intros E. unfold try, outcome in *. by rewrite run_bind, E. Qed.

Lemma run_try_wrap_fail {A B} msg (p : prog (outcome A)) (f : A → prog (outcome B)) s log s' log' e :
  run p s log = (s', log', Done (inl e)) → run (try_wrap msg p f) s log = (s', log', Done (inl (Wrapf msg e))).
Proof. intros E. unfold try_wrap, outcome in *. by rewrite run_bind, E. Qed.

Lemma run_try_wrap {A B} msg (p : prog (outcome A)) (f : A → prog (outcome B)) s log s' log' a :
  run p s log = (s', log', Done (inr a)) → run (try_wrap msg p f) s log = run (f a) s' log'.
Proof. intros E. unfold try_wrap, outcome in *. by rewrite run_bind, E. Qed.

Lemma all_runs_sound {A} (p : prog A) Q s log :
  all_runs p Q log → let '(_, log', r) := run p s log in Q log' r.
Proof.
  revert s log. induction p as [a| |c k IH]; intros s log H; simpl in *; [done|done|].
  destruct (handle s c) as [s' r]. by apply IH.
Qed.
End run.

Lemma all_runs_mono {A} (p : prog A) (Q Q' : list event → go A → Prop) log :
  (∀ log r, Q log r → Q' log r) → all_runs p Q log → all_runs p Q' log.
Proof.
  intros HQ. revert log. induction p as [a| |c k IH]; intros log; simpl; [auto|auto|].
  intros H r. by apply IH.
Qed.

(** A run of a sequence is a run of the first part, then of the second. *)
Lemma all_runs_bind {A B} (p : prog A) (f : A → prog B) (Q : list event → go B → Prop) log :
  all_runs p (λ log' r, match r with Done a => all_runs (f a) Q log' | Panics => Q log' Panics end) log →
  all_runs (p ≫= f) Q log.
Proof.
  revert log. induction p as [a| |c k IH]; intros log; simpl; [done|done|].
  intros H r. apply IH, H.
Qed.

Lemma all_runs_perform {B} c (f : resp c → prog B) (Q : list event → go B → Prop) log :
  (∀ a, all_runs (f a) Q (log ++ [existT c a])) → all_runs (perform c ≫= f) Q log.
Proof. done. Qed.

(** A step that fails ends the run. *)
Lemma all_runs_try {A B} (p : prog (outcome A)) (f : A → prog (outcome B)) (Q : list event → go (outcome B) → Prop) log :
  all_runs p (λ log' r, match r with
                        | Done (inr a) => all_runs (f a) Q log'
                        | Done (inl e) => Q log' (Done (inl e))
                        | Panics => Q log' Panics
                        end) log →
  all_runs (x <-! p ;; f x) Q log.
Proof.
  intros Hp. unfold try. apply all_runs_bind. eapply all_runs_mono; [|exact Hp].
  by intros log' [[e|a]|].
Qed.

Lemma all_runs_try_wrap {A B} msg (p : prog (outcome A)) (f : A → prog (outcome B))
    (Q : list event → go (outcome B) → Prop) log :
  all_runs p (λ log' r, match r with
                        | Done (inr a) => all_runs (f a) Q log'
                        | Done (inl e) => Q log' (Done (inl (Wrapf msg e)))
                        | Panics => Q log' Panics
                        end) log →
  all_runs (x <-[msg] p ;; f x) Q log.
Proof.
  intros Hp. unfold try_wrap. apply all_runs_bind. eapply all_runs_mono; [|exact Hp].
  by intros log' [[e|a]|].
Qed.

(** The log only grows. *)
Lemma all_runs_prefix {A} (p : prog A) log :
  all_runs p (λ log' _, ∃ l, log' = log ++ l) log.
Proof.
  assert (∀ log0, (∃ l0, log0 = log ++ l0) → all_runs p (λ log' _, ∃ l, log' = log ++ l) log0) as H.
  { induction p as [a| |c k IH]; intros log0 [l0 ->]; simpl; [by eexists|by eexists|].
    intros r. apply IH. exists (l0 ++ [existT c r]). by rewrite app_assoc. }
  apply H. exists []. by rewrite app_nil_r.
Qed.

Lemma all_runs_and {A} (p : prog A) (Q Q' : list event → go A → Prop) log :
  all_runs p Q log → all_runs p Q' log → all_runs p (λ log r, Q log r ∧ Q' log r) log.
Proof. revert log. induction p as [a| |c k IH]; intros log; simpl; [done|done|]. intros H H' r. by apply IH. Qed.

(** What holds of the runs from the empty log holds of the events added to another. *)
Lemma all_runs_shift {A} (p : prog A) (Q : list event → go A → Prop) log :
  all_runs p Q [] → all_runs p (λ log' r, ∃ l, log' = log ++ l ∧ Q l r) log.
Proof.
  assert (∀ l0, all_runs p Q l0 → all_runs p (λ log' r, ∃ l, log' = log ++ l ∧ Q l r) (log ++ l0)) as H.
  { induction p as [a| |c k IH]; intros l0 Hp; simpl in *; [by eexists|by eexists|].
    intros r. rewrite <- app_assoc. by apply IH. }
  intros Hp. specialize (H [] Hp). by rewrite app_nil_r in H.
Qed.

(** ** Where an event can be *)

(** The log has no event that [f] selects. *)
Definition absent {X} (f : event → option X) (log : list event) : Prop := Forall (λ e, f e = None) log.

Lemma absent_split {X} (f : event → option X) log l1 e l2 x (P : Prop) :
  absent f log → log = l1 ++ e :: l2 → f e = Some x → P.
Proof. intros Ha -> He. apply Forall_app in Ha as [_ Ha]. inversion Ha. congruence. Qed.

Lemma absent_snoc_split {X} (f : event → option X) log y l1 e l2 x :
  absent f log → log ++ [y] = l1 ++ e :: l2 → f e = Some x → l2 = [] ∧ l1 = log ∧ e = y.
Proof.
  intros Ha Hl He. destruct (decide (l2 = [])) as [->|Hne].
  - by apply app_inj_tail in Hl as [<- <-].
  - destruct (exists_last Hne) as (l2' & z & ->). rewrite app_comm_cons, app_assoc in Hl.
    apply app_inj_tail in Hl as [Hl _]. by eapply absent_split.
Qed.

Lemma absent_snoc {X} (f : event → option X) log e : absent f log → f e = None → absent f (log ++ [e]).
Proof. intros. by apply Forall_app_2; [|constructor]. Qed.

(** ** Programs that only make certain calls *)

Fixpoint only_calls {A} (P : call → Prop) (p : prog A) : Prop :=
  match p with
  | Ret _ | Crash => True
  | Do c k => P c ∧ ∀ r, only_calls P (k r)
  end.

Section only_calls.
Context (P : call → Prop).

Lemma only_calls_bind {A B} (p : prog A) (f : A → prog B) :
  only_calls P p → (∀ a, only_calls P (f a)) → only_calls P (p ≫= f).
Proof.
  intros Hp Hf. induction p as [a| |c k IH]; simpl in *; [apply Hf|done|].
  destruct Hp as [Hc Hk]. split; [done|]. intros r. by apply IH.
Qed.

Lemma only_calls_perform c : P c → only_calls P (perform c).
Proof. by split. Qed.

Lemma only_calls_lift {A} (m : go A) : only_calls P (lift m).
Proof. by destruct m. Qed.

Lemma only_calls_try {A B} (p : prog (outcome A)) (f : A → prog (outcome B)) :
  only_calls P p → (∀ a, only_calls P (f a)) → only_calls P (try p f).
Proof. intros. unfold try. apply only_calls_bind; [done|]. intros [e|a]; [done|auto]. Qed.

Lemma only_calls_try_wrap {A B} msg (p : prog (outcome A)) (f : A → prog (outcome B)) :
  only_calls P p → (∀ a, only_calls P (f a)) → only_calls P (try_wrap msg p f).
Proof. intros. unfold try_wrap. apply only_calls_bind; [done|]. intros [e|a]; [done|auto]. Qed.

Lemma only_calls_delete k ns n w : P (Delete k ns n) → only_calls P (delete_ignoring k ns n w).
Proof.
  intros. unfold delete_ignoring. apply only_calls_bind; [by apply only_calls_perform|].
  intros [e|]; [by destruct (IsNotFound e)|done].
Qed.

Lemma only_calls_create_or_update_object k ns n d same upd m1 m2 m3 :
  P (Get k ns n) → P (Create k d) → (∀ x, P (Update k (upd x))) →
  only_calls P (create_or_update_object k ns n d same upd m1 m2 m3).
Proof.
  intros. unfold create_or_update_object. apply only_calls_bind; [by apply only_calls_perform|].
  intros [e|x].
  - destruct (IsNotFound e); [|done]. apply only_calls_bind; [by apply only_calls_perform|done].
  - destruct (same x); [done|]. apply only_calls_bind; [by apply only_calls_perform|done].
Qed.

Lemma only_calls_create_or_update k ns n d same upd m1 m2 m3 :
  P (Get k ns n) → P (Create k d) → (∀ x, P (Update k (upd x))) →
  only_calls P (create_or_update k ns n d same upd m1 m2 m3).
Proof.
  intros. unfold create_or_update. apply only_calls_bind; [|done]. by apply only_calls_create_or_update_object.
Qed.

Lemma only_calls_retry {A} steps (fn : prog (outcome A)) :
  only_calls P fn → only_calls P (retryOnConflict steps fn).
Proof.
  intros Hf. induction steps as [|steps IH]; [done|]. cbn [retryOnConflict].
  apply only_calls_bind; [done|]. intros [e|a]; [|done]. by destruct (bool_decide _).
Qed.

Lemma only_calls_runs {A} (p : prog A) log :
  only_calls P p → all_runs p (λ log' _, ∃ l, log' = log ++ l ∧ Forall (λ e, P (projT1 e)) l) log.
Proof.
  assert (∀ l0, Forall (λ e, P (projT1 e)) l0 → only_calls P p →
    all_runs p (λ log' _, ∃ l, log' = log ++ l ∧ Forall (λ e, P (projT1 e)) l) (log ++ l0)) as H.
  { induction p as [a| |c k IH]; intros l0 Hl0 Hp; simpl; [by eexists|by eexists|].
    intros r. destruct Hp as [Hc Hk]. rewrite <- app_assoc. apply IH; [|done].
    by apply Forall_app_2; [|constructor]. }
  intros Hp. specialize (H [] (List.Forall_nil _) Hp). by rewrite app_nil_r in H.
Qed.
End only_calls.

Lemma only_calls_mono {A} (P Q : call → Prop) (p : prog A) : (∀ c, P c → Q c) → only_calls P p → only_calls Q p.
Proof. intros HPQ. induction p as [a| |c k IH]; simpl; [done|done|]. intros [Hc Hk]. split; [auto|]. intros r. by apply IH. Qed.

(** Walks through a program and leaves the calls it cannot settle. *)
Ltac calls_step :=
  match goal with
  | |- only_calls _ (Ret _) => exact I
  | |- only_calls _ (ok _) => exact I
  | |- only_calls _ (fail _) => exact I
  | |- only_calls _ (delete_ignoring _ _ _ _) => apply only_calls_delete
  | |- only_calls _ (create_or_update_object _ _ _ _ _ _ _ _ _) => apply only_calls_create_or_update_object; [| |intros ?]
  | |- only_calls _ (create_or_update _ _ _ _ _ _ _ _ _) => apply only_calls_create_or_update; [| |intros ?]
  | |- only_calls _ (try _ _) => apply only_calls_try; [|intros ?]
  | |- only_calls _ (try_wrap _ _ _) => apply only_calls_try_wrap; [|intros ?]
  | |- only_calls _ (retryOnConflict _ _) => apply only_calls_retry
  | |- only_calls _ (lift _) => apply only_calls_lift
  | |- only_calls _ (mbind _ _) => apply only_calls_bind; [|intros ?]
  | |- only_calls _ (perform _) => apply only_calls_perform
  | |- only_calls _ (match ?x with _ => _ end) => destruct x
  | |- only_calls _ (let _ := _ in _) => cbv zeta
  end.
Ltac solve_calls := repeat (cbv beta; calls_step); try done.

(** ** Programs that do not panic *)

Fixpoint total {A} (p : prog A) : Prop :=
  match p with
  | Ret _ => True
  | Crash => False
  | Do c k => ∀ r, total (k r)
  end.

Lemma total_bind {A B} (p : prog A) (f : A → prog B) : total p → (∀ a, total (f a)) → total (p ≫= f).
Proof. intros Hp Hf. induction p as [a| |c k IH]; simpl in *; [apply Hf|done|]. intros r. by apply IH. Qed.

Lemma total_try {A B} (p : prog (outcome A)) (f : A → prog (outcome B)) :
  total p → (∀ a, total (f a)) → total (try p f).
Proof. intros. unfold try. apply total_bind; [done|]. intros [e|a]; [done|auto]. Qed.

Lemma total_retry {A} steps (fn : prog (outcome A)) : total fn → total (retryOnConflict steps fn).
Proof.
  intros Hf. induction steps as [|steps IH]; [done|]. cbn [retryOnConflict].
  apply total_bind; [done|]. intros [e|a]; [|done]. by destruct (bool_decide _).
Qed.

Lemma total_runs {A} (p : prog A) (Q : list event → go A → Prop) log :
  total p → all_runs p (λ log' res, ∀ a, res = Done a → Q log' res) log → all_runs p Q log.
Proof.
  revert log. induction p as [a| |c k IH]; intros log Hp Hr; simpl in *; [by eapply Hr|done|].
  intros x. by apply IH.
Qed.

(** ** Finalizers (controllerutil) *)

Class Finalizers := {
  ContainsFinalizer : ObjectMeta → string → bool;
  AddFinalizer : ObjectMeta → string → ObjectMeta * bool;
  RemoveFinalizer : ObjectMeta → string → ObjectMeta
}.

(** The documented behaviour: membership in the list of finalizers; adding reports
    whether the list changed. *)
Class FinalizerLaws `{Finalizers} : Prop := {
  contains_finalizer m f : ContainsFinalizer m f = true ↔ f ∈ finalizers m;
  add_finalizer m f :
    AddFinalizer m f = (if ContainsFinalizer m f then (m, false)
                        else (with_finalizers (finalizers m ++ [f]) m, true));
  remove_finalizer m f :
    RemoveFinalizer m f = with_finalizers (filter (λ g, g ≠ f) (finalizers m)) m
}.

(** An implementation. *)
Definition list_finalizers : Finalizers :=
  {| ContainsFinalizer m f := bool_decide (f ∈ finalizers m);
     AddFinalizer m f := if bool_decide (f ∈ finalizers m) then (m, false)
                         else (with_finalizers (finalizers m ++ [f]) m, true);
     RemoveFinalizer m f := with_finalizers (filter (λ g, g ≠ f) (finalizers m)) m |}.

Lemma list_finalizers_laws : @FinalizerLaws list_finalizers.
Proof. split; [intros m f; apply bool_decide_eq_true|done|done]. Qed.

(** ** What create_or_update does *)

(** Every possible run: the lookup, then at most one write. *)
Inductive applied (k : kind) (ns n : string) (desired : objT k) (same : objT k → bool)
    (updated : objT k → objT k) (getMsg createMsg updateMsg : string) : list event → outcome unit → Prop :=
  | applied_get_failed e :
      IsNotFound e = false →
      applied k ns n desired same updated getMsg createMsg updateMsg
        [existT (Get k ns n) (inl e)] (inl (Wrapf getMsg e))
  | applied_create_failed e e' :
      IsNotFound e = true →
      applied k ns n desired same updated getMsg createMsg updateMsg
        [existT (Get k ns n) (inl e); existT (Create k desired) (inl e')] (inl (Wrapf createMsg e'))
  | applied_created e o :
      IsNotFound e = true →
      applied k ns n desired same updated getMsg createMsg updateMsg
        [existT (Get k ns n) (inl e); existT (Create k desired) (inr o)] (inr ())
  | applied_unchanged x :
      same x = true →
      applied k ns n desired same updated getMsg createMsg updateMsg
        [existT (Get k ns n) (inr x)] (inr ())
  | applied_update_failed x e :
      same x = false →
      applied k ns n desired same updated getMsg createMsg updateMsg
        [existT (Get k ns n) (inr x); existT (Update k (updated x)) (inl e)] (inl (Wrapf updateMsg e))
  | applied_updated x o :
      same x = false →
      applied k ns n desired same updated getMsg createMsg updateMsg
        [existT (Get k ns n) (inr x); existT (Update k (updated x)) (inr o)] (inr ()).

Lemma create_or_update_runs k ns n desired same updated m1 m2 m3 log :
  all_runs (create_or_update k ns n desired same updated m1 m2 m3)
    (λ log' r, ∃ l o, log' = log ++ l ∧ r = Done o ∧ applied k ns n desired same updated m1 m2 m3 l o) log.
Proof.
  intros [e|x].
  - simpl. destruct (IsNotFound e) eqn:He; simpl.
    + intros [e'|o]; simpl; (eexists _, _; split; [by rewrite <- app_assoc|]; split; [done|]);
        by constructor.
    + eexists _, _. split; [done|]. split; [done|]. by constructor.
  - simpl. destruct (same x) eqn:Hs; simpl.
    + eexists _, _. split; [done|]. split; [done|]. by constructor.
    + intros [e|o]; simpl; (eexists _, _; split; [by rewrite <- app_assoc|]; split; [done|]);
        by constructor.
Qed.
