(* ===== verification/Guards.v ===== *)
(** * What runs of the controllers have in common

    When an object is known to be deleted, and when resources may be taken: only
    under a finalizer that the API server has stored. *)
From stdpp Require Import base gmap list strings.
From S2P Require Import Prelude GoStrings Api NetApi Effects.
Import Core V1alpha1.

(** The object is known to be gone: its delete succeeded or found nothing. *)
Definition gone (k : Effects.kind) (ns n : string) (log : list event) : Prop :=
  existT (Delete k ns n) None ∈ log ∨
  ∃ e, IsNotFound e = true ∧ existT (Delete k ns n) (Some e) ∈ log.

Lemma gone_app k ns n l1 l2 : gone k ns n l1 → gone k ns n (l1 ++ l2).
Proof.
  unfold gone. setoid_rewrite elem_of_app. intros [?|(e & ? & ?)]; [by left; left|].
  right. exists e. auto.
Qed.

Lemma delete_ignoring_runs k ns n w log :
  all_runs (delete_ignoring k ns n w)
    (λ log' res, ∃ a, log' = log ++ [existT (Delete k ns n) a] ∧
       ((res = Done (inr ()) ∧ gone k ns n log') ∨ ∃ e, res = Done (inl e))) log.
Proof.
  unfold delete_ignoring. simpl. intros [e|]; simpl; [destruct (IsNotFound e) eqn:He; simpl|];
    eexists; (split; [done|]).
  - left. split; [done|]. right. exists e. split; [done|]. apply elem_of_app. right. by apply list_elem_of_singleton.
  - right. by eexists.
  - left. split; [done|]. left. apply elem_of_app. right. by apply list_elem_of_singleton.
Qed.

(** Calls that take ports or write an object of the LB cluster. *)
Definition takes_resources (c : call) : bool :=
  match c with
  | Create KService _ | Update KService _ | Create KIngress _ | Update KIngress _
  | Create KHTTPRoute _ | Update KHTTPRoute _ | Create KGRPCRoute _ | Update KGRPCRoute _
  | Create KGateway _ | Update KGateway _ | AllocateLBs _ | AllocateRoutes _ => true
  | _ => false
  end.

(** The metadata of a LoadBalancer or Route that the API server has: read, or sent
    and accepted. *)
Definition stored_meta (e : event) : option ObjectMeta :=
  match e with
  | existT (Get KLoadBalancer _ _) (inr o) => Some (lb_meta o)
  | existT (Update KLoadBalancer o) (inr _) => Some (lb_meta o)
  | existT (Get KRoute _ _) (inr o) => Some (rt_meta o)
  | existT (Update KRoute o) (inr _) => Some (rt_meta o)
  | _ => None
  end.

(** An object that [stored] selects is known to carry the finalizer [f]. *)
Definition has_finalizer `{Finalizers} (stored : event → option ObjectMeta) (f : string) (log : list event) : Prop :=
  ∃ e m, e ∈ log ∧ stored e = Some m ∧ ContainsFinalizer m f = true.

(** Resources are only taken under the finalizer [f]. *)
Definition guarded `{Finalizers} (stored : event → option ObjectMeta) (f : string) (takes : call → bool)
    (log : list event) : Prop :=
  ∀ l1 e l2, log = l1 ++ e :: l2 → takes (projT1 e) = true → has_finalizer stored f l1.

Section guarded.
Context `{Finalizers} (stored : event → option ObjectMeta) (f : string) (takes : call → bool).

Lemma has_finalizer_app l1 l2 : has_finalizer stored f l1 → has_finalizer stored f (l1 ++ l2).
Proof. intros (e & o & He & Ho). exists e, o. split; [|done]. apply elem_of_app. by left. Qed.

Lemma guarded_app log l :
  guarded stored f takes log → (Forall (λ e, takes (projT1 e) = false) l ∨ has_finalizer stored f log) →
  guarded stored f takes (log ++ l).
Proof.
  intros Hg Hl l1 e l2 Heq He. apply app_eq_app in Heq as (k & [[-> E]|[-> E]]).
  - destruct k as [|e' k]; simpl in E.
    + destruct Hl as [Hl|Hl]; [|by rewrite app_nil_r in Hl]. subst l. inversion Hl. congruence.
    + injection E as <- ->. by eapply Hg.
  - destruct Hl as [Hl|Hl]; [|by apply has_finalizer_app].
    rewrite E in Hl. apply Forall_app in Hl as [_ Hl]. inversion Hl. congruence.
Qed.

(** Once the finalizer is stored, anything goes; without it, nothing may be taken. *)
Lemma guarded_runs {A} (p : prog A) log :
  guarded stored f takes log → (only_calls (λ c, takes c = false) p ∨ has_finalizer stored f log) →
  all_runs p (λ log' _, guarded stored f takes log') log.
Proof.
  intros Hg [Hp|Hf].
  - eapply all_runs_mono; [|apply only_calls_runs, Hp]. intros log' _ (l & -> & Hl).
    apply guarded_app; auto.
  - eapply all_runs_mono; [|apply all_runs_prefix]. intros log' _ (l & ->). apply guarded_app; auto.
Qed.

(** While nothing was taken. *)
Definition quiet (log : list event) : Prop := Forall (λ e, takes (projT1 e) = false) log.

Lemma quiet_guarded log : quiet log → guarded stored f takes log.
Proof.
  intros Hq l1 e l2 -> He. apply Forall_app in Hq as [_ Hq]. inversion Hq. congruence.
Qed.

Lemma quiet_try {A B} (p : prog (outcome A)) (k : A → prog (outcome B)) log :
  quiet log → only_calls (λ c, takes c = false) p →
  (∀ a l, quiet (log ++ l) → all_runs (k a) (λ log' _, guarded stored f takes log') (log ++ l)) →
  all_runs (try p k) (λ log' _, guarded stored f takes log') log.
Proof.
  intros Hq Hp Hk. apply all_runs_try. eapply all_runs_mono; [|apply only_calls_runs, Hp].
  intros log' res (l & -> & Hl). assert (quiet (log ++ l)) by by apply Forall_app_2.
  destruct res as [[e|a]|]; auto using quiet_guarded.
Qed.
End guarded.

