(* ===== verification/Predicates.v ===== *)
(** * Event predicates (internal/util/predicate/predicate.go)

    The filters that decide which watch events reach a controller.  A [Funcs] has a
    function per kind of event, and one that is not set lets every event through. *)
From stdpp Require Import base gmap list strings.
From S2P Require Import Prelude GoStrings Api Effects.
Import Core.

(** [predicate.TypedFuncs] of controller-runtime. *)
Record Funcs A := {
  CreateFunc : option (A → bool);
  UpdateFunc : option (A → A → bool);
  DeleteFunc : option (A → bool);
  GenericFunc : option (A → bool)
}.
Arguments CreateFunc {A} f.
Arguments UpdateFunc {A} f.
Arguments DeleteFunc {A} f.
Arguments GenericFunc {A} f.

Definition passes {A} (p : Funcs A) (e : watch_event A) : bool :=
  match e with
  | CreateEvent o => default (λ _, true) (CreateFunc p) o
  | UpdateEvent old new => default (λ _ _, true) (UpdateFunc p) old new
  | DeleteEvent o => default (λ _, true) (DeleteFunc p) o
  | GenericEvent o => default (λ _, true) (GenericFunc p) o
  end.

(** [predicate.And] *)
Definition passes_both {A} (p q : Funcs A) (e : watch_event A) : bool := passes p e && passes q e.

(** ** The factories *)

Definition TypedFactory {A} (filter : option (A → bool)) : Funcs A :=
  match filter with
  | None => {| CreateFunc := None; UpdateFunc := None; DeleteFunc := None; GenericFunc := None |}
  | Some filter =>
      {| CreateFunc := Some (λ o, filter o);
         UpdateFunc := Some (λ old new, filter old || filter new);
         DeleteFunc := Some (λ o, filter o);
         GenericFunc := None |}
  end.

(** Over client objects, of which the filters below only read the metadata. *)
Definition Factory (filter : option (ObjectMeta → bool)) : Funcs ObjectMeta := TypedFactory filter.

Definition MultiFactory {A} (createFilter updateFilter deleteFilter : A → bool) : Funcs A :=
  {| CreateFunc := Some (λ o, createFilter o);
     UpdateFunc := Some (λ old new, updateFilter old || updateFilter new);
     DeleteFunc := Some (λ o, deleteFilter o);
     GenericFunc := None |}.

Definition ByNamespace (ns : string) : Funcs ObjectMeta :=
  Factory (Some (λ o, bool_decide (namespace o = ns))).

Definition TypedByName (names : list string) : Funcs ObjectMeta :=
  let namesSet : gset string := list_to_set names in
  TypedFactory (Some (λ o, bool_decide (name o ∈ namesSet))).
Definition ByName (names : list string) : Funcs ObjectMeta := TypedByName names.

(** Does [key] have the value [value] in the map? *)
Definition has_value (m : gomap string) (key value : string) : bool :=
  match m with
  | Some l => match l !! key with Some existingValue => bool_decide (existingValue = value) | None => false end
  | None => false
  end.
Definition has_key (m : gomap string) (key : string) : bool :=
  match m with
  | Some l => match l !! key with Some _ => true | None => false end
  | None => false
  end.

Definition ByLabel (key value : string) : Funcs ObjectMeta :=
  Factory (Some (λ o, has_value (labels o) key value)).

Definition ByLabelExists (key : string) : Funcs ObjectMeta :=
  Factory (Some (λ o, has_key (labels o) key)).

Definition ByAnnotation (key value : string) (checkValue : bool) : Funcs ObjectMeta :=
  Factory (Some (λ o,
    match annotations o with
    | Some l =>
        match l !! key with
        | Some existingValue => if negb checkValue then true else bool_decide (existingValue = value)
        | None => false
        end
    | None => false
    end)).

Definition TrueFilter {A} (_ : A) : bool := true.

(** ** What gets through *)

(** The objects an event of a create, update or delete shows. *)
Definition shown {A} (e : watch_event A) : list A :=
  match e with
  | CreateEvent o | DeleteEvent o => [o]
  | UpdateEvent old new => [old; new]
  | GenericEvent _ => []
  end.

(** An event is dropped exactly when none of the objects it shows meets the filter;
    generic events always pass. *)
Lemma TypedFactory_drops {A} (filter : A → bool) (e : watch_event A) :
  passes (TypedFactory (Some filter)) e = false ↔
  Forall (λ o, filter o = false) (shown e) ∧ shown e ≠ [].
Proof.
  destruct e; simpl; rewrite ?list.Forall_cons, ?orb_false_iff, ?list.Forall_nil; naive_solver.
Qed.

Lemma has_value_spec m key value : has_value m key value = true ↔ contents m !! key = Some value.
Proof.
  destruct m as [l|]; simpl; [|by rewrite lookup_empty]. destruct (l !! key) as [v|]; [|done].
  rewrite bool_decide_eq_true. naive_solver.
Qed.

(** An object that got the label stays watched when the label is taken away; after
    that it is not seen any more. *)
Lemma ByLabel_drops key value old new :
  has_value (labels old) key value = false → has_value (labels new) key value = false →
  passes (ByLabel key value) (UpdateEvent old new) = false.
Proof. intros Ho Hn. simpl. by rewrite Ho, Hn. Qed.
