(* ===== verification/Objects.v ===== *)
(** * Objects of any kind

    The metadata of an object whatever its kind, and what the events of a log say about
    the objects of one kind. *)
From stdpp Require Import base gmap list strings.
From S2P Require Import Prelude GoStrings Api NetApi Effects.
Import Core V1alpha1.

(** ** Objects of a kind *)

#[export] Instance kind_eq_dec : EqDecision Effects.kind.
Proof. solve_decision. Defined.

(** An object of the kind [k'], if that is the kind [k]. *)
Definition cast_obj (k : Effects.kind) {k' : Effects.kind} (o : objT k') : option (objT k) :=
  match decide (k' = k) with
  | left E => Some (eq_rect k' objT o k E)
  | right _ => None
  end.

Lemma cast_obj_id k (o : objT k) : cast_obj k o = Some o.
Proof.
  unfold cast_obj. destruct (decide (k = k)) as [E|E]; [|done]. f_equal.
  by rewrite (proof_irrel E eq_refl).
Qed.

Lemma cast_obj_ne k k' (o : objT k') : k' ≠ k → cast_obj k o = None.
Proof. intros Hne. unfold cast_obj. by destruct (decide (k' = k)). Qed.

(** ** The metadata of every kind *)

Definition meta_of {k : Effects.kind} : objT k → ObjectMeta :=
  match k as k return objT k → ObjectMeta with
  | KLoadBalancer => lb_meta
  | KService => svc_meta
  | KTenant => tn_meta
  | KConfig => cf_meta
  | KRoute => rt_meta
  | KIngress => in_meta
  | KHTTPRoute | KGRPCRoute => gr_meta
  | KGateway => gw_meta
  | KSecret | KTenantSecret => sec_meta
  | KNamespace => nsp_meta
  | KDeployment => dp_meta
  | KDaemonSet => ds_meta
  | KNode => node_meta
  | KAddresses => ad_meta
  | KServiceAccount => sa_meta
  | KRole => role_meta
  | KRoleBinding => rb_meta
  | KConfigMap => cm_meta
  | KEndpointSlice => es_meta
  | KTenantState => tst_meta
  | KCRD => crd_meta
  | KSyncSecret | KTenantSyncSecret => syn_meta
  end.

Definition set_meta {k : Effects.kind} (m : ObjectMeta) : objT k → objT k :=
  match k as k return objT k → objT k with
  | KLoadBalancer => with_lb_meta m
  | KService => with_svc_meta m
  | KTenant => with_tn_meta m
  | KConfig => λ o, {| cf_meta := m; cf_spec := cf_spec o |}
  | KRoute => with_rt_meta m
  | KIngress => with_in_meta m
  | KHTTPRoute | KGRPCRoute => with_gr_meta m
  | KGateway => with_gw_meta m
  | KSecret | KTenantSecret => with_sec_meta m
  | KNamespace => λ _, {| nsp_meta := m |}
  | KDeployment => λ o, {| dp_meta := m; dp_replicas := dp_replicas o; dp_selector := dp_selector o;
                           dp_template := dp_template o; dp_rest := dp_rest o |}
  | KDaemonSet => λ o, {| ds_meta := m; ds_selector := ds_selector o; ds_template := ds_template o; ds_rest := ds_rest o |}
  | KNode => λ o, {| node_meta := m; node_conditions := node_conditions o; node_addresses := node_addresses o |}
  | KAddresses => λ o, {| ad_meta := m; ad_addresses := ad_addresses o |}
  | KServiceAccount => λ _, {| sa_meta := m |}
  | KRole => λ o, {| role_meta := m; role_rules := role_rules o |}
  | KRoleBinding => λ o, {| rb_meta := m; rb_roleRef := rb_roleRef o; rb_subjects := rb_subjects o |}
  | KConfigMap => λ o, {| cm_meta := m; cm_data := cm_data o |}
  | KEndpointSlice => λ o, {| es_meta := m; es_addressType := es_addressType o; es_endpoints := es_endpoints o;
                              es_ports := es_ports o |}
  | KTenantState => λ o, {| tst_meta := m; tst_status := tst_status o |}
  | KCRD => λ o, {| crd_meta := m; crd_spec := crd_spec o |}
  | KSyncSecret | KTenantSyncSecret => with_syn_meta m
  end.

Lemma meta_of_set {k : Effects.kind} m (o : objT k) : meta_of (set_meta m o) = m.
Proof. by destruct k. Qed.

(** ** What a log says about objects *)

(** The objects of kind [k] the API server is known to have: read, or sent and accepted. *)
Definition stored_obj (k : Effects.kind) (e : event) : option (objT k) :=
  match e with
  | existT (Get k' _ _) (inr o) => cast_obj k o
  | existT (Create k' o) (inr _) | existT (Update k' o) (inr _) => cast_obj k o
  | _ => None
  end.
(** The objects of kind [k] sent in an update, or in any write. *)
Definition update_sent (k : Effects.kind) (e : event) : option (objT k) :=
  match e with existT (Update k' o) _ => cast_obj k o | _ => None end.
Definition write_sent (k : Effects.kind) (e : event) : option (objT k) :=
  match e with existT (Create k' o) _ | existT (Update k' o) _ => cast_obj k o | _ => None end.

Definition stored_meta_of (k : Effects.kind) (e : event) : option ObjectMeta := meta_of <$> stored_obj k e.

(** Does the call write an object of kind [k]? *)
Definition writes_kind (k : Effects.kind) (c : call) : bool :=
  match c with
  | Create k' _ | Update k' _ | StatusUpdate k' _ | StatusPatch k' _ _ | Delete k' _ _
  | DeleteAllOf k' _ | Ensure k' _ _ _ | CreateOrUpdate k' _ _ _ => bool_decide (k' = k)
  | _ => false
  end.

Lemma update_sent_writes k e : writes_kind k (projT1 e) = false → update_sent k e = None.
Proof.
  destruct e as [c a]. simpl. destruct c; try done. simpl. rewrite bool_decide_eq_false. apply cast_obj_ne.
Qed.

Lemma write_sent_writes k e : writes_kind k (projT1 e) = false → write_sent k e = None.
Proof.
  destruct e as [c a]. simpl. destruct c; try done; simpl; rewrite bool_decide_eq_false; apply cast_obj_ne.
Qed.

(** Does the call put an object of kind [k] there? *)
Definition puts_kind (k : Effects.kind) (c : call) : bool :=
  match c with
  | Create k' _ | Update k' _ | Ensure k' _ _ _ | CreateOrUpdate k' _ _ _ => bool_decide (k' = k)
  | _ => false
  end.
