(* ===== verification/Finalized.v ===== *)
(** * Reconciling under a finalizer

    The controllers of secrets, sync secrets and tenants share one frame: look the
    object up; when it is being deleted, clean up if the finalizer is there; else make
    sure that the finalizer is stored and reconcile.  The frame is written once here,
    over the kind of the object, with the theorems about it. *)
From stdpp Require Import base gmap list strings.
From S2P Require Import Prelude GoStrings Api NetApi Effects Guards Objects.
Import Core V1alpha1.

(** ** The frame *)

Section frame.
Context {k : Effects.kind} `{Finalizers} (finalizer : string).

(** [Ok true]: the request is queued again. *)
Definition reconcile_finalized (cleanup reconcile : objT k → prog (outcome bool)) (req : NamespacedName)
    : prog (outcome bool) :=
  r ← perform (Get k (nn_namespace req) (nn_name req));
  match r with
  | inl e => if IsNotFound e then ok false else fail e
  | inr resource =>
      if decide (deletionTimestamp (meta_of resource) ≠ None) then
        if ContainsFinalizer (meta_of resource) finalizer then cleanup resource else ok false
      else if ContainsFinalizer (meta_of resource) finalizer then reconcile resource
      else
        let '(m, added) := AddFinalizer (meta_of resource) finalizer in
        if negb added then ok true
        else
          resource <-["failed to add finalizer"] perform (Update k (set_meta m resource)) ;;
          reconcile resource
  end.

Definition without_finalizer (o : objT k) : objT k :=
  set_meta (RemoveFinalizer (meta_of o) finalizer) o.

(** The end of every cleanup. *)
Definition release (o : objT k) : prog (outcome bool) :=
  _ <-["failed to remove finalizer"] perform (Update k (without_finalizer o)) ;;
  ok false.

(** ** Resources are taken under the finalizer only *)

Context (takes : call → bool).

Lemma frame_guarded `{!FinalizerLaws} cleanup reconcile req :
  (∀ o, takes (Update k o) = false) → (∀ ns n, takes (Get k ns n) = false) →
  (∀ o, only_calls (λ c, takes c = false) (cleanup o)) →
  all_runs (reconcile_finalized cleanup reconcile req)
    (λ log _, guarded (stored_meta_of k) finalizer takes log) [].
Proof.
  intros Hu Hg Hc. unfold reconcile_finalized. apply all_runs_perform. intros a. simpl app.
  set (e0 := existT (Get k (nn_namespace req) (nn_name req)) a : event).
  assert (quiet takes [e0]) as Hq by (constructor; [apply Hg|constructor]).
  destruct a as [e|o]; cbv iota beta; [by destruct (IsNotFound e); apply quiet_guarded|].
  assert (stored_meta_of k e0 = Some (meta_of o)) as He0.
  { unfold stored_meta_of. simpl. by rewrite cast_obj_id. }
  destruct (decide _) as [_|_].
  { destruct (ContainsFinalizer _ _); [|by apply quiet_guarded].
    apply guarded_runs; [by apply quiet_guarded|by left]. }
  destruct (ContainsFinalizer (meta_of o) finalizer) eqn:Hf.
  { apply guarded_runs; [by apply quiet_guarded|]. right. exists e0, (meta_of o).
    split; [by apply list_elem_of_singleton|done]. }
  rewrite add_finalizer, Hf. cbn [negb].
  apply all_runs_try_wrap. intros a.
  assert (quiet takes ([e0] ++ [existT (Update k (set_meta
    (with_finalizers (finalizers (meta_of o) ++ [finalizer]) (meta_of o)) o)) a])) as Hq2.
  { apply Forall_app_2; [done|]. constructor; [apply Hu|constructor]. }
  destruct a as [e|o']; cbv beta iota; [by apply quiet_guarded|].
  apply guarded_runs; [by apply quiet_guarded|]. right.
  eexists _, _. split; [apply elem_of_app; right; by apply list_elem_of_singleton|].
  split.
  - unfold stored_meta_of. simpl. rewrite cast_obj_id. simpl. by rewrite meta_of_set.
  - apply contains_finalizer. simpl. apply elem_of_app. right. by apply list_elem_of_singleton.
Qed.

(** ** The finalizer goes last *)

(** A run that gives the finalizer up last: it does not panic; the update that removes
    the finalizer is the last call, and sent only once [goal] holds of the log; when the
    run reports success, that update was accepted. *)
Definition released_last (goal : list event → Prop) (o : objT k) (log : list event) (res : go (outcome bool)) : Prop :=
  (∃ r, res = Done r) ∧
  (∀ l1 e l2 x, log = l1 ++ e :: l2 → update_sent k e = Some x → l2 = [] ∧ x = without_finalizer o ∧ goal l1) ∧
  (∀ b, res = Done (inr b) → ∃ l1 x, goal l1 ∧ log = l1 ++ [existT (Update k (without_finalizer o)) (inr x)]).

Lemma release_last (cleanup : prog (outcome unit)) (goal : list event → Prop) o :
  only_calls (λ c, writes_kind k c = false) cleanup →
  all_runs cleanup (λ log res, match res with Done (inr _) => goal log | Done (inl _) => True | Panics => False end) [] →
  all_runs (_ <-! cleanup ;; release o) (released_last goal o) [].
Proof.
  intros Hcalls Hc. apply all_runs_try.
  eapply all_runs_mono; [|apply all_runs_and; [apply Hc|apply only_calls_runs, Hcalls]].
  intros log res [Hres (l & E & Hl)]. simpl in E. subst l.
  assert (absent (update_sent k) log) as Hno.
  { eapply list.Forall_impl; [exact Hl|]. intros e. apply update_sent_writes. }
  destruct res as [[e|[]]|]; [|clear Hl|done].
  - split; [by eexists|]. split; [|done]. intros l1 ev l2 x Hl' Hev. by eapply absent_split.
  - unfold release. apply all_runs_try_wrap. intros a.
    assert (∀ l1 e l2 x, log ++ [existT (Update k (without_finalizer o)) a] = l1 ++ e :: l2 →
      update_sent k e = Some x → l2 = [] ∧ x = without_finalizer o ∧ goal l1) as Hlast.
    { intros l1 ev l2 x Hl Hev. destruct (absent_snoc_split _ _ _ _ _ _ _ Hno Hl Hev) as (-> & -> & ->).
      simpl in Hev. rewrite cast_obj_id in Hev. by injection Hev as <-. }
    destruct a as [e|x]; cbv beta iota.
    + split; [by eexists|]. by split.
    + simpl. split; [by eexists|]. split; [done|]. intros b _. by exists log, x.
Qed.
End frame.
