(* ===== verification/ApiServer.v ===== *)
(** * An API server

    What the controllers rely on, as an executable handler: objects by kind, namespace
    and name; optimistic locking by resource version; the UID and the deletion timestamp
    belong to the server; a delete of an object with finalizers only marks it, and the
    update that takes the last finalizer away removes it; the status is a subresource;
    [stringData] of a Secret is folded into its data.  The theorems that compose
    controllers run them against this server. *)
From stdpp Require Import base gmap list strings pretty.
From S2P Require Import Prelude GoStrings Api PortAllocator NetApi Effects Guards Objects Finalized.
Import Core V1alpha1.

(** ** Objects *)

Definition zero_type : TypeMeta := {| apiVersion := ""; Core.kind := "" |}.
Definition zero_annotation_settings : AnnotationSettings :=
  {| propagatedAnnotations := None; propagateAllAnnotations := None; defaultAnnotations := None |}.
Definition zero_lb_settings : LoadBalancerSettings := {| lbs_class := None; lbs_disable := false |}.
Definition zero_ingress_settings : IngressSettings := {| is_class := None; is_disable := false |}.
Definition zero_gateway_settings : GatewayAPISettings :=
  {| ga_class := None; ga_defaultGateway := None; ga_disable := false |}.
Definition zero_tenant : Tenant :=
  {| tn_type := zero_type; tn_meta := zero_meta;
     tn_spec := {| ts_annotations := zero_annotation_settings; ts_loadBalancer := zero_lb_settings;
                   ts_ingress := zero_ingress_settings; ts_gatewayAPI := zero_gateway_settings;
                   ts_dns := {| wildcardDomain := None; allowExplicitHostnames := None;
                                useDNSAnnotations := None; useCertificateAnnotations := None |};
                   ts_certificates := {| defaultClusterIssuer := None |} |} |}.
Definition zero_config : Config :=
  {| cf_meta := zero_meta;
     cf_spec := {| cs_annotations := zero_annotation_settings;
                   cs_envoyProxy := {| ep_topology := ""; ep_useDaemonset := false; ep_replicas := 0;
                     ep_singlePodPerNode := false; ep_nodeSelector := None; ep_tolerations := [];
                     ep_resources := None; ep_affinity := None; ep_image := "";
                     ep_gracefulShutdown := None; ep_overloadManager := None |};
                   cs_loadBalancer := zero_lb_settings; cs_ingress := zero_ingress_settings;
                   cs_gatewayAPI := zero_gateway_settings;
                   cs_dns := {| cd_wildcardDomain := ""; cd_allowExplicitHostnames := false;
                                cd_useDNSAnnotations := false; cd_useCertificateAnnotations := false |};
                   cs_certificates := {| defaultClusterIssuer := None |} |} |}.
Definition zero_resource_state : ResourceState :=
  {| rs_apiVersion := ""; rs_kind := ""; rs_name := ""; rs_namespace := ""; rs_generatedName := "";
     rs_status := ""; rs_conditions := [] |}.
Definition zero_route : Route :=
  {| rt_type := zero_type; rt_meta := zero_meta;
     rt_spec := {| rsp_endpoints := []; rsp_kubernetes := None |};
     rt_status := {| rrs_source := ""; rrs_services := None; rrs_route := zero_resource_state |} |}.
Definition zero_load_balancer : LoadBalancer :=
  {| lb_meta := zero_meta;
     lb_spec := {| ls_endpoints := []; ls_ports := []; ls_hostname := ""; ls_type := "" |};
     lb_status := {| lst_ingress := None; lst_ports := None; lst_hostname := None |} |}.
Definition zero_ingress : Ingress :=
  {| in_type := zero_type; in_meta := zero_meta;
     in_spec := {| isp_className := None; isp_defaultBackend := None; isp_tls := []; isp_rules := [] |};
     in_status := "" |}.
Definition zero_gateway_route : GatewayRoute :=
  {| gr_type := zero_type; gr_meta := zero_meta;
     gr_spec := {| grs_parentRefs := []; grs_hostnames := []; grs_rules := [] |}; gr_status := "" |}.
Definition zero_gateway : Gateway :=
  {| gw_type := zero_type; gw_meta := zero_meta;
     gw_spec := {| gws_className := ""; gws_listeners := []; gws_rest := "" |}; gw_status := "" |}.
Definition zero_secret : Secret :=
  {| sec_meta := zero_meta; sec_immutable := None; sec_data := None; sec_stringData := None; sec_type := "" |}.
Definition zero_sync_secret : SyncSecret :=
  {| syn_type := zero_type; syn_meta := zero_meta; syn_immutable := None; syn_data := None;
     syn_stringData := None; syn_secretType := "" |}.
Definition zero_pod : PodTemplateSpec :=
  {| pt_meta := zero_meta; pt_terminationGracePeriodSeconds := None; pt_containers := [];
     pt_affinity := None; pt_tolerations := []; pt_nodeSelector := None;
     pt_topologySpreadConstraints := []; pt_rest := "" |}.
Definition zero_version : Version :=
  {| v_gitVersion := ""; v_gitCommit := ""; v_buildDate := ""; v_edition := "" |}.
Definition zero_tenant_state : TenantState :=
  {| tst_meta := zero_meta;
     tst_status := {| tss_version := zero_version; tss_lastUpdated := 0; tss_conditions := [];
                      tss_loadBalancer := {| lbst_disable := false |} |} |}.

Definition zero_obj (k : Effects.kind) : objT k :=
  match k as k return objT k with
  | KLoadBalancer => zero_load_balancer
  | KService => zero_service
  | KTenant => zero_tenant
  | KConfig => zero_config
  | KRoute => zero_route
  | KIngress => zero_ingress
  | KHTTPRoute | KGRPCRoute => zero_gateway_route
  | KGateway => zero_gateway
  | KSecret | KTenantSecret => zero_secret
  | KNamespace => {| nsp_meta := zero_meta |}
  | KDeployment => {| dp_meta := zero_meta; dp_replicas := None; dp_selector := None; dp_template := zero_pod; dp_rest := "" |}
  | KDaemonSet => {| ds_meta := zero_meta; ds_selector := None; ds_template := zero_pod; ds_rest := "" |}
  | KNode => {| node_meta := zero_meta; node_conditions := []; node_addresses := [] |}
  | KAddresses => {| ad_meta := zero_meta; ad_addresses := [] |}
  | KServiceAccount => {| sa_meta := zero_meta |}
  | KRole => {| role_meta := zero_meta; role_rules := [] |}
  | KRoleBinding => {| rb_meta := zero_meta; rb_roleRef := {| rref_apiGroup := ""; rref_kind := ""; rref_name := "" |};
                       rb_subjects := [] |}
  | KConfigMap => {| cm_meta := zero_meta; cm_data := None |}
  | KEndpointSlice => {| es_meta := zero_meta; es_addressType := ""; es_endpoints := []; es_ports := [] |}
  | KTenantState => zero_tenant_state
  | KCRD => {| crd_meta := zero_meta; crd_spec := {| crds_group := ""; crds_conversion := None; crds_rest := "" |} |}
  | KSyncSecret | KTenantSyncSecret => zero_sync_secret
  end.

(** The first object with the status of the second. *)
Definition with_status_of {k : Effects.kind} : objT k → objT k → objT k :=
  match k as k return objT k → objT k → objT k with
  | KLoadBalancer => λ o s, with_lb_status (lb_status s) o
  | KRoute => λ o s, with_rt_status (rt_status s) o
  | KService => λ o s, {| svc_type := svc_type o; svc_meta := svc_meta o; svc_spec := svc_spec o;
                          svc_ingress := svc_ingress s; svc_conditions := svc_conditions s |}
  | KIngress => λ o s, with_in_status (in_status s) o
  | KHTTPRoute | KGRPCRoute => λ o s, with_gr_status (gr_status s) o
  | KGateway => λ o s, with_gw_status (gw_status s) o
  | KNode => λ o s, {| node_meta := node_meta o; node_conditions := node_conditions s; node_addresses := node_addresses s |}
  | KTenantState => λ o s, {| tst_meta := tst_meta o; tst_status := tst_status s |}
  | _ => λ o _, o
  end.

(** What the server does to an object it is sent: [stringData] overrides [data]. *)
Definition fold_string_data (s : Secret) : Secret :=
  match sec_stringData s with
  | None => s
  | Some sd => {| sec_meta := sec_meta s; sec_immutable := sec_immutable s;
                  sec_data := Some (sd ∪ contents (sec_data s)); sec_stringData := None; sec_type := sec_type s |}
  end.
Definition admit_obj {k : Effects.kind} : objT k → objT k :=
  match k as k return objT k → objT k with
  | KSecret | KTenantSecret => fold_string_data
  | _ => λ o, o
  end.

Lemma meta_of_with_status {k : Effects.kind} (o s : objT k) : meta_of (with_status_of o s) = meta_of o.
Proof. by destruct k. Qed.
Lemma meta_of_admit {k : Effects.kind} (o : objT k) : meta_of (admit_obj o) = meta_of o.
Proof. destruct k; try done; simpl; unfold fold_string_data; by destruct (sec_stringData o). Qed.

(** ** The server *)

Record world := {
  objs : ∀ k : Effects.kind, gmap (string * string) (objT k);
  clock : nat
}.

Definition set_objs (k : Effects.kind) (m : gmap (string * string) (objT k)) (w : world) : world :=
  {| objs := λ k', match decide (k = k') with
                   | left E => eq_rect k (λ k, gmap (string * string) (objT k)) m k' E
                   | right _ => objs w k'
                   end;
     clock := clock w |}.
Definition tick (w : world) : world := {| objs := objs w; clock := S (clock w) |}.

Lemma objs_set k m w : objs (set_objs k m w) k = m.
Proof.
  simpl. destruct (decide (k = k)) as [E|E]; [|done]. by rewrite (proof_irrel E eq_refl).
Qed.
Lemma objs_set_ne k k' m w : k ≠ k' → objs (set_objs k m w) k' = objs w k'.
Proof. intros Hne. simpl. by destruct (decide (k = k')). Qed.
Lemma clock_set k m w : clock (set_objs k m w) = clock w.
Proof. done. Qed.

Definition obj_key {k : Effects.kind} (o : objT k) : string * string :=
  (namespace (meta_of o), name (meta_of o)).

Definition server_meta (u rv : string) (d : option opaque) (m : ObjectMeta) : ObjectMeta :=
  {| name := name m; namespace := namespace m; uid := u; resourceVersion := rv; labels := labels m;
     annotations := annotations m; finalizers := finalizers m; deletionTimestamp := d;
     ownerReferences := ownerReferences m |}.

Definition fresh_uid (w : world) : string := "uid-" +:+ pretty (clock w).
Definition fresh_version (w : world) : string := pretty (clock w).

Section server.
Context {k : Effects.kind} (w : world).

Definition created (o : objT k) : objT k :=
  set_meta (server_meta (fresh_uid w) (fresh_version w) None (meta_of o)) (with_status_of (admit_obj o) (zero_obj k)).

Definition do_create (o : objT k) : world * (error + objT k) :=
  match objs w k !! obj_key o with
  | Some _ => (w, inl (StatusError AlreadyExists))
  | None =>
      if decide (resourceVersion (meta_of o) = "") then
        (tick (set_objs k (<[obj_key o := created o]> (objs w k)) w), inr (created o))
      else (w, inl (StatusError (OtherReason "BadRequest")))
  end.

Definition updated_from (old o : objT k) : objT k :=
  set_meta (server_meta (uid (meta_of old)) (fresh_version w) (deletionTimestamp (meta_of old)) (meta_of o))
    (with_status_of (admit_obj o) old).

(** Is the object the one the caller saw? *)
Definition precondition (old o : objT k) : bool :=
  (bool_decide (resourceVersion (meta_of o) = "") || bool_decide (resourceVersion (meta_of o) = resourceVersion (meta_of old))) &&
  (bool_decide (uid (meta_of o) = "") || bool_decide (uid (meta_of o) = uid (meta_of old))).

Definition do_update (o : objT k) : world * (error + objT k) :=
  match objs w k !! obj_key o with
  | None => (w, inl (StatusError NotFound))
  | Some old =>
      if negb (precondition old o) then (w, inl (StatusError Conflict))
      else
        let o' := updated_from old o in
        if bool_decide (deletionTimestamp (meta_of old) ≠ None) && bool_decide (finalizers (meta_of o) = [])
        then (tick (set_objs k (delete (obj_key o) (objs w k)) w), inr o')
        else (tick (set_objs k (<[obj_key o := o']> (objs w k)) w), inr o')
  end.

Definition do_status_update (o : objT k) : world * (error + objT k) :=
  match objs w k !! obj_key o with
  | None => (w, inl (StatusError NotFound))
  | Some old =>
      if negb (precondition old o) then (w, inl (StatusError Conflict))
      else
        let o' := set_meta (server_meta (uid (meta_of old)) (fresh_version w) (deletionTimestamp (meta_of old)) (meta_of old))
                    (with_status_of old o) in
        (tick (set_objs k (<[obj_key o := o']> (objs w k)) w), inr o')
  end.

Definition marked (o : objT k) : objT k :=
  match deletionTimestamp (meta_of o) with
  | Some _ => o
  | None => set_meta (server_meta (uid (meta_of o)) (fresh_version w) (Some "now") (meta_of o)) o
  end.

(** What is left of an object after a delete. *)
Definition after_delete (o : objT k) : option (objT k) :=
  if decide (finalizers (meta_of o) = []) then None else Some (marked o).

Definition do_delete (ns n : string) : world * option error :=
  match objs w k !! (ns, n) with
  | None => (w, Some (StatusError NotFound))
  | Some o => (tick (set_objs k (partial_alter (λ _, after_delete o) (ns, n) (objs w k)) w), None)
  end.

Definition do_delete_all (ns : string) : world * option error :=
  (tick (set_objs k (map_imap (λ key o, if decide (key.1 = ns) then after_delete o else Some o) (objs w k)) w), None).

Definition selected (ns : option string) (selector : gmap string string) (o : objT k) : bool :=
  match ns with None => true | Some ns => bool_decide (namespace (meta_of o) = ns) end &&
  bool_decide (selector ⊆ contents (labels (meta_of o))).

Definition do_list (ns : option string) (selector : gmap string string) : list (objT k) :=
  filter (λ o, selected ns selector o) (map_to_list (objs w k)).*2.

End server.

(** [EnsureNamedObject] and [controllerutil.CreateOrUpdate]: the object is created from
    an empty one or updated, as the function makes it. *)
Definition do_ensure {k : Effects.kind} (w : world) (ns n : string) (f : objT k → error + objT k)
    : world * (error + objT k) :=
  let named o := set_meta (with_identity n ns (uid (meta_of o)) (meta_of o)) o in
  match objs w k !! (ns, n) with
  | None =>
      match f (named (zero_obj k)) with
      | inl e => (w, inl e)
      | inr o => do_create w (named o)
      end
  | Some old =>
      match f old with
      | inl e => (w, inl e)
      | inr o => do_update w (named o)
      end
  end.

Definition err_of {A} (r : error + A) : option error := match r with inl e => Some e | inr _ => None end.

Definition api_server (w : world) (c : call) : world * resp c :=
  match c as c return world * resp c with
  | Get k ns n => (w, match objs w k !! (ns, n) with Some o => inr o | None => inl (StatusError NotFound) end)
  | ListIn k ns selector => (w, inr (do_list w ns selector))
  | Create k o => do_create w o
  | Update k o => do_update w o
  | StatusUpdate k o => do_status_update w o
  | StatusPatch k o _ => do_status_update w (set_meta (with_version "" "" (meta_of o)) o)
  | Delete k ns n => do_delete (k:=k) w ns n
  | DeleteAllOf k ns => do_delete_all (k:=k) w ns
  | Ensure k ns n f => let '(w', r) := do_ensure w ns n f in (w', err_of r)
  | CreateOrUpdate k ns n f => do_ensure w ns n f
  | c => (w, default_resp c)
  end.

(** ** Every object is filed under its own name *)

Definition filed (w : world) : Prop :=
  ∀ (k : Effects.kind) key (o : objT k), objs w k !! key = Some o → obj_key o = key.

Lemma filed_set w k m :
  filed w → (∀ key o, m !! key = Some o → obj_key o = key) → filed (tick (set_objs k m w)).
Proof.
  intros Hw Hm k' key o Hk. change (objs (set_objs k m w) k' !! key = Some o) in Hk.
  destruct (decide (k = k')) as [<-|Hne].
  - rewrite objs_set in Hk. by apply Hm.
  - rewrite objs_set_ne in Hk by done. by apply Hw.
Qed.

Lemma filed_insert w k key (o : objT k) :
  filed w → obj_key o = key → filed (tick (set_objs k (<[key := o]> (objs w k)) w)).
Proof.
  intros Hw Ho. apply filed_set; [done|]. intros key' o' [[<- <-]|[_ Hk]]%lookup_insert_Some; [done|]. by apply Hw.
Qed.

Lemma obj_key_meta {k : Effects.kind} (o o' : objT k) :
  name (meta_of o) = name (meta_of o') → namespace (meta_of o) = namespace (meta_of o') → obj_key o = obj_key o'.
Proof. unfold obj_key. by intros -> ->. Qed.

Lemma obj_key_set_meta {k : Effects.kind} m (o : objT k) : obj_key (set_meta m o) = (namespace m, name m).
Proof. unfold obj_key. by rewrite meta_of_set. Qed.

Lemma obj_key_marked w {k : Effects.kind} (o : objT k) : obj_key (marked w o) = obj_key o.
Proof. unfold marked. destruct (deletionTimestamp _); [done|]. by rewrite obj_key_set_meta. Qed.

Lemma obj_key_after_delete w {k : Effects.kind} (o o' : objT k) : after_delete w o = Some o' → obj_key o' = obj_key o.
Proof. unfold after_delete. case_decide; [done|]. intros [= <-]. apply obj_key_marked. Qed.

Lemma do_create_filed {k : Effects.kind} w (o : objT k) : filed w → filed (do_create w o).1.
Proof.
  intros Hw. unfold do_create. destruct (_ !! _); [done|]. case_decide; [|done]. simpl.
  apply filed_insert; [done|]. unfold created. by rewrite obj_key_set_meta.
Qed.

Lemma do_update_filed {k : Effects.kind} w (o : objT k) : filed w → filed (do_update w o).1.
Proof.
  intros Hw. unfold do_update. destruct (_ !! _) as [old|]; [|done]. destruct (negb _); [done|].
  destruct (_ && _); simpl.
  - apply filed_set; [done|]. intros key o' [_ Hk]%lookup_delete_Some. by apply Hw.
  - apply filed_insert; [done|]. unfold updated_from. by rewrite obj_key_set_meta.
Qed.

Lemma do_ensure_filed {k : Effects.kind} w ns n (f : objT k → error + objT k) : filed w → filed (do_ensure w ns n f).1.
Proof.
  intros Hw. unfold do_ensure. destruct (_ !! _); destruct (f _); auto using do_create_filed, do_update_filed.
Qed.

(** The server keeps its objects filed, whatever it is asked. *)
Lemma api_server_filed w c : filed w → filed (api_server w c).1.
Proof.
  intros Hw. destruct c; try done; simpl.
  - by apply do_create_filed.
  - by apply do_update_filed.
  - unfold do_status_update. destruct (objs w k !! _) as [old|] eqn:Hold; [|done]. destruct (negb _); [done|]. simpl.
    apply filed_insert; [done|]. rewrite obj_key_set_meta. simpl. by apply Hw.
  - unfold do_status_update. destruct (objs w k !! _) as [old|] eqn:Hold; [|done]. destruct (negb _); [done|]. simpl.
    apply filed_insert; [done|]. rewrite obj_key_set_meta. simpl.
    apply Hw in Hold. by rewrite <- Hold.
  - unfold do_delete. destruct (objs w k !! _) as [old|] eqn:Hold; [|done]. simpl. apply filed_set; [done|].
    intros key o. destruct (decide (key = (ns, n))) as [->|Hne].
    + rewrite lookup_partial_alter_eq. intros ->%obj_key_after_delete. by apply Hw.
    + rewrite lookup_partial_alter_ne by done. apply Hw.
  - apply filed_set; [done|]. intros key o. rewrite map_lookup_imap, bind_Some. intros (old & Hold & Ho).
    case_decide; [apply obj_key_after_delete in Ho as ->|injection Ho as <-]; by apply Hw.
  - pose proof (do_ensure_filed w ns n f Hw). by destruct (do_ensure w ns n f).
  - by apply do_ensure_filed.
Qed.

Lemma run_filed {A} (p : prog A) w log : filed w → filed (run api_server p w log).1.1.
Proof.
  revert w log. induction p as [a| |c f IH]; intros w log Hw; simpl; [done|done|].
  pose proof (api_server_filed w c Hw). destruct (api_server w c) as [w' a]. by apply IH.
Qed.

(** ** Steps of programs against the server *)

Lemma api_get {k : Effects.kind} w ns n (o : objT k) :
  objs w k !! (ns, n) = Some o → api_server w (Get k ns n) = (w, inr o).
Proof. simpl. by intros ->. Qed.

Lemma api_get_none (k : Effects.kind) w ns n :
  objs w k !! (ns, n) = None → api_server w (Get k ns n) = (w, inl (StatusError NotFound)).
Proof. simpl. by intros ->. Qed.

(** A write of one object of kind [k]. *)
Definition stores (k : Effects.kind) (key : string * string) (o : objT k) (w w' : world) : Prop :=
  objs w' k = <[key := o]> (objs w k) ∧ (∀ k', k ≠ k' → objs w' k' = objs w k').

Lemma stores_set k key (o : objT k) w : stores k key o w (tick (set_objs k (<[key := o]> (objs w k)) w)).
Proof. split; [exact (objs_set k _ w)|]. intros k' Hne. exact (objs_set_ne k k' _ w Hne). Qed.

Lemma stores_lookup k key (o : objT k) w w' : stores k key o w w' → objs w' k !! key = Some o.
Proof. intros [-> _]. apply lookup_insert_eq. Qed.

Lemma stores_refl k key (o : objT k) w : objs w k !! key = Some o → stores k key o w w.
Proof. intros Ho. split; [|done]. by rewrite insert_id. Qed.

(** An object sent back as it was read, but for what the server does not own, is taken. *)
Lemma precondition_same {k : Effects.kind} (old o : objT k) :
  resourceVersion (meta_of o) = resourceVersion (meta_of old) → uid (meta_of o) = uid (meta_of old) →
  precondition old o = true.
Proof.
  unfold precondition. intros -> ->. rewrite (bool_decide_true (uid _ = uid _)) by done.
  rewrite (bool_decide_true (resourceVersion _ = resourceVersion _)) by done. by rewrite !orb_true_r.
Qed.

Lemma do_update_stores {k : Effects.kind} w key (old o : objT k) :
  objs w k !! key = Some old → obj_key o = key →
  resourceVersion (meta_of o) = resourceVersion (meta_of old) → uid (meta_of o) = uid (meta_of old) →
  deletionTimestamp (meta_of old) = None →
  ∃ w', do_update w o = (w', inr (updated_from w old o)) ∧ stores k key (updated_from w old o) w w'.
Proof.
  intros Hold <- Hrv Hu Hd. unfold do_update. rewrite Hold, precondition_same by done. simpl negb.
  rewrite bool_decide_false by (intros []; done). eexists. split; [done|]. apply stores_set.
Qed.

(** The update that takes the last finalizer away removes an object that is being
    deleted. *)
Lemma do_update_removes {k : Effects.kind} w key (old o : objT k) :
  objs w k !! key = Some old → obj_key o = key →
  resourceVersion (meta_of o) = resourceVersion (meta_of old) → uid (meta_of o) = uid (meta_of old) →
  deletionTimestamp (meta_of old) ≠ None → finalizers (meta_of o) = [] →
  ∃ w', do_update w o = (w', inr (updated_from w old o)) ∧
    objs w' k = delete key (objs w k) ∧ (∀ k', k ≠ k' → objs w' k' = objs w k').
Proof.
  intros Hold <- Hrv Hu Hd Hf. unfold do_update. rewrite Hold, precondition_same by done. cbn [negb].
  rewrite !bool_decide_true by done. eexists. split; [done|].
  split; [exact (objs_set k _ w)|]. intros k' Hne. exact (objs_set_ne k k' _ w Hne).
Qed.

(** What [create_or_update] leaves behind: the object as it was created, as it was
    found to agree, or as it was updated. *)
Inductive in_place (k : Effects.kind) (w : world) (d : objT k) (same : objT k → bool) (old : option (objT k)) : objT k → Prop :=
  | in_place_created : old = None → in_place k w d same old (created w d)
  | in_place_same x : old = Some x → same x = true → in_place k w d same old x
  | in_place_updated x :
      old = Some x → same x = false →
      in_place k w d same old
        (updated_from w x (set_meta (with_version (resourceVersion (meta_of x)) (uid (meta_of x)) (meta_of d)) d)).

Lemma run_create_or_update {k : Effects.kind} w log ns n (d : objT k) same updated m1 m2 m3 :
  obj_key d = (ns, n) → resourceVersion (meta_of d) = "" →
  (∀ x, updated x = set_meta (with_version (resourceVersion (meta_of x)) (uid (meta_of x)) (meta_of d)) d) →
  (∀ x, objs w k !! (ns, n) = Some x → deletionTimestamp (meta_of x) = None) →
  ∃ w' log' o, run api_server (create_or_update k ns n d same updated m1 m2 m3) w log = (w', log', Done (inr ())) ∧
    in_place k w d same (objs w k !! (ns, n)) o ∧ stores k (ns, n) o w w'.
Proof.
  intros Hkey Hrv Hupd Hdel. unfold create_or_update, create_or_update_object.
  destruct (objs w k !! (ns, n)) as [x|] eqn:Hx; cbn [mbind prog_bind prog_bind_ perform run].
  - rewrite (api_get w _ _ x Hx). destruct (same x) eqn:Hs; cbn [prog_bind_ run].
    + eexists w, _, x. split; [done|]. split; [by apply in_place_same|]. by apply stores_refl.
    + rewrite Hupd. set (o := set_meta _ d).
      destruct (do_update_stores w (ns, n) x o) as (w' & Hrun & Hst); [done|..].
      { unfold o. by rewrite obj_key_set_meta. }
      { unfold o. by rewrite meta_of_set. }
      { unfold o. by rewrite meta_of_set. }
      { by apply Hdel. }
      change (api_server w (Update k o)) with (do_update w o). rewrite Hrun. cbn [prog_bind_ run].
      eexists w', _, _. split; [done|]. split; [by eapply in_place_updated|done].
  - rewrite (api_get_none k w _ _ Hx).
    change (IsNotFound (StatusError NotFound)) with true. cbn [prog_bind_ run]. cbv iota. cbn [prog_bind_ run].
    change (api_server w (Create k d)) with (do_create w d). unfold do_create.
    rewrite Hkey, Hx, decide_True by done. cbn [run].
    eexists _, _, _. split; [done|]. split; [by apply in_place_created|]. apply stores_set.
Qed.

(** The state a program leaves behind, and what it answers. *)
Definition exec {A} (p : prog A) (w : world) : world := (run api_server p w []).1.1.
Definition answer {A} (p : prog A) (w : world) : go A := (run api_server p w []).2.

(** The object under its finalizer: as it was, or with the finalizer added. *)
Definition under_finalizer {k : Effects.kind} (f : string) (w : world) (o o' : objT k) (w' : world) : Prop :=
  f ∈ finalizers (meta_of o') ∧
  (o' = o ∧ w' = w ∨
   o' = updated_from w o (set_meta (with_finalizers (finalizers (meta_of o) ++ [f]) (meta_of o)) o)).

Lemma under_finalizer_key {k : Effects.kind} f w (o o' : objT k) w' : under_finalizer f w o o' w' → obj_key o' = obj_key o.
Proof.
  intros [_ [[-> _]| ->]]; [done|]. unfold updated_from. rewrite obj_key_set_meta, meta_of_set. done.
Qed.

Lemma run_finalized {k : Effects.kind} `{FinalizerLaws} f cleanup reconcile req w log (o : objT k) :
  filed w → objs w k !! (nn_namespace req, nn_name req) = Some o → deletionTimestamp (meta_of o) = None →
  ∃ w' log' o', run api_server (reconcile_finalized f cleanup reconcile req) w log = run api_server (reconcile o') w' log' ∧
    stores k (nn_namespace req, nn_name req) o' w w' ∧ under_finalizer f w o o' w'.
Proof.
  intros Hw Ho Hd. unfold reconcile_finalized. cbn [mbind prog_bind prog_bind_ perform run].
  rewrite (api_get w _ _ o Ho), Hd, decide_False by auto.
  destruct (ContainsFinalizer (meta_of o) f) eqn:Hf.
  - eexists _, _, o. split; [done|]. split; [by apply stores_refl|]. split; [by apply contains_finalizer|]. by left.
  - rewrite add_finalizer, Hf. cbn [negb]. unfold try_wrap. set (o1 := set_meta _ o).
    destruct (do_update_stores w (nn_namespace req, nn_name req) o o1) as (w' & Hrun & Hst); [done|..|done|].
    { unfold o1. rewrite obj_key_set_meta. simpl. rewrite <- (Hw _ _ _ Ho). done. }
    { unfold o1. by rewrite meta_of_set. }
    { unfold o1. by rewrite meta_of_set. }
    cbn [mbind prog_bind prog_bind_ perform run]. change (api_server w (Update k o1)) with (do_update w o1). rewrite Hrun.
    eexists w', _, _. split; [done|]. split; [done|]. split; [|by right].
    unfold updated_from, o1. rewrite !meta_of_set. simpl. apply elem_of_app. right. by apply list_elem_of_singleton.
Qed.

(** Once the finalizer is there, nothing is written for it. *)
Lemma run_finalized_has {k : Effects.kind} `{FinalizerLaws} f cleanup reconcile req w log (o : objT k) :
  objs w k !! (nn_namespace req, nn_name req) = Some o → deletionTimestamp (meta_of o) = None →
  f ∈ finalizers (meta_of o) →
  run api_server (reconcile_finalized f cleanup reconcile req) w log =
    run api_server (reconcile o) w (log ++ [existT (Get k (nn_namespace req) (nn_name req)) (inr o)]).
Proof.
  intros Ho Hd Hf. unfold reconcile_finalized. cbn [mbind prog_bind prog_bind_ perform run].
  rewrite (api_get w _ _ o Ho), Hd, decide_False by auto. by rewrite (proj2 (contains_finalizer _ _) Hf).
Qed.

(** An object that agrees is left alone. *)
Lemma run_create_or_update_same {k : Effects.kind} w log ns n (d x : objT k) same updated m1 m2 m3 :
  objs w k !! (ns, n) = Some x → same x = true →
  run api_server (create_or_update k ns n d same updated m1 m2 m3) w log =
    (w, log ++ [existT (Get k ns n) (inr x)], Done (inr ())).
Proof.
  intros Hx Hs. unfold create_or_update, create_or_update_object. cbn [mbind prog_bind prog_bind_ perform run].
  rewrite (api_get w _ _ x Hx), Hs. done.
Qed.

Lemma stores_other k key (o : objT k) w w' k' : stores k key o w w' → k ≠ k' → objs w' k' = objs w k'.
Proof. intros [_ Hother]. apply Hother. Qed.

Lemma exec_filed {A} (p : prog A) w : filed w → filed (exec p w).
Proof. apply run_filed. Qed.
#[export] Hint Resolve exec_filed : kubelb.

(** ** Ensuring an object *)

(** A function that does not touch the identity of the object. *)
Definition keeps_identity {k : Effects.kind} (f : objT k → error + objT k) : Prop :=
  ∀ o, ∃ o', f o = inr o' ∧ uid (meta_of o') = uid (meta_of o) ∧
    resourceVersion (meta_of o') = resourceVersion (meta_of o).

Definition named {k : Effects.kind} (ns n : string) (o : objT k) : objT k :=
  set_meta (with_identity n ns (uid (meta_of o)) (meta_of o)) o.

(** What the server has after an object was ensured: what the function made of the
    object it had, or of an empty one. *)
Inductive ensured_as {k : Effects.kind} (w : world) (ns n : string) (f : objT k → error + objT k) : objT k → Prop :=
  | ensured_new o :
      objs w k !! (ns, n) = None → f (named ns n (zero_obj k)) = inr o → ensured_as w ns n f (created w (named ns n o))
  | ensured_old old o :
      objs w k !! (ns, n) = Some old → f old = inr o → ensured_as w ns n f (updated_from w old (named ns n o)).

Lemma do_ensure_stores {k : Effects.kind} w ns n (f : objT k → error + objT k) :
  keeps_identity f → (∀ o, objs w k !! (ns, n) = Some o → deletionTimestamp (meta_of o) = None) →
  ∃ w' o, do_ensure w ns n f = (w', inr o) ∧ stores k (ns, n) o w w' ∧ ensured_as w ns n f o.
Proof.
  intros Hf Hd. unfold do_ensure. destruct (objs w k !! (ns, n)) as [old|] eqn:Hold.
  - destruct (Hf old) as (o & Ho & Hu & Hrv). rewrite Ho.
    destruct (do_update_stores w (ns, n) old (named ns n o)) as (w' & Hrun & Hst); [done|..|by apply Hd|].
    { unfold named. by rewrite obj_key_set_meta. }
    { unfold named. by rewrite meta_of_set. }
    { unfold named. by rewrite meta_of_set. }
    exists w', (updated_from w old (named ns n o)). split; [exact Hrun|]. split; [done|]. by eapply ensured_old.
  - destruct (Hf (named ns n (zero_obj k))) as (o & Ho & Hu & Hrv). change (set_meta _ (zero_obj k)) with (named ns n (zero_obj k)).
    rewrite Ho. unfold do_create. change (set_meta _ o) with (named ns n o).
    assert (obj_key (named ns n o) = (ns, n)) as Hkey by (unfold named; by rewrite obj_key_set_meta).
    rewrite Hkey, Hold, decide_True.
    + eexists _, _. split; [done|]. split; [apply stores_set|]. by eapply ensured_new.
    + unfold named. rewrite meta_of_set. simpl. rewrite Hrv. unfold named. rewrite meta_of_set. simpl. by destruct k.
Qed.

Lemma run_ensure {k : Effects.kind} w log ns n (f : objT k → error + objT k) :
  keeps_identity f → (∀ o, objs w k !! (ns, n) = Some o → deletionTimestamp (meta_of o) = None) →
  ∃ w' log' o, run api_server (ensure k ns n f) w log = (w', log', Done (inr ())) ∧
    stores k (ns, n) o w w' ∧ ensured_as w ns n f o.
Proof.
  intros Hf Hd. destruct (do_ensure_stores w ns n f Hf Hd) as (w' & o & Hrun & Hst & He).
  unfold ensure. cbn [mbind prog_bind prog_bind_ perform run].
  assert (api_server w (Ensure k ns n f) = (w', None)) as -> by (simpl; by rewrite Hrun).
  cbn [run]. by eexists w', _, o.
Qed.

Lemma ensured_as_key {k : Effects.kind} w ns n (f : objT k → error + objT k) o : ensured_as w ns n f o → obj_key o = (ns, n).
Proof.
  intros [o' _ _|old o' _ _]; unfold created, updated_from; rewrite obj_key_set_meta; unfold named; by rewrite meta_of_set.
Qed.

Lemma do_status_update_stores {k : Effects.kind} w key (old o : objT k) :
  objs w k !! key = Some old → obj_key o = key →
  resourceVersion (meta_of o) = resourceVersion (meta_of old) → uid (meta_of o) = uid (meta_of old) →
  let o' := set_meta (server_meta (uid (meta_of old)) (fresh_version w) (deletionTimestamp (meta_of old)) (meta_of old))
              (with_status_of old o) in
  ∃ w', do_status_update w o = (w', inr o') ∧ stores k key o' w w'.
Proof.
  intros Hold <- Hrv Hu o'. unfold do_status_update. rewrite Hold, precondition_same by done. simpl negb.
  eexists. split; [done|]. apply stores_set.
Qed.

Lemma stores_trans k key (o1 o2 : objT k) w w1 w2 : stores k key o1 w w1 → stores k key o2 w1 w2 → stores k key o2 w w2.
Proof.
  intros [E1 H1] [E2 H2]. split; [by rewrite E2, E1, insert_insert_eq|]. intros k' Hne. by rewrite H2, H1.
Qed.

(** ** Objects that are not being deleted *)

Definition live {k : Effects.kind} (o : objT k) : Prop := deletionTimestamp (meta_of o) = None.

Definition all_live (w : world) : Prop := ∀ (k : Effects.kind) key (o : objT k), objs w k !! key = Some o → live o.

Lemma all_live_set w k m : all_live w → (∀ key o, m !! key = Some o → live o) → all_live (set_objs k m w).
Proof.
  intros Hw Hm k' key o Hk. destruct (decide (k = k')) as [<-|Hne].
  - rewrite objs_set in Hk. by eapply Hm.
  - rewrite objs_set_ne in Hk by done. by eapply Hw.
Qed.

Definition empty_world : world := {| objs := λ k, ∅; clock := 7 |}.
Lemma empty_world_live : all_live empty_world.
Proof. intros k key o. simpl. by rewrite lookup_empty. Qed.
Lemma empty_world_filed : filed empty_world.
Proof. intros k key o. simpl. by rewrite lookup_empty. Qed.

(** ** Kinds a program does not write *)

Lemma tick_set_ne k k' m w : k ≠ k' → objs (tick (set_objs k m w)) k' = objs w k'.
Proof. exact (objs_set_ne k k' m w). Qed.

Lemma do_create_other {k : Effects.kind} w (o : objT k) k' : k ≠ k' → objs (do_create w o).1 k' = objs w k'.
Proof. intros Hne. unfold do_create. destruct (_ !! _); [done|]. case_decide; [|done]. by apply tick_set_ne. Qed.
Lemma do_update_other {k : Effects.kind} w (o : objT k) k' : k ≠ k' → objs (do_update w o).1 k' = objs w k'.
Proof.
  intros Hne. unfold do_update. destruct (_ !! _); [|done]. destruct (negb _); [done|]. destruct (_ && _); by apply tick_set_ne.
Qed.
Lemma do_ensure_other {k : Effects.kind} w ns n (f : objT k → error + objT k) k' :
  k ≠ k' → objs (do_ensure w ns n f).1 k' = objs w k'.
Proof.
  intros Hne. unfold do_ensure. destruct (_ !! _); destruct (f _); auto using do_create_other, do_update_other.
Qed.
Lemma do_status_update_other {k : Effects.kind} w (o : objT k) k' : k ≠ k' → objs (do_status_update w o).1 k' = objs w k'.
Proof. intros Hne. unfold do_status_update. destruct (_ !! _); [|done]. destruct (negb _); [done|]. by apply tick_set_ne. Qed.

Lemma api_server_other w c k : writes_kind k c = false → objs (api_server w c).1 k = objs w k.
Proof.
  destruct c as [| |k'|k'|k'|k'|k'| | | | | | | | | | | | | | | |k'|k'|k']; try done;
    cbn [writes_kind]; rewrite bool_decide_eq_false; intros Hne.
  - by apply do_create_other.
  - by apply do_update_other.
  - by apply do_status_update_other.
  - exact (do_status_update_other _ _ _ Hne).
  - simpl. unfold do_delete. destruct (_ !! _); [|done]. by apply tick_set_ne.
  - by apply tick_set_ne.
  - pose proof (do_ensure_other w ns n f k Hne). simpl. by destruct (do_ensure w ns n f).
  - by apply do_ensure_other.
Qed.

Lemma run_other {A} (p : prog A) k w log :
  only_calls (λ c, writes_kind k c = false) p → objs (run api_server p w log).1.1 k = objs w k.
Proof.
  revert w log. induction p as [a| |c f IH]; intros w log; simpl; [done|done|]. intros [Hc Hf].
  pose proof (api_server_other w c k Hc) as E. destruct (api_server w c) as [w' a]. rewrite IH by done. exact E.
Qed.

(** Deleting always succeeds against this server. *)
Lemma run_delete_ignoring k ns n e w log :
  ∃ w' log', run api_server (delete_ignoring k ns n e) w log = (w', log', Done (inr ())).
Proof.
  unfold delete_ignoring. cbn [mbind prog_bind prog_bind_ perform run].
  change (api_server w (Delete k ns n)) with (do_delete (k:=k) w ns n). unfold do_delete.
  destruct (objs w k !! (ns, n)); by eexists _, _.
Qed.
