(* ===== verification/Services.v ===== *)
(** * Services (internal/resources/service/service.go)

    What the CCM does with the Services a Route refers to
    ([NormalizeAndReplicateServices]: strip them, and make a NodePort copy of those
    that have no node port), and what the manager makes of them in the LB cluster
    ([GenerateServiceForLBCluster], [GenerateBridgeService]). *)
From stdpp Require Import base gmap list strings pretty.
From S2P Require Import Prelude GoStrings Api Names PortAllocator Annotations LoadBalancers NetApi Effects.
Import Core V1alpha1.

Definition NodePortServicePattern (n : string) : string := n +:+ "-nodeport".

Definition GetServiceName (service : Service) : string :=
  match labels (svc_meta service) with
  | Some l => match l !! LabelOriginName with Some v => v | None => name (svc_meta service) end
  | None => name (svc_meta service)
  end.

Definition GetServiceNamespace (service : Service) : string :=
  match labels (svc_meta service) with
  | Some l => match l !! LabelOriginNamespace with Some v => v | None => namespace (svc_meta service) end
  | None => namespace (svc_meta service)
  end.

Definition delete_last_applied (a : gomap string) : gomap string :=
  match a with Some m => Some (delete LastAppliedConfigAnnotation m) | None => None end.

(** A copy with the fields that make sense in another cluster. *)
Definition cleanseService (svc : Service) (removeUID removeClusterSpecificFields : bool) : Service :=
  let sp := svc_spec svc in
  {| svc_type := svc_type svc;
     svc_meta :=
       {| name := name (svc_meta svc); namespace := namespace (svc_meta svc);
          uid := if removeUID then "" else uid (svc_meta svc); resourceVersion := "";
          labels := labels (svc_meta svc);
          annotations := delete_last_applied (annotations (svc_meta svc));
          finalizers := []; deletionTimestamp := None; ownerReferences := [] |};
     svc_spec :=
       {| ss_ports := ss_ports sp; ss_selector := ss_selector sp; ss_type := ss_type sp;
          ss_clusterIP := if decide (ss_clusterIP sp = ClusterIPNone) then ss_clusterIP sp else "";
          ss_clusterIPs := if decide (ss_clusterIP sp = ClusterIPNone) then ss_clusterIPs sp else [];
          ss_loadBalancerClass := ss_loadBalancerClass sp;
          ss_ipFamilies := if removeClusterSpecificFields then [] else ss_ipFamilies sp;
          ss_ipFamilyPolicy := if removeClusterSpecificFields then None else ss_ipFamilyPolicy sp;
          ss_sessionAffinity := if removeClusterSpecificFields then "" else ss_sessionAffinity sp;
          ss_externalTrafficPolicy := if removeClusterSpecificFields then "" else ss_externalTrafficPolicy sp;
          ss_internalTrafficPolicy := if removeClusterSpecificFields then None else ss_internalTrafficPolicy sp;
          ss_rest := ss_rest sp |};
     svc_ingress := None; svc_conditions := "" |}.

Definition with_svc_spec (sp : ServiceSpec) (s : Service) : Service :=
  {| svc_type := svc_type s; svc_meta := svc_meta s; svc_spec := sp; svc_ingress := svc_ingress s;
     svc_conditions := svc_conditions s |}.

Definition with_type_selector (t : string) (sel : gomap string) (s : ServiceSpec) : ServiceSpec :=
  {| ss_ports := ss_ports s; ss_selector := sel; ss_type := t;
     ss_clusterIP := ss_clusterIP s; ss_clusterIPs := ss_clusterIPs s;
     ss_loadBalancerClass := ss_loadBalancerClass s; ss_ipFamilies := ss_ipFamilies s;
     ss_ipFamilyPolicy := ss_ipFamilyPolicy s; ss_sessionAffinity := ss_sessionAffinity s;
     ss_externalTrafficPolicy := ss_externalTrafficPolicy s;
     ss_internalTrafficPolicy := ss_internalTrafficPolicy s; ss_rest := ss_rest s |}.

(** The NodePort copy of a ClusterIP service. *)
Definition nodeport_service (original : Service) : Service :=
  let service := cleanseService original true false in
  let m := svc_meta service in
  let m := with_owners [{| or_apiVersion := apiVersion (svc_type service); or_kind := Core.kind (svc_type service);
                           or_name := name m; or_uid := uid (svc_meta original); or_controller := None |}] m in
  let m := with_labels (Some (<[LabelManagedBy := LabelControllerName]>
             (<[LabelOriginName := name m]> (<[LabelOriginNamespace := namespace m]> (contents (labels m)))))) m in
  let m := with_identity (NodePortServicePattern (name m)) (namespace m) (uid m) m in
  with_svc_spec (with_type_selector ServiceTypeNodePort (ss_selector (svc_spec service)) (svc_spec service))
    (with_svc_meta m service).

Section apply.
Context `{SemanticDeepEqual ServiceSpec} `{SemanticDeepEqual (gomap string)}.

(** The caller's object becomes the server's when it is written. *)
Definition apply_service (obj : Service) : prog (Service * outcome unit) :=
  create_or_update_object KService (namespace (svc_meta obj)) (name (svc_meta obj)) obj
    (λ existing, semantic_deep_equal (svc_spec existing) (svc_spec obj) &&
                 semantic_deep_equal (labels (svc_meta existing)) (labels (svc_meta obj)) &&
                 semantic_deep_equal (annotations (svc_meta existing)) (annotations (svc_meta obj)))
    (λ existing, with_svc_meta (with_version (resourceVersion (svc_meta existing)) (uid (svc_meta existing))
                                  (svc_meta obj)) obj)
    "failed to get Service" "failed to create Service" "failed to update Service".
Definition CreateOrUpdateService (obj : Service) : prog (outcome unit) :=
  r ← apply_service obj; Ret r.2.

(** The first loop: services that can be used as they are, and copies to make. *)
Fixpoint collect_services (references : list NamespacedName) (services toCreate : list Service)
    : prog (outcome (list Service * list Service)) :=
  match references with
  | [] => ok (services, toCreate)
  | ref :: references =>
      r ← perform (Get KService (nn_namespace ref) (nn_name ref));
      match r with
      | inl e =>
          if IsNotFound e then collect_services references services toCreate
          else fail (Wrapf ("failed to get service " +:+ nn_namespace ref +:+ "/" +:+ nn_name ref) e)
      | inr service =>
          if decide (ss_type (svc_spec service) ≠ ServiceTypeClusterIP)
          then collect_services references (services ++ [cleanseService service false true]) toCreate
          else collect_services references services (toCreate ++ [nodeport_service service])
      end
  end.

Fixpoint apply_services (svcs : list Service) : prog (outcome unit) :=
  match svcs with
  | [] => ok ()
  | svc :: svcs =>
      _ <-["failed to create or update Service"] CreateOrUpdateService svc ;; apply_services svcs
  end.

(** The copies are read back, to learn their node ports. *)
Fixpoint fetch_services (svcs : list Service) (services : list Service) : prog (outcome (list Service)) :=
  match svcs with
  | [] => ok services
  | svc :: svcs =>
      r ← perform (Get KService (namespace (svc_meta svc)) (name (svc_meta svc)));
      match r with
      | inl e =>
          if IsNotFound e then fetch_services svcs services
          else fail (Wrapf ("failed to get service " +:+ namespace (svc_meta svc) +:+ "/" +:+ name (svc_meta svc)) e)
      | inr service => fetch_services svcs (services ++ [cleanseService service false true])
      end
  end.

Definition NormalizeAndReplicateServices (references : list NamespacedName) : prog (outcome (list Service)) :=
  found <-! collect_services references [] [] ;;
  let '(services, toCreate) := found in
  _ <-! apply_services toCreate ;;
  fetch_services toCreate services.
End apply.

(** ** In the LB cluster *)

Section generate.
Context `{Unicode} `{PortLookup}.

Definition lb_cluster_port (endpointKey : string) (port : ServicePort) : ServicePort :=
  let targetPort :=
    match portLookupFn endpointKey (EnvoyListenerPattern (sp_port port) (sp_protocol port)) with
    | (value, true) => int32 value
    | (_, false) => sp_nodePort port
    end in
  {| sp_name := sp_name port; sp_protocol := sp_protocol port; sp_port := sp_port port;
     sp_targetPort := FromInt targetPort; sp_nodePort := 0; sp_appProtocol := sp_appProtocol port |}.

(** The ports are written into the slice of the argument, which the caller keeps:
    the second component is the argument after the call. *)
Definition GenerateServiceForLBCluster (service : Service) (appName ns routeName : string)
    (globalTopology : bool) (annotationSettings : AnnotationSettings) : go (Service * Service) :=
  let endpointKey := EnvoyEndpointRoutePattern ns (namespace (svc_meta service)) (name (svc_meta service)) routeName in
  newName ← GenerateName globalTopology (uid (svc_meta service)) (GetServiceName service)
              (namespace (svc_meta service));
  let ports := lb_cluster_port endpointKey <$> ss_ports (svc_spec service) in
  let spec := svc_spec service in
  let spec' := with_ports ports
    (with_type_selector
       (if decide (ss_type spec = ServiceTypeNodePort) then ServiceTypeClusterIP else ss_type spec)
       (if globalTopology then None else Some {[ LabelAppKubernetesName := appName ]}) spec) in
  let '(a, after) := propagate (annotations (svc_meta service)) annotationSettings ResourceService in
  Done (with_svc_spec spec'
          (with_svc_meta (with_annotations (Some a) (with_identity newName ns "" (svc_meta service))) service),
        with_svc_spec (with_ports ports spec)
          (with_svc_meta (with_annotations after (svc_meta service)) service)).
End generate.

Definition GenerateBridgeService (service : Service) (appName controllerNamespace : string) : Service :=
  {| svc_type := {| apiVersion := ""; Core.kind := "" |};
     svc_meta := with_labels
       (Some (<[LabelAppKubernetesType := LabelBridgeService]>
          (AddKubeLBLabels (Some ∅) (name (svc_meta service)) (namespace (svc_meta service)) "")))
       (with_identity (name (svc_meta service)) controllerNamespace "" zero_meta);
     svc_spec := with_type_selector ServiceTypeClusterIP (Some {[ LabelAppKubernetesName := appName ]})
       (with_ports ((λ port, {| sp_name := sp_name port; sp_protocol := sp_protocol port;
                                sp_port := IntVal (sp_targetPort port); sp_targetPort := sp_targetPort port;
                                sp_nodePort := 0; sp_appProtocol := None |}) <$> ss_ports (svc_spec service))
          zero_spec);
     svc_ingress := None; svc_conditions := "" |}.

(** ** Correctness *)

(** cleanseService keeps what identifies a service and its ports, and nothing the
    API server assigned. *)
Lemma cleanseService_idempotent svc b1 b2 :
  cleanseService (cleanseService svc b1 b2) b1 b2 = cleanseService svc b1 b2.
Proof.
  unfold cleanseService. simpl. f_equal.
  - f_equal; [by destruct b1|]. destruct (annotations (svc_meta svc)); simpl; [|done].
    f_equal. apply delete_delete_eq.
  - f_equal; try (by destruct b2); by repeat case_decide.
Qed.

(** A write of a Service, as an event. *)
Definition service_write (e : event) : option Service :=
  match e with
  | existT (Create KService o) _ => Some o
  | existT (Update KService o) _ => Some o
  | _ => None
  end.

Section replicate.
Context `{SemanticDeepEqual ServiceSpec} `{SemanticDeepEqual (gomap string)}.

(** The name of a copy. *)
Definition copy_of (original : Service) (o : Service) : Prop :=
  name (svc_meta o) = NodePortServicePattern (name (svc_meta original)) ∧
  namespace (svc_meta o) = namespace (svc_meta original) ∧
  ss_type (svc_spec o) = ServiceTypeNodePort ∧
  ss_ports (svc_spec o) = ss_ports (svc_spec original) ∧
  get_str (labels (svc_meta o)) LabelOriginName = name (svc_meta original) ∧
  get_str (labels (svc_meta o)) LabelManagedBy = LabelControllerName.

Lemma nodeport_service_copy original : copy_of original (nodeport_service original).
Proof.
  unfold copy_of, nodeport_service, get_str. simpl.
  repeat split; [|by rewrite lookup_insert_eq].
  rewrite lookup_insert_ne by done. by rewrite lookup_insert_eq.
Qed.

(** [P] holds of every service written. *)
Definition only_writes (P : Service → Prop) (log : list event) : Prop :=
  Forall (λ e, ∀ o, service_write e = Some o → P o) log.

Lemma only_writes_snoc P log e :
  only_writes P log → (∀ o, service_write e = Some o → P o) → only_writes P (log ++ [e]).
Proof. intros. by apply Forall_app_2; [|constructor]. Qed.

(** A Service the API server handed out; a ClusterIP Service among those; and the
    form in which a Service is handed on. *)
Definition read_service (log : list event) (x : Service) : Prop :=
  ∃ ns n, existT (Get KService ns n) (inr x) ∈ log.
Definition seen_clusterip (log : list event) (x : Service) : Prop :=
  ss_type (svc_spec x) = ServiceTypeClusterIP ∧ read_service log x.
Definition handed_on (log : list event) (s : Service) : Prop :=
  ∃ x, read_service log x ∧ s = cleanseService x false true.
Definition to_copy (log : list event) (o : Service) : Prop :=
  ∃ x, seen_clusterip log x ∧ o = nodeport_service x.

Lemma read_service_app log l x : read_service log x → read_service (log ++ l) x.
Proof. intros (ns & n & Hin). exists ns, n. apply elem_of_app. by left. Qed.
Lemma read_service_snoc log ns n x : read_service (log ++ [existT (Get KService ns n) (inr x)]) x.
Proof. exists ns, n. apply elem_of_app. right. by apply list_elem_of_singleton. Qed.
Lemma handed_on_app log l svcs : Forall (handed_on log) svcs → Forall (handed_on (log ++ l)) svcs.
Proof.
  intros Hf. eapply list.Forall_impl; [exact Hf|]. intros s (x & Hx & ->). exists x.
  by split; [apply read_service_app|].
Qed.
Lemma to_copy_app log l svcs : Forall (to_copy log) svcs → Forall (to_copy (log ++ l)) svcs.
Proof.
  intros Hf. eapply list.Forall_impl; [exact Hf|]. intros s (x & [Ht Hx] & ->). exists x.
  split; [|done]. by split; [|apply read_service_app].
Qed.

Lemma collect_services_runs refs services toCreate log :
  only_writes (λ _, False) log → Forall (handed_on log) services → Forall (to_copy log) toCreate →
  all_runs (collect_services refs services toCreate)
    (λ log' r, only_writes (λ _, False) log' ∧ (∃ l, log' = log ++ l) ∧ ∃ o, r = Done o ∧
       ∀ svcs toC, o = inr (svcs, toC) → Forall (handed_on log') svcs ∧ Forall (to_copy log') toC) log.
Proof.
  revert services toCreate log.
  induction refs as [|ref refs IH]; intros services toCreate log Hw Hs Hc; cbn [collect_services].
  { split; [done|]. split; [exists []; by rewrite app_nil_r|]. eexists. split; [done|]. by intros svcs toC [= <- <-]. }
  apply all_runs_perform. intros a. set (ev := existT _ a : event).
  assert (only_writes (λ _, False) (log ++ [ev])) as Hw' by by apply only_writes_snoc.
  assert (∀ s c, Forall (handed_on (log ++ [ev])) s → Forall (to_copy (log ++ [ev])) c →
    all_runs (collect_services refs s c) (λ log' r, only_writes (λ _, False) log' ∧ (∃ l, log' = log ++ l) ∧ ∃ o, r = Done o ∧
       ∀ svcs toC, o = inr (svcs, toC) → Forall (handed_on log') svcs ∧ Forall (to_copy log') toC) (log ++ [ev])) as Hnext.
  { intros s c Hs' Hc'. eapply all_runs_mono; [|by apply IH]. intros log' r (H1 & [l ->] & H3).
    rewrite <- app_assoc in *. split; [done|]. split; [by eexists|done]. }
  destruct a as [e|x].
  - destruct (IsNotFound e); [apply Hnext; auto using handed_on_app, to_copy_app|].
    split; [done|]. split; [by eexists|]. by eexists.
  - destruct (decide (ss_type (svc_spec x) ≠ ServiceTypeClusterIP)) as [Ht|Ht].
    + apply Hnext; [|by apply to_copy_app]. apply Forall_app_2; [by apply handed_on_app|].
      constructor; [|constructor]. exists x. split; [apply read_service_snoc|done].
    + apply Hnext; [by apply handed_on_app|]. apply Forall_app_2; [by apply to_copy_app|].
      constructor; [|constructor]. exists x. split; [|done]. split; [|apply read_service_snoc].
      by apply dec_stable.
Qed.

Lemma apply_services_runs svcs log P :
  only_writes P log →
  Forall (λ o, ∀ rv u, P o ∧ P (with_svc_meta (with_version rv u (svc_meta o)) o)) svcs →
  all_runs (apply_services svcs) (λ log' r, only_writes P log' ∧ (∃ l, log' = log ++ l) ∧ ∃ o, r = Done o) log.
Proof.
  intros Hw Hs. revert log Hw. induction Hs as [|svc svcs Hsvc _ IH]; intros log Hw; cbn [apply_services].
  { split; [done|]. split; [exists []; by rewrite app_nil_r|]. by eexists. }
  unfold try_wrap. apply all_runs_bind.
  eapply all_runs_mono; [|apply create_or_update_runs].
  intros log' r (l & o & -> & -> & Hl).
  assert (only_writes P (log ++ l)) as Hw'.
  { apply Forall_app. split; [done|]. destruct Hl; repeat constructor; simpl; intros o' [= <-];
      first [apply (Hsvc "" "")|apply (Hsvc (resourceVersion (svc_meta x)) (uid (svc_meta x)))]. }
  destruct o as [e|[]]; [split; [done|]; split; by eexists|].
  eapply all_runs_mono; [|by apply IH]. intros log' r (H1 & [l' ->] & H3). rewrite <- app_assoc in *.
  split; [done|]. split; [by eexists|done].
Qed.

Lemma fetch_services_runs svcs services log P :
  only_writes P log → Forall (handed_on log) services →
  all_runs (fetch_services svcs services)
    (λ log' r, only_writes P log' ∧ (∃ l, log' = log ++ l) ∧ ∃ o, r = Done o ∧
       ∀ out, o = inr out → Forall (handed_on log') out) log.
Proof.
  revert services log. induction svcs as [|svc svcs IH]; intros services log Hw Hs; cbn [fetch_services].
  { split; [done|]. split; [exists []; by rewrite app_nil_r|]. eexists. split; [done|]. by intros out [= <-]. }
  apply all_runs_perform. intros a. set (ev := existT _ a : event).
  assert (only_writes P (log ++ [ev])) as Hw' by by apply only_writes_snoc.
  assert (∀ s, Forall (handed_on (log ++ [ev])) s → all_runs (fetch_services svcs s)
    (λ log' r, only_writes P log' ∧ (∃ l, log' = log ++ l) ∧ ∃ o, r = Done o ∧
       ∀ out, o = inr out → Forall (handed_on log') out) (log ++ [ev])) as Hnext.
  { intros s Hs'. eapply all_runs_mono; [|by apply IH]. intros log' r (H1 & [l ->] & H3).
    rewrite <- app_assoc in *. split; [done|]. split; [by eexists|done]. }
  destruct a as [e|x].
  - destruct (IsNotFound e); [by apply Hnext, handed_on_app|].
    split; [done|]. split; [by eexists|]. by eexists.
  - apply Hnext, Forall_app_2; [by apply handed_on_app|]. constructor; [|constructor]. exists x.
    split; [apply read_service_snoc|done].
Qed.

(** Replication only reads and writes Services. *)
Lemma NormalizeAndReplicateServices_calls (P : call → Prop) refs :
  (∀ ns n, P (Get KService ns n)) → (∀ o, P (Create KService o)) → (∀ o, P (Update KService o)) →
  only_calls P (NormalizeAndReplicateServices refs).
Proof.
  intros HG HC HU. unfold NormalizeAndReplicateServices. apply only_calls_try.
  - generalize (@nil Service) at 2. generalize (@nil Service).
    induction refs as [|ref refs IH]; intros l l'; cbn [collect_services]; solve_calls.
  - intros [services toCreate]. apply only_calls_try; [|intros []].
    + induction toCreate as [|svc toCreate IH]; cbn [apply_services]; [done|].
      unfold CreateOrUpdateService, apply_service. by solve_calls.
    + revert services. induction toCreate as [|svc toCreate IH]; intros services; cbn [fetch_services]; solve_calls.
Qed.

(** The NodePort copy of a Service that was read. *)
Definition copies (log : list event) (o : Service) : Prop :=
  ∃ original, seen_clusterip log original ∧ copy_of original o.

Lemma copies_app log l o : copies log o → copies (log ++ l) o.
Proof. intros (x & [Ht Hx] & Hc). exists x. split; [|done]. by split; [|apply read_service_app]. Qed.

Lemma replicate_runs refs log :
  only_writes (λ _, False) log →
  all_runs (NormalizeAndReplicateServices refs)
    (λ log' r, only_writes (copies log') log' ∧ (∃ l, log' = log ++ l) ∧ ∃ o, r = Done o ∧
       ∀ out, o = inr out → Forall (handed_on log') out) log.
Proof.
  intros Hw0. unfold NormalizeAndReplicateServices, try.
  assert (∀ log1 l, only_writes (copies log1) (log1 ++ l) → only_writes (copies (log1 ++ l)) (log1 ++ l)) as Hgrow.
  { intros log1 l Hw. eapply list.Forall_impl; [exact Hw|]. intros e He o Ho. by apply copies_app, He. }
  apply all_runs_bind. eapply all_runs_mono; [|by apply (collect_services_runs refs [] [] log); [|constructor..]].
  intros log1 r (Hw & [l1 ->] & o & -> & Hc).
  assert (only_writes (copies (log ++ l1)) (log ++ l1)) as Hw1.
  { eapply list.Forall_impl; [exact Hw|]. intros e He o' Ho. by destruct (He o' Ho). }
  destruct o as [e|[svcs toC]]; [split; [done|]; split; by eexists|].
  destruct (Hc svcs toC eq_refl) as [Hs Ht]. apply all_runs_bind.
  eapply all_runs_mono; [|apply (apply_services_runs toC (log ++ l1) _ Hw1)].
  - intros log2 r' (Hw2 & [l2 ->] & [o ->]). destruct o as [e|[]].
    { split; [by apply Hgrow|]. rewrite <- app_assoc. split; by eexists. }
    eapply all_runs_mono; [|apply fetch_services_runs; [exact Hw2|by apply handed_on_app]].
    intros log3 r3 (Hw3 & [l3 ->] & Hr). split.
    { rewrite <- (app_assoc (log ++ l1)) in *. by apply Hgrow. }
    split; [|done]. rewrite <- !app_assoc. by eexists.
  - eapply list.Forall_impl; [exact Ht|]. intros o (x & Hx & ->) rv u.
    split; exists x; (split; [done|]); apply nodeport_service_copy.
Qed.
End replicate.

(** Replicating the Services of a route never panics and never writes a Service
    of the tenant itself: whatever the API server answers, every Service created or
    updated is the NodePort copy, named by the original with the suffix -nodeport
    and labelled as managed by KubeLB, of a ClusterIP Service the API server handed
    out; and the Services handed on are Services it handed out, less what belongs to
    the cluster. *)
Theorem NormalizeAndReplicateServices_safe `{SemanticDeepEqual ServiceSpec} `{SemanticDeepEqual (gomap string)} refs :
  all_runs (NormalizeAndReplicateServices refs)
    (λ log r, (∃ o, r = Done o) ∧
       (∀ e o, e ∈ log → service_write e = Some o →
          ∃ original, seen_clusterip log original ∧ copy_of original o) ∧
       (∀ out s, r = Done (inr out) → s ∈ out → handed_on log s)) [].
Proof.
  eapply all_runs_mono; [|apply replicate_runs; constructor].
  intros log r (Hw & _ & o & -> & Hout). split; [by eexists|]. split.
  - intros e o' Hin. by apply (proj1 (list.Forall_forall _ _) Hw e Hin).
  - intros out s [= ->] Hs. by apply (proj1 (list.Forall_forall _ _) (Hout out eq_refl) s Hs).
Qed.
