(* ===== verification/RouteDataPath.v ===== *)
(** * The data path of a route

    The manager creates a Service for every Service a Route refers to; its target
    ports are the ports on which the Envoy snapshot listens for that Service. *)
From stdpp Require Import base gmap sets list strings pretty.
From S2P Require Import Prelude GoStrings Api Names PortAllocator PortAllocatorSpec Annotations LoadBalancers EnvoySnapshot DataPath NetApi Effects Services.
Import Core V1alpha1.

Section elements.
Context (getAddresses : string → string → error + Addresses).

Lemma route_services_resources_elem pa rt rn rk es svcs rs svc p r :
  route_services_resources pa rt rn rk es svcs = Done rs → svc ∈ svcs → p ∈ ss_ports (svc_spec svc) →
  route_port_resource pa rt rn rk es svc p = Done r → r ∈ rs.
Proof.
  intros H Hsvc Hp Hr. revert rs H. induction svcs as [|x svcs IH]; intros rs; simpl.
  { by apply elem_of_nil in Hsvc. }
  destruct (go_map _ _ _) as [rs1|] eqn:E1; simpl; [|done].
  destruct (route_services_resources _ _ _ _ _ _) as [rs2|] eqn:E2; simpl; [|done].
  intros [= <-]. apply elem_of_app. apply elem_of_cons in Hsvc as [->|Hin]; [left|right; by apply IH].
  apply go_map_Done in E1 as [_ Hall]. apply list_elem_of_lookup in Hp as [j Hj].
  destruct (Hall j p Hj) as (r' & Hr' & Hd). assert (r = r') as -> by congruence.
  by eapply list_elem_of_lookup_2.
Qed.

Lemma routes_resources_elem pa am routes rs rt source :
  routes_resources getAddresses (Some pa) am routes = Done (inr rs) → rt ∈ routes →
  rsp_kubernetes (rt_spec rt) = Some source →
  ∃ es, ∀ svc p r, svc ∈ ks_services source → p ∈ ss_ports (svc_spec svc) →
    route_port_resource (Some pa) rt (getOriginalRouteName rt) (getRouteKind rt) es svc p = Done r → r ∈ rs.
Proof.
  revert am rs. induction routes as [|rt0 routes IH]; intros am rs; simpl; [by intros _ ?%elem_of_nil|].
  intros H Hin Hsrc. apply elem_of_cons in Hin as [->|Hin].
  - rewrite Hsrc in H. destruct (resolve_all _ _ _ _) as [|[am1 es]]; [done|].
    destruct (route_services_resources _ _ _ _ _ _) as [rs1|] eqn:E1; simpl in H; [|done].
    destruct (routes_resources _ _ _ _) as [[err|rs2]|]; simpl in H; [done| |done].
    injection H as <-. exists es. intros svc p r Hsvc Hp Hr. apply elem_of_app. left.
    by eapply route_services_resources_elem.
  - destruct (rsp_kubernetes (rt_spec rt0)) as [src0|]; [|by eapply IH].
    destruct (resolve_all _ _ _ _) as [|[am1 es]]; [done|].
    destruct (route_services_resources _ _ _ _ _ _) as [rs1|]; simpl in H; [|done].
    destruct (routes_resources _ _ _ _) as [[err|rs2]|] eqn:E2; simpl in H; [done| |done].
    injection H as <-. destruct (IH am1 rs2 E2 Hin Hsrc) as [es' Hes].
    exists es'. intros svc p r Hsvc Hp Hr. apply elem_of_app. right. by eapply Hes.
Qed.
End elements.


