(* ===== verification/RouteResources.v ===== *)
(** * Ingress, Gateway, HTTPRoute and GRPCRoute (internal/resources)

    The CCM collects the Services a resource refers to ([GetServicesFrom...]); the
    manager recreates the resource in the tenant's namespace of the LB cluster with
    its references redirected to the Services created there
    ([CreateOrUpdate...]), or creates one of its own for the hostname of a load
    balancer ([Create...ForHostname]). *)
From stdpp Require Import base gmap list strings pretty.
From S2P Require Import Prelude GoStrings Api Names PortAllocator PortAllocatorSpec Annotations LoadBalancers NetApi Effects Services.
Import Core V1alpha1.

Definition ParentGatewayName : string := "kubelb".
Definition GatewayClassName : string := "kubelb".
Definition MaxGatewaysPerTenant : nat := 1.

Definition ShouldReconcileGatewayByName (gateway : Gateway) : bool :=
  bool_decide (name (gw_meta gateway) = ParentGatewayName).

(** A resource of the Gateway API, or another object. *)
Inductive gateway_resource :=
  | AGateway (g : Gateway) | AnHTTPRoute (r : HTTPRoute) | AGRPCRoute (r : GRPCRoute) | AnotherObject.

Definition ShouldReconcileResource (obj : gateway_resource) (useGatewayClass : bool) : bool :=
  match obj with
  | AGateway g =>
      if decide (name (gw_meta g) ≠ ParentGatewayName) then false
      else if decide (useGatewayClass = true ∧ gws_className (gw_spec g) ≠ GatewayClassName) then false
      else true
  | AnHTTPRoute r | AGRPCRoute r =>
      match grs_parentRefs (gr_spec r) with
      | [p] => bool_decide (pr_name p = ParentGatewayName)
      | _ => false
      end
  | AnotherObject => false
  end.

(** The build for end to end tests (helper_e2e.go) does not look at the names. *)
Module E2E.
Definition MaxGatewaysPerTenant : nat := 100.
Definition ShouldReconcileGatewayByName (gateway : Gateway) : bool := true.
Definition ShouldReconcileResource (obj : gateway_resource) (useGatewayClass : bool) : bool :=
  match obj with
  | AGateway g => if decide (useGatewayClass = true ∧ gws_className (gw_spec g) ≠ GatewayClassName) then false else true
  | AnHTTPRoute r | AGRPCRoute r => bool_decide (0 < length (grs_parentRefs (gr_spec r)))
  | AnotherObject => false
  end.
End E2E.

(** What the program reconciles, the build for tests reconciles too. *)
Lemma e2e_reconciles_more obj useGatewayClass :
  ShouldReconcileResource obj useGatewayClass = true → E2E.ShouldReconcileResource obj useGatewayClass = true.
Proof.
  destruct obj as [g|r|r|]; simpl; [by repeat case_decide| | |done];
    (destruct (grs_parentRefs (gr_spec r)) as [|p [|? ?]]; [done|by intros _|done]).
Qed.

(** ** References of Gateway API routes *)

Definition is_service_kind (k : option string) : bool :=
  match k with None => true | Some k => bool_decide (k = ServiceKind) end.

Definition service_reference (ns : string) (ref : BackendObjectReference) : NamespacedName :=
  {| nn_namespace := default ns (bor_namespace ref); nn_name := bor_name ref |}.

Definition mirror_references (ns : string) (filters : list RouteFilter) : list NamespacedName :=
  filters ≫= λ f,
    match rf_requestMirror f with
    | Some b => if is_service_kind (bor_kind b) then [service_reference ns b] else []
    | None => []
    end.

Definition rule_references (ns : string) (rule : RouteRule) : list NamespacedName :=
  mirror_references ns (rr_filters rule) ++
  (rr_backendRefs rule ≫= λ ref,
     (if is_service_kind (bor_kind (br_ref ref)) then [service_reference ns (br_ref ref)] else []) ++
     mirror_references ns (br_filters ref)).

(** The first occurrence of each entry: the loop over the map [keys]. *)
Definition remove_duplicates (l : list NamespacedName) : list NamespacedName :=
  foldl (λ acc x, if decide (x ∈ acc) then acc else acc ++ [x]) [] l.

Definition GetServicesFromHTTPRoute (httpRoute : HTTPRoute) : list NamespacedName :=
  remove_duplicates (grs_rules (gr_spec httpRoute) ≫= rule_references (namespace (gr_meta httpRoute))).

Definition GetServicesFromGRPCRoute (grpcroute : GRPCRoute) : list NamespacedName :=
  remove_duplicates (grs_rules (gr_spec grpcroute) ≫= rule_references (namespace (gr_meta grpcroute))).

Definition path_reference (ns : string) (path : HTTPIngressPath) : go NamespacedName :=
  match ib_service (hip_backend path) with
  | Some s => Done {| nn_namespace := ns; nn_name := isb_name s |}
  | None => Panics
  end.

Definition GetServicesFromIngress (ingress : Ingress) : go (list NamespacedName) :=
  let ns := namespace (in_meta ingress) in
  refs ← go_map (λ _ rule, match ir_http rule with
                           | Some paths => go_map (λ _, path_reference ns) 0 paths
                           | None => Panics
                           end) 0 (isp_rules (in_spec ingress));
  Done (remove_duplicates
    (concat refs ++
     match isp_defaultBackend (in_spec ingress) with
     | Some b => match ib_service b with
                 | Some s => [{| nn_namespace := ns; nn_name := isb_name s |}]
                 | None => []
                 end
     | None => []
     end)).

(** ** Redirecting references *)

(** The part of the metadata of a referenced Service the code uses: its original
    name, namespace and UID. *)
Definition generated_name (globalTopology : bool) (service : ObjectMeta) : go string :=
  GenerateName globalTopology (uid service) (name service) (namespace service).

Definition matches_service (ref : BackendObjectReference) (service : ObjectMeta) : bool :=
  bool_decide (bor_name ref = name service) &&
  match bor_namespace ref with None => true | Some ns => bool_decide (ns = namespace service) end.

(** Name the created Service; it lives in the namespace of the route. *)
Definition redirected (ref : BackendObjectReference) (n : string) : BackendObjectReference :=
  {| bor_kind := bor_kind ref; bor_name := n; bor_namespace := None; bor_port := bor_port ref;
     bor_rest := bor_rest ref |}.

(** The loop over the services: [ref] is a copy taken before it, so every service is
    matched against the original reference and the last match wins. *)
Definition redirect (globalTopology : bool) (services : list ObjectMeta) (ref : BackendObjectReference)
    : go BackendObjectReference :=
  go_fold (λ _ acc service,
      if matches_service ref service
      then n ← generated_name globalTopology service; Done (redirected acc n)
      else Done acc) 0 ref services.

Definition redirect_mirror (globalTopology : bool) (services : list ObjectMeta) (f : RouteFilter) : go RouteFilter :=
  match rf_requestMirror f with
  | Some b =>
      if is_service_kind (bor_kind b) then
        b' ← redirect globalTopology services b;
        Done {| rf_requestMirror := Some b'; rf_rest := rf_rest f |}
      else Done f
  | None => Done f
  end.

(** [object.Spec.Rules[i].Filters[j].RequestMirror.BackendRef.Name = n], and nil for
    the namespace: [j] is the index of a backend reference. *)
Definition set_mirror (filters : list RouteFilter) (j : nat) (n : string) : go (list RouteFilter) :=
  f ← at_index filters j;
  match rf_requestMirror f with
  | Some b => set_index filters j {| rf_requestMirror := Some (redirected b n); rf_rest := rf_rest f |}
  | None => Panics
  end.

(** The filters of the [j]-th backend reference. *)
Definition redirect_backend_filters (globalTopology : bool) (services : list ObjectMeta) (j : nat)
    (filters : list RouteFilter) (backendFilters : list RouteFilter) : go (list RouteFilter) :=
  go_fold (λ _ filters f,
      match rf_requestMirror f with
      | Some b =>
          if is_service_kind (bor_kind b) then
            go_fold (λ _ filters service,
                if matches_service b service
                then n ← generated_name globalTopology service; set_mirror filters j n
                else Done filters) 0 filters services
          else Done filters
      | None => Done filters
      end) 0 filters backendFilters.

Definition redirect_backend (globalTopology : bool) (services : list ObjectMeta) (j : nat)
    (acc : list RouteFilter * list BackendRef) (ref : BackendRef) : go (list RouteFilter * list BackendRef) :=
  let '(filters, refs) := acc in
  r ← (if is_service_kind (bor_kind (br_ref ref)) then redirect globalTopology services (br_ref ref)
       else Done (br_ref ref));
  filters ← redirect_backend_filters globalTopology services j filters (br_filters ref);
  Done (filters, refs ++ [{| br_ref := r; br_filters := br_filters ref; br_rest := br_rest ref |}]).

Definition redirect_rule (globalTopology : bool) (services : list ObjectMeta) (rule : RouteRule) : go RouteRule :=
  filters ← go_map (λ _, redirect_mirror globalTopology services) 0 (rr_filters rule);
  '(filters, refs) ← go_fold (redirect_backend globalTopology services) 0 (filters, []) (rr_backendRefs rule);
  Done {| rr_filters := filters; rr_backendRefs := refs; rr_rest := rr_rest rule |}.

Definition NormalizeParentRefs (parentRefs : list ParentReference) : list ParentReference :=
  (λ p, {| pr_name := pr_name p; pr_namespace := None; pr_rest := pr_rest p |}) <$> parentRefs.

(** Ingress paths hold a pointer to the backend, so a rewritten name is compared
    with the services that follow. *)
Definition redirect_name (globalTopology : bool) (services : list ObjectMeta) (n : string) : go string :=
  go_fold (λ _ n service, if decide (n = name service) then generated_name globalTopology service else Done n)
    0 n services.

Definition redirect_backend_service (globalTopology : bool) (services : list ObjectMeta) (b : IngressBackend)
    : go IngressBackend :=
  match ib_service b with
  | Some s =>
      n ← redirect_name globalTopology services (isb_name s);
      Done {| ib_service := Some {| isb_name := n; isb_port := isb_port s; isb_portName := isb_portName s |};
              ib_resource := ib_resource b |}
  | None => match services with [] => Done b | _ => Panics end
  end.

Definition redirect_ingress_rule (globalTopology : bool) (services : list ObjectMeta) (rule : IngressRule)
    : go IngressRule :=
  match ir_http rule with
  | None => Panics
  | Some paths =>
      paths ← go_map (λ _ path,
          b ← redirect_backend_service globalTopology services (hip_backend path);
          Done {| hip_path := hip_path path; hip_pathType := hip_pathType path; hip_backend := b |}) 0 paths;
      Done {| ir_host := ir_host rule; ir_http := Some paths |}
  end.

Definition redirect_ingress_spec (globalTopology : bool) (services : list ObjectMeta) (spec : IngressSpec)
    : go IngressSpec :=
  rules ← go_map (λ _, redirect_ingress_rule globalTopology services) 0 (isp_rules spec);
  defaultBackend ←
    match isp_defaultBackend spec with
    | Some b => match ib_service b with
                | Some _ => b ← redirect_backend_service globalTopology services b; Done (Some b)
                | None => Done (Some b)
                end
    | None => Done None
    end;
  Done {| isp_className := isp_className spec; isp_defaultBackend := defaultBackend;
          isp_tls := isp_tls spec; isp_rules := rules |}.

Definition tenant_or (a b : option string) : option string := match a with Some x => Some x | None => b end.

Definition GetSecretNameIfExists (n ns tenantNamespace : string) : prog string :=
  r ← perform (ListIn KSecret (Some tenantNamespace) {[ LabelOriginName := n; LabelOriginNamespace := ns ]});
  Ret (match r with
       | inr (s :: _) => name (sec_meta s)
       | _ => ""
       end).

(** The TLS entries, with the names of the replicated secrets. *)
Fixpoint redirect_tls (ns tenantNamespace : string) (tls : list IngressTLS) : prog (list IngressTLS) :=
  match tls with
  | [] => Ret []
  | t :: tls =>
      secretName ← GetSecretNameIfExists (itls_secretName t) ns tenantNamespace;
      rest ← redirect_tls ns tenantNamespace tls;
      Ret ({| itls_hosts := itls_hosts t;
              itls_secretName := if decide (secretName ≠ "") then secretName else itls_secretName t |} :: rest)
  end.

Fixpoint redirect_certs (ns tenantNamespace : string) (refs : list SecretObjectReference)
    : prog (list SecretObjectReference) :=
  match refs with
  | [] => Ret []
  | r :: refs =>
      secretName ← GetSecretNameIfExists (sor_name r) ns tenantNamespace;
      rest ← redirect_certs ns tenantNamespace refs;
      Ret ({| sor_name := if decide (secretName ≠ "") then secretName else sor_name r;
              sor_namespace := None; sor_rest := sor_rest r |} :: rest)
  end.

Fixpoint redirect_listeners (ns tenantNamespace : string) (ls : list GatewayListener) : prog (list GatewayListener) :=
  match ls with
  | [] => Ret []
  | l :: ls =>
      tls ← match gl_tls l with
            | Some refs => refs ← redirect_certs ns tenantNamespace refs; Ret (Some refs)
            | None => Ret None
            end;
      rest ← redirect_listeners ns tenantNamespace ls;
      Ret ({| gl_name := gl_name l; gl_tls := tls; gl_rest := gl_rest l |} :: rest)
  end.

(** ** Creating the resources in the LB cluster *)

Section create.
Context `{Unicode}.
(** [equality.Semantic.DeepEqual] on the types compared here. *)
Context `{SemanticDeepEqual (gomap string)} `{SemanticDeepEqual IngressSpec}.
Context `{SemanticDeepEqual GatewayRouteSpec} `{SemanticDeepEqual GatewaySpec}.
(** [ctrl.SetControllerReference(loadBalancer, object, scheme)] on the metadata. *)
Context (SetControllerReference : LoadBalancer → ObjectMeta → error + ObjectMeta).

(** The metadata of a recreated object: annotations, labels, generated name,
    namespace of the tenant, no UID. *)
Definition recreated_meta (globalTopology : bool) (settings : AnnotationSettings) (resource : AnnotatedResource)
    (ns : string) (m : ObjectMeta) : go ObjectMeta :=
  let a := (propagate (annotations m) settings resource).1 in
  let l := AddKubeLBLabels (labels m) (name m) (namespace m) "" in
  n ← GenerateName globalTopology (uid m) (name m) (namespace m);
  Done (with_identity n ns "" (with_labels (Some l) (with_annotations (Some a) m))).

(** The metadata sent in an update. *)
Definition merged_meta (existing desired : ObjectMeta) : ObjectMeta :=
  with_annotations (MergeAnnotations (annotations existing) (annotations desired)) desired.
Definition updated_meta (existing desired : ObjectMeta) : ObjectMeta :=
  with_version (resourceVersion existing) (uid existing) (merged_meta existing desired).

(** The metadata part of the comparison, after the annotations were merged. *)
Definition same_meta (existing desired : ObjectMeta) : bool :=
  semantic_deep_equal (labels existing) (labels desired) &&
  CompareAnnotations (annotations existing) (MergeAnnotations (annotations existing) (annotations desired)).

Definition CreateOrUpdateIngress (object : Ingress) (referencedServices : list ObjectMeta) (ns : string)
    (config : Config) (tenant : Tenant) (settings : AnnotationSettings) : prog (outcome Ingress) :=
  let globalTopology := IsGlobalTopology config in
  spec ← lift (redirect_ingress_spec globalTopology referencedServices (in_spec object));
  let className := match tenant_or (is_class (ts_ingress (tn_spec tenant))) (is_class (cs_ingress (cf_spec config))) with
                   | Some c => Some c
                   | None => isp_className spec
                   end in
  tls ← redirect_tls (namespace (in_meta object)) ns (isp_tls spec);
  m ← lift (recreated_meta globalTopology settings ResourceIngress ns (in_meta object));
  let object := with_in_meta m (with_in_spec
    {| isp_className := className; isp_defaultBackend := isp_defaultBackend spec; isp_tls := tls;
       isp_rules := isp_rules spec |} object) in
  _ <-! create_or_update KIngress ns (name m) object
    (λ existing, semantic_deep_equal (in_spec existing) (in_spec object) && same_meta (in_meta existing) m)
    (λ existing, with_in_meta (updated_meta (in_meta existing) m) object)
    "failed to get Ingress" "failed to create Ingress" "failed to update Ingress" ;;
  ok object.

(** The body shared by HTTPRoute and GRPCRoute: the two files have the same text up
    to the type. *)
Definition recreated_route (globalTopology : bool) (settings : AnnotationSettings) (resource : AnnotatedResource)
    (referencedServices : list ObjectMeta) (ns : string) (object : GatewayRoute) : go GatewayRoute :=
  rules ← go_map (λ _, redirect_rule globalTopology referencedServices) 0 (grs_rules (gr_spec object));
  m ← recreated_meta globalTopology settings resource ns (gr_meta object);
  Done (with_gr_meta m (with_gr_spec
    {| grs_parentRefs := NormalizeParentRefs (grs_parentRefs (gr_spec object));
       grs_hostnames := grs_hostnames (gr_spec object); grs_rules := rules |} object)).

Definition same_route (desired existing : GatewayRoute) : bool :=
  semantic_deep_equal (gr_spec existing) (gr_spec desired) && same_meta (gr_meta existing) (gr_meta desired).
Definition updated_route (desired existing : GatewayRoute) : GatewayRoute :=
  with_gr_meta (updated_meta (gr_meta existing) (gr_meta desired)) desired.

Definition CreateOrUpdateHTTPRoute (object : HTTPRoute) (referencedServices : list ObjectMeta) (ns : string)
    (settings : AnnotationSettings) (globalTopology : bool) : prog (outcome HTTPRoute) :=
  object ← lift (recreated_route globalTopology settings ResourceHTTPRoute referencedServices ns object);
  _ <-! create_or_update KHTTPRoute ns (name (gr_meta object)) object (same_route object) (updated_route object)
    "failed to get HTTPRoute" "failed to create HTTPRoute" "failed to update HTTPRoute" ;;
  ok object.

Definition CreateOrUpdateGRPCRoute (object : GRPCRoute) (referencedServices : list ObjectMeta) (ns : string)
    (settings : AnnotationSettings) (globalTopology : bool) : prog (outcome GRPCRoute) :=
  object ← lift (recreated_route globalTopology settings ResourceGRPCRoute referencedServices ns object);
  _ <-! create_or_update KGRPCRoute ns (name (gr_meta object)) object (same_route object) (updated_route object)
    "failed to get GRPCRoute" "failed to create GRPCRoute" "failed to update GRPCRoute" ;;
  ok object.

(** A Gateway keeps its name; one Gateway per tenant. *)
Definition CreateOrUpdateGateway (object : Gateway) (ns : string) (config : Config) (tenant : Tenant)
    (settings : AnnotationSettings) : prog (outcome Gateway) :=
  let gatewayClassName := tenant_or (ga_class (ts_gatewayAPI (tn_spec tenant))) (ga_class (cs_gatewayAPI (cf_spec config))) in
  gateways <-["failed to list Gateways"] perform (ListIn KGateway (Some ns) ∅) ;;
  let found := existsb (λ g, bool_decide (name (gw_meta g) = name (gw_meta object))) gateways in
  if negb found && bool_decide (MaxGatewaysPerTenant ≤ length gateways) then
    fail (Errorf "maximum of 1 Gateway object(s) per tenant is supported")
  else
    let m := gw_meta object in
    let a := (propagate (annotations m) settings ResourceGateway).1 in
    listeners ← redirect_listeners (namespace m) ns (gws_listeners (gw_spec object));
    let l := AddKubeLBLabels (labels m) (name m) (namespace m) "" in
    let m := with_identity (name m) ns "" (with_labels (Some l) (with_annotations (Some a) m)) in
    let object := with_gw_meta m (with_gw_spec
      {| gws_className := default (gws_className (gw_spec object)) gatewayClassName;
         gws_listeners := listeners; gws_rest := gws_rest (gw_spec object) |} object) in
    _ <-! create_or_update KGateway ns (name m) object
      (λ existing, semantic_deep_equal (gw_spec existing) (gw_spec object) && same_meta (gw_meta existing) m)
      (λ existing, with_gw_meta (updated_meta (gw_meta existing) m) object)
      "failed to get Gateway" "failed to create Gateway" "failed to update Gateway" ;;
    ok object.

(** ** The resource for the hostname of a load balancer *)

Definition hostname_meta (lb : LoadBalancer) (n : string) (a : gmap string string) : ObjectMeta :=
  {| name := n; namespace := namespace (lb_meta lb); uid := ""; resourceVersion := "";
     labels := Some {[ LabelLoadBalancerName := name (lb_meta lb);
                       LabelLoadBalancerNamespace := namespace (lb_meta lb) ]};
     annotations := Some a; finalizers := []; deletionTimestamp := None; ownerReferences := [] |}.

(** What is kept of the existing object: everything but spec, labels, annotations. *)
Definition replaced_meta (existing desired : ObjectMeta) : ObjectMeta :=
  with_annotations (MergeAnnotations (annotations existing) (annotations desired))
    (with_labels (labels desired) existing).

Definition hostname_ingress_spec (n svcName hostname : string) (class : option string) (port : Z) : IngressSpec :=
  {| isp_className := class; isp_defaultBackend := None;
     isp_tls := [{| itls_hosts := [hostname]; itls_secretName := n +:+ "-tls" |}];
     isp_rules := [{| ir_host := hostname;
                      ir_http := Some [{| hip_path := "/"; hip_pathType := Some "Prefix";
                                          hip_backend := {| ib_service := Some {| isb_name := svcName; isb_port := port; isb_portName := "" |};
                                                            ib_resource := None |} |}] |}] |}.

Definition CreateIngressForHostname (loadBalancer : LoadBalancer) (svcName hostname : string) (tenant : Tenant)
    (config : Config) (settings : AnnotationSettings) : prog (outcome unit) :=
  let ingressName := name (lb_meta loadBalancer) +:+ "-ingress" in
  let ns := namespace (lb_meta loadBalancer) in
  let ingressClass := tenant_or (is_class (ts_ingress (tn_spec tenant))) (is_class (cs_ingress (cf_spec config))) in
  port ← lift (at_index (ls_ports (lb_spec loadBalancer)) 0);
  let a := (propagate (annotations (lb_meta loadBalancer)) settings ResourceIngress).1 in
  let m := hostname_meta loadBalancer ingressName (add_dns a tenant config hostname false) in
  let spec := hostname_ingress_spec ingressName svcName hostname ingressClass (lp_port port) in
  match SetControllerReference loadBalancer m with
  | inl e => fail (Wrapf "failed to set controller reference" e)
  | inr m =>
      create_or_update KIngress ns ingressName
        {| in_type := {| apiVersion := ""; Core.kind := "" |}; in_meta := m; in_spec := spec; in_status := "" |}
        (λ existing, semantic_deep_equal (in_spec existing) spec && same_meta (in_meta existing) m)
        (λ existing, with_in_spec spec (with_in_meta (replaced_meta (in_meta existing) m) existing))
        "failed to get ingress" "failed to create ingress" "failed to update ingress"
  end.

Definition default_parent (tenant : Tenant) (config : Config) : option ParentReference :=
  let to_ref (g : ObjectReference) :=
    {| pr_name := ref_name g;
       pr_namespace := if decide (ref_namespace g ≠ "") then Some (ref_namespace g) else None;
       pr_rest := "" |} in
  match ga_defaultGateway (ts_gatewayAPI (tn_spec tenant)) with
  | Some g => Some (to_ref g)
  | None => match ga_defaultGateway (cs_gatewayAPI (cf_spec config)) with
            | Some g => Some (to_ref g)
            | None => None
            end
  end.

Definition hostname_route_spec (parent : ParentReference) (svcName hostname : string) (port : Z) : GatewayRouteSpec :=
  {| grs_parentRefs := [parent]; grs_hostnames := [hostname];
     grs_rules := [{| rr_filters := [];
                      rr_backendRefs := [{| br_ref := {| bor_kind := Some "Service"; bor_name := svcName;
                                                         bor_namespace := None; bor_port := Some port; bor_rest := "" |};
                                            br_filters := []; br_rest := "" |}];
                      rr_rest := "" |}] |}.

Definition CreateHTTPRouteForHostname (loadBalancer : LoadBalancer) (svcName hostname : string) (tenant : Tenant)
    (config : Config) (settings : AnnotationSettings) : prog (outcome unit) :=
  match default_parent tenant config with
  | None => fail (Errorf "no default gateway specified for tenant or config")
  | Some parentRef =>
      let httpRouteName := name (lb_meta loadBalancer) +:+ "-httproute" in
      let ns := namespace (lb_meta loadBalancer) in
      port ← lift (at_index (ls_ports (lb_spec loadBalancer)) 0);
      let a := (propagate (annotations (lb_meta loadBalancer)) settings ResourceHTTPRoute).1 in
      let m := hostname_meta loadBalancer httpRouteName (add_dns a tenant config hostname true) in
      let spec := hostname_route_spec parentRef svcName hostname (lp_port port) in
      match SetControllerReference loadBalancer m with
      | inl e => fail (Wrapf "failed to set controller reference" e)
      | inr m =>
          create_or_update KHTTPRoute ns httpRouteName
            {| gr_type := {| apiVersion := ""; Core.kind := "" |}; gr_meta := m; gr_spec := spec; gr_status := "" |}
            (λ existing, semantic_deep_equal (gr_spec existing) spec && same_meta (gr_meta existing) m)
            (λ existing, with_gr_spec spec (with_gr_meta (replaced_meta (gr_meta existing) m) existing))
            "failed to get httproute" "failed to create httproute" "failed to update httproute"
      end
  end.
End create.

(** ** References are collected once *)

Lemma remove_duplicates_spec l :
  base.NoDup (remove_duplicates l) ∧ ∀ x, x ∈ remove_duplicates l ↔ x ∈ l.
Proof.
  unfold remove_duplicates.
  assert (∀ acc, base.NoDup acc →
    base.NoDup (foldl (λ acc x, if decide (x ∈ acc) then acc else acc ++ [x]) acc l) ∧
    ∀ x, x ∈ foldl (λ acc x, if decide (x ∈ acc) then acc else acc ++ [x]) acc l ↔ x ∈ acc ∨ x ∈ l) as H.
  { induction l as [|y l IH]; intros acc Hacc; simpl.
    - split; [done|]. intros x. rewrite elem_of_nil. tauto.
    - destruct (decide (y ∈ acc)) as [Hy|Hy].
      + destruct (IH acc Hacc) as [H1 H2]. split; [done|]. intros x. rewrite H2, elem_of_cons. naive_solver.
      + destruct (IH (acc ++ [y])) as [H1 H2].
        { apply NoDup_app. split; [done|]. split; [|apply NoDup_singleton].
          intros x Hx ->%list_elem_of_singleton. done. }
        split; [done|]. intros x. rewrite H2, elem_of_app, list_elem_of_singleton, elem_of_cons. tauto. }
  destruct (H []) as [H1 H2]; [apply list.NoDup_nil; exact I|]. split; [done|].
  intros x. rewrite H2, elem_of_nil. tauto.
Qed.

(** [ref] is a reference of the route: a backend, or the target of a mirror filter
    of a rule or of a backend. *)
Definition refers_to (r : GatewayRoute) (ref : BackendObjectReference) : Prop :=
  ∃ rule, rule ∈ grs_rules (gr_spec r) ∧
    ((∃ f, f ∈ rr_filters rule ∧ rf_requestMirror f = Some ref) ∨
     (∃ b, b ∈ rr_backendRefs rule ∧
        (br_ref b = ref ∨ ∃ f, f ∈ br_filters b ∧ rf_requestMirror f = Some ref))).

Lemma elem_of_mirror_references ns fs x :
  x ∈ mirror_references ns fs ↔
  ∃ f ref, f ∈ fs ∧ rf_requestMirror f = Some ref ∧ is_service_kind (bor_kind ref) = true ∧
           x = service_reference ns ref.
Proof.
  unfold mirror_references. rewrite list_elem_of_bind. split.
  - intros (f & Hx & Hf). destruct (rf_requestMirror f) as [ref|] eqn:E; [|by apply elem_of_nil in Hx].
    destruct (is_service_kind (bor_kind ref)) eqn:Ek; [|by apply elem_of_nil in Hx].
    apply list_elem_of_singleton in Hx as ->. eauto 10.
  - intros (f & ref & Hf & E & Ek & ->). exists f. rewrite E, Ek. split; [|done].
    by apply list_elem_of_singleton.
Qed.

Lemma elem_of_rule_references ns rule x :
  x ∈ rule_references ns rule ↔
  ∃ ref, ((∃ f, f ∈ rr_filters rule ∧ rf_requestMirror f = Some ref) ∨
          (∃ b, b ∈ rr_backendRefs rule ∧
             (br_ref b = ref ∨ ∃ f, f ∈ br_filters b ∧ rf_requestMirror f = Some ref))) ∧
         is_service_kind (bor_kind ref) = true ∧ x = service_reference ns ref.
Proof.
  unfold rule_references. rewrite elem_of_app, elem_of_mirror_references, list_elem_of_bind.
  setoid_rewrite elem_of_app. setoid_rewrite elem_of_mirror_references. split.
  - intros [(f & ref & ? & ? & ? & ->)|(b & [Hx|(f & ref & ? & ? & ? & ->)] & Hb)].
    + exists ref. eauto 10.
    + destruct (is_service_kind (bor_kind (br_ref b))) eqn:Ek; [|by apply elem_of_nil in Hx].
      apply list_elem_of_singleton in Hx as ->. exists (br_ref b). eauto 10.
    + exists ref. split; [right; exists b; eauto 10|done].
  - intros (ref & [(f & ? & ?)|(b & Hb & [<-|(f & ? & ?)])] & Ek & ->).
    + left. eauto 10.
    + right. exists b. split; [left|done]. rewrite Ek. by apply list_elem_of_singleton.
    + right. exists b. split; [right; eauto 10|done].
Qed.

(** The Services of an HTTPRoute are exactly the targets of its backends and of
    the mirror filters of its rules and backends that are Services, in the route's
    namespace where they name none, each listed once. *)
Theorem GetServicesFromHTTPRoute_spec r :
  base.NoDup (GetServicesFromHTTPRoute r) ∧
  ∀ x, x ∈ GetServicesFromHTTPRoute r ↔
    ∃ ref, refers_to r ref ∧ is_service_kind (bor_kind ref) = true ∧
           x = service_reference (namespace (gr_meta r)) ref.
Proof.
  unfold GetServicesFromHTTPRoute.
  destruct (remove_duplicates_spec
    (grs_rules (gr_spec r) ≫= rule_references (namespace (gr_meta r)))) as [Hnd Hel].
  split; [done|]. intros x. rewrite Hel, list_elem_of_bind.
  setoid_rewrite elem_of_rule_references. unfold refers_to. split.
  - intros (rule & (ref & Hr & Hk & ->) & Hrule). exists ref. eauto 10.
  - intros (ref & (rule & Hrule & Hr) & Hk & ->). exists rule. eauto 10.
Qed.

(** ** References are redirected to the created Services *)

Lemma redirect_loop g svcs ref acc i ref' :
  go_fold (λ _ acc service,
      if matches_service ref service
      then n ← generated_name g service; Done (redirected acc n) else Done acc) i acc svcs = Done ref' →
  (ref' = acc ∧ Forall (λ s, matches_service ref s = false) svcs) ∨
  (∃ s n, s ∈ svcs ∧ matches_service ref s = true ∧ generated_name g s = Done n ∧ ref' = redirected acc n).
Proof.
  revert i acc. induction svcs as [|s svcs IH]; intros i acc; simpl; [intros [= <-]; auto|].
  destruct (matches_service ref s) eqn:Hm; simpl.
  - destruct (generated_name g s) as [n|] eqn:Hn; simpl; [|done].
    intros [[-> _]|(s' & n' & ? & ? & ? & ->)]%IH; right.
    + exists s, n. rewrite elem_of_cons. auto.
    + exists s', n'. rewrite elem_of_cons. destruct acc; simpl. auto 10.
  - intros [[-> Hf]|(s' & n' & ? & ? & ? & ->)]%IH; [left|right]; [by auto|].
    exists s', n'. rewrite elem_of_cons. auto 10.
Qed.

Lemma redirect_unique g svcs ref ref' s :
  redirect g svcs ref = Done ref' → s ∈ svcs → matches_service ref s = true →
  (∀ s', s' ∈ svcs → matches_service ref s' = true → s' = s) →
  ∃ n, generated_name g s = Done n ∧ ref' = redirected ref n.
Proof.
  intros H Hs Hm Huniq. apply redirect_loop in H as [[_ Hf]|(s' & n & Hs' & Hm' & Hn & ->)].
  - pose proof (proj1 (list.Forall_forall _ _) Hf s Hs). congruence.
  - rewrite (Huniq s' Hs' Hm') in Hn. eauto.
Qed.

(** The metadata manageRoutes makes of the Services of a route. *)
Definition referenced_meta (svc : Service) : ObjectMeta :=
  with_identity (GetServiceName svc) (namespace (svc_meta svc)) (uid (svc_meta svc)) zero_meta.

(** A reference of a route that matches one Service of the route is redirected
    to the Service the manager generates for it: same name, and no namespace, since
    both live in the namespace of the tenant.  A reference that matches none is left
    as it is. *)
Theorem redirect_resolves `{Unicode} `{PortLookup} g services ref ref' :
  redirect g (referenced_meta <$> services) ref = Done ref' →
  (∀ svc gen after app ns rn settings,
     svc ∈ services → matches_service ref (referenced_meta svc) = true →
     (∀ svc', svc' ∈ services → matches_service ref (referenced_meta svc') = true →
        referenced_meta svc' = referenced_meta svc) →
     GenerateServiceForLBCluster svc app ns rn g settings = Done (gen, after) →
     bor_name ref' = name (svc_meta gen) ∧ bor_namespace ref' = None) ∧
  ((∀ svc, svc ∈ services → matches_service ref (referenced_meta svc) = false) → ref' = ref).
Proof.
  intros Hr. split.
  - intros svc gen after app ns rn settings Hsvc Hm Huniq Hgen.
    destruct (redirect_unique g _ ref ref' (referenced_meta svc) Hr) as (n & Hn & ->).
    + apply list_elem_of_fmap. eauto.
    + done.
    + intros s' (svc' & -> & Hin)%list_elem_of_fmap Hm'. by apply Huniq.
    + unfold GenerateServiceForLBCluster in Hgen. unfold generated_name in Hn. simpl in Hn.
      rewrite Hn in Hgen. simpl in Hgen. injection Hgen as <- _. done.
  - intros Hnone. apply redirect_loop in Hr as [[-> _]|(s & n & Hs & Hm & _)]; [done|].
    apply list_elem_of_fmap in Hs as (svc & -> & Hin). rewrite Hnone in Hm by done. done.
Qed.

Definition sample_ref (ns : option string) (n : string) : BackendObjectReference :=
  {| bor_kind := Some "Service"; bor_name := n; bor_namespace := ns; bor_port := Some 80%Z; bor_rest := "" |}.

Definition no_ports : PortLookup := λ _ _, ((-1)%Z, false).

Lemma redirect_resolves_witness :
  let services := [sample_service "shop" "front" 80; sample_service "shop" "api" 8443] in
  ∃ ref' gen after,
    redirect true (referenced_meta <$> services) (sample_ref None "api") = Done ref' ∧
    GenerateServiceForLBCluster (H := no_unicode) (H0 := no_ports) (sample_service "shop" "api" 8443)
      "envoy" "tenant-a" "web" true no_annotation_settings = Done (gen, after) ∧
    bor_name ref' = name (svc_meta gen) ∧ bor_namespace ref' = None.
Proof.
  intros services.
  destruct (redirect true (referenced_meta <$> services) (sample_ref None "api")) as [ref'|] eqn:Er;
    [|by vm_compute in Er].
  destruct (GenerateServiceForLBCluster (H := no_unicode) (H0 := no_ports) (sample_service "shop" "api" 8443)
      "envoy" "tenant-a" "web" true no_annotation_settings) as [[gen after]|] eqn:Eg; [|by vm_compute in Eg].
  exists ref', gen, after. split; [reflexivity|]. split; [reflexivity|].
  destruct (redirect_resolves (H := no_unicode) (H0 := no_ports) true services (sample_ref None "api") ref' Er)
    as [H1 _].
  apply (H1 (sample_service "shop" "api" 8443) gen after "envoy" "tenant-a" "web" no_annotation_settings).
  - apply elem_of_cons. right. apply list_elem_of_singleton. reflexivity.
  - reflexivity.
  - intros svc [->|[->|H]%elem_of_cons]%elem_of_cons; [discriminate|reflexivity|by apply elem_of_nil in H].
  - exact Eg.
Defined.

(** ** Mirror filters of backends *)

(** Does a filter of the backend mirror to one of the services? *)
Definition mirrors (services : list ObjectMeta) (b : BackendRef) : Prop :=
  ∃ f ref s, f ∈ br_filters b ∧ rf_requestMirror f = Some ref ∧ is_service_kind (bor_kind ref) = true ∧
             s ∈ services ∧ matches_service ref s = true.

Lemma set_mirror_nil j n : set_mirror [] j n = Panics.
Proof. done. Qed.

Lemma redirect_backend_filters_nil g services j i bfs fs :
  go_fold (λ _ filters f,
      match rf_requestMirror f with
      | Some b =>
          if is_service_kind (bor_kind b) then
            go_fold (λ _ filters service,
                if matches_service b service
                then n ← generated_name g service; set_mirror filters j n
                else Done filters) 0 filters services
          else Done filters
      | None => Done filters
      end) i [] bfs = Done fs →
  fs = [] ∧ ∀ f ref s, f ∈ bfs → rf_requestMirror f = Some ref → is_service_kind (bor_kind ref) = true →
    s ∈ services → matches_service ref s = false.
Proof.
  assert (∀ ref i fs, go_fold (λ _ filters service,
      if matches_service ref service then n ← generated_name g service; set_mirror filters j n
      else Done filters) i [] services = Done fs →
    fs = [] ∧ ∀ s, s ∈ services → matches_service ref s = false) as Hin.
  { intros ref. induction services as [|s services IH]; intros i0 fs0; simpl.
    { intros [= <-]. split; [done|]. by intros s ?%elem_of_nil. }
    destruct (matches_service ref s) eqn:Hm; simpl.
    - by destruct (generated_name g s).
    - intros [-> H]%IH. split; [done|]. by intros s' [->|?]%elem_of_cons; [|apply H]. }
  revert i fs. induction bfs as [|f bfs IH]; intros i fs; simpl.
  { intros [= <-]. split; [done|]. by intros ? ? ? ?%elem_of_nil. }
  destruct (rf_requestMirror f) as [ref|] eqn:Ef; [destruct (is_service_kind (bor_kind ref)) eqn:Ek|]; simpl.
  - destruct (go_fold _ 0 [] services) as [fs'|] eqn:Es; simpl; [|done].
    apply Hin in Es as [-> Hs]. intros [-> H]%IH. split; [done|].
    intros f' ref' s [->|?]%elem_of_cons; [intros [= <-]%(eq_trans (eq_sym Ef)) _; apply Hs|by apply H].
  - intros [-> H]%IH. split; [done|]. intros f' ref' s [->|?]%elem_of_cons; [congruence|by apply H].
  - intros [-> H]%IH. split; [done|]. intros f' ref' s [->|?]%elem_of_cons; [congruence|by apply H].
Qed.

Lemma redirect_backends_nil g services i refs acc fs refs' :
  go_fold (redirect_backend g services) i ([], acc) refs = Done (fs, refs') →
  ∀ b, b ∈ refs → ¬ mirrors services b.
Proof.
  revert i acc. induction refs as [|b refs IH]; intros i acc; simpl; [by intros _ b ?%elem_of_nil|].
  destruct (if is_service_kind (bor_kind (br_ref b)) then _ else _) as [r|]; simpl; [|done].
  destruct (redirect_backend_filters g services i [] (br_filters b)) as [fs'|] eqn:E; simpl; [|done].
  apply redirect_backend_filters_nil in E as [-> Hno]. intros H b' [->|Hb]%elem_of_cons; [|exact (IH _ _ H b' Hb)].
  intros (f & ref & s & Hf & Er & Ek & Hs & Hm). by rewrite (Hno f ref s) in Hm.
Qed.

(** the rewriting of mirror filters that belong to a backend writes into the
    filters of the rule, at the index of the backend: for a rule without filters of
    its own, a backend with a filter that mirrors to one of the route's Services
    makes the reconciliation of the route panic, for HTTPRoute and GRPCRoute alike. *)
Theorem backend_mirror_panics `{Unicode} g settings resource services ns object rule b :
  rule ∈ grs_rules (gr_spec object) → rr_filters rule = [] → b ∈ rr_backendRefs rule → mirrors services b →
  recreated_route g settings resource services ns object = Panics.
Proof.
  intros Hrule Hnil Hb Hm. unfold recreated_route.
  assert (redirect_rule g services rule = Panics) as Hp.
  { unfold redirect_rule. rewrite Hnil. simpl.
    destruct (go_fold _ 0 ([], []) _) as [[fs refs]|] eqn:E; simpl; [|done].
    by destruct (redirect_backends_nil _ _ _ _ _ _ _ E b Hb). }
  enough (∀ i, go_map (λ _, redirect_rule g services) i (grs_rules (gr_spec object)) = Panics) as ->; [done|].
  clear Hnil Hb Hm. induction Hrule as [x rules|x r rules Hin IH]; intros i; cbn [go_map]; [by rewrite Hp|].
  rewrite IH by done. by destruct (redirect_rule g services r).
Qed.

Definition mirror_route (fs : list RouteFilter) : HTTPRoute :=
  {| gr_type := {| apiVersion := "gateway.networking.k8s.io/v1"; Core.kind := "HTTPRoute" |};
     gr_meta := with_identity "web" "shop" "uid-0001" zero_meta;
     gr_spec := {| grs_parentRefs := []; grs_hostnames := [];
                   grs_rules := [{| rr_filters := [];
                                    rr_backendRefs := [{| br_ref := sample_ref None "front"; br_filters := fs;
                                                          br_rest := "" |}];
                                    rr_rest := "" |}] |};
     gr_status := "" |}.

Lemma backend_mirror_panics_witness :
  recreated_route (H := no_unicode) false no_annotation_settings ResourceHTTPRoute
    (referenced_meta <$> [sample_service "shop" "front" 80; sample_service "shop" "api" 8443]) "tenant-a"
    (mirror_route [{| rf_requestMirror := Some (sample_ref None "api"); rf_rest := "" |}]) = Panics.
Proof.
  eapply (backend_mirror_panics (H := no_unicode)).
  - apply list_elem_of_singleton. reflexivity.
  - reflexivity.
  - apply list_elem_of_singleton. reflexivity.
  - eexists _, _, (referenced_meta (sample_service "shop" "api" 8443)).
    split; [apply list_elem_of_singleton; reflexivity|]. split; [reflexivity|]. split; [reflexivity|].
    split; [|reflexivity]. right. left.
Defined.

(** ** References without a namespace *)

(** a reference without a namespace means the route's own namespace, but the
    rewriting does not know it: the last Service of that name wins, whatever its
    namespace, so with same-named Services of two namespaces in the route (one of
    them referenced explicitly) the reference can be redirected to the wrong one. *)
Theorem redirect_last_wins g services s n ref ref' :
  redirect g (services ++ [s]) ref = Done ref' →
  bor_name ref = name s → bor_namespace ref = None → generated_name g s = Done n →
  bor_name ref' = n.
Proof.
  unfold redirect. intros Hr Hn Hns Hg.
  assert (∀ i acc, go_fold (λ _ acc service,
      if matches_service ref service then n ← generated_name g service; Done (redirected acc n)
      else Done acc) i acc (services ++ [s]) = Done ref' → bor_name ref' = n) as H; [|by eapply H].
  clear Hr. induction services as [|x services IH]; intros i acc; simpl.
  - unfold matches_service. rewrite Hns, Hn, bool_decide_true by done. simpl. rewrite Hg. simpl.
    by intros [= <-].
  - destruct (matches_service ref x); simpl; [destruct (generated_name g x); simpl; [|done]|]; apply IH.
Qed.

Lemma redirect_last_wins_witness :
  let services := referenced_meta <$> [sample_service "shop" "api" 80] in
  let other := referenced_meta (sample_service "legacy" "api" 80) in
  ∃ ref', redirect false (services ++ [other]) (sample_ref None "api") = Done ref' ∧
          bor_name ref' = "legacy-api".
Proof.
  intros services other. eexists. split; [reflexivity|].
  eapply (redirect_last_wins false services other _ (sample_ref None "api")); reflexivity.
Defined.

(** ** One update is enough *)

(** What the server answers when it has the route. *)
Definition got_route (e : event) : option GatewayRoute :=
  match e with
  | existT (Get KHTTPRoute _ _) (inr o) => Some o
  | existT (Get KGRPCRoute _ _) (inr o) => Some o
  | _ => None
  end.

(** What a create or an update of [desired] leaves behind: the object as sent. *)
Definition left_by `{SemanticDeepEqual (gomap string)} (desired stored : GatewayRoute) : Prop :=
  stored = desired ∨ ∃ existing, stored = updated_route desired existing.

Lemma same_meta_updated `{SemanticMaps} existing desired :
  same_meta (updated_meta existing desired) desired = true ∧
  (annotations desired ≠ None → same_meta desired desired = true).
Proof.
  unfold same_meta, updated_meta, merged_meta. simpl.
  assert (semantic_deep_equal (labels desired) (labels desired) = true) as -> by by apply semantic_maps.
  split; [apply MergeAnnotations_converges|]. intros Ha. simpl.
  rewrite MergeAnnotations_same by by destruct (annotations desired).
  by apply CompareAnnotations_iff.
Qed.

(** Recreating a route converges: when the LB cluster has the route exactly as
    a previous reconciliation created or updated it, the next one with the same
    inputs reads it, finds no difference and writes nothing. *)
Theorem CreateOrUpdateHTTPRoute_converges `{Unicode} `{SemanticMaps} `{SemanticDeepEqual GatewayRouteSpec}
    object services ns settings g desired stored :
  (∀ s : GatewayRouteSpec, semantic_deep_equal s s = true) →
  recreated_route g settings ResourceHTTPRoute services ns object = Done desired →
  left_by desired stored →
  all_runs (CreateOrUpdateHTTPRoute object services ns settings g)
    (λ log r, ∀ e, head log = Some e → got_route e = Some stored → log = [e] ∧ r = Done (inr desired)) [].
Proof.
  intros Hrefl Hd Hl.
  assert (same_route desired stored = true) as Hsame.
  { unfold same_route. destruct Hl as [->|[existing ->]]; simpl; rewrite Hrefl; simpl.
    - apply (same_meta_updated (gr_meta desired) (gr_meta desired)).
      unfold recreated_route in Hd. destruct (go_map _ _ _); simpl in Hd; [|done].
      unfold recreated_meta in Hd. destruct (GenerateName _ _ _ _); simpl in Hd; [|done].
      by injection Hd as <-.
    - apply same_meta_updated. }
  unfold CreateOrUpdateHTTPRoute. rewrite Hd. simpl.
  intros [e|x]; simpl.
  - destruct (IsNotFound e); simpl; [|by intros ? [= <-]].
    by intros [e'|o] ? [= <-].
  - destruct (same_route desired x) eqn:Ex; simpl; [by intros ? [= <-]|].
    intros [e'|o] ? [= <-] [= ->]; congruence.
Qed.

Definition spec_equality : SemanticDeepEqual GatewayRouteSpec := λ a b, bool_decide (a = b).

Lemma CreateOrUpdateHTTPRoute_converges_witness :
  let services := referenced_meta <$> [sample_service "shop" "front" 80] in
  let g := recreated_route (H := no_unicode) false no_annotation_settings ResourceHTTPRoute services "tenant-a"
             (mirror_route []) in
  ∃ desired, g = Done desired ∧
    all_runs (CreateOrUpdateHTTPRoute (H := no_unicode) (H0 := semantic_by_contents) (H2 := spec_equality)
                (mirror_route []) services "tenant-a" no_annotation_settings false)
      (λ log r, ∀ e, head log = Some e → got_route e = Some desired → log = [e] ∧ r = Done (inr desired)) [].
Proof.
  intros services g. assert (is_done g = true) as Hg by (vm_compute; reflexivity).
  destruct g as [desired|] eqn:Eg; [|inversion Hg].
  exists desired. split; [reflexivity|].
  apply (CreateOrUpdateHTTPRoute_converges (H := no_unicode) (H0 := semantic_by_contents)
    (H1 := semantic_by_contents_maps) (H2 := spec_equality)
    (mirror_route []) services "tenant-a" no_annotation_settings false desired desired).
  - intros s. apply bool_decide_eq_true. reflexivity.
  - exact Eg.
  - left. reflexivity.
Defined.
