(* ===== verification/LBController.v ===== *)
(** * The LoadBalancer controller of the manager

    internal/controllers/kubelb/loadbalancer_controller.go and shared.go, and the
    event filters of internal/controllers/utils.go.  [Reconcile] is the whole
    handler: it allocates ports, applies the Service of a LoadBalancer, gives it a
    hostname and writes its status; [cleanup] releases everything again.  Logging,
    metrics and the wiring of the watches are left out. *)
From Stdlib Require Import Ascii.
From stdpp Require Import base gmap list strings pretty sorting.
From S2P Require Import Prelude GoStrings Api Names PortAllocator PortAllocatorSpec Annotations GoSort LoadBalancers Hostname NetApi Effects Guards Services RouteResources.
Import Core V1alpha1.

(** ** Shared by the controllers of the manager *)

Definition CleanupFinalizer : string := "kubelb.k8c.io/cleanup".
Definition envoyProxyCleanupFinalizer : string := "kubelb.k8c.io/cleanup-envoy-proxy".
Definition hostnameCleanupFinalizer : string := "kubelb.k8c.io/cleanup-hostname".
Definition EnvoyGlobalCache : string := "global".
Definition DefaultConfigResourceName : string := "default".

(** ["envoy-%s"], ["envoy-%s-%s"], ["tenant-%s"] *)
Definition envoyResourcePattern (n : string) : string := "envoy-" +:+ n.
Definition envoyGlobalTopologyServicePattern (ns n : string) : string := "envoy-" +:+ ns +:+ "-" +:+ n.
Definition tenantNamespacePattern (n : string) : string := "tenant-" +:+ n.

Definition RemoveTenantPrefix (ns : string) : string :=
  if HasPrefix ns "tenant-" then TrimPrefix ns "tenant-" else ns.

(** Name of the snapshot and of the application (they coincide). *)
Definition envoySnapshotAndAppName (topology : string) (req : NamespacedName) : string * string :=
  if decide (topology = EnvoyProxyTopologyShared) then (nn_namespace req, nn_namespace req)
  else if decide (topology = EnvoyProxyTopologyGlobal) then (EnvoyGlobalCache, EnvoyGlobalCache)
  else ("", "").

Definition envoyApplicationName (topology ns : string) : string :=
  if decide (topology = EnvoyProxyTopologyShared) then ns
  else if decide (topology = EnvoyProxyTopologyGlobal) then EnvoyGlobalCache
  else "".

Definition GetTenant (tenantName : string) : prog (outcome Tenant) := perform (Get KTenant "" tenantName).
Definition GetConfig (configNamespace : string) : prog (outcome Config) :=
  perform (Get KConfig configNamespace DefaultConfigResourceName).
Definition GetTenantAndConfig (configNamespace tenantName : string) : prog (outcome (Tenant * Config)) :=
  tenant <-! GetTenant tenantName ;;
  config <-! GetConfig configNamespace ;;
  ok (tenant, config).

(** ** Event filters *)

Definition ContainsString (slice : list string) (s : string) : bool :=
  existsb (λ item, bool_decide (item = s)) slice.
Definition RemoveString (slice : list string) (s : string) : list string :=
  foldl (λ result item, if decide (item = s) then result else result ++ [item]) [] slice.

(** [predicate.Funcs] without a function lets the event pass. *)
Definition workqueueFilter {A} (filter : option (A → prog bool)) (e : watch_event A) : prog bool :=
  match filter with
  | None => Ret true
  | Some filter =>
      match e with
      | CreateEvent o | DeleteEvent o => filter o
      | UpdateEvent old new => b ← filter old; if b : bool then Ret true else filter new
      | GenericEvent _ => Ret true
      end
  end.

Definition on_labelled_namespace (o : ObjectMeta) : prog bool :=
  r ← perform (Get KNamespace "" (namespace o));
  Ret (match r with
       | inl _ => false
       | inr ns => bool_decide (get_str (labels (nsp_meta ns)) LabelManagedBy = LabelControllerName)
       end).
Definition ByLabelExistsOnNamespace (e : watch_event ObjectMeta) : prog bool :=
  workqueueFilter (Some on_labelled_namespace) e.

Definition has_lb_name (o : Service) : bool :=
  bool_decide (get_str (labels (svc_meta o)) LabelLoadBalancerName ≠ "").

Definition filterServicesPredicate (e : watch_event Service) : bool :=
  match e with
  | CreateEvent o | DeleteEvent o => has_lb_name o
  | UpdateEvent oldSvc newSvc =>
      has_lb_name newSvc &&
      negb (bool_decide (svc_ingress newSvc = svc_ingress oldSvc ∧ svc_conditions newSvc = svc_conditions oldSvc))
  | GenericEvent _ => false
  end.

(** ** Requests *)

Definition request_of (m : ObjectMeta) : NamespacedName := {| nn_namespace := namespace m; nn_name := name m |}.

Definition enqueueLoadBalancers (o : Service) : list NamespacedName :=
  match labels (svc_meta o) with
  | None => []
  | Some l =>
      match l !! LabelLoadBalancerName, l !! LabelLoadBalancerNamespace with
      | Some n, Some ns => [{| nn_namespace := ns; nn_name := n |}]
      | _, _ => []
      end
  end.

Definition enqueueLoadBalancersForConfig : prog (list NamespacedName) :=
  r ← perform (ListIn KLoadBalancer None ∅);
  Ret (match r with inl _ => [] | inr lbs => (λ lb, request_of (lb_meta lb)) <$> lbs end).

Definition enqueueLoadBalancersForTenant (tenant : Tenant) : prog (list NamespacedName) :=
  r ← perform (ListIn KLoadBalancer (Some (tenantNamespacePattern (name (tn_meta tenant)))) ∅);
  Ret (match r with inl _ => [] | inr lbs => (λ lb, request_of (lb_meta lb)) <$> lbs end).

(** ** The reconciler *)

(** The fields of [LoadBalancerReconciler] the handler reads. *)
Record LoadBalancerReconciler := { lr_namespace : string; lr_topology : string }.


Definition service_name (r : LoadBalancerReconciler) (lb : LoadBalancer) : string :=
  if decide (lr_topology r = EnvoyProxyTopologyGlobal)
  then envoyGlobalTopologyServicePattern (namespace (lb_meta lb)) (name (lb_meta lb))
  else envoyResourcePattern (name (lb_meta lb)).

(** Whether to reconcile, and whether load balancing is disabled. *)
Definition shouldReconcile (tenant : Tenant) (config : Config) : bool * bool :=
  if lbs_disable (cs_loadBalancer (cf_spec config)) then (false, true)
  else if lbs_disable (ts_loadBalancer (tn_spec tenant)) then (false, true)
  else (true, false).

Section reconciler.
Context `{Unicode} `{Finalizers}.
Context `{SemanticDeepEqual (gomap string)} `{SemanticDeepEqual (list ServicePort)}.
Context `{SemanticDeepEqual IngressSpec} `{SemanticDeepEqual GatewayRouteSpec}.
Context (SetControllerReference : LoadBalancer → ObjectMeta → error + ObjectMeta).
(** [retry.DefaultRetry]: how often a conflict is retried. *)
Context (retries : nat).
Context (r : LoadBalancerReconciler).

Definition cleanupHostnameResources (lb : LoadBalancer) (ns : string) : prog (outcome unit) :=
  let ingressName := name (lb_meta lb) +:+ "-ingress" in
  let httpRouteName := name (lb_meta lb) +:+ "-httproute" in
  _ <-! delete_ignoring KIngress ns ingressName (Wrapf ("failed to delete ingress " +:+ ingressName)) ;;
  delete_ignoring KHTTPRoute ns httpRouteName (Wrapf ("failed to delete httproute " +:+ httpRouteName)).

Definition without_finalizers (lb : LoadBalancer) : LoadBalancer :=
  with_lb_meta (RemoveFinalizer (RemoveFinalizer (RemoveFinalizer (lb_meta lb)
    CleanupFinalizer) envoyProxyCleanupFinalizer) hostnameCleanupFinalizer) lb.

Definition cleanup (lb : LoadBalancer) (resourceNamespace : string) : prog (outcome unit) :=
  _ ← perform (DeallocateLB lb);
  _ <-! (if ContainsFinalizer (lb_meta lb) hostnameCleanupFinalizer
         then cleanupHostnameResources lb resourceNamespace else ok ()) ;;
  let svcName := service_name r lb in
  _ <-! delete_ignoring KService resourceNamespace svcName
          (Wrapf ("failed to delete service " +:+ svcName +:+ ": " +:+ name (lb_meta lb) +:+ "/"
                  +:+ namespace (lb_meta lb) +:+ " against LoadBalancer")) ;;
  _ <-["failed to remove finalizer"] perform (Update KLoadBalancer (without_finalizers lb)) ;;
  ok ().

(** ** The Service *)

Definition desired_service (lb : LoadBalancer) (svcName appName ns : string) (className : option string)
    (a : gmap string string) (ports : list ServicePort) : Service :=
  {| svc_type := {| apiVersion := ""; Core.kind := "" |};
     svc_meta := with_annotations (Some a)
       (with_labels (Some {[ LabelAppKubernetesName := appName;
                             LabelLoadBalancerName := name (lb_meta lb);
                             LabelLoadBalancerNamespace := namespace (lb_meta lb);
                             LabelOriginNamespace := get_str (labels (lb_meta lb)) LabelOriginNamespace;
                             LabelOriginName := get_str (labels (lb_meta lb)) LabelOriginName ]})
          (with_identity svcName ns "" zero_meta));
     svc_spec :=
       {| ss_ports := ports; ss_selector := Some {[ LabelAppKubernetesName := appName ]};
          ss_type := ls_type (lb_spec lb); ss_clusterIP := ""; ss_clusterIPs := [];
          ss_loadBalancerClass := className; ss_ipFamilies := []; ss_ipFamilyPolicy := None;
          ss_sessionAffinity := ""; ss_externalTrafficPolicy := ""; ss_internalTrafficPolicy := None;
          ss_rest := "" |};
     svc_ingress := None; svc_conditions := "" |}.

(** [desired] carries the merged annotations here. *)
Definition service_in_desired_state (existing desired : Service) : bool :=
  semantic_deep_equal (ss_ports (svc_spec existing)) (ss_ports (svc_spec desired)) &&
  semantic_deep_equal (ss_selector (svc_spec existing)) (ss_selector (svc_spec desired)) &&
  bool_decide (ss_type (svc_spec existing) = ss_type (svc_spec desired)) &&
  bool_decide (ss_loadBalancerClass (svc_spec existing) = ss_loadBalancerClass (svc_spec desired)) &&
  semantic_deep_equal (labels (svc_meta existing)) (labels (svc_meta desired)) &&
  CompareAnnotations (annotations (svc_meta existing)) (annotations (svc_meta desired)).

Definition updated_service (existing desired : Service) : Service :=
  with_svc_spec (svc_spec desired)
    (with_svc_meta (with_annotations (annotations (svc_meta desired))
                      (with_labels (labels (svc_meta desired)) (svc_meta existing))) existing).

(** The allocator the reconciler passes on. *)
Definition ports_with (lookup : string → string → Z * bool) (lb : LoadBalancer) (existing : Service)
    : go (list ServicePort) := @CreateServicePorts lookup lb existing.

(** Propagating the annotations may add defaults to those of the LoadBalancer (they
    share the map), so the LoadBalancer comes back. *)
Definition reconcileService (lb : LoadBalancer) (svcName appName ns : string) (className : option string)
    (settings : AnnotationSettings) : prog (outcome LoadBalancer) :=
  let '(a, after) := propagate (annotations (lb_meta lb)) settings ResourceService in
  let lb := with_lb_meta (with_annotations after (lb_meta lb)) lb in
  existing ← perform (Get KService ns svcName);
  match existing with
  | inl e =>
      if IsNotFound e then
        lookup ← perform ReadPorts;
        ports ← lift (ports_with lookup lb zero_service);
        _ <-["failed to create service"] perform (Create KService (desired_service lb svcName appName ns className a ports)) ;;
        ok lb
      else fail e
  | inr existing =>
      lookup ← perform ReadPorts;
      ports ← lift (ports_with lookup lb existing);
      let desired := desired_service lb svcName appName ns className a ports in
      let desired := with_svc_meta (with_annotations
          (MergeAnnotations (annotations (svc_meta existing)) (annotations (svc_meta desired))) (svc_meta desired)) desired in
      if service_in_desired_state existing desired then ok lb
      else _ <-["failed to update service"] perform (Update KService (updated_service existing desired)) ;; ok lb
  end.

(** ** The hostname *)

Definition status_hostname (lb : LoadBalancer) : string :=
  match lst_hostname (lb_status lb) with Some h => hs_hostname h | None => "" end.

Definition with_status_hostname (h : string) (lb : LoadBalancer) : LoadBalancer :=
  with_lb_status {| lst_ingress := lst_ingress (lb_status lb); lst_ports := lst_ports (lb_status lb);
    lst_hostname := Some {| hs_hostname := h; hs_tlsEnabled := false; hs_dnsRecordCreated := false |} |} lb.

(** The hostname to use, and the LoadBalancer once it is persisted; [None] when no
    hostname can be configured. *)
Definition choose_hostname (lb : LoadBalancer) (tenant : Tenant) (config : Config)
    : prog (outcome (option (string * LoadBalancer))) :=
  if decide (status_hostname lb ≠ "") then ok (Some (status_hostname lb, lb))
  else
    hostname ←
      (if decide (ls_hostname (lb_spec lb) ≠ "") then Ret (ls_hostname (lb_spec lb))
       else match baseDomain (ts_dns (tn_spec tenant)) (cs_dns (cf_spec config)) with
            | None => Ret ""
            | Some _ =>
                random ← perform (RandomBytes 8);
                now ← perform Now;
                Ret (GenerateHostname random now (ts_dns (tn_spec tenant)) (cs_dns (cf_spec config)))
            end);
    if decide (hostname = "") then ok None
    else
      lb <-["failed to update LoadBalancer status"] perform (StatusUpdate KLoadBalancer (with_status_hostname hostname lb)) ;;
      ok (Some (hostname, lb)).

Definition useGatewayAPI (tenant : Tenant) (config : Config) : bool :=
  negb (ga_disable (ts_gatewayAPI (tn_spec tenant))) && negb (ga_disable (cs_gatewayAPI (cf_spec config))) &&
  (bool_decide (ga_class (ts_gatewayAPI (tn_spec tenant)) ≠ None) ||
   bool_decide (ga_class (cs_gatewayAPI (cf_spec config)) ≠ None)).

Definition configureHostname (lb : LoadBalancer) (svcName : string) (tenant : Tenant) (config : Config)
    (settings : AnnotationSettings) : prog (outcome (string * LoadBalancer)) :=
  chosen <-! choose_hostname lb tenant config ;;
  match chosen with
  | None => ok ("", lb)
  | Some (hostname, lb) =>
      lb <-! (if ContainsFinalizer (lb_meta lb) hostnameCleanupFinalizer then ok lb
              else
                let '(m, added) := AddFinalizer (lb_meta lb) hostnameCleanupFinalizer in
                if negb added then fail (Errorf "failed to add hostname finalizer")
                else lb <-["failed to add hostname finalizer"] perform (Update KLoadBalancer (with_lb_meta m lb)) ;; ok lb) ;;
      _ <-! (if useGatewayAPI tenant config
             then CreateHTTPRouteForHostname SetControllerReference lb svcName hostname tenant config settings
             else CreateIngressForHostname SetControllerReference lb svcName hostname tenant config settings) ;;
      ok (hostname, lb)
  end.

(** ** The status *)

(** The [i]-th port of the Service is paired with the [i]-th port of the first
    endpoints. *)
Definition status_ports (lb : LoadBalancer) (service : Service) : go (list UpstreamServicePort) :=
  go_map (λ i port,
      ep ← at_index (ls_endpoints (lb_spec lb)) 0;
      target ← at_index (le_ports ep) i;
      Done {| usp_port := port; upstreamTargetPort := ep_port target |}) 0 (ss_ports (svc_spec service)).

Definition patch_status (lb : LoadBalancer) (status : LoadBalancerStatus) : prog (outcome unit) :=
  original <-! perform (Get KLoadBalancer (namespace (lb_meta lb)) (name (lb_meta lb))) ;;
  if decide (lb_status original = status) then ok ()
  else _ <-! perform (StatusPatch KLoadBalancer (with_lb_status status original) original) ;; ok ().

(** Any answer of the resolver, and any response whatever its code, will do. *)
Definition checkDNSResolution (hostname : string) : prog bool :=
  r ← perform (LookupIPAddr hostname); Ret (match r with inl _ => false | inr _ => true end).
Definition checkTLSHealth (url : string) : prog bool :=
  r ← perform (HTTPGet url); Ret (match r with inl _ => false | inr _ => true end).

Definition updateLoadBalancerStatus (lb : LoadBalancer) (service : Service) (hostname : string) : prog (outcome unit) :=
  if decide (ls_endpoints (lb_spec lb) = []) then ok ()
  else
    updatedPorts ← lift (status_ports lb service);
    updatedHostname ←
      (if decide (hostname ≠ "") then
         let hostnameToUse := if decide (status_hostname lb ≠ "") then status_hostname lb else hostname in
         dnsReady ← checkDNSResolution hostnameToUse;
         tlsReady ← checkTLSHealth ("https://" +:+ hostnameToUse);
         Ret (Some {| hs_hostname := hostnameToUse; hs_tlsEnabled := tlsReady; hs_dnsRecordCreated := dnsReady |})
       else Ret None);
    let updated := {| lst_ingress := svc_ingress service; lst_ports := Some updatedPorts;
                      lst_hostname := updatedHostname |} in
    let updateStatus :=
      negb (bool_decide (lst_ports (lb_status lb) = Some updatedPorts)) ||
      (bool_decide (ls_type (lb_spec lb) = ServiceTypeLoadBalancer) &&
       negb (bool_decide (lst_ingress (lb_status lb) = svc_ingress service))) ||
      negb (bool_decide (lst_hostname (lb_status lb) = updatedHostname)) in
    if negb updateStatus then ok () else retryOnConflict retries (patch_status lb updated).

(** ** The handler *)

(** The LoadBalancers that share the Envoy proxy, and the namespace of its
    resources. *)
Definition listed_load_balancers (req : NamespacedName) : prog (outcome (list LoadBalancer * string)) :=
  if decide (lr_topology r = EnvoyProxyTopologyShared) then
    lbs <-! perform (ListIn KLoadBalancer (Some (nn_namespace req)) ∅) ;; ok (lbs, nn_namespace req)
  else if decide (lr_topology r = EnvoyProxyTopologyGlobal) then
    lbs <-! perform (ListIn KLoadBalancer None ∅) ;; ok (lbs, lr_namespace r)
  else ok ([], "").

Definition any_finalizer (lb : LoadBalancer) : bool :=
  ContainsFinalizer (lb_meta lb) envoyProxyCleanupFinalizer || ContainsFinalizer (lb_meta lb) CleanupFinalizer ||
  ContainsFinalizer (lb_meta lb) hostnameCleanupFinalizer.

(** [None]: requeue. *)
Definition ensure_finalizer (lb : LoadBalancer) : prog (outcome (option LoadBalancer)) :=
  if ContainsFinalizer (lb_meta lb) CleanupFinalizer then ok (Some lb)
  else
    let '(m, added) := AddFinalizer (lb_meta lb) CleanupFinalizer in
    if negb added then ok None
    else
      lb <-["failed to add finalizer"] perform (Update KLoadBalancer
              (with_lb_meta (RemoveFinalizer m envoyProxyCleanupFinalizer) lb)) ;;
      ok (Some lb).

(** From the allocation of ports on. *)
Definition apply_load_balancer (req : NamespacedName) (lb : LoadBalancer) (loadBalancers : list LoadBalancer)
    (resourceNamespace : string) (tenant : Tenant) (config : Config) (settings : AnnotationSettings)
    : prog (outcome bool) :=
  let className := tenant_or (lbs_class (ts_loadBalancer (tn_spec tenant))) (lbs_class (cs_loadBalancer (cf_spec config))) in
  _ ← perform (AllocateLBs loadBalancers);
  let appName := (envoySnapshotAndAppName (lr_topology r) req).2 in
  let svcName := service_name r lb in
  lb <-! reconcileService lb svcName appName resourceNamespace className settings ;;
  existingService <-! perform (Get KService resourceNamespace svcName) ;;
  configured <-! (if ShouldConfigureHostname (annotations (lb_meta lb)) (ls_hostname (lb_spec lb)) tenant config
                  then configureHostname lb svcName tenant config settings else ok ("", lb)) ;;
  let '(hostname, lb) := configured in
  _ <-! updateLoadBalancerStatus lb existingService hostname ;;
  ok false.

(** The result says whether to requeue. *)
Definition Reconcile (req : NamespacedName) : prog (outcome bool) :=
  got ← perform (Get KLoadBalancer (nn_namespace req) (nn_name req));
  match got with
  | inl _ => ok false
  | inr lb =>
      if decide (ls_endpoints (lb_spec lb) = []) then ok false
      else
        listed <-! listed_load_balancers req ;;
        let '(loadBalancers, resourceNamespace) := listed in
        if decide (deletionTimestamp (lb_meta lb) ≠ None) then
          if any_finalizer lb then _ <-! cleanup lb resourceNamespace ;; ok false else ok false
        else
          tc <-! GetTenantAndConfig (lr_namespace r) (RemoveTenantPrefix (namespace (lb_meta lb))) ;;
          let '(tenant, config) := tc in
          let '(should, disabled) := shouldReconcile tenant config in
          if ContainsFinalizer (lb_meta lb) CleanupFinalizer && disabled then
            _ <-! cleanup lb resourceNamespace ;; ok false
          else if negb should then ok false
          else
            let settings := GetAnnotations tenant config in
            ensured <-! ensure_finalizer lb ;;
            match ensured with
            | None => ok true
            | Some lb => apply_load_balancer req lb loadBalancers resourceNamespace tenant config settings
            end
  end.
End reconciler.

(** ** Cleaning up *)

(** A sent update of a LoadBalancer. *)
Definition lb_update (e : event) : option LoadBalancer :=
  match e with existT (Update KLoadBalancer o) _ => Some o | _ => None end.
Definition no_lb_update : list event → Prop := absent lb_update.

(** The resources of a LoadBalancer that [cleanup] has to release. *)
Definition released `{Finalizers} (r : LoadBalancerReconciler) (lb : LoadBalancer) (ns : string) (log : list event) : Prop :=
  existT (DeallocateLB lb) () ∈ log ∧ gone KService ns (service_name r lb) log ∧
  (ContainsFinalizer (lb_meta lb) hostnameCleanupFinalizer = true →
     gone KIngress ns (name (lb_meta lb) +:+ "-ingress") log ∧
     gone KHTTPRoute ns (name (lb_meta lb) +:+ "-httproute") log).

Section cleanup_runs.
Context `{Finalizers}.

Lemma cleanupHostnameResources_runs lb ns log :
  no_lb_update log →
  all_runs (cleanupHostnameResources lb ns)
    (λ log' res, no_lb_update log' ∧ (∃ l, log' = log ++ l) ∧
       ((res = Done (inr ()) ∧ gone KIngress ns (name (lb_meta lb) +:+ "-ingress") log' ∧
         gone KHTTPRoute ns (name (lb_meta lb) +:+ "-httproute") log') ∨ ∃ e, res = Done (inl e))) log.
Proof.
  intros Hno. unfold cleanupHostnameResources. apply all_runs_try.
  eapply all_runs_mono; [|apply delete_ignoring_runs].
  intros log1 r1 (a1 & -> & [[-> Hg1]|[e ->]]); cbv beta iota.
  - eapply all_runs_mono; [|apply delete_ignoring_runs].
    intros log2 r2 (a2 & -> & Hr2). rewrite <- app_assoc. split.
    { apply Forall_app. split; [done|]. by repeat constructor. }
    split; [by eexists|]. destruct Hr2 as [[-> Hg2]|[e ->]]; [left|right; by eexists].
    rewrite app_assoc. split; [done|]. split; [by apply gone_app|done].
  - split; [apply Forall_app; split; [done|by repeat constructor]|].
    split; [by eexists|]. right. by eexists.
Qed.
End cleanup_runs.


(** ** Finalizers come first *)

Lemma cleanup_takes_nothing `{Finalizers} r lb ns :
  only_calls (λ c, takes_resources c = false) (cleanup r lb ns).
Proof. unfold cleanup, cleanupHostnameResources. solve_calls. Qed.

(** The object sent when the finalizer is added carries it. *)
Lemma finalizer_added `{FinalizerLaws} lb m :
  AddFinalizer (lb_meta lb) CleanupFinalizer = (m, true) →
  ContainsFinalizer (RemoveFinalizer m envoyProxyCleanupFinalizer) CleanupFinalizer = true.
Proof.
  rewrite add_finalizer. destruct (ContainsFinalizer _ _); intros [= <-].
  apply contains_finalizer. rewrite remove_finalizer. simpl. apply list_elem_of_filter.
  split; [done|]. apply elem_of_app. right. by apply list_elem_of_singleton.
Qed.

Section reconcile_runs.
Context `{Unicode} `{FinalizerLaws}.
Context `{SemanticDeepEqual (gomap string)} `{SemanticDeepEqual (list ServicePort)}.
Context `{SemanticDeepEqual IngressSpec} `{SemanticDeepEqual GatewayRouteSpec}.
Context (SetControllerReference : LoadBalancer → ObjectMeta → error + ObjectMeta) (retries : nat).

Lemma listed_takes_nothing r req : only_calls (λ c, takes_resources c = false) (listed_load_balancers r req).
Proof. unfold listed_load_balancers. solve_calls. Qed.

(** [ensure_finalizer] either ends the run or has the finalizer stored. *)
Lemma ensure_finalizer_guarded lb e0 (k : option LoadBalancer → prog (outcome bool)) log :
  quiet takes_resources log → e0 ∈ log → stored_meta e0 = Some (lb_meta lb) → only_calls (λ c, takes_resources c = false) (k None) →
  all_runs (try (ensure_finalizer lb) k) (λ log' _, guarded stored_meta CleanupFinalizer takes_resources log') log.
Proof.
  intros Hq He0 Hlb Hnone. apply all_runs_try. unfold ensure_finalizer.
  destruct (ContainsFinalizer (lb_meta lb) CleanupFinalizer) eqn:Hc.
  { simpl. apply guarded_runs; [by apply quiet_guarded|]. right. by exists e0, (lb_meta lb). }
  destruct (AddFinalizer (lb_meta lb) CleanupFinalizer) as [m added] eqn:Ha.
  destruct added; simpl.
  - assert (∀ a, guarded stored_meta CleanupFinalizer takes_resources (log ++ [existT (Update KLoadBalancer
      (with_lb_meta (RemoveFinalizer m envoyProxyCleanupFinalizer) lb)) a])) as Hg.
    { intros a. apply guarded_app; [by apply quiet_guarded|]. left. by repeat constructor. }
    intros [e|o]; simpl; [done|]. apply guarded_runs; [done|]. right.
    eexists _, _. split; [apply elem_of_app; right; by apply list_elem_of_singleton|].
    split; [reflexivity|]. simpl. by eapply finalizer_added.
  - apply guarded_runs; [by apply quiet_guarded|by left].
Qed.
End reconcile_runs.

(** C15: in every run of the reconciler, whatever the API server answers, ports are
    allocated and Services, Ingresses and HTTPRoutes are written only once the API
    server has the reconciled LoadBalancer with the cleanup finalizer, so that deleting
    that LoadBalancer goes through cleanup. *)
Theorem Reconcile_finalizer_first `{Unicode} `{FinalizerLaws} `{SemanticDeepEqual (gomap string)}
    `{SemanticDeepEqual (list ServicePort)} `{SemanticDeepEqual IngressSpec} `{SemanticDeepEqual GatewayRouteSpec}
    SetControllerReference retries r req :
  all_runs (Reconcile SetControllerReference retries r req)
    (λ log _, guarded stored_meta CleanupFinalizer takes_resources log) [].
Proof.
  unfold Reconcile. apply all_runs_perform.
  intros [e|lb]; [simpl; apply quiet_guarded; by repeat constructor|].
  set (e0 := existT (Get KLoadBalancer _ _) (inr lb) : event). change ([] ++ [e0]) with [e0].
  assert (quiet takes_resources [e0]) as Hq by by repeat constructor.
  destruct (decide _) as [_|_]; [by apply quiet_guarded|].
  apply quiet_try; [done|apply listed_takes_nothing|]. intros [lbs ns] l1 Hq1.
  destruct (decide _) as [_|_].
  { destruct (any_finalizer lb); [|by apply quiet_guarded].
    apply quiet_try; [done|apply cleanup_takes_nothing|]. intros [] l2 Hq2. by apply quiet_guarded. }
  apply quiet_try; [done|unfold GetTenantAndConfig, GetTenant, GetConfig; solve_calls|].
  intros [tenant config] l2 Hq2. destruct (shouldReconcile tenant config) as [should disabled].
  destruct (_ && disabled).
  { apply quiet_try; [done|apply cleanup_takes_nothing|]. intros [] l3 Hq3. by apply quiet_guarded. }
  destruct should; simpl negb; cbv iota; [|by apply quiet_guarded].
  cbv zeta. apply (ensure_finalizer_guarded lb e0); [done| |done|done].
  apply elem_of_app. left. apply elem_of_app. left. by apply list_elem_of_singleton.
Qed.

Lemma Reconcile_finalizer_first_witness :
  all_runs (Reconcile (H := no_unicode) (H0 := list_finalizers) (H1 := semantic_by_contents)
              (H2 := λ a b, bool_decide (a = b)) (H3 := λ a b, bool_decide (a = b)) (H4 := spec_equality)
              (λ _ m, inr m) 4 {| lr_namespace := "kubelb"; lr_topology := EnvoyProxyTopologyShared |}
              {| nn_namespace := "tenant-a"; nn_name := "web" |})
    (λ log _, guarded (H := list_finalizers) stored_meta CleanupFinalizer takes_resources log) [].
Proof.
  exact (Reconcile_finalizer_first (H := no_unicode) (H1 := list_finalizers_laws) (H2 := semantic_by_contents)
    (H3 := λ a b, bool_decide (a = b)) (H4 := λ a b, bool_decide (a = b)) (H5 := spec_equality)
    (λ _ m, inr m) 4 {| lr_namespace := "kubelb"; lr_topology := EnvoyProxyTopologyShared |}
    {| nn_namespace := "tenant-a"; nn_name := "web" |}).
Defined.

(** ** The Service settles *)

(** [stored] is the Service of the LoadBalancer as an earlier reconciliation created
    or updated it with the ports [ps], with the node ports the API server assigned;
    everything else (status, defaulted fields) is arbitrary. *)
Record settled `{SemanticDeepEqual (gomap string)} (lb : LoadBalancer) (appName : string) (className : option string)
    (a : gmap string string) (ps : list ServicePort) (stored : Service) : Prop := {
  settled_ports : Forall2 same_but_node_port ps (ss_ports (svc_spec stored));
  settled_selector : ss_selector (svc_spec stored) = Some {[ LabelAppKubernetesName := appName ]};
  settled_type : ss_type (svc_spec stored) = ls_type (lb_spec lb);
  settled_class : ss_loadBalancerClass (svc_spec stored) = className;
  settled_labels : labels (svc_meta stored) = labels (svc_meta (desired_service lb "" appName "" className a ps));
  settled_annotations : ∃ before, annotations (svc_meta stored) = MergeAnnotations before (Some a)
}.

(** C16: the Service of a LoadBalancer settles: reconciling it against the Service an
    earlier reconciliation left, after the API server assigned node ports, computes
    the same ports (node ports included), labels and annotations and writes nothing. *)
Theorem reconcileService_converges `{Unicode} `{SemanticMaps} `{SemanticDeepEqual (list ServicePort)}
    {S} (handle : S → ∀ c, S * resp c) s lb svcName appName ns className settings a after lookup e0 ps stored :
  (∀ l : list ServicePort, semantic_deep_equal l l = true) →
  propagate (annotations (lb_meta lb)) settings ResourceService = (a, after) →
  ls_endpoints (lb_spec lb) ≠ [] →
  base.NoDup (lp_name <$> ls_ports (lb_spec lb)) →
  base.NoDup ((λ p, (lp_port p, lp_protocol p)) <$> ls_ports (lb_spec lb)) →
  ports_with lookup lb e0 = Done ps → settled lb appName className a ps stored →
  handle s (Get KService ns svcName) = (s, inr stored) → handle s ReadPorts = (s, lookup) →
  run handle (reconcileService lb svcName appName ns className settings) s [] =
    (s, [existT (Get KService ns svcName) (inr stored); existT ReadPorts lookup],
     Done (inr (with_lb_meta (with_annotations after (lb_meta lb)) lb))).
Proof.
  intros Hrefl Hprop Hne Hn Hp Hps [Hports Hsel Htype Hclass Hlabels [before Hann]] Hget Hread.
  assert (ports_with lookup (with_lb_meta (with_annotations after (lb_meta lb)) lb) stored
          = Done (ss_ports (svc_spec stored))) as Hc.
  { exact (CreateServicePorts_stable (H := lookup) lb e0 stored ps Hps Hne Hn Hp Hports). }
  unfold reconcileService. rewrite Hprop. cbn -[service_in_desired_state MergeAnnotations desired_service].
  rewrite Hget. cbn -[service_in_desired_state MergeAnnotations desired_service].
  rewrite Hread. cbn -[service_in_desired_state MergeAnnotations desired_service ports_with].
  rewrite Hc. cbn -[service_in_desired_state MergeAnnotations desired_service].
  match goal with |- context [service_in_desired_state stored ?d] =>
    assert (service_in_desired_state stored d = true) as ->; [|done] end.
  unfold service_in_desired_state. simpl.
  rewrite Hrefl, Hsel, Htype, Hclass, Hlabels, Hann, !bool_decide_true by done.
  rewrite !(proj2 (semantic_maps _ _)) by done. simpl. apply MergeAnnotations_converges.
Qed.

(** An API server that has one Service and accepts every write. *)
Definition one_service (stored : Service) (lookup : string → string → Z * bool) (s : unit) (c : call) : unit * resp c :=
  (s, match c as c return resp c with
      | Get k _ _ => match k as k return error + objT k with KService => inr stored | _ => inl (StatusError NotFound) end
      | ReadPorts => lookup
      | c => default_resp c
      end).

(** A LoadBalancer whose ports are not in the order of their names. *)
Definition two_port_lb : LoadBalancer :=
  {| lb_meta := with_identity "web" "tenant-a" "uid-0001" zero_meta;
     lb_spec := {| ls_endpoints := [{| le_name := ""; le_addresses := [{| ea_ip := "10.0.0.1"; ea_hostname := "" |}];
                                       le_addressesReference := None;
                                       le_ports := [{| ep_name := "web"; ep_port := 30080; ep_protocol := "TCP" |};
                                                    {| ep_name := "api"; ep_port := 30081; ep_protocol := "TCP" |}] |}];
                   ls_ports := [{| lp_name := "web"; lp_protocol := "TCP"; lp_port := 80 |};
                                {| lp_name := "api"; lp_protocol := "TCP"; lp_port := 8080 |}];
                   ls_hostname := ""; ls_type := ServiceTypeLoadBalancer |};
     lb_status := {| lst_ingress := None; lst_ports := None; lst_hostname := None |} |}.

Definition lb_created_ports : list ServicePort :=
  [{| sp_name := "api"; sp_protocol := "TCP"; sp_port := 8080; sp_targetPort := FromInt 30081; sp_nodePort := 0; sp_appProtocol := None |};
   {| sp_name := "web"; sp_protocol := "TCP"; sp_port := 80; sp_targetPort := FromInt 30080; sp_nodePort := 0; sp_appProtocol := None |}].

(** Its Service with the node ports the API server chose. *)
Definition lb_stored_service : Service :=
  desired_service two_port_lb "envoy-web" "tenant-a" "tenant-a" None ∅
    [with_node_port 31001 (nth 0 lb_created_ports (sample_port "" 0 0));
     with_node_port 31002 (nth 1 lb_created_ports (sample_port "" 0 0))].

Lemma reconcileService_converges_witness :
  let lookup : string → string → Z * bool := λ _ _, ((-1)%Z, false) in
  run (one_service lb_stored_service lookup)
    (reconcileService (H := no_unicode) (H1 := semantic_by_contents) (H2 := λ a b, bool_decide (a = b))
       two_port_lb "envoy-web" "tenant-a" "tenant-a" None no_annotation_settings) () [] =
    ((), [existT (Get KService "tenant-a" "envoy-web") (inr lb_stored_service); existT ReadPorts lookup],
     Done (inr (with_lb_meta (with_annotations None (lb_meta two_port_lb)) two_port_lb))).
Proof.
  intros lookup.
  apply (reconcileService_converges (H := no_unicode) (H0 := semantic_by_contents)
    (H1 := semantic_by_contents_maps) (H2 := λ a b, bool_decide (a = b))
    (one_service lb_stored_service lookup) () two_port_lb "envoy-web" "tenant-a" "tenant-a" None
    no_annotation_settings ∅ None lookup zero_service lb_created_ports lb_stored_service).
  - intros l. apply bool_decide_eq_true. reflexivity.
  - computed.
  - discriminate.
  - computed.
  - computed.
  - computed.
  - split; [|reflexivity..|].
    + repeat constructor; eexists; reflexivity.
    + exists (Some ∅). computed.
  - reflexivity.
  - reflexivity.
Defined.

(** ** Restarts: the status as the memory of the allocator *)

(** The ports of the LoadBalancer and of its first endpoints correspond, as
    MapLoadBalancer makes them, and the endpoint ports have distinct names. *)
Record corresponds (lb : LoadBalancer) (ep : LoadBalancerEndpoints) : Prop := {
  co_endpoints : ∃ eps, ls_endpoints (lb_spec lb) = ep :: eps;
  co_ports : Forall2 (λ p q, lp_name p = ep_name q ∧ lp_protocol p = ep_protocol q)
               (ls_ports (lb_spec lb)) (le_ports ep);
  co_names : base.NoDup (ep_name <$> le_ports ep)
}.

Lemma created_raw `{PortLookup} lb existing ep raw i q :
  corresponds lb ep → go_map (service_port lb existing ep) 0 (ls_ports (lb_spec lb)) = Done raw →
  le_ports ep !! i = Some q →
  ∃ p sp, raw !! i = Some sp ∧ lp_protocol p = ep_protocol q ∧ sp_name sp = ep_name q ∧
    sp_protocol sp = ep_protocol q ∧ sp_targetPort sp = FromInt (allocated_target lb p (ep_port q)).
Proof.
  intros [_ Hco Hnd] Hraw Hi. apply go_map_Done in Hraw as [_ Hraw].
  destruct (Forall2_lookup_r _ _ _ _ _ Hco Hi) as (p & Hp & Hn & Hpr).
  destruct (Hraw i p Hp) as (sp & Hsp & E). apply service_port_fields in E as (En & _ & Epr & t & Et & Ett).
  exists p, sp. rewrite En, Epr, Ett. repeat split; try done.
  unfold endpoint_target, at_index in Et. rewrite Nat.add_0_l, Hi in Et. simpl in Et.
  rewrite Hn, (list_find_name _ _ _ Hnd Hi) in Et. by injection Et as <-.
Qed.

(** Endpoint ports in the order of their names stay in place. *)
Lemma created_in_order `{PortLookup} lb existing ep ps i q :
  corresponds lb ep → StronglySorted (by_key ep_name) (le_ports ep) →
  CreateServicePorts lb existing = Done ps → le_ports ep !! i = Some q →
  ∃ p sp, ps !! i = Some sp ∧ lp_protocol p = ep_protocol q ∧ sp_name sp = ep_name q ∧
    sp_protocol sp = ep_protocol q ∧ sp_targetPort sp = FromInt (allocated_target lb p (ep_port q)).
Proof.
  intros Hco Hs Hc Hi. unfold CreateServicePorts in Hc.
  destruct (co_endpoints _ _ Hco) as [eps Hep]. rewrite Hep in Hc.
  destruct (go_map _ _ _) as [raw|] eqn:Hraw; simpl in Hc; [injection Hc as <-|done].
  assert (sp_name <$> raw = ep_name <$> le_ports ep) as Hnames.
  { apply go_map_Done in Hraw as Hraw'. destruct Hraw' as [Hlen _].
    rewrite (Forall2_length _ _ _ (co_ports _ _ Hco)) in Hlen.
    apply list_eq. intros j. rewrite !list_lookup_fmap. destruct (le_ports ep !! j) as [q'|] eqn:Hj; simpl.
    - destruct (created_raw lb existing ep raw j q' Hco Hraw Hj) as (? & ? & -> & _ & E & _).
      simpl. by rewrite E.
    - rewrite (proj2 (lookup_ge_None raw j)); [done|]. apply lookup_ge_None in Hj. lia. }
  rewrite <- (sort_by_unique sp_name raw raw); [by eapply created_raw| |done|].
  - rewrite Hnames. apply (co_names _ _ Hco).
  - clear -Hs Hnames. revert Hnames. generalize (le_ports ep) Hs. clear.
    induction raw as [|x raw IH]; intros [|q qs] Hs Hn; [constructor|done|done|].
    injection Hn as Hx Hn. change (sp_name <$> raw = ep_name <$> qs) in Hn.
    apply StronglySorted_cons in Hs as [Hq Hs]. constructor; [by eapply IH|].
    apply list.Forall_forall. intros y Hy. unfold by_key. rewrite Hx.
    apply (list_elem_of_fmap_2 sp_name) in Hy. rewrite Hn in Hy.
    apply list_elem_of_fmap in Hy as (q' & -> & Hq').
    by apply (proj1 (list.Forall_forall _ _) Hq).
Qed.

(** C20: the status is enough to rebuild the allocator after a restart, when the
    endpoint ports are in the order of their names: if the Service was created with
    the ports of the allocator and its ports were recorded in the status, then
    LoadState restores for every endpoint port the port the allocator had. *)
Theorem status_restores_allocator {Err} pa pa0 lbs rts lb ep existing service sps q v ingress hostname :
  wf pa → corresponds lb ep → StronglySorted (by_key ep_name) (le_ports ep) →
  base.NoDup (lb_endpoint_keys ep) →
  ports_with (Lookup pa) lb existing = Done (ss_ports (svc_spec service)) →
  status_ports lb service = Done sps →
  let lb' := with_lb_status {| lst_ingress := ingress; lst_ports := Some sps; lst_hostname := hostname |} lb in
  identified lbs → lb' ∈ lbs → (∀ rt, rt ∈ rts → lb_key lb 0 ∉ route_keys rt) →
  q ∈ le_ports ep →
  Lookup pa (lb_key lb 0) (EnvoyListenerPattern (ep_port q) (ep_protocol q)) = (v, true) →
  Lookup (LoadState (Err := Err) pa0 (inr lbs) (inr rts)).1 (lb_key lb 0)
    (EnvoyListenerPattern (ep_port q) (ep_protocol q)) = (v, true).
Proof.
  intros Hwf Hco Hs Hkeys Hc Hst lb' Hid Hin Hrt Hq Hl.
  destruct (co_endpoints _ _ Hco) as [eps Hep].
  destruct (LoadState_restores (Err := Err) pa0 lbs rts lb' 0 ep q Hid Hin) as [_ Hload];
    [by simpl; rewrite Hep|done..|].
  change (lb_key lb' 0) with (lb_key lb 0) in Hload. rewrite Hload. simpl.
  apply list_elem_of_lookup in Hq as [i Hi].
  destruct (created_in_order (H := Lookup pa) lb existing ep _ i q Hco Hs Hc Hi)
    as (p & sp & Hsp & Hpr & Hn & Hproto & Ht).
  apply go_map_Done in Hst as [Hlen Hst]. rewrite Hep in Hst. simpl in Hst.
  destruct (Hst i sp Hsp) as (u & Hu & E). unfold at_index in E. rewrite Hi in E. injection E as <-.
  assert (list_find (λ x, status_port_matches q x = true) sps =
    Some (i, {| usp_port := sp; upstreamTargetPort := ep_port q |})) as ->.
  { apply list_find_Some. split; [done|]. split.
    - unfold status_port_matches. simpl. by rewrite Hproto, Hn, !bool_decide_true.
    - intros j y Hj Hlt Hm. apply andb_true_iff in Hm as [_ Hm]. apply bool_decide_eq_true in Hm.
      assert (j < length (ss_ports (svc_spec service))) as [spj Hspj]%lookup_lt_is_Some
        by (apply lookup_lt_Some in Hsp; lia).
      destruct (Hst j spj Hspj) as (y' & Hy' & E). rewrite Hj in Hy'. injection Hy' as <-.
      unfold at_index in E. destruct (le_ports ep !! j) as [qj|] eqn:Hqj; [injection E as <-|done].
      destruct (created_in_order (H := Lookup pa) lb existing ep _ j qj Hco Hs Hc Hqj)
        as (_ & spj' & Hspj' & _ & Hnj & _). simpl in Hm.
      assert (j = i); [|lia]. eapply NoDup_lookup; [apply (co_names _ _ Hco)| |];
        rewrite list_lookup_fmap; [by rewrite Hqj|]. rewrite Hi. simpl. congruence. }
  simpl. rewrite Ht. simpl.
  destruct (allocated_target_lookup pa lb p (ep_port q) v Hwf) as [Ha _]; [by rewrite Hpr|].
  f_equal. exact Ha.
Qed.

Definition restart_table : LookupTable := {[ "tenant-a-web-ep-0" := {[ "30080-TCP" := 12000%Z; "30081-TCP" := 12001%Z ]} ]}.

(** [two_port_lb] with its ports in the order given. *)
Definition restart_lb (eps : list EndpointPort) (lps : list LoadBalancerPort) : LoadBalancer :=
  {| lb_meta := lb_meta two_port_lb;
     lb_spec := {| ls_endpoints := [{| le_name := ""; le_addresses := []; le_addressesReference := None; le_ports := eps |}];
                   ls_ports := lps; ls_hostname := ""; ls_type := ServiceTypeLoadBalancer |};
     lb_status := lb_status two_port_lb |}.

Definition ordered_lb : LoadBalancer :=
  restart_lb [{| ep_name := "api"; ep_port := 30081; ep_protocol := "TCP" |};
              {| ep_name := "web"; ep_port := 30080; ep_protocol := "TCP" |}]
    [{| lp_name := "api"; lp_protocol := "TCP"; lp_port := 8080 |};
     {| lp_name := "web"; lp_protocol := "TCP"; lp_port := 80 |}].

(** The LoadBalancer with the status written for the Service created from [tbl], and
    the allocator after a restart that finds it. *)
Definition restarted (tbl : LookupTable) (lb : LoadBalancer) : go PortAllocator :=
  ports ← ports_with (Lookup (recomputeAvailablePorts tbl)) lb zero_service;
  sps ← status_ports lb (with_svc_spec (with_ports ports zero_spec) zero_service);
  Done (LoadState (Err := error) NewPortAllocator
    (inr [with_lb_status {| lst_ingress := None; lst_ports := Some sps; lst_hostname := None |} lb]) (inr [])).1.

Lemma restart_allocated e k p :
  allocated restart_table e k = Some p → e = "tenant-a-web-ep-0" ∧ (p = 12000 ∨ p = 12001)%Z.
Proof.
  unfold allocated, restart_table. destruct (decide (e = "tenant-a-web-ep-0")) as [->|He].
  - rewrite lookup_singleton_eq. simpl. intros H. split; [done|].
    apply lookup_insert_Some in H as [[_ <-]|[_ H]]; [by left|].
    apply lookup_singleton_Some in H as [_ <-]. by right.
  - rewrite lookup_singleton_ne by done. done.
Qed.

Lemma restart_wf : wf (recomputeAvailablePorts restart_table).
Proof.
  split; [apply recompute_coherent| |].
  - intros p (e & k & [_ H]%restart_allocated). unfold startPort, endPort. lia.
  - intros e1 k1 e2 k2 p [-> _]%restart_allocated [-> _]%restart_allocated. done.
Qed.

Definition restart_service : Service :=
  with_svc_spec (with_ports
    [{| sp_name := "api"; sp_protocol := "TCP"; sp_port := 8080; sp_targetPort := FromInt 12001; sp_nodePort := 0; sp_appProtocol := None |};
     {| sp_name := "web"; sp_protocol := "TCP"; sp_port := 80; sp_targetPort := FromInt 12000; sp_nodePort := 0; sp_appProtocol := None |}]
    zero_spec) zero_service.

Lemma status_restores_allocator_witness :
  let sps := [{| usp_port := nth 0 (ss_ports (svc_spec restart_service)) (sample_port "" 0 0); upstreamTargetPort := 30081 |};
              {| usp_port := nth 1 (ss_ports (svc_spec restart_service)) (sample_port "" 0 0); upstreamTargetPort := 30080 |}] in
  let lb' := with_lb_status {| lst_ingress := None; lst_ports := Some sps; lst_hostname := None |} ordered_lb in
  Lookup (LoadState (Err := error) NewPortAllocator (inr [lb']) (inr [])).1 "tenant-a-web-ep-0" "30080-TCP" = (12000%Z, true).
Proof.
  intros sps lb'.
  apply (status_restores_allocator (Err := error) (recomputeAvailablePorts restart_table) NewPortAllocator [lb'] []
    ordered_lb {| le_name := ""; le_addresses := []; le_addressesReference := None;
                  le_ports := [{| ep_name := "api"; ep_port := 30081; ep_protocol := "TCP" |};
                               {| ep_name := "web"; ep_port := 30080; ep_protocol := "TCP" |}] |}
    zero_service restart_service sps {| ep_name := "web"; ep_port := 30080; ep_protocol := "TCP" |} 12000 None None).
  - apply restart_wf.
  - split; [by eexists|by repeat constructor|computed].
  - repeat constructor.
  - computed.
  - computed.
  - computed.
  - split; [computed|]. exists 3. by repeat constructor.
  - apply elem_of_cons. left. reflexivity.
  - intros rt H. by apply elem_of_nil in H.
  - apply elem_of_cons. right. apply list_elem_of_singleton. reflexivity.
  - computed.
Defined.

(** with endpoint ports that are not in the order of their names the status is
    wrong: the ports of the Service are sorted by name while the endpoint ports are
    not, so each is recorded with the upstream port of another one, LoadState finds
    no match, and the restarted manager has lost the ports it had handed out (they
    are then drawn anew and every listener moves).  With the ports in order, both
    allocations survive. *)
Theorem status_mispairs_ports :
  (∃ pa, restarted restart_table two_port_lb = Done pa ∧
     Lookup pa "tenant-a-web-ep-0" "30080-TCP" = ((-1)%Z, false) ∧
     Lookup pa "tenant-a-web-ep-0" "30081-TCP" = ((-1)%Z, false)) ∧
  (∃ pa, restarted restart_table ordered_lb = Done pa ∧
     Lookup pa "tenant-a-web-ep-0" "30080-TCP" = (12000%Z, true) ∧
     Lookup pa "tenant-a-web-ep-0" "30081-TCP" = (12001%Z, true)).
Proof.
  split; (eexists; split; [vm_compute; reflexivity|]); split; vm_compute; reflexivity.
Qed.
