(* ===== verification/TenantController.v ===== *)
(** * The tenant controller (internal/controllers/kubelb/tenant_controller.go and
      internal/controllers/kubelb/resources/tenant)

    For every Tenant the manager keeps a namespace, a service account with a role, and a
    kubeconfig with the account's token, with which the tenant's CCM talks to the KubeLB
    cluster.  When a Tenant is deleted, everything of it is removed before the Tenant. *)
From Stdlib Require Import Ascii.
From stdpp Require Import base gmap list strings pretty.
From S2P Require Import Prelude GoStrings GoEncoding Api Names Annotations NetApi Effects Guards Objects Finalized LBController.
Import Core V1alpha1.

(** ** Constants *)

Definition configMapName : string := "cluster-info".
Definition kubernetesEndpointsName : string := "kubernetes".
Definition securePortName : string := "https".
Definition TenantStateName : string := "default".
Definition serviceAccountName : string := "kubelb-ccm".
Definition roleName : string := "kubelb-ccm".
Definition roleBindingName : string := "kubelb-ccm".
Definition ServiceAccountTokenSecretName : string := "kubelb-ccm".
Definition KubeLBCCMKubeconfigSecretName : string := "kubelb-ccm-kubeconfig".
Definition serviceAccountTokenType : string := "kubernetes.io/service-account-token".
Definition serviceAccountTokenAnnotation : string := "kubernetes.io/service-account.name".
(** metav1 and corev1 *)
Definition NamespacePublic : string := "kube-public".
Definition NamespaceDefault : string := "default".
Definition ServiceAccountRootCAKey : string := "ca.crt".
Definition ServiceAccountTokenKey : string := "token".

(** ** The resources of a tenant (resources/tenant) *)

Definition NamespaceReconciler (ownerReference : OwnerReference) (ns : Namespace) : error + Namespace :=
  let m := nsp_meta ns in
  let m := with_labels (Some (<[LabelManagedBy := LabelControllerName]> (default ∅ (labels m)))) m in
  inr {| nsp_meta := with_owners [ownerReference] m |}.

Definition ServiceAccountReconciler (sa : ServiceAccount) : error + ServiceAccount := inr sa.

Definition tenant_rules : list PolicyRule :=
  [ {| pol_apiGroups := ["kubelb.k8c.io"];
       pol_resources := ["loadbalancers"; "routes"; "addresses"; "syncsecrets"];
       pol_verbs := ["create"; "update"; "get"; "list"; "delete"; "patch"; "watch"] |};
    {| pol_apiGroups := ["kubelb.k8c.io"];
       pol_resources := ["tenantstates"];
       pol_verbs := ["get"; "list"; "watch"] |};
    {| pol_apiGroups := ["kubelb.k8c.io"];
       pol_resources := ["tenantstates/status"];
       pol_verbs := ["get"] |};
    {| pol_apiGroups := ["kubelb.k8c.io"];
       pol_resources := ["loadbalancers/status"; "routes/status"; "addresses/status"; "syncsecrets/status"];
       pol_verbs := ["update"; "get"; "patch"] |} ].
Definition RoleReconciler (r : Role) : error + Role :=
  inr {| role_meta := role_meta r; role_rules := tenant_rules |}.

Definition RoleBindingReconciler (ns : string) (rb : RoleBinding) : error + RoleBinding :=
  inr {| rb_meta := rb_meta rb;
         rb_roleRef := {| rref_apiGroup := "rbac.authorization.k8s.io"; rref_kind := "Role"; rref_name := roleName |};
         rb_subjects := [{| sub_kind := "ServiceAccount"; sub_name := serviceAccountName; sub_namespace := ns |}] |}.

Definition SecretReconciler (s : Secret) : error + Secret :=
  inr {| sec_meta := with_annotations (Some {[ serviceAccountTokenAnnotation := serviceAccountName ]}) (sec_meta s);
         sec_immutable := sec_immutable s; sec_data := sec_data s; sec_stringData := sec_stringData s;
         sec_type := serviceAccountTokenType |}.

Definition TenantKubeconfigSecretReconciler (data : string) (s : Secret) : error + Secret :=
  inr {| sec_meta := sec_meta s; sec_immutable := sec_immutable s; sec_data := Some {[ "kubelb" := data ]};
         sec_stringData := sec_stringData s; sec_type := sec_type s |}.

(** The objects to delete, in order. *)
Definition Deletion (ns : string) : list (Effects.kind * string * string) :=
  [ (KServiceAccount, ns, serviceAccountName);
    (KRole, ns, roleName);
    (KRoleBinding, ns, roleBindingName);
    (KSecret, ns, ServiceAccountTokenSecretName);
    (KSecret, ns, KubeLBCCMKubeconfigSecretName);
    (KNamespace, "", ns) ].

(** ** The kubeconfig *)

(** [kubeconfigTemplate], executed by [html/template]. *)
Definition kubeconfig (caCertificate serverURL ns token : string) : string :=
  "apiVersion: v1
kind: Config
clusters:
- name: kubelb-cluster
  cluster:
    certificate-authority-data: " +:+ html_escape caCertificate +:+ "
    server: " +:+ html_escape serverURL +:+ "
contexts:
- name: default-context
  context:
    cluster: kubelb-cluster
    namespace: " +:+ html_escape ns +:+ "
    user: default-user
current-context: default-context
users:
- name: default-user
  user:
    token: " +:+ html_escape token +:+ "
".

(** Of a [clientcmdapi.Config], the servers of its clusters, in the order in which the
    map is iterated. *)
Definition clientcmdConfig : Type := list string.

(** [version.GetVersion]; the first three are set by the linker. *)
Record build_info := { GitVersion : string; GitCommit : string; BuildDate : string }.
Definition Edition : string := "CE".
Definition GetVersion (b : build_info) : Version :=
  {| v_gitVersion := GitVersion b; v_gitCommit := GitCommit b; v_buildDate := BuildDate b; v_edition := Edition |}.

Record TenantReconciler := { tr_host : string; tr_namespace : string; tr_build : build_info }.

Section tenant_controller.
(** [clientcmd.Load]; [controllerutil.SetControllerReference]. *)
Context `{Finalizers} `{IPv6} (load : string → error + clientcmdConfig)
  (setControllerReference : Tenant → ObjectMeta → error + ObjectMeta) (r : TenantReconciler).

Definition getKubeconfigFromConfigMap : prog (outcome clientcmdConfig) :=
  cm <-! perform (Get KConfigMap NamespacePublic configMapName) ;;
  match contents (cm_data cm) !! "kubeconfig" with
  | None => fail (Errorf "no kubeconfig found in cluster-info configmap")
  | Some data => Ret (load data)
  end.

Definition getSecurePort (ports : list SlicePort) : option SlicePort :=
  list_find (λ p, slp_name p = Some securePortName) ports ≫= λ ip, Some ip.2.

Definition buildKubeconfigFromEndpoint : prog (outcome clientcmdConfig) :=
  endpointSlice <-! perform (Get KEndpointSlice NamespaceDefault kubernetesEndpointsName) ;;
  match es_endpoints endpointSlice with
  | [] => fail (Errorf "no endpoints in the kubernetes endpointslice resource")
  | endpoint :: _ =>
      match se_addresses endpoint with
      | [] => fail (Errorf "no addresses in the first endpoint of the kubernetes endpointslice resource")
      | address :: _ =>
          match ParseIP address with
          | None => fail (Errorf "could not parse ip from endpoint address")
          | Some ip =>
              match getSecurePort (es_ports endpointSlice) ≫= slp_port with
              | None => fail (Errorf "no secure port in the endpointslice")
              | Some port => ok ["https://" +:+ JoinHostPort ip (pretty port)]
              end
          end
      end
  end.

Definition GetKubeconfig : prog (outcome clientcmdConfig) :=
  cm ← getKubeconfigFromConfigMap;
  match cm with
  | inl _ => buildKubeconfigFromEndpoint
  | inr conf => ok conf
  end.

Definition server_url (conf : clientcmdConfig) : string :=
  default (tr_host r) (snd <$> list_find (λ server, server ≠ "") conf).

Definition generateKubeconfig (ns : string) : prog (outcome string) :=
  secret <-["failed to get ServiceAccount token Secret"] perform (Get KSecret ns ServiceAccountTokenSecretName) ;;
  conf <-["failed to compute the server URL for kubeconfig"] GetKubeconfig ;;
  let ca := get_str (sec_data secret) ServiceAccountRootCAKey in
  let token := get_str (sec_data secret) ServiceAccountTokenKey in
  if decide (token = "") then fail (Errorf "failed to get ServiceAccount token")
  else if decide (ca = "") then fail (Errorf "failed to get CA certificate")
  else ok (kubeconfig (base64_string ca) (server_url conf) ns token).

(** ** The tenant state *)

Definition buildTenantState (tenant : Tenant) (currentVersion : Version) (existingConditions : list Condition)
    : prog TenantStateStatus :=
  now ← perform Now;
  config ← GetConfig (tr_namespace r);
  disable ←
    (if lbs_disable (ts_loadBalancer (tn_spec tenant)) then Ret true
     else match config with
          | inl _ => Crash
          | inr config => Ret (lbs_disable (cs_loadBalancer (cf_spec config)))
          end);
  Ret {| tss_version := currentVersion; tss_lastUpdated := now; tss_conditions := existingConditions;
         tss_loadBalancer := {| lbst_disable := disable |} |}.

Definition shouldUpdateStatus (current newTenantStatus : TenantStateStatus) : bool :=
  if bool_decide (tss_version current ≠ tss_version newTenantStatus) ||
     bool_decide (tss_loadBalancer current ≠ tss_loadBalancer newTenantStatus) then true
  else if negb (bool_decide (tss_conditions current = tss_conditions newTenantStatus)) then true
  else false.

Definition with_tst_status (s : TenantStateStatus) (o : TenantState) : TenantState :=
  {| tst_meta := tst_meta o; tst_status := s |}.

Definition own_tenant_state (tenant : Tenant) (o : TenantState) : error + TenantState :=
  m ← setControllerReference tenant (tst_meta o); inr {| tst_meta := m; tst_status := tst_status o |}.

Definition reconcileTenantState (tenant : Tenant) (ns : string) : prog (outcome unit) :=
  tenantState <-! perform (CreateOrUpdate KTenantState ns TenantStateName (own_tenant_state tenant)) ;;
  newStatus ← buildTenantState tenant (GetVersion (tr_build r)) (tss_conditions (tst_status tenantState));
  if shouldUpdateStatus (tst_status tenantState) newStatus then
    _ <-["failed to update TenantState status"] perform (StatusUpdate KTenantState (with_tst_status newStatus tenantState)) ;;
    ok ()
  else ok ().

(** ** Reconciling *)

Definition tenant_owner (tenant : Tenant) : OwnerReference :=
  {| or_apiVersion := apiVersion (tn_type tenant); or_kind := Core.kind (tn_type tenant);
     or_name := name (tn_meta tenant); or_uid := uid (tn_meta tenant); or_controller := None |}.

Definition reconcile_tenant (tenant : Tenant) : prog (outcome unit) :=
  let ns := tenantNamespacePattern (name (tn_meta tenant)) in
  _ <-["failed to reconcile namespace"] ensure KNamespace "" ns (NamespaceReconciler (tenant_owner tenant)) ;;
  _ <-["failed to reconcile service account"] ensure KServiceAccount ns serviceAccountName ServiceAccountReconciler ;;
  _ <-["failed to reconcile role"] ensure KRole ns roleName RoleReconciler ;;
  _ <-["failed to reconcile role binding"] ensure KRoleBinding ns roleBindingName (RoleBindingReconciler ns) ;;
  _ <-["failed to reconcile secret"] ensure KSecret ns ServiceAccountTokenSecretName SecretReconciler ;;
  tenantKubeconfig <-["failed to generate kubeconfig"] generateKubeconfig ns ;;
  _ <-["failed to reconcile kubeLB tenant kubeconfig secret"]
    ensure KSecret ns KubeLBCCMKubeconfigSecretName (TenantKubeconfigSecretReconciler tenantKubeconfig) ;;
  _ <-["failed to reconcile TenantState"] reconcileTenantState tenant ns ;;
  ok ().

(** ** Cleaning up *)

Definition delete_all (k : Effects.kind) (ns msg : string) : prog (outcome unit) :=
  e ← perform (DeleteAllOf k ns); match e with Some e => fail (Wrapf msg e) | None => ok () end.

(** The list must be empty. *)
Definition ensure_none (k : Effects.kind) (ns listMsg existMsg : string) : prog (outcome unit) :=
  items <-[listMsg] perform (ListIn k (Some ns) ∅) ;;
  if decide (0 < length items) then fail (Errorf existMsg) else ok ().

Definition cleanupResources (ns : string) : prog (outcome unit) :=
  _ <-! delete_all KRoute ns "failed to delete Routes" ;;
  _ <-! delete_all KLoadBalancer ns "failed to delete LoadBalancers" ;;
  _ <-! delete_all KSyncSecret ns "failed to delete SyncSecrets" ;;
  _ <-! ensure_none KRoute ns "failed to list HTTPRoutes" "routes still exist" ;;
  _ <-! ensure_none KLoadBalancer ns "failed to list LoadBalancers" "loadbalancers still exist" ;;
  ensure_none KSyncSecret ns "failed to list SyncSecrets" "syncsecrets still exist".

Fixpoint delete_resources (resources : list (Effects.kind * string * string)) : prog (outcome unit) :=
  match resources with
  | [] => ok ()
  | (k, ns, n) :: resources =>
      _ <-! delete_ignoring k ns n
              (Wrapf "failed to ensure kubeLB resources are removed/not present on management cluster") ;;
      delete_resources resources
  end.

Definition cleanup_contents (ns : string) : prog (outcome unit) :=
  _ <-["failed to cleanup resources"] cleanupResources ns ;;
  delete_resources (Deletion ns).

Definition cleanup_tenant (tenant : Tenant) : prog (outcome bool) :=
  _ <-! cleanup_contents (tenantNamespacePattern (name (tn_meta tenant))) ;;
  release (k:=KTenant) CleanupFinalizer tenant.

(** ** The handler *)

(** The list of tenants only goes into a metric. *)
Definition reconcile_and_count (tenant : Tenant) : prog (outcome bool) :=
  _ <-! reconcile_tenant tenant ;;
  _ ← perform (ListIn KTenant None ∅);
  ok false.

Definition ReconcileTenant (req : NamespacedName) : prog (outcome bool) :=
  reconcile_finalized (k:=KTenant) CleanupFinalizer cleanup_tenant reconcile_and_count req.
End tenant_controller.

(** ** Reading the kubeconfig *)

Definition newline : ascii := ascii_of_nat 10.

(** The rest of the first line that starts with [key], as a reader of the file finds a
    scalar. *)
Definition line_value (key text : string) : option string :=
  (λ iw, TrimPrefix iw.2 key) <$> list_find (λ w, HasPrefix w key = true) (Split text newline).

Definition kubeconfig_lines (ca url ns token : string) : list string :=
  ["apiVersion: v1"; "kind: Config"; "clusters:"; "- name: kubelb-cluster"; "  cluster:";
   "    certificate-authority-data: " +:+ ca; "    server: " +:+ url;
   "contexts:"; "- name: default-context"; "  context:"; "    cluster: kubelb-cluster";
   "    namespace: " +:+ ns; "    user: default-user"; "current-context: default-context";
   "users:"; "- name: default-user"; "  user:"; "    token: " +:+ token; ""].

Lemma kubeconfig_join ca url ns token :
  kubeconfig ca url ns token =
    Join (kubeconfig_lines (html_escape ca) (html_escape url) (html_escape ns) (html_escape token)) newline.
Proof. unfold kubeconfig, kubeconfig_lines. cbn [Join]. rewrite !sapp_assoc. reflexivity. Qed.

Lemma html_escape_lacks s : lacks newline s = true → lacks newline (html_escape s) = true.
Proof.
  induction s as [|c s IH]; [done|]. simpl. rewrite andb_true_iff, negb_true_iff, bool_decide_eq_false.
  intros [Hc Hs]. rewrite lacks_app, (IH Hs), andb_true_r. unfold html_replacement.
  repeat (case_decide; [done|]). simpl. by rewrite bool_decide_false.
Qed.

Lemma kubeconfig_split ca url ns token :
  lacks newline ca = true → lacks newline url = true → lacks newline ns = true → lacks newline token = true →
  Split (kubeconfig ca url ns token) newline =
    kubeconfig_lines (html_escape ca) (html_escape url) (html_escape ns) (html_escape token).
Proof.
  intros Hca Hurl Hns Htok. rewrite kubeconfig_join. apply Split_Join; [done|].
  repeat constructor; rewrite ?lacks_app, ?html_escape_lacks; done.
Qed.

Lemma line_value_kubeconfig ca url ns token :
  lacks newline ca = true → lacks newline url = true → lacks newline ns = true → lacks newline token = true →
  line_value "    certificate-authority-data: " (kubeconfig ca url ns token) = Some (html_escape ca) ∧
  line_value "    server: " (kubeconfig ca url ns token) = Some (html_escape url) ∧
  line_value "    namespace: " (kubeconfig ca url ns token) = Some (html_escape ns) ∧
  line_value "    token: " (kubeconfig ca url ns token) = Some (html_escape token).
Proof.
  intros. unfold line_value. rewrite kubeconfig_split by done. by split_and!.
Qed.

(** C26: the kubeconfig says what it was made from: a reader of the generated file finds
    under the certificate authority a text that decodes to the bytes of the CA certificate
    of the token Secret (in ASCII without > and ~, as PEM is), and under server, namespace
    and token exactly the given values if and only if they have no byte that the HTML
    template escapes. *)
Theorem kubeconfig_round_trip ca url ns token :
  all_bytes plus_free ca = true →
  lacks newline url = true → lacks newline ns = true → lacks newline token = true →
  let text := kubeconfig (base64_string ca) url ns token in
  (∃ b, line_value "    certificate-authority-data: " text = Some b ∧
     base64_decode (String.list_ascii_of_string b) = Some (String.list_ascii_of_string ca)) ∧
  (line_value "    server: " text = Some url ↔ all_bytes html_plain url = true) ∧
  (line_value "    namespace: " text = Some ns ↔ all_bytes html_plain ns = true) ∧
  (line_value "    token: " text = Some token ↔ all_bytes html_plain token = true).
Proof.
  intros Hca Hurl Hns Htok text.
  assert (lacks newline (base64_string ca) = true) as Hb by (apply base64_string_lacks; [done|computed]).
  destruct (line_value_kubeconfig (base64_string ca) url ns token) as (Eca & Eurl & Ens & Etok); [done..|].
  fold text in Eca, Eurl, Ens, Etok. rewrite Eca, Eurl, Ens, Etok, <- !html_escape_exact. split_and!.
  - eexists. split; [done|]. rewrite (proj2 (html_escape_exact _)); [apply base64_string_decode|].
    by apply base64_string_plain.
  - split; congruence.
  - split; congruence.
  - split; congruence.
Qed.

Lemma kubeconfig_round_trip_witness :
  let text := kubeconfig (base64_string "-----BEGIN CERTIFICATE-----") "https://10.0.0.1:6443" "tenant-a" "eyJhbGciOi.J9" in
  (∃ b, line_value "    certificate-authority-data: " text = Some b ∧
     base64_decode (String.list_ascii_of_string b) = Some (String.list_ascii_of_string "-----BEGIN CERTIFICATE-----")) ∧
  line_value "    token: " text = Some "eyJhbGciOi.J9".
Proof.
  intros text.
  destruct (kubeconfig_round_trip "-----BEGIN CERTIFICATE-----" "https://10.0.0.1:6443" "tenant-a" "eyJhbGciOi.J9")
    as (Hca & _ & _ & Htok); [reflexivity..|].
  split; [exact Hca|]. apply Htok. reflexivity.
Defined.

(** A server URL with an ampersand is changed by the template. *)
Example kubeconfig_escapes :
  line_value "    server: " (kubeconfig "" "https://lb/?a=1&b=2" "tenant-a" "t") = Some "https://lb/?a=1&amp;b=2".
Proof. reflexivity. Qed.

(** ** Finalizers come first, and go last *)

(** The calls that put something there for a tenant. *)
Definition takes_tenant (c : call) : bool :=
  existsb (λ k, puts_kind k c) [KNamespace; KServiceAccount; KRole; KRoleBinding; KSecret; KTenantState].

(** The Routes, LoadBalancers and SyncSecrets of the namespace were deleted and then
    found to be gone, in [l]. *)
Definition drained (ns : string) (l : list event) : Prop :=
  ∀ k, k ∈ [KRoute; KLoadBalancer; KSyncSecret] →
  ∃ a b c, l = a ++ existT (DeleteAllOf k ns) None :: b ++ existT (ListIn k (Some ns) ∅) (inr []) :: c.

(** First the contents of the namespace, then the resources of the tenant. *)
Definition tenant_removed (ns : string) (l : list event) : Prop :=
  ∃ l1 l2, l = l1 ++ l2 ∧ drained ns l1 ∧ Forall (λ x, gone x.1.1 x.1.2 x.2 l2) (Deletion ns).

Lemma delete_resources_calls (P : call → Prop) resources :
  Forall (λ x, P (Delete x.1.1 x.1.2 x.2)) resources → only_calls P (delete_resources resources).
Proof.
  induction 1 as [|[[k ns] n] l Hx _ IH]; [done|]. cbn [delete_resources].
  apply only_calls_try; [by apply only_calls_delete|done].
Qed.

Lemma cleanup_contents_calls (P : call → Prop) ns :
  Forall (λ k, P (DeleteAllOf k ns)) [KRoute; KLoadBalancer; KSyncSecret] → (∀ k, P (ListIn k (Some ns) ∅)) → Forall (λ x, P (Delete x.1.1 x.1.2 x.2)) (Deletion ns) →
  only_calls P (cleanup_contents ns).
Proof.
  rewrite !list.Forall_cons. intros (? & ? & ? & _) Hl HD.
  unfold cleanup_contents, cleanupResources, delete_all, ensure_none. solve_calls; auto.
  by apply delete_resources_calls.
Qed.

Lemma delete_resources_runs resources log :
  all_runs (delete_resources resources)
    (λ log' res, ∃ l, log' = log ++ l ∧
       ((res = Done (inr ()) ∧ Forall (λ x, gone x.1.1 x.1.2 x.2 l) resources) ∨ ∃ e, res = Done (inl e))) log.
Proof.
  revert log. induction resources as [|[[k ns] n] l IH]; intros log.
  { simpl. exists []. rewrite app_nil_r. split; [done|]. by left. }
  cbn [delete_resources]. apply all_runs_try.
  refine (all_runs_mono _ _ _ _ _ (all_runs_shift _ _ log (delete_ignoring_runs k ns n _ []))).
  intros log1 res (l1 & -> & a & -> & [[-> Hg]|[e ->]]); [|eexists; split; [done|right; by eexists]].
  refine (all_runs_mono _ _ _ _ _ (IH _)). intros log2 res (l2 & -> & Hr). eexists. split; [by rewrite <- app_assoc|].
  destruct Hr as [[-> Hl]|[e ->]]; [left|right; by eexists]. split; [done|].
  constructor; [by apply gone_app|]. eapply list.Forall_impl; [exact Hl|].
  intros x. unfold gone. rewrite !elem_of_app. setoid_rewrite elem_of_app. naive_solver.
Qed.

Lemma delete_all_runs k ns msg log :
  all_runs (delete_all k ns msg)
    (λ log' res, (res = Done (inr ()) ∧ log' = log ++ [existT (DeleteAllOf k ns) None]) ∨ ∃ e, res = Done (inl e)) log.
Proof. intros [e|]; simpl; [right; by eexists|by left]. Qed.

Lemma ensure_none_runs k ns m1 m2 log :
  all_runs (ensure_none k ns m1 m2)
    (λ log' res, (res = Done (inr ()) ∧ log' = log ++ [existT (ListIn k (Some ns) ∅) (inr [])]) ∨ ∃ e, res = Done (inl e)) log.
Proof.
  unfold ensure_none. apply all_runs_try_wrap. intros [e|[|o l]]; simpl; [right; by eexists|by left|right; by eexists].
Qed.

(** A first step that either fails or adds one event. *)
Lemma step_one {A} (p : prog (outcome unit)) (f : unit → prog (outcome A)) (Q : list event → go (outcome A) → Prop) e log :
  all_runs p (λ log' res, (res = Done (inr ()) ∧ log' = log ++ [e]) ∨ ∃ e, res = Done (inl e)) log →
  (∀ log e, Q log (Done (inl e))) → all_runs (f ()) Q (log ++ [e]) → all_runs (try p f) Q log.
Proof.
  intros Hp HQ Hf. apply all_runs_try. refine (all_runs_mono _ _ _ _ _ Hp).
  by intros log' res [[-> ->]|[x ->]].
Qed.

Lemma cleanupResources_runs ns :
  all_runs (cleanupResources ns) (λ log res, (res = Done (inr ()) ∧ drained ns log) ∨ ∃ e, res = Done (inl e)) [].
Proof.
  unfold cleanupResources.
  eapply step_one; [apply delete_all_runs|by right; eexists|].
  eapply step_one; [apply delete_all_runs|by right; eexists|].
  eapply step_one; [apply delete_all_runs|by right; eexists|].
  eapply step_one; [apply ensure_none_runs|by right; eexists|].
  eapply step_one; [apply ensure_none_runs|by right; eexists|].
  refine (all_runs_mono _ _ _ _ _ (ensure_none_runs _ _ _ _ _)). simpl.
  intros log res [[-> ->]|[e ->]]; [left|right; by eexists]. split; [done|].
  intros k. rewrite !elem_of_cons, elem_of_nil. intros [->|[->|[->|[]]]].
  - by exists [], [existT (DeleteAllOf KLoadBalancer ns) None; existT (DeleteAllOf KSyncSecret ns) None],
      [existT (ListIn KLoadBalancer (Some ns) ∅) (inr []); existT (ListIn KSyncSecret (Some ns) ∅) (inr [])].
  - by exists [existT (DeleteAllOf KRoute ns) None],
      [existT (DeleteAllOf KSyncSecret ns) None; existT (ListIn KRoute (Some ns) ∅) (inr [])],
      [existT (ListIn KSyncSecret (Some ns) ∅) (inr [])].
  - by exists [existT (DeleteAllOf KRoute ns) None; existT (DeleteAllOf KLoadBalancer ns) None],
      [existT (ListIn KRoute (Some ns) ∅) (inr []); existT (ListIn KLoadBalancer (Some ns) ∅) (inr [])], [].
Qed.

Lemma cleanup_contents_runs ns :
  all_runs (cleanup_contents ns)
    (λ log res, match res with Done (inr _) => tenant_removed ns log | Done (inl _) => True | Panics => False end) [].
Proof.
  unfold cleanup_contents. apply all_runs_try_wrap. refine (all_runs_mono _ _ _ _ _ (cleanupResources_runs ns)).
  intros log res [[-> Hd]|[e ->]]; [|done]. refine (all_runs_mono _ _ _ _ _ (delete_resources_runs _ _)).
  intros log' res (l & -> & [[-> Hg]|[e ->]]); [|done]. by exists log, l.
Qed.
(** the tenant controller puts nothing there that it could not clean up: in every
    run, whatever the API server answers, a namespace, service account, role, binding,
    Secret or tenant state is written only once the API server has the Tenant with the
    cleanup finalizer. *)
Theorem ReconcileTenant_finalizer_first `{FinalizerLaws} `{IPv6} load setControllerReference r req :
  all_runs (ReconcileTenant load setControllerReference r req)
    (λ log _, guarded (stored_meta_of KTenant) CleanupFinalizer takes_tenant log) [].
Proof.
  apply frame_guarded; try done. intros o. unfold cleanup_tenant.
  apply only_calls_try; [|intros _; unfold release; solve_calls].
  apply cleanup_contents_calls; [by repeat constructor|done|by repeat constructor].
Qed.

(** A Tenant is given up last: cleaning up never panics; the update that removes the
    finalizer of the Tenant is the last call, and is sent only after the Routes,
    LoadBalancers and SyncSecrets of the namespace were deleted and then, in a list, found
    to be gone, and after that the service account, role, binding, both Secrets and the
    namespace were each deleted or found to be gone; when cleanup reports success, that
    update was accepted. *)
Theorem cleanup_tenant_releases_last `{Finalizers} tenant :
  all_runs (cleanup_tenant tenant)
    (released_last (k:=KTenant) CleanupFinalizer
       (tenant_removed (tenantNamespacePattern (name (tn_meta tenant)))) tenant) [].
Proof.
  apply release_last.
  - apply cleanup_contents_calls; [by repeat constructor|done|by repeat constructor].
  - apply cleanup_contents_runs.
Qed.

(** ** The tenant state *)

(** C40: when the tenant state is built, the code panics exactly when the Config could not
    be read and the Tenant does not disable load balancers itself; otherwise load balancers
    are reported disabled exactly when the Tenant or the Config says so, and the conditions
    are kept. *)
Theorem buildTenantState_spec r tenant v conditions :
  all_runs (buildTenantState r tenant v conditions)
    (λ log res, ∃ now got,
       log = [existT Now now; existT (Get KConfig (tr_namespace r) DefaultConfigResourceName) got] ∧
       (res = Panics ↔ (∃ e, got = inl e) ∧ lbs_disable (ts_loadBalancer (tn_spec tenant)) = false) ∧
       ∀ st, res = Done st →
         tss_version st = v ∧ tss_conditions st = conditions ∧
         (lbst_disable (tss_loadBalancer st) = true ↔
            lbs_disable (ts_loadBalancer (tn_spec tenant)) = true ∨
            ∃ config, got = inr config ∧ lbs_disable (cs_loadBalancer (cf_spec config)) = true)) [].
Proof.
  unfold buildTenantState. apply all_runs_perform. intros now. apply all_runs_perform. intros got.
  destruct (lbs_disable (ts_loadBalancer (tn_spec tenant))), got as [e|config]; simpl; exists now; eexists; (split; [done|]).
  all: split; [naive_solver|]. all: intros st; try done; intros [= <-]; simpl; naive_solver.
Qed.

(** Applying the status again changes nothing: the time of the update is not compared. *)
Lemma shouldUpdateStatus_settles st now :
  shouldUpdateStatus {| tss_version := tss_version st; tss_lastUpdated := now; tss_conditions := tss_conditions st;
                        tss_loadBalancer := tss_loadBalancer st |} st = false.
Proof. unfold shouldUpdateStatus. simpl. rewrite !(bool_decide_false (_ ≠ _)) by (intros []; done). by rewrite bool_decide_true. Qed.
