(* ===== verification/BridgeService.v ===== *)
(** * The bridge-service controller (internal/controllers/kubelb/bridgeservice_controller.go)

    In the global topology Envoy runs in the controller's namespace while the Services of
    a route are in the tenant's.  Those Services have no selector; a bridge Service in the
    controller's namespace selects Envoy, and this controller writes the EndpointSlice that
    sends the traffic of the tenant's Service to the cluster IPs of the bridge. *)
From stdpp Require Import base gmap list strings.
From S2P Require Import Prelude GoStrings Api Names Annotations NetApi Effects Guards Predicates Objects Finalized ApiServer Services.
Import Core V1alpha1.

(** discovery/v1 *)
Definition LabelServiceName : string := "kubernetes.io/service-name".
Definition AddressTypeIPv4 : string := "IPv4".

Section bridge.
Context `{SemanticDeepEqual (gomap string)}.

Definition slice_port (port : ServicePort) : SlicePort :=
  {| slp_name := Some (sp_name port); slp_port := Some (IntVal (sp_targetPort port)); slp_protocol := Some (sp_protocol port) |}.

Definition service_owner (s : Service) : OwnerReference :=
  {| or_apiVersion := apiVersion (svc_type s); or_kind := Core.kind (svc_type s); or_name := name (svc_meta s);
     or_uid := uid (svc_meta s); or_controller := Some true |}.

(** The slice for the Service [originalService], which the bridge [object] names in its
    labels. *)
Definition bridge_slice (object originalService : Service) : EndpointSlice :=
  let n := get_str (labels (svc_meta object)) LabelOriginName in
  let ns := get_str (labels (svc_meta object)) LabelOriginNamespace in
  {| es_meta := with_owners [service_owner originalService]
       (with_labels (Some (<[LabelServiceName := n]> (AddKubeLBLabels (Some ∅) n ns "Service")))
          (with_identity n ns "" zero_meta));
     es_addressType := AddressTypeIPv4;
     es_endpoints := [{| se_addresses := ss_clusterIPs (svc_spec object); se_ready := Some true |}];
     es_ports := foldl (λ ports port, ports ++ [slice_port port]) [] (ss_ports (svc_spec originalService)) |}.

Definition same_slice (obj existing : EndpointSlice) : bool :=
  bool_decide (es_ports existing = es_ports obj) && bool_decide (es_endpoints existing = es_endpoints obj) &&
  semantic_deep_equal (labels (es_meta existing)) (labels (es_meta obj)).

Definition versioned_slice (obj existing : EndpointSlice) : EndpointSlice :=
  {| es_meta := with_version (resourceVersion (es_meta existing)) (uid (es_meta existing)) (es_meta obj);
     es_addressType := es_addressType obj; es_endpoints := es_endpoints obj; es_ports := es_ports obj |}.

Definition CreateOrUpdateEndpointSlice (obj : EndpointSlice) : prog (outcome unit) :=
  create_or_update KEndpointSlice (namespace (es_meta obj)) (name (es_meta obj)) obj (same_slice obj) (versioned_slice obj)
    "failed to get EndpointSlice" "failed to create EndpointSlice" "failed to update EndpointSlice".

Definition reconcile_bridge (object : Service) : prog (outcome unit) :=
  let n := get_str (labels (svc_meta object)) LabelOriginName in
  let ns := get_str (labels (svc_meta object)) LabelOriginNamespace in
  originalService <-["failed to get original service"] perform (Get KService ns n) ;;
  CreateOrUpdateEndpointSlice (bridge_slice object originalService).

Definition ReconcileBridgeService (req : NamespacedName) : prog (outcome unit) :=
  r ← perform (Get KService (nn_namespace req) (nn_name req));
  match r with
  | inl e => if IsNotFound e then ok () else fail e
  | inr resource =>
      if decide (deletionTimestamp (svc_meta resource) ≠ None) then ok () else reconcile_bridge resource
  end.
End bridge.

(** The controller watches the Services with the label of a bridge. *)
Definition bridgePredicate : Funcs ObjectMeta := ByLabel LabelAppKubernetesType LabelBridgeService.

(** ** The way through the bridge *)

Lemma slice_ports_eq ports : foldl (λ l port, l ++ [slice_port port]) [] ports = slice_port <$> ports.
Proof.
  assert (∀ acc, foldl (λ l port, l ++ [slice_port port]) acc ports = acc ++ (slice_port <$> ports)) as H; [|apply H].
  induction ports as [|p ports IH]; intros acc; simpl; [by rewrite app_nil_r|]. by rewrite IH, <- app_assoc.
Qed.

(** A bridge as the API server has it: what the route controller generated, with cluster
    IPs of its own. *)
Definition stored_bridge (original : Service) (app controllerNamespace : string) (b : Service) : Prop :=
  let d := GenerateBridgeService original app controllerNamespace in
  obj_key (k:=KService) b = obj_key (k:=KService) d ∧ labels (svc_meta b) = labels (svc_meta d) ∧
  ss_ports (svc_spec b) = ss_ports (svc_spec d) ∧ ss_selector (svc_spec b) = ss_selector (svc_spec d).

(** [slice] sends what arrives at [p] to [ip]:[port]. *)
Definition routes_to (slice : EndpointSlice) (p : ServicePort) (ip : string) (port : Z) : Prop :=
  (∃ q, q ∈ es_ports slice ∧ slp_name q = Some (sp_name p) ∧ slp_protocol q = Some (sp_protocol p) ∧ slp_port q = Some port) ∧
  ∃ e, e ∈ es_endpoints slice ∧ se_ready e = Some true ∧ ip ∈ se_addresses e.

(** C23: the bridge carries the traffic of a tenant's Service to Envoy: after the controller
    ran on the bridge the route controller generated for a Service, the tenant's namespace
    has an EndpointSlice that belongs to the Service (by its service-name label); for each
    port of the Service with target port [v] it sends the traffic to every cluster IP of the
    bridge at [v], where the bridge has a port that goes on to port [v] of the pods of
    Envoy; and the controller has nothing left to write. *)
Theorem bridge_data_path `{SemanticMaps} w (original b : Service) app controllerNamespace :
  let req := {| nn_namespace := controllerNamespace; nn_name := name (svc_meta original) |} in
  let key := obj_key (k:=KService) original in
  objs w KService !! key = Some original →
  objs w KService !! (controllerNamespace, name (svc_meta original)) = Some b →
  stored_bridge original app controllerNamespace b → deletionTimestamp (svc_meta b) = None →
  (∀ o, objs w KEndpointSlice !! key = Some o → deletionTimestamp (es_meta o) = None) →
  let w' := exec (ReconcileBridgeService req) w in
  answer (ReconcileBridgeService req) w = Done (inr ()) ∧
  (∃ slice, objs w' KEndpointSlice !! key = Some slice ∧
     contents (labels (es_meta slice)) !! LabelServiceName = Some (name (svc_meta original)) ∧
     (∀ p v ip, p ∈ ss_ports (svc_spec original) → sp_targetPort p = FromInt v → ip ∈ ss_clusterIPs (svc_spec b) →
        routes_to slice p ip v ∧
        ∃ q, q ∈ ss_ports (svc_spec b) ∧ sp_port q = v ∧ sp_targetPort q = FromInt v ∧ sp_protocol q = sp_protocol p) ∧
     contents (ss_selector (svc_spec b)) = {[ LabelAppKubernetesName := app ]}) ∧
  exec (ReconcileBridgeService req) w' = w'.
Proof.
  intros req key Ho Hb (Hkey & Hl & Hp & Hsel) Hd Hlive w'. destruct key as [ns n] eqn:Ek. injection Ek as Ens En.
  set (d := bridge_slice b original).
  assert (get_str (labels (svc_meta b)) LabelOriginName = n) as Hn by (rewrite Hl; exact En).
  assert (get_str (labels (svc_meta b)) LabelOriginNamespace = ns) as Hns by (rewrite Hl; exact Ens).
  assert (∀ w0, objs w0 KService = objs w KService → ∃ l,
    run api_server (ReconcileBridgeService req) w0 [] = run api_server (CreateOrUpdateEndpointSlice d) w0 l) as Hstep.
  { intros w0 E. unfold ReconcileBridgeService. cbn [mbind prog_bind prog_bind_ perform run req nn_namespace nn_name].
    rewrite (api_get (k:=KService) w0 _ _ b) by by rewrite E. rewrite decide_False by (intros []; done).
    unfold reconcile_bridge, try_wrap. rewrite Hn, Hns. cbn [mbind prog_bind prog_bind_ perform run].
    rewrite (api_get (k:=KService) w0 ns n original) by by rewrite E. by eexists. }
  destruct (Hstep w eq_refl) as (l & E). unfold w', answer, exec. rewrite E.
  unfold CreateOrUpdateEndpointSlice in *.
  assert (name (es_meta d) = n) as Hdn by exact Hn. assert (namespace (es_meta d) = ns) as Hdns by exact Hns.
  destruct (run_create_or_update (k:=KEndpointSlice) w l ns n d (same_slice d) (versioned_slice d)
    "failed to get EndpointSlice" "failed to create EndpointSlice" "failed to update EndpointSlice")
    as (w1 & l1 & slice & Hrun & Hin & Hst); [by rewrite <- Hdn, <- Hdns|done|done|exact Hlive|].
  rewrite Hdn, Hdns, Hrun. cbn [fst snd].
  assert (es_ports slice = es_ports d ∧ es_endpoints slice = es_endpoints d ∧
    contents (labels (es_meta slice)) = contents (labels (es_meta d))) as (Ep & Ee & El).
  { destruct Hin as [_|x _ Hs|x _ _]; [done| |done]. unfold same_slice in Hs.
    apply andb_true_iff in Hs as [[Hs1 Hs2]%andb_true_iff Hs3]. apply bool_decide_eq_true in Hs1, Hs2.
    apply semantic_maps in Hs3. by rewrite Hs1, Hs2. }
  split; [done|]. split.
  - exists slice. split; [by apply stores_lookup in Hst|]. rewrite El. split; [|split].
    + simpl. rewrite Hn, lookup_insert_eq. by rewrite <- En.
    + intros p v ip Hpin Hv Hip. split; [split|].
      * exists (slice_port p). rewrite Ep. simpl. rewrite slice_ports_eq, Hv. split; [by apply list_elem_of_fmap; exists p|done].
      * rewrite Ee. eexists. by split; [left|].
      * eexists. rewrite Hp. split; [apply list_elem_of_fmap; by exists p|]. simpl. by rewrite Hv.
    + by rewrite Hsel.
  - destruct (Hstep w1) as (l' & ->); [by rewrite (stores_other _ _ _ _ _ KService Hst)|]. rewrite Hdn, Hdns.
    rewrite (run_create_or_update_same (k:=KEndpointSlice) w1 l' ns n d slice); [done|by apply stores_lookup in Hst|].
    unfold same_slice. rewrite Ep, Ee, !bool_decide_true by done. simpl. by apply semantic_maps.
Qed.

(** A tenant's Service, its bridge with a cluster IP, and nothing else. *)
Definition bridged_service : Service :=
  {| svc_type := {| apiVersion := "v1"; Core.kind := "Service" |};
     svc_meta := with_identity "web" "tenant-a" "uid-s" zero_meta;
     svc_spec := with_ports [{| sp_name := "http"; sp_protocol := ProtocolTCP; sp_port := 80; sp_targetPort := FromInt 10000;
                                sp_nodePort := 0; sp_appProtocol := None |}] zero_spec;
     svc_ingress := None; svc_conditions := "" |}.
Definition bridge_of_service : Service :=
  let d := GenerateBridgeService bridged_service "envoy" "kubelb" in
  {| svc_type := svc_type d; svc_meta := svc_meta d;
     svc_spec := {| ss_ports := ss_ports (svc_spec d); ss_selector := ss_selector (svc_spec d); ss_type := ServiceTypeClusterIP;
                    ss_clusterIP := "10.96.0.7"; ss_clusterIPs := ["10.96.0.7"]; ss_loadBalancerClass := None; ss_ipFamilies := [];
                    ss_ipFamilyPolicy := None; ss_sessionAffinity := ""; ss_externalTrafficPolicy := "";
                    ss_internalTrafficPolicy := None; ss_rest := "" |};
     svc_ingress := None; svc_conditions := "" |}.
Definition bridged_world : world :=
  set_objs KService {[ ("tenant-a", "web") := bridged_service; ("kubelb", "web") := bridge_of_service ]} empty_world.

Lemma bridge_data_path_witness :
  answer (ReconcileBridgeService (H := semantic_by_contents) {| nn_namespace := "kubelb"; nn_name := "web" |}) bridged_world = Done (inr ()).
Proof.
  apply (@bridge_data_path semantic_by_contents semantic_by_contents_maps bridged_world bridged_service bridge_of_service "envoy" "kubelb").
  - unfold bridged_world. rewrite objs_set. apply lookup_insert_eq.
  - unfold bridged_world. rewrite objs_set, lookup_insert_ne by discriminate. apply lookup_singleton_eq.
  - repeat split.
  - reflexivity.
  - intros o. unfold bridged_world. rewrite objs_set_ne by discriminate. simpl. by rewrite lookup_empty.
Defined.
