(* ===== verification/Routes.v ===== *)
(** * Routes (internal/resources/route, internal/resources/unstructured)

    A Route carries a resource of a tenant cluster as unstructured data, with the
    Services it refers to.  [GenerateRoute] makes it on the side of the CCM;
    [ConvertUnstructuredToObject] reads it back on the side of the manager. *)
From stdpp Require Import base gmap list strings.
From S2P Require Import Prelude GoStrings Api Names NetApi Effects.
Import Core V1alpha1.

(** ** apimachinery: group, version and kind, and the converter *)

Record GroupVersionKind := { gvk_group : string; gvk_version : string; gvk_kind : string }.

#[export] Instance GroupVersionKind_eq_dec : EqDecision GroupVersionKind.
Proof. solve_decision. Defined.

Class Scheme := {
  GetGroupVersionKind : TypeMeta → GroupVersionKind;
  GroupKindString : GroupVersionKind → string;
  GroupVersionString : GroupVersionKind → string
}.

(** The objects a Route may hold. *)
Inductive resource :=
  | RIngress (o : Ingress) | RService (o : Service) | RGateway (o : Gateway)
  | RHTTPRoute (o : HTTPRoute) | RGRPCRoute (o : GRPCRoute).

(** [runtime.DefaultUnstructuredConverter.FromUnstructured] into each type. *)
Class UnstructuredConverter := {
  toIngress : Unstructured → error + Ingress;
  toService : Unstructured → error + Service;
  toGateway : Unstructured → error + Gateway;
  toHTTPRoute : Unstructured → error + HTTPRoute;
  toGRPCRoute : Unstructured → error + GRPCRoute
}.

Definition networkingv1 (k : string) := {| gvk_group := "networking.k8s.io"; gvk_version := "v1"; gvk_kind := k |}.
Definition corev1 (k : string) := {| gvk_group := ""; gvk_version := "v1"; gvk_kind := k |}.
Definition gwapiv1 (k : string) := {| gvk_group := "gateway.networking.k8s.io"; gvk_version := "v1"; gvk_kind := k |}.

Section convert.
Context `{Scheme} `{UnstructuredConverter}.

Definition converted {A} (wrap : A → resource) (r : error + A) : error + resource :=
  match r with
  | inl e => inl (Wrapf "failed to convert unstructured to resource" e)
  | inr o => inr (wrap o)
  end.

Definition ConvertUnstructuredToObject (u : Unstructured) : error + resource :=
  let gvk := GetGroupVersionKind (u_type u) in
  if decide (gvk = networkingv1 "Ingress") then converted RIngress (toIngress u)
  else if decide (gvk = corev1 "Service") then converted RService (toService u)
  else if decide (gvk = gwapiv1 "Gateway") then converted RGateway (toGateway u)
  else if decide (gvk = gwapiv1 "HTTPRoute") then converted RHTTPRoute (toHTTPRoute u)
  else if decide (gvk = gwapiv1 "GRPCRoute") then converted RGRPCRoute (toGRPCRoute u)
  else inl (Errorf "unsupported type").

(** ** Creating Routes *)

(** What another cluster needs of the object. *)
Definition NormalizeUnstructured (obj : Unstructured) : Unstructured :=
  {| u_type := u_type obj;
     u_meta :=
       {| name := name (u_meta obj); namespace := namespace (u_meta obj); uid := uid (u_meta obj);
          resourceVersion := ""; labels := labels (u_meta obj);
          annotations := match annotations (u_meta obj) with
                         | Some a => Some (delete LastAppliedConfigAnnotation a)
                         | None => None
                         end;
          finalizers := []; deletionTimestamp := None; ownerReferences := [] |};
     u_spec := u_spec obj |}.

(** The Services of a resource; the reference grants are not used. *)
Definition GenerateRoute (resource : Unstructured) (services : list Service) (ns : string) : Route :=
  {| rt_type := {| apiVersion := ""; Core.kind := "" |};
     rt_meta := with_labels
       (Some {[ LabelOriginNamespace := namespace (u_meta resource);
                LabelOriginName := name (u_meta resource);
                LabelOriginResourceKind := GroupKindString (GetGroupVersionKind (u_type resource));
                LabelManagedBy := LabelControllerName ]})
       (with_identity (uid (u_meta resource)) ns "" zero_meta);
     rt_spec :=
       {| rsp_endpoints := [{| le_name := "default"; le_addresses := [];
                               le_addressesReference := Some {| ref_name := DefaultAddressName; ref_namespace := "" |};
                               le_ports := [] |}];
          rsp_kubernetes := Some {| ks_route := resource; ks_services := ConvertServicesToUpstreamServices services |} |};
     rt_status := {| rrs_source := ""; rrs_services := None;
                     rrs_route := {| rs_apiVersion := ""; rs_kind := ""; rs_name := ""; rs_namespace := "";
                                     rs_generatedName := ""; rs_status := ""; rs_conditions := [] |} |} |}.

Definition CreateUpdateRoute (route : Route) : prog (outcome unit) :=
  create_or_update KRoute (namespace (rt_meta route)) (name (rt_meta route)) route
    (λ existing, bool_decide (rt_spec existing = rt_spec route) &&
                 bool_decide (labels (rt_meta existing) = labels (rt_meta route)) &&
                 bool_decide (annotations (rt_meta existing) = annotations (rt_meta route)))
    (λ existing, {| rt_type := rt_type existing;
                    rt_meta := with_annotations (annotations (rt_meta route))
                                 (with_labels (labels (rt_meta route)) (rt_meta existing));
                    rt_spec := rt_spec route; rt_status := rt_status existing |})
    "failed to get Route from LB cluster" "failed to create Route" "failed to update Route".

Definition CreateRouteForResource (resource : Unstructured) (services : list Service) (ns : string)
    : prog (outcome unit) :=
  CreateUpdateRoute (GenerateRoute resource services ns).
End convert.
