(* ===== verification/RouteController.v ===== *)
(** * The Route controller of the manager (internal/controllers/kubelb/route_controller.go)

    [Reconcile] creates the Services of a Route in the tenant's namespace and then
    the Ingress, Gateway, HTTPRoute or GRPCRoute itself, and records both in the
    status of the Route; [cleanupOrphanedServices] removes Services the Route no
    longer refers to, and [cleanup] everything.  Logging, metrics, events and the
    wiring of the watches are left out. *)
From Stdlib Require Import Ascii.
From stdpp Require Import base gmap fin_maps list strings pretty.
From S2P Require Import Prelude GoStrings Api Names PortAllocator PortAllocatorSpec Annotations LoadBalancers Hostname NetApi Effects Guards Services RouteResources Routes LBController.
Import Core V1alpha1.

Record RouteReconciler := { rr_namespace : string; rr_topology : string; rr_disableGatewayAPI : bool }.

Definition is_global (r : RouteReconciler) : bool := bool_decide (rr_topology r = EnvoyProxyTopologyGlobal).

Definition with_rrs_services (m : gomap RouteServiceStatus) (s : RouteResourcesStatus) : RouteResourcesStatus :=
  {| rrs_source := rrs_source s; rrs_services := m; rrs_route := rrs_route s |}.
Definition with_rrs_route (x : ResourceState) (s : RouteResourcesStatus) : RouteResourcesStatus :=
  {| rrs_source := rrs_source s; rrs_services := rrs_services s; rrs_route := x |}.

(** ** Requests *)

Definition enqueueRoutesForConfig : prog (list NamespacedName) :=
  r ← perform (ListIn KRoute None ∅);
  Ret (match r with inl _ => [] | inr rs => (λ x, request_of (rt_meta x)) <$> rs end).

Definition enqueueRoutesForTenant (tenant : Tenant) : prog (list NamespacedName) :=
  r ← perform (ListIn KRoute (Some (tenantNamespacePattern (name (tn_meta tenant)))) ∅);
  Ret (match r with inl _ => [] | inr rs => (λ x, request_of (rt_meta x)) <$> rs end).

(** ** What is enabled *)

Definition isGatewayAPIDisabled (disableGatewayAPI : bool) (config : Config) (tenant : Tenant) : bool :=
  if disableGatewayAPI then true
  else if ga_disable (cs_gatewayAPI (cf_spec config)) then true
  else ga_disable (ts_gatewayAPI (tn_spec tenant)).

Section reconciler.
Context `{Unicode} `{Finalizers} `{Scheme} `{UnstructuredConverter}.
Context `{SemanticDeepEqual ServiceSpec} `{SemanticDeepEqual (gomap string)} `{SemanticDeepEqual IngressSpec}.
Context `{SemanticDeepEqual GatewayRouteSpec} `{SemanticDeepEqual GatewaySpec}.
(** [err.Error()]; [json.Marshal] of the status of a Service and of the others. *)
Context (error_text : error → string).
Context (MarshalServiceStatus : Service → error + opaque) (MarshalStatus : opaque → error + opaque).
(** The order in which [range] visits a map. *)
Context (range : gmap string RouteServiceStatus → list (string * RouteServiceStatus)).
Context (retries : nat).
Context (r : RouteReconciler).

(** Whether to reconcile, and whether the kind of resource is disabled. *)
Definition shouldReconcileRoute (route : Route) (tenant : Tenant) (config : Config) : outcome (bool * bool) :=
  match rsp_kubernetes (rt_spec route) with
  | None => inr (false, false)
  | Some source =>
      match ConvertUnstructuredToObject (ks_route source) with
      | inl e => inl (Wrapf "failed to convert route to object" e)
      | inr (RIngress _) =>
          if is_disable (cs_ingress (cf_spec config)) then inr (false, true)
          else if is_disable (ts_ingress (tn_spec tenant)) then inr (false, true)
          else inr (true, false)
      | inr (RGateway g) =>
          if isGatewayAPIDisabled (rr_disableGatewayAPI r) config tenant then inr (false, true)
          else if negb (ShouldReconcileGatewayByName g) then inr (false, false)
          else inr (true, false)
      | inr (RHTTPRoute _) | inr (RGRPCRoute _) =>
          if isGatewayAPIDisabled (rr_disableGatewayAPI r) config tenant then inr (false, true)
          else inr (true, false)
      | inr (RService _) => inr (false, false)
      end
  end.

(** ** Status *)

Definition generateConditions (now : Z) (err : option error) : list Condition :=
  [{| cond_type := "ResourceAppliedSuccessfully";
      cond_reason := match err with None => "InstallationSuccessful" | Some _ => "InstallationFailed" end;
      cond_status := match err with None => true | Some _ => false end;
      cond_message := match err with None => "Success" | Some e => error_text e end;
      cond_lastTransitionTime := now |}].

(** The namespace under which a Service is filed: a bridge Service under its own. *)
Definition status_namespace (svc : Service) : string :=
  if decide (contents (labels (svc_meta svc)) !! LabelAppKubernetesType = Some LabelBridgeService)
  then namespace (svc_meta svc) else GetServiceNamespace svc.

Definition service_status (now : Z) (svc : Service) (err : option error) : RouteServiceStatus :=
  {| rss_state := {| rs_apiVersion := ""; rs_kind := ""; rs_name := GetServiceName svc;
                     rs_namespace := status_namespace svc; rs_generatedName := name (svc_meta svc);
                     rs_status := match MarshalServiceStatus svc with inr s => s | inl _ => DefaultRouteStatus end;
                     rs_conditions := generateConditions now err |};
     rss_ports := ss_ports (svc_spec svc) |}.

Definition service_status_key (svc : Service) : string := RouteServiceMapKey (status_namespace svc) (GetServiceName svc).

Definition updateServiceStatus (now : Z) (s : RouteResourcesStatus) (svc : Service) (err : option error)
    : RouteResourcesStatus :=
  with_rrs_services (Some (<[service_status_key svc := service_status now svc err]> (contents (rrs_services s)))) s.

Definition getResourceStatus (v : opaque) : opaque :=
  match MarshalStatus v with inr s => s | inl _ => DefaultRouteStatus end.

Definition updateResourceStatus (now : Z) (s : RouteResourcesStatus) (t : TypeMeta) (m : ObjectMeta) (status : opaque)
    (err : option error) : RouteResourcesStatus :=
  with_rrs_route
    {| rs_apiVersion := GroupVersionString (GetGroupVersionKind t); rs_kind := gvk_kind (GetGroupVersionKind t);
       rs_name := GetName m; rs_namespace := GetNamespace m; rs_generatedName := name m;
       rs_status := getResourceStatus status; rs_conditions := generateConditions now err |} s.

(** The Route is read again before the status is written. *)
Definition UpdateRouteStatus (route : Route) (status : RouteResourcesStatus) : prog (outcome Route) :=
  retryOnConflict retries (
    original <-! perform (Get KRoute (namespace (rt_meta route)) (name (rt_meta route))) ;;
    let updated := with_rt_status status original in
    if decide (rt_status original = status) then ok updated
    else perform (StatusPatch KRoute updated original)).

(** ** Services *)

Definition desired_keys (source : KubernetesSource) : list string :=
  (λ svc, RouteServiceMapKey (namespace (svc_meta svc)) (GetServiceName svc)) <$> ks_services source.

(** A bridge Service whose counterpart is still there. *)
Definition bridge_in_use (value : RouteServiceStatus) (m : gmap string RouteServiceStatus) : bool :=
  existsb (λ '(_, x), bool_decide (rs_generatedName (rss_state x) = rs_generatedName (rss_state value)) &&
                      bool_decide (rs_namespace (rss_state x) ≠ rs_namespace (rss_state value))) (map_to_list m).

(** The loop over the recorded Services; [m] is the map in the status, from which
    entries are deleted on the way. *)
Fixpoint delete_orphans (route : Route) (source : KubernetesSource)
    (entries : list (string * RouteServiceStatus)) (m : gmap string RouteServiceStatus)
    : prog (outcome (gmap string RouteServiceStatus)) :=
  match entries with
  | [] => ok m
  | (key, value) :: entries =>
      if decide (key ∈ desired_keys source) then delete_orphans route source entries m
      else
        let bridged := is_global r && bool_decide (rs_namespace (rss_state value) = rr_namespace r) in
        if bridged && bridge_in_use value m then delete_orphans route source entries m
        else
          let ns := if bridged then rr_namespace r else namespace (rt_meta route) in
          let n := rs_generatedName (rss_state value) in
          _ <-! delete_ignoring KService ns n (Wrapf "failed to delete orphaned service") ;;
          _ ← perform (DeallocateKeys [EnvoyEndpointRoutePattern (namespace (rt_meta route))
                         (rs_namespace (rss_state value)) n (originalRouteName route source)]);
          delete_orphans route source entries (delete key m)
  end.

Definition cleanupOrphanedServices (route : Route) (source : KubernetesSource) : prog (outcome Route) :=
  match rrs_services (rt_status route) with
  | None => ok route
  | Some m =>
      m <-! delete_orphans route source (range m) m ;;
      ok (with_rt_status (with_rrs_services (Some m) (rt_status route)) route)
  end.

(** The Services to apply, a bridge Service first where one is needed. *)
Fixpoint generated_services (lookup : string → string → Z * bool) (route : Route) (source : KubernetesSource)
    (settings : AnnotationSettings) (svcs : list Service) : go (list Service) :=
  match svcs with
  | [] => Done []
  | service :: svcs =>
      let appName := envoyApplicationName (rr_topology r) (namespace (rt_meta route)) in
      '(svc, _) ← @GenerateServiceForLBCluster _ lookup service appName (namespace (rt_meta route))
                    (originalRouteName route source) (is_global r) settings;
      rest ← generated_services lookup route source settings svcs;
      Done ((if is_global r then [GenerateBridgeService svc appName (rr_namespace r)] else []) ++ svc :: rest)
  end.

(** An error of one Service is recorded in the status, the others are still applied. *)
Fixpoint apply_route_services (status : RouteResourcesStatus) (svcs : list Service) : prog RouteResourcesStatus :=
  match svcs with
  | [] => Ret status
  | svc :: svcs =>
      '(svc, res) ← apply_service svc;
      now ← perform Now;
      apply_route_services (updateServiceStatus now status svc (match res with inl e => Some e | inr _ => None end)) svcs
  end.

Definition manageServices (route : Route) (settings : AnnotationSettings) : prog (outcome Route) :=
  match rsp_kubernetes (rt_spec route) with
  | None => ok route
  | Some source =>
      route <-["failed to cleanup orphaned services"] cleanupOrphanedServices route source ;;
      _ ← perform (AllocateRoutes [route]);
      lookup ← perform ReadPorts;
      services ← lift (generated_services lookup route source settings (ks_services source));
      status ← apply_route_services (rt_status route) services;
      UpdateRouteStatus route status
  end.

(** ** The resource *)

(** Read the applied object back and record its status; an error of applying it is
    dropped. *)
Definition record_resource {A} (k : Effects.kind) (applied : outcome A) (m : A → ObjectMeta) (zero : objT k)
    (t : objT k → TypeMeta) (om : objT k → ObjectMeta) (st : objT k → opaque) (msg : string)
    (status : RouteResourcesStatus) : prog (outcome RouteResourcesStatus) :=
  match applied with
  | inl _ => ok status
  | inr v =>
      got ← perform (Get k (namespace (m v)) (name (m v)));
      match got with
      | inl e => if IsNotFound e then now ← perform Now; ok (updateResourceStatus now status (t zero) (om zero) (st zero) None)
                 else fail (Wrapf msg e)
      | inr res => now ← perform Now; ok (updateResourceStatus now status (t res) (om res) (st res) None)
      end
  end.

Definition zero_type : TypeMeta := {| apiVersion := ""; Core.kind := "" |}.
Definition zero_ingress : Ingress :=
  {| in_type := zero_type; in_meta := zero_meta;
     in_spec := {| isp_className := None; isp_defaultBackend := None; isp_tls := []; isp_rules := [] |}; in_status := "" |}.
Definition zero_gateway : Gateway :=
  {| gw_type := zero_type; gw_meta := zero_meta;
     gw_spec := {| gws_className := ""; gws_listeners := []; gws_rest := "" |}; gw_status := "" |}.
Definition zero_route : GatewayRoute :=
  {| gr_type := zero_type; gr_meta := zero_meta;
     gr_spec := {| grs_parentRefs := []; grs_hostnames := []; grs_rules := [] |}; gr_status := "" |}.

Definition route_owner (route : Route) : list OwnerReference :=
  [{| or_apiVersion := apiVersion (rt_type route); or_kind := Core.kind (rt_type route);
      or_name := name (rt_meta route); or_uid := uid (rt_meta route); or_controller := Some true |}].

Definition apply_resource (route : Route) (services : list ObjectMeta) (config : Config) (tenant : Tenant)
    (settings : AnnotationSettings) (status : RouteResourcesStatus) (res : resource)
    : prog (outcome RouteResourcesStatus) :=
  let ns := namespace (rt_meta route) in
  let owned := with_owners (route_owner route) in
  match res with
  | RIngress v =>
      a ← CreateOrUpdateIngress (with_in_meta (owned (in_meta v)) v) services ns config tenant settings;
      record_resource KIngress a in_meta zero_ingress in_type in_meta in_status "failed to get Ingress" status
  | RGateway v =>
      a ← CreateOrUpdateGateway (with_gw_meta (owned (gw_meta v)) v) ns config tenant settings;
      record_resource KGateway a gw_meta zero_gateway gw_type gw_meta gw_status "failed to get Gateway" status
  | RHTTPRoute v =>
      a ← CreateOrUpdateHTTPRoute (with_gr_meta (owned (gr_meta v)) v) services ns settings (IsGlobalTopology config);
      record_resource KHTTPRoute a gr_meta zero_route gr_type gr_meta gr_status "failed to get HTTPRoute" status
  | RGRPCRoute v =>
      a ← CreateOrUpdateGRPCRoute (with_gr_meta (owned (gr_meta v)) v) services ns settings (IsGlobalTopology config);
      record_resource KGRPCRoute a gr_meta zero_route gr_type gr_meta gr_status "failed to get GRPCRoute" status
  | RService _ => ok status
  end.

Definition manageRoutes (route : Route) (config : Config) (tenant : Tenant) (settings : AnnotationSettings)
    : prog (outcome unit) :=
  match rsp_kubernetes (rt_spec route) with
  | None => ok ()
  | Some source =>
      match ConvertUnstructuredToObject (ks_route source) with
      | inl e => fail (Wrapf "failed to convert route to object" e)
      | inr res =>
          status <-! apply_resource route (referenced_meta <$> ks_services source) config tenant settings
                       (rt_status route) res ;;
          _ <-! UpdateRouteStatus route status ;;
          ok ()
      end
  end.

Definition reconcile (route : Route) (config : Config) (tenant : Tenant) : prog (outcome unit) :=
  let settings := GetAnnotations tenant config in
  route <-["failed to create or update services"] manageServices route settings ;;
  _ <-["failed to create or update route"] manageRoutes route config tenant settings ;;
  ok ().

(** ** Cleaning up *)

Definition cleanup_namespace (route : Route) (value : RouteServiceStatus) : string :=
  if is_global r && bool_decide (rs_namespace (rss_state value) = rr_namespace r)
  then rr_namespace r else namespace (rt_meta route).

Fixpoint delete_recorded (route : Route) (entries : list (string * RouteServiceStatus)) : prog (outcome unit) :=
  match entries with
  | [] => ok ()
  | (_, value) :: entries =>
      _ <-! delete_ignoring KService (cleanup_namespace route value) (rs_generatedName (rss_state value))
              (Wrapf "failed to delete service") ;;
      delete_recorded route entries
  end.

Definition cleanupRoute (route : Route) : prog (outcome unit) :=
  _ <-! delete_recorded route (range (contents (rrs_services (rt_status route)))) ;;
  _ ← perform (DeallocateRoute route);
  _ <-["failed to remove finalizer"] perform (Update KRoute (with_rt_meta (RemoveFinalizer (rt_meta route) CleanupFinalizer) route)) ;;
  ok ().

(** ** The handler *)

(** The result says whether to requeue. *)
Definition ReconcileRoute (req : NamespacedName) : prog (outcome bool) :=
  got ← perform (Get KRoute (nn_namespace req) (nn_name req));
  match got with
  | inl e => if IsNotFound e then ok false else fail e
  | inr route =>
      tc <-! GetTenantAndConfig (rr_namespace r) (RemoveTenantPrefix (namespace (rt_meta route))) ;;
      let '(tenant, config) := tc in
      if decide (deletionTimestamp (rt_meta route) ≠ None) then
        if ContainsFinalizer (rt_meta route) CleanupFinalizer then _ <-! cleanupRoute route ;; ok false else ok false
      else
        sd <-! Ret (shouldReconcileRoute route tenant config) ;;
        let '(should, disabled) := sd in
        if ContainsFinalizer (rt_meta route) CleanupFinalizer && disabled then _ <-! cleanupRoute route ;; ok false
        else if negb should then ok false
        else
          let apply (route : Route) : prog (outcome bool) :=
            _ <-! reconcile route config tenant ;;
            _ ← perform (ListIn KRoute (Some (nn_namespace req)) ∅);
            ok false in
          if ContainsFinalizer (rt_meta route) CleanupFinalizer then apply route
          else
            let '(m, added) := AddFinalizer (rt_meta route) CleanupFinalizer in
            if negb added then ok true
            else
              route <-["failed to add finalizer"] perform (Update KRoute (with_rt_meta m route)) ;;
              apply route
  end.
End reconciler.

(** ** Cleaning up a Route *)

Definition route_update (e : event) : option Route :=
  match e with existT (Update KRoute o) _ => Some o | _ => None end.

Lemma delete_recorded_runs r route entries log :
  absent route_update log →
  all_runs (delete_recorded r route entries)
    (λ log' res, absent route_update log' ∧ (∃ l, log' = log ++ l) ∧
       ((res = Done (inr ()) ∧ ∀ key value, (key, value) ∈ entries →
           gone KService (cleanup_namespace r route value) (rs_generatedName (rss_state value)) log')
        ∨ ∃ e, res = Done (inl e))) log.
Proof.
  revert log. induction entries as [|[key value] entries IH]; intros log Ha; cbn [delete_recorded].
  { simpl. split; [done|]. split; [exists []; by rewrite app_nil_r|]. left. split; [done|].
    by intros ? ? ?%elem_of_nil. }
  apply all_runs_try. eapply all_runs_mono; [|apply delete_ignoring_runs].
  intros log1 res1 (a & -> & [[-> Hg]|[e ->]]); cbv beta iota.
  - eapply all_runs_mono; [|apply IH, absent_snoc; done].
    intros log2 res2 (Ha2 & [l ->] & Hres). split; [done|]. split.
    { eexists. rewrite <- app_assoc. done. }
    destruct Hres as [[-> Hall]|He]; [left|by right]. split; [done|].
    intros k v [[= -> ->]|Hin]%elem_of_cons; [by apply gone_app|by eapply Hall].
  - split; [by apply absent_snoc|]. split; [by eexists|]. right. by eexists.
Qed.

(** Cleaning up a Route never panics and gives its finalizer up last: whatever
    the API server answers and in whatever order the recorded Services are visited,
    the update that removes the finalizer is sent only after every Service recorded
    in the status was deleted or found to be gone, and the ports of the Route were
    handed back. *)
Theorem cleanupRoute_releases_first `{Finalizers} range r route :
  (∀ m, range m ≡ₚ map_to_list m) →
  all_runs (cleanupRoute range r route)
    (λ log res, (∃ o, res = Done o) ∧
       ∀ l1 e l2 o, log = l1 ++ e :: l2 → route_update e = Some o →
         l2 = [] ∧ o = with_rt_meta (RemoveFinalizer (rt_meta route) CleanupFinalizer) route ∧
         existT (DeallocateRoute route) () ∈ l1 ∧
         ∀ key value, contents (rrs_services (rt_status route)) !! key = Some value →
           gone KService (cleanup_namespace r route value) (rs_generatedName (rss_state value)) l1) [].
Proof.
  intros Hrange. unfold cleanupRoute. apply all_runs_try.
  eapply all_runs_mono; [|apply delete_recorded_runs; constructor].
  intros log1 res1 (Ha1 & _ & [[-> Hg]|[e ->]]); cbv beta iota.
  2: { split; [by eexists|]. intros l1 ev l2 o Hl Hev. by eapply absent_split. }
  apply all_runs_perform. intros []. set (log2 := log1 ++ [existT (DeallocateRoute route) () : event]).
  assert (absent route_update log2) as Ha2 by by apply absent_snoc.
  assert (existT (DeallocateRoute route) () ∈ log2) as Hd
    by (apply elem_of_app; right; by apply list_elem_of_singleton).
  assert (∀ key value, contents (rrs_services (rt_status route)) !! key = Some value →
    gone KService (cleanup_namespace r route value) (rs_generatedName (rss_state value)) log2) as Hg2.
  { intros key value Hk. apply gone_app, (Hg key). rewrite Hrange. by apply elem_of_map_to_list. }
  intros [e|o]; simpl; (split; [by eexists|]);
    intros l1 ev l2 o' Hl Hev; destruct (absent_snoc_split _ _ _ _ _ _ _ Ha2 Hl Hev) as (-> & -> & ->);
    by injection Hev as <-.
Qed.

(** The orders of [range] are not empty. *)
Lemma cleanupRoute_releases_first_witness :
  all_runs (cleanupRoute (H0 := list_finalizers) map_to_list
              {| rr_namespace := "kubelb"; rr_topology := EnvoyProxyTopologyShared; rr_disableGatewayAPI := false |} sample_route)
    (λ log res, ∃ o, res = Done o) [].
Proof.
  eapply all_runs_mono; [|apply (cleanupRoute_releases_first (H := list_finalizers) map_to_list
    {| rr_namespace := "kubelb"; rr_topology := EnvoyProxyTopologyShared; rr_disableGatewayAPI := false |} sample_route)].
  - intros log res [Hr _]. exact Hr.
  - intros m. reflexivity.
Defined.

(** ** Finalizers come first *)

Section reconcile_runs.
Context `{Unicode} `{FinalizerLaws} `{Scheme} `{UnstructuredConverter}.
Context `{SemanticDeepEqual ServiceSpec} `{SemanticDeepEqual (gomap string)} `{SemanticDeepEqual IngressSpec}.
Context `{SemanticDeepEqual GatewayRouteSpec} `{SemanticDeepEqual GatewaySpec}.
Context (error_text : error → string).
Context (MarshalServiceStatus : Service → error + opaque) (MarshalStatus : opaque → error + opaque).
Context (range : gmap string RouteServiceStatus → list (string * RouteServiceStatus)) (retries : nat).

Lemma cleanupRoute_takes_nothing r route :
  only_calls (λ c, takes_resources c = false) (cleanupRoute range r route).
Proof.
  unfold cleanupRoute. generalize (range (contents (rrs_services (rt_status route)))). intros entries.
  apply only_calls_try; [|intros []; solve_calls].
  induction entries as [|[key value] entries IH]; cbn [delete_recorded]; [done|].
  apply only_calls_try; [by apply only_calls_delete|done].
Qed.

Lemma route_finalizer_added route m :
  AddFinalizer (rt_meta route) CleanupFinalizer = (m, true) → ContainsFinalizer m CleanupFinalizer = true.
Proof.
  rewrite add_finalizer. destruct (ContainsFinalizer _ _); intros [= <-].
  apply contains_finalizer. apply elem_of_app. right. by apply list_elem_of_singleton.
Qed.
End reconcile_runs.

(** C31: the manager never takes resources for a Route it could fail to give back: in
    every run of the Route reconciler, whatever the API server answers, ports are
    allocated and Services, Ingresses, Gateways and routes are written only once the
    API server has the Route with the cleanup finalizer. *)
Theorem ReconcileRoute_finalizer_first `{Unicode} `{FinalizerLaws} `{Scheme} `{UnstructuredConverter}
    `{SemanticDeepEqual ServiceSpec} `{SemanticDeepEqual (gomap string)} `{SemanticDeepEqual IngressSpec}
    `{SemanticDeepEqual GatewayRouteSpec} `{SemanticDeepEqual GatewaySpec}
    error_text MarshalServiceStatus MarshalStatus range retries r req :
  all_runs (ReconcileRoute error_text MarshalServiceStatus MarshalStatus range retries r req)
    (λ log _, guarded stored_meta CleanupFinalizer takes_resources log) [].
Proof.
  unfold ReconcileRoute. apply all_runs_perform.
  intros [e|route].
  { destruct (IsNotFound e); simpl; apply quiet_guarded; by repeat constructor. }
  set (e0 := existT (Get KRoute _ _) (inr route) : event). change ([] ++ [e0]) with [e0].
  assert (quiet takes_resources [e0]) as Hq by by repeat constructor.
  apply quiet_try; [done|unfold GetTenantAndConfig, GetTenant, GetConfig; solve_calls|].
  intros [tenant config] l1 Hq1.
  assert (∀ l, quiet takes_resources ([e0] ++ l) → all_runs (_ <-! cleanupRoute range r route ;; ok false)
    (λ log _, guarded stored_meta CleanupFinalizer takes_resources log) ([e0] ++ l)) as Hclean.
  { intros l Hl. apply quiet_try; [done|apply cleanupRoute_takes_nothing|]. intros [] l2 Hq2. by apply quiet_guarded. }
  destruct (decide _) as [_|_].
  { destruct (ContainsFinalizer _ _); [by apply Hclean|by apply quiet_guarded]. }
  apply quiet_try; [done|done|]. intros [should disabled] l2 Hq2. rewrite <- app_assoc in *.
  destruct (_ && disabled); [by apply Hclean|].
  destruct should; simpl negb; cbv iota zeta; [|by apply quiet_guarded].
  destruct (ContainsFinalizer (rt_meta route) CleanupFinalizer) eqn:Hc.
  { apply guarded_runs; [by apply quiet_guarded|]. right. exists e0, (rt_meta route).
    split; [apply elem_of_app; left; by apply list_elem_of_singleton|done]. }
  destruct (AddFinalizer (rt_meta route) CleanupFinalizer) as [m []] eqn:Ha; simpl negb; cbv iota;
    [|by apply quiet_guarded].
  apply all_runs_try_wrap.
  set (log := [e0] ++ l1 ++ l2) in *. clearbody log. clear Hclean Hq Hq1.
  intros [e|o]; cbv beta iota.
  - simpl. apply guarded_app; [by apply quiet_guarded|]. left. by repeat constructor.
  - apply guarded_runs.
    + apply guarded_app; [by apply quiet_guarded|]. left. by repeat constructor.
    + right. eexists _, m. split; [apply elem_of_app; right; by apply list_elem_of_singleton|].
      split; [done|by eapply route_finalizer_added].
Qed.

(** An implementation of the scheme, and a converter that keeps type and metadata. *)
Definition split_scheme : Scheme :=
  {| GetGroupVersionKind t :=
       match Split (apiVersion t) "/"%char with
       | [g; v] => {| gvk_group := g; gvk_version := v; gvk_kind := Core.kind t |}
       | [v] => {| gvk_group := ""; gvk_version := v; gvk_kind := Core.kind t |}
       | _ => {| gvk_group := ""; gvk_version := ""; gvk_kind := "" |}
       end;
     GroupKindString g := if decide (gvk_group g = "") then gvk_kind g else gvk_kind g +:+ "." +:+ gvk_group g;
     GroupVersionString g := if decide (gvk_group g = "") then gvk_version g else gvk_group g +:+ "/" +:+ gvk_version g |}.

Definition shallow_converter : UnstructuredConverter :=
  {| toIngress u := inr (with_in_meta (u_meta u) zero_ingress);
     toService u := inr (with_svc_meta (u_meta u) zero_service);
     toGateway u := inr (with_gw_meta (u_meta u) zero_gateway);
     toHTTPRoute u := inr (with_gr_meta (u_meta u) zero_route);
     toGRPCRoute u := inr (with_gr_meta (u_meta u) zero_route) |}.

Definition shared_reconciler : RouteReconciler :=
  {| rr_namespace := "kubelb"; rr_topology := EnvoyProxyTopologyShared; rr_disableGatewayAPI := false |}.

Lemma ReconcileRoute_finalizer_first_witness :
  all_runs (ReconcileRoute (H := no_unicode) (H0 := list_finalizers) (H1 := split_scheme) (H2 := shallow_converter)
              (H3 := λ a b, bool_decide (a = b)) (H4 := semantic_by_contents) (H5 := λ a b, bool_decide (a = b))
              (H6 := spec_equality) (H7 := λ a b, bool_decide (a = b))
              (λ _, "error") (λ _, inr "") (λ s, inr s) map_to_list 4 shared_reconciler
              {| nn_namespace := "tenant-a"; nn_name := "uid-0001" |})
    (λ log _, guarded (H := list_finalizers) stored_meta CleanupFinalizer takes_resources log) [].
Proof.
  exact (ReconcileRoute_finalizer_first (H := no_unicode) (H1 := list_finalizers_laws) (H2 := split_scheme)
    (H3 := shallow_converter) (H4 := λ a b, bool_decide (a = b)) (H5 := semantic_by_contents)
    (H6 := λ a b, bool_decide (a = b)) (H7 := spec_equality) (H8 := λ a b, bool_decide (a = b))
    (λ _, "error") (λ _, inr "") (λ s, inr s) map_to_list 4 shared_reconciler
    {| nn_namespace := "tenant-a"; nn_name := "uid-0001" |}).
Defined.

(** ** Orphaned Services *)

(** A delete of a Service. *)
Definition service_delete (e : event) : option (string * string) :=
  match e with existT (Delete KService ns n) _ => Some (ns, n) | _ => None end.

(** A recorded Service that the Route no longer has. *)
Definition orphan (source : KubernetesSource) (m : gmap string RouteServiceStatus) (key : string)
    (value : RouteServiceStatus) : Prop := m !! key = Some value ∧ key ∉ desired_keys source.

Section orphans.
Context (r : RouteReconciler) (route : Route) (source : KubernetesSource) (m0 : gmap string RouteServiceStatus).

(** Every delete so far was of an orphan, and [m] is what is left. *)
Definition only_orphans (log : list event) (m : gmap string RouteServiceStatus) : Prop :=
  (∀ e ns n, e ∈ log → service_delete e = Some (ns, n) →
     ∃ key value, orphan source m0 key value ∧ n = rs_generatedName (rss_state value)) ∧
  (∀ key, m !! key = m0 !! key ∨ (m !! key = None ∧ key ∉ desired_keys source)).

Lemma only_orphans_other log m e :
  only_orphans log m → service_delete e = None → only_orphans (log ++ [e]) m.
Proof.
  intros [Hd Hm] He. split; [|done]. intros e' ns n [Hin|Hin%list_elem_of_singleton]%elem_of_app; [by eapply Hd|congruence].
Qed.

Lemma delete_orphans_runs entries m log :
  (∀ key value, (key, value) ∈ entries → m0 !! key = Some value) → only_orphans log m →
  all_runs (delete_orphans r route source entries m)
    (λ log' res, ∃ m', only_orphans log' m' ∧ (res = Done (inr m') ∨ ∃ e, res = Done (inl e))) log.
Proof.
  revert m log. induction entries as [|[key value] entries IH]; intros m log Hin Ho; cbn [delete_orphans].
  { simpl. eauto. }
  assert (∀ k v, (k, v) ∈ entries → m0 !! k = Some v) as Hin' by (intros; apply Hin; by apply elem_of_cons; right).
  destruct (decide (key ∈ desired_keys source)) as [Hk|Hk]; [by apply IH|].
  cbv zeta. destruct (_ && bridge_in_use value m); [by apply IH|].
  assert (orphan source m0 key value) as Horph by (split; [apply Hin; by apply elem_of_cons; left|done]).
  apply all_runs_try. eapply all_runs_mono; [|apply delete_ignoring_runs].
  intros log1 res1 (a & -> & Hres).
  assert (only_orphans (log ++ [existT (Delete KService (if is_global r && bool_decide (rs_namespace (rss_state value) = rr_namespace r)
     then rr_namespace r else namespace (rt_meta route)) (rs_generatedName (rss_state value))) a]) m) as Ho1.
  { destruct Ho as [Hd Hm]. split; [|done].
    intros e' ns n [He'|He'%list_elem_of_singleton]%elem_of_app; [by eapply Hd|]. subst e'.
    intros [= <- <-]. eauto. }
  destruct Hres as [[-> _]|[e ->]]; cbv beta iota; [|eauto].
  apply all_runs_perform. intros []. apply IH; [done|].
  apply only_orphans_other; [|done]. destruct Ho1 as [Hd Hm]. split; [done|].
  intros k. destruct (decide (k = key)) as [->|Hne]; [right|].
  - by rewrite lookup_delete_eq.
  - rewrite lookup_delete_ne by done. apply Hm.
Qed.
End orphans.

(** Removing orphaned Services is safe: whatever the API server answers and in
    whatever order the map is visited, it never panics, it deletes only Services
    recorded in the status whose key is not the key of a Service of the Route, and
    on success the status keeps the record of every Service the Route still has. *)
Theorem cleanupOrphanedServices_safe range r route source :
  (∀ m, range m ≡ₚ map_to_list m) →
  let m0 := contents (rrs_services (rt_status route)) in
  all_runs (cleanupOrphanedServices range r route source)
    (λ log res, (∃ o, res = Done o) ∧
       (∀ e ns n, e ∈ log → service_delete e = Some (ns, n) →
          ∃ key value, orphan source m0 key value ∧ n = rs_generatedName (rss_state value)) ∧
       (∀ route', res = Done (inr route') → ∀ key, key ∈ desired_keys source →
          contents (rrs_services (rt_status route')) !! key = m0 !! key)) [].
Proof.
  intros Hrange m0. unfold cleanupOrphanedServices.
  destruct (rrs_services (rt_status route)) as [m|] eqn:E.
  2: { simpl. split; [by eexists|]. split; [by intros ? ? ? ?%elem_of_nil|].
       intros route' [= <-]. unfold m0. by rewrite E. }
  apply all_runs_try. eapply all_runs_mono; [|apply (delete_orphans_runs r route source m (range m) m)].
  - intros log res (m' & [Hd Hm] & Hres).
    destruct Hres as [->|[e ->]]; simpl; (split; [by eexists|]); (split; [done|]).
    + intros route' [= <-] key Hkey. simpl. destruct (Hm key) as [->|[_ ?]]; [done|by destruct (H Hkey)].
    + done.
  - intros key value. rewrite Hrange. by intros ?%elem_of_map_to_list.
  - split; [by intros ? ? ? ?%elem_of_nil|]. by left.
Qed.

Definition sample_status (source : string) (services : gomap RouteServiceStatus) : RouteResourcesStatus :=
  {| rrs_source := source; rrs_services := services; rrs_route := rrs_route (rt_status sample_route) |}.

Definition stale_status : RouteServiceStatus :=
  {| rss_state := {| rs_apiVersion := ""; rs_kind := ""; rs_name := "old"; rs_namespace := "shop";
                     rs_generatedName := "shop-old"; rs_status := "{}"; rs_conditions := [] |};
     rss_ports := [] |}.

Lemma cleanupOrphanedServices_safe_witness :
  let route := with_rt_status (sample_status "" (Some {[ "shop/old" := stale_status ]})) sample_route in
  all_runs (cleanupOrphanedServices map_to_list shared_reconciler route sample_source)
    (λ log res, ∀ e ns n, e ∈ log → service_delete e = Some (ns, n) →
       ∃ key value, orphan sample_source {[ "shop/old" := stale_status ]} key value ∧ n = rs_generatedName (rss_state value)) [].
Proof.
  intros route. eapply all_runs_mono; [|apply (cleanupOrphanedServices_safe map_to_list shared_reconciler route sample_source)].
  - intros log res (_ & H & _). exact H.
  - intros m. reflexivity.
Defined.

(** The metadata a generated Service has of its origin. *)
Lemma generated_meta `{Unicode} `{PortLookup} svc app ns rn g settings gen after :
  GenerateServiceForLBCluster svc app ns rn g settings = Done (gen, after) →
  labels (svc_meta gen) = labels (svc_meta svc) ∧ namespace (svc_meta gen) = ns.
Proof.
  unfold GenerateServiceForLBCluster. destruct (GenerateName _ _ _ _); simpl; [|done]. by intros [= <- _].
Qed.

(** a Service that carries its origin in its labels, as the NodePort copies of
    the CCM do, is filed in the status under the key by which the orphan check
    looks for it, so it is never taken for an orphan while the Route refers to it. *)
Theorem replicated_service_kept `{Unicode} `{PortLookup} source svc app ns rn g settings gen after n :
  svc ∈ ks_services source →
  contents (labels (svc_meta svc)) !! LabelOriginName = Some n →
  contents (labels (svc_meta svc)) !! LabelOriginNamespace = Some (namespace (svc_meta svc)) →
  contents (labels (svc_meta svc)) !! LabelAppKubernetesType ≠ Some LabelBridgeService →
  GenerateServiceForLBCluster svc app ns rn g settings = Done (gen, after) →
  service_status_key gen ∈ desired_keys source.
Proof.
  intros Hin Hn Hns Hb [Hl _]%generated_meta. apply list_elem_of_fmap. exists svc. split; [|done].
  unfold service_status_key, status_namespace, GetServiceNamespace, GetServiceName. rewrite Hl.
  rewrite decide_False by done.
  destruct (labels (svc_meta svc)) as [l|]; simpl in *; [|done]. by rewrite Hn, Hns.
Qed.

(** The copy that the CCM makes of a Service with one port. *)
Definition copied_service : Service :=
  with_svc_meta (with_identity "api-nodeport" "shop" "uid-0001" (svc_meta (nodeport_service (sample_service "shop" "api" 80))))
    (nodeport_service (sample_service "shop" "api" 80)).

Lemma replicated_service_kept_witness :
  ∃ gen after,
    GenerateServiceForLBCluster (H := no_unicode) (H0 := no_ports) copied_service "tenant-a" "tenant-a" "web" false
      no_annotation_settings = Done (gen, after) ∧
    service_status_key gen ∈ desired_keys {| ks_route := ks_route sample_source; ks_services := [copied_service] |}.
Proof.
  destruct (GenerateServiceForLBCluster (H := no_unicode) (H0 := no_ports) copied_service "tenant-a" "tenant-a" "web" false
      no_annotation_settings) as [[gen after]|] eqn:E; [|by vm_compute in E].
  exists gen, after. split; [reflexivity|].
  apply (replicated_service_kept (H := no_unicode) (H0 := no_ports)
    {| ks_route := ks_route sample_source; ks_services := [copied_service] |} copied_service
    "tenant-a" "tenant-a" "web" false no_annotation_settings gen after "api").
  - apply list_elem_of_singleton. reflexivity.
  - vm_compute. reflexivity.
  - vm_compute. reflexivity.
  - vm_compute. discriminate.
  - exact E.
Defined.

(** A Service without those labels (a NodePort or LoadBalancer Service of the
    tenant that is used as it is) is filed under the tenant's namespace and the
    generated name, which no Service of the Route has as its key: the next
    reconciliation takes it for an orphan and begins by deleting the Service it is
    about to apply again. *)
Theorem plain_service_orphaned `{Unicode} `{PortLookup} range r route source svc app rn settings gen after
    error_text marshal now err :
  (∀ m, range m ≡ₚ map_to_list m) → is_global r = false →
  ks_services source = [svc] → labels (svc_meta svc) = None →
  lacks "/"%char (namespace (rt_meta route)) = true → lacks "/"%char (namespace (svc_meta svc)) = true →
  namespace (svc_meta svc) ≠ namespace (rt_meta route) →
  GenerateServiceForLBCluster svc app (namespace (rt_meta route)) rn false settings = Done (gen, after) →
  rrs_services (rt_status route) = Some {[ service_status_key gen := service_status error_text marshal now gen err ]} →
  all_runs (cleanupOrphanedServices range r route source)
    (λ log _, ∃ a, head log = Some (existT (Delete KService (namespace (rt_meta route)) (name (svc_meta gen))) a)) [].
Proof.
  intros Hrange Hg Hsrc Hl Hs1 Hs2 Hne [Hlg Hng]%generated_meta Hst.
  unfold cleanupOrphanedServices. rewrite Hst.
  pose proof (Hrange {[ service_status_key gen := service_status error_text marshal now gen err ]}) as Hr.
  rewrite map_to_list_singleton in Hr. apply Permutation_singleton_r in Hr. rewrite Hr. cbn [delete_orphans].
  assert (service_status_key gen = RouteServiceMapKey (namespace (rt_meta route)) (name (svc_meta gen))) as Hkey.
  { unfold service_status_key, status_namespace, GetServiceNamespace, GetServiceName.
    rewrite Hlg, Hl, Hng. simpl. by rewrite decide_False. }
  rewrite decide_False.
  2: { unfold desired_keys. rewrite Hsrc. simpl. intros Hin%list_elem_of_singleton. rewrite Hkey in Hin.
       apply cut_first_inj in Hin as [E _]; [by rewrite E in Hne|done|done]. }
  rewrite Hg. simpl andb. cbv iota zeta. intros a.
  eapply all_runs_mono; [|apply all_runs_prefix]. intros log' _ [l ->]. by exists a.
Qed.

Definition plain_service : Service := with_svc_meta (with_labels None (svc_meta (sample_service "shop" "front" 80))) (sample_service "shop" "front" 80).

Lemma plain_service_orphaned_witness :
  ∃ gen after,
    GenerateServiceForLBCluster (H := no_unicode) (H0 := no_ports) plain_service "tenant-a" (namespace (rt_meta sample_route))
      "web" false no_annotation_settings = Done (gen, after) ∧
    all_runs (cleanupOrphanedServices map_to_list shared_reconciler
        (with_rt_status (sample_status "" (Some {[ service_status_key gen := service_status (λ _, "") (λ _, inr "") 0 gen None ]})) sample_route)
        {| ks_route := ks_route sample_source; ks_services := [plain_service] |})
      (λ log _, ∃ a, head log = Some (existT (Delete KService (namespace (rt_meta sample_route)) (name (svc_meta gen))) a)) [].
Proof.
  destruct (GenerateServiceForLBCluster (H := no_unicode) (H0 := no_ports) plain_service "tenant-a"
      (namespace (rt_meta sample_route)) "web" false no_annotation_settings) as [[gen after]|] eqn:E; [|by vm_compute in E].
  exists gen, after. split; [reflexivity|].
  apply (plain_service_orphaned (H := no_unicode) (H0 := no_ports) map_to_list shared_reconciler
    (with_rt_status (sample_status "" (Some {[ service_status_key gen := service_status (λ _, "") (λ _, inr "") 0 gen None ]})) sample_route)
    {| ks_route := ks_route sample_source; ks_services := [plain_service] |} plain_service "tenant-a" "web"
    no_annotation_settings gen after (λ _, "") (λ _, inr "") 0 None).
  - intros m. reflexivity.
  - reflexivity.
  - reflexivity.
  - reflexivity.
  - reflexivity.
  - reflexivity.
  - discriminate.
  - exact E.
  - reflexivity.
Defined.

(** ** The ports of an orphan *)

(** the ports of an orphaned Service are never handed back: the key that
    cleanupOrphanedServices deallocates is built with the generated name, the key
    under which the ports were allocated with the name of the Service in the Route.
    Where the two names differ, the deallocation leaves the ports allocated. *)
Theorem orphan_ports_leak pa route source svc value k :
  rs_namespace (rss_state value) = namespace (svc_meta svc) →
  rs_generatedName (rss_state value) ≠ name (svc_meta svc) →
  let used := EnvoyEndpointRoutePattern (namespace (rt_meta route)) (rs_namespace (rss_state value))
                (rs_generatedName (rss_state value)) (originalRouteName route source) in
  let key := route_endpoint_key route (originalRouteName route source) svc in
  Lookup (DeallocateEndpoints pa [used]) key k = Lookup pa key k.
Proof.
  intros Hns Hne used key. rewrite !Lookup_allocated. unfold DeallocateEndpoints, allocated. simpl.
  rewrite lookup_delete_ne; [done|]. unfold used, key, route_endpoint_key, EnvoyEndpointRoutePattern.
  rewrite Hns. intros E. repeat apply sapp_inj_l in E. by apply sapp_inj_r in E.
Qed.

Lemma orphan_ports_leak_witness :
  let key := route_endpoint_key sample_route (originalRouteName sample_route sample_source) (sample_service "shop" "old" 80) in
  let pa := recomputeAvailablePorts {[ key := {[ "80-TCP" := 12000%Z ]} ]} in
  let used := EnvoyEndpointRoutePattern (namespace (rt_meta sample_route)) "shop" "shop-old"
                (originalRouteName sample_route sample_source) in
  Lookup (DeallocateEndpoints pa [used]) key "80-TCP" = (12000%Z, true).
Proof.
  intros key pa used.
  transitivity (Lookup pa key "80-TCP"); [|vm_compute; reflexivity].
  apply (orphan_ports_leak pa sample_route sample_source (sample_service "shop" "old" 80) stale_status "80-TCP").
  - reflexivity.
  - discriminate.
Defined.

(** ** Errors of the resource itself *)

(** the error of creating the resource is lost: when the API server refuses the
    HTTPRoute of a Route, manageRoutes returns success and writes nothing to the
    status, so the Route is not retried and nobody is told. *)
Theorem manageRoutes_drops_errors `{Unicode} `{Scheme} `{UnstructuredConverter} `{SemanticDeepEqual (gomap string)}
    `{SemanticDeepEqual IngressSpec} `{SemanticDeepEqual GatewayRouteSpec} `{SemanticDeepEqual GatewaySpec}
    {S} (handle : S → ∀ c, S * resp c) s error_text MarshalStatus retries route source config tenant settings v desired current e e' :
  rsp_kubernetes (rt_spec route) = Some source →
  ConvertUnstructuredToObject (ks_route source) = inr (RHTTPRoute v) →
  recreated_route (IsGlobalTopology config) settings ResourceHTTPRoute (referenced_meta <$> ks_services source)
    (namespace (rt_meta route)) (with_gr_meta (with_owners (route_owner route) (gr_meta v)) v) = Done desired →
  handle s (Get KHTTPRoute (namespace (rt_meta route)) (name (gr_meta desired))) = (s, inl e) → IsNotFound e = true →
  handle s (Create KHTTPRoute desired) = (s, inl e') →
  handle s (Get KRoute (namespace (rt_meta route)) (name (rt_meta route))) = (s, inr current) →
  rt_status current = rt_status route →
  ∃ log, run handle (manageRoutes error_text MarshalStatus retries route config tenant settings) s [] = (s, log, Done (inr ())) ∧
    Forall (λ ev, match projT1 ev with StatusPatch _ _ _ | StatusUpdate _ _ => False | _ => True end) log.
Proof.
  intros Hsrc Hconv Hrec Hget Hnf Hcreate Hroute Hst. unfold manageRoutes. rewrite Hsrc, Hconv.
  unfold apply_resource, CreateOrUpdateHTTPRoute. rewrite Hrec. destruct retries; eexists; split.
  1, 3: cbn; rewrite Hget; cbn; rewrite Hnf; cbn; rewrite Hcreate; cbn; rewrite Hroute; cbn;
    rewrite decide_True by done; cbn; reflexivity.
  all: by repeat constructor.
Qed.

(** An API server that has one Route and refuses every create. *)
Definition refusing (route : Route) (s : unit) (c : call) : unit * resp c :=
  (s, match c as c return resp c with
      | Get k _ _ => match k as k return error + objT k with KRoute => inr route | _ => inl (StatusError NotFound) end
      | Create _ _ => inl (StatusError (OtherReason "Forbidden"))
      | c => default_resp c
      end).

Definition http_source : KubernetesSource :=
  {| ks_route := {| u_type := {| apiVersion := "gateway.networking.k8s.io/v1"; Core.kind := "HTTPRoute" |};
                    u_meta := with_identity "web" "shop" "uid-0001" zero_meta; u_spec := "" |};
     ks_services := [] |}.
Definition http_route : Route :=
  {| rt_type := rt_type sample_route; rt_meta := rt_meta sample_route;
     rt_spec := {| rsp_endpoints := []; rsp_kubernetes := Some http_source |}; rt_status := rt_status sample_route |}.
Definition plain_config : Config := sample_config no_config_dns None.
Definition plain_tenant : Tenant := sample_tenant (wildcard_dns "") None.

Lemma manageRoutes_drops_errors_witness :
  ∃ log, run (refusing http_route)
    (manageRoutes (H := no_unicode) (H1 := split_scheme) (H2 := shallow_converter) (H4 := semantic_by_contents)
       (H5 := λ a b, bool_decide (a = b)) (H6 := spec_equality) (H7 := λ a b, bool_decide (a = b))
       (λ _, "") (λ s, inr s) 4 http_route plain_config plain_tenant no_annotation_settings) () [] = ((), log, Done (inr ())) ∧
    Forall (λ ev, match projT1 ev with StatusPatch _ _ _ | StatusUpdate _ _ => False | _ => True end) log.
Proof.
  set (v := with_gr_meta (u_meta (ks_route http_source)) zero_route).
  destruct (recreated_route (H := no_unicode) (IsGlobalTopology plain_config) no_annotation_settings ResourceHTTPRoute
    (referenced_meta <$> ks_services http_source) (namespace (rt_meta http_route))
    (with_gr_meta (with_owners (route_owner http_route) (gr_meta v)) v)) as [desired|] eqn:E; [|by vm_compute in E].
  apply (manageRoutes_drops_errors (H := no_unicode) (H0 := split_scheme) (H1 := shallow_converter)
    (H2 := semantic_by_contents) (H3 := λ a b, bool_decide (a = b)) (H4 := spec_equality)
    (H5 := λ a b, bool_decide (a = b)) (refusing http_route) () (λ _, "") (λ s, inr s) 4 http_route http_source
    plain_config plain_tenant no_annotation_settings v desired http_route (StatusError NotFound)
    (StatusError (OtherReason "Forbidden"))).
  - reflexivity.
  - reflexivity.
  - exact E.
  - reflexivity.
  - reflexivity.
  - reflexivity.
  - reflexivity.
  - reflexivity.
Defined.
