(* ===== verification/EnvoyController.v ===== *)
(** * The Envoy control plane controller (internal/controllers/kubelb/envoy_cp_controller.go)

    For every tenant (or once, in the global topology) [ReconcileEnvoy] runs an Envoy
    proxy and hands it, through the snapshot cache of the xDS server, the snapshot
    of all LoadBalancers and Routes that are not being deleted; with none left it
    clears the cache and removes the proxy.  The bootstrap configuration, the
    consistency check of the snapshot and the cache itself are parameters or calls. *)
From stdpp Require Import base gmap list strings pretty.
From S2P Require Import Prelude GoStrings Api Names PortAllocator Annotations EnvoySnapshot NetApi Effects Guards LBController.
Import Core V1alpha1.

Definition RequeueAllResources : string := "requeue-all-for-route".
Definition envoyImage : string := "envoyproxy/envoy:distroless-v1.36.4".
Definition envoyProxyContainerName : string := "envoy-proxy".
Definition shutdownManagerContainerName : string := "shutdown-manager".
Definition EnvoyStatsPort : Z := 19001.
Definition EnvoyReadinessPort : Z := 19003.
Definition EnvoyReadinessPath : string := "/ready".
Definition ShutdownManagerPort : Z := 19002.
Definition ShutdownManagerHealthCheckPath : string := "/healthz".
Definition ShutdownManagerReadyPath : string := "/shutdown/ready".
Definition DefaultEnvoyDrainTimeout : Z := 60.
Definition DefaultEnvoyTerminationGracePeriod : Z := 300.
Definition DefaultShutdownManagerImage : string := "docker.io/envoyproxy/gateway:v1.3.0".

(** ** The pods of the proxy *)

Definition http_probe (path : string) (port period failures : Z) : Probe :=
  {| pb_httpGet := {| hg_path := path; hg_port := FromInt port; hg_scheme := "HTTP" |};
     pb_timeoutSeconds := 1; pb_periodSeconds := period; pb_successThreshold := 1; pb_failureThreshold := failures;
     pb_rest := "" |}.

Definition tcp_container_port (n : string) (port : Z) : ContainerPort :=
  {| cp_name := n; cp_containerPort := port; cp_protocol := ProtocolTCP; cp_rest := "" |}.

(** What the configuration says about shutting down: whether it is graceful, the
    drain timeout and grace period in seconds, the image. *)
Definition shutdown_settings (gs : option EnvoyProxyGracefulShutdown) : bool * Z * Z * string :=
  match gs with
  | None => (true, DefaultEnvoyDrainTimeout, DefaultEnvoyTerminationGracePeriod, DefaultShutdownManagerImage)
  | Some gs =>
      (negb (gs_disabled gs),
       match gs_drainTimeout gs with Some d => Z.quot d 1000000000 | None => DefaultEnvoyDrainTimeout end,
       default DefaultEnvoyTerminationGracePeriod (gs_terminationGracePeriodSeconds gs),
       if decide (gs_shutdownManagerImage gs ≠ "") then gs_shutdownManagerImage gs else DefaultShutdownManagerImage)
  end.

Definition envoy_container (envoyProxy : EnvoyProxy) (bootstrap ns snapshotName : string) (graceful : bool) : Container :=
  {| ct_name := envoyProxyContainerName;
     ct_image := if decide (ep_image envoyProxy = "") then envoyImage else ep_image envoyProxy;
     ct_command := [];
     ct_args := ["--config-yaml"; bootstrap; "--service-node"; snapshotName; "--service-cluster"; ns];
     ct_ports := [tcp_container_port "readiness" EnvoyReadinessPort; tcp_container_port "metrics" EnvoyStatsPort];
     ct_resources := default "" (ep_resources envoyProxy);
     ct_startupProbe := Some (http_probe EnvoyReadinessPath EnvoyReadinessPort 10 30);
     ct_readinessProbe := Some (http_probe EnvoyReadinessPath EnvoyReadinessPort 5 1);
     ct_livenessProbe := Some (http_probe EnvoyReadinessPath EnvoyReadinessPort 10 3);
     ct_preStop := if graceful
       then Some {| hg_path := ShutdownManagerReadyPath; hg_port := FromInt ShutdownManagerPort; hg_scheme := "HTTP" |}
       else None;
     ct_rest := "" |}.

Definition shutdown_container (image : string) (drainTimeout : Z) : Container :=
  {| ct_name := shutdownManagerContainerName; ct_image := image; ct_command := ["envoy-gateway"];
     ct_args := ["envoy"; "shutdown-manager"; "--ready-timeout=" +:+ pretty (drainTimeout + 10)%Z +:+ "s"];
     ct_ports := [tcp_container_port "shutdown" ShutdownManagerPort];
     ct_resources := "requests: cpu 10m, memory 32Mi";
     ct_startupProbe := Some (http_probe ShutdownManagerHealthCheckPath ShutdownManagerPort 10 30);
     ct_readinessProbe := Some (http_probe ShutdownManagerHealthCheckPath ShutdownManagerPort 10 3);
     ct_livenessProbe := Some (http_probe ShutdownManagerHealthCheckPath ShutdownManagerPort 10 3);
     ct_preStop := None; ct_rest := "" |}.

Definition getEnvoyProxyPodSpec (envoyProxy : EnvoyProxy) (bootstrap ns appName snapshotName : string) : PodTemplateSpec :=
  let '(graceful, drainTimeout, gracePeriod, image) := shutdown_settings (ep_gracefulShutdown envoyProxy) in
  {| pt_meta := with_annotations
       (Some {[ "prometheus.io/scrape" := "true"; "prometheus.io/port" := pretty EnvoyStatsPort;
                "prometheus.io/path" := "/stats/prometheus" ]})
       (with_labels (Some {[ LabelAppKubernetesName := appName; LabelAppKubernetesManagedBy := "kubelb" ]})
          (with_identity appName ns "" zero_meta));
     pt_terminationGracePeriodSeconds := Some gracePeriod;
     pt_containers := envoy_container envoyProxy bootstrap ns snapshotName graceful ::
       (if graceful then [shutdown_container image drainTimeout] else []);
     pt_affinity := ep_affinity envoyProxy;
     pt_tolerations := ep_tolerations envoyProxy;
     pt_nodeSelector := ep_nodeSelector envoyProxy;
     pt_topologySpreadConstraints :=
       if ep_singlePodPerNode envoyProxy
       then [{| tsc_maxSkew := 1; tsc_topologyKey := "kubernetes.io/hostname"; tsc_whenUnsatisfiable := "ScheduleAnyway";
                tsc_matchLabels := {[ LabelAppKubernetesName := appName ]} |}]
       else [];
     pt_rest := "" |}.

Definition podTemplateSpecNeedsUpdate (original desired : PodTemplateSpec) : bool :=
  negb (bool_decide (annotations (pt_meta original) = annotations (pt_meta desired))) ||
  negb (bool_decide (labels (pt_meta original) = labels (pt_meta desired))) ||
  negb (bool_decide (pt_terminationGracePeriodSeconds original = pt_terminationGracePeriodSeconds desired)) ||
  negb (bool_decide (pt_containers original = pt_containers desired)) ||
  negb (bool_decide (pt_affinity original = pt_affinity desired)) ||
  negb (bool_decide (pt_tolerations original = pt_tolerations desired)) ||
  negb (bool_decide (pt_nodeSelector original = pt_nodeSelector desired)) ||
  negb (bool_decide (pt_topologySpreadConstraints original = pt_topologySpreadConstraints desired)).

(** ** Requests and event filters *)

Definition enqueueEnvoy (o : ObjectMeta) : list NamespacedName :=
  [{| nn_namespace := namespace o; nn_name := RequeueAllResources |}].

Definition tenant_request (tenant : Tenant) : NamespacedName :=
  {| nn_namespace := tenantNamespacePattern (name (tn_meta tenant)); nn_name := RequeueAllResources |}.

Definition enqueueAllLoadBalancers : prog (list NamespacedName) :=
  r ← perform (ListIn KTenant None ∅);
  Ret (match r with inl _ => [] | inr ts => tenant_request <$> ts end).

Definition enqueueTenantLoadBalancers (tenant : Tenant) : list NamespacedName := [tenant_request tenant].

Definition configSpecChangedPredicate (e : watch_event Config) : bool :=
  match e with
  | UpdateEvent old new => negb (bool_decide (cs_envoyProxy (cf_spec old) = cs_envoyProxy (cf_spec new)))
  | CreateEvent _ => true
  | _ => false
  end.

Definition tenantSpecChangedPredicate (e : watch_event Tenant) : bool :=
  match e with
  | UpdateEvent old new => negb (bool_decide (is_class (ts_ingress (tn_spec old)) = is_class (ts_ingress (tn_spec new))))
  | _ => false
  end.

(** ** The reconciler *)

Record EnvoyCPReconciler := { er_namespace : string; er_topology : string }.

Definition er_global (r : EnvoyCPReconciler) : bool := bool_decide (er_topology r = EnvoyProxyTopologyGlobal).

Section reconciler.
(** [EnvoyServer.GenerateBootstrap] for the configuration last given to the server. *)
Context (GenerateBootstrap : Config → string).
Context (MarshalResource : Cluster + Listener → error + string) (HashResource : string → string).
(** [Snapshot.Consistent] of go-control-plane. *)
Context (Consistent : Snapshot → option error).
Context (r : EnvoyCPReconciler).

(** Those that are not being deleted. *)
Definition live_lbs (lbs : list LoadBalancer) : list LoadBalancer :=
  filter (λ lb, deletionTimestamp (lb_meta lb) = None) lbs.
Definition live_routes (routes : list Route) : list Route :=
  filter (λ rt, deletionTimestamp (rt_meta rt) = None) routes.

Definition listed_all (req : NamespacedName) : prog (outcome (list LoadBalancer * list Route)) :=
  if decide (er_topology r = EnvoyProxyTopologyShared) then
    lbs <-! perform (ListIn KLoadBalancer (Some (nn_namespace req)) ∅) ;;
    routes <-! perform (ListIn KRoute (Some (nn_namespace req)) ∅) ;;
    ok (lbs, routes)
  else if decide (er_topology r = EnvoyProxyTopologyGlobal) then
    lbs <-! perform (ListIn KLoadBalancer None ∅) ;;
    routes <-! perform (ListIn KRoute None ∅) ;;
    ok (lbs, routes)
  else ok ([], []).

Definition ListLoadBalancersAndRoutes (req : NamespacedName) : prog (outcome (list LoadBalancer * list Route)) :=
  all <-! listed_all req ;;
  let '(loadBalancers, routes) := all in
  ok (live_lbs loadBalancers, live_routes routes).

Definition cleanupEnvoyProxy (config : Config) (appName ns : string) : prog (outcome unit) :=
  let n := envoyResourcePattern appName in
  delete_ignoring (if ep_useDaemonset (cs_envoyProxy (cf_spec config)) then KDaemonSet else KDeployment) ns n
    (Wrapf ("failed to delete envoy proxy " +:+ n)).

Definition proxy_meta (appName ns : string) : ObjectMeta :=
  with_labels (Some {[ LabelAppKubernetesName := "kubelb-envoy-proxy"; LabelAppKubernetesInstance := appName;
                       LabelAppKubernetesManagedBy := "kubelb" ]})
    (with_identity (envoyResourcePattern appName) ns "" zero_meta).

Definition ensureEnvoyProxy (config : Config) (ns appName snapshotName : string) : prog (outcome unit) :=
  let envoyProxy := cs_envoyProxy (cf_spec config) in
  let n := envoyResourcePattern appName in
  let template := getEnvoyProxyPodSpec envoyProxy (GenerateBootstrap config) ns appName snapshotName in
  let selector := Some {[ LabelAppKubernetesName := appName ]} in
  if ep_useDaemonset envoyProxy then
    got ← perform (Get KDaemonSet ns n);
    match got with
    | inl e =>
        if IsNotFound e then
          _ <-! perform (Create KDaemonSet {| ds_meta := proxy_meta appName ns; ds_selector := selector;
                                              ds_template := template; ds_rest := "" |}) ;; ok ()
        else fail e
    | inr d =>
        if podTemplateSpecNeedsUpdate (ds_template d) template then
          _ <-["failed to update envoy proxy"] perform (Update KDaemonSet
                 {| ds_meta := ds_meta d; ds_selector := selector; ds_template := template; ds_rest := ds_rest d |}) ;; ok ()
        else ok ()
    end
  else
    got ← perform (Get KDeployment ns n);
    match got with
    | inl e =>
        if IsNotFound e then
          _ <-! perform (Create KDeployment {| dp_meta := proxy_meta appName ns; dp_replicas := Some (ep_replicas envoyProxy);
                                               dp_selector := selector; dp_template := template; dp_rest := "" |}) ;; ok ()
        else fail e
    | inr d =>
        if podTemplateSpecNeedsUpdate (dp_template d) template then
          _ <-["failed to update envoy proxy"] perform (Update KDeployment
                 {| dp_meta := dp_meta d; dp_replicas := Some (ep_replicas envoyProxy); dp_selector := selector;
                    dp_template := template; dp_rest := dp_rest d |}) ;; ok ()
        else ok ()
    end.

Definition set_snapshot (snapshotName : string) (s : Snapshot) (wrap_err : error → error) : prog (outcome unit) :=
  e ← perform (SetSnapshot snapshotName s);
  match e with Some e => fail (wrap_err e) | None => ok () end.

Definition updateCache (snapshotName : string) (lbs : list LoadBalancer) (routes : list Route) : prog (outcome unit) :=
  getAddresses ← perform ReadAddresses;
  pa ← perform ReadAllocator;
  desired <-! lift (MapSnapshot getAddresses MarshalResource HashResource lbs routes (Some pa)) ;;
  current ← perform (GetSnapshot snapshotName);
  match current with
  | inl _ => set_snapshot snapshotName desired id
  | inr current =>
      if decide (sn_version current = sn_version desired) then ok ()
      else match Consistent desired with
           | Some e => fail (Wrapf "new Envoy config snapshot is not consistent" e)
           | None => set_snapshot snapshotName desired (Wrapf "failed to set a new Envoy cache snapshot")
           end
  end.

Definition reconcileEnvoy (config : Config) (req : NamespacedName) : prog (outcome unit) :=
  let '(snapshotName, appName) := envoySnapshotAndAppName (er_topology r) req in
  found <-["failed to list LoadBalancers and Routes"] ListLoadBalancersAndRoutes req ;;
  let '(lbs, routes) := found in
  let ns := if er_global r then er_namespace r else nn_namespace req in
  if decide (lbs = [] ∧ routes = []) then
    _ ← perform (ClearSnapshot snapshotName);
    cleanupEnvoyProxy config appName ns
  else
    _ <-["failed to update Envoy proxy"] ensureEnvoyProxy config ns appName snapshotName ;;
    _ ← perform (AllocateLBs lbs);
    _ ← perform (AllocateRoutes routes);
    updateCache snapshotName lbs routes.

Definition ReconcileEnvoy (req : NamespacedName) : prog (outcome unit) :=
  config <-["failed to retrieve config"] GetConfig (er_namespace r) ;;
  reconcileEnvoy config req.
End reconciler.

(** ** What is published *)

(** A snapshot handed to the cache, or the proxy removed. *)
Definition notable (e : event) : option (Snapshot + unit) :=
  match e with
  | existT (SetSnapshot _ s) _ => Some (inl s)
  | existT (Delete KDeployment _ _) _ | existT (Delete KDaemonSet _ _) _ => Some (inr ())
  | _ => None
  end.
Definition plain (c : call) : Prop := ∀ a, notable (existT c a) = None.

Lemma plain_runs {A} (p : prog A) log :
  only_calls plain p → absent notable log →
  all_runs p (λ log' _, absent notable log' ∧ ∃ l, log' = log ++ l) log.
Proof.
  intros Hp Ha. eapply all_runs_mono; [|apply only_calls_runs, Hp].
  intros log' _ (l & -> & Hl). split; [|by eexists]. apply Forall_app. split; [done|].
  eapply list.Forall_impl; [exact Hl|]. by intros [c a] Hc.
Qed.

(** What the API server listed, in full and without the objects being deleted. *)
Definition fetched (r : EnvoyCPReconciler) (log : list event) (lbs : list LoadBalancer) (routes : list Route) : Prop :=
  (∃ ns1 ns2 L R, existT (ListIn KLoadBalancer ns1 ∅) (inr L) ∈ log ∧ existT (ListIn KRoute ns2 ∅) (inr R) ∈ log ∧
     lbs = live_lbs L ∧ routes = live_routes R) ∨
  (er_topology r ≠ EnvoyProxyTopologyShared ∧ er_topology r ≠ EnvoyProxyTopologyGlobal ∧ lbs = [] ∧ routes = []).

Lemma fetched_app r l1 l2 lbs routes : fetched r l1 lbs routes → fetched r (l1 ++ l2) lbs routes.
Proof.
  unfold fetched. setoid_rewrite elem_of_app. intros [(ns1 & ns2 & L & R & ? & ? & ?)|?]; [left|by right].
  exists ns1, ns2, L, R. auto.
Qed.

Lemma two_lists_runs r ns log :
  absent notable log →
  all_runs (lbs <-! perform (ListIn KLoadBalancer ns ∅) ;; routes <-! perform (ListIn KRoute ns ∅) ;; ok (lbs, routes))
    (λ log' res, absent notable log' ∧
       ((∃ e, res = Done (inl e)) ∨ ∃ L R, res = Done (inr (L, R)) ∧ fetched r log' (live_lbs L) (live_routes R))) log.
Proof.
  intros Ha. apply all_runs_try. intros [e|L]; cbv beta iota.
  { simpl. split; [by apply absent_snoc|]. left. by eexists. }
  apply all_runs_try. intros [e|R]; cbv beta iota; simpl; (split; [by repeat apply absent_snoc|]);
    [left; by eexists|right].
  exists L, R. split; [done|]. left. exists ns, ns, L, R.
  split; [apply elem_of_app; left; apply elem_of_app; right; by apply list_elem_of_singleton|].
  split; [apply elem_of_app; right; by apply list_elem_of_singleton|done].
Qed.

Lemma ListLoadBalancersAndRoutes_runs r req log :
  absent notable log →
  all_runs (ListLoadBalancersAndRoutes r req)
    (λ log' res, absent notable log' ∧
       ((∃ e, res = Done (inl e)) ∨ ∃ lbs routes, res = Done (inr (lbs, routes)) ∧ fetched r log' lbs routes)) log.
Proof.
  intros Ha. unfold ListLoadBalancersAndRoutes, listed_all. apply all_runs_try.
  repeat destruct (decide _).
  1, 2: eapply all_runs_mono; [|by apply (two_lists_runs r)];
    intros log' res [Ha' [[e0 ->]|(L & R & -> & Hf)]]; simpl; (split; [done|]); [left; by eexists|right; eauto].
  simpl. split; [done|]. right. exists [], []. split; [done|]. by right.
Qed.

Section published.
Context (GenerateBootstrap : Config → string).
Context (MarshalResource : Cluster + Listener → error + string) (HashResource : string → string).
Context (Consistent : Snapshot → option error) (r : EnvoyCPReconciler).

(** What every notable event must satisfy, given the log before it. *)
Definition published_from (l1 : list event) (x : Snapshot + unit) : Prop :=
  ∃ lbs routes, fetched r l1 lbs routes ∧
    match x with
    | inl s => existT (AllocateLBs lbs) () ∈ l1 ∧ existT (AllocateRoutes routes) () ∈ l1 ∧
        ∃ getAddresses pa, existT ReadAllocator pa ∈ l1 ∧
          MapSnapshot getAddresses MarshalResource HashResource lbs routes (Some pa) = Done (inr s)
    | inr _ => lbs = [] ∧ routes = []
    end.

Definition all_published (log : list event) : Prop :=
  ∀ l1 e l2 x, log = l1 ++ e :: l2 → notable e = Some x → l2 = [] ∧ published_from l1 x.

Lemma absent_published log : absent notable log → all_published log.
Proof. intros Ha l1 e l2 x Hl He. by eapply absent_split. Qed.

Lemma snoc_published log e :
  absent notable log → (∀ x, notable e = Some x → published_from log x) → all_published (log ++ [e]).
Proof.
  intros Ha He l1 e' l2 x Hl Hx. destruct (absent_snoc_split _ _ _ _ _ _ _ Ha Hl Hx) as (-> & -> & ->). auto.
Qed.

Lemma updateCache_runs node lbs routes log :
  absent notable log → fetched r log lbs routes →
  existT (AllocateLBs lbs) () ∈ log → existT (AllocateRoutes routes) () ∈ log →
  all_runs (updateCache MarshalResource HashResource Consistent node lbs routes) (λ log' _, all_published log') log.
Proof.
  intros Ha Hf Hal Har. unfold updateCache.
  apply all_runs_perform. intros get. apply all_runs_perform. intros pa. apply all_runs_try.
  set (log1 := (log ++ [existT ReadAddresses get]) ++ [existT ReadAllocator pa]).
  assert (absent notable log1) as Ha1 by by repeat apply absent_snoc.
  destruct (MapSnapshot _ _ _ _ _ _) as [[e|s]|] eqn:Em; simpl; [by apply absent_published| |by apply absent_published].
  assert (∀ a, published_from (log1 ++ [existT (GetSnapshot node) a]) (inl s)) as Hpub.
  { intros a. exists lbs, routes. split; [by repeat apply fetched_app|].
    split; [by repeat (apply elem_of_app; left)|]. split; [by repeat (apply elem_of_app; left)|].
    exists get, pa. split; [|done]. apply elem_of_app. left. apply elem_of_app. right. by apply list_elem_of_singleton. }
  assert (∀ a w, all_runs (set_snapshot node s w) (λ log' _, all_published log')
    (log1 ++ [existT (GetSnapshot node) a])) as Hset.
  { intros a w b. assert (all_published ((log1 ++ [existT (GetSnapshot node) a]) ++ [existT (SetSnapshot node s) b])).
    { apply snoc_published; [by apply absent_snoc|]. intros x [= <-]. apply Hpub. }
    by destruct b. }
  intros [e|current]; [apply Hset|].
  destruct (decide (sn_version current = sn_version s)); [by apply absent_published, absent_snoc|].
  destruct (Consistent s); [by apply absent_published, absent_snoc|apply Hset].
Qed.
End published.

(** C33: what Envoy gets is what the API server has: in every run of the reconciler,
    a snapshot is handed to the cache only as the last step, and it is the snapshot
    mapped from exactly the listed LoadBalancers and Routes that are not being
    deleted, after their ports were allocated; the proxy is removed only when there
    are none. *)
Theorem ReconcileEnvoy_publishes_live GenerateBootstrap MarshalResource HashResource Consistent r req :
  all_runs (ReconcileEnvoy GenerateBootstrap MarshalResource HashResource Consistent r req)
    (λ log _, ∀ l1 e l2 x, log = l1 ++ e :: l2 → notable e = Some x →
       l2 = [] ∧ published_from MarshalResource HashResource r l1 x) [].
Proof.
  change (all_runs (ReconcileEnvoy GenerateBootstrap MarshalResource HashResource Consistent r req)
    (λ log _, all_published MarshalResource HashResource r log) []).
  unfold ReconcileEnvoy. apply all_runs_try_wrap. intros [e|config]; cbv beta iota.
  { simpl. apply absent_published. by repeat constructor. }
  unfold reconcileEnvoy. destruct (envoySnapshotAndAppName _ _) as [node app].
  apply all_runs_try_wrap. eapply all_runs_mono; [|apply ListLoadBalancersAndRoutes_runs; by repeat constructor].
  intros log res [Ha [[e ->]|(lbs & routes & -> & Hf)]]; cbv beta iota; [by apply absent_published|].
  destruct (decide (lbs = [] ∧ routes = [])) as [[-> ->]|_].
  { apply all_runs_perform. intros [].
    assert (all_runs (cleanupEnvoyProxy config app (if er_global r then er_namespace r else nn_namespace req))
      (λ log' _, all_published MarshalResource HashResource r log') (log ++ [existT (ClearSnapshot node) ()])) as H.
    { eapply all_runs_mono; [|apply delete_ignoring_runs]. intros log' res (a & -> & _).
      apply snoc_published; [by apply absent_snoc|].
      intros x Hx. destruct (ep_useDaemonset _); injection Hx as <-; exists [], []; (split; [by apply fetched_app|done]). }
    exact H. }
  apply all_runs_try_wrap. eapply all_runs_mono; [|apply plain_runs; [|done]].
  2: { unfold ensureEnvoyProxy. solve_calls; by intros a. }
  intros log1 res [Ha1 [l ->]]. destruct res as [[e|[]]|]; [by apply absent_published| |by apply absent_published].
  apply all_runs_perform. intros []. apply all_runs_perform. intros [].
  apply updateCache_runs.
  - by repeat apply absent_snoc.
  - by repeat apply fetched_app.
  - apply elem_of_app. left. apply elem_of_app. right. by apply list_elem_of_singleton.
  - apply elem_of_app. right. by apply list_elem_of_singleton.
Qed.

(** ** Replicas *)

Lemma podTemplateSpecNeedsUpdate_refl t : podTemplateSpecNeedsUpdate t t = false.
Proof. unfold podTemplateSpecNeedsUpdate. by rewrite !bool_decide_true. Qed.

(** the number of replicas of the configuration is compared with nothing: while
    the pods of the running Deployment are as desired, a changed number of replicas
    is not applied, whatever number the Deployment has. *)
Theorem ensureEnvoyProxy_ignores_replicas GenerateBootstrap {S} (handle : S → ∀ c, S * resp c) s config ns appName node d :
  ep_useDaemonset (cs_envoyProxy (cf_spec config)) = false →
  dp_template d = getEnvoyProxyPodSpec (cs_envoyProxy (cf_spec config)) (GenerateBootstrap config) ns appName node →
  handle s (Get KDeployment ns (envoyResourcePattern appName)) = (s, inr d) →
  run handle (ensureEnvoyProxy GenerateBootstrap config ns appName node) s [] =
    (s, [existT (Get KDeployment ns (envoyResourcePattern appName)) (inr d)], Done (inr ())).
Proof.
  intros Hds Ht Hget. unfold ensureEnvoyProxy. rewrite Hds. cbn -[podTemplateSpecNeedsUpdate getEnvoyProxyPodSpec].
  rewrite Hget. cbn -[podTemplateSpecNeedsUpdate getEnvoyProxyPodSpec].
  by rewrite Ht, podTemplateSpecNeedsUpdate_refl.
Qed.

(** An API server that has the Deployment and nothing else. *)
Definition one_deployment (d : Deployment) (s : unit) (c : call) : unit * resp c :=
  (s, match c as c return resp c with
      | Get k _ _ => match k as k return error + objT k with KDeployment => inr d | _ => inl (StatusError NotFound) end
      | c => (one_service zero_service (λ _ _, ((-1)%Z, false)) s c).2
      end).

Lemma ensureEnvoyProxy_ignores_replicas_witness :
  let config := sample_config {| cd_wildcardDomain := ""; cd_allowExplicitHostnames := false;
                  cd_useDNSAnnotations := false; cd_useCertificateAnnotations := false |} None in
  let d := {| dp_meta := proxy_meta "tenant-a" "tenant-a"; dp_replicas := Some 1%Z;
              dp_selector := Some {[ LabelAppKubernetesName := "tenant-a" ]};
              dp_template := getEnvoyProxyPodSpec (cs_envoyProxy (cf_spec config)) "{}" "tenant-a" "tenant-a" "tenant-a";
              dp_rest := "" |} in
  run (one_deployment d) (ensureEnvoyProxy (λ _, "{}") config "tenant-a" "tenant-a" "tenant-a") () [] =
    ((), [existT (Get KDeployment "tenant-a" "envoy-tenant-a") (inr d)], Done (inr ())).
Proof.
  intros config d.
  apply (ensureEnvoyProxy_ignores_replicas (λ _, "{}") (one_deployment d) () config "tenant-a" "tenant-a" "tenant-a" d).
  - reflexivity.
  - reflexivity.
  - reflexivity.
Defined.
