(* ===== verification/Bootstrap.v ===== *)
(** * The Envoy server and the bootstrap configuration
    (internal/envoy/server.go, internal/envoy/bootstrap.go)

    [GenerateBootstrap] is the static part of what an Envoy proxy runs with: where
    the control plane is, the admin interface, and two listeners that show one path
    of the admin interface each to the kubelet and to Prometheus.  The dynamic part
    is the snapshot of EnvoySnapshot.v.  The messages are records of the fields
    the code sets, in the order of the source; a message packed by [anypb.New] is
    kept as it is.  [protojson.Marshal] is a parameter.  The package variable
    [EnvoyAdminListenerAddress] is passed as state, because the function writes it. *)
From stdpp Require Import base gmap sets list strings pretty.
From Stdlib Require Import Ascii.
From S2P Require Import Prelude GoStrings Api Names PortAllocator PortAllocatorSpec Annotations EnvoySnapshot DataPath NetApi EnvoyController.
Import Core V1alpha1.

Definition xdsClusterName : string := "xds_cluster".
Definition controlPlaneAddress : string := "envoycp.kubelb.svc".
Definition adminClusterName : string := "admin_cluster".
Definition EnvoyAdminPort : Z := 9001.
Definition EnvoyStatsPath : string := "/stats/prometheus".
Definition fixedHeapMonitorName : string := "envoy.resource_monitors.fixed_heap".
Definition downstreamConnectionsMonitorName : string := "envoy.resource_monitors.global_downstream_max_connections".
Definition shrinkHeapAction : string := "envoy.overload_actions.shrink_heap".
Definition stopAcceptingRequestsAction : string := "envoy.overload_actions.stop_accepting_requests".

(** The thresholds, in hundredths. *)
Definition heapShrinkThreshold : Z := 95.
Definition heapStopRequestsThreshold : Z := 98.

(** The initial value of [EnvoyAdminListenerAddress]. *)
Definition EnvoyAdminListenerAddress : string := "127.0.0.1".

(** ** Messages *)

Record SocketAddress := { sa_address : string; sa_port : Z }.

Record ConfigSource := {
  cso_resourceApiVersion : string;
  cso_apiType : string;
  cso_transportApiVersion : string;
  cso_setNodeOnFirstMessageOnly : bool;
  cso_grpcClusters : list string
}.

(** A route: an exact path, exact headers, the cluster. *)
Record StaticRoute := { str_path : string; str_headers : list (string * string); str_cluster : string }.

Record StaticManager := {
  sm_statPrefix : string;
  sm_httpFilters : list string;
  sm_routeName : string;
  sm_virtualHost : string;
  sm_domains : list string;
  sm_routes : list StaticRoute
}.

Record StaticListener := {
  sl_name : string; sl_address : SocketAddress; sl_filterName : string; sl_manager : StaticManager
}.

Record Thresholds := {
  th_priority : string; th_maxConnections : Z; th_maxPendingRequests : Z; th_maxRequests : Z;
  th_maxRetries : Z; th_trackRemaining : bool
}.

(** Durations in seconds. *)
Record KeepaliveSettings := { ka_interval : Z; ka_timeout : Z }.
Record TcpKeepalive := { tk_interval : Z; tk_probes : Z; tk_time : Z }.

Record StaticCluster := {
  stc_name : string;
  stc_connectTimeout : Z;
  stc_discoveryType : string;
  stc_lbPolicy : string;
  stc_assignmentName : string;
  stc_endpoints : list SocketAddress;
  stc_http2 : bool;
  stc_protocolOptions : list (string * KeepaliveSettings);
  stc_tcpKeepalive : option TcpKeepalive;
  stc_circuitBreakers : list Thresholds
}.

Inductive MonitorConfig :=
  | FixedHeapConfig (maxHeapSizeBytes : Z)
  | DownstreamConnectionsConfig (maxActiveDownstreamConnections : Z).
Record ResourceMonitor := { rm_name : string; rm_config : MonitorConfig }.
Record Trigger := { tg_name : string; tg_threshold : Z }.
Record OverloadAction := { oa_name : string; oa_triggers : list Trigger }.

(** The interval in milliseconds. *)
Record OverloadManager := {
  ovm_refreshInterval : Z; ovm_resourceMonitors : list ResourceMonitor; ovm_actions : list OverloadAction
}.

Record Bootstrap := {
  bs_ldsConfig : ConfigSource;
  bs_cdsConfig : ConfigSource;
  bs_listeners : list StaticListener;
  bs_clusters : list StaticCluster;
  bs_admin : SocketAddress;
  bs_overloadManager : option OverloadManager
}.

(** ** The server *)

(** The snapshot cache is the subject of EnvoyController.v. *)
Record Server := {
  srv_config : Config;
  srv_listenAddress : string;
  srv_listenPort : Z;
  srv_enableAdmin : bool
}.

(** [strconv.ParseUint(s, 10, 32)]: decimal digits only. *)
Definition ParseUint32 (s : string) : error + Z :=
  match s with
  | EmptyString => inl (Errorf "strconv.ParseUint: invalid syntax")
  | _ => match parse_digits 0 s with
         | None => inl (Errorf "strconv.ParseUint: invalid syntax")
         | Some z => if decide (z < 2 ^ 32)%Z then inr z else inl (Errorf "strconv.ParseUint: value out of range")
         end
  end.

Definition NewServer (config : Config) (listenAddress : string) (enableAdmin : bool) : go (error + Server) :=
  portString ← at_index (Split listenAddress ":"%char) 1;
  Done (port ← ParseUint32 portString;
        inr {| srv_config := config; srv_listenAddress := listenAddress; srv_listenPort := uint32 port;
               srv_enableAdmin := enableAdmin |}).

Definition UpdateConfig (s : Server) (config : Config) : Server :=
  {| srv_config := config; srv_listenAddress := srv_listenAddress s; srv_listenPort := srv_listenPort s;
     srv_enableAdmin := srv_enableAdmin s |}.

(** ** The static listeners *)

Definition HTTPConnectionManager : string := "envoy.filters.network.http_connection_manager".
Definition Router : string := "envoy.filters.http.router".

Definition getReadinessProbeListener : StaticListener :=
  {| sl_name := "probe_listener";
     sl_address := {| sa_address := "0.0.0.0"; sa_port := EnvoyReadinessPort |};
     sl_filterName := HTTPConnectionManager;
     sl_manager :=
       {| sm_statPrefix := "stats_probe"; sm_httpFilters := [Router]; sm_routeName := "local_route";
          sm_virtualHost := "probe_service"; sm_domains := ["*"];
          sm_routes := [{| str_path := "/ready"; str_headers := [(":method", "GET")];
                           str_cluster := adminClusterName |}] |} |}.

Definition getStatsListener : StaticListener :=
  {| sl_name := "stats_listener";
     sl_address := {| sa_address := "0.0.0.0"; sa_port := EnvoyStatsPort |};
     sl_filterName := HTTPConnectionManager;
     sl_manager :=
       {| sm_statPrefix := "stats_http"; sm_httpFilters := [Router]; sm_routeName := "local_route";
          sm_virtualHost := "stats_service"; sm_domains := ["*"];
          sm_routes := [{| str_path := "/stats/prometheus"; str_headers := [(":method", "GET")];
                           str_cluster := adminClusterName |}] |} |}.

(** ** The overload manager *)

(** [int64(x)] of a 64-bit unsigned integer keeps the 64 bits. *)
Definition int64 (z : Z) : Z := ((z + 2 ^ 63) `mod` 2 ^ 64 - 2 ^ 63)%Z.

Definition newThresholdTrigger (monitorName : string) (threshold : Z) : Trigger :=
  {| tg_name := monitorName; tg_threshold := threshold |}.

Definition buildOverloadManager (cfg : EnvoyProxyOverloadManager) : OverloadManager :=
  let heap := decide (om_maxHeapSizeBytes cfg > 0)%Z in
  let conns := decide (om_maxActiveDownstreamConnections cfg > 0)%Z in
  {| ovm_refreshInterval := 250;
     ovm_resourceMonitors :=
       (if heap then [{| rm_name := fixedHeapMonitorName;
                         rm_config := FixedHeapConfig (om_maxHeapSizeBytes cfg) |}] else []) ++
       (if conns then [{| rm_name := downstreamConnectionsMonitorName;
                          rm_config := DownstreamConnectionsConfig (int64 (om_maxActiveDownstreamConnections cfg)) |}]
        else []);
     ovm_actions :=
       if heap then
         [{| oa_name := shrinkHeapAction;
             oa_triggers := [newThresholdTrigger fixedHeapMonitorName heapShrinkThreshold] |};
          {| oa_name := stopAcceptingRequestsAction;
             oa_triggers := [newThresholdTrigger fixedHeapMonitorName heapStopRequestsThreshold] |}]
       else [] |}.

(** ** The bootstrap configuration *)

Definition xds_source : ConfigSource :=
  {| cso_resourceApiVersion := "V3"; cso_apiType := "GRPC"; cso_transportApiVersion := "V3";
     cso_setNodeOnFirstMessageOnly := true; cso_grpcClusters := [xdsClusterName] |}.

Definition breaker (priority : string) : Thresholds :=
  {| th_priority := priority; th_maxConnections := 100000; th_maxPendingRequests := 100000;
     th_maxRequests := 60000000; th_maxRetries := 50; th_trackRemaining := true |}.

Definition xds_cluster (listenPort : Z) : StaticCluster :=
  {| stc_name := xdsClusterName; stc_connectTimeout := 5; stc_discoveryType := "STRICT_DNS";
     stc_lbPolicy := "ROUND_ROBIN"; stc_assignmentName := xdsClusterName;
     stc_endpoints := [{| sa_address := controlPlaneAddress; sa_port := listenPort |}];
     stc_http2 := true;
     stc_protocolOptions :=
       [("envoy.extensions.upstreams.http.v3.HttpProtocolOptions", {| ka_interval := 30; ka_timeout := 5 |})];
     stc_tcpKeepalive := Some {| tk_interval := 5; tk_probes := 3; tk_time := 30 |};
     stc_circuitBreakers := [breaker "HIGH"; breaker "DEFAULT"] |}.

Definition admin_cluster (adminAddress : string) : StaticCluster :=
  {| stc_name := adminClusterName; stc_connectTimeout := 1; stc_discoveryType := "STATIC";
     stc_lbPolicy := "ROUND_ROBIN"; stc_assignmentName := adminClusterName;
     stc_endpoints := [{| sa_address := adminAddress; sa_port := EnvoyAdminPort |}];
     stc_http2 := false; stc_protocolOptions := []; stc_tcpKeepalive := None; stc_circuitBreakers := [] |}.

(** The message, given the value of the variable after the first statement. *)
Definition bootstrap_config (adminAddress : string) (s : Server) : Bootstrap :=
  {| bs_ldsConfig := xds_source;
     bs_cdsConfig := xds_source;
     bs_listeners := [getReadinessProbeListener; getStatsListener];
     bs_clusters := [xds_cluster (srv_listenPort s); admin_cluster adminAddress];
     bs_admin := {| sa_address := adminAddress; sa_port := EnvoyAdminPort |};
     bs_overloadManager :=
       match ep_overloadManager (cs_envoyProxy (cf_spec (srv_config s))) with
       | Some cfg => if om_enabled cfg then Some (buildOverloadManager cfg) else None
       | None => None
       end |}.

Definition GenerateBootstrap (Marshal : Bootstrap → error + string) (adminAddress : string) (s : Server)
    : string * go string :=
  let adminAddress := if srv_enableAdmin s then "0.0.0.0" else adminAddress in
  (adminAddress,
   match Marshal (bootstrap_config adminAddress s) with
   | inl _ => Panics
   | inr jsonBytes => Done jsonBytes
   end).

(** ** The admin interface stays inside the pod *)

(** [EnvoyAdminListenerAddress] after a series of calls. *)
Definition admin_after (Marshal : Bootstrap → error + string) (ss : list Server) : string :=
  foldl (λ a s, (GenerateBootstrap Marshal a s).1) EnvoyAdminListenerAddress ss.

(** A request of a given method and path matches a route. *)
Definition route_matches (method path : string) (r : StaticRoute) : bool :=
  bool_decide (str_path r = path) &&
  forallb (λ '(h, v), bool_decide (h = ":method") && bool_decide (v = method)) (str_headers r).

(** The clusters the static listeners of a port send a request to. *)
Definition static_clusters (b : Bootstrap) (port : Z) (method path : string) : list string :=
  filter (λ l, sa_port (sl_address l) = port) (bs_listeners b) ≫= λ l,
    str_cluster <$> filter (λ r, route_matches method path r = true) (sm_routes (sl_manager l)).

Lemma admin_after_spec Marshal ss :
  admin_after Marshal ss = if existsb srv_enableAdmin ss then "0.0.0.0" else EnvoyAdminListenerAddress.
Proof.
  unfold admin_after. generalize EnvoyAdminListenerAddress as a.
  induction ss as [|s ss IH]; intros a; [done|]. simpl. rewrite IH.
  by destruct (srv_enableAdmin s), (existsb srv_enableAdmin ss).
Qed.

Lemma static_clusters_spec admin s port method path c :
  c ∈ static_clusters (bootstrap_config admin s) port method path ↔
  c = adminClusterName ∧ method = "GET" ∧
  ((port = EnvoyReadinessPort ∧ path = EnvoyReadinessPath) ∨ (port = EnvoyStatsPort ∧ path = EnvoyStatsPath)).
Proof.
  unfold static_clusters. rewrite list_elem_of_bind. setoid_rewrite list_elem_of_fmap.
  setoid_rewrite list_elem_of_filter. unfold route_matches.
  setoid_rewrite andb_true_iff. setoid_rewrite bool_decide_eq_true. simpl. split.
  - intros (l & (r & -> & [Hp Hh] & Hr) & Hport & Hl).
    apply elem_of_cons in Hl as [->|Hl]; [|apply list_elem_of_singleton in Hl as ->];
      apply list_elem_of_singleton in Hr as ->; simpl in *;
      rewrite andb_true_r, bool_decide_eq_true in Hh; auto 10.
  - intros (-> & -> & [[-> ->]|[-> ->]]).
    + exists getReadinessProbeListener. split; [|split; [done|apply elem_of_cons; by left]].
      eexists. split; [|split; [|by apply list_elem_of_singleton]]; done.
    + exists getStatsListener. split; [|split; [done|apply elem_of_cons; right; by apply list_elem_of_singleton]].
      eexists. split; [|split; [|by apply list_elem_of_singleton]]; done.
Qed.

(** The name of a resource of a snapshot contains a dash. *)
Lemma origin_dashed pa lbs routes r :
  from_lb pa lbs r ∨ from_route pa routes r → lacks dash (cl_name r.2) = false.
Proof.
  intros [(lb & i & e & x & p & _ & _ & _ & _ & ->)|(rt & src & svc & es & p & _ & _ & _ & _ & H)].
  - simpl. unfold lb_resource_key, EnvoyResourceIdentifierPattern. rewrite !lacks_app.
    by rewrite andb_false_r.
  - unfold route_port_resource in H. destruct (lookup_or_panic _ _ _) as [[v b]|]; simpl in H; [|done].
    injection H as <-. done.
Qed.

(** C24: as long as no server ran with the debug mode, the admin interface is bound
    to the loopback address, and what the static listeners forward to it is exactly
    [GET /ready] on the readiness port and [GET /stats/prometheus] on the metrics
    port; no listener of a snapshot forwards to the admin cluster or to the control
    plane. *)
Theorem admin_contained Marshal ss s :
  forallb (λ s, negb (srv_enableAdmin s)) (ss ++ [s]) = true →
  let b := bootstrap_config (admin_after Marshal (ss ++ [s])) s in
  bs_admin b = {| sa_address := "127.0.0.1"; sa_port := 9001 |} ∧
  (∀ port method path, adminClusterName ∈ static_clusters b port method path ↔
     method = "GET" ∧ ((port = 19003 ∧ path = "/ready") ∨ (port = 19001 ∧ path = "/stats/prometheus"))%Z) ∧
  (∀ get marshal hash lbs routes pa snap l,
     MapSnapshot get marshal hash lbs routes pa = Done (inr snap) → l ∈ sn_listeners snap →
     forwards_to (li_filter l) ∉ [adminClusterName; xdsClusterName]).
Proof.
  intros Hoff b. assert (existsb srv_enableAdmin (ss ++ [s]) = false) as Hex.
  { apply not_true_iff_false. intros (x & Hx & Ht)%existsb_exists.
    rewrite forallb_forall in Hoff. apply Hoff in Hx. by rewrite Ht in Hx. }
  assert (bs_admin b = {| sa_address := "127.0.0.1"; sa_port := 9001 |}) as Hadmin.
  { unfold b. by rewrite admin_after_spec, Hex. }
  split; [done|]. split.
  - intros port method path. unfold b. rewrite static_clusters_spec.
    unfold EnvoyReadinessPort, EnvoyReadinessPath, EnvoyStatsPort, EnvoyStatsPath. tauto.
  - intros get marshal hash lbs routes pa snap l (rs & _ & -> & Ho)%snapshot_origin Hl.
    apply elem_of_listeners in Hl as [c Hin].
    destruct (origin_paired _ _ _ _ (Ho _ Hin)) as [_ Hp]. destruct (Hp l eq_refl) as [_ ->].
    pose proof (origin_dashed _ _ _ _ (Ho _ Hin)) as Hd. simpl in *.
    intros [E|E%list_elem_of_singleton]%elem_of_cons; by rewrite E in Hd.
Qed.

Definition plain_server (enableAdmin : bool) : Server :=
  {| srv_config := sample_config {| cd_wildcardDomain := ""; cd_allowExplicitHostnames := false;
       cd_useDNSAnnotations := false; cd_useCertificateAnnotations := false |} None;
     srv_listenAddress := "0.0.0.0:8001"; srv_listenPort := 8001; srv_enableAdmin := enableAdmin |}.

Lemma admin_contained_witness :
  let s := plain_server false in
  let b := bootstrap_config (admin_after (λ _, inr "{}") ([s] ++ [s])) s in
  adminClusterName ∈ static_clusters b 19003 "GET" "/ready" ∧
  adminClusterName ∉ static_clusters b 19003 "POST" "/quitquitquit".
Proof.
  intros s b. destruct (admin_contained (λ _, inr "{}") [s] s) as (_ & H & _); [reflexivity|].
  split.
  - apply H. split; [reflexivity|]. left. split; reflexivity.
  - intros [E _]%H. discriminate E.
Defined.

(** The variable is never set back: after one server with the debug mode, a server
    without it exposes the admin interface as well. *)
Example debug_mode_sticks :
  bs_admin (bootstrap_config (admin_after (λ _, inr "{}") [plain_server true; plain_server false])
              (plain_server false)) = {| sa_address := "0.0.0.0"; sa_port := 9001 |}.
Proof. reflexivity. Qed.

(** A LoadBalancer whose endpoint is the loopback address at the admin port gets a
    listener that forwards to the admin interface. *)
Theorem loopback_endpoint_reaches_admin :
  let lb := sample_lb "tenant-a" "uid-1"
    [{| le_name := "default"; le_addresses := [{| ea_ip := "127.0.0.1"; ea_hostname := "" |}];
        le_addressesReference := None;
        le_ports := [{| ep_name := "x"; ep_port := 9001; ep_protocol := "TCP" |}] |}] [] in
  ∃ s l c, MapSnapshot sample_addresses sample_marshal id [lb] [] (Some NewPortAllocator) = Done (inr s) ∧
    l ∈ sn_listeners s ∧ c ∈ sn_clusters s ∧ li_address l = "0.0.0.0" ∧ forwards_to (li_filter l) = cl_name c ∧
    (λ e, {| sa_address := lbe_address e; sa_port := lbe_port e |}) <$> cl_endpoints c =
      [bs_admin (bootstrap_config EnvoyAdminListenerAddress (plain_server false))].
Proof.
  eexists _, _, _. split; [vm_compute; reflexivity|].
  split; [apply list_elem_of_singleton; reflexivity|].
  split; [apply list_elem_of_singleton; reflexivity|]. repeat split.
Qed.

(** ** The probes *)

(** The cluster of a name, and the request of a probe with a port number. *)
Definition cluster_hosts (b : Bootstrap) (n : string) : list SocketAddress :=
  filter (λ c, stc_name c = n) (bs_clusters b) ≫= stc_endpoints.

Definition probe_answered (b : Bootstrap) (p : Probe) : Prop :=
  let g := pb_httpGet p in
  ∃ port, hg_port g = FromInt port ∧ hg_scheme g = "HTTP" ∧
    static_clusters b port "GET" (hg_path g) ≫= cluster_hosts b = [bs_admin b].

(** the pod and the bootstrap configuration it runs with agree.  Each probe of
    the Envoy container and the scrape target in the annotations of the pod is a
    request that a static listener forwards to the host the admin interface is bound
    to, and the ports of those listeners are the declared ports of the container. *)
Theorem probes_answered admin s envoyProxy bootstrap ns appName snapshotName :
  let b := bootstrap_config admin s in
  let pod := getEnvoyProxyPodSpec envoyProxy bootstrap ns appName snapshotName in
  ∃ c rest, pt_containers pod = c :: rest ∧
    (∃ p1 p2 p3, ct_startupProbe c = Some p1 ∧ ct_readinessProbe c = Some p2 ∧ ct_livenessProbe c = Some p3 ∧
       Forall (probe_answered b) [p1; p2; p3]) ∧
    (∃ port path, get_str (annotations (pt_meta pod)) "prometheus.io/port" = pretty port ∧
       get_str (annotations (pt_meta pod)) "prometheus.io/path" = path ∧
       static_clusters b port "GET" path ≫= cluster_hosts b = [bs_admin b]) ∧
    cp_containerPort <$> ct_ports c = (λ l, sa_port (sl_address l)) <$> bs_listeners b.
Proof.
  intros b pod. unfold pod, getEnvoyProxyPodSpec.
  destruct (shutdown_settings _) as [[[graceful drain] grace] image]. eexists _, _. split; [reflexivity|].
  split; [|split; [|reflexivity]].
  - eexists _, _, _. repeat (split; [reflexivity|]). repeat constructor; eexists; repeat split.
  - exists EnvoyStatsPort, EnvoyStatsPath. repeat split.
Qed.

(** ** Listener ports *)

(** Every port of the load balancers and of the routes has a listener port. *)
Definition lbs_served (pa : PortAllocator) (lbs : list LoadBalancer) : Prop :=
  ∀ lb i e p, lb ∈ lbs → ls_endpoints (lb_spec lb) !! i = Some e → p ∈ le_ports e →
    (Lookup pa (lb_key lb i) (EnvoyListenerPattern (ep_port p) (ep_protocol p))).2 = true.

Definition routes_served (pa : PortAllocator) (routes : list Route) : Prop :=
  ∀ rt source svc p, rt ∈ routes → rsp_kubernetes (rt_spec rt) = Some source → svc ∈ ks_services source →
    p ∈ ss_ports (svc_spec svc) →
    (Lookup pa (route_endpoint_key rt (originalRouteName rt source) svc)
       (EnvoyListenerPattern (sp_port p) (sp_protocol p))).2 = true.

(** The sockets a proxy listens on whatever the snapshot is. *)
Definition static_sockets (b : Bootstrap) : list SocketAddress := bs_admin b :: (sl_address <$> bs_listeners b).

Lemma served_value pa e k :
  wf pa → (Lookup pa e k).2 = true →
  ∃ v, Lookup pa e k = (v, true) ∧ in_use (portLookup pa) v ∧ (startPort ≤ v < endPort)%Z ∧ uint32 v = v.
Proof.
  intros Hwf. rewrite Lookup_allocated. destruct (allocated _ _ _) as [v|] eqn:E; [|done].
  intros _. assert (in_use (portLookup pa) v) as Hu by (by eexists _, _).
  pose proof (wf_range _ Hwf v Hu). exists v. auto using uint32_port.
Qed.

Lemma origin_port pa lbs routes l c :
  wf pa → lbs_served pa lbs → routes_served pa routes →
  from_lb (Some pa) lbs (Some l, c) ∨ from_route (Some pa) routes (Some l, c) →
  in_use (portLookup pa) (li_port l) ∧ (startPort ≤ li_port l < endPort)%Z.
Proof.
  intros Hwf Hlbs Hrts [(lb & i & e & x & p & Hlb & Hi & _ & Hp & E)|
                        (rt & src & svc & es & p & Hrt & Hk & Hsvc & Hp & E)].
  - destruct (served_value pa _ _ Hwf (Hlbs lb i e p Hlb Hi Hp)) as (v & Hv & Hu & Hr & Hid).
    injection E as E _. unfold lb_listener_port, lb_key in *. rewrite Hv, Hid in E.
    repeat case_decide; simplify_eq; done.
  - destruct (served_value pa _ _ Hwf (Hrts rt src svc p Hrt Hk Hsvc Hp)) as (v & Hv & Hu & Hr & Hid).
    unfold route_port_resource, getOriginalRouteName in E. rewrite Hk in E. simpl in E.
    rewrite Hv in E. simpl in E. rewrite Hid in E. injection E as E _.
    repeat case_decide; try destruct (IsHTTPRoute _); simplify_eq; done.
Qed.

(** C25: bounds of the listener ports.  With a well-formed allocator that serves all
    load balancers and routes, every listener of the snapshot listens on a port the
    allocator has in use, between 10000 and 65534, so never on the admin port or a
    privileged one; of the sockets of the bootstrap configuration it can only meet
    those of the metrics and the readiness listener. *)
Theorem listener_ports_bounded get marshal hash lbs routes pa snap l admin s :
  wf pa → lbs_served pa lbs → routes_served pa routes →
  MapSnapshot get marshal hash lbs routes (Some pa) = Done (inr snap) → l ∈ sn_listeners snap →
  in_use (portLookup pa) (li_port l) ∧ (10000 ≤ li_port l < 65535)%Z ∧
  ∀ a, a ∈ static_sockets (bootstrap_config admin s) → sa_port a = li_port l →
    li_port l = EnvoyStatsPort ∨ li_port l = EnvoyReadinessPort.
Proof.
  intros Hwf Hlbs Hrts (rs & _ & -> & Ho)%snapshot_origin [c Hin]%elem_of_listeners.
  destruct (origin_port pa lbs routes l c Hwf Hlbs Hrts (Ho _ Hin)) as [Hu Hr].
  split; [done|]. split; [done|]. intros a [->|[->|Ha]%elem_of_cons]%elem_of_cons; simpl.
  - unfold EnvoyAdminPort, startPort in *. lia.
  - auto.
  - apply list_elem_of_singleton in Ha as ->. auto.
Qed.

(** The allocation of a controller serves what it is given. *)
Lemma allocated_lbs_served src fuel lbs pa pos pa' pos' :
  wf pa → identified lbs → AllocatePortsForLoadBalancers src fuel pa pos lbs = Some (pa', pos') →
  wf pa' ∧ lbs_served pa' lbs.
Proof.
  intros Hwf Hid H. apply AllocatePortsForLoadBalancers_complete in H as (Hwf' & Hall & _); [|done..].
  split; [done|]. intros lb i e p Hlb Hi Hp.
  apply (proj2 (proj1 (Hall lb i e _ Hlb Hi))). unfold lb_endpoint_keys.
  apply list_elem_of_fmap. by exists p.
Qed.

Lemma listener_ports_bounded_witness :
  match AllocatePortsForLoadBalancers Z.of_nat 9 NewPortAllocator 0 sample_lbs with
  | Some (pa, _) =>
      match MapSnapshot sample_addresses sample_marshal id sample_lbs [] (Some pa) with
      | Done (inr snap) => length (sn_listeners snap) = 4 ∧
          ∀ l, l ∈ sn_listeners snap → (10000 ≤ li_port l < 65535)%Z
      | _ => False
      end
  | None => False
  end.
Proof.
  assert (match AllocatePortsForLoadBalancers Z.of_nat 9 NewPortAllocator 0 sample_lbs with
    | Some (pa, _) =>
        match MapSnapshot sample_addresses sample_marshal id sample_lbs [] (Some pa) with
        | Done (inr snap) => length (sn_listeners snap) = 4
        | _ => False
        end
    | None => False
    end) as Hlen by (vm_compute; reflexivity).
  destruct (AllocatePortsForLoadBalancers _ _ _ _ _) as [[pa pos]|] eqn:E; [|destruct Hlen].
  destruct (MapSnapshot _ _ _ _ _ _) as [[|snap]|] eqn:Es; [destruct Hlen| |destruct Hlen].
  split; [exact Hlen|]. intros l Hl.
  destruct (allocated_lbs_served _ _ _ _ _ _ _ New_wf sample_lbs_identified E) as [Hwf Hs].
  assert (routes_served pa []) as Hr by (intros rt src svc p Hrt; apply elem_of_nil in Hrt; destruct Hrt).
  apply (listener_ports_bounded sample_addresses sample_marshal id sample_lbs [] pa snap l
    EnvoyAdminListenerAddress (plain_server false) Hwf Hs Hr Es Hl).
Defined.

(** The allocator does not keep the ports of the static listeners free: it can give
    a load balancer the metrics port of the same proxy. *)
Theorem static_port_allocated :
  let lb := sample_lb "tenant-a" "uid-1" [sample_endpoint [http_port]] [] in
  ∃ pa pos snap l a, AllocatePortsForLoadBalancers (λ _, 9001%Z) 1 NewPortAllocator 0 [lb] = Some (pa, pos) ∧
    MapSnapshot sample_addresses sample_marshal id [lb] [] (Some pa) = Done (inr snap) ∧
    l ∈ sn_listeners snap ∧ a ∈ static_sockets (bootstrap_config EnvoyAdminListenerAddress (plain_server false)) ∧
    (li_address l, li_port l) = (sa_address a, sa_port a).
Proof.
  eexists _, _, _, _, _. split; [vm_compute; reflexivity|]. split; [vm_compute; reflexivity|].
  split; [apply list_elem_of_singleton; reflexivity|].
  split; [apply elem_of_cons; right; apply elem_of_cons; right; apply list_elem_of_singleton; reflexivity|].
  reflexivity.
Qed.

(** ** The overload manager *)

Lemma int64_id z : (0 ≤ z < 2 ^ 63)%Z → int64 z = z.
Proof. intros H. unfold int64. rewrite Z.mod_small; lia. Qed.

Lemma int64_wraps z : (2 ^ 63 ≤ z < 2 ^ 64)%Z → int64 z = (z - 2 ^ 64)%Z.
Proof.
  intros H. unfold int64. replace (z + 2 ^ 63)%Z with (z - 2 ^ 63 + 1 * 2 ^ 64)%Z by lia.
  rewrite Z.mod_add by lia. rewrite Z.mod_small; lia.
Qed.

(** the overload manager for limits of 64 bits.  Each action is triggered by a
    monitor of the same manager, and the heap shrinks before requests are refused; a
    limit of zero adds no monitor; the heap limit is passed on as it is, and the
    connection limit below 2^63, while from 2^63 on the proxy gets a negative one. *)
Theorem overload_limits cfg :
  (0 ≤ om_maxHeapSizeBytes cfg < 2 ^ 64)%Z → (0 ≤ om_maxActiveDownstreamConnections cfg < 2 ^ 64)%Z →
  let m := buildOverloadManager cfg in
  (∀ a t, a ∈ ovm_actions m → t ∈ oa_triggers a → tg_name t ∈ rm_name <$> ovm_resourceMonitors m) ∧
  (∀ t1 t2, t1 ∈ (ovm_actions m ≫= λ a, if decide (oa_name a = shrinkHeapAction) then oa_triggers a else []) →
            t2 ∈ (ovm_actions m ≫= λ a, if decide (oa_name a = stopAcceptingRequestsAction) then oa_triggers a else []) →
            tg_name t1 = tg_name t2 ∧ (tg_threshold t1 < tg_threshold t2)%Z) ∧
  (∀ v, FixedHeapConfig v ∈ rm_config <$> ovm_resourceMonitors m ↔
        v = om_maxHeapSizeBytes cfg ∧ (0 < v)%Z) ∧
  (∀ v, DownstreamConnectionsConfig v ∈ rm_config <$> ovm_resourceMonitors m ↔
        (0 < om_maxActiveDownstreamConnections cfg)%Z ∧
        v = if decide (om_maxActiveDownstreamConnections cfg < 2 ^ 63)%Z
            then om_maxActiveDownstreamConnections cfg
            else (om_maxActiveDownstreamConnections cfg - 2 ^ 64)%Z).
Proof.
  intros Hh Hc m. split; [|split; [|split]]; unfold m, buildOverloadManager; simpl.
  - intros a t. case_decide; [|by intros ?%elem_of_nil].
    intros Ha Ht. apply list_elem_of_fmap. eexists. split; [|apply elem_of_cons; by left].
    apply elem_of_cons in Ha as [->|Ha]; [|apply list_elem_of_singleton in Ha as ->];
      by apply list_elem_of_singleton in Ht as ->.
  - intros t1 t2. case_decide; [|by intros ?%elem_of_nil]. simpl.
    intros ->%list_elem_of_singleton ->%list_elem_of_singleton. done.
  - intros v. rewrite fmap_app, elem_of_app. do 2 case_decide; simpl;
      rewrite ?list_elem_of_singleton, ?elem_of_nil; intuition (simplify_eq; try done; try lia).
  - intros v. rewrite fmap_app, elem_of_app.
    assert (int64 (om_maxActiveDownstreamConnections cfg) =
      if decide (om_maxActiveDownstreamConnections cfg < 2 ^ 63)%Z then om_maxActiveDownstreamConnections cfg
      else (om_maxActiveDownstreamConnections cfg - 2 ^ 64)%Z) as ->.
    { case_decide; [apply int64_id|apply int64_wraps]; lia. }
    do 2 case_decide; simpl; rewrite ?list_elem_of_singleton, ?elem_of_nil;
      intuition (simplify_eq; try done; try lia); right; congruence.
Qed.

Lemma overload_limits_witness :
  let m := buildOverloadManager {| om_enabled := true; om_maxActiveDownstreamConnections := 2 ^ 64 - 1;
                                   om_maxHeapSizeBytes := 1073741824 |} in
  DownstreamConnectionsConfig (-1) ∈ rm_config <$> ovm_resourceMonitors m ∧
  FixedHeapConfig 1073741824 ∈ rm_config <$> ovm_resourceMonitors m.
Proof.
  intros m.
  destruct (overload_limits {| om_enabled := true; om_maxActiveDownstreamConnections := 2 ^ 64 - 1;
                               om_maxHeapSizeBytes := 1073741824 |}) as (_ & _ & H1 & H2);
    [simpl; lia|simpl; lia|].
  split; [apply H2; vm_compute; auto|apply H1; vm_compute; auto].
Defined.

(** ** The listen address *)

Lemma parse_digits_bound acc s z : parse_digits acc s = Some z → (0 ≤ acc)%Z → (0 ≤ z)%Z.
Proof.
  revert acc. induction s as [|c s IH]; intros acc; simpl; [by intros [= ->]|].
  destruct (Ascii.is_nat c); [|done]. intros H ?. eapply IH; [exact H|lia].
Qed.

(** What the port of an address is: [host:port], more colons are ignored. *)
Definition listen_port (listenAddress : string) : option string := Split listenAddress ":"%char !! 1.

(** building the server.  It panics exactly when the listen address has no
    colon; with one, the text between the first and the second colon is the port,
    decimal digits that fit 32 bits, and anything else is an error.  The port is
    the one the proxies reach the control plane at. *)
Theorem NewServer_spec config listenAddress enableAdmin :
  (NewServer config listenAddress enableAdmin = Panics ↔ lacks ":"%char listenAddress = true) ∧
  (∀ s, NewServer config listenAddress enableAdmin = Done (inr s) ↔
     ∃ text port, listen_port listenAddress = Some text ∧ text ≠ "" ∧ parse_digits 0 text = Some port ∧
       (0 ≤ port < 2 ^ 32)%Z ∧
       s = {| srv_config := config; srv_listenAddress := listenAddress; srv_listenPort := port;
              srv_enableAdmin := enableAdmin |} ∧
       cluster_hosts (bootstrap_config EnvoyAdminListenerAddress s) xdsClusterName =
         [{| sa_address := controlPlaneAddress; sa_port := port |}]).
Proof.
  unfold NewServer, at_index, listen_port. split.
  - destruct (Split listenAddress ":"%char !! 1) as [t|] eqn:E; simpl.
    + split; [done|]. intros H. by rewrite (Split_no_sep _ _ H) in E.
    + split; [|done]. intros _. by apply Split_short.
  - intros s. destruct (Split listenAddress ":"%char !! 1) as [t|] eqn:E; simpl.
    2: { split; [done|by intros (? & ? & ? & _)]. }
    unfold ParseUint32. split.
    + destruct t as [|c t]; [done|]. destruct (parse_digits 0 _) as [z|] eqn:Ez; [|done].
      case_decide as Hz; simpl; [|done]. intros [= <-].
      pose proof (parse_digits_bound _ _ _ Ez ltac:(lia)). rewrite uint32_id by lia.
      exists (String c t), z. by repeat split.
    + intros (text & port & [= <-] & Hne & Hp & Hr & -> & _). destruct t as [|c t]; [done|].
      rewrite Hp, decide_True by lia. simpl. by rewrite uint32_id.
Qed.
