(* ===== verification/Metrics.v ===== *)
(** * Metrics (internal/metrics)

    The Prometheus metrics of the three components: the factory that creates a metric
    and keeps its description, the variables of each package, their registration, the
    document generated from the descriptions (internal/metrics/metricsdocs), and the
    places where the controllers use them.  The Prometheus client is the class
    [Prometheus] with its documented behaviour. *)
From Stdlib Require Import Ascii.
From stdpp Require Import base gmap list strings pretty.
From S2P Require Import Prelude GoStrings Api GoSort NetApi Effects.
Import Core V1alpha1.

(** ** Metrics and their descriptions (doc.go, metrics.go) *)

Record MetricDescription := {
  md_name : string; md_help : string; md_type : string; md_labels : list string; md_component : string
}.
#[export] Instance MetricDescription_eq_dec : EqDecision MetricDescription.
Proof. solve_decision. Defined.

Definition MetricTypeCounter : string := "Counter".
Definition MetricTypeGauge : string := "Gauge".
Definition MetricTypeHistogram : string := "Histogram".
Definition ComponentManager : string := "manager".
Definition ComponentCCM : string := "ccm".
Definition ComponentEnvoyCP : string := "envoycp".

Definition SubsystemManager : string := "kubelb_manager".
Definition SubsystemCCM : string := "kubelb_ccm".
Definition SubsystemEnvoyCP : string := "kubelb_envoy_control_plane".

Definition LabelNamespace : string := "namespace".
Definition LabelTenant : string := "tenant".
Definition LabelResult : string := "result".
Definition LabelRouteType : string := "route_type".
Definition LabelTopology : string := "topology".
Definition LabelOperation : string := "operation".

Definition ResultSuccess : string := "success".
Definition ResultError : string := "error".

Definition RouteTypeIngress : string := "ingress".
Definition RouteTypeGateway : string := "gateway".
Definition RouteTypeHTTPRoute : string := "httproute".
Definition RouteTypeGRPCRoute : string := "grpcroute".

(** In milliseconds. *)
Definition DefaultBuckets : list Z := [1; 5; 10; 25; 50; 100; 250; 500; 1000; 2500; 5000; 10000; 30000; 60000]%Z.

(** A collector: the options it was created with. *)
Record Collector := {
  co_type : string; co_subsystem : string; co_name : string; co_help : string; co_labels : list string;
  co_buckets : list Z
}.

Definition MakeCounterVec (subsystem name help : string) (labels : list string) : Collector :=
  {| co_type := MetricTypeCounter; co_subsystem := subsystem; co_name := name; co_help := help; co_labels := labels; co_buckets := [] |}.
Definition MakeGaugeVec (subsystem name help : string) (labels : list string) : Collector :=
  {| co_type := MetricTypeGauge; co_subsystem := subsystem; co_name := name; co_help := help; co_labels := labels; co_buckets := [] |}.
Definition MakeGauge (subsystem name help : string) : Collector :=
  {| co_type := MetricTypeGauge; co_subsystem := subsystem; co_name := name; co_help := help; co_labels := []; co_buckets := [] |}.
Definition MakeHistogramVec (subsystem name help : string) (labels : list string) (buckets : option (list Z)) : Collector :=
  {| co_type := MetricTypeHistogram; co_subsystem := subsystem; co_name := name; co_help := help; co_labels := labels;
     co_buckets := default DefaultBuckets buckets |}.

(** ** The factory (factory.go) *)

Record MetricFactory := { mf_subsystem : string; mf_component : string; mf_descriptions : list MetricDescription }.

Definition NewFactory (subsystem component : string) : MetricFactory :=
  {| mf_subsystem := subsystem; mf_component := component; mf_descriptions := [] |}.

Definition describe (name help type : string) (labels : list string) (f : MetricFactory) : MetricFactory :=
  {| mf_subsystem := mf_subsystem f; mf_component := mf_component f;
     mf_descriptions := mf_descriptions f ++
       [{| md_name := mf_subsystem f +:+ "_" +:+ name; md_help := help; md_type := type; md_labels := labels;
           md_component := mf_component f |}] |}.

Definition NewCounterVec (name help : string) (labels : list string) (f : MetricFactory) : MetricFactory * Collector :=
  (describe name help MetricTypeCounter labels f, MakeCounterVec (mf_subsystem f) name help labels).
Definition NewGaugeVec (name help : string) (labels : list string) (f : MetricFactory) : MetricFactory * Collector :=
  (describe name help MetricTypeGauge labels f, MakeGaugeVec (mf_subsystem f) name help labels).
Definition NewGauge (name help : string) (f : MetricFactory) : MetricFactory * Collector :=
  (describe name help MetricTypeGauge [] f, MakeGauge (mf_subsystem f) name help).
Definition NewHistogramVec (name help : string) (labels : list string) (buckets : option (list Z)) (f : MetricFactory)
    : MetricFactory * Collector :=
  (describe name help MetricTypeHistogram labels f, MakeHistogramVec (mf_subsystem f) name help labels buckets).

(** ** The packages

    A package variable, and the call of the factory that makes it; the variables of a
    package are initialised in the order they are declared. *)
Definition variable : Type := string * (MetricFactory → MetricFactory * Collector).

Definition initialise (f : MetricFactory) (vars : list variable) : MetricFactory * list (string * Collector) :=
  foldl (λ '(f, env) '(x, make), let '(f', c) := make f in (f', env ++ [(x, c)])) (f, []) vars.

Fixpoint value_of (env : list (string * Collector)) (x : string) : option Collector :=
  match env with
  | [] => None
  | (y, c) :: env => if decide (x = y) then Some c else value_of env x
  end.

(** A place that selects a child of a metric by the values of its labels, given as the
    expressions in the source. *)
Inductive package := manager_metrics | ccm_metrics | envoycp_metrics.
Definition use : Type := package * string * list string.

Definition manager_reconcile_counters : list variable :=
  [("LoadBalancerReconcileTotal", NewCounterVec "loadbalancer_reconcile_total" "Total number of LoadBalancer reconciliation attempts" [LabelNamespace; LabelResult]);
   ("RouteReconcileTotal", NewCounterVec "route_reconcile_total" "Total number of Route reconciliation attempts" [LabelNamespace; LabelRouteType; LabelResult]);
   ("TenantReconcileTotal", NewCounterVec "tenant_reconcile_total" "Total number of Tenant reconciliation attempts" [LabelResult]);
   ("EnvoyCPReconcileTotal", NewCounterVec "envoycp_reconcile_total" "Total number of Envoy control plane reconciliation attempts" [LabelResult]);
   ("SyncSecretReconcileTotal", NewCounterVec "sync_secret_reconcile_total" "Total number of SyncSecret reconciliation attempts" [LabelNamespace; LabelResult])].

Definition manager_reconcile_durations : list variable :=
  [("LoadBalancerReconcileDuration", NewHistogramVec "loadbalancer_reconcile_duration_seconds" "Duration of LoadBalancer reconciliations in seconds" [LabelNamespace] None);
   ("RouteReconcileDuration", NewHistogramVec "route_reconcile_duration_seconds" "Duration of Route reconciliations in seconds" [LabelNamespace] None);
   ("TenantReconcileDuration", NewHistogramVec "tenant_reconcile_duration_seconds" "Duration of Tenant reconciliations in seconds" [] None);
   ("EnvoyCPReconcileDuration", NewHistogramVec "envoycp_reconcile_duration_seconds" "Duration of Envoy control plane reconciliations in seconds" [] None);
   ("SyncSecretReconcileDuration", NewHistogramVec "sync_secret_reconcile_duration_seconds" "Duration of SyncSecret reconciliations in seconds" [LabelNamespace] None)].

Definition manager_resource_gauges : list variable :=
  [("LoadBalancersTotal", NewGaugeVec "loadbalancers" "Current number of LoadBalancer resources" [LabelNamespace; LabelTenant; LabelTopology]);
   ("RoutesTotal", NewGaugeVec "routes" "Current number of Route resources" [LabelNamespace; LabelTenant; LabelRouteType]);
   ("TenantsTotal", NewGauge "tenants" "Current number of Tenant resources");
   ("EnvoyProxiesTotal", NewGaugeVec "envoy_proxies" "Current number of Envoy proxy deployments" [LabelNamespace; LabelTopology])].

Definition manager_port_metrics : list variable :=
  [("PortAllocatorAllocatedPorts", NewGauge "port_allocator_allocated_ports" "Current number of allocated ports in the port allocator");
   ("PortAllocatorEndpoints", NewGauge "port_allocator_endpoints" "Current number of endpoints tracked by the port allocator")].

Definition manager_snapshot_metrics : list variable :=
  [("EnvoyCPSnapshotUpdatesTotal", NewCounterVec "envoycp_snapshot_updates_total" "Total number of Envoy snapshot updates" ["snapshot_name"]);
   ("EnvoyCPClusters", NewGaugeVec "envoycp_clusters" "Current number of clusters in the Envoy snapshot" ["snapshot_name"]);
   ("EnvoyCPListeners", NewGaugeVec "envoycp_listeners" "Current number of listeners in the Envoy snapshot" ["snapshot_name"]);
   ("EnvoyCPEndpoints", NewGaugeVec "envoycp_endpoints" "Current number of endpoints in the Envoy snapshot" ["snapshot_name"])].

Definition manager_vars : list variable :=
  manager_reconcile_counters ++ manager_reconcile_durations ++ manager_resource_gauges ++ manager_port_metrics ++ manager_snapshot_metrics.

Definition manager_collectors : list string :=
  ["LoadBalancerReconcileTotal"; "RouteReconcileTotal"; "TenantReconcileTotal"; "EnvoyCPReconcileTotal"; "SyncSecretReconcileTotal"; "LoadBalancerReconcileDuration"; "RouteReconcileDuration"; "TenantReconcileDuration"; "EnvoyCPReconcileDuration"; "SyncSecretReconcileDuration"; "LoadBalancersTotal"; "RoutesTotal"; "TenantsTotal"; "EnvoyProxiesTotal"; "PortAllocatorAllocatedPorts"; "PortAllocatorEndpoints"; "EnvoyCPSnapshotUpdatesTotal"; "EnvoyCPClusters"; "EnvoyCPListeners"; "EnvoyCPEndpoints"].

Definition ccm_reconcile_counters : list variable :=
  [("ServiceReconcileTotal", NewCounterVec "service_reconcile_total" "Total number of Service reconciliation attempts" [LabelNamespace; LabelResult]);
   ("IngressReconcileTotal", NewCounterVec "ingress_reconcile_total" "Total number of Ingress reconciliation attempts" [LabelNamespace; LabelResult]);
   ("GatewayReconcileTotal", NewCounterVec "gateway_reconcile_total" "Total number of Gateway reconciliation attempts" [LabelNamespace; LabelResult]);
   ("HTTPRouteReconcileTotal", NewCounterVec "httproute_reconcile_total" "Total number of HTTPRoute reconciliation attempts" [LabelNamespace; LabelResult]);
   ("GRPCRouteReconcileTotal", NewCounterVec "grpcroute_reconcile_total" "Total number of GRPCRoute reconciliation attempts" [LabelNamespace; LabelResult]);
   ("NodeReconcileTotal", NewCounterVec "node_reconcile_total" "Total number of Node reconciliation attempts" [LabelResult]);
   ("SyncSecretReconcileTotal", NewCounterVec "sync_secret_reconcile_total" "Total number of SyncSecret reconciliation attempts" [LabelNamespace; LabelResult])].

Definition ccm_reconcile_durations : list variable :=
  [("ServiceReconcileDuration", NewHistogramVec "service_reconcile_duration_seconds" "Duration of Service reconciliations in seconds" [LabelNamespace] None);
   ("IngressReconcileDuration", NewHistogramVec "ingress_reconcile_duration_seconds" "Duration of Ingress reconciliations in seconds" [LabelNamespace] None);
   ("GatewayReconcileDuration", NewHistogramVec "gateway_reconcile_duration_seconds" "Duration of Gateway reconciliations in seconds" [LabelNamespace] None);
   ("HTTPRouteReconcileDuration", NewHistogramVec "httproute_reconcile_duration_seconds" "Duration of HTTPRoute reconciliations in seconds" [LabelNamespace] None);
   ("GRPCRouteReconcileDuration", NewHistogramVec "grpcroute_reconcile_duration_seconds" "Duration of GRPCRoute reconciliations in seconds" [LabelNamespace] None);
   ("NodeReconcileDuration", NewHistogramVec "node_reconcile_duration_seconds" "Duration of Node reconciliations in seconds" [] None);
   ("SyncSecretReconcileDuration", NewHistogramVec "sync_secret_reconcile_duration_seconds" "Duration of SyncSecret reconciliations in seconds" [LabelNamespace] None)].

Definition ccm_resource_gauges : list variable :=
  [("ManagedServicesTotal", NewGaugeVec "managed_services" "Current number of LoadBalancer services managed by CCM" [LabelNamespace]);
   ("ManagedIngressesTotal", NewGaugeVec "managed_ingresses" "Current number of Ingresses managed by CCM" [LabelNamespace]);
   ("ManagedGatewaysTotal", NewGaugeVec "managed_gateways" "Current number of Gateways managed by CCM" [LabelNamespace]);
   ("ManagedHTTPRoutesTotal", NewGaugeVec "managed_httproutes" "Current number of HTTPRoutes managed by CCM" [LabelNamespace]);
   ("ManagedGRPCRoutesTotal", NewGaugeVec "managed_grpcroutes" "Current number of GRPCRoutes managed by CCM" [LabelNamespace]);
   ("NodesTotal", NewGauge "nodes" "Current number of nodes in the cluster")].

Definition ccm_cluster_metrics : list variable :=
  [("KubeLBClusterConnected", NewGauge "kubelb_cluster_connected" "Whether the CCM is connected to the KubeLB cluster (1=connected, 0=disconnected)");
   ("KubeLBClusterOperationsTotal", NewCounterVec "kubelb_cluster_operations_total" "Total number of operations performed on the KubeLB cluster" [LabelOperation; LabelResult]);
   ("KubeLBClusterLatency", NewHistogramVec "kubelb_cluster_latency_seconds" "Latency of operations to the KubeLB cluster in seconds" [LabelOperation] None)].

Definition ccm_vars : list variable :=
  ccm_reconcile_counters ++ ccm_reconcile_durations ++ ccm_resource_gauges ++ ccm_cluster_metrics.

Definition ccm_collectors : list string :=
  ["ServiceReconcileTotal"; "IngressReconcileTotal"; "GatewayReconcileTotal"; "HTTPRouteReconcileTotal"; "GRPCRouteReconcileTotal"; "NodeReconcileTotal"; "SyncSecretReconcileTotal"; "ServiceReconcileDuration"; "IngressReconcileDuration"; "GatewayReconcileDuration"; "HTTPRouteReconcileDuration"; "GRPCRouteReconcileDuration"; "NodeReconcileDuration"; "SyncSecretReconcileDuration"; "ManagedServicesTotal"; "ManagedIngressesTotal"; "ManagedGatewaysTotal"; "ManagedHTTPRoutesTotal"; "ManagedGRPCRoutesTotal"; "NodesTotal"; "KubeLBClusterConnected"; "KubeLBClusterOperationsTotal"; "KubeLBClusterLatency"].

Definition envoycp_snapshot_metrics : list variable :=
  [("SnapshotsTotal", NewGauge "snapshots" "Current number of active Envoy snapshots");
   ("SnapshotUpdatesTotal", NewCounterVec "snapshot_updates_total" "Total number of Envoy snapshot updates" ["snapshot_name"]);
   ("SnapshotGenerationDuration", NewHistogramVec "snapshot_generation_duration_seconds" "Duration of Envoy snapshot generation in seconds" ["snapshot_name"] None)].

Definition envoycp_resource_metrics : list variable :=
  [("ClustersTotal", NewGaugeVec "clusters" "Current number of clusters in the Envoy snapshot" ["snapshot_name"]);
   ("ListenersTotal", NewGaugeVec "listeners" "Current number of listeners in the Envoy snapshot" ["snapshot_name"]);
   ("EndpointsTotal", NewGaugeVec "endpoints" "Current number of endpoints in the Envoy snapshot" ["snapshot_name"]);
   ("RoutesTotal", NewGaugeVec "routes" "Current number of routes in the Envoy snapshot" ["snapshot_name"]);
   ("SecretsTotal", NewGaugeVec "secrets" "Current number of secrets in the Envoy snapshot" ["snapshot_name"])].

Definition envoycp_grpc_metrics : list variable :=
  [("GRPCConnectionsTotal", NewGauge "grpc_connections" "Current number of active gRPC connections to the xDS server");
   ("GRPCRequestsTotal", NewCounterVec "grpc_requests_total" "Total number of gRPC xDS requests" ["type_url"]);
   ("GRPCResponsesTotal", NewCounterVec "grpc_responses_total" "Total number of gRPC xDS responses" ["type_url"])].

Definition envoycp_cache_metrics : list variable :=
  [("CacheHitsTotal", NewCounterVec "cache_hits_total" "Total number of cache hits for snapshot lookups" ["snapshot_name"]);
   ("CacheMissesTotal", NewCounterVec "cache_misses_total" "Total number of cache misses for snapshot lookups" ["snapshot_name"]);
   ("CacheClearsTotal", NewCounterVec "cache_clears_total" "Total number of cache clears" ["snapshot_name"])].

Definition envoycp_proxy_metrics : list variable :=
  [("EnvoyProxiesTotal", NewGaugeVec "envoy_proxies" "Current number of Envoy proxy deployments" [LabelNamespace; LabelTopology]);
   ("EnvoyProxyCreateTotal", NewCounterVec "envoy_proxy_create_total" "Total number of Envoy proxy deployments created" [LabelNamespace]);
   ("EnvoyProxyDeleteTotal", NewCounterVec "envoy_proxy_delete_total" "Total number of Envoy proxy deployments deleted" [LabelNamespace])].

Definition envoycp_vars : list variable :=
  envoycp_snapshot_metrics ++ envoycp_resource_metrics ++ envoycp_grpc_metrics ++ envoycp_cache_metrics ++ envoycp_proxy_metrics.

Definition envoycp_collectors : list string :=
  ["SnapshotsTotal"; "SnapshotUpdatesTotal"; "SnapshotGenerationDuration"; "ClustersTotal"; "ListenersTotal"; "EndpointsTotal"; "RoutesTotal"; "SecretsTotal"; "GRPCConnectionsTotal"; "GRPCRequestsTotal"; "GRPCResponsesTotal"; "CacheHitsTotal"; "CacheMissesTotal"; "CacheClearsTotal"; "EnvoyProxiesTotal"; "EnvoyProxyCreateTotal"; "EnvoyProxyDeleteTotal"].

Definition gateway_controller_uses : list use :=
  [(ccm_metrics, "GatewayReconcileDuration", ["req.Namespace"]);
   (ccm_metrics, "GatewayReconcileTotal", ["req.Namespace"; "metrics.ResultError"]);
   (ccm_metrics, "GatewayReconcileTotal", ["req.Namespace"; "metrics.ResultSkipped"]);
   (ccm_metrics, "ManagedGatewaysTotal", ["req.Namespace"]);
   (ccm_metrics, "GatewayReconcileTotal", ["req.Namespace"; "metrics.ResultSuccess"])].

Definition gateway_grpcroute_controller_uses : list use :=
  [(ccm_metrics, "GRPCRouteReconcileDuration", ["req.Namespace"]);
   (ccm_metrics, "GRPCRouteReconcileTotal", ["req.Namespace"; "metrics.ResultError"]);
   (ccm_metrics, "GRPCRouteReconcileTotal", ["req.Namespace"; "metrics.ResultSkipped"]);
   (ccm_metrics, "ManagedGRPCRoutesTotal", ["req.Namespace"]);
   (ccm_metrics, "GRPCRouteReconcileTotal", ["req.Namespace"; "metrics.ResultSuccess"])].

Definition gateway_httproute_controller_uses : list use :=
  [(ccm_metrics, "HTTPRouteReconcileDuration", ["req.Namespace"]);
   (ccm_metrics, "HTTPRouteReconcileTotal", ["req.Namespace"; "metrics.ResultError"]);
   (ccm_metrics, "HTTPRouteReconcileTotal", ["req.Namespace"; "metrics.ResultSkipped"]);
   (ccm_metrics, "ManagedHTTPRoutesTotal", ["req.Namespace"]);
   (ccm_metrics, "HTTPRouteReconcileTotal", ["req.Namespace"; "metrics.ResultSuccess"])].

Definition ingress_controller_uses : list use :=
  [(ccm_metrics, "IngressReconcileDuration", ["req.Namespace"]);
   (ccm_metrics, "IngressReconcileTotal", ["req.Namespace"; "metrics.ResultError"]);
   (ccm_metrics, "IngressReconcileTotal", ["req.Namespace"; "metrics.ResultSkipped"]);
   (ccm_metrics, "ManagedIngressesTotal", ["req.Namespace"]);
   (ccm_metrics, "IngressReconcileTotal", ["req.Namespace"; "metrics.ResultSuccess"])].

Definition kubelb_client_metrics_uses : list use :=
  [(ccm_metrics, "KubeLBClusterLatency", ["operation"]);
   (ccm_metrics, "KubeLBClusterOperationsTotal", ["operation"; "metrics.ResultError"]);
   (ccm_metrics, "KubeLBClusterOperationsTotal", ["operation"; "metrics.ResultSuccess"])].

Definition node_controller_uses : list use :=
  [(ccm_metrics, "NodeReconcileDuration", []);
   (ccm_metrics, "NodeReconcileTotal", ["metrics.ResultError"]);
   (ccm_metrics, "NodeReconcileTotal", ["metrics.ResultSuccess"])].

Definition service_controller_uses : list use :=
  [(ccm_metrics, "ServiceReconcileDuration", ["req.Namespace"]);
   (ccm_metrics, "ServiceReconcileTotal", ["req.Namespace"; "metrics.ResultError"]);
   (ccm_metrics, "ServiceReconcileTotal", ["req.Namespace"; "metrics.ResultSkipped"]);
   (ccm_metrics, "ServiceReconcileTotal", ["req.Namespace"; "metrics.ResultSuccess"]);
   (ccm_metrics, "ManagedServicesTotal", ["namespace"])].

Definition sync_secret_controller_uses : list use :=
  [(ccm_metrics, "SyncSecretReconcileDuration", ["req.Namespace"]);
   (ccm_metrics, "SyncSecretReconcileTotal", ["req.Namespace"; "metrics.ResultError"]);
   (ccm_metrics, "SyncSecretReconcileTotal", ["req.Namespace"; "metrics.ResultSuccess"])].

Definition envoy_cp_controller_uses : list use :=
  [(manager_metrics, "EnvoyCPReconcileDuration", []);
   (manager_metrics, "EnvoyCPReconcileTotal", ["metrics.ResultError"]);
   (manager_metrics, "EnvoyCPReconcileTotal", ["metrics.ResultSuccess"]);
   (envoycp_metrics, "CacheClearsTotal", ["snapshotName"]);
   (manager_metrics, "EnvoyProxiesTotal", ["namespace"; "string(r.EnvoyProxyTopology)"]);
   (envoycp_metrics, "EnvoyProxiesTotal", ["namespace"; "string(r.EnvoyProxyTopology)"]);
   (envoycp_metrics, "SnapshotGenerationDuration", ["snapshotName"]);
   (envoycp_metrics, "CacheMissesTotal", ["snapshotName"]);
   (manager_metrics, "EnvoyCPSnapshotUpdatesTotal", ["snapshotName"]);
   (envoycp_metrics, "SnapshotUpdatesTotal", ["snapshotName"]);
   (envoycp_metrics, "CacheHitsTotal", ["snapshotName"]);
   (manager_metrics, "EnvoyCPClusters", ["snapshotName"]);
   (manager_metrics, "EnvoyCPListeners", ["snapshotName"]);
   (manager_metrics, "EnvoyCPEndpoints", ["snapshotName"]);
   (envoycp_metrics, "ClustersTotal", ["snapshotName"]);
   (envoycp_metrics, "ListenersTotal", ["snapshotName"]);
   (envoycp_metrics, "EndpointsTotal", ["snapshotName"]);
   (envoycp_metrics, "RoutesTotal", ["snapshotName"]);
   (envoycp_metrics, "SecretsTotal", ["snapshotName"]);
   (envoycp_metrics, "EnvoyProxyDeleteTotal", ["namespace"]);
   (envoycp_metrics, "EnvoyProxyCreateTotal", ["namespace"])].

Definition loadbalancer_controller_uses : list use :=
  [(manager_metrics, "LoadBalancerReconcileDuration", ["req.Namespace"]);
   (manager_metrics, "LoadBalancerReconcileTotal", ["req.Namespace"; "metrics.ResultError"]);
   (manager_metrics, "LoadBalancerReconcileTotal", ["req.Namespace"; "metrics.ResultSkipped"]);
   (manager_metrics, "LoadBalancersTotal", ["req.Namespace"; "RemoveTenantPrefix(req.Namespace)"; "string(r.EnvoyProxyTopology)"]);
   (manager_metrics, "LoadBalancerReconcileTotal", ["req.Namespace"; "metrics.ResultSuccess"])].

Definition route_controller_uses : list use :=
  [(manager_metrics, "RouteReconcileDuration", ["req.Namespace"]);
   (manager_metrics, "RouteReconcileTotal", ["req.Namespace"; "routeType"; "metrics.ResultError"]);
   (manager_metrics, "RouteReconcileTotal", ["req.Namespace"; "routeType"; "metrics.ResultSkipped"]);
   (manager_metrics, "RoutesTotal", ["req.Namespace"; "RemoveTenantPrefix(req.Namespace)"; "t"]);
   (manager_metrics, "RouteReconcileTotal", ["req.Namespace"; "routeType"; "metrics.ResultSuccess"])].

Definition sync_secret_controller_lb_uses : list use :=
  [(manager_metrics, "SyncSecretReconcileDuration", ["req.Namespace"]);
   (manager_metrics, "SyncSecretReconcileTotal", ["req.Namespace"; "metrics.ResultError"]);
   (manager_metrics, "SyncSecretReconcileTotal", ["req.Namespace"; "metrics.ResultSuccess"])].

Definition tenant_controller_uses : list use :=
  [(manager_metrics, "TenantReconcileDuration", []);
   (manager_metrics, "TenantReconcileTotal", ["metrics.ResultError"]);
   (manager_metrics, "TenantReconcileTotal", ["metrics.ResultSuccess"])].

Definition server_uses : list use :=
  [(envoycp_metrics, "GRPCRequestsTotal", ["req.GetTypeUrl()"]);
   (envoycp_metrics, "GRPCResponsesTotal", ["resp.GetTypeUrl()"])].

Definition package_vars (p : package) : list variable :=
  match p with manager_metrics => manager_vars | ccm_metrics => ccm_vars | envoycp_metrics => envoycp_vars end.
Definition package_factory (p : package) : MetricFactory :=
  match p with
  | manager_metrics => NewFactory SubsystemManager ComponentManager
  | ccm_metrics => NewFactory SubsystemCCM ComponentCCM
  | envoycp_metrics => NewFactory SubsystemEnvoyCP ComponentEnvoyCP
  end.
Definition package_env (p : package) : list (string * Collector) := (initialise (package_factory p) (package_vars p)).2.
Definition collector_names (p : package) : list string :=
  match p with manager_metrics => manager_collectors | ccm_metrics => ccm_collectors | envoycp_metrics => envoycp_collectors end.
Definition allCollectors (p : package) : list Collector := omap (value_of (package_env p)) (collector_names p).
Definition ListMetrics (p : package) : list MetricDescription := mf_descriptions (initialise (package_factory p) (package_vars p)).1.

(** ** The document (metricsdocs/main.go) *)

Fixpoint join_with (sep : string) (l : list string) : string :=
  match l with [] => "" | [x] => x | x :: l => x +:+ sep +:+ join_with sep l end.

Definition formatLabels (labels : list string) : string :=
  if decide (labels = []) then "-" else join_with ", " ((λ l, "`" +:+ l +:+ "`") <$> labels).

Definition newline : string := String "010" "".

(** The row of a metric; the text between the three tables. *)
Definition doc_row (m : MetricDescription) : string :=
  newline +:+ "| `" +:+ md_name m +:+ "` | " +:+ md_type m +:+ " | " +:+ md_help m +:+ " | " +:+ formatLabels (md_labels m) +:+ " |".

Definition doc_head : string := "# KubeLB Metrics Reference

This document describes all Prometheus metrics exposed by KubeLB components.

> **Note:** This documentation is auto-generated. Run `make generate-metricsdocs` to regenerate.
> Do not edit this file manually.

## Table of Contents

- [Manager Metrics](#manager-metrics)
- [CCM Metrics](#ccm-metrics)
- [EnvoyCP Metrics](#envoycp-metrics)

---

## Manager Metrics

Metrics exposed by the KubeLB Manager component (kubelb-manager).

| Metric | Type | Description | Labels |
|--------|------|-------------|--------|".

Definition doc_ccm_head : string := "

---

## CCM Metrics

Metrics exposed by the KubeLB Cloud Controller Manager component (kubelb-ccm).

| Metric | Type | Description | Labels |
|--------|------|-------------|--------|".

Definition doc_envoycp_head : string := "

---

## EnvoyCP Metrics

Metrics exposed by the KubeLB Envoy Control Plane component.

| Metric | Type | Description | Labels |
|--------|------|-------------|--------|".

Definition doc_labels : string := "

---

## Label Reference

Common labels used across KubeLB metrics:

| Label | Description |
|-------|-------------|
| `namespace` | Kubernetes namespace of the resource |
| `tenant` | KubeLB tenant identifier |
| `result` | Reconciliation result: `success`, `error`, or `skipped` |
| `route_type` | Type of route: `ingress`, `gateway`, `httproute`, `grpcroute` |
| `topology` | Envoy proxy topology: `shared`, `dedicated`, `global` |
| `operation` | Operation type for KubeLB cluster operations |
| `snapshot_name` | Envoy xDS snapshot identifier |
| `type_url` | Envoy xDS resource type URL |
".


Definition doc_table (ms : list MetricDescription) : string := foldr (λ m s, doc_row m +:+ s) "" (sort_by md_name ms).
Definition metricsdocs : string :=
  doc_head +:+ doc_table (ListMetrics manager_metrics) +:+
  doc_ccm_head +:+ doc_table (ListMetrics ccm_metrics) +:+
  doc_envoycp_head +:+ doc_table (ListMetrics envoycp_metrics) +:+ doc_labels.


(** The committed document, docs/metrics.md. *)
Definition metrics_md : string := "# KubeLB Metrics Reference

This document describes all Prometheus metrics exposed by KubeLB components.

> **Note:** This documentation is auto-generated. Run `make generate-metricsdocs` to regenerate.
> Do not edit this file manually.

## Table of Contents

- [Manager Metrics](#manager-metrics)
- [CCM Metrics](#ccm-metrics)
- [EnvoyCP Metrics](#envoycp-metrics)

---

## Manager Metrics

Metrics exposed by the KubeLB Manager component (kubelb-manager).

| Metric | Type | Description | Labels |
|--------|------|-------------|--------|
| `kubelb_manager_envoy_proxies` | Gauge | Current number of Envoy proxy deployments | `namespace`, `topology` |
| `kubelb_manager_envoycp_clusters` | Gauge | Current number of clusters in the Envoy snapshot | `snapshot_name` |
| `kubelb_manager_envoycp_endpoints` | Gauge | Current number of endpoints in the Envoy snapshot | `snapshot_name` |
| `kubelb_manager_envoycp_listeners` | Gauge | Current number of listeners in the Envoy snapshot | `snapshot_name` |
| `kubelb_manager_envoycp_reconcile_duration_seconds` | Histogram | Duration of Envoy control plane reconciliations in seconds | - |
| `kubelb_manager_envoycp_reconcile_total` | Counter | Total number of Envoy control plane reconciliation attempts | `result` |
| `kubelb_manager_envoycp_snapshot_updates_total` | Counter | Total number of Envoy snapshot updates | `snapshot_name` |
| `kubelb_manager_loadbalancer_reconcile_duration_seconds` | Histogram | Duration of LoadBalancer reconciliations in seconds | `namespace` |
| `kubelb_manager_loadbalancer_reconcile_total` | Counter | Total number of LoadBalancer reconciliation attempts | `namespace`, `result` |
| `kubelb_manager_loadbalancers` | Gauge | Current number of LoadBalancer resources | `namespace`, `tenant`, `topology` |
| `kubelb_manager_port_allocator_allocated_ports` | Gauge | Current number of allocated ports in the port allocator | - |
| `kubelb_manager_port_allocator_endpoints` | Gauge | Current number of endpoints tracked by the port allocator | - |
| `kubelb_manager_route_reconcile_duration_seconds` | Histogram | Duration of Route reconciliations in seconds | `namespace` |
| `kubelb_manager_route_reconcile_total` | Counter | Total number of Route reconciliation attempts | `namespace`, `route_type`, `result` |
| `kubelb_manager_routes` | Gauge | Current number of Route resources | `namespace`, `tenant`, `route_type` |
| `kubelb_manager_sync_secret_reconcile_duration_seconds` | Histogram | Duration of SyncSecret reconciliations in seconds | `namespace` |
| `kubelb_manager_sync_secret_reconcile_total` | Counter | Total number of SyncSecret reconciliation attempts | `namespace`, `result` |
| `kubelb_manager_tenant_reconcile_duration_seconds` | Histogram | Duration of Tenant reconciliations in seconds | - |
| `kubelb_manager_tenant_reconcile_total` | Counter | Total number of Tenant reconciliation attempts | `result` |
| `kubelb_manager_tenants` | Gauge | Current number of Tenant resources | - |

---

## CCM Metrics

Metrics exposed by the KubeLB Cloud Controller Manager component (kubelb-ccm).

| Metric | Type | Description | Labels |
|--------|------|-------------|--------|
| `kubelb_ccm_gateway_reconcile_duration_seconds` | Histogram | Duration of Gateway reconciliations in seconds | `namespace` |
| `kubelb_ccm_gateway_reconcile_total` | Counter | Total number of Gateway reconciliation attempts | `namespace`, `result` |
| `kubelb_ccm_grpcroute_reconcile_duration_seconds` | Histogram | Duration of GRPCRoute reconciliations in seconds | `namespace` |
| `kubelb_ccm_grpcroute_reconcile_total` | Counter | Total number of GRPCRoute reconciliation attempts | `namespace`, `result` |
| `kubelb_ccm_httproute_reconcile_duration_seconds` | Histogram | Duration of HTTPRoute reconciliations in seconds | `namespace` |
| `kubelb_ccm_httproute_reconcile_total` | Counter | Total number of HTTPRoute reconciliation attempts | `namespace`, `result` |
| `kubelb_ccm_ingress_reconcile_duration_seconds` | Histogram | Duration of Ingress reconciliations in seconds | `namespace` |
| `kubelb_ccm_ingress_reconcile_total` | Counter | Total number of Ingress reconciliation attempts | `namespace`, `result` |
| `kubelb_ccm_kubelb_cluster_connected` | Gauge | Whether the CCM is connected to the KubeLB cluster (1=connected, 0=disconnected) | - |
| `kubelb_ccm_kubelb_cluster_latency_seconds` | Histogram | Latency of operations to the KubeLB cluster in seconds | `operation` |
| `kubelb_ccm_kubelb_cluster_operations_total` | Counter | Total number of operations performed on the KubeLB cluster | `operation`, `result` |
| `kubelb_ccm_managed_gateways` | Gauge | Current number of Gateways managed by CCM | `namespace` |
| `kubelb_ccm_managed_grpcroutes` | Gauge | Current number of GRPCRoutes managed by CCM | `namespace` |
| `kubelb_ccm_managed_httproutes` | Gauge | Current number of HTTPRoutes managed by CCM | `namespace` |
| `kubelb_ccm_managed_ingresses` | Gauge | Current number of Ingresses managed by CCM | `namespace` |
| `kubelb_ccm_managed_services` | Gauge | Current number of LoadBalancer services managed by CCM | `namespace` |
| `kubelb_ccm_node_reconcile_duration_seconds` | Histogram | Duration of Node reconciliations in seconds | - |
| `kubelb_ccm_node_reconcile_total` | Counter | Total number of Node reconciliation attempts | `result` |
| `kubelb_ccm_nodes` | Gauge | Current number of nodes in the cluster | - |
| `kubelb_ccm_service_reconcile_duration_seconds` | Histogram | Duration of Service reconciliations in seconds | `namespace` |
| `kubelb_ccm_service_reconcile_total` | Counter | Total number of Service reconciliation attempts | `namespace`, `result` |
| `kubelb_ccm_sync_secret_reconcile_duration_seconds` | Histogram | Duration of SyncSecret reconciliations in seconds | `namespace` |
| `kubelb_ccm_sync_secret_reconcile_total` | Counter | Total number of SyncSecret reconciliation attempts | `namespace`, `result` |

---

## EnvoyCP Metrics

Metrics exposed by the KubeLB Envoy Control Plane component.

| Metric | Type | Description | Labels |
|--------|------|-------------|--------|
| `kubelb_envoy_control_plane_cache_clears_total` | Counter | Total number of cache clears | `snapshot_name` |
| `kubelb_envoy_control_plane_cache_hits_total` | Counter | Total number of cache hits for snapshot lookups | `snapshot_name` |
| `kubelb_envoy_control_plane_cache_misses_total` | Counter | Total number of cache misses for snapshot lookups | `snapshot_name` |
| `kubelb_envoy_control_plane_clusters` | Gauge | Current number of clusters in the Envoy snapshot | `snapshot_name` |
| `kubelb_envoy_control_plane_endpoints` | Gauge | Current number of endpoints in the Envoy snapshot | `snapshot_name` |
| `kubelb_envoy_control_plane_envoy_proxies` | Gauge | Current number of Envoy proxy deployments | `namespace`, `topology` |
| `kubelb_envoy_control_plane_envoy_proxy_create_total` | Counter | Total number of Envoy proxy deployments created | `namespace` |
| `kubelb_envoy_control_plane_envoy_proxy_delete_total` | Counter | Total number of Envoy proxy deployments deleted | `namespace` |
| `kubelb_envoy_control_plane_grpc_connections` | Gauge | Current number of active gRPC connections to the xDS server | - |
| `kubelb_envoy_control_plane_grpc_requests_total` | Counter | Total number of gRPC xDS requests | `type_url` |
| `kubelb_envoy_control_plane_grpc_responses_total` | Counter | Total number of gRPC xDS responses | `type_url` |
| `kubelb_envoy_control_plane_listeners` | Gauge | Current number of listeners in the Envoy snapshot | `snapshot_name` |
| `kubelb_envoy_control_plane_routes` | Gauge | Current number of routes in the Envoy snapshot | `snapshot_name` |
| `kubelb_envoy_control_plane_secrets` | Gauge | Current number of secrets in the Envoy snapshot | `snapshot_name` |
| `kubelb_envoy_control_plane_snapshot_generation_duration_seconds` | Histogram | Duration of Envoy snapshot generation in seconds | `snapshot_name` |
| `kubelb_envoy_control_plane_snapshot_updates_total` | Counter | Total number of Envoy snapshot updates | `snapshot_name` |
| `kubelb_envoy_control_plane_snapshots` | Gauge | Current number of active Envoy snapshots | - |

---

## Label Reference

Common labels used across KubeLB metrics:

| Label | Description |
|-------|-------------|
| `namespace` | Kubernetes namespace of the resource |
| `tenant` | KubeLB tenant identifier |
| `result` | Reconciliation result: `success`, `error`, or `skipped` |
| `route_type` | Type of route: `ingress`, `gateway`, `httproute`, `grpcroute` |
| `topology` | Envoy proxy topology: `shared`, `dedicated`, `global` |
| `operation` | Operation type for KubeLB cluster operations |
| `snapshot_name` | Envoy xDS snapshot identifier |
| `type_url` | Envoy xDS resource type URL |
".
Lemma docs_up_to_date : metricsdocs = metrics_md.
Proof. vm_compute. reflexivity. Qed.

(** ** The Prometheus client *)

Definition name_byte (first : bool) (c : ascii) : bool :=
  is_upper c || is_lower c || bool_decide (c = "_"%char) || (negb first && is_digit c).
(** The names Prometheus accepts for metrics and labels, colons aside. *)
Definition valid_name (s : string) : bool :=
  match s with "" => false | String c s => name_byte true c && all_bytes (name_byte false) s end.

(** [BuildFQName]; [Registry.MustRegister] with the collectors that are registered;
    [WithLabelValues], a child of the metric. *)
Class Prometheus := {
  BuildFQName : string → string → string → string;
  MustRegister : list Collector → list Collector → go (list Collector);
  child : Type;
  WithLabelValues : Collector → list string → go child
}.
Definition fqName `{Prometheus} (c : Collector) : string := BuildFQName "" (co_subsystem c) (co_name c).
Class PrometheusLaws `{Prometheus} := {
  fq_joined s n : s ≠ "" → n ≠ "" → BuildFQName "" s n = s +:+ "_" +:+ n;
  registered_distinct old new :
    base.NoDup (fqName <$> old ++ new) → Forall (λ c, valid_name (fqName c) = true ∧ Forall (λ l, valid_name l = true) (co_labels c)) new →
    MustRegister old new = Done (old ++ new);
  labels_match c vs : length vs = length (co_labels c) → ∃ x, WithLabelValues c vs = Done x
}.

(** [Register] of a package: main of the CCM calls it for one, the manager's for two. *)
Definition Register `{Prometheus} (old : list Collector) (p : package) : go (list Collector) := MustRegister old (allCollectors p).
Definition register_ccm `{Prometheus} (old : list Collector) : go (list Collector) := Register old ccm_metrics.
Definition register_manager `{Prometheus} (old : list Collector) : go (list Collector) :=
  registered ← Register old manager_metrics; Register registered envoycp_metrics.

(** What the registry of controller-runtime holds before: distinct names, none of KubeLB's. *)
Definition foreign `{Prometheus} (old : list Collector) : Prop :=
  base.NoDup (fqName <$> old) ∧ Forall (λ c, HasPrefix (fqName c) "kubelb_" = false) old.

(** ** What is registered is what is documented *)

Definition description_of (component : string) (c : Collector) : MetricDescription :=
  {| md_name := co_subsystem c +:+ "_" +:+ co_name c; md_help := co_help c; md_type := co_type c; md_labels := co_labels c;
     md_component := component |}.

Lemma collectors_documented p :
  description_of (mf_component (package_factory p)) <$> allCollectors p ≡ₚ ListMetrics p ∧ length (allCollectors p) = length (package_vars p).
Proof. split; [|by destruct p]. apply (bool_decide_unpack _). destruct p; vm_compute; exact I. Qed.

Section registered.
Context `{PrometheusLaws}.

Lemma fqName_documented p c : c ∈ allCollectors p → fqName c = md_name (description_of "" c) ∧ co_subsystem c ≠ "" ∧ co_name c ≠ "".
Proof.
  intros Hc. assert (Forall (λ c, co_subsystem c ≠ "" ∧ co_name c ≠ "") (allCollectors p)) as Hall.
  { apply (bool_decide_unpack _). destruct p; vm_compute; exact I. }
  rewrite list.Forall_forall in Hall. destruct (Hall c Hc) as [Hs Hn]. split; [|done]. unfold fqName. by rewrite fq_joined.
Qed.

Lemma fqNames p : fqName <$> allCollectors p = (λ c, md_name (description_of "" c)) <$> allCollectors p.
Proof. apply list_fmap_ext. intros i c Hc. apply (fqName_documented p). by apply elem_of_list_lookup_2 in Hc || by eapply list_elem_of_lookup_2. Qed.

Lemma collectors_valid p :
  Forall (λ c, valid_name (fqName c) = true ∧ Forall (λ l, valid_name l = true) (co_labels c)) (allCollectors p).
Proof.
  assert (Forall (λ c, valid_name (md_name (description_of "" c)) = true ∧ Forall (λ l, valid_name l = true) (co_labels c)) (allCollectors p)) as Hall.
  { apply (bool_decide_unpack _). destruct p; vm_compute; exact I. }
  rewrite list.Forall_forall in Hall |- *. intros c Hc. rewrite (proj1 (fqName_documented p c Hc)). by apply Hall.
Qed.

Lemma foreign_disjoint old p n :
  foreign old → n ∈ fqName <$> old → n ∉ fqName <$> allCollectors p.
Proof.
  intros [_ Hold] (c & -> & Hc)%list_elem_of_fmap Hin. rewrite list.Forall_forall in Hold. specialize (Hold c Hc). revert Hin.
  rewrite fqNames. intros (c' & Heq & Hc')%list_elem_of_fmap. rewrite Heq in Hold.
  assert (forallb (λ c, HasPrefix (md_name (description_of "" c)) "kubelb_") (allCollectors p) = true) as Hall
    by (destruct p; vm_compute; reflexivity).
  apply list_elem_of_In in Hc'. rewrite (proj1 (forallb_forall _ _) Hall c' Hc') in Hold. done.
Qed.
Lemma fqNames_distinct : base.NoDup (fqName <$> allCollectors ccm_metrics) ∧
  base.NoDup (fqName <$> allCollectors manager_metrics ++ allCollectors envoycp_metrics).
Proof. rewrite fmap_app, !fqNames. split; apply (bool_decide_unpack _); vm_compute; exact I. Qed.

(** The packages one after the other on top of what is registered. *)
Lemma registered_on_top old p : foreign old → base.NoDup (fqName <$> allCollectors p) → Register old p = Done (old ++ allCollectors p).
Proof.
  intros Hold Hnd. unfold Register. apply registered_distinct; [|apply collectors_valid].
  rewrite fmap_app. apply NoDup_app. split; [apply Hold|]. split; [|exact Hnd]. intros n. by apply foreign_disjoint.
Qed.
End registered.

(** All the places, by package. *)
Definition all_uses : list use :=
  gateway_controller_uses ++ gateway_grpcroute_controller_uses ++ gateway_httproute_controller_uses ++ ingress_controller_uses ++
  kubelb_client_metrics_uses ++ node_controller_uses ++ service_controller_uses ++ sync_secret_controller_uses ++
  envoy_cp_controller_uses ++ loadbalancer_controller_uses ++ route_controller_uses ++ sync_secret_controller_lb_uses ++
  tenant_controller_uses ++ server_uses.

(** What the type checker does not see of a use: the metric is among the collectors and
    has as many labels as the use gives values. *)
Definition use_ok (u : use) : bool :=
  let '(p, x, vs) := u in
  match value_of (package_env p) x with
  | Some c => bool_decide (x ∈ collector_names p) && bool_decide (length vs = length (co_labels c))
  | None => false
  end.
Lemma uses_ok : forallb use_ok all_uses = true.
Proof. vm_compute. reflexivity. Qed.

Lemma use_registered `{PrometheusLaws} p x vs :
  (p, x, vs) ∈ all_uses → ∃ c ch, value_of (package_env p) x = Some c ∧ c ∈ allCollectors p ∧ WithLabelValues c vs = Done ch.
Proof.
  intros Hu%list_elem_of_In. pose proof (proj1 (forallb_forall _ _) uses_ok _ Hu) as Hok. simpl in Hok.
  destruct (value_of (package_env p) x) as [c|] eqn:Hc; [|done]. apply andb_true_iff in Hok as [Hin%bool_decide_eq_true Hlen%bool_decide_eq_true].
  destruct (labels_match c vs Hlen) as [ch Hch]. exists c, ch. split; [done|]. split; [|done].
  unfold allCollectors. apply list_elem_of_omap. by exists x.
Qed.

(** C29: the metrics are sound.  Registration never panics on top of metrics that are not
    KubeLB's, neither in the CCM nor in the manager, which registers two packages; exactly
    the metrics with a description are registered, under the name, help, type and labels of
    the description; and every place that uses a metric gives as many values as the metric
    has labels, so that none panics, and uses a metric that is registered. *)
Theorem metrics_sound `{PrometheusLaws} old :
  foreign old →
  register_ccm old = Done (old ++ allCollectors ccm_metrics) ∧
  register_manager old = Done (old ++ allCollectors manager_metrics ++ allCollectors envoycp_metrics) ∧
  (∀ p, description_of (mf_component (package_factory p)) <$> allCollectors p ≡ₚ ListMetrics p) ∧
  (∀ p x vs, (p, x, vs) ∈ all_uses →
     ∃ c ch, value_of (package_env p) x = Some c ∧ c ∈ allCollectors p ∧ WithLabelValues c vs = Done ch).
Proof.
  intros Hold. destruct fqNames_distinct as [Hccm Hman]. split; [by apply registered_on_top|].
  rewrite fmap_app in Hman. pose proof (proj1 (NoDup_app _ _) Hman) as (Hm & _).
  split; [|split; [intros p; apply collectors_documented|apply use_registered]].
  unfold register_manager. rewrite registered_on_top by done. cbn [mbind go_bind]. unfold Register.
  rewrite registered_distinct; [by rewrite app_assoc| |apply collectors_valid].
  rewrite <- app_assoc, !fmap_app. apply NoDup_app. split; [apply Hold|]. split; [|exact Hman].
  intros n Hn [Hin|Hin]%elem_of_app; by eapply foreign_disjoint.
Qed.

(** A client that registers what has distinct, valid names and panics otherwise. *)
Definition simple_fq (ns s n : string) : string := s +:+ "_" +:+ n.
Definition simple_prometheus : Prometheus :=
  {| BuildFQName := simple_fq;
     MustRegister old new :=
       let fq c := simple_fq "" (co_subsystem c) (co_name c) in
       if decide (base.NoDup (fq <$> old ++ new)) then
         if forallb (λ c, valid_name (fq c) && forallb valid_name (co_labels c)) new then Done (old ++ new) else Panics
       else Panics;
     child := string * list string;
     WithLabelValues c vs := if decide (length vs = length (co_labels c)) then Done (co_name c, vs) else Panics |}.
Lemma simple_prometheus_laws : @PrometheusLaws simple_prometheus.
Proof.
  split; [done| |].
  - intros old new Hnd Hval. unfold MustRegister; simpl. rewrite decide_True by exact Hnd.
    rewrite (proj2 (forallb_forall _ new)); [done|]. intros c Hc%list_elem_of_In. rewrite list.Forall_forall in Hval.
    destruct (Hval c Hc) as [Hn Hl]. apply andb_true_iff. split; [exact Hn|]. apply forallb_forall. intros l Hin%list_elem_of_In.
    rewrite list.Forall_forall in Hl. by apply Hl.
  - intros c vs Hlen. exists (co_name c, vs). unfold WithLabelValues; simpl. by rewrite decide_True.
Qed.

Definition workqueue_depth : Collector := MakeGaugeVec "workqueue" "depth" "Current depth of workqueue" ["name"].

Lemma metrics_sound_witness :
  register_ccm (H := simple_prometheus) [workqueue_depth] = Done (workqueue_depth :: allCollectors ccm_metrics) ∧
  ∃ c ch, value_of (package_env ccm_metrics) "KubeLBClusterLatency" = Some c ∧ c ∈ allCollectors ccm_metrics ∧
    WithLabelValues (Prometheus := simple_prometheus) c ["operation"] = Done ch.
Proof.
  destruct (metrics_sound (H := simple_prometheus) (H0 := simple_prometheus_laws) [workqueue_depth]) as (Hccm & _ & _ & Huse).
  { split; [apply NoDup_singleton|by repeat constructor]. }
  split; [exact Hccm|]. apply Huse. apply list_elem_of_In. vm_compute. tauto.
Defined.
