(* ===== verification/MetricValues.v ===== *)
(** * The values of the metrics

    What the samples of the metrics count: the operations of the CCM on the KubeLB
    cluster (internal/controllers/ccm/kubelb_client_metrics.go) and the gauges of Routes
    and LoadBalancers the manager sets at the end of a reconciliation. *)
From stdpp Require Import base gmap list strings.
From S2P Require Import Prelude GoStrings Api Names NetApi Effects ApiServer LBController Metrics.
Import Core V1alpha1.

(** ** Samples *)

(** A sample: the variable of the metric and the values of its labels. *)
Abbreviation sample := (string * list string)%type.

(** Counters and gauges have a number, a histogram what it observed. *)
Record samples := { numbers : gmap sample Z; observed : gmap sample (list Z) }.
Definition no_samples : samples := {| numbers := ∅; observed := ∅ |}.

(** A child starts at zero; the registry exports it from its first use on. *)
Definition number (st : samples) (x : sample) : Z := default 0%Z (numbers st !! x).
Definition observations (st : samples) (x : sample) : list Z := default [] (observed st !! x).

Definition SetSample (x : sample) (v : Z) (st : samples) : samples :=
  {| numbers := <[x := v]> (numbers st); observed := observed st |}.
Definition IncSample (x : sample) (st : samples) : samples := SetSample x (number st x + 1)%Z st.
Definition Observe (x : sample) (v : Z) (st : samples) : samples :=
  {| numbers := numbers st; observed := <[x := observations st x ++ [v]]> (observed st) |}.

(** ** The operations of the CCM on the KubeLB cluster *)

Definition cluster_operations (operation result : string) : sample := ("KubeLBClusterOperationsTotal", [operation; result]).
Definition cluster_latency (operation : string) : sample := ("KubeLBClusterLatency", [operation]).
Definition cluster_connected : sample := ("KubeLBClusterConnected", []).

Section operations.
Context {W : Type}.

(** [fn] changes the world and may fail; the clock says how long it took. *)
Definition recordKubeLBOperation (operation : string) (duration : Z) (fn : W → W * option error) (w : W * samples)
    : W * samples * option error :=
  let '(w', err) := fn w.1 in
  let st := Observe (cluster_latency operation) duration w.2 in
  match err with
  | Some e => (w', SetSample cluster_connected 0 (IncSample (cluster_operations operation ResultError) st), Some e)
  | None => (w', SetSample cluster_connected 1 (IncSample (cluster_operations operation ResultSuccess) st), None)
  end.

(** The operations one after the other, with the errors. *)
Definition operation : Type := string * Z * (W → W * option error).
Fixpoint record_all (ops : list operation) (w : W * samples) : W * samples * list (option error) :=
  match ops with
  | [] => (w, [])
  | (op, d, fn) :: ops =>
      let '(w, e) := recordKubeLBOperation op d fn w in
      let '(w, es) := record_all ops w in (w, e :: es)
  end.
(** The same without metrics. *)
Fixpoint perform_all (ops : list operation) (w : W) : W * list (option error) :=
  match ops with
  | [] => (w, [])
  | (_, _, fn) :: ops => let '(w, e) := fn w in let '(w, es) := perform_all ops w in (w, e :: es)
  end.

(** How many operations of a name ended in a way. *)
Fixpoint ended (ok : bool) (name : string) (ops : list operation) (es : list (option error)) : Z :=
  match ops, es with
  | (op, _, _) :: ops, e :: es =>
      (if decide (op = name ∧ bool_decide (e = None) = ok) then 1 else 0) + ended ok name ops es
  | _, _ => 0
  end%Z.
End operations.

(** ** The gauges of the manager *)

(** [getRouteType] (route_controller.go). *)
Definition getRouteType (route : Route) : string :=
  match rsp_kubernetes (rt_spec route) with
  | None => RouteTypeIngress
  | Some source =>
      let k := Core.kind (u_type (ks_route source)) in
      if decide (k = "Gateway") then RouteTypeGateway
      else if decide (k = "HTTPRoute") then RouteTypeHTTPRoute
      else if decide (k = "GRPCRoute") then RouteTypeGRPCRoute
      else RouteTypeIngress
  end.

(** [routesByType[t]++] for every Route of the namespace. *)
Definition routesByType (items : list Route) : gmap string nat :=
  foldl (λ m rt, let t := getRouteType rt in <[t := S (default 0 (m !! t))]> m) ∅ items.

Definition routes_gauge (ns t : string) : sample := ("RoutesTotal", [ns; RemoveTenantPrefix ns; t]).
Definition lbs_gauge (ns topology : string) : sample := ("LoadBalancersTotal", [ns; RemoveTenantPrefix ns; topology]).

(** The loop over the map, whose entries come in some order. *)
Definition set_route_gauges (ns : string) (entries : list (string * nat)) (st : samples) : samples :=
  foldl (λ st '(t, n), SetSample (routes_gauge ns t) (Z.of_nat n) st) st entries.

(** The end of the reconciliation of a LoadBalancer: [listed] is what the topology lists. *)
Definition set_lb_gauge (topology ns : string) (listed : list LoadBalancer) (st : samples) : samples :=
  SetSample (lbs_gauge ns topology) (Z.of_nat (length listed)) st.

(** ** Lemmas *)

Lemma number_set x v st y : number (SetSample x v st) y = if decide (x = y) then v else number st y.
Proof.
  unfold number, SetSample; simpl. destruct (decide (x = y)) as [<-|Hne]; [by rewrite lookup_insert_eq|by rewrite lookup_insert_ne].
Qed.
Lemma number_inc x st y : number (IncSample x st) y = (number st y + if decide (x = y) then 1 else 0)%Z.
Proof. unfold IncSample. rewrite number_set. destruct (decide (x = y)) as [<-|]; lia. Qed.
Lemma number_observe x v st y : number (Observe x v st) y = number st y.
Proof. done. Qed.
Lemma observations_set x v st y : observations (SetSample x v st) y = observations st y.
Proof. done. Qed.
Lemma observations_observe x v st y : observations (Observe x v st) y = observations st y ++ if decide (x = y) then [v] else [].
Proof.
  unfold observations at 1, Observe; simpl. destruct (decide (x = y)) as [<-|Hne]; [by rewrite lookup_insert_eq|].
  by rewrite lookup_insert_ne, app_nil_r.
Qed.
Create Rewrite HintDb samples.
#[export] Hint Rewrite number_set number_inc number_observe observations_set observations_observe : samples.

Section accounting.
Context {W : Type}.
Implicit Types (ops : list (@operation W)).

(** What one operation adds. *)
Lemma record_step op d (fn : W → W * option error) w st :
  ∃ st', recordKubeLBOperation op d fn (w, st) = ((fn w).1, st', (fn w).2) ∧
    number st' cluster_connected = (if decide ((fn w).2 = None) then 1 else 0)%Z ∧
    ∀ name,
      number st' (cluster_operations name ResultSuccess) =
        (number st (cluster_operations name ResultSuccess) + if decide (op = name ∧ bool_decide ((fn w).2 = None) = true) then 1 else 0)%Z ∧
      number st' (cluster_operations name ResultError) =
        (number st (cluster_operations name ResultError) + if decide (op = name ∧ bool_decide ((fn w).2 = None) = false) then 1 else 0)%Z ∧
      observations st' (cluster_latency name) = observations st (cluster_latency name) ++ if decide (op = name) then [d] else [].
Proof.
  unfold recordKubeLBOperation. simpl. destruct (fn w) as [w' [e|]]; simpl; eexists; (split; [done|]); (split; [by autorewrite with samples|]);
    intros name; autorewrite with samples; unfold IncSample; autorewrite with samples;
    repeat case_decide; unfold cluster_operations, cluster_latency, cluster_connected, ResultSuccess, ResultError in *;
    simplify_eq; try naive_solver; repeat split; lia || done || idtac.
Qed.

(** The durations of the operations of a name. *)
Definition durations (name : string) (ops : list (@operation W)) : list Z :=
  foldr (λ '(op, d, _) ds, (if decide (op = name) then [d] else []) ++ ds) [] ops.

(** The metrics of the CCM's operations on the KubeLB cluster account for them.
    Recording changes neither the effect nor the errors of any sequence of operations;
    afterwards the counters of an operation have grown by exactly the numbers of its calls
    that succeeded and that failed, its histogram has observed the durations of its calls
    in order, and the connectivity gauge is one exactly when the last operation did not fail. *)
Theorem operations_accounted ops w st :
  ∃ w' st' es, record_all ops (w, st) = (w', st', es) ∧ perform_all ops w = (w', es) ∧
    (∀ name,
       number st' (cluster_operations name ResultSuccess) = (number st (cluster_operations name ResultSuccess) + ended true name ops es)%Z ∧
       number st' (cluster_operations name ResultError) = (number st (cluster_operations name ResultError) + ended false name ops es)%Z ∧
       observations st' (cluster_latency name) = observations st (cluster_latency name) ++ durations name ops) ∧
    ∀ e, last es = Some e → number st' cluster_connected = (if decide (e = None) then 1 else 0)%Z.
Proof.
  revert w st. induction ops as [|[[op d] fn] ops IH]; intros w st.
  { exists w, st, []. split; [done|]. split; [done|]. split; [|done]. intros name. simpl. rewrite app_nil_r. lia || (split; [lia|]; split; [lia|done]). }
  destruct (record_step op d fn w st) as (st1 & Hrec & Hconn & Hstep).
  destruct (IH (fn w).1 st1) as (w2 & st2 & es & Hall & Hperf & Hcount & Hlast).
  exists w2, st2, ((fn w).2 :: es). cbn [record_all perform_all]. rewrite Hrec, Hall.
  destruct (fn w) as [w1 e1]; simpl in *. rewrite Hperf. split; [done|]. split; [done|]. split.
  - intros name. destruct (Hstep name) as (Hs & He & Hd), (Hcount name) as (Hs2 & He2 & Hd2).
    rewrite Hs2, He2, Hd2, Hs, He, Hd, app_assoc. split; [lia|]. split; [lia|done].
  - destruct es as [|e2 es]; [|apply Hlast]. intros e [= <-].
    destruct ops as [|[[op2 d2] fn2] ops]; [by simplify_eq/=|]. simpl in Hperf.
    destruct (fn2 w1) as [w3 e3], (perform_all ops w3); discriminate.
Qed.
End accounting.

(** The count of a type in a list of Routes. *)
Definition routes_of_type (t : string) (items : list Route) : nat := length (filter (λ rt, getRouteType rt = t) items).

Lemma routesByType_spec items t : routesByType items !! t = match routes_of_type t items with 0 => None | n => Some n end.
Proof.
  unfold routesByType, routes_of_type. induction items as [|rt items IH] using rev_ind; [done|].
  rewrite foldl_app, filter_app, length_app. cbn [foldl]. cbv zeta. cbn [filter list_filter].
  destruct (decide (getRouteType rt = t)) as [<-|Hne]; simpl.
  - rewrite lookup_insert_eq, IH, Nat.add_1_r. by destruct (length _).
  - rewrite lookup_insert_ne by done. rewrite Nat.add_0_r. exact IH.
Qed.

Lemma set_route_gauges_spec ns entries st :
  base.NoDup entries.*1 →
  (∀ t n, (t, n) ∈ entries → number (set_route_gauges ns entries st) (routes_gauge ns t) = Z.of_nat n) ∧
  (∀ x, (∀ t, t ∈ entries.*1 → x ≠ routes_gauge ns t) → number (set_route_gauges ns entries st) x = number st x).
Proof.
  intros Hnd. induction entries as [|[t0 n0] entries IH] using rev_ind; [split; [|done]; intros ?? Hin; by apply elem_of_nil in Hin|].
  rewrite fmap_app in Hnd. apply NoDup_app in Hnd as (Hnd & Hdis & _). destruct (IH Hnd) as [Hset Hkeep].
  unfold set_route_gauges in *. rewrite foldl_app. simpl. split.
  - intros t n [Hin|Hin%list_elem_of_singleton]%elem_of_app; rewrite number_set.
    + case_decide as Heq; [|by apply Hset]. assert (t0 = t) as <- by (unfold routes_gauge in Heq; by simplify_eq).
      exfalso. apply (Hdis t0); [|by left]. by apply (list_elem_of_fmap_2 fst _ (t0, n)).
    + simplify_eq. by rewrite decide_True.
  - intros x Hx. rewrite number_set, decide_False; [|apply not_eq_sym, Hx; rewrite fmap_app; apply elem_of_app; right; by left].
    apply Hkeep. intros t Ht. apply Hx. rewrite fmap_app. apply elem_of_app. by left.
Qed.

(** The gauges of a namespace after a reconciliation, whatever the order of the map: each
    type with a Route has their number, and every other sample is what it was. *)
Theorem route_gauges_spec ns items entries st t :
  entries ≡ₚ map_to_list (routesByType items) →
  number (set_route_gauges ns entries st) (routes_gauge ns t) =
    match routes_of_type t items with 0 => number st (routes_gauge ns t) | n => Z.of_nat n end.
Proof.
  intros Hperm. assert (base.NoDup entries.*1) as Hnd by (rewrite Hperm; apply NoDup_fst_map_to_list).
  destruct (set_route_gauges_spec ns entries st Hnd) as [Hset Hkeep]. pose proof (routesByType_spec items t) as Ht.
  destruct (routes_of_type t items) as [|n] eqn:Hn.
  - apply Hkeep. intros t' Hin Heq. assert (t = t') as <- by (unfold routes_gauge in Heq; by simplify_eq).
    apply list_elem_of_fmap in Hin as ([t' n'] & [= <-] & Hin). rewrite Hperm, elem_of_map_to_list in Hin. congruence.
  - apply Hset. rewrite Hperm, elem_of_map_to_list. exact Ht.
Qed.

(** The gauge of a type whose last Route is gone keeps its value: the namespace had one
    Route of a Gateway, which was deleted, and an Ingress was reconciled. *)
Definition typed_route (k : string) : Route :=
  {| rt_type := {| apiVersion := ""; kind := "Route" |}; rt_meta := zero_meta;
     rt_spec := {| rsp_endpoints := [];
       rsp_kubernetes := Some {| ks_route := {| u_type := {| apiVersion := ""; kind := k |}; u_meta := zero_meta; u_spec := "" |};
                                 ks_services := [] |} |};
     rt_status := rt_status zero_route |}.

Theorem route_gauge_sticks :
  let gateway := typed_route "Gateway" in let ingress := typed_route "Ingress" in
  let st := set_route_gauges "tenant-a" (map_to_list (routesByType [gateway])) no_samples in
  let st' := set_route_gauges "tenant-a" (map_to_list (routesByType [ingress])) st in
  routes_of_type RouteTypeGateway [ingress] = 0 ∧ number st' (routes_gauge "tenant-a" RouteTypeGateway) = 1%Z.
Proof. split; vm_compute; reflexivity. Qed.

(** In the global topology every namespace's gauge is the number of all LoadBalancers:
    with one in each of two namespaces both gauges are two. *)
Definition lb_in (ns : string) : LoadBalancer := with_lb_meta (with_identity "lb" ns ("uid-" +:+ ns) zero_meta) zero_load_balancer.
Theorem global_gauge_overcounts :
  let all := [lb_in "tenant-a"; lb_in "tenant-b"] in
  let st := set_lb_gauge EnvoyProxyTopologyGlobal "tenant-b" all (set_lb_gauge EnvoyProxyTopologyGlobal "tenant-a" all no_samples) in
  Forall (λ ns, number st (lbs_gauge ns EnvoyProxyTopologyGlobal) = 2%Z ∧ length (filter (λ lb, namespace (lb_meta lb) = ns) all) = 1)
    ["tenant-a"; "tenant-b"].
Proof. repeat constructor. Qed.
