(* ===== verification/EnvoyServer.v ===== *)
(** * The gRPC server of the Envoy control plane (internal/envoy/server.go, logger.go)

    [Start] listens, registers the discovery services and serves; the callbacks count the
    streams, requests and responses.  The listener and the gRPC library are parameters. *)
From stdpp Require Import base gmap sets list strings.
From S2P Require Import Prelude GoStrings Api Bootstrap Metrics MetricValues.
Import Core V1alpha1.

(** ** Starting *)

Inductive discovery_service := AggregatedDiscovery | EndpointDiscovery | ClusterDiscovery | RouteDiscovery | ListenerDiscovery | SecretDiscovery | RuntimeDiscovery.
#[export] Instance discovery_service_eq_dec : EqDecision discovery_service.
Proof. solve_decision. Defined.

Definition grpcMaxConcurrentStreams : Z := 1000000.

Definition registerServer (services : list discovery_service) : list discovery_service :=
  services ++ [AggregatedDiscovery; EndpointDiscovery; ClusterDiscovery; RouteDiscovery; ListenerDiscovery; SecretDiscovery; RuntimeDiscovery].

(** What the library tells the server about a stream. *)
Inductive stream_event :=
  | StreamOpen (id : Z)
  | StreamClosed (id : Z)
  | StreamRequest (id : Z) (typeUrl : string)
  | StreamResponse (id : Z) (typeUrl : string).

Definition connections : sample := ("GRPCConnectionsTotal", []).
Definition requests (typeUrl : string) : sample := ("GRPCRequestsTotal", [typeUrl]).
Definition responses (typeUrl : string) : sample := ("GRPCResponsesTotal", [typeUrl]).

Definition callbacks (e : stream_event) (st : samples) : samples :=
  match e with
  | StreamOpen _ => IncSample connections st
  | StreamClosed _ => SetSample connections (number st connections - 1) st
  | StreamRequest _ typeUrl => IncSample (requests typeUrl) st
  | StreamResponse _ typeUrl => IncSample (responses typeUrl) st
  end.

Section start.
Context (Listen : string → error + unit) (Serve : Z → list discovery_service → option error).

Definition Start (s : Server) : option error :=
  match Listen (srv_listenAddress s) with
  | inl e => Some (Wrapf "envoy control plane server failed while start listening" e)
  | inr _ =>
      match Serve grpcMaxConcurrentStreams (registerServer []) with
      | Some e => Some (Wrapf "envoy control plane server failed while start serving incoming connections" e)
      | None => None
      end
  end.
End start.

(** ** The logger of the snapshot cache *)

(** The line that is printed, if any. *)
Record Logger := { Debug : bool }.
Definition Debugf (l : Logger) (line : string) : option string := if Debug l then Some line else None.
Definition Infof (l : Logger) (line : string) : option string := if Debug l then Some line else None.
Definition Warnf (l : Logger) (line : string) : option string := Some line.
Definition Errorf (l : Logger) (line : string) : option string := Some line.

(** ** Streams *)

(** The streams that are open after a sequence of events: the library opens a stream under
    a new number, and closes each stream once. *)
Inductive streams : list stream_event → gset Z → Prop :=
  | streams_none : streams [] ∅
  | streams_open es ids id : streams es ids → id ∉ ids → streams (es ++ [StreamOpen id]) ({[ id ]} ∪ ids)
  | streams_close es ids id : streams es ids → id ∈ ids → streams (es ++ [StreamClosed id]) (ids ∖ {[ id ]})
  | streams_request es ids id url : streams es ids → id ∈ ids → streams (es ++ [StreamRequest id url]) ids
  | streams_response es ids id url : streams es ids → id ∈ ids → streams (es ++ [StreamResponse id url]) ids.

Fixpoint requested (url : string) (es : list stream_event) : Z :=
  match es with
  | [] => 0
  | StreamRequest _ u :: es => (if decide (u = url) then 1 else 0) + requested url es
  | _ :: es => requested url es
  end%Z.

Lemma requested_app url es es' : requested url (es ++ es') = (requested url es + requested url es')%Z.
Proof. induction es as [|[] es IH]; simpl; [done|..]; rewrite IH; lia. Qed.

(** The gauge of connections is the number of open streams, in every state the library can
    bring the callbacks to; it never is negative.  The counter of requests of a type is
    their number. *)
Theorem streams_counted es ids url :
  streams es ids →
  number (foldl (flip callbacks) no_samples es) connections = Z.of_nat (size ids) ∧
  number (foldl (flip callbacks) no_samples es) (requests url) = requested url es.
Proof.
  induction 1 as [|es ids id _ [IHc IHr] Hid|es ids id _ [IHc IHr] Hid|es ids id u _ [IHc IHr] Hid|es ids id u _ [IHc IHr] Hid];
    [by rewrite size_empty|..]; rewrite foldl_app, requested_app; simpl; unfold connections, requests, responses in *;
    autorewrite with samples; rewrite IHc, IHr; split; repeat case_decide; simplify_eq; try lia.
  - rewrite size_union, size_singleton by set_solver. lia.
  - rewrite size_difference, size_singleton by set_solver.
    assert (size ids ≠ 0); [|lia]. intros E%size_empty_inv. set_solver.
Qed.
