(* ===== verification/CCMNode.v ===== *)
(** * The node controller of the CCM (internal/controllers/ccm/node_controller.go)

    The CCM of a tenant publishes the addresses of the ready nodes of its cluster in
    the Addresses object of the tenant in the KubeLB cluster; LoadBalancers and Routes
    refer to that object.  The nodes are read from the tenant cluster, the Addresses
    are read and written in the KubeLB cluster. *)
From stdpp Require Import base gmap list strings sorting.
From S2P Require Import Prelude GoStrings Api NetApi GoSort Effects.
Import Core V1alpha1.

Definition NodeReady : string := "Ready".
Definition ConditionTrue : string := "True".
(** Ten seconds, in nanoseconds. *)
Definition requeueAfter : Z := (10 * 1000000000)%Z.

Record KubeLBNodeReconciler := { nr_clusterName : string; nr_endpointAddressType : string }.

Section node_controller.
Context (r : KubeLBNodeReconciler).

Definition node_ready (node : Node) : bool :=
  existsb (λ c, bool_decide (ncond_type c = NodeReady) && bool_decide (ncond_status c = ConditionTrue))
    (node_conditions node).

(** The last address of the configured type, empty when there is none. *)
Definition node_endpoint (node : Node) : string :=
  foldl (λ internalIP address,
      if decide (naddr_type address = nr_endpointAddressType r) then naddr_address address else internalIP)
    "" (node_addresses node).

Definition getNodeEndpoints (nodes : list Node) : list string :=
  foldl (λ clusterEndpoints node,
      if node_ready node then clusterEndpoints ++ [node_endpoint node] else clusterEndpoints) [] nodes.

Definition ip_address (ip : string) : EndpointAddress := {| ea_ip := ip; ea_hostname := "" |}.

Definition GenerateAddresses (nodes : list Node) : error + Addresses :=
  let '(addresses, validAddressFound) :=
    foldl (λ '(addresses, found) endpoint,
        if decide (endpoint = "") then (addresses, found)
        else (addresses ++ [ip_address endpoint], true))
      ([], false) (getNodeEndpoints nodes) in
  if negb validAddressFound then inl (Errorf "no valid addresses found")
  else inr {| ad_meta := with_identity DefaultAddressName (nr_clusterName r) "" zero_meta;
              ad_addresses := sort_by ea_ip addresses |}.

(** The delay of [RequeueAfter] and the error. *)
Definition ReconcileNode : prog (Z * option error) :=
  nodeList ← perform (ListIn KNode None ∅);
  match nodeList with
  | inl e => Ret (0%Z, Some e)
  | inr nodes =>
      match GenerateAddresses nodes with
      | inl e => Ret (requeueAfter, Some e)
      | inr currentAddresses =>
          existing ← perform (Get KAddresses (nr_clusterName r) DefaultAddressName);
          match existing with
          | inl e =>
              if IsNotFound e then
                created ← perform (Create KAddresses currentAddresses);
                Ret (0%Z, match created with inl e => Some e | inr _ => None end)
              else Ret (0%Z, Some e)
          | inr addresses =>
              if decide (ad_addresses addresses = ad_addresses currentAddresses) then Ret (0%Z, None)
              else
                updated ← perform (Update KAddresses
                  {| ad_meta := ad_meta addresses; ad_addresses := ad_addresses currentAddresses |});
                Ret (0%Z, match updated with inl e => Some e | inr _ => None end)
          end
      end
  end.

(** ** What is published *)

(** The addresses of the ready nodes that have one. *)
Definition ready_addresses (nodes : list Node) : list string :=
  filter (λ ip, ip ≠ "") (node_endpoint <$> filter (λ n, node_ready n = true) nodes).

Lemma getNodeEndpoints_eq nodes :
  getNodeEndpoints nodes = node_endpoint <$> filter (λ n, node_ready n = true) nodes.
Proof.
  unfold getNodeEndpoints.
  assert (∀ acc, foldl (λ acc node, if node_ready node then acc ++ [node_endpoint node] else acc) acc nodes =
    acc ++ (node_endpoint <$> filter (λ n, node_ready n = true) nodes)) as H; [|apply H].
  induction nodes as [|n nodes IH]; intros acc; cbn [foldl]; [by rewrite app_nil_r|].
  rewrite IH, filter_cons. destruct (node_ready n); [|done]. simpl. by rewrite <- app_assoc.
Qed.

Lemma GenerateAddresses_eq nodes :
  GenerateAddresses nodes =
    if decide (ready_addresses nodes = []) then inl (Errorf "no valid addresses found")
    else inr {| ad_meta := with_identity DefaultAddressName (nr_clusterName r) "" zero_meta;
                ad_addresses := sort_by ea_ip (ip_address <$> ready_addresses nodes) |}.
Proof.
  unfold GenerateAddresses, ready_addresses. rewrite getNodeEndpoints_eq.
  generalize (node_endpoint <$> filter (λ n, node_ready n = true) nodes). intros ips.
  assert (∀ acc (b : bool), foldl (λ '(addresses, found) endpoint,
      if decide (endpoint = "") then (addresses, found) else (addresses ++ [ip_address endpoint], true)) (acc, b) ips =
    (acc ++ (ip_address <$> filter (λ ip, ip ≠ "") ips), b || bool_decide (filter (λ ip, ip ≠ "") ips ≠ []))) as H.
  { induction ips as [|ip ips IH]; intros acc b; cbn [foldl]; [by rewrite app_nil_r, orb_false_r|].
    rewrite filter_cons. destruct (decide (ip = "")) as [->|Hne].
    - rewrite IH. by rewrite (decide_False (P := "" ≠ "")) by tauto.
    - rewrite IH, decide_True by done. simpl. rewrite <- app_assoc. by rewrite orb_true_r. }
  rewrite H. simpl. destruct (decide (filter _ ips = [])) as [->|Hne]; [done|].
  by rewrite bool_decide_eq_true_2.
Qed.

(** The list is sorted and holds exactly the addresses of the ready nodes. *)
Record published (nodes : list Node) (l : list EndpointAddress) : Prop := {
  published_sorted : StronglySorted (by_key ea_ip) l;
  published_perm : l ≡ₚ ip_address <$> ready_addresses nodes;
  published_some : l ≠ []
}.

Lemma GenerateAddresses_published nodes ad :
  GenerateAddresses nodes = inr ad → published nodes (ad_addresses ad).
Proof.
  rewrite GenerateAddresses_eq. destruct (decide _) as [|Hne]; [done|]. intros [= <-]. simpl. split.
  - apply sort_by_sorted.
  - by rewrite sort_by_perm.
  - intros E. apply Hne. apply (fmap_nil_inv ip_address), Permutation_nil_r.
    by rewrite <- (sort_by_perm ea_ip), E.
Qed.
End node_controller.

(** A write of Addresses, and Addresses the server has: read, or sent and accepted. *)
Definition addresses_write (e : event) : option Addresses :=
  match e with
  | existT (Create KAddresses o) _ | existT (Update KAddresses o) _ => Some o
  | _ => None
  end.
Definition stored_addresses (e : event) : option Addresses :=
  match e with
  | existT (Get KAddresses _ _) (inr o) => Some o
  | existT (Create KAddresses o) (inr _) | existT (Update KAddresses o) (inr _) => Some o
  | _ => None
  end.
Definition listed_nodes (e : event) : option (list Node) :=
  match e with existT (ListIn KNode _ _) (inr nodes) => Some nodes | _ => None end.

(** C32: publishing the nodes.  In every run of the node controller, whatever the two
    API servers answer, every write of the Addresses holds the sorted addresses of
    exactly the ready nodes of the list that was read (so never an empty list), and
    when the controller reports success the server of the KubeLB cluster has such an
    object. *)
Theorem ReconcileNode_publishes r :
  all_runs (ReconcileNode r)
    (λ log res, ∃ delay err, res = Done (delay, err) ∧
       (∀ e o, e ∈ log → addresses_write e = Some o →
          ∃ e0 nodes, e0 ∈ log ∧ listed_nodes e0 = Some nodes ∧ published r nodes (ad_addresses o)) ∧
       (err = None → ∃ e0 nodes e o, e0 ∈ log ∧ listed_nodes e0 = Some nodes ∧
          e ∈ log ∧ stored_addresses e = Some o ∧ published r nodes (ad_addresses o))) [].
Proof.
  unfold ReconcileNode. apply all_runs_perform. intros [e|nodes]; cbv iota beta.
  { simpl. eexists _, _. split; [done|]. split; [|done]. by intros ? ? ->%list_elem_of_singleton. }
  set (e0 := existT (ListIn KNode None ∅) (inr nodes) : event).
  destruct (GenerateAddresses r nodes) as [e|ad] eqn:Hg.
  { simpl. eexists _, _. split; [done|]. split; [|done]. by intros ? ? ->%list_elem_of_singleton. }
  apply GenerateAddresses_published in Hg. apply all_runs_perform. simpl app.
  assert (∀ l, e0 ∈ e0 :: l) as He0 by (intros; apply elem_of_cons; by left).
  assert (∀ x y : event, y ∈ [e0; x; y]) as Hy by (intros; rewrite !elem_of_cons; tauto).
  intros [e|old]; cbv iota beta.
  - destruct (IsNotFound e).
    + apply all_runs_perform. intros a. simpl. eexists _, _. split; [done|]. split.
      * intros ev o [->|[->| ->%list_elem_of_singleton]%elem_of_cons]%elem_of_cons; try done.
        intros [= <-]. by exists e0, nodes.
      * destruct a as [e'|o]; [done|]. intros _. by exists e0, nodes, (existT (Create KAddresses ad) (inr o)), ad.
    + simpl. eexists _, _. split; [done|]. split; [|done].
      by intros ev o [->| ->%list_elem_of_singleton]%elem_of_cons.
  - destruct (decide _) as [E|E].
    + simpl. eexists _, _. split; [done|]. split.
      * by intros ev o [->| ->%list_elem_of_singleton]%elem_of_cons.
      * intros _. eexists e0, nodes, _, old. split; [apply He0|]. split; [done|].
        split; [apply elem_of_cons; right; by apply list_elem_of_singleton|]. by rewrite E.
    + apply all_runs_perform. intros a. simpl. eexists _, _. split; [done|]. split.
      * intros ev o [->|[->| ->%list_elem_of_singleton]%elem_of_cons]%elem_of_cons; try done.
        intros [= <-]. by exists e0, nodes.
      * destruct a as [e'|o]; [done|]. intros _.
        by eexists e0, nodes, (existT (Update KAddresses _) (inr o)), _.
Qed.

(** the published object does not depend on the order in which the API server
    lists the nodes, so a list in another order leads to no update. *)
Theorem GenerateAddresses_order r nodes nodes' :
  nodes ≡ₚ nodes' → GenerateAddresses r nodes = GenerateAddresses r nodes'.
Proof.
  intros Hp. assert (ready_addresses r nodes ≡ₚ ready_addresses r nodes') as Hr.
  { unfold ready_addresses. by rewrite Hp. }
  rewrite !GenerateAddresses_eq. destruct (decide (ready_addresses r nodes = [])) as [E|E].
  { rewrite E in Hr. apply Permutation_nil_l in Hr. by rewrite decide_True. }
  rewrite decide_False; [|intros E'; rewrite E' in Hr; by apply E, Permutation_nil_r].
  do 2 f_equal. apply (StronglySorted_unique_strong (by_key ea_ip)); [|apply sort_by_sorted..|].
  - intros x y. rewrite !sort_by_perm, !list_elem_of_fmap. intros (a & -> & _) (b & -> & _) Hxy Hyx.
    unfold ip_address. f_equal. by apply (anti_symm String.le).
  - by rewrite !sort_by_perm, Hr.
Qed.

Definition sample_node (ip : string) (ready : string) : Node :=
  {| node_meta := zero_meta; node_conditions := [{| ncond_type := NodeReady; ncond_status := ready |}];
     node_addresses := [{| naddr_type := "Hostname"; naddr_address := "n" |};
                        {| naddr_type := "InternalIP"; naddr_address := ip |}] |}.
Definition sample_node_reconciler : KubeLBNodeReconciler :=
  {| nr_clusterName := "tenant-a"; nr_endpointAddressType := "InternalIP" |}.

Lemma GenerateAddresses_order_witness :
  GenerateAddresses sample_node_reconciler [sample_node "10.1.0.2" "True"; sample_node "10.1.0.1" "True"] =
  GenerateAddresses sample_node_reconciler [sample_node "10.1.0.1" "True"; sample_node "10.1.0.2" "True"].
Proof.
  exact (GenerateAddresses_order sample_node_reconciler _ _ (Permutation_swap _ _ [])).
Defined.
