(* ===== verification/CCMService.v ===== *)
(** * The Service controller of the CCM (internal/controllers/ccm/service_controller.go)

    The CCM of a tenant maps every Service of type LoadBalancer of the tenant cluster
    to a LoadBalancer in the tenant's namespace of the KubeLB cluster, and copies the
    addresses the LoadBalancer gets back into the status of the Service.  Services are
    read and written in the tenant cluster, LoadBalancers in the KubeLB cluster. *)
From stdpp Require Import base gmap list strings.
From S2P Require Import Prelude GoStrings Api Names Annotations LoadBalancers NetApi Effects Guards Services.
Import Core V1alpha1.

(** The finalizers, from shared.go and service_controller.go. *)
Definition ccmCleanupFinalizer : string := "kubelb.k8c.io/cleanup".
Definition LBFinalizerName : string := "kubelb.k8c.io/lb-finalizer".
Definition LoadBalancerClassName : string := "kubelb".

(** [retry.DefaultRetry]: four further attempts. *)
Definition defaultRetry : nat := 4.

Record KubeLBServiceReconciler := {
  sr_clusterName : string; sr_cloudController : bool; sr_useLoadbalancerClass : bool
}.


Definition ingress_address (i : LoadBalancerIngress) : string :=
  if decide (ing_ip i ≠ "") then ing_ip i else ing_hostname i.

Section service_controller.
Context `{Unicode} `{Finalizers} `{SemanticDeepEqual (gomap string)} (r : KubeLBServiceReconciler).

Definition shouldReconcileService (svc : Service) : bool :=
  if decide (ss_type (svc_spec svc) ≠ ServiceTypeLoadBalancer) then false
  else if sr_useLoadbalancerClass r then
    match ss_loadBalancerClass (svc_spec svc) with
    | Some c => bool_decide (c = LoadBalancerClassName)
    | None => false
    end
  else true.

(** The endpoints, and whether the Addresses of the tenant are to be used instead. *)
Definition getServiceEndpoints (service : Service) : list string * bool :=
  if bool_decide (ss_type (svc_spec service) = ServiceTypeLoadBalancer) && negb (sr_cloudController r)
  then (ingress_address <$> elems (svc_ingress service), false)
  else ([], true).

(** The result of the list only goes into a metric. *)
Definition updateManagedServicesGauge (ns : string) : prog unit :=
  _ ← perform (ListIn KService (Some ns) ∅); Ret ().

Definition without_service_finalizers (service : Service) : Service :=
  with_svc_meta (RemoveFinalizer (RemoveFinalizer (svc_meta service) LBFinalizerName) ccmCleanupFinalizer) service.

Definition cleanupService (service : Service) : prog (outcome bool) :=
  _ <-! delete_ignoring KLoadBalancer (sr_clusterName r) (uid (svc_meta service)) (Wrapf "deleting LoadBalancer") ;;
  _ <-["failed to remove finalizer"] perform (Update KService (without_service_finalizers service)) ;;
  ok false.

(** [None] when the finalizer cannot be added; the request is queued again then. *)
Definition ensure_service_finalizer (service : Service) : prog (outcome (option Service)) :=
  if ContainsFinalizer (svc_meta service) ccmCleanupFinalizer then ok (Some service)
  else
    let '(m, added) := AddFinalizer (svc_meta service) ccmCleanupFinalizer in
    if negb added then ok None
    else
      service <-["failed to add finalizer"]
        perform (Update KService (with_svc_meta (RemoveFinalizer m LBFinalizerName) service)) ;;
      ok (Some service).

(** The status of the LoadBalancer, copied to the Service as it is now. *)
Definition update_service_status (service : Service) (actualLB : LoadBalancer) : prog (outcome unit) :=
  _ <-["failed to update status " +:+ name (svc_meta service)]
    retryOnConflict defaultRetry (
      service <-! perform (Get KService (namespace (svc_meta service)) (name (svc_meta service))) ;;
      _ <-! perform (StatusUpdate KService (with_svc_ingress (lst_ingress (lb_status actualLB)) service)) ;;
      ok ()) ;;
  ok ().

Definition updated_load_balancer (actualLB desiredLB : LoadBalancer) : LoadBalancer :=
  {| lb_meta := with_annotations (annotations (lb_meta desiredLB)) (lb_meta actualLB);
     lb_spec := lb_spec desiredLB; lb_status := lb_status actualLB |}.

(** From the endpoints to the end of Reconcile. *)
Definition sync_load_balancer (req : NamespacedName) (service : Service) : prog (outcome bool) :=
  let '(clusterEndpoints, useAddressesReference) := getServiceEndpoints service in
  let '(desiredLB, service) := MapLoadBalancer service clusterEndpoints useAddressesReference (sr_clusterName r) in
  actual ← perform (Get KLoadBalancer (namespace (lb_meta desiredLB)) (name (lb_meta desiredLB)));
  match actual with
  | inl e =>
      if IsNotFound e then
        _ <-! perform (Create KLoadBalancer desiredLB) ;;
        _ ← updateManagedServicesGauge (nn_namespace req);
        ok false
      else fail e
  | inr actualLB =>
      _ <-! (if bool_decide (ss_type (svc_spec service) = ServiceTypeLoadBalancer) &&
                bool_decide (lst_ingress (lb_status actualLB) ≠ svc_ingress service)
             then update_service_status service actualLB else ok ()) ;;
      inDesiredState ← lift (LoadBalancerIsDesiredState actualLB desiredLB);
      if inDesiredState : bool then
        _ ← updateManagedServicesGauge (nn_namespace req);
        ok false
      else
        _ <-! perform (Update KLoadBalancer (updated_load_balancer actualLB desiredLB)) ;;
        _ ← updateManagedServicesGauge (nn_namespace req);
        ok false
  end.

(** Whether the request is queued again, or the error. *)
Definition ReconcileService (req : NamespacedName) : prog (outcome bool) :=
  got ← perform (Get KService (nn_namespace req) (nn_name req));
  match got with
  | inl _ => ok false
  | inr service =>
      if decide (deletionTimestamp (svc_meta service) ≠ None) then
        if ContainsFinalizer (svc_meta service) ccmCleanupFinalizer ||
           ContainsFinalizer (svc_meta service) LBFinalizerName
        then cleanupService service else ok false
      else if negb (shouldReconcileService service) then ok false
      else
        ensured <-! ensure_service_finalizer service ;;
        match ensured with
        | None => ok true
        | Some service => sync_load_balancer req service
        end
  end.

(** The Service to reconcile when its LoadBalancer changes. *)
Definition enqueueLoadBalancer (lb : LoadBalancer) : list NamespacedName :=
  if decide (namespace (lb_meta lb) ≠ sr_clusterName r) then []
  else if decide (ls_type (lb_spec lb) ≠ ServiceTypeLoadBalancer) then []
  else
    match default ∅ (labels (lb_meta lb)) !! LabelOriginNamespace with
    | None | Some "" => []
    | Some originalNamespace =>
        match default ∅ (labels (lb_meta lb)) !! LabelOriginName with
        | None | Some "" => []
        | Some originalName => [{| nn_namespace := originalNamespace; nn_name := originalName |}]
        end
    end.
End service_controller.

(** ** Events *)

(** A Service as the tenant's API server returned it; the metadata it is known to have
    stored; a LoadBalancer sent to the KubeLB cluster; one it has. *)
Definition service_seen (e : event) : option Service :=
  match e with
  | existT (Get KService _ _) (inr o) | existT (Update KService _) (inr o) => Some o
  | _ => None
  end.
Definition stored_service_meta (e : event) : option ObjectMeta :=
  match e with
  | existT (Get KService _ _) (inr o) => Some (svc_meta o)
  | existT (Update KService o) (inr _) => Some (svc_meta o)
  | _ => None
  end.
Definition lb_write (e : event) : option LoadBalancer :=
  match e with
  | existT (Create KLoadBalancer o) _ | existT (Update KLoadBalancer o) _ => Some o
  | _ => None
  end.
Definition lb_stored (e : event) : option LoadBalancer :=
  match e with
  | existT (Get KLoadBalancer _ _) (inr o) => Some o
  | existT (Create KLoadBalancer o) (inr _) | existT (Update KLoadBalancer o) (inr _) => Some o
  | _ => None
  end.
Definition service_update (e : event) : option Service :=
  match e with existT (Update KService o) _ => Some o | _ => None end.
Definition takes_load_balancer (c : call) : bool :=
  match c with Create KLoadBalancer _ | Update KLoadBalancer _ => true | _ => false end.

(** ** Finalizers come first *)

Lemma service_finalizer_added `{FinalizerLaws} m m' :
  AddFinalizer m ccmCleanupFinalizer = (m', true) →
  ContainsFinalizer (RemoveFinalizer m' LBFinalizerName) ccmCleanupFinalizer = true.
Proof.
  rewrite add_finalizer. destruct (ContainsFinalizer m _); [done|]. intros [= <-].
  rewrite contains_finalizer, remove_finalizer. simpl.
  apply list_elem_of_filter. split; [done|]. apply elem_of_app. right. by apply list_elem_of_singleton.
Qed.

(** The CCM never creates or changes a LoadBalancer for a Service it could not
    clean up: in every run, whatever the two API servers answer, a LoadBalancer is
    written only once the tenant's API server has the Service with the cleanup
    finalizer. *)
Theorem ReconcileService_finalizer_first `{Unicode} `{FinalizerLaws} `{SemanticDeepEqual (gomap string)} r req :
  all_runs (ReconcileService r req)
    (λ log _, guarded stored_service_meta ccmCleanupFinalizer takes_load_balancer log) [].
Proof.
  unfold ReconcileService. apply all_runs_perform.
  intros [e|svc]; cbv iota beta; [apply quiet_guarded; by repeat constructor|].
  set (e0 := existT (Get KService (nn_namespace req) (nn_name req)) (inr svc) : event). simpl app.
  assert (quiet takes_load_balancer [e0]) as Hq by by repeat constructor.
  destruct (decide _) as [_|_].
  { destruct (_ || _); [|by apply quiet_guarded]. unfold cleanupService.
    apply guarded_runs; [by apply quiet_guarded|left; solve_calls]. }
  destruct (shouldReconcileService r svc); simpl negb; cbv iota; [|by apply quiet_guarded].
  unfold ensure_service_finalizer. destruct (ContainsFinalizer (svc_meta svc) ccmCleanupFinalizer) eqn:Hf.
  { simpl try. apply guarded_runs; [by apply quiet_guarded|]. right. exists e0, (svc_meta svc).
    split; [by apply list_elem_of_singleton|done]. }
  destruct (AddFinalizer (svc_meta svc) ccmCleanupFinalizer) as [m [|]] eqn:Ha; simpl negb; cbv iota;
    [|by apply quiet_guarded].
  apply service_finalizer_added in Ha. apply all_runs_try, all_runs_try_wrap.
  intros [e|svc']; cbv iota beta.
  - simpl. apply quiet_guarded. by repeat constructor.
  - apply guarded_runs; [apply quiet_guarded; by repeat constructor|]. right.
    eexists _, _. split; [apply elem_of_app; right; by apply list_elem_of_singleton|done].
Qed.

(** Cleaning up a Service never panics, and gives the finalizers of the Service up
    last: the update that removes them is sent only after the LoadBalancer of the
    Service was deleted from the KubeLB cluster or found to be gone; when cleanup
    reports success, that update was accepted. *)
Theorem cleanupService_deletes_first `{Finalizers} r service :
  all_runs (cleanupService r service)
    (λ log res, (∃ o, res = Done o) ∧
       (∀ l1 e l2 o, log = l1 ++ e :: l2 → service_update e = Some o →
          l2 = [] ∧ o = without_service_finalizers service ∧
          gone KLoadBalancer (sr_clusterName r) (uid (svc_meta service)) l1) ∧
       (∀ b, res = Done (inr b) →
          ∃ l1 o, log = l1 ++ [existT (Update KService (without_service_finalizers service)) (inr o)])) [].
Proof.
  unfold cleanupService. apply all_runs_try. eapply all_runs_mono; [|apply delete_ignoring_runs].
  intros log1 res1 (a & -> & Hr). set (log1 := [] ++ [_]) in *.
  assert (absent service_update log1) as Hno by by repeat constructor.
  destruct Hr as [[-> Hg]|[e ->]]; cbv beta iota.
  2: { split; [by eexists|]. split; [|done]. intros l1 ev l2 o Hl Hev. by eapply absent_split. }
  clearbody log1. intros [e|o]; simpl; (split; [by eexists|]; split; [|try done]).
  3: { intros b _. by exists log1, o. }
  all: intros l1 ev l2 o' Hl Hev;
    destruct (absent_snoc_split _ _ _ _ _ _ _ Hno Hl Hev) as (-> & -> & ->); by injection Hev as <-.
Qed.

(** ** The LoadBalancer follows the Service *)

(** The LoadBalancer of a Service. *)
Definition mapped `{Unicode} (r : KubeLBServiceReconciler) (svc : Service) : LoadBalancer :=
  let '(eps, ref) := getServiceEndpoints r svc in (MapLoadBalancer svc eps ref (sr_clusterName r)).1.

(** A LoadBalancer with the contents of another. *)
Definition contents_of (o desired : LoadBalancer) : Prop :=
  lb_spec o = lb_spec desired ∧ annotations (lb_meta o) = annotations (lb_meta desired).

Lemma contents_same o d : contents_of o d → same_load_balancer o d.
Proof.
  intros [Hs Ha]. split; rewrite ?Hs, ?Ha; [done| | |].
  - apply Forall_Forall2_diag, list.Forall_true. by split.
  - apply Forall_Forall2_diag, list.Forall_true. split; [done|].
    apply Forall_Forall2_diag, list.Forall_true. by split.
  - reflexivity.
Qed.

Definition service_status_write (e : event) : option Service :=
  match e with existT (StatusUpdate KService o) _ => Some o | _ => None end.

(** The calls that copy the status: reads of the Service and status updates with the
    addresses of the LoadBalancer. *)
Definition copies_status (lb : LoadBalancer) (c : call) : Prop :=
  match c with
  | Get KService _ _ => True
  | StatusUpdate KService o => svc_ingress o = lst_ingress (lb_status lb)
  | ListIn KService _ _ => True
  | _ => False
  end.

Lemma update_service_status_calls svc lb : only_calls (copies_status lb) (update_service_status svc lb).
Proof. unfold update_service_status. solve_calls. Qed.

Lemma update_service_status_total svc lb : total (update_service_status svc lb).
Proof.
  unfold update_service_status, try_wrap. apply total_bind; [|by intros [e|a]].
  apply total_retry. intros [e|s]; simpl; [done|]. by intros [e|o].
Qed.

(** What holds of the events [l] of a synchronisation with the LoadBalancer [d]. *)
Record synced (d : LoadBalancer) (l : list event) (res : go (outcome bool)) : Prop := {
  synced_returns : ∃ o, res = Done o;
  synced_writes e o : e ∈ l → lb_write e = Some o → contents_of o d;
  synced_status e o : e ∈ l → service_status_write e = Some o →
    ∃ e' lb, e' ∈ l ∧ lb_stored e' = Some lb ∧ svc_ingress o = lst_ingress (lb_status lb);
  synced_stored b : res = Done (inr b) → ∃ e o, e ∈ l ∧ lb_stored e = Some o ∧ same_load_balancer o d
}.

(** An event that writes nothing but the contents of [d] and the status of [lb]. *)
Definition event_ok (d lb : LoadBalancer) (e : event) : Prop :=
  (∀ o, lb_write e = Some o → contents_of o d) ∧
  (∀ o, service_status_write e = Some o → svc_ingress o = lst_ingress (lb_status lb)).

Lemma copies_status_ok d lb e : copies_status lb (projT1 e) → event_ok d lb e.
Proof.
  intros He. split.
  - destruct e as [c a]. simpl in He. destruct c as [| |k o|k o| | | | | | | | | | | | | | | | | | | | |]; try done; by destruct k.
  - destruct e as [c a]. simpl in He. destruct c as [| | | |k o| | | | | | | | | | | | | | | | | | | |]; try done; destruct k; try done. by intros o' [= <-].
Qed.

Lemma synced_by d lb e0 l res :
  lb_stored e0 = Some lb → Forall (event_ok d lb) l →
  (∃ o, res = Done o) →
  (∀ b, res = Done (inr b) → ∃ e o, e ∈ e0 :: l ∧ lb_stored e = Some o ∧ same_load_balancer o d) →
  lb_write e0 = None → service_status_write e0 = None →
  synced d (e0 :: l) res.
Proof.
  intros He0 Hl Hres Hb Hw Hs. rewrite list.Forall_forall in Hl. split; [done| | |done].
  - intros e o [->|He]%elem_of_cons E; [congruence|]. by apply (Hl e He).
  - intros e o [->|He]%elem_of_cons E; [congruence|]. exists e0, lb.
    split; [apply elem_of_cons; by left|]. split; [done|]. by apply (Hl e He).
Qed.

Section sync_runs.
Context `{Unicode} `{Finalizers} `{SemanticMaps}.

(** The end of a synchronisation: the LoadBalancer was found to be right, or is
    written. *)
Lemma sync_end_runs (req : NamespacedName) lb d e0 l log :
  lb_stored e0 = Some lb → lb_write e0 = None → service_status_write e0 = None →
  Forall (event_ok d lb) l →
  all_runs (inDesiredState ← lift (LoadBalancerIsDesiredState lb d);
            if inDesiredState : bool then
              _ ← updateManagedServicesGauge (nn_namespace req); ok false
            else
              _ <-! perform (Update KLoadBalancer (updated_load_balancer lb d)) ;;
              _ ← updateManagedServicesGauge (nn_namespace req); ok false)
    (λ log' res, ∃ l', log' = log ++ l' ∧ synced d l' res) (log ++ e0 :: l).
Proof.
  intros He0 Hw0 Hs0 Hl.
  destruct (desired_cases lb d) as [[-> Hsame]|[-> _]]; simpl.
  - intros a. rewrite <- app_assoc, <- app_comm_cons. eexists. split; [done|].
    apply (synced_by _ lb); [done| |by eexists| |done|done].
    + apply Forall_app_2; [done|]. apply Forall_cons_2; [by split|by apply List.Forall_nil].
    + intros b _. exists e0, lb. split; [apply elem_of_cons; by left|done].
  - assert (∀ a, event_ok d lb (existT (Update KLoadBalancer (updated_load_balancer lb d)) a)) as Hu.
    { intros a. split; [|done]. by intros o [= <-]. }
    intros [e|o]; simpl; [|intros a]; rewrite <- ?app_assoc, <- !app_comm_cons;
      (eexists; split; [done|]); (apply (synced_by _ lb); [done| |by eexists| |done|done]).
    + apply Forall_app_2; [done|]. apply Forall_cons_2; [apply Hu|by apply List.Forall_nil].
    + done.
    + apply Forall_app_2; [done|]. apply Forall_cons_2; [apply Hu|].
      apply Forall_cons_2; [by split|by apply List.Forall_nil].
    + intros b _. eexists (existT (Update KLoadBalancer _) (inr o)), _.
      split; [rewrite elem_of_cons, elem_of_app, elem_of_cons; by right; right; left|].
      split; [done|]. by apply contents_same.
Qed.

Lemma sync_runs r req svc log :
  all_runs (sync_load_balancer r req svc)
    (λ log' res, ∃ l, log' = log ++ l ∧ synced (mapped r svc) l res) log.
Proof.
  unfold sync_load_balancer, mapped. destruct (getServiceEndpoints r svc) as [eps ref].
  destruct (MapLoadBalancer svc eps ref (sr_clusterName r)) as [d svc'] eqn:Hd. simpl fst.
  apply all_runs_perform. intros [e|lb]; cbv iota beta.
  - destruct (IsNotFound e); simpl.
    + intros [e'|o]; simpl; [|intros a]; rewrite <- !app_assoc; (eexists; split; [done|]); split.
      * by eexists.
      * intros ev o [->| ->%list_elem_of_singleton]%elem_of_cons; [done|]. by intros [= <-].
      * by intros ev o [->| ->%list_elem_of_singleton]%elem_of_cons.
      * done.
      * by eexists.
      * intros ev o' [->|[->| ->%list_elem_of_singleton]%elem_of_cons]%elem_of_cons; try done. by intros [= <-].
      * by intros ev o' [->|[->| ->%list_elem_of_singleton]%elem_of_cons]%elem_of_cons.
      * intros b _. exists (existT (Create KLoadBalancer d) (inr o)), d.
        split; [cbn [app]; rewrite !elem_of_cons; tauto|]. split; [done|]. by apply contents_same.
    + eexists. split; [done|]. split; [by eexists| |by intros ? ? ->%list_elem_of_singleton|done].
      by intros ? ? ->%list_elem_of_singleton.
  - set (e0 := existT (Get KLoadBalancer _ _) (inr lb) : event).
    set (status := if bool_decide (ss_type (svc_spec svc') = ServiceTypeLoadBalancer) &&
      bool_decide (lst_ingress (lb_status lb) ≠ svc_ingress svc')
      then update_service_status svc' lb else ok ()).
    assert (only_calls (copies_status lb) status) as Hc.
    { unfold status. destruct (_ && _); [apply update_service_status_calls|done]. }
    assert (total status) as Ht.
    { unfold status. destruct (_ && _); [apply update_service_status_total|done]. }
    apply all_runs_try, total_runs; [done|]. eapply all_runs_mono; [|apply only_calls_runs, Hc].
    intros log1 res (l & -> & Hl) a ->. rewrite <- app_assoc. simpl app.
    assert (Forall (event_ok d lb) l) as Hok.
    { eapply list.Forall_impl; [exact Hl|]. intros x Hx. by apply copies_status_ok. }
    destruct a as [e|[]]; [|by apply sync_end_runs].
    eexists. split; [done|]. by apply (synced_by _ lb); [| |by eexists|..].
Qed.
End sync_runs.

(** What holds of a run of the reconciler. *)
Record follows `{Unicode} (r : KubeLBServiceReconciler) (log : list event) (res : go (outcome bool)) : Prop := {
  follows_returns : ∃ o, res = Done o;
  follows_writes e o : e ∈ log → lb_write e = Some o →
    ∃ e' svc, e' ∈ log ∧ service_seen e' = Some svc ∧ contents_of o (mapped r svc);
  follows_status e o : e ∈ log → service_status_write e = Some o →
    ∃ e' lb, e' ∈ log ∧ lb_stored e' = Some lb ∧ svc_ingress o = lst_ingress (lb_status lb);
  follows_stored e0 svc l : log = e0 :: l → service_seen e0 = Some svc →
    deletionTimestamp (svc_meta svc) = None → shouldReconcileService r svc = true → res = Done (inr false) →
    ∃ e svc' e' o, e ∈ log ∧ service_seen e = Some svc' ∧ e' ∈ log ∧ lb_stored e' = Some o ∧
      same_load_balancer o (mapped r svc')
}.

(** A run without writes that does not come to the LoadBalancer. *)
Lemma follows_quiet `{Unicode} r log res :
  (∃ o, res = Done o) → absent lb_write log → absent service_status_write log →
  (∀ e0 svc l, log = e0 :: l → service_seen e0 = Some svc →
     deletionTimestamp (svc_meta svc) = None → shouldReconcileService r svc = true → res ≠ Done (inr false)) →
  follows r log res.
Proof.
  intros Hr Hw Hs Hn. unfold absent in *. rewrite list.Forall_forall in Hw, Hs. split; [done| | |].
  - intros e o He E. specialize (Hw e He). congruence.
  - intros e o He E. specialize (Hs e He). congruence.
  - intros e0 svc l H1 H2 H3 H4 H5. exfalso. by eapply Hn.
Qed.

(** A synchronisation after a prefix in which the Service was seen. *)
Lemma follows_synced `{Unicode} r svc e pre l res :
  absent lb_write pre → absent service_status_write pre → e ∈ pre → service_seen e = Some svc →
  synced (mapped r svc) l res → follows r (pre ++ l) res.
Proof.
  intros Hw Hs He Hsvc [H1 H2 H3 H4]. unfold absent in *. rewrite list.Forall_forall in Hw, Hs. split; [done| | |].
  - intros e' o [He'|He']%elem_of_app E; [specialize (Hw e' He'); congruence|].
    exists e, svc. split; [apply elem_of_app; by left|]. split; [done|]. by eapply H2.
  - intros e' o [He'|He']%elem_of_app E; [specialize (Hs e' He'); congruence|].
    destruct (H3 e' o He' E) as (e1 & lb & He1 & ?). exists e1, lb. split; [apply elem_of_app; by right|done].
  - intros _ _ _ _ _ _ _ Hres. destruct (H4 _ Hres) as (e1 & o & He1 & Ho & Hsame).
    exists e, svc, e1, o. rewrite !elem_of_app. auto 10.
Qed.

(** C18: the LoadBalancer follows the Service.  No run of the reconciler panics.  Every
    LoadBalancer it writes has the spec and annotations mapped from the Service as the
    tenant's API server returned it, every status it writes to a Service holds the
    addresses of the LoadBalancer, and when it reports success for a live Service it is
    responsible for, the KubeLB cluster has a LoadBalancer that agrees with the mapped
    one in type, ports, endpoints and annotations. *)
Theorem ReconcileService_syncs `{Unicode} `{Finalizers} `{SemanticMaps} r req :
  all_runs (ReconcileService r req) (follows r) [].
Proof.
  unfold ReconcileService. apply all_runs_perform. intros [e|svc]; cbv iota beta.
  { simpl. apply follows_quiet; [by eexists|by repeat constructor..|]. by intros e0 svc l [= <- <-]. }
  set (e0 := existT (Get KService (nn_namespace req) (nn_name req)) (inr svc) : event). simpl app.
  assert (absent lb_write [e0] ∧ absent service_status_write [e0]) as [Hw Hs] by by repeat constructor.
  destruct (decide _) as [Hdel|Hdel].
  { destruct (_ || _).
    - unfold cleanupService. apply all_runs_try. eapply all_runs_mono; [|apply delete_ignoring_runs].
      intros log1 res1 (a & -> & [[-> _]|[e ->]]); cbv iota beta; [intros [e|o]; simpl|];
        (apply follows_quiet; [by eexists|by repeat constructor..|]); by intros x svc' l [= <- <-] [= <-].
    - simpl. apply follows_quiet; [by eexists|done..|]. by intros x svc' l [= <- <-] [= <-]. }
  destruct (shouldReconcileService r svc) eqn:Hshould; simpl negb; cbv iota.
  2: { simpl. apply follows_quiet; [by eexists|done..|]. intros x svc' l [= <- <-] [= <-]. congruence. }
  unfold ensure_service_finalizer. destruct (ContainsFinalizer (svc_meta svc) ccmCleanupFinalizer).
  { simpl try. eapply all_runs_mono; [|apply sync_runs]. intros log' res (l & -> & Hl).
    eapply follows_synced; [done|done|by apply list_elem_of_singleton|done|done]. }
  destruct (AddFinalizer (svc_meta svc) ccmCleanupFinalizer) as [m [|]]; simpl negb; cbv iota.
  2: { simpl. by apply follows_quiet; [eexists|..]. }
  apply all_runs_try, all_runs_try_wrap. intros [e|svc']; cbv iota beta.
  - simpl. apply follows_quiet; [by eexists|by repeat constructor..|done].
  - refine (all_runs_mono _ _ _ _ _ (sync_runs r req svc' _)). intros log' res (l & -> & Hl).
    set (e1 := existT (Update KService (with_svc_meta (RemoveFinalizer m LBFinalizerName) svc)) (inr svc') : event).
    apply (follows_synced r svc' e1 [e0; e1]); [by repeat constructor..| |done|done].
    apply elem_of_cons. right. by apply list_elem_of_singleton.
Qed.

(** ** Changes of the LoadBalancer come back to the Service *)

(** The labels of a mapped LoadBalancer lead back to its Service: when the stored
    LoadBalancer of a Service of type LoadBalancer changes, exactly that Service is
    queued; a LoadBalancer of another tenant's namespace queues nothing. *)
Theorem enqueueLoadBalancer_mapped `{Unicode} r r' svc lb :
  ss_type (svc_spec svc) = ServiceTypeLoadBalancer →
  namespace (svc_meta svc) ≠ "" → name (svc_meta svc) ≠ "" →
  stored_as lb (mapped r svc) → labels (lb_meta lb) = labels (lb_meta (mapped r svc)) →
  enqueueLoadBalancer r' lb =
    if decide (sr_clusterName r = sr_clusterName r')
    then [{| nn_namespace := namespace (svc_meta svc); nn_name := name (svc_meta svc) |}] else [].
Proof.
  intros Ht Hns Hn [_ Hnsp Hspec] Hl. unfold enqueueLoadBalancer. rewrite Hl, Hnsp, Hspec.
  unfold mapped. destruct (getServiceEndpoints r svc) as [eps ref]. simpl. rewrite Ht.
  destruct (decide (sr_clusterName r = sr_clusterName r')) as [->|Hc].
  - rewrite decide_False by tauto. rewrite decide_False by tauto.
    rewrite lookup_insert_eq, lookup_insert_ne, lookup_insert_eq by done.
    destruct (namespace (svc_meta svc)); [done|]. by destruct (name (svc_meta svc)).
  - by rewrite decide_True.
Qed.

Lemma enqueueLoadBalancer_mapped_witness :
  let r := {| sr_clusterName := "tenant-a"; sr_cloudController := true; sr_useLoadbalancerClass := false |} in
  let svc := sample_user_service sample_ports None in
  enqueueLoadBalancer r (mapped (H := no_unicode) r svc) = [{| nn_namespace := "shop"; nn_name := "web" |}].
Proof.
  intros r svc.
  exact (enqueueLoadBalancer_mapped (H := no_unicode) r r svc (mapped (H := no_unicode) r svc)
    eq_refl ltac:(discriminate) ltac:(discriminate) (stored_as_refl _) eq_refl).
Defined.

(** ** Without the cloud controller *)

(** The two API servers, with one Service and its LoadBalancer. *)
Definition two_clusters (s : Service * LoadBalancer) (c : call) : (Service * LoadBalancer) * resp c :=
  match c as c return (Service * LoadBalancer) * resp c with
  | Get k _ _ =>
      (s, match k as k return error + objT k with
          | KService => inr s.1 | KLoadBalancer => inr s.2 | _ => inl (StatusError NotFound)
          end)
  | Update k o =>
      match k as k return objT k → (Service * LoadBalancer) * (error + objT k) with
      | KService => λ o, ((o, s.2), inr o)
      | KLoadBalancer => λ o, ((s.1, o), inr o)
      | _ => λ o, (s, inr o)
      end o
  | StatusUpdate k o =>
      match k as k return objT k → (Service * LoadBalancer) * (error + objT k) with
      | KService => λ o, let svc := with_svc_ingress (svc_ingress o) s.1 in ((svc, s.2), inr svc)
      | _ => λ o, (s, inr o)
      end o
  | c => (s, default_resp c)
  end.

(** The state after a reconciliation. *)
Definition reconciled `{Unicode} `{Finalizers} `{SemanticDeepEqual (gomap string)} (r : KubeLBServiceReconciler)
    (req : NamespacedName) (s : Service * LoadBalancer) : Service * LoadBalancer :=
  (run two_clusters (ReconcileService r req) s []).1.1.

(** A Service the CCM looks after and has marked. *)
Record managed `{Finalizers} (r : KubeLBServiceReconciler) (svc : Service) : Prop := {
  managed_live : deletionTimestamp (svc_meta svc) = None;
  managed_ours : shouldReconcileService r svc = true;
  managed_finalizer : ContainsFinalizer (svc_meta svc) ccmCleanupFinalizer = true
}.

Lemma ingress_same svc : with_svc_ingress (svc_ingress svc) svc = svc.
Proof. by destruct svc. Qed.

Lemma status_state svc svc1 lb log :
  (run two_clusters (update_service_status svc1 lb) (svc, lb) log).1.1 =
    (with_svc_ingress (lst_ingress (lb_status lb)) svc, lb) ∧
  (run two_clusters (update_service_status svc1 lb) (svc, lb) log).2 = Done (inr ()).
Proof. done. Qed.

Lemma sync_state `{Unicode} `{SemanticMaps} r req svc lb log :
  ss_type (svc_spec svc) = ServiceTypeLoadBalancer →
  ∃ lb', (run two_clusters (sync_load_balancer r req svc) (svc, lb) log).1.1 =
      (with_svc_ingress (lst_ingress (lb_status lb)) svc, lb') ∧
    lb_status lb' = lb_status lb ∧ same_load_balancer lb' (mapped r svc).
Proof.
  intros Ht. unfold sync_load_balancer, mapped. destruct (getServiceEndpoints r svc) as [eps ref].
  destruct (MapLoadBalancer svc eps ref (sr_clusterName r)) as [d svc1] eqn:Hd.
  assert (ss_type (svc_spec svc1) = ss_type (svc_spec svc) ∧ svc_ingress svc1 = svc_ingress svc) as [Ht1 Hi1].
  { injection Hd as <- <-. done. }
  cbv beta iota. cbn [mbind prog_bind prog_bind_ perform run two_clusters fst snd].
  rewrite Ht1, Ht, Hi1, (bool_decide_eq_true_2 (ServiceTypeLoadBalancer = _)) by done.
  unfold try at 1. rewrite run_bind.
  set (status := if true && _ then update_service_status svc1 lb else ok ()).
  assert (∀ log, (run two_clusters status (svc, lb) log).1.1 = (with_svc_ingress (lst_ingress (lb_status lb)) svc, lb) ∧
    (run two_clusters status (svc, lb) log).2 = Done (inr ())) as Hst.
  { intros log'. unfold status. case_bool_decide as Hi; [apply status_state|]. simpl.
    split; [|done]. by rewrite Hi, ingress_same. }
  match goal with |- context [run two_clusters status _ ?l] => specialize (Hst l) end.
  unfold outcome in *. destruct (run two_clusters status _ _) as [[s1 log1] res1]. simpl in Hst. destruct Hst as [-> ->].
  cbv beta iota. destruct (desired_cases lb d) as [[-> Hsame]|[-> _]]; simpl.
  - by exists lb.
  - eexists. split; [done|]. split; [done|]. by apply contents_same.
Qed.

Lemma reconciled_state `{Unicode} `{Finalizers} `{SemanticMaps} r req svc lb :
  managed r svc →
  ∃ lb', reconciled r req (svc, lb) = (with_svc_ingress (lst_ingress (lb_status lb)) svc, lb') ∧
    lb_status lb' = lb_status lb ∧ same_load_balancer lb' (mapped r svc).
Proof.
  intros [Hlive Hours Hfin]. unfold reconciled, ReconcileService. 
  cbn [mbind prog_bind prog_bind_ perform run two_clusters fst snd].
  rewrite Hlive, decide_False, Hours by tauto. simpl negb. cbv iota.
  unfold ensure_service_finalizer. rewrite Hfin. apply sync_state.
  unfold shouldReconcileService in Hours.
  by destruct (decide (ss_type (svc_spec svc) = ServiceTypeLoadBalancer)) as [|Hn]; [|rewrite decide_True in Hours].
Qed.

(** Without the cloud controller the load balancer is pointed at itself.  The
    endpoints are then the addresses in the status of the Service, as another load
    balancer implementation would have put them there; but the reconciler also
    overwrites that status with the addresses of KubeLB's own load balancer.  From any
    state, two reconciliations of a managed Service leave a LoadBalancer whose
    endpoint addresses are the addresses the LoadBalancer itself is reached at. *)
Theorem LoadBalancer_self_loop `{Unicode} `{Finalizers} `{SemanticMaps} r req svc lb :
  managed r svc → sr_cloudController r = false →
  ∃ svc' lb' ep, reconciled r req (reconciled r req (svc, lb)) = (svc', lb') ∧
    lst_ingress (lb_status lb') = lst_ingress (lb_status lb) ∧
    ls_endpoints (lb_spec lb') = [ep] ∧
    ea_ip <$> le_addresses ep = ingress_address <$> elems (lst_ingress (lb_status lb')).
Proof.
  intros Hm Hcc. destruct (reconciled_state r req svc lb Hm) as (lb1 & -> & Hs1 & _).
  set (svc1 := with_svc_ingress (lst_ingress (lb_status lb)) svc).
  assert (managed r svc1) as Hm1 by by destruct Hm.
  destruct (reconciled_state r req svc1 lb1 Hm1) as (lb2 & -> & Hs2 & Hsame).
  assert (ss_type (svc_spec svc1) = ServiceTypeLoadBalancer) as Ht.
  { destruct Hm1 as [_ Hours _]. unfold shouldReconcileService in Hours.
    by destruct (decide (ss_type (svc_spec svc1) = ServiceTypeLoadBalancer)) as [|Hn]; [|rewrite decide_True in Hours]. }
  apply same_lb_endpoints in Hsame. unfold mapped, getServiceEndpoints in Hsame.
  rewrite Ht, Hcc in Hsame. simpl in Hsame.
  apply Forall2_cons_inv_r in Hsame as (ep & eps & [Ha _] & ->%Forall2_nil_inv_r & Hep).
  exists (with_svc_ingress (lst_ingress (lb_status lb1)) svc1), lb2, ep.
  rewrite Hs2, Hs1. repeat (split; [done|]). rewrite Ha. simpl. rewrite <- list_fmap_compose.
  by rewrite (list_fmap_ext _ id), list_fmap_id.
Qed.

(** A Service with the cleanup finalizer, whose other load balancer is at 192.0.2.1,
    and its LoadBalancer, reached at 203.0.113.7. *)
Definition looping_service : Service :=
  let svc := sample_user_service sample_ports None in
  with_svc_ingress (Some [{| ing_ip := "192.0.2.1"; ing_hostname := ""; ing_rest := "" |}])
    (with_svc_meta (with_finalizers [ccmCleanupFinalizer] (svc_meta svc)) svc).
Definition looping_lb : LoadBalancer :=
  {| lb_meta := zero_meta;
     lb_spec := {| ls_endpoints := []; ls_ports := []; ls_hostname := ""; ls_type := ServiceTypeLoadBalancer |};
     lb_status := {| lst_ingress := Some [{| ing_ip := "203.0.113.7"; ing_hostname := ""; ing_rest := "" |}];
                     lst_ports := None; lst_hostname := None |} |}.

Lemma LoadBalancer_self_loop_witness :
  let r := {| sr_clusterName := "tenant-a"; sr_cloudController := false; sr_useLoadbalancerClass := false |} in
  let req := {| nn_namespace := "shop"; nn_name := "web" |} in
  let step := reconciled (H := no_unicode) (H0 := list_finalizers) (H1 := semantic_by_contents) r req in
  ∃ svc' lb' ep, step (step (looping_service, looping_lb)) = (svc', lb') ∧
    ls_endpoints (lb_spec lb') = [ep] ∧ ea_ip <$> le_addresses ep = ["203.0.113.7"].
Proof.
  intros r req step.
  destruct (LoadBalancer_self_loop (H := no_unicode) (H0 := list_finalizers) (H1 := semantic_by_contents)
    (H2 := semantic_by_contents_maps) r req looping_service looping_lb) as (svc' & lb' & ep & E & Hi & Hep & Ha).
  - split; [reflexivity|reflexivity|computed].
  - reflexivity.
  - exists svc', lb', ep. split; [exact E|]. split; [exact Hep|]. rewrite Ha, Hi. reflexivity.
Defined.

(** The two theorems above on runs, at a concrete reconciler. *)
Lemma ReconcileService_finalizer_first_witness :
  all_runs (ReconcileService (H := no_unicode) (H0 := list_finalizers) (H1 := semantic_by_contents)
              {| sr_clusterName := "tenant-a"; sr_cloudController := true; sr_useLoadbalancerClass := false |}
              {| nn_namespace := "shop"; nn_name := "web" |})
    (λ log _, guarded (H := list_finalizers) stored_service_meta ccmCleanupFinalizer takes_load_balancer log) [].
Proof.
  exact (ReconcileService_finalizer_first (H := no_unicode) (H1 := list_finalizers_laws) (H2 := semantic_by_contents) _ _).
Defined.

Lemma ReconcileService_syncs_witness :
  all_runs (ReconcileService (H := no_unicode) (H0 := list_finalizers) (H1 := semantic_by_contents)
              {| sr_clusterName := "tenant-a"; sr_cloudController := true; sr_useLoadbalancerClass := false |}
              {| nn_namespace := "shop"; nn_name := "web" |})
    (follows (H := no_unicode)
       {| sr_clusterName := "tenant-a"; sr_cloudController := true; sr_useLoadbalancerClass := false |}) [].
Proof.
  exact (ReconcileService_syncs (H := no_unicode) (H0 := list_finalizers) (H2 := semantic_by_contents_maps) _ _).
Defined.
