(* ===== verification/CCMSources.v ===== *)
(** * The route controllers of the CCM (internal/controllers/ccm: shared.go,
    ingress_controller.go, gateway_controller.go, gateway_httproute_controller.go,
    gateway_grpcroute_controller.go)

    The CCM wraps every Ingress, Gateway, HTTPRoute and GRPCRoute of the tenant cluster
    it is responsible for in a Route of the tenant's namespace in the KubeLB cluster,
    together with the Services it refers to, and copies the status that the manager
    reports in the Route back.  The four controllers are the same program for four
    kinds; [RouteSource] holds what differs.  Routes are read and written in the KubeLB
    cluster, all other objects in the tenant cluster. *)
From Stdlib Require Import Ascii.
From stdpp Require Import base gmap list strings.
From S2P Require Import Prelude GoStrings GoEncoding Api Names Annotations NetApi Effects Guards Services RouteResources Routes CCMService.
Import Core V1alpha1.

(** ** [json.Marshal] of a byte slice

    A byte slice is marshalled to a JSON string, in base 64, the nil slice to null;
    a raw value is nil when the Route has none. *)

Definition double_quote : ascii := ascii_of_nat 34.

Definition json_marshal_bytes (raw : string) : string :=
  if decide (raw = "") then "null"
  else String.string_of_list_ascii ([double_quote] ++ base64 (String.list_ascii_of_string raw) ++ [double_quote]).

(** ** What the kinds have of their own *)

(** Library code: the converter to unstructured data and the strict YAML decoder of
    the status of the kind. *)
Class SourceCodec (k : Effects.kind) := {
  toUnstructured : objT k → error + Unstructured;
  unmarshalStatus : string → error + opaque
}.

(** The metadata and status of the kind, and the Services an object refers to;
    Gateways refer to none and have no Services to clean up. *)
Class RouteSource (k : Effects.kind) := {
  src_meta : objT k → ObjectMeta;
  src_with_meta : ObjectMeta → objT k → objT k;
  src_status : objT k → opaque;
  src_with_status : opaque → objT k → objT k;
  src_references : option (objT k → go (list NamespacedName));
  src_kind : string;
  (* whether the controller checks that the finalizer was added *)
  src_checked : bool
}.

(** ** shared.go *)

Section shared.
Context {k : Effects.kind} `{RouteSource k} `{SourceCodec k} `{Scheme}
  `{SemanticDeepEqual ServiceSpec} `{SemanticDeepEqual (gomap string)}.

Definition ConvertObjectToUnstructured (obj : objT k) : error + Unstructured :=
  match toUnstructured obj with
  | inl e => inl (Wrapf "failed to convert resource to unstructured" e)
  | inr u => inr u
  end.

Definition reconcileSourceForRoute (resource : objT k) (originalServices : list NamespacedName) (ns : string)
    : prog (outcome unit) :=
  u <-["failed to convert Ingress to unstructured"] Ret (ConvertObjectToUnstructured resource) ;;
  let u := NormalizeUnstructured u in
  services <-["failed to normalize services"] NormalizeAndReplicateServices originalServices ;;
  _ <-["failed to create route for resource"] CreateRouteForResource u services ns ;;
  ok ().
End shared.

(** [cleanupRoute] *)
Definition cleanupSourceRoute (resourceUID ns : string) : prog (outcome unit) :=
  got ← perform (Get KRoute ns resourceUID);
  match got with
  | inl e => if IsNotFound e then ok () else fail (Wrapf "failed to get Route from LB cluster" e)
  | inr route =>
      deleted ← perform (Delete KRoute (namespace (rt_meta route)) (name (rt_meta route)));
      match deleted with
      | Some e => fail (Wrapf "failed to delete Route" e)
      | None => ok ()
      end
  end.

(** The object to reconcile when its Route changes. *)
Definition enqueueRoutes (gvk clusterNamespace : string) (route : Route) : list NamespacedName :=
  let labels := contents (labels (rt_meta route)) in
  if decide (namespace (rt_meta route) ≠ clusterNamespace) then []
  else
    match labels !! LabelOriginNamespace with
    | None | Some "" => []
    | Some originalNamespace =>
        match labels !! LabelOriginName with
        | None | Some "" => []
        | Some originalName =>
            match labels !! LabelOriginResourceKind with
            | None => []
            | Some resourceGVK =>
                if decide (gvk ≠ resourceGVK) then []
                else [{| nn_namespace := originalNamespace; nn_name := originalName |}]
            end
        end
    end.

(** ** The controllers

    The definitions are those of ingress_controller.go; the other three controllers have
    the same functions with their kind in place of the Ingress. *)

Section controller.
Context {k : Effects.kind} `{RouteSource k} `{SourceCodec k} `{Scheme} `{Finalizers}
  `{SemanticDeepEqual ServiceSpec} `{SemanticDeepEqual (gomap string)}
  (clusterName : string) (shouldReconcile : objT k → bool).

Definition update_source_status (resource : objT k) (status : opaque) : prog (outcome unit) :=
  retryOnConflict defaultRetry (
    current <-! perform (Get k (namespace (src_meta resource)) (name (src_meta resource))) ;;
    if decide (src_status current = status) then ok ()
    else _ <-! perform (StatusPatch k (src_with_status status current) current) ;; ok ()).

(** [reconcile] *)
Definition reconcile_source (resource : objT k) : prog (outcome unit) :=
  originalServices ← match src_references with Some f => lift (f resource) | None => Ret [] end;
  _ <-["failed to reconcile source for route"] reconcileSourceForRoute resource originalServices clusterName ;;
  route <-["failed to get Route from LB cluster"] perform (Get KRoute clusterName (uid (src_meta resource))) ;;
  let state := rrs_route (rt_status route) in
  if decide (String.length (rs_generatedName state) = 0) then ok ()
  else if decide (json_marshal_bytes (rs_status state) = DefaultRouteStatus) then ok ()
  else
    match unmarshalStatus (rs_status state) with
    | inl e => fail (Wrapf ("failed to unmarshal " +:+ src_kind +:+ " status") e)
    | inr status => update_source_status resource status
    end.

(** The Services created by the CCM for the references. *)
Definition original_name (service : Service) : string :=
  if decide (get_str (labels (svc_meta service)) LabelOriginName ≠ "")
  then get_str (labels (svc_meta service)) LabelOriginName else name (svc_meta service).

Definition is_reference_to (service : Service) (ref : NamespacedName) : bool :=
  bool_decide (nn_name ref = original_name service) &&
  bool_decide (nn_namespace ref = namespace (svc_meta service)).

Fixpoint delete_for_references (impacted : list NamespacedName) (service : Service) : prog (outcome unit) :=
  match impacted with
  | [] => ok ()
  | ref :: impacted =>
      if is_reference_to service ref then
        deleted ← perform (Delete KService (namespace (svc_meta service)) (name (svc_meta service)));
        match deleted with
        | Some e => fail (Wrapf "failed to delete service" e)
        | None => delete_for_references impacted service
        end
      else delete_for_references impacted service
  end.

Fixpoint delete_impacted (impacted : list NamespacedName) (services : list Service) : prog (outcome unit) :=
  match services with
  | [] => ok ()
  | service :: services =>
      _ <-! delete_for_references impacted service ;; delete_impacted impacted services
  end.

Definition without_source_finalizer (resource : objT k) : objT k :=
  src_with_meta (RemoveFinalizer (src_meta resource) ccmCleanupFinalizer) resource.

(** [cleanup] *)
Definition cleanup_source (resource : objT k) : prog (outcome bool) :=
  _ <-! match src_references with
        | None => ok ()
        | Some f =>
            impactedServices ← lift (f resource);
            services <-["failed to list services"]
              perform (ListIn KService (Some (namespace (src_meta resource))) {[ LabelManagedBy := LabelControllerName ]}) ;;
            delete_impacted impactedServices services
        end ;;
  _ <-["failed to cleanup route"] cleanupSourceRoute (uid (src_meta resource)) clusterName ;;
  _ <-["failed to remove finalizer"] perform (Update k (without_source_finalizer resource)) ;;
  ok false.

Definition ensure_source_finalizer (resource : objT k) : prog (outcome (option (objT k))) :=
  if ContainsFinalizer (src_meta resource) ccmCleanupFinalizer then ok (Some resource)
  else
    let '(m, added) := AddFinalizer (src_meta resource) ccmCleanupFinalizer in
    if src_checked && negb added then ok None
    else
      resource <-["failed to add finalizer"] perform (Update k (src_with_meta m resource)) ;;
      ok (Some resource).

(** [Reconcile]; the list at the end only feeds a metric. *)
Definition ReconcileSource (req : NamespacedName) : prog (outcome bool) :=
  got ← perform (Get k (nn_namespace req) (nn_name req));
  match got with
  | inl e => if IsNotFound e then ok false else fail e
  | inr resource =>
      if decide (deletionTimestamp (src_meta resource) ≠ None) then
        if ContainsFinalizer (src_meta resource) ccmCleanupFinalizer
        then cleanup_source resource else ok false
      else if negb (shouldReconcile resource) then ok false
      else
        ensured <-! ensure_source_finalizer resource ;;
        match ensured with
        | None => ok true
        | Some resource =>
            _ <-! reconcile_source resource ;;
            _ ← perform (ListIn k (Some (nn_namespace req)) ∅);
            ok false
        end
  end.

(** [enqueueResources]: one request for every reference to the Service [o]. *)
Definition refers_to (o : ObjectMeta) (ref : NamespacedName) : bool :=
  (bool_decide (nn_name ref = name o) || bool_decide (NodePortServicePattern (nn_name ref) = name o)) &&
  bool_decide (nn_namespace ref = namespace o).

Definition requests_of (references : objT k → go (list NamespacedName)) (o : ObjectMeta) (resource : objT k)
    : go (list NamespacedName) :=
  if negb (shouldReconcile resource) then Done []
  else
    refs ← references resource;
    Done ((λ _ : NamespacedName, {| nn_namespace := namespace (src_meta resource); nn_name := name (src_meta resource) |})
            <$> filter (λ ref, refers_to o ref = true) (refs : list NamespacedName)).

Definition enqueueResources (references : objT k → go (list NamespacedName)) (o : ObjectMeta)
    : prog (list NamespacedName) :=
  listed ← perform (ListIn k (Some (namespace o)) ∅);
  match listed with
  | inl _ => Ret []
  | inr resources => lift (rs ← go_map (λ _, requests_of references o) 0 resources; Done (concat rs))
  end.

(** The new object of an event decides. *)
Definition resourceFilter (e : watch_event (objT k)) : bool :=
  match e with
  | CreateEvent o | UpdateEvent _ o | DeleteEvent o | GenericEvent o => shouldReconcile o
  end.
End controller.

(** ** The four kinds *)


#[export] Instance ingress_source : RouteSource KIngress :=
  {| src_meta := in_meta : objT KIngress → _; src_with_meta := with_in_meta : _ → objT KIngress → objT KIngress;
     src_status := in_status : objT KIngress → _; src_with_status := with_in_status : _ → objT KIngress → objT KIngress;
     src_references := Some (GetServicesFromIngress : objT KIngress → _);
     src_kind := "Ingress"; src_checked := true |}.
#[export] Instance gateway_source : RouteSource KGateway :=
  {| src_meta := gw_meta : objT KGateway → _; src_with_meta := with_gw_meta : _ → objT KGateway → objT KGateway;
     src_status := gw_status : objT KGateway → _; src_with_status := with_gw_status : _ → objT KGateway → objT KGateway;
     src_references := None; src_kind := "Gateway"; src_checked := true |}.
#[export] Instance httproute_source : RouteSource KHTTPRoute :=
  {| src_meta := gr_meta : objT KHTTPRoute → _; src_with_meta := with_gr_meta : _ → objT KHTTPRoute → objT KHTTPRoute;
     src_status := gr_status : objT KHTTPRoute → _; src_with_status := with_gr_status : _ → objT KHTTPRoute → objT KHTTPRoute;
     src_references := Some (λ r : objT KHTTPRoute, Done (GetServicesFromHTTPRoute r));
     src_kind := "HTTPRoute"; src_checked := true |}.
#[export] Instance grpcroute_source : RouteSource KGRPCRoute :=
  {| src_meta := gr_meta : objT KGRPCRoute → _; src_with_meta := with_gr_meta : _ → objT KGRPCRoute → objT KGRPCRoute;
     src_status := gr_status : objT KGRPCRoute → _; src_with_status := with_gr_status : _ → objT KGRPCRoute → objT KGRPCRoute;
     src_references := Some (λ r : objT KGRPCRoute, Done (GetServicesFromGRPCRoute r));
     src_kind := "GRPCRoute"; src_checked := false |}.

Definition IngressClassName : string := "kubelb".

Record IngressReconciler := { igr_clusterName : string; igr_useIngressClass : bool }.
Record GatewayReconciler := { gtr_clusterName : string; gtr_useGatewayClass : bool }.
Record HTTPRouteReconciler := { htr_clusterName : string }.
Record GRPCRouteReconciler := { grr_clusterName : string }.

Definition shouldReconcileIngress (r : IngressReconciler) (ingress : Ingress) : bool :=
  if igr_useIngressClass r then
    match isp_className (in_spec ingress) with
    | Some c => bool_decide (c = IngressClassName)
    | None => false
    end
  else true.
Definition shouldReconcileGateway (r : GatewayReconciler) (gateway : Gateway) : bool :=
  ShouldReconcileResource (AGateway gateway) (gtr_useGatewayClass r).
Definition shouldReconcileHTTPRoute (httpRoute : HTTPRoute) : bool :=
  ShouldReconcileResource (AnHTTPRoute httpRoute) false.
Definition shouldReconcileGRPCRoute (grpcRoute : GRPCRoute) : bool :=
  ShouldReconcileResource (AGRPCRoute grpcRoute) false.

Section reconcilers.
Context `{Scheme} `{Finalizers} `{SemanticDeepEqual ServiceSpec} `{SemanticDeepEqual (gomap string)}.

Definition ReconcileIngress `{SourceCodec KIngress} (r : IngressReconciler) : NamespacedName → prog (outcome bool) :=
  ReconcileSource (k := KIngress) (igr_clusterName r) (shouldReconcileIngress r).
Definition ReconcileGateway `{SourceCodec KGateway} (r : GatewayReconciler) : NamespacedName → prog (outcome bool) :=
  ReconcileSource (k := KGateway) (gtr_clusterName r) (shouldReconcileGateway r).
Definition ReconcileHTTPRoute `{SourceCodec KHTTPRoute} (r : HTTPRouteReconciler) : NamespacedName → prog (outcome bool) :=
  ReconcileSource (k := KHTTPRoute) (htr_clusterName r) shouldReconcileHTTPRoute.
Definition ReconcileGRPCRoute `{SourceCodec KGRPCRoute} (r : GRPCRouteReconciler) : NamespacedName → prog (outcome bool) :=
  ReconcileSource (k := KGRPCRoute) (grr_clusterName r) shouldReconcileGRPCRoute.
End reconcilers.

Definition enqueueIngresses (r : IngressReconciler) : ObjectMeta → prog (list NamespacedName) :=
  enqueueResources (k := KIngress) (shouldReconcileIngress r) (GetServicesFromIngress : objT KIngress → _).
Definition enqueueHTTPRoutes : ObjectMeta → prog (list NamespacedName) :=
  enqueueResources (k := KHTTPRoute) shouldReconcileHTTPRoute (λ r : objT KHTTPRoute, Done (GetServicesFromHTTPRoute r)).
Definition enqueueGRPCRoutes : ObjectMeta → prog (list NamespacedName) :=
  enqueueResources (k := KGRPCRoute) shouldReconcileGRPCRoute (λ r : objT KGRPCRoute, Done (GetServicesFromGRPCRoute r)).

(** The events of each kind that reach its controller. *)
Definition filterIngresses (r : IngressReconciler) : watch_event Ingress → bool :=
  resourceFilter (k := KIngress) (shouldReconcileIngress r).
Definition filterGateways (r : GatewayReconciler) : watch_event Gateway → bool :=
  resourceFilter (k := KGateway) (shouldReconcileGateway r).
Definition filterHTTPRoutes : watch_event HTTPRoute → bool := resourceFilter (k := KHTTPRoute) shouldReconcileHTTPRoute.
Definition filterGRPCRoutes : watch_event GRPCRoute → bool := resourceFilter (k := KGRPCRoute) shouldReconcileGRPCRoute.

(** ** Events *)

(** The metadata of an object of one of the four kinds, when the tenant's API server is
    known to have it, and when it is sent there. *)
Definition stored_source (e : event) : option ObjectMeta :=
  match e with
  | existT (Get KIngress _ _) (inr o) | existT (Update KIngress o) (inr _) => Some (in_meta o)
  | existT (Get KGateway _ _) (inr o) | existT (Update KGateway o) (inr _) => Some (gw_meta o)
  | existT (Get KHTTPRoute _ _) (inr o) | existT (Update KHTTPRoute o) (inr _) => Some (gr_meta o)
  | existT (Get KGRPCRoute _ _) (inr o) | existT (Update KGRPCRoute o) (inr _) => Some (gr_meta o)
  | _ => None
  end.
Definition source_update (e : event) : option ObjectMeta :=
  match e with
  | existT (Update KIngress o) _ => Some (in_meta o)
  | existT (Update KGateway o) _ => Some (gw_meta o)
  | existT (Update KHTTPRoute o) _ => Some (gr_meta o)
  | existT (Update KGRPCRoute o) _ => Some (gr_meta o)
  | _ => None
  end.
Definition updates_source (c : call) : bool :=
  match c with
  | Update KIngress _ | Update KGateway _ | Update KHTTPRoute _ | Update KGRPCRoute _ => true
  | _ => false
  end.
(** Calls that write a Route, or a Service for one. *)
Definition takes_route (c : call) : bool :=
  match c with
  | Create KRoute _ | Update KRoute _ | Create KService _ | Update KService _ => true
  | _ => false
  end.

(** What the four kinds share. *)
Class SourceLaws (k : Effects.kind) `{RouteSource k} : Prop := {
  src_meta_with m o : src_meta (src_with_meta m o) = m;
  stored_source_get ns n o : stored_source (existT (Get k ns n) (inr o)) = Some (src_meta o);
  stored_source_sent o o' : stored_source (existT (Update k o) (inr o')) = Some (src_meta o);
  source_update_sent o a : source_update (existT (Update k o) a) = Some (src_meta o);
  update_takes_nothing o : takes_route (Update k o) = false
}.
#[export] Instance ingress_laws : SourceLaws KIngress.
Proof. by split. Qed.
#[export] Instance gateway_laws : SourceLaws KGateway.
Proof. by split. Qed.
#[export] Instance httproute_laws : SourceLaws KHTTPRoute.
Proof. by split. Qed.
#[export] Instance grpcroute_laws : SourceLaws KGRPCRoute.
Proof. by split. Qed.

Lemma updates_source_None e : updates_source (projT1 e) = false → source_update e = None.
Proof. destruct e as [c a]. simpl. destruct c as [| | |k o| | | | | | | | | | | | | | | | | | | | |]; try done; by destruct k. Qed.

(** ** Finalizers come first *)

Lemma delete_for_references_calls (P : call → Prop) impacted service :
  (∀ ns n, P (Delete KService ns n)) → only_calls P (delete_for_references impacted service).
Proof.
  intros HP. induction impacted as [|ref impacted IH]; [done|]. cbn [delete_for_references].
  destruct (is_reference_to service ref); [|done]. solve_calls.
Qed.

Lemma delete_impacted_calls (P : call → Prop) impacted services :
  (∀ ns n, P (Delete KService ns n)) → only_calls P (delete_impacted impacted services).
Proof.
  intros HP. induction services as [|service services IH]; [done|]. cbn [delete_impacted].
  apply only_calls_try; [by apply delete_for_references_calls|done].
Qed.

Lemma source_finalizer_added `{FinalizerLaws} m m' b :
  ContainsFinalizer m ccmCleanupFinalizer = false → AddFinalizer m ccmCleanupFinalizer = (m', b) →
  ContainsFinalizer m' ccmCleanupFinalizer = true.
Proof.
  intros Hc. rewrite add_finalizer, Hc. intros [= <- <-]. rewrite contains_finalizer.
  apply elem_of_app. right. by apply list_elem_of_singleton.
Qed.

Lemma cleanup_source_takes_nothing {k} `{SourceLaws k} `{Finalizers} cluster (resource : objT k) :
  only_calls (λ c, takes_route c = false) (cleanup_source cluster resource).
Proof.
  unfold cleanup_source. apply only_calls_try; [|intros []].
  - destruct src_references as [f|]; [|done]. solve_calls. by apply delete_impacted_calls.
  - unfold cleanupSourceRoute. solve_calls. apply update_takes_nothing.
Qed.

(** The CCM never wraps an object it could not clean up after.  For each of the four
    kinds, in every run of the controller, whatever the two API servers answer, a Route
    or a Service is written only once the tenant's API server has the object with the
    cleanup finalizer. *)
Theorem ReconcileSource_finalizer_first {k} `{SourceLaws k} `{SourceCodec k} `{Scheme} `{FinalizerLaws}
    `{SemanticDeepEqual ServiceSpec} `{SemanticDeepEqual (gomap string)} cluster (should : objT k → bool) req :
  all_runs (ReconcileSource cluster should req)
    (λ log _, guarded stored_source ccmCleanupFinalizer takes_route log) [].
Proof.
  unfold ReconcileSource. apply all_runs_perform. intros [e|obj]; cbv iota beta.
  { destruct (IsNotFound e); apply quiet_guarded; by repeat constructor. }
  set (e0 := existT (Get k (nn_namespace req) (nn_name req)) (inr obj) : event). simpl app.
  assert (quiet takes_route [e0]) as Hq by by repeat constructor.
  destruct (decide _) as [_|_].
  { destruct (ContainsFinalizer _ _); [|by apply quiet_guarded].
    apply guarded_runs; [by apply quiet_guarded|left; apply cleanup_source_takes_nothing]. }
  destruct (should obj); simpl negb; cbv iota; [|by apply quiet_guarded].
  unfold ensure_source_finalizer. destruct (ContainsFinalizer (src_meta obj) ccmCleanupFinalizer) eqn:Hf.
  { simpl try. apply guarded_runs; [by apply quiet_guarded|]. right. exists e0, (src_meta obj).
    split; [by apply list_elem_of_singleton|]. split; [apply stored_source_get|done]. }
  destruct (AddFinalizer (src_meta obj) ccmCleanupFinalizer) as [m b] eqn:Ha.
  apply source_finalizer_added in Ha; [|done].
  destruct (src_checked && negb b); [by apply quiet_guarded|].
  apply all_runs_try, all_runs_try_wrap. intros a.
  assert (guarded stored_source ccmCleanupFinalizer takes_route
    ([e0] ++ [existT (Update k (src_with_meta m obj)) a])) as Hg.
  { apply quiet_guarded, Forall_app_2; [done|]. constructor; [|done]. apply update_takes_nothing. }
  destruct a as [e|obj']; [exact Hg|]. apply guarded_runs; [exact Hg|]. right.
  eexists _, _. split; [apply elem_of_app; right; by apply list_elem_of_singleton|].
  split; [apply stored_source_sent|]. by rewrite src_meta_with.
Qed.

(** ** Cleaning up *)

Definition deleted (k : Effects.kind) (m : ObjectMeta) (log : list event) : Prop :=
  existT (Delete k (namespace m) (name m)) None ∈ log.

(** The Route of the object was not there, or its delete succeeded. *)
Definition route_gone (ns u : string) (log : list event) : Prop :=
  (∃ e, IsNotFound e = true ∧ existT (Get KRoute ns u) (inl e) ∈ log) ∨
  ∃ route, existT (Get KRoute ns u) (inr route) ∈ log ∧ deleted KRoute (rt_meta route) log.

(** The Services the CCM had created for the references were deleted. *)
Definition services_gone {k} `{RouteSource k} (resource : objT k) (log : list event) : Prop :=
  ∀ f, src_references = Some f → ∃ refs services, f resource = Done refs ∧
    existT (ListIn KService (Some (namespace (src_meta resource))) {[ LabelManagedBy := LabelControllerName ]})
      (inr services) ∈ log ∧
    ∀ service ref, service ∈ services → ref ∈ refs → is_reference_to service ref = true →
      deleted KService (svc_meta service) log.

Lemma delete_for_references_runs refs service log :
  all_runs (delete_for_references refs service)
    (λ log' res, ∃ l, log' = log ++ l ∧ absent source_update l ∧
       ((res = Done (inr ()) ∧ ∀ ref, ref ∈ refs → is_reference_to service ref = true → deleted KService (svc_meta service) l) ∨
        ∃ e, res = Done (inl e))) log.
Proof.
  revert log. induction refs as [|ref refs IH]; intros log; cbn [delete_for_references].
  { exists []. rewrite app_nil_r. split; [done|]. split; [by constructor|]. left. split; [done|]. by intros ? ?%not_elem_of_nil. }
  destruct (is_reference_to service ref) eqn:Hr.
  - intros [e|].
    + eexists. split; [done|]. split; [by repeat constructor|]. right. by eexists.
    + eapply all_runs_mono; [|apply IH]. intros log' res (l & -> & Hl & Hres). rewrite <- app_assoc.
      eexists. split; [done|]. split; [by apply Forall_app_2; [repeat constructor|]|].
      destruct Hres as [[-> _]|He]; [|by right]. left. split; [done|]. intros ? _ _.
      apply elem_of_app. left. by apply list_elem_of_singleton.
  - eapply all_runs_mono; [|apply IH]. intros log' res (l & -> & Hl & Hres). exists l. split; [done|]. split; [done|].
    destruct Hres as [[-> Hd]|He]; [|by right]. left. split; [done|].
    intros ref' [->|Hin]%elem_of_cons Href; [congruence|]. by eapply Hd.
Qed.

Lemma delete_impacted_runs refs services log :
  all_runs (delete_impacted refs services)
    (λ log' res, ∃ l, log' = log ++ l ∧ absent source_update l ∧
       ((res = Done (inr ()) ∧ ∀ service ref, service ∈ services → ref ∈ refs →
           is_reference_to service ref = true → deleted KService (svc_meta service) l) ∨
        ∃ e, res = Done (inl e))) log.
Proof.
  revert log. induction services as [|service services IH]; intros log; cbn [delete_impacted].
  { exists []. rewrite app_nil_r. split; [done|]. split; [by constructor|]. left. split; [done|]. by intros ? ? ?%not_elem_of_nil. }
  apply all_runs_try. eapply all_runs_mono; [|apply delete_for_references_runs].
  intros log1 res1 (l1 & -> & Hl1 & [[-> Hd1]|[e ->]]); cbv beta iota.
  - eapply all_runs_mono; [|apply IH]. intros log' res (l & -> & Hl & Hres). rewrite <- app_assoc.
    eexists. split; [done|]. split; [by apply Forall_app_2|]. destruct Hres as [[-> Hd]|He]; [|by right].
    left. split; [done|]. unfold deleted in *. setoid_rewrite elem_of_app.
    intros svc ref [->|Hin]%elem_of_cons Href Hm; [left|right]; eauto.
  - exists l1. split; [done|]. split; [done|]. right. by eexists.
Qed.

Lemma cleanupSourceRoute_runs u ns log :
  all_runs (cleanupSourceRoute u ns)
    (λ log' res, ∃ l, log' = log ++ l ∧ absent source_update l ∧
       ((res = Done (inr ()) ∧ route_gone ns u l) ∨ ∃ e, res = Done (inl e))) log.
Proof.
  unfold cleanupSourceRoute. apply all_runs_perform. intros [e|route]; cbv iota beta.
  - destruct (IsNotFound e) eqn:He; (eexists; split; [done|]; split; [by repeat constructor|]); [left|right; by eexists].
    split; [done|]. left. exists e. split; [done|]. by apply list_elem_of_singleton.
  - intros [e|]; simpl; rewrite <- app_assoc; (eexists; split; [done|]; split; [by repeat constructor|]);
      [right; by eexists|left].
    split; [done|]. right. exists route. unfold deleted. simpl. rewrite !elem_of_cons. auto.
Qed.

(** The Services come first. *)
Lemma cleanup_services_runs {k} `{RouteSource k} (resource : objT k) log :
  all_runs (match src_references with
            | None => ok ()
            | Some f =>
                impactedServices ← lift (f resource);
                services <-["failed to list services"]
                  perform (ListIn KService (Some (namespace (src_meta resource))) {[ LabelManagedBy := LabelControllerName ]}) ;;
                delete_impacted impactedServices services
            end)
    (λ log' res, ∃ l, log' = log ++ l ∧ absent source_update l ∧
       match res with
       | Done (inr ()) => services_gone resource l
       | Done (inl _) => True
       | Panics => ∃ f, src_references = Some f ∧ f resource = Panics
       end) log.
Proof.
  unfold services_gone. destruct src_references as [f|].
  2: { exists []. rewrite app_nil_r. split; [done|]. split; [by constructor|]. by intros f [=]. }
  destruct (f resource) as [refs|] eqn:Hf; simpl lift.
  2: { exists []. rewrite app_nil_r. split; [done|]. split; [by constructor|]. by exists f. }
  change (Ret refs ≫= ?g) with (g refs). cbv beta. apply all_runs_try_wrap. intros [e|services]; cbv iota beta.
  { eexists. split; [done|]. split; [by repeat constructor|]. done. }
  refine (all_runs_mono _ _ _ _ _ (delete_impacted_runs refs services _)).
  intros log' res (l & -> & Hl & Hres). rewrite <- app_assoc. eexists. split; [done|].
  split; [by apply Forall_app_2; [repeat constructor|]|].
  destruct Hres as [[-> Hd]|[e ->]]; [|done]. intros f' [= <-]. exists refs, services. split; [done|].
  split; [apply elem_of_app; left; by apply list_elem_of_singleton|].
  intros service ref Hs Hr Hm. apply elem_of_app. right. by eapply Hd.
Qed.

Lemma services_gone_app {k} `{RouteSource k} (resource : objT k) l1 l2 :
  services_gone resource l1 → services_gone resource (l1 ++ l2).
Proof.
  intros Hs f Hf. destruct (Hs f Hf) as (refs & services & H1 & H2 & H3). exists refs, services.
  split; [done|]. unfold deleted in *. setoid_rewrite elem_of_app. split; [by left|]. intros. left. by eapply H3.
Qed.

Lemma route_gone_app ns u l1 l2 : route_gone ns u l2 → route_gone ns u (l1 ++ l2).
Proof.
  unfold route_gone, deleted. setoid_rewrite elem_of_app.
  intros [(e & ? & ?)|(route & ? & ?)]; [left; exists e; auto|right; exists route; auto].
Qed.

(** Cleaning up an Ingress, Gateway, HTTPRoute or GRPCRoute gives its finalizer up
    last: whatever the API servers answer, the update that removes it is sent only after
    the Services that the CCM had created for its references were deleted and its Route
    was deleted or found to be gone; success means that the update was accepted, and
    the only way to panic is that collecting the references does. *)
Theorem cleanup_source_deletes_first {k} `{SourceLaws k} `{Finalizers} cluster (resource : objT k) :
  all_runs (cleanup_source cluster resource)
    (λ log res,
       (∀ l1 e l2 m, log = l1 ++ e :: l2 → source_update e = Some m →
          l2 = [] ∧ m = RemoveFinalizer (src_meta resource) ccmCleanupFinalizer ∧
          services_gone resource l1 ∧ route_gone cluster (uid (src_meta resource)) l1) ∧
       (∀ b, res = Done (inr b) →
          ∃ l1 o, log = l1 ++ [existT (Update k (without_source_finalizer resource)) (inr o)]) ∧
       (res = Panics → ∃ f, src_references = Some f ∧ f resource = Panics)) [].
Proof.
  unfold cleanup_source. apply all_runs_try. eapply all_runs_mono; [|apply cleanup_services_runs].
  intros log1 res1 (l1 & -> & Hl1 & Hres1). simpl app.
  destruct res1 as [[e|[]]|]; cbv beta iota.
  1: { split; [intros; by eapply absent_split|]. by split. }
  2: { split; [intros; by eapply absent_split|]. by split. }
  apply all_runs_try_wrap. eapply all_runs_mono; [|apply cleanupSourceRoute_runs].
  intros log2 res2 (l2 & -> & Hl2 & Hres2).
  assert (absent source_update (l1 ++ l2)) as Hno by by apply Forall_app_2.
  destruct Hres2 as [[-> Hg]|[e ->]]; cbv beta iota.
  2: { split; [intros; by eapply absent_split|]. by split. }
  assert (∀ a x e y m, (l1 ++ l2) ++ [existT (Update k (without_source_finalizer resource)) a] = x ++ e :: y →
    source_update e = Some m → y = [] ∧ m = RemoveFinalizer (src_meta resource) ccmCleanupFinalizer ∧
    services_gone resource x ∧ route_gone cluster (uid (src_meta resource)) x) as Hlast.
  { intros a x e y m Hl He. destruct (absent_snoc_split _ _ _ _ _ _ _ Hno Hl He) as (-> & -> & ->).
    rewrite source_update_sent in He. injection He as <-. unfold without_source_finalizer.
    rewrite src_meta_with. auto using services_gone_app, route_gone_app. }
  intros [e|o]; simpl; (split; [by apply Hlast|]); (split; [|done]); [done|].
  intros b _. by eexists _, o.
Qed.

(** ** The Route follows the object *)

Definition route_write (e : event) : option Route :=
  match e with existT (Create KRoute o) _ | existT (Update KRoute o) _ => Some o | _ => None end.
Definition route_stored (e : event) : option Route :=
  match e with
  | existT (Get KRoute _ _) (inr o) => Some o
  | existT (Create KRoute o) (inr _) | existT (Update KRoute o) (inr _) => Some o
  | _ => None
  end.

Lemma takes_route_None e : takes_route (projT1 e) = false → route_write e = None.
Proof. destruct e as [c a]. simpl. destruct c as [| |k o|k o| | | | | | | | | | | | | | | | | | | | |]; try done; by destruct k. Qed.

(** A Route that wraps an object, with Services that were read from the tenant's API
    server. *)
Definition wraps {k} `{SourceCodec k} `{Scheme} (cluster : string) (resource : objT k) (log : list event) (o : Route) : Prop :=
  ∃ u services, toUnstructured resource = inr u ∧ Forall (handed_on log) services ∧
    rt_spec o = rt_spec (GenerateRoute (NormalizeUnstructured u) services cluster) ∧
    labels (rt_meta o) = labels (rt_meta (GenerateRoute (NormalizeUnstructured u) services cluster)).

Section wrap_runs.
Context {k : Effects.kind} `{SourceCodec k} `{Scheme} `{SemanticDeepEqual ServiceSpec} `{SemanticDeepEqual (gomap string)}.

Lemma wraps_app cluster (resource : objT k) l1 l2 o : wraps cluster resource l1 o → wraps cluster resource (l1 ++ l2) o.
Proof. intros (u & services & H1' & H2' & H3'). exists u, services. split; [done|]. split; [by apply handed_on_app|done]. Qed.

(** The Route that is written, or found to be right. *)
Lemma CreateRoute_runs (u : Unstructured) services ns log :
  all_runs (CreateRouteForResource u services ns)
    (λ log' res, ∃ l, log' = log ++ l ∧
       let good o := rt_spec o = rt_spec (GenerateRoute u services ns) ∧
                     labels (rt_meta o) = labels (rt_meta (GenerateRoute u services ns)) in
       (∀ e o, e ∈ l → route_write e = Some o → good o) ∧
       (res = Done (inr ()) → ∃ e o, e ∈ l ∧ route_stored e = Some o ∧ good o)) log.
Proof.
  eapply all_runs_mono; [|apply create_or_update_runs]. intros log' r (l & o & -> & -> & Ha).
  exists l. split; [done|]. cbv zeta. split.
  - intros e o'. destruct Ha; rewrite ?elem_of_cons, ?elem_of_nil; intros Hin; decompose [or] Hin; subst; try done;
      by intros [= <-].
  - intros [= ->]. inversion Ha as [| |? ? _|x Hs| |x ? _]; subst.
    + eexists _, _. split; [apply elem_of_cons; right; by apply list_elem_of_singleton|done].
    + eexists _, x. split; [by apply list_elem_of_singleton|]. split; [done|].
      apply andb_prop in Hs as [[Hs Hl]%andb_prop _]. by apply bool_decide_eq_true in Hs, Hl.
    + eexists _, _. split; [apply elem_of_cons; right; by apply list_elem_of_singleton|done].
Qed.

Lemma reconcileSourceForRoute_runs cluster (resource : objT k) refs log :
  all_runs (reconcileSourceForRoute resource refs cluster)
    (λ log' res, ∃ l, log' = log ++ l ∧
       (∀ e o, e ∈ l → route_write e = Some o → wraps cluster resource l o) ∧
       (res = Done (inr ()) → ∃ e o, e ∈ l ∧ route_stored e = Some o ∧ wraps cluster resource l o)) log.
Proof.
  unfold reconcileSourceForRoute, ConvertObjectToUnstructured.
  destruct (toUnstructured resource) as [e|u] eqn:Hu.
  { exists []. rewrite app_nil_r. split; [done|]. split; [by intros ? ? ?%not_elem_of_nil|done]. }
  apply all_runs_try_wrap. cbv beta iota zeta. apply all_runs_try_wrap.
  pose proof (replicate_runs refs [] (List.Forall_nil _)) as Hrep.
  pose proof (only_calls_runs (λ c, takes_route c = false ∨ ∃ o, c = Create KService o ∨ c = Update KService o)
    (NormalizeAndReplicateServices refs) []) as Hcalls.
  specialize (Hcalls ltac:(apply NormalizeAndReplicateServices_calls; eauto)).
  refine (all_runs_mono _ _ _ _ _ (all_runs_shift _ _ log (all_runs_and _ _ _ _ Hrep Hcalls))).
  intros log1 r1 (l1 & -> & (_ & _ & o & -> & Hout) & (l1' & E & Hl1)). simpl in E. subst l1'.
  assert (absent route_write l1) as Hno.
  { eapply list.Forall_impl; [exact Hl1|]. intros [c a] [Hc|(o' & [Hc|Hc])]; simpl in Hc; [by apply takes_route_None|by subst..]. }
  destruct o as [e|services]; cbv beta iota.
  { exists l1. split; [done|]. split; [|done]. intros e' o' Hin Hw.
    rewrite (proj1 (list.Forall_forall _ _) Hno e' Hin) in Hw. done. }
  apply all_runs_try_wrap. eapply all_runs_mono; [|apply CreateRoute_runs].
  intros log2 r2 (l2 & -> & Hw & Hs).
  assert (∀ o, rt_spec o = rt_spec (GenerateRoute (NormalizeUnstructured u) services cluster) ∧
    labels (rt_meta o) = labels (rt_meta (GenerateRoute (NormalizeUnstructured u) services cluster)) →
    wraps cluster resource (l1 ++ l2) o) as Hgood.
  { intros o Ho. exists u, services. split; [done|]. split; [|done]. apply handed_on_app. by apply Hout. }
  assert (∀ e o, e ∈ l1 ++ l2 → route_write e = Some o → wraps cluster resource (l1 ++ l2) o) as Hwrites.
  { intros e o [Hin|Hin]%elem_of_app He; [|by apply Hgood, (Hw e)].
    rewrite (proj1 (list.Forall_forall _ _) Hno e Hin) in He. done. }
  destruct r2 as [[e|[]]|]; simpl; rewrite <- app_assoc; (eexists; split; [done|]; split; [done|]); [done| |done].
  intros _. destruct (Hs eq_refl) as (e & o & He & Ho & Hg). exists e, o. split; [apply elem_of_app; by right|].
  split; [done|]. by apply Hgood.
Qed.
End wrap_runs.

Lemma reconcile_source_runs {k} `{RouteSource k} `{SourceCodec k} `{Scheme} `{SemanticDeepEqual ServiceSpec}
    `{SemanticDeepEqual (gomap string)} cluster (resource : objT k) log :
  all_runs (reconcile_source cluster resource)
    (λ log' res, ∃ l, log' = log ++ l ∧
       (∀ e o, e ∈ l → route_write e = Some o → wraps cluster resource l o) ∧
       (res = Done (inr ()) → ∃ e o, e ∈ l ∧ route_stored e = Some o ∧ wraps cluster resource l o)) log.
Proof.
  unfold reconcile_source.
  destruct (match src_references with Some f => lift (f resource) | None => Ret [] end) as [refs| |c f] eqn:Hrefs.
  2: { exists []. rewrite app_nil_r. split; [done|]. split; [by intros ? ? ?%not_elem_of_nil|done]. }
  2: { exfalso. destruct src_references as [g|]; [|done]. by destruct (g resource). }
  change (Ret refs ≫= ?g) with (g refs). cbv beta. apply all_runs_try_wrap.
  eapply all_runs_mono; [|apply reconcileSourceForRoute_runs].
  intros log1 r1 (l1 & -> & Hw & Hs).
  destruct r1 as [[e|[]]|]; cbv beta iota; [exists l1; split; [done|by split]| |exists l1; split; [done|by split]].
  destruct (Hs eq_refl) as (e0 & o0 & He0 & Ho0 & Hg0).
  eapply all_runs_mono; [|apply (only_calls_runs (λ c, takes_route c = false)); unfold update_source_status; solve_calls].
  intros log2 r2 (l2 & -> & Hl2). rewrite <- app_assoc. eexists. split; [done|]. split.
  - intros e o [Hin|Hin]%elem_of_app He; [by eapply wraps_app, Hw|].
    rewrite (takes_route_None e) in He; [done|]. by apply (proj1 (list.Forall_forall _ _) Hl2 e).
  - intros _. exists e0, o0. split; [apply elem_of_app; by left|]. split; [done|]. by apply wraps_app.
Qed.

(** The object as the tenant's API server returned it. *)
Definition returned_source {k : Effects.kind} (log : list event) (resource : objT k) : Prop :=
  (∃ ns n, existT (Get k ns n) (inr resource) ∈ log) ∨ ∃ o, existT (Update k o) (inr resource) ∈ log.

(** There is nothing to wrap: the object is not there, is being deleted or is not the
    CCM's. *)
Definition nothing_to_wrap {k : Effects.kind} `{RouteSource k} (should : objT k → bool) (req : NamespacedName)
    (log : list event) : Prop :=
  (∃ e, IsNotFound e = true ∧ existT (Get k (nn_namespace req) (nn_name req)) (inl e) ∈ log) ∨
  ∃ resource, existT (Get k (nn_namespace req) (nn_name req)) (inr resource) ∈ log ∧
    (deletionTimestamp (src_meta resource) ≠ None ∨ should resource = false).

(** A synchronisation after the events [pre]. *)
Lemma wrap_after {k} `{RouteSource k} `{SourceCodec k} `{Scheme} `{SemanticDeepEqual ServiceSpec}
    `{SemanticDeepEqual (gomap string)} cluster should req (resource : objT k) (next : unit → prog (outcome bool)) pre :
  absent route_write pre → returned_source pre resource →
  (∀ u, only_calls (λ c, takes_route c = false) (next u)) →
  all_runs (_ <-! reconcile_source cluster resource ;; next ())
    (λ log res, (∀ e o, e ∈ log → route_write e = Some o →
         ∃ resource : objT k, returned_source log resource ∧ wraps cluster resource log o) ∧
       (res = Done (inr false) → nothing_to_wrap should req log ∨
         ∃ (resource : objT k) e o, returned_source log resource ∧ e ∈ log ∧ route_stored e = Some o ∧
           wraps cluster resource log o)) pre.
Proof.
  intros Hpre Hret Hnext. apply all_runs_try. eapply all_runs_mono; [|apply reconcile_source_runs].
  intros log1 r1 (l1 & -> & Hw & Hs).
  assert (∀ l2, returned_source (pre ++ l1 ++ l2) resource) as Hret'.
  { unfold returned_source in *. setoid_rewrite elem_of_app. naive_solver. }
  assert (∀ l o, wraps cluster resource l1 o → wraps cluster resource (pre ++ l1 ++ l) o) as Hgrow.
  { intros l o (u & services & H1' & H2' & H3'). exists u, services. split; [done|]. split; [|done].
    apply (Forall_impl _ _ _ H2'). intros s (x & (ns & n & Hx) & ->). exists x. split; [|done].
    exists ns, n. rewrite !elem_of_app. auto. }
  assert (∀ l2 e o, absent route_write l2 → e ∈ pre ++ l1 ++ l2 → route_write e = Some o →
    ∃ resource : objT k, returned_source (pre ++ l1 ++ l2) resource ∧ wraps cluster resource (pre ++ l1 ++ l2) o) as Hwr.
  { intros l2 e o Hl2 [Hin|[Hin|Hin]%elem_of_app]%elem_of_app He.
    - by rewrite (proj1 (list.Forall_forall _ _) Hpre e Hin) in He.
    - exists resource. split; [done|]. by eapply Hgrow, Hw.
    - by rewrite (proj1 (list.Forall_forall _ _) Hl2 e Hin) in He. }
  destruct r1 as [[e|[]]|]; cbv beta iota.
  1,3: rewrite <- (app_nil_r l1); split; [intros; eapply Hwr; [by constructor|done..]|done].
  destruct (Hs eq_refl) as (e0 & o0 & He0 & Ho0 & Hg0).
  eapply all_runs_mono; [|apply only_calls_runs, Hnext]. intros log2 r2 (l2 & -> & Hl2). rewrite <- app_assoc.
  assert (absent route_write l2) as Hno2.
  { eapply list.Forall_impl; [exact Hl2|]. intros e. apply takes_route_None. }
  split; [intros; by eapply Hwr|]. intros _. right. exists resource, e0, o0. split; [done|].
  split; [rewrite !elem_of_app; auto|]. split; [done|]. by apply Hgrow.
Qed.

(** C19: the Route follows the object.  For each of the four kinds, in every run of the
    controller, every Route that is written wraps the object as the tenant's API server
    returned it, normalised, with the labels that identify it and with Services that
    were read from that server; and when the controller reports success, there was
    nothing to wrap or the KubeLB cluster has such a Route. *)
Theorem ReconcileSource_wraps {k} `{SourceLaws k} `{SourceCodec k} `{Scheme} `{Finalizers}
    `{SemanticDeepEqual ServiceSpec} `{SemanticDeepEqual (gomap string)} cluster (should : objT k → bool) req :
  all_runs (ReconcileSource cluster should req)
    (λ log res, (∀ e o, e ∈ log → route_write e = Some o →
         ∃ resource : objT k, returned_source log resource ∧ wraps cluster resource log o) ∧
       (res = Done (inr false) → nothing_to_wrap should req log ∨
         ∃ (resource : objT k) e o, returned_source log resource ∧ e ∈ log ∧ route_stored e = Some o ∧
           wraps cluster resource log o)) [].
Proof.
  unfold ReconcileSource. apply all_runs_perform. intros a. set (e0 := existT (Get k _ _) a : event). simpl app.
  assert (absent route_write [e0]) as Hno by by repeat constructor.
  assert (∀ l e o (P : Prop), absent route_write l → e ∈ l → route_write e = Some o → P) as Hquiet.
  { intros l e o P Hl Hin He. by rewrite (proj1 (list.Forall_forall _ _) Hl e Hin) in He. }
  destruct a as [e|obj]; cbv iota beta.
  { destruct (IsNotFound e) eqn:He; (split; [intros; by eapply Hquiet|]); [|done].
    intros _. left. left. exists e. split; [done|]. by apply list_elem_of_singleton. }
  assert (∀ l, nothing_to_wrap should req ([e0] ++ l) ∨ (deletionTimestamp (src_meta obj) = None ∧ should obj = true)) as Hskip.
  { intros l. destruct (decide (deletionTimestamp (src_meta obj) = None)) as [Hd|Hd]; [destruct (should obj) eqn:Hs; [by right|]|];
      left; right; exists obj; (split; [by apply elem_of_cons; left|]); auto. }
  destruct (decide _) as [Hd|Hd].
  { destruct (ContainsFinalizer _ _).
    - eapply all_runs_mono; [|apply only_calls_runs, cleanup_source_takes_nothing].
      intros log res (l & -> & Hl). split; [|intros _; left; destruct (Hskip l) as [?|[? _]]; done].
      intros e o Hin He. eapply (Hquiet ([e0] ++ l) e o); [|done..]. apply Forall_app_2; [done|].
      eapply list.Forall_impl; [exact Hl|]. intros x. apply takes_route_None.
    - split; [intros; by eapply Hquiet|]. intros _. left. destruct (Hskip []) as [?|[? _]]; done. }
  destruct (should obj) eqn:Hshould; simpl negb; cbv iota.
  2: { split; [intros; by eapply Hquiet|]. intros _. left. destruct (Hskip []) as [?|[_ ?]]; done. }
  unfold ensure_source_finalizer. destruct (ContainsFinalizer (src_meta obj) ccmCleanupFinalizer).
  { refine (wrap_after cluster should req obj (λ _, _ ← perform (ListIn k _ ∅); ok false) [e0] _ _ _); [done| |done].
    left. eexists _, _. by apply list_elem_of_singleton. }
  destruct (AddFinalizer (src_meta obj) ccmCleanupFinalizer) as [m b].
  destruct (src_checked && negb b). { split; [intros; by eapply Hquiet|done]. }
  apply all_runs_try, all_runs_try_wrap. intros a.
  assert (absent route_write ([e0] ++ [existT (Update k (src_with_meta m obj)) a])) as Hno'.
  { apply Forall_app_2; [done|]. constructor; [|done]. apply takes_route_None, update_takes_nothing. }
  destruct a as [e|obj']. { split; [intros; by eapply Hquiet|done]. }
  refine (wrap_after cluster should req obj' (λ _, _ ← perform (ListIn k _ ∅); ok false) _ _ _ _); [done| |done].
  right. eexists. apply elem_of_app. right. by apply list_elem_of_singleton.
Qed.

(** ** Routes lead back to their objects *)

(** The labels of the Route of an object lead back to it: a change of the stored
    Route queues exactly that object in the controller of its kind, and nothing in the
    controllers of other kinds or of other tenants. *)
Theorem enqueueRoutes_mapped `{Scheme} u services ns route gvk cluster :
  namespace (u_meta u) ≠ "" → name (u_meta u) ≠ "" →
  namespace (rt_meta route) = ns → labels (rt_meta route) = labels (rt_meta (GenerateRoute u services ns)) →
  enqueueRoutes gvk cluster route =
    if decide (ns = cluster ∧ gvk = GroupKindString (GetGroupVersionKind (u_type u)))
    then [{| nn_namespace := namespace (u_meta u); nn_name := name (u_meta u) |}] else [].
Proof.
  intros Hns Hn <- Hl. unfold enqueueRoutes. rewrite Hl. simpl.
  destruct (decide (namespace (rt_meta route) ≠ cluster)) as [Hc|Hc].
  { rewrite decide_False; [done|]. tauto. }
  rewrite lookup_insert_eq, lookup_insert_ne, lookup_insert_eq by done.
  rewrite (lookup_insert_ne _ LabelOriginNamespace LabelOriginResourceKind), (lookup_insert_ne _ LabelOriginName LabelOriginResourceKind), lookup_insert_eq by done.
  destruct (namespace (u_meta u)) eqn:E1; [done|]. destruct (name (u_meta u)) eqn:E2; [done|].
  apply dec_stable in Hc. destruct (decide (gvk ≠ _)) as [Hg|Hg].
  - rewrite decide_False; [done|]. tauto.
  - apply dec_stable in Hg. by rewrite decide_True.
Qed.

Definition sample_scheme : Scheme :=
  {| GetGroupVersionKind t := {| gvk_group := "networking.k8s.io"; gvk_version := "v1"; gvk_kind := Core.kind t |};
     GroupKindString g := gvk_kind g +:+ "." +:+ gvk_group g;
     GroupVersionString g := gvk_group g +:+ "/" +:+ gvk_version g |}.

Lemma enqueueRoutes_mapped_witness :
  let scheme := sample_scheme in
  let u := {| u_type := {| apiVersion := "networking.k8s.io/v1"; Core.kind := "Ingress" |};
              u_meta := with_identity "web" "shop" "uid-1" zero_meta; u_spec := "" |} in
  enqueueRoutes "Ingress.networking.k8s.io" "tenant-a" (GenerateRoute (H := scheme) u [] "tenant-a") =
    [{| nn_namespace := "shop"; nn_name := "web" |}].
Proof.
  intros scheme u.
  rewrite (enqueueRoutes_mapped (H := scheme) u [] "tenant-a" (GenerateRoute (H := scheme) u [] "tenant-a")
    "Ingress.networking.k8s.io" "tenant-a" ltac:(discriminate) ltac:(discriminate) eq_refl eq_refl).
  rewrite decide_True by (split; reflexivity). reflexivity.
Defined.

(** ** The status *)

(** The marshalled status starts with a quote, or is null: it is never the text of the
    default status. *)
Lemma json_never_default raw : json_marshal_bytes raw ≠ DefaultRouteStatus.
Proof. unfold json_marshal_bytes. by destruct (decide (raw = "")). Qed.

(** The two API servers, with an Ingress that refers to Services that are not there, and
    its Route. *)
Definition ingress_and_route (s : Ingress * Route) (c : call) : (Ingress * Route) * resp c :=
  match c as c return (Ingress * Route) * resp c with
  | Get k _ _ =>
      (s, match k as k return error + objT k with
          | KIngress => inr s.1 | KRoute => inr s.2 | _ => inl (StatusError NotFound)
          end)
  | Update k o =>
      match k as k return objT k → (Ingress * Route) * (error + objT k) with
      | KIngress => λ o, ((o, s.2), inr o)
      | KRoute => λ o, ((s.1, o), inr o)
      | _ => λ o, (s, inr o)
      end o
  | StatusPatch k o _ =>
      match k as k return objT k → (Ingress * Route) * (error + objT k) with
      | KIngress => λ o, let i := with_in_status (in_status o) s.1 in ((i, s.2), inr i)
      | _ => λ o, (s, inr o)
      end o
  | c => (s, default_resp c)
  end.

Section erased.
Context `{SourceCodec KIngress} `{Scheme} `{Finalizers} `{SemanticDeepEqual ServiceSpec} `{SemanticDeepEqual (gomap string)}.

Lemma no_services_state refs s log :
  ∃ log', run ingress_and_route (NormalizeAndReplicateServices refs) s log = (s, log', Done (inr [])).
Proof.
  assert (∃ log', run ingress_and_route (collect_services refs [] []) s log = (s, log', Done (inr ([], [])))) as [log' E].
  { revert log. induction refs as [|ref refs IH]; intros log; [by eexists|]. apply IH. }
  unfold NormalizeAndReplicateServices. rewrite (run_try _ _ _ _ _ _ _ _ E). by eexists.
Qed.

Lemma route_written_state (u : Unstructured) services ns ing route log :
  ∃ log' route', run ingress_and_route (CreateRouteForResource u services ns) (ing, route) log =
    ((ing, route'), log', Done (inr ())) ∧ rt_status route' = rt_status route.
Proof.
  unfold CreateRouteForResource, CreateUpdateRoute, create_or_update, create_or_update_object. simpl.
  destruct (_ && _); simpl; by eexists _, _.
Qed.

Lemma wrapped_state ing route refs cluster u log :
  toUnstructured (k := KIngress) ing = inr u →
  ∃ log' route', run ingress_and_route (reconcileSourceForRoute (k := KIngress) ing refs cluster) (ing, route) log =
    ((ing, route'), log', Done (inr ())) ∧ rt_status route' = rt_status route.
Proof.
  intros Hu. unfold reconcileSourceForRoute, ConvertObjectToUnstructured. rewrite Hu.
  rewrite (run_try_wrap _ _ _ _ _ log (ing, route) log u) by done. cbv beta zeta.
  destruct (no_services_state refs (ing, route) log) as [log1 E1]. rewrite (run_try_wrap _ _ _ _ _ _ _ _ _ E1).
  destruct (route_written_state (NormalizeUnstructured u) [] cluster ing route log1) as (log2 & route' & E2 & Hs).
  rewrite (run_try_wrap _ _ _ _ _ _ _ _ _ E2). by eexists _, _.
Qed.
End erased.

Lemma erased_state `{SourceCodec KIngress} `{Scheme} `{SemanticDeepEqual ServiceSpec} `{SemanticDeepEqual (gomap string)}
    cluster ing route refs u empty log :
  GetServicesFromIngress ing = Done refs → toUnstructured (k := KIngress) ing = inr u →
  rs_generatedName (rrs_route (rt_status route)) ≠ "" →
  unmarshalStatus (k := KIngress) (rs_status (rrs_route (rt_status route))) = inr empty →
  ∃ log' route', run ingress_and_route (reconcile_source (k := KIngress) cluster ing) (ing, route) log =
    ((with_in_status empty ing, route'), log', Done (inr ())).
Proof.
  intros Hrefs Hu Hgen Hun. unfold reconcile_source. change (src_references (k := KIngress)) with
    (Some (GetServicesFromIngress : objT KIngress → _)). cbv iota. rewrite Hrefs. simpl lift.
  change (Ret refs ≫= ?g) with (g refs). cbv beta.
  destruct (wrapped_state ing route refs cluster u log Hu) as (log1 & route' & E1 & Hs).
  rewrite (run_try_wrap _ _ _ _ _ _ _ _ _ E1).
  rewrite (run_try_wrap _ _ _ _ _ _ (ing, route') _ route') by done. cbv beta zeta.
  rewrite Hs. destruct (decide (String.length _ = 0)) as [Hl|_].
  { by destruct (rs_generatedName (rrs_route (rt_status route))). }
  destruct (decide (json_marshal_bytes _ = _)) as [Hj|_]; [by apply json_never_default in Hj|].
  rewrite Hun. unfold update_source_status. simpl. destruct (decide (in_status ing = empty)) as [<-|Hne]; simpl.
  - eexists _, route'. by destruct ing.
  - by eexists _, route'.
Qed.

(** The controllers do not wait for the status.  The check for the default status
    compares the base 64 text of the raw status, which is never the default: as soon as
    the Route of a managed Ingress has a generated name, the status "{}" that the manager
    stores while the real one is not known is decoded and overwrites the status of the
    Ingress. *)
Theorem default_status_erases `{SourceCodec KIngress} `{Scheme} `{Finalizers} `{SemanticDeepEqual ServiceSpec}
    `{SemanticDeepEqual (gomap string)} r req ing route refs u empty :
  deletionTimestamp (in_meta ing) = None → shouldReconcileIngress r ing = true →
  ContainsFinalizer (in_meta ing) ccmCleanupFinalizer = true →
  GetServicesFromIngress ing = Done refs → toUnstructured (k := KIngress) ing = inr u →
  rs_generatedName (rrs_route (rt_status route)) ≠ "" →
  rs_status (rrs_route (rt_status route)) = DefaultRouteStatus →
  unmarshalStatus (k := KIngress) DefaultRouteStatus = inr empty →
  ∃ log route', run ingress_and_route (ReconcileIngress r req) (ing, route) [] =
    ((with_in_status empty ing, route'), log, Done (inr false)).
Proof.
  intros Hlive Hours Hfin Hrefs Hu Hgen Hst Hun. unfold ReconcileIngress, ReconcileSource.
  cbn [mbind prog_bind prog_bind_ perform run ingress_and_route fst snd].
  change (src_meta (k := KIngress) ing) with (in_meta ing). rewrite Hlive, decide_False, Hours by tauto.
  simpl negb. cbv iota. unfold ensure_source_finalizer. change (src_meta (k := KIngress) ing) with (in_meta ing).
  rewrite Hfin. rewrite (run_try _ _ _ _ _ (ing, route) _ (Some ing : option (objT KIngress))) by done. cbv iota.
  rewrite <- Hst in Hun.
  destruct (erased_state (igr_clusterName r) ing route refs u empty
    ([] ++ [existT (Get KIngress (nn_namespace req) (nn_name req)) (inr ing)]) Hrefs Hu Hgen Hun) as (log' & route' & E).
  rewrite (run_try _ _ _ _ _ _ _ _ E). by eexists _, route'.
Qed.

(** ** Ingresses that are valid but not expected *)

(** A rule without HTTP part, or a path without a Service: both are valid. *)
Definition unexpected_rule (rule : IngressRule) : Prop :=
  ir_http rule = None ∨ ∃ paths path, ir_http rule = Some paths ∧ path ∈ paths ∧ ib_service (hip_backend path) = None.

Lemma GetServicesFromIngress_panics ing rule :
  rule ∈ isp_rules (in_spec ing) → unexpected_rule rule → GetServicesFromIngress ing = Panics.
Proof.
  intros (j & Hj)%list_elem_of_lookup Hrule. unfold GetServicesFromIngress.
  destruct (go_map _ 0 (isp_rules (in_spec ing))) as [refs|] eqn:E; [|done].
  exfalso. apply go_map_Done in E as [_ E]. destruct (E j rule Hj) as (y & _ & Hy). simpl in Hy.
  destruct Hrule as [Hn|(paths & path & Hn & (i & Hi)%list_elem_of_lookup & Hb)]; rewrite Hn in Hy; [done|].
  apply go_map_Done in Hy as [_ Hy]. destruct (Hy i path Hi) as (z & _ & Hz).
  unfold path_reference in Hz. by rewrite Hb in Hz.
Qed.

Definition ingress_seen (e : event) : option Ingress :=
  match e with existT (Get KIngress _ _) (inr o) => Some o | _ => None end.

(** C38: an Ingress with a rule without HTTP part, or with a path to something else than
    a Service, cannot be deleted once the CCM has put its finalizer on it: every
    reconciliation of the deleted Ingress panics before anything is sent, whatever the
    API servers would answer, so that the finalizer stays. *)
Theorem unexpected_ingress_stuck `{SourceCodec KIngress} `{Scheme} `{Finalizers} `{SemanticDeepEqual ServiceSpec}
    `{SemanticDeepEqual (gomap string)} r req :
  all_runs (ReconcileIngress r req)
    (λ log res, ∀ e l ing rule, log = e :: l → ingress_seen e = Some ing →
       deletionTimestamp (in_meta ing) ≠ None → ContainsFinalizer (in_meta ing) ccmCleanupFinalizer = true →
       rule ∈ isp_rules (in_spec ing) → unexpected_rule rule → res = Panics ∧ l = []) [].
Proof.
  unfold ReconcileIngress, ReconcileSource. apply all_runs_perform. intros [e|ing]; cbv iota beta.
  { by destruct (IsNotFound e); intros ? ? ? ? [= <- <-]. }
  change (src_meta (k := KIngress) ing) with (in_meta ing). set (e0 := existT (Get KIngress _ _) (inr ing) : event).
  assert (∀ P, (deletionTimestamp (in_meta ing) ≠ None → ContainsFinalizer (in_meta ing) ccmCleanupFinalizer = true →
      ∀ rule, rule ∈ isp_rules (in_spec ing) → unexpected_rule rule → P) →
    ∀ l e l' ing' rule, [e0] ++ l = e :: l' → ingress_seen e = Some ing' → deletionTimestamp (in_meta ing') ≠ None →
      ContainsFinalizer (in_meta ing') ccmCleanupFinalizer = true → rule ∈ isp_rules (in_spec ing') →
      unexpected_rule rule → P) as Hsame.
  { intros P HP l e l' ing' rule [= <- <-] [= <-] H5 H6 H7 H8. by eapply HP. }
  destruct (decide _) as [Hdel|Hdel].
  - destruct (ContainsFinalizer (in_meta ing) ccmCleanupFinalizer) eqn:Hf.
    2: { intros ? ? ? ? [= <- <-] [= <-]. congruence. }
    destruct (GetServicesFromIngress ing) as [refs|] eqn:Hr.
    + eapply all_runs_mono; [|apply all_runs_prefix]. intros log res (l & ->) e l' ing' rule Hl Hi H5 H6 H7 H8.
      eapply Hsame; [|exact Hl|done..]. intros _ _ rule' Hin Hu.
      rewrite (GetServicesFromIngress_panics ing rule' Hin Hu) in Hr. discriminate.
    + unfold cleanup_source. change (src_references (k := KIngress)) with
        (Some (GetServicesFromIngress : objT KIngress → _)). cbv iota. rewrite Hr. simpl. by intros ? ? ? ? [= <- <-].
  - eapply all_runs_mono; [|apply all_runs_prefix]. intros log res (l & ->) e l' ing' rule Hl Hi H5 H6 H7 H8.
    eapply Hsame; [|exact Hl|done..]. tauto.
Qed.

(** ** Instances *)

Definition sample_ingress (rules : list IngressRule) (status : opaque) : Ingress :=
  {| in_type := {| apiVersion := "networking.k8s.io/v1"; Core.kind := "Ingress" |};
     in_meta := with_finalizers [ccmCleanupFinalizer] (with_identity "web" "shop" "uid-1" zero_meta);
     in_spec := {| isp_className := None; isp_defaultBackend := None; isp_tls := []; isp_rules := rules |};
     in_status := status |}.

Definition sample_unstructured (o : Ingress) : Unstructured :=
  {| u_type := in_type o; u_meta := in_meta o; u_spec := "" |}.
Definition sample_codec : SourceCodec KIngress :=
  {| toUnstructured := (λ o, inr (sample_unstructured o)) : objT KIngress → _; unmarshalStatus raw := inr (if decide (raw = "{}") then "" else raw) |}.

Definition service_spec_equality : SemanticDeepEqual ServiceSpec := λ a b, bool_decide (a = b).

Definition ingress_reconciler : IngressReconciler := {| igr_clusterName := "tenant-a"; igr_useIngressClass := false |}.
Definition ingress_request : NamespacedName := {| nn_namespace := "shop"; nn_name := "web" |}.

(** A Route whose object has been created, without a status so far. *)
Definition pending_route : Route :=
  {| rt_type := {| apiVersion := ""; Core.kind := "" |}; rt_meta := zero_meta;
     rt_spec := {| rsp_endpoints := []; rsp_kubernetes := None |};
     rt_status := {| rrs_source := ""; rrs_services := None;
                     rrs_route := {| rs_apiVersion := ""; rs_kind := ""; rs_name := ""; rs_namespace := "";
                                     rs_generatedName := "web-1234"; rs_status := "{}"; rs_conditions := [] |} |} |}.

Lemma default_status_erases_witness :
  ∃ log route', run ingress_and_route
    (ReconcileIngress (H := sample_scheme) (H0 := list_finalizers) (H1 := service_spec_equality) (H2 := semantic_by_contents)
       (H3 := sample_codec) ingress_reconciler ingress_request)
    (sample_ingress [] "203.0.113.9", pending_route) [] =
    ((sample_ingress [] "", route'), log, Done (inr false)).
Proof.
  exact (default_status_erases (H := sample_codec) (H0 := sample_scheme) (H1 := list_finalizers)
    (H2 := service_spec_equality) (H3 := semantic_by_contents) ingress_reconciler ingress_request
    (sample_ingress [] "203.0.113.9") pending_route [] (sample_unstructured (sample_ingress [] "203.0.113.9")) ""
    eq_refl eq_refl ltac:(computed) eq_refl eq_refl ltac:(discriminate) eq_refl eq_refl).
Defined.

Lemma ReconcileSource_finalizer_first_witness :
  all_runs (ReconcileSource (k := KIngress) (H0 := sample_codec) (H1 := sample_scheme) (H2 := list_finalizers)
              (H3 := service_spec_equality) (H4 := semantic_by_contents) "tenant-a" (λ _, true) ingress_request)
    (λ log _, guarded (H := list_finalizers) stored_source ccmCleanupFinalizer takes_route log) [].
Proof.
  exact (ReconcileSource_finalizer_first (k := KIngress) (H0 := ingress_laws) (H1 := sample_codec) (H2 := sample_scheme)
    (H4 := list_finalizers_laws) (H5 := service_spec_equality) (H6 := semantic_by_contents) "tenant-a" (λ _, true) ingress_request).
Defined.

Lemma ReconcileSource_wraps_witness :
  all_runs (ReconcileSource (k := KIngress) (H0 := sample_codec) (H1 := sample_scheme) (H2 := list_finalizers)
              (H3 := service_spec_equality) (H4 := semantic_by_contents) "tenant-a" (λ _, true) ingress_request)
    (λ log res, res = Done (inr false) → nothing_to_wrap (k := KIngress) (λ _, true) ingress_request log ∨
       ∃ (resource : objT KIngress) e o, returned_source log resource ∧ e ∈ log ∧ route_stored e = Some o ∧
         wraps (H := sample_codec) (H0 := sample_scheme) "tenant-a" resource log o) [].
Proof.
  refine (all_runs_mono _ _ _ _ (λ log res H, proj2 H)
    (ReconcileSource_wraps (k := KIngress) (H0 := ingress_laws) (H1 := sample_codec) (H2 := sample_scheme)
      (H3 := list_finalizers) (H4 := service_spec_equality) (H5 := semantic_by_contents) "tenant-a" (λ _, true) ingress_request)).
Defined.

Lemma cleanup_source_deletes_first_witness :
  all_runs (cleanup_source (k := KIngress) (H2 := list_finalizers) "tenant-a" (sample_ingress [] ""))
    (λ log _, ∀ l1 e l2 m, log = l1 ++ e :: l2 → source_update e = Some m →
       finalizers m = [] ∧ route_gone "tenant-a" "uid-1" l1) [].
Proof.
  refine (all_runs_mono _ _ _ _ _
    (cleanup_source_deletes_first (k := KIngress) (H0 := ingress_laws) (H1 := list_finalizers) "tenant-a" (sample_ingress [] ""))).
  intros log res [H _] l1 e l2 m Hl He. destruct (H l1 e l2 m Hl He) as (_ & -> & _ & Hr). split; [reflexivity|exact Hr].
Defined.
