(* ===== verification/SyncSecrets.v ===== *)
(** * Secrets: from the tenant's cluster to the KubeLB cluster

    A Secret of the tenant's cluster that carries the managed-by label is copied in three
    steps, by three controllers: the CCM converts it to a SyncSecret next to it
    (ccm/secret_conversion_controller.go), the CCM copies that SyncSecret into the
    tenant's namespace of the KubeLB cluster under its UID
    (ccm/sync_secret_controller.go), and the manager makes a Secret of it again
    (kubelb/sync_secret_controller.go). *)
From stdpp Require Import base gmap list strings.
From S2P Require Import Prelude GoStrings Api Names Annotations NetApi Effects Guards Predicates Objects Finalized ApiServer RouteResources LBController CCMService.
Import Core V1alpha1.

(** ** CreateOrUpdateSyncSecret *)

(** Which cluster a client talks to. *)
Inductive ctrlclient := TenantClient | LBClient.

Section secrets.
Context `{Finalizers} `{SemanticDeepEqual (gomap string)}.

Definition same_sync_secret (obj existing : SyncSecret) : bool :=
  semantic_deep_equal (syn_data existing) (syn_data obj) &&
  semantic_deep_equal (syn_stringData existing) (syn_stringData obj) &&
  bool_decide (syn_secretType existing = syn_secretType obj) &&
  semantic_deep_equal (labels (syn_meta existing)) (labels (syn_meta obj)) &&
  semantic_deep_equal (annotations (syn_meta existing)) (annotations (syn_meta obj)).

Definition versioned_sync_secret (obj existing : SyncSecret) : SyncSecret :=
  with_syn_meta (with_version (resourceVersion (syn_meta existing)) (uid (syn_meta existing)) (syn_meta obj)) obj.

Definition CreateOrUpdateSyncSecret (client : ctrlclient) (obj : SyncSecret) : prog (outcome unit) :=
  let ns := namespace (syn_meta obj) in
  let n := name (syn_meta obj) in
  match client with
  | TenantClient =>
      create_or_update KTenantSyncSecret ns n obj (same_sync_secret obj) (versioned_sync_secret obj)
        "failed to get SyncSecret" "failed to create SyncSecret" "failed to update SyncSecret"
  | LBClient =>
      create_or_update KSyncSecret ns n obj (same_sync_secret obj) (versioned_sync_secret obj)
        "failed to get SyncSecret" "failed to create SyncSecret" "failed to update SyncSecret"
  end.

(** ** The conversion (ccm/secret_conversion_controller.go) *)

(** [if labels == nil { labels = make(...) }], then the origin of the object. *)
Definition origin_labels (l : gomap string) (ns n : string) : gomap string :=
  Some (<[LabelOriginName := n]> (<[LabelOriginNamespace := ns]> (default ∅ l))).

Definition sync_secret_of (secret : Secret) : SyncSecret :=
  let m := sec_meta secret in
  {| syn_type := {| apiVersion := ""; Core.kind := "" |};
     syn_meta := with_labels (origin_labels (labels m) (namespace m) (name m))
                   (with_identity (name m) (namespace m) "" zero_meta);
     syn_immutable := sec_immutable secret;
     syn_data := sec_data secret;
     syn_stringData := sec_stringData secret;
     syn_secretType := sec_type secret |}.

Definition convert_secret (secret : Secret) : prog (outcome bool) :=
  _ <-! CreateOrUpdateSyncSecret TenantClient (sync_secret_of secret) ;; ok false.

Definition delete_converted (secret : Secret) : prog (outcome unit) :=
  delete_ignoring KTenantSyncSecret (namespace (sec_meta secret)) (name (sec_meta secret))
    (Wrapf "failed to delete Sync Secret").
Definition cleanup_converted (secret : Secret) : prog (outcome bool) :=
  _ <-! delete_converted secret ;; release (k:=KTenantSecret) ccmCleanupFinalizer secret.

Definition ReconcileSecretConversion (req : NamespacedName) : prog (outcome bool) :=
  reconcile_finalized (k:=KTenantSecret) ccmCleanupFinalizer cleanup_converted convert_secret req.

(** The controller only sees Secrets with the managed-by label. *)
Definition secretPredicate : Funcs ObjectMeta := ByLabel LabelManagedBy LabelControllerName.

(** ** The copy (ccm/sync_secret_controller.go) *)

Record SyncSecretReconciler := { ssr_clusterName : string }.

Definition lb_sync_secret (r : SyncSecretReconciler) (object : SyncSecret) : SyncSecret :=
  let m := syn_meta object in
  with_syn_meta
    {| name := uid m; namespace := ssr_clusterName r; uid := ""; resourceVersion := "";
       labels := origin_labels (labels m) (namespace m) (name m);
       annotations := annotations m; finalizers := [];
       deletionTimestamp := deletionTimestamp m; ownerReferences := ownerReferences m |} object.

Definition copy_sync_secret (r : SyncSecretReconciler) (object : SyncSecret) : prog (outcome bool) :=
  _ <-! CreateOrUpdateSyncSecret LBClient (lb_sync_secret r object) ;; ok false.

Definition delete_copied (r : SyncSecretReconciler) (object : SyncSecret) : prog (outcome unit) :=
  delete_ignoring KSyncSecret (ssr_clusterName r) (uid (syn_meta object)) (Wrapf "failed to delete object from LB cluster").
Definition cleanup_copied (r : SyncSecretReconciler) (object : SyncSecret) : prog (outcome bool) :=
  _ <-! delete_copied r object ;; release (k:=KTenantSyncSecret) ccmCleanupFinalizer object.

Definition ReconcileCCMSyncSecret (r : SyncSecretReconciler) (req : NamespacedName) : prog (outcome bool) :=
  reconcile_finalized (k:=KTenantSyncSecret) ccmCleanupFinalizer (cleanup_copied r) (copy_sync_secret r) req.

(** ** The Secret of the KubeLB cluster (kubelb/sync_secret_controller.go) *)

Definition same_secret (obj existing : Secret) : bool :=
  semantic_deep_equal (sec_data existing) (sec_data obj) &&
  semantic_deep_equal (sec_stringData existing) (sec_stringData obj) &&
  bool_decide (sec_type existing = sec_type obj) &&
  semantic_deep_equal (labels (sec_meta existing)) (labels (sec_meta obj)) &&
  semantic_deep_equal (annotations (sec_meta existing)) (annotations (sec_meta obj)).

Definition versioned_secret (obj existing : Secret) : Secret :=
  with_sec_meta (with_version (resourceVersion (sec_meta existing)) (uid (sec_meta existing)) (sec_meta obj)) obj.

Definition CreateOrUpdateSecret (obj : Secret) : prog (outcome unit) :=
  create_or_update KSecret (namespace (sec_meta obj)) (name (sec_meta obj)) obj (same_secret obj) (versioned_secret obj)
    "failed to get Secret" "failed to create Secret" "failed to update Secret".

Definition sync_secret_owner (object : SyncSecret) : OwnerReference :=
  {| or_apiVersion := apiVersion (syn_type object); or_kind := Core.kind (syn_type object);
     or_name := name (syn_meta object); or_uid := uid (syn_meta object); or_controller := None |}.

Definition secret_of (object : SyncSecret) : Secret :=
  let m := syn_meta object in
  {| sec_meta := with_owners [sync_secret_owner object]
                   (with_annotations (annotations m)
                     (with_labels (labels m) (with_identity (uid m) (namespace m) "" zero_meta)));
     sec_immutable := None;
     sec_data := syn_data object;
     sec_stringData := syn_stringData object;
     sec_type := syn_secretType object |}.

Definition create_secret (object : SyncSecret) : prog (outcome bool) :=
  _ <-! CreateOrUpdateSecret (secret_of object) ;; ok false.

Definition delete_secret (object : SyncSecret) : prog (outcome unit) :=
  delete_ignoring KSecret (namespace (syn_meta object)) (uid (syn_meta object)) (Wrapf "failed to delete secret from LB cluster").
Definition cleanup_secret (object : SyncSecret) : prog (outcome bool) :=
  _ <-! delete_secret object ;; release (k:=KSyncSecret) CleanupFinalizer object.

Definition ReconcileSyncSecret (req : NamespacedName) : prog (outcome bool) :=
  reconcile_finalized (k:=KSyncSecret) CleanupFinalizer cleanup_secret create_secret req.
End secrets.

(** ** Finalizers come first *)

(** the three controllers that carry a Secret to the KubeLB cluster never create or
    change a copy that they could not clean up: in every run, whatever the API servers
    answer, the copy is written only once the API server has the original with the
    cleanup finalizer. *)
Theorem secrets_finalizer_first `{FinalizerLaws} `{SemanticDeepEqual (gomap string)} r req :
  all_runs (ReconcileSecretConversion req)
    (λ log _, guarded (stored_meta_of KTenantSecret) ccmCleanupFinalizer (puts_kind KTenantSyncSecret) log) [] ∧
  all_runs (ReconcileCCMSyncSecret r req)
    (λ log _, guarded (stored_meta_of KTenantSyncSecret) ccmCleanupFinalizer (puts_kind KSyncSecret) log) [] ∧
  all_runs (ReconcileSyncSecret req)
    (λ log _, guarded (stored_meta_of KSyncSecret) CleanupFinalizer (puts_kind KSecret) log) [].
Proof.
  split_and!; apply frame_guarded; try done; intros o.
  - unfold cleanup_converted, delete_converted, release. solve_calls.
  - unfold cleanup_copied, delete_copied, release. solve_calls.
  - unfold cleanup_secret, delete_secret, release. solve_calls.
Qed.

(** ** The finalizer goes last *)

Lemma delete_then_release {k k' : Effects.kind} `{Finalizers} f ns n w (o : objT k) :
  k' ≠ k → all_runs (_ <-! delete_ignoring k' ns n w ;; release f o) (released_last f (gone k' ns n) o) [].
Proof.
  intros Hne. apply release_last.
  - apply only_calls_delete. simpl. by rewrite bool_decide_false.
  - eapply all_runs_mono; [|apply delete_ignoring_runs]. simpl.
    by intros log res (a & _ & [[-> ?]|[e ->]]).
Qed.

(** The three controllers give the finalizer of an original up last: no cleanup
    panics, the update that removes the finalizer is the last call and is sent only after
    the copy was deleted or found to be gone, and when cleanup reports success that
    update was accepted. *)
Theorem secrets_cleanup_deletes_first `{Finalizers} r (s : Secret) (o o' : SyncSecret) :
  all_runs (cleanup_converted s)
    (released_last (k:=KTenantSecret) ccmCleanupFinalizer
       (gone KTenantSyncSecret (namespace (sec_meta s)) (name (sec_meta s))) s) [] ∧
  all_runs (cleanup_copied r o)
    (released_last (k:=KTenantSyncSecret) ccmCleanupFinalizer
       (gone KSyncSecret (ssr_clusterName r) (uid (syn_meta o))) o) [] ∧
  all_runs (cleanup_secret o')
    (released_last (k:=KSyncSecret) CleanupFinalizer
       (gone KSecret (namespace (syn_meta o')) (uid (syn_meta o'))) o') [].
Proof. split_and!; by apply delete_then_release. Qed.

(** ** The whole way *)

(** What a copy has in common with the object it was made from. *)
Definition agrees_sync (d o : SyncSecret) : Prop :=
  contents (syn_data o) = contents (syn_data d) ∧ contents (syn_stringData o) = contents (syn_stringData d) ∧
  syn_secretType o = syn_secretType d ∧ contents (labels (syn_meta o)) = contents (labels (syn_meta d)) ∧
  contents (annotations (syn_meta o)) = contents (annotations (syn_meta d)).
Definition agrees_secret (d o : Secret) : Prop :=
  contents (sec_data o) = contents (sec_data d) ∧ contents (sec_stringData o) = contents (sec_stringData d) ∧
  sec_type o = sec_type d ∧ contents (labels (sec_meta o)) = contents (labels (sec_meta d)) ∧
  contents (annotations (sec_meta o)) = contents (annotations (sec_meta d)).

Section agreement.
Context `{SemanticMaps}.

Lemma same_sync_secret_agrees d o : same_sync_secret d o = true ↔ agrees_sync d o.
Proof.
  unfold same_sync_secret, agrees_sync.
  rewrite !andb_true_iff, !semantic_maps, bool_decide_eq_true. naive_solver.
Qed.
Lemma same_secret_agrees d o : same_secret d o = true ↔ agrees_secret d o.
Proof.
  unfold same_secret, agrees_secret.
  rewrite !andb_true_iff, !semantic_maps, bool_decide_eq_true. naive_solver.
Qed.
End agreement.

Lemma in_place_live {k : Effects.kind} w (d o : objT k) same old :
  in_place k w d same old o → (∀ x, old = Some x → live x) → live o.
Proof.
  intros Hin Hold. destruct Hin as [->|x -> ?|x -> ?]; unfold live, created, updated_from;
    rewrite ?meta_of_set; [done|by apply Hold|by apply Hold].
Qed.

Section stages.
Context `{FinalizerLaws} `{SemanticMaps} (r : SyncSecretReconciler).

Lemma in_place_agrees_sync w (d o : SyncSecret) old :
  in_place KTenantSyncSecret w d (same_sync_secret d) old o ∨ in_place KSyncSecret w d (same_sync_secret d) old o →
  agrees_sync d o.
Proof.
  intros [Hin|Hin]; destruct Hin as [|x _ Hs|x _ _]; try done; by apply same_sync_secret_agrees.
Qed.

Lemma fold_string_data_empty s :
  contents (sec_stringData s) = ∅ →
  contents (sec_data (fold_string_data s)) = contents (sec_data s) ∧ contents (sec_stringData (fold_string_data s)) = ∅ ∧
  sec_type (fold_string_data s) = sec_type s ∧ sec_meta (fold_string_data s) = sec_meta s.
Proof.
  unfold fold_string_data. destruct (sec_stringData s) as [m|] eqn:Hm; [|by rewrite Hm].
  intros E. change (m = ∅) in E. subst m. simpl. split; [|done]. apply (left_id_L ∅ (∪)).
Qed.

Lemma in_place_agrees_secret w (d o : Secret) old :
  contents (sec_stringData d) = ∅ → in_place KSecret w d (same_secret d) old o → agrees_secret d o.
Proof.
  intros Hd Hin. destruct Hin as [_|x _ Hs|x _ _]; [|by apply same_secret_agrees|].
  - destruct (fold_string_data_empty d Hd) as (? & ? & ? & ?). unfold agrees_secret. simpl. by rewrite Hd.
  - unfold updated_from. set (d' := set_meta (k:=KSecret) _ d).
    destruct (fold_string_data_empty d') as (? & ? & ? & ?); [done|]. unfold agrees_secret. simpl. by rewrite Hd.
Qed.

(** *** Secret to SyncSecret *)

Definition converted (ns n : string) (w : world) (s : Secret) (y : SyncSecret) : Prop :=
  objs w KTenantSecret !! (ns, n) = Some s ∧ live (k:=KTenantSecret) s ∧ ccmCleanupFinalizer ∈ finalizers (sec_meta s) ∧
  objs w KTenantSyncSecret !! (ns, n) = Some y ∧ live (k:=KTenantSyncSecret) y ∧ agrees_sync (sync_secret_of s) y.

(** The parts of a Secret that are carried over. *)
Definition same_payload (s s' : Secret) : Prop :=
  sec_data s' = sec_data s ∧ sec_type s' = sec_type s ∧ sec_stringData s' = sec_stringData s ∧
  labels (sec_meta s') = labels (sec_meta s).

Lemma under_finalizer_secret f w s s' w' :
  sec_stringData s = None → under_finalizer (k:=KTenantSecret) f w s s' w' → live (k:=KTenantSecret) s →
  same_payload s s' ∧ live (k:=KTenantSecret) s' ∧ f ∈ finalizers (sec_meta s').
Proof.
  intros Hs [Hf [[-> ->]| ->]] Hl; [done|]. split; [|by split].
  unfold same_payload. simpl. unfold fold_string_data. simpl. by rewrite Hs.
Qed.

Lemma conversion_stage w ns n s :
  let req := {| nn_namespace := ns; nn_name := n |} in
  filed w → objs w KTenantSecret !! (ns, n) = Some s → live (k:=KTenantSecret) s → sec_stringData s = None →
  (∀ y, objs w KTenantSyncSecret !! (ns, n) = Some y → live (k:=KTenantSyncSecret) y) →
  ∃ s' y, converted ns n (exec (ReconcileSecretConversion req) w) s' y ∧ same_payload s s' ∧
    objs (exec (ReconcileSecretConversion req) w) KSyncSecret = objs w KSyncSecret ∧
    objs (exec (ReconcileSecretConversion req) w) KSecret = objs w KSecret.
Proof.
  intros req Hw Hs Hl Hsd Hy. unfold exec, ReconcileSecretConversion.
  destruct (run_finalized (k:=KTenantSecret) ccmCleanupFinalizer cleanup_converted convert_secret req w [] s)
    as (w1 & log1 & s' & -> & Hst & Hu); [done|done|done|].
  pose proof (under_finalizer_key _ _ _ _ _ Hu) as Hkey. rewrite (Hw _ _ _ Hs) in Hkey. injection Hkey as Hns Hn.
  apply under_finalizer_secret in Hu as (Hp & Hl' & Hf); [|done|done].
  rewrite <- (stores_other _ _ _ _ _ KTenantSyncSecret Hst ltac:(done)) in Hy.
  unfold convert_secret, CreateOrUpdateSyncSecret. simpl namespace. simpl name. simpl in Hns, Hn. rewrite Hns, Hn.
  edestruct (run_create_or_update (k:=KTenantSyncSecret) w1 log1 ns n (sync_secret_of s')) as (w2 & log2 & y & Hrun & Hin & Hst2);
    [by unfold obj_key; simpl; rewrite Hns, Hn|done|done|exact Hy|].
  rewrite (run_try _ _ _ _ _ _ _ _ Hrun). simpl. exists s', y. split_and!; [|done|..].
  - split_and!; [|done|done|by apply stores_lookup in Hst2| |].
    + rewrite (stores_other _ _ _ _ _ KTenantSecret Hst2) by done. by apply stores_lookup in Hst.
    + by apply in_place_live in Hin.
    + by eapply in_place_agrees_sync; left.
  - rewrite (stores_other _ _ _ _ _ KSyncSecret Hst2), (stores_other _ _ _ _ _ KSyncSecret Hst) by done. done.
  - rewrite (stores_other _ _ _ _ _ KSecret Hst2), (stores_other _ _ _ _ _ KSecret Hst) by done. done.
Qed.

(** *** SyncSecret to SyncSecret *)

Definition copied (ns n : string) (w : world) (y z : SyncSecret) : Prop :=
  objs w KTenantSyncSecret !! (ns, n) = Some y ∧ live (k:=KTenantSyncSecret) y ∧ ccmCleanupFinalizer ∈ finalizers (syn_meta y) ∧
  objs w KSyncSecret !! (ssr_clusterName r, uid (syn_meta y)) = Some z ∧ live (k:=KSyncSecret) z ∧
  agrees_sync (lb_sync_secret r y) z.

Lemma under_finalizer_sync k f w (y y' : SyncSecret) w' :
  k = KTenantSyncSecret ∧ under_finalizer (k:=KTenantSyncSecret) f w y y' w' ∨
  k = KSyncSecret ∧ under_finalizer (k:=KSyncSecret) f w y y' w' →
  deletionTimestamp (syn_meta y) = None →
  agrees_sync y y' ∧ uid (syn_meta y') = uid (syn_meta y) ∧ syn_stringData y' = syn_stringData y ∧
  deletionTimestamp (syn_meta y') = None ∧ f ∈ finalizers (syn_meta y').
Proof. by intros [[-> [Hf [[-> ->]| ->]]]|[-> [Hf [[-> ->]| ->]]]] Hl; split_and!. Qed.

Lemma copy_stage w ns n y :
  let req := {| nn_namespace := ns; nn_name := n |} in
  filed w → objs w KTenantSyncSecret !! (ns, n) = Some y → live (k:=KTenantSyncSecret) y →
  (∀ key z, objs w KSyncSecret !! key = Some z → live (k:=KSyncSecret) z) →
  ∃ y' z, copied ns n (exec (ReconcileCCMSyncSecret r req) w) y' z ∧ agrees_sync y y' ∧
    uid (syn_meta y') = uid (syn_meta y) ∧
    objs (exec (ReconcileCCMSyncSecret r req) w) KTenantSecret = objs w KTenantSecret ∧
    objs (exec (ReconcileCCMSyncSecret r req) w) KSecret = objs w KSecret.
Proof.
  intros req Hw Hy Hl Hz. unfold exec, ReconcileCCMSyncSecret.
  destruct (run_finalized (k:=KTenantSyncSecret) ccmCleanupFinalizer (cleanup_copied r) (copy_sync_secret r) req w [] y)
    as (w1 & log1 & y' & -> & Hst & Hu); [done|done|done|].
  destruct (under_finalizer_sync KTenantSyncSecret ccmCleanupFinalizer w y y' w1) as (Ha & Hu' & _ & Hl' & Hf); [by left|done|].
  rewrite <- (stores_other _ _ _ _ _ KSyncSecret Hst ltac:(done)) in Hz.
  unfold copy_sync_secret, CreateOrUpdateSyncSecret. simpl namespace. simpl name.
  edestruct (run_create_or_update (k:=KSyncSecret) w1 log1 (ssr_clusterName r) (uid (syn_meta y')) (lb_sync_secret r y'))
    as (w2 & log2 & z & Hrun & Hin & Hst2); [done|done|done|exact (Hz _)|].
  rewrite (run_try _ _ _ _ _ _ _ _ Hrun). simpl. exists y', z. split_and!; [|done|done|..].
  - split_and!; [|done|done|by apply stores_lookup in Hst2| |].
    + rewrite (stores_other _ _ _ _ _ KTenantSyncSecret Hst2) by done. by apply stores_lookup in Hst.
    + apply in_place_live in Hin; [done|]. apply Hz.
    + by eapply in_place_agrees_sync; right.
  - rewrite (stores_other _ _ _ _ _ KTenantSecret Hst2), (stores_other _ _ _ _ _ KTenantSecret Hst) by done. done.
  - rewrite (stores_other _ _ _ _ _ KSecret Hst2), (stores_other _ _ _ _ _ KSecret Hst) by done. done.
Qed.

(** *** SyncSecret to Secret *)

Definition restored (ns n : string) (w : world) (z : SyncSecret) (c : Secret) : Prop :=
  objs w KSyncSecret !! (ns, n) = Some z ∧ live (k:=KSyncSecret) z ∧ CleanupFinalizer ∈ finalizers (syn_meta z) ∧
  objs w KSecret !! (ns, uid (syn_meta z)) = Some c ∧ agrees_secret (secret_of z) c.

Lemma restore_stage w ns n z :
  let req := {| nn_namespace := ns; nn_name := n |} in
  filed w → objs w KSyncSecret !! (ns, n) = Some z → live (k:=KSyncSecret) z → contents (syn_stringData z) = ∅ →
  (∀ key c, objs w KSecret !! key = Some c → live (k:=KSecret) c) →
  ∃ z' c, restored ns n (exec (ReconcileSyncSecret req) w) z' c ∧ agrees_sync z z' ∧ uid (syn_meta z') = uid (syn_meta z) ∧
    objs (exec (ReconcileSyncSecret req) w) KTenantSecret = objs w KTenantSecret ∧
    objs (exec (ReconcileSyncSecret req) w) KTenantSyncSecret = objs w KTenantSyncSecret ∧
    objs (exec (ReconcileSyncSecret req) w) KSecret = <[(ns, uid (syn_meta z)) := c]> (objs w KSecret).
Proof.
  intros req Hw Hz Hl Hsd Hc. unfold exec, ReconcileSyncSecret.
  destruct (run_finalized (k:=KSyncSecret) CleanupFinalizer cleanup_secret create_secret req w [] z)
    as (w1 & log1 & z' & -> & Hst & Hu); [done|done|done|].
  pose proof (under_finalizer_key _ _ _ _ _ Hu) as Hkey. rewrite (Hw _ _ _ Hz) in Hkey. injection Hkey as Hns Hn.
  destruct (under_finalizer_sync KSyncSecret CleanupFinalizer w z z' w1) as (Ha & Hu' & Hsd' & Hl' & Hf); [by right|done|].
  rewrite <- (stores_other _ _ _ _ _ KSecret Hst ltac:(done)) in Hc.
  unfold create_secret, CreateOrUpdateSecret. simpl namespace. simpl name. simpl in Hns. rewrite Hns.
  edestruct (run_create_or_update (k:=KSecret) w1 log1 ns (uid (syn_meta z')) (secret_of z'))
    as (w2 & log2 & c & Hrun & Hin & Hst2); [by unfold obj_key; simpl; rewrite Hns|done|done|exact (Hc _)|].
  rewrite (run_try _ _ _ _ _ _ _ _ Hrun). simpl. exists z', c. split_and!; [|done|done|..].
  - split_and!; [|done|done|by apply stores_lookup in Hst2|].
    + rewrite (stores_other _ _ _ _ _ KSyncSecret Hst2) by done. by apply stores_lookup in Hst.
    + eapply in_place_agrees_secret; [|done]. simpl. by rewrite Hsd'.
  - rewrite (stores_other _ _ _ _ _ KTenantSecret Hst2), (stores_other _ _ _ _ _ KTenantSecret Hst) by done. done.
  - rewrite (stores_other _ _ _ _ _ KTenantSyncSecret Hst2), (stores_other _ _ _ _ _ KTenantSyncSecret Hst) by done. done.
  - destruct Hst2 as [-> _]. by rewrite (stores_other _ _ _ _ _ KSecret Hst), Hu' by done.
Qed.

(** *** All three *)

(** The three controllers, one after the other, on the requests they get. *)
Definition replicate_secret (ns n : string) (w : world) : world :=
  let req := {| nn_namespace := ns; nn_name := n |} in
  let w1 := exec (ReconcileSecretConversion req) w in
  let w2 := exec (ReconcileCCMSyncSecret r req) w1 in
  match objs w2 KTenantSyncSecret !! (ns, n) with
  | None => w2
  | Some y => exec (ReconcileSyncSecret {| nn_namespace := ssr_clusterName r; nn_name := uid (syn_meta y) |}) w2
  end.

(** The Secret [c] of the KubeLB cluster is the copy of [s], through two SyncSecrets. *)
Definition replicated (ns n : string) (w : world) (s c : Secret) : Prop :=
  ∃ y z, converted ns n w s y ∧ copied ns n w y z ∧ restored (ssr_clusterName r) (uid (syn_meta y)) w z c.

Lemma agrees_sync_trans a b c : agrees_sync a b → agrees_sync b c → agrees_sync a c.
Proof. unfold agrees_sync. intros (-> & -> & -> & -> & ->) (-> & -> & -> & -> & ->). done. Qed.

Lemma replicate_secret_replicated w ns n s :
  filed w → objs w KTenantSecret !! (ns, n) = Some s → live (k:=KTenantSecret) s → sec_stringData s = None →
  (∀ key y, objs w KTenantSyncSecret !! key = Some y → live (k:=KTenantSyncSecret) y) →
  (∀ key z, objs w KSyncSecret !! key = Some z → live (k:=KSyncSecret) z) →
  (∀ key c, objs w KSecret !! key = Some c → live (k:=KSecret) c) →
  ∃ s' c, replicated ns n (replicate_secret ns n w) s' c ∧ same_payload s s'.
Proof.
  intros Hw Hs Hl Hsd Hy Hz Hc. unfold replicate_secret. cbv zeta.
  destruct (conversion_stage w ns n s) as (s' & y & Hconv & Hp & HZ1 & HC1); [done..|by apply Hy|].
  set (w1 := exec (ReconcileSecretConversion _) w) in *.
  destruct Hconv as (Hs1 & Hls & Hfs & Hy1 & Hly & Hay).
  destruct (copy_stage w1 ns n y) as (y' & z & Hcop & Hyy & Hu & HS2 & HC2); [by apply exec_filed|done|done|by rewrite HZ1|].
  set (w2 := exec (ReconcileCCMSyncSecret r _) w1) in *.
  destruct Hcop as (Hy2 & Hly' & Hfy & Hz2 & Hlz & Haz). rewrite Hy2.
  assert (contents (syn_stringData z) = ∅) as Hzsd.
  { destruct Haz as (_ & -> & _). simpl. destruct Hyy as (_ & -> & _). destruct Hay as (_ & -> & _). simpl.
    destruct Hp as (_ & _ & -> & _). by rewrite Hsd. }
  destruct (restore_stage w2 (ssr_clusterName r) (uid (syn_meta y')) z) as (z' & c & Hres & Hzz & Hu' & HS3 & HY3 & HC3);
    [by apply exec_filed, exec_filed|done|done|done|by rewrite HC2, HC1|].
  exists s', c. split; [|done]. exists y', z'. split_and!; [| |done].
  - split_and!; [by rewrite HS3, HS2|done|done|by rewrite HY3|done|]. by eapply agrees_sync_trans.
  - split_and!; [by rewrite HY3|done|done|by apply Hres|by apply Hres|]. by eapply agrees_sync_trans.
Qed.

Lemma conversion_settled w ns n s y :
  filed w → converted ns n w s y → exec (ReconcileSecretConversion {| nn_namespace := ns; nn_name := n |}) w = w.
Proof.
  intros Hw (Hs & Hls & Hfs & Hy & Hly & Hay). pose proof (Hw KTenantSecret _ _ Hs) as [= Hns Hn].
  unfold exec, ReconcileSecretConversion. rewrite (run_finalized_has (k:=KTenantSecret) _ _ _ _ w [] s) by done.
  unfold convert_secret, CreateOrUpdateSyncSecret. simpl namespace. simpl name. simpl in Hns, Hn. rewrite Hns, Hn.
  erewrite run_try; [done|]. eapply (run_create_or_update_same (k:=KTenantSyncSecret)); [done|]. by apply same_sync_secret_agrees.
Qed.

Lemma copy_settled w ns n y z :
  copied ns n w y z → exec (ReconcileCCMSyncSecret r {| nn_namespace := ns; nn_name := n |}) w = w.
Proof.
  intros (Hy & Hly & Hfy & Hz & Hlz & Haz).
  unfold exec, ReconcileCCMSyncSecret. rewrite (run_finalized_has (k:=KTenantSyncSecret) _ _ _ _ w [] y) by done.
  unfold copy_sync_secret, CreateOrUpdateSyncSecret. simpl namespace. simpl name.
  erewrite run_try; [done|]. eapply (run_create_or_update_same (k:=KSyncSecret)); [done|]. by apply same_sync_secret_agrees.
Qed.

Lemma restore_settled w ns n z c :
  filed w → restored ns n w z c → exec (ReconcileSyncSecret {| nn_namespace := ns; nn_name := n |}) w = w.
Proof.
  intros Hw (Hz & Hlz & Hfz & Hc & Hac). pose proof (Hw KSyncSecret _ _ Hz) as [= Hns Hn].
  unfold exec, ReconcileSyncSecret. rewrite (run_finalized_has (k:=KSyncSecret) _ _ _ _ w [] z) by done.
  unfold create_secret, CreateOrUpdateSecret. simpl namespace. simpl name. simpl in Hns. rewrite Hns.
  erewrite run_try; [done|]. eapply (run_create_or_update_same (k:=KSecret)); [done|]. by apply same_secret_agrees.
Qed.

(** A copy is made once: on a replicated Secret the three controllers only read. *)
Lemma replicated_settled w ns n s c : filed w → replicated ns n w s c → replicate_secret ns n w = w.
Proof.
  intros Hw (y & z & Hconv & Hcop & Hres). unfold replicate_secret. cbv zeta.
  rewrite (conversion_settled w ns n s y) by done. rewrite (copy_settled w ns n y z) by done.
  destruct Hcop as (Hy & _). rewrite Hy. by eapply restore_settled.
Qed.

Lemma replicate_secret_filed w ns n : filed w → filed (replicate_secret ns n w).
Proof.
  intros Hw. unfold replicate_secret. cbv zeta.
  destruct (objs _ KTenantSyncSecret !! _); auto using exec_filed.
Qed.

(** The copy has the data and the type of the original, and tells where it comes from. *)
Lemma replicated_copy w ns n s c :
  filed w → replicated ns n w s c →
  contents (sec_data c) = contents (sec_data s) ∧ sec_type c = sec_type s ∧
  contents (labels (sec_meta c)) !! LabelOriginName = Some n ∧
  contents (labels (sec_meta c)) !! LabelOriginNamespace = Some ns ∧
  ∃ key, objs w KSecret !! key = Some c ∧ key.1 = ssr_clusterName r.
Proof.
  intros Hw (y & z & (_ & _ & _ & _ & _ & Hay) & (Hy & _ & _ & _ & _ & Haz) & (_ & _ & _ & Hc & Hac)).
  pose proof (Hw KTenantSyncSecret _ _ Hy) as [= Hns Hn]. simpl in Hns, Hn.
  destruct Hac as (-> & _ & -> & -> & _). simpl. destruct Haz as (-> & _ & -> & -> & _). simpl.
  destruct Hay as (-> & _ & -> & _ & _). simpl. rewrite Hns, Hn. split_and!; [done|done|..].
  - by rewrite lookup_insert_eq.
  - rewrite lookup_insert_ne by done. by rewrite lookup_insert_eq.
  - by eexists.
Qed.
End stages.

(** C21: a Secret of the tenant's cluster arrives in the KubeLB cluster, and where routes
    look for it: after the conversion, the copy and the restoring controller ran, from
    any state of the two API servers in which no copy is being deleted, the tenant's
    namespace has a Secret with the same data and type; a route of the tenant that names
    the original is pointed to a Secret with that origin; and running the three
    controllers again changes nothing. *)
Theorem secret_replicated `{FinalizerLaws} `{SemanticMaps} r w ns n s :
  filed w → objs w KTenantSecret !! (ns, n) = Some s → live (k:=KTenantSecret) s → sec_stringData s = None →
  (∀ key y, objs w KTenantSyncSecret !! key = Some y → live (k:=KTenantSyncSecret) y) →
  (∀ key z, objs w KSyncSecret !! key = Some z → live (k:=KSyncSecret) z) →
  (∀ key c, objs w KSecret !! key = Some c → live (k:=KSecret) c) →
  let w' := replicate_secret r ns n w in
  (∃ key c, objs w' KSecret !! key = Some c ∧ key.1 = ssr_clusterName r ∧
     contents (sec_data c) = contents (sec_data s) ∧ sec_type c = sec_type s) ∧
  (∃ c, c ∈ do_list (k:=KSecret) w' (Some (ssr_clusterName r)) {[ LabelOriginName := n; LabelOriginNamespace := ns ]} ∧
     answer (GetSecretNameIfExists n ns (ssr_clusterName r)) w' = Done (name (sec_meta c))) ∧
  replicate_secret r ns n w' = w'.
Proof.
  intros Hw Hs Hl Hsd Hy Hz Hc w'.
  assert (filed w') as Hw' by by apply replicate_secret_filed.
  destruct (replicate_secret_replicated r w ns n s) as (s' & c & Hrep & (Hd & Ht & _)); [done..|].
  destruct (replicated_copy r w' ns n s' c Hw' Hrep) as (Hcd & Hct & Hn & Hns & key & Hkey & Hcl).
  split_and!.
  - exists key, c. by rewrite Hcd, Hct, Hd, Ht.
  - set (sel := {[LabelOriginName := n; LabelOriginNamespace := ns]} : gmap string string).
    assert (c ∈ do_list (k:=KSecret) w' (Some (ssr_clusterName r)) sel) as Hin.
    { apply list_elem_of_filter. split.
      - unfold selected. rewrite !bool_decide_true; [done| |].
        + apply map_subseteq_spec. intros i x. unfold sel. rewrite lookup_insert_Some, lookup_singleton_Some. naive_solver.
        + by pose proof (Hw' KSecret _ _ Hkey) as <-.
      - apply list_elem_of_fmap. exists (key, c). split; [done|]. by apply elem_of_map_to_list. }
    unfold answer, GetSecretNameIfExists. cbn [mbind prog_bind prog_bind_ perform run].
    fold sel. change (api_server w' (ListIn KSecret (Some (ssr_clusterName r)) sel))
      with (w', @inr error _ (do_list (k:=KSecret) w' (Some (ssr_clusterName r)) sel)).
    destruct (do_list _ _ _) as [|x l]; [by apply elem_of_nil in Hin|]. exists x. split; [by left|done].
  - by apply (replicated_settled r w' ns n s' c).
Qed.

(** A tenant's cluster with one labelled Secret. *)
Definition tls_secret : Secret :=
  {| sec_meta := with_labels (Some {[ LabelManagedBy := LabelControllerName ]})
                   (with_version "1" "uid-a" (with_identity "tls" "shop" "uid-a" zero_meta));
     sec_immutable := None; sec_data := Some {[ "tls.crt" := "cert"; "tls.key" := "key" ]};
     sec_stringData := None; sec_type := "kubernetes.io/tls" |}.
Definition tls_world : world := set_objs KTenantSecret {[ ("shop", "tls") := tls_secret ]} empty_world.

Lemma tls_world_filed : filed tls_world.
Proof.
  apply (filed_set empty_world KTenantSecret {[ ("shop", "tls") := tls_secret ]}).
  - intros k key o. simpl. by rewrite lookup_empty.
  - intros key o [<- <-]%lookup_singleton_Some. done.
Qed.

Lemma secret_replicated_witness :
  ∃ key c,
    objs (@replicate_secret list_finalizers semantic_by_contents {| ssr_clusterName := "tenant-a" |} "shop" "tls" tls_world)
      KSecret !! key = Some c ∧ key.1 = "tenant-a" ∧
    contents (sec_data c) = contents (sec_data tls_secret) ∧ sec_type c = sec_type tls_secret.
Proof.
  assert (∀ k, k ≠ KTenantSecret → objs tls_world k = ∅) as Hempty.
  { intros k Hk. unfold tls_world. by rewrite objs_set_ne. }
  apply (@secret_replicated list_finalizers list_finalizers_laws semantic_by_contents semantic_by_contents_maps
    {| ssr_clusterName := "tenant-a" |} tls_world "shop" "tls" tls_secret).
  - exact tls_world_filed.
  - unfold tls_world. rewrite objs_set. apply lookup_singleton_eq.
  - reflexivity.
  - reflexivity.
  - intros key y. by rewrite Hempty, lookup_empty.
  - intros key y. by rewrite Hempty, lookup_empty.
  - intros key y. by rewrite Hempty, lookup_empty.
Defined.

(** The copy, as it is computed. *)
Example tls_copied :
  sec_data <$> (map_to_list (objs (@replicate_secret list_finalizers semantic_by_contents
    {| ssr_clusterName := "tenant-a" |} "shop" "tls" tls_world) KSecret)).*2 = [sec_data tls_secret].
Proof. vm_compute. reflexivity. Qed.

(** ** What goes wrong *)

(** a SyncSecret that uses [stringData] never settles: the API server stores the
    Secret with [stringData] folded into [data], the comparison looks at both fields, and
    so every reconciliation of an unchanged SyncSecret writes the Secret again. *)
Theorem stringData_never_settles `{SemanticMaps} (w : world) (object : SyncSecret) (stored : Secret) log :
  contents (syn_stringData object) ≠ ∅ → filed w →
  objs w KSecret !! (namespace (syn_meta object), uid (syn_meta object)) = Some stored →
  live (k:=KSecret) stored → sec_stringData stored = None →
  let obj := secret_of object in
  ∃ w' log', run api_server (CreateOrUpdateSecret obj) w log = (w', log', Done (inr ())) ∧
    log' = log ++ [existT (Get KSecret (namespace (syn_meta object)) (uid (syn_meta object))) (inr stored);
                   existT (Update KSecret (versioned_secret obj stored)) (inr (updated_from (k:=KSecret) w stored (versioned_secret obj stored)))] ∧
    ∃ stored', objs w' KSecret !! (namespace (syn_meta object), uid (syn_meta object)) = Some stored' ∧
      live (k:=KSecret) stored' ∧ sec_stringData stored' = None.
Proof.
  intros Hsd Hw Hst Hl Hnone obj. unfold CreateOrUpdateSecret, create_or_update, create_or_update_object.
  change (namespace (sec_meta obj)) with (namespace (syn_meta object)). change (name (sec_meta obj)) with (uid (syn_meta object)).
  assert (same_secret obj stored = false) as Hs.
  { apply not_true_iff_false. rewrite same_secret_agrees. intros (_ & E & _). rewrite Hnone in E. by apply Hsd. }
  destruct (do_update_stores (k:=KSecret) w (namespace (syn_meta object), uid (syn_meta object)) stored (versioned_secret obj stored))
    as (w' & Hrun & Hst'); [done..|].
  cbn [mbind prog_bind prog_bind_ perform run]. rewrite (api_get (k:=KSecret) w _ _ stored Hst), Hs. cbn [prog_bind_ run].
  change (api_server w (Update KSecret (versioned_secret obj stored))) with (do_update (k:=KSecret) w (versioned_secret obj stored)).
  rewrite Hrun. cbn [prog_bind_ run]. eexists w', _. split; [done|]. split; [by rewrite <- app_assoc|].
  eexists. split; [by apply stores_lookup in Hst'|]. split; [done|].
  unfold updated_from. simpl. unfold fold_string_data. simpl. by destruct (syn_stringData object) eqn:E.
Qed.

(** The CCM sends its copy with an empty list of finalizers, and so takes the manager's
    finalizer off the SyncSecret of the KubeLB cluster: when that SyncSecret is being
    deleted, an update by the CCM removes it before the manager has deleted the Secret. *)
Theorem copy_strips_finalizer `{SemanticMaps} r (w : world) (y z : SyncSecret) log :
  objs w KSyncSecret !! (ssr_clusterName r, uid (syn_meta y)) = Some z →
  same_sync_secret (lb_sync_secret r y) z = false →
  deletionTimestamp (syn_meta z) ≠ None → CleanupFinalizer ∈ finalizers (syn_meta z) →
  ∃ w' log', run api_server (CreateOrUpdateSyncSecret LBClient (lb_sync_secret r y)) w log = (w', log', Done (inr ())) ∧
    objs w' KSyncSecret !! (ssr_clusterName r, uid (syn_meta y)) = None ∧ objs w' KSecret = objs w KSecret.
Proof.
  intros Hz Hs Hd Hf. unfold CreateOrUpdateSyncSecret, create_or_update, create_or_update_object.
  cbn [mbind prog_bind prog_bind_ perform run]. simpl namespace. simpl name.
  rewrite (api_get (k:=KSyncSecret) w _ _ z Hz), Hs. cbn [prog_bind_ run].
  set (o := versioned_sync_secret (lb_sync_secret r y) z).
  destruct (do_update_removes (k:=KSyncSecret) w (ssr_clusterName r, uid (syn_meta y)) z o) as (w' & Hrun & Hk & Hother); [done..|].
  change (api_server w (Update KSyncSecret o)) with (do_update (k:=KSyncSecret) w o). rewrite Hrun. cbn [prog_bind_ run].
  eexists w', _. split; [done|]. split; [rewrite Hk; apply lookup_delete_eq|by apply Hother].
Qed.

(** A Secret that has lost the label is not cleaned up: no event of its deletion reaches
    the controller that holds the finalizer. *)
Lemma unlabelled_secret_unseen (old new : ObjectMeta) :
  contents (labels old) !! LabelManagedBy = None → contents (labels new) !! LabelManagedBy = None →
  passes secretPredicate (UpdateEvent old new) = false.
Proof.
  intros Ho Hn. apply ByLabel_drops; apply not_true_iff_false; rewrite has_value_spec; congruence.
Qed.
