(* ===== verification/Permissions.v ===== *)
(** * What a tenant may do in the KubeLB cluster

    The CCM of a tenant talks to the KubeLB cluster with the service account that the
    tenant controller made for it.  Every call that the controllers of the CCM make there
    is covered by the role of that account, in the tenant's namespace: the role is enough,
    and the CCM of one tenant never asks for an object of another. *)
From stdpp Require Import base gmap list strings.
From S2P Require Import Prelude GoStrings GoEncoding Api Names Annotations LoadBalancers NetApi Effects Guards Objects Finalized Services RouteResources LBController TenantController Routes CCMNode CCMService CCMSources SyncSecrets.
Import Core V1alpha1.

(** ** Requests and rules *)

(** The resources of the KubeLB cluster; the other kinds a CCM uses are its own cluster's. *)
Definition resource_of (k : Effects.kind) : option string :=
  match k with
  | KLoadBalancer => Some "loadbalancers"
  | KRoute => Some "routes"
  | KAddresses => Some "addresses"
  | KSyncSecret => Some "syncsecrets"
  | KTenantState => Some "tenantstates"
  | KSecret => Some "secrets"
  | KTenant => Some "tenants"
  | KConfig => Some "configs"
  | _ => None
  end.

(** Namespace, resource and verb of a call to the KubeLB cluster; a list over all
    namespaces has none. *)
Definition request (c : call) : option (option string * string * string) :=
  match c with
  | Get k ns _ => (λ res, (Some ns, res, "get")) <$> resource_of k
  | ListIn k ns _ => (λ res, (ns, res, "list")) <$> resource_of k
  | Create k o => (λ res, (Some (namespace (meta_of o)), res, "create")) <$> resource_of k
  | Update k o => (λ res, (Some (namespace (meta_of o)), res, "update")) <$> resource_of k
  | StatusUpdate k o => (λ res, (Some (namespace (meta_of o)), res +:+ "/status", "update")) <$> resource_of k
  | StatusPatch k o _ => (λ res, (Some (namespace (meta_of o)), res +:+ "/status", "patch")) <$> resource_of k
  | Delete k ns _ => (λ res, (Some ns, res, "delete")) <$> resource_of k
  | DeleteAllOf k ns => (λ res, (Some ns, res, "deletecollection")) <$> resource_of k
  | Ensure k ns _ _ | CreateOrUpdate k ns _ _ => (λ res, (Some ns, res, "*")) <$> resource_of k
  | _ => None
  end.

(** RBAC: a rule that has the group, the resource and the verb. *)
Definition granted (rules : list PolicyRule) (res verb : string) : bool :=
  existsb (λ rule, bool_decide ("kubelb.k8c.io" ∈ pol_apiGroups rule) && bool_decide (res ∈ pol_resources rule) &&
                   bool_decide (verb ∈ pol_verbs rule)) rules.

Definition permitted (rules : list PolicyRule) (ns : string) (c : call) : Prop :=
  match request c with
  | None => True
  | Some (ns', res, verb) => ns' = Some ns ∧ granted rules res verb = true
  end.

(** ** Calls under honest answers *)

(** An API server that is asked for an object answers with that object. *)
Definition honest (c : call) : resp c → Prop :=
  match c as c return resp c → Prop with
  | Get k ns n => λ r, match r with inr o => namespace (meta_of o) = ns | inl _ => True end
  | _ => λ _, True
  end.

Fixpoint honest_calls {A} (P : call → Prop) (p : prog A) : Prop :=
  match p with
  | Ret _ | Crash => True
  | Do c f => P c ∧ ∀ r, honest c r → honest_calls P (f r)
  end.

Section honest_calls.
Context (P : call → Prop).

Lemma honest_only {A} (p : prog A) : only_calls P p → honest_calls P p.
Proof. induction p as [a| |c f IH]; simpl; [done|done|]. intros [Hc Hf]. split; [done|]. intros r _. by apply IH. Qed.

Lemma honest_bind {A B} (p : prog A) (f : A → prog B) :
  honest_calls P p → (∀ a, honest_calls P (f a)) → honest_calls P (p ≫= f).
Proof.
  intros Hp Hf. induction p as [a| |c g IH]; simpl in *; [apply Hf|done|].
  destruct Hp as [Hc Hg]. split; [done|]. intros r Hr. by apply IH, Hg.
Qed.

Lemma honest_perform {B} c (f : resp c → prog B) :
  P c → (∀ a, honest c a → honest_calls P (f a)) → honest_calls P (perform c ≫= f).
Proof. by split. Qed.

Lemma honest_try {A B} (p : prog (outcome A)) (f : A → prog (outcome B)) :
  honest_calls P p → (∀ a, honest_calls P (f a)) → honest_calls P (try p f).
Proof. intros. unfold try. apply honest_bind; [done|]. intros [e|a]; [done|auto]. Qed.

Lemma honest_try_wrap {A B} msg (p : prog (outcome A)) (f : A → prog (outcome B)) :
  honest_calls P p → (∀ a, honest_calls P (f a)) → honest_calls P (try_wrap msg p f).
Proof. intros. unfold try_wrap. apply honest_bind; [done|]. intros [e|a]; [done|auto]. Qed.

Lemma honest_create_or_update k ns n d same upd m1 m2 m3 :
  P (Get k ns n) → P (Create k d) → (∀ x, namespace (meta_of x) = ns → P (Update k (upd x))) →
  honest_calls P (create_or_update k ns n d same upd m1 m2 m3).
Proof.
  intros Hg Hc Hu. unfold create_or_update, create_or_update_object. apply honest_bind; [|done].
  apply honest_perform; [done|]. intros [e|x] Hx.
  - destruct (IsNotFound e); [|done]. by apply honest_perform.
  - destruct (same x); [done|]. apply honest_perform; [by apply Hu|done].
Qed.
End honest_calls.

Lemma honest_mono {A} (P Q : call → Prop) (p : prog A) : (∀ c, P c → Q c) → honest_calls P p → honest_calls Q p.
Proof. intros HPQ. induction p as [a| |c k IH]; simpl; [done|done|]. intros [Hc Hk]. split; [auto|]. intros r Hr. by apply IH, Hk. Qed.

(** ** The controllers of the CCM *)

Section ccm.
Context `{Unicode} `{Finalizers} `{SemanticDeepEqual (gomap string)} `{SemanticDeepEqual ServiceSpec} (cluster : string).
Abbreviation allowed := (permitted tenant_rules cluster).

Lemma node_permitted r : nr_clusterName r = cluster → honest_calls allowed (ReconcileNode r).
Proof.
  intros <-. unfold ReconcileNode. apply honest_perform; [done|]. intros [e|nodes] _; [done|].
  destruct (GenerateAddresses r nodes) as [e|a] eqn:Ha; [done|].
  assert (namespace (ad_meta a) = nr_clusterName r) as Hns.
  { unfold GenerateAddresses in Ha. destruct (foldl _ _ _) as [l b]. destruct (negb b); [done|]. by injection Ha as <-. }
  apply honest_perform; [done|]. intros [e|x] Hx.
  - destruct (IsNotFound e); [|done]. apply honest_perform; [|done]. unfold permitted. simpl. by rewrite Hns.
  - case_decide; [done|]. apply honest_perform; [|done]. unfold permitted. simpl. simpl in Hx. by rewrite Hx.
Qed.

Lemma service_permitted r req : sr_clusterName r = cluster → honest_calls allowed (ReconcileService r req).
Proof.
  intros <-. unfold ReconcileService. apply honest_perform; [done|]. intros [e|svc] _; [done|].
  case_decide.
  { destruct (_ || _); [|done]. apply honest_only. unfold cleanupService. by solve_calls. }
  destruct (negb _); [done|]. apply honest_try; [apply honest_only; unfold ensure_service_finalizer; by solve_calls|].
  intros [svc'|]; [|done]. unfold sync_load_balancer. destruct (getServiceEndpoints r svc') as [eps b].
  destruct (MapLoadBalancer svc' eps b (sr_clusterName r)) as [lb svc2] eqn:Hm.
  assert (namespace (lb_meta lb) = sr_clusterName r) as Hns by by (unfold MapLoadBalancer in Hm; injection Hm as <- _).
  apply honest_perform; [unfold permitted; simpl; by rewrite Hns|]. intros [e|x] Hx.
  - destruct (IsNotFound e); [|done]. apply honest_only. unfold updateManagedServicesGauge. solve_calls.
    unfold permitted. simpl. by rewrite Hns.
  - apply honest_try.
    { apply honest_only. destruct (_ && _); [|done]. unfold update_service_status. by solve_calls. }
    intros _. apply honest_only. unfold updateManagedServicesGauge. solve_calls.
    unfold permitted. simpl. simpl in Hx. by rewrite Hx, Hns.
Qed.

(** The four route controllers, for a kind of the tenant's own cluster. *)
Lemma source_permitted {k} `{RouteSource k} `{SourceCodec k} `{Scheme} (should : objT k → bool) req :
  resource_of k = None → honest_calls allowed (ReconcileSource cluster should req).
Proof.
  intros Hk.
  assert (∀ ns n, allowed (Get k ns n)) as Hget by (intros; unfold permitted; simpl; by rewrite Hk).
  assert (∀ o, allowed (Update k o)) as Hup by (intros; unfold permitted; simpl; by rewrite Hk).
  assert (∀ o o', allowed (StatusPatch k o o')) as Hpatch by (intros; unfold permitted; simpl; by rewrite Hk).
  assert (∀ ns sel, allowed (ListIn k ns sel)) as Hlist by (intros; unfold permitted; simpl; by rewrite Hk).
  unfold ReconcileSource. apply honest_perform; [done|]. intros [e|obj] _; [by destruct (IsNotFound e)|].
  case_decide.
  { destruct (ContainsFinalizer _ _); [|done]. unfold cleanup_source. apply honest_try.
    { apply honest_only. destruct src_references; [|done]. solve_calls. by apply delete_impacted_calls. }
    intros _. apply honest_try_wrap; [|intros _; apply honest_only; by solve_calls].
    unfold cleanupSourceRoute. apply honest_perform; [done|]. intros [e|x] Hx; [by destruct (IsNotFound e)|].
    apply honest_perform; [|by intros [e|] _]. simpl in Hx. unfold permitted. simpl. by rewrite Hx. }
  destruct (negb _); [done|].
  apply honest_try; [apply honest_only; unfold ensure_source_finalizer; by solve_calls|].
  intros [obj'|]; [|done]. apply honest_try; [|intros _; apply honest_only; by solve_calls].
  unfold reconcile_source. apply honest_bind; [apply honest_only; by destruct src_references; solve_calls|].
  intros refs. apply honest_try_wrap.
  - unfold reconcileSourceForRoute. apply honest_try_wrap; [done|]. intros u.
    apply honest_try_wrap; [apply honest_only, NormalizeAndReplicateServices_calls; done|]. intros services.
    apply honest_try_wrap; [|done]. unfold CreateRouteForResource, CreateUpdateRoute.
    apply honest_create_or_update; [done|done|]. intros x Hx. unfold permitted. simpl in Hx |- *. by rewrite Hx.
  - intros _. apply honest_only. unfold update_source_status. by solve_calls.
Qed.

Lemma secret_permitted req : honest_calls allowed (ReconcileSecretConversion req).
Proof.
  apply honest_only. unfold ReconcileSecretConversion, reconcile_finalized, cleanup_converted, delete_converted, release,
    convert_secret, CreateOrUpdateSyncSecret. by solve_calls.
Qed.

Lemma sync_secret_permitted r req : ssr_clusterName r = cluster → honest_calls allowed (ReconcileCCMSyncSecret r req).
Proof.
  intros <-. apply honest_only. unfold ReconcileCCMSyncSecret, reconcile_finalized, cleanup_copied, delete_copied, release,
    copy_sync_secret, CreateOrUpdateSyncSecret. by solve_calls.
Qed.
End ccm.

(** the role that the tenant controller gives the CCM is enough and keeps the tenants
    apart: in every run of the node, Service, Ingress, Gateway, HTTPRoute, GRPCRoute and
    Secret controllers of a CCM for the namespace [cluster], against API servers that
    answer a get with the object asked for, each call to the KubeLB cluster is for an object
    in that namespace and its resource and verb are granted by the rules of the role. *)
Theorem ccm_within_role `{Unicode} `{Finalizers} `{SemanticDeepEqual (gomap string)} `{SemanticDeepEqual ServiceSpec} `{Scheme}
    `{SourceCodec KIngress} `{SourceCodec KGateway} `{SourceCodec KHTTPRoute} `{SourceCodec KGRPCRoute}
    cluster req nodeType cloudController useClass shouldI shouldG shouldH shouldR :
  honest_calls (permitted tenant_rules cluster) (ReconcileNode {| nr_clusterName := cluster; nr_endpointAddressType := nodeType |}) ∧
  honest_calls (permitted tenant_rules cluster)
    (ReconcileService {| sr_clusterName := cluster; sr_cloudController := cloudController; sr_useLoadbalancerClass := useClass |} req) ∧
  honest_calls (permitted tenant_rules cluster) (ReconcileSource (k:=KIngress) cluster shouldI req) ∧
  honest_calls (permitted tenant_rules cluster) (ReconcileSource (k:=KGateway) cluster shouldG req) ∧
  honest_calls (permitted tenant_rules cluster) (ReconcileSource (k:=KHTTPRoute) cluster shouldH req) ∧
  honest_calls (permitted tenant_rules cluster) (ReconcileSource (k:=KGRPCRoute) cluster shouldR req) ∧
  honest_calls (permitted tenant_rules cluster) (ReconcileSecretConversion req) ∧
  honest_calls (permitted tenant_rules cluster) (ReconcileCCMSyncSecret {| ssr_clusterName := cluster |} req).
Proof.
  split_and!; [by apply node_permitted|by apply service_permitted|by apply source_permitted..| |].
  - apply secret_permitted.
  - by apply sync_secret_permitted.
Qed.
