(* ===== verification/Tenants.v ===== *)
(** * Tenants from beginning to end

    What a tenant gets, what it may do with it, and that it goes away: the tenant
    controller against the API server, the calls of the CCM against the role of the tenant,
    and the deletion of a tenant with the controllers of its LoadBalancers, Routes and
    SyncSecrets. *)
From Stdlib Require Import Ascii.
From stdpp Require Import base gmap list strings pretty.
From S2P Require Import Prelude GoStrings GoEncoding Api Names Annotations NetApi Effects Guards Objects Finalized ApiServer LBController TenantController.
Import Core V1alpha1.

(** ** Provisioning *)

(** Objects of a kind that was not written. *)
Ltac untouched :=
  repeat match goal with
         | H : stores ?k _ _ ?w ?w' |- context [objs ?w' ?k'] => rewrite (stores_other k _ _ w w' k' H) by done
         end.

Lemma reconcilers_keep_identity owner ns data :
  keeps_identity (k:=KNamespace) (NamespaceReconciler owner) ∧ keeps_identity (k:=KServiceAccount) ServiceAccountReconciler ∧
  keeps_identity (k:=KRole) RoleReconciler ∧ keeps_identity (k:=KRoleBinding) (RoleBindingReconciler ns) ∧
  keeps_identity (k:=KSecret) SecretReconciler ∧ keeps_identity (k:=KSecret) (TenantKubeconfigSecretReconciler data).
Proof. split_and!; intros o; by eexists. Qed.

Section provisioning.
Context `{IPv6} (load : string → error + clientcmdConfig)
  (setControllerReference : Tenant → ObjectMeta → error + ObjectMeta) (r : TenantReconciler) (tenant : Tenant).

Definition tenant_ns : string := tenantNamespacePattern (name (tn_meta tenant)).

(** What a tenant has once it is provisioned. *)
Record provisioned (w : world) (ca token url : string) : Prop := {
  prov_namespace : ∃ o : Namespace, objs w KNamespace !! ("", tenant_ns) = Some o ∧
    contents (labels (nsp_meta o)) !! LabelManagedBy = Some LabelControllerName ∧
    ownerReferences (nsp_meta o) = [tenant_owner tenant];
  prov_account : is_Some (objs w KServiceAccount !! (tenant_ns, serviceAccountName));
  prov_role : ∃ o : Role, objs w KRole !! (tenant_ns, roleName) = Some o ∧ role_rules o = tenant_rules;
  prov_binding : ∃ o : RoleBinding, objs w KRoleBinding !! (tenant_ns, roleBindingName) = Some o ∧
    rb_roleRef o = {| rref_apiGroup := "rbac.authorization.k8s.io"; rref_kind := "Role"; rref_name := roleName |} ∧
    rb_subjects o = [{| sub_kind := "ServiceAccount"; sub_name := serviceAccountName; sub_namespace := tenant_ns |}];
  prov_kubeconfig : ∃ o : Secret, objs w KSecret !! (tenant_ns, KubeLBCCMKubeconfigSecretName) = Some o ∧
    contents (sec_data o) = {[ "kubelb" := kubeconfig (base64_string ca) url tenant_ns token ]}
}.

Lemma provision_account w log :
  (∀ k key (o : objT k), objs w k !! key = Some o → key.1 = tenant_ns ∨ key = ("", tenant_ns) → deletionTimestamp (meta_of o) = None) →
  ∃ w' log', (∀ (rest : prog (outcome unit)),
    run api_server
      (_ <-["failed to reconcile namespace"] ensure KNamespace "" tenant_ns (NamespaceReconciler (tenant_owner tenant)) ;;
       _ <-["failed to reconcile service account"] ensure KServiceAccount tenant_ns serviceAccountName ServiceAccountReconciler ;;
       _ <-["failed to reconcile role"] ensure KRole tenant_ns roleName RoleReconciler ;;
       _ <-["failed to reconcile role binding"] ensure KRoleBinding tenant_ns roleBindingName (RoleBindingReconciler tenant_ns) ;;
       rest) w log = run api_server rest w' log') ∧
  (∃ o1 o2 o3 o4 w1 w2 w3,
    stores KNamespace ("", tenant_ns) o1 w w1 ∧ stores KServiceAccount (tenant_ns, serviceAccountName) o2 w1 w2 ∧
    stores KRole (tenant_ns, roleName) o3 w2 w3 ∧ stores KRoleBinding (tenant_ns, roleBindingName) o4 w3 w' ∧
    (contents (labels (nsp_meta o1)) !! LabelManagedBy = Some LabelControllerName ∧ ownerReferences (nsp_meta o1) = [tenant_owner tenant]) ∧
    role_rules o3 = tenant_rules ∧
    rb_roleRef o4 = {| rref_apiGroup := "rbac.authorization.k8s.io"; rref_kind := "Role"; rref_name := roleName |} ∧
    rb_subjects o4 = [{| sub_kind := "ServiceAccount"; sub_name := serviceAccountName; sub_namespace := tenant_ns |}]).
Proof.
  intros Hlive. destruct (reconcilers_keep_identity (tenant_owner tenant) tenant_ns "") as (K1 & K2 & K3 & K4 & _ & _).
  edestruct (run_ensure (k:=KNamespace) w log) as (w1 & l1 & o1 & R1 & S1 & E1);
    [exact K1|intros o Ho; apply (Hlive KNamespace _ _ Ho); by right|].
  edestruct (run_ensure (k:=KServiceAccount) w1 l1) as (w2 & l2 & o2 & R2 & S2 & E2);
    [exact K2|untouched; intros o Ho; apply (Hlive KServiceAccount _ _ Ho); by left|].
  edestruct (run_ensure (k:=KRole) w2 l2) as (w3 & l3 & o3 & R3 & S3 & E3);
    [exact K3|untouched; intros o Ho; apply (Hlive KRole _ _ Ho); by left|].
  edestruct (run_ensure (k:=KRoleBinding) w3 l3) as (w4 & l4 & o4 & R4 & S4 & E4);
    [exact K4|untouched; intros o Ho; apply (Hlive KRoleBinding _ _ Ho); by left|].
  exists w4, l4. split.
  - intros rest. rewrite (run_try_wrap _ _ _ _ _ _ _ _ _ R1), (run_try_wrap _ _ _ _ _ _ _ _ _ R2),
      (run_try_wrap _ _ _ _ _ _ _ _ _ R3), (run_try_wrap _ _ _ _ _ _ _ _ _ R4). done.
  - exists o1, o2, o3, o4, w1, w2, w3. split_and!; try done.
    + destruct E1 as [o _ [= <-]|old o _ [= <-]]; simpl; by rewrite lookup_insert_eq.
    + by destruct E1 as [o _ [= <-]|old o _ [= <-]].
    + by destruct E3 as [o _ [= <-]|old o _ [= <-]].
    + by destruct E4 as [o _ [= <-]|old o _ [= <-]].
    + by destruct E4 as [o _ [= <-]|old o _ [= <-]].
Qed.

(** The token Secret keeps its data when it is ensured. *)
Lemma ensured_token w ns n (tok o : Secret) :
  objs w KSecret !! (ns, n) = Some tok → sec_stringData tok = None →
  ensured_as (k:=KSecret) w ns n SecretReconciler o → sec_data o = sec_data tok.
Proof.
  intros Htok Hsd He. destruct He as [o' E _|old o' E [= <-]]; pose proof (eq_trans (eq_sym Htok) E) as Eo; [done|].
  injection Eo as <-. simpl. unfold fold_string_data. simpl. by rewrite Hsd.
Qed.

Lemma ensured_kubeconfig w ns n data (o : Secret) :
  (∀ old, objs w KSecret !! (ns, n) = Some old → sec_stringData old = None) →
  ensured_as (k:=KSecret) w ns n (TenantKubeconfigSecretReconciler data) o → contents (sec_data o) = {[ "kubelb" := data ]}.
Proof.
  intros Hsd He. destruct He as [o' E [= <-]|old o' E [= <-]]; [done|].
  simpl. unfold fold_string_data. simpl. by rewrite (Hsd old E).
Qed.

(** The kubeconfig is made from the token Secret and the cluster-info ConfigMap. *)
Lemma run_generateKubeconfig w log (tok : Secret) (cm : ConfigMap) data conf :
  let ca := get_str (sec_data tok) ServiceAccountRootCAKey in
  let token := get_str (sec_data tok) ServiceAccountTokenKey in
  objs w KSecret !! (tenant_ns, ServiceAccountTokenSecretName) = Some tok → ca ≠ "" → token ≠ "" →
  objs w KConfigMap !! (NamespacePublic, configMapName) = Some cm →
  contents (cm_data cm) !! "kubeconfig" = Some data → load data = inr conf →
  ∃ log', run api_server (generateKubeconfig load r tenant_ns) w log =
    (w, log', Done (inr (kubeconfig (base64_string ca) (server_url r conf) tenant_ns token))).
Proof.
  intros ca token Htok Hca Ht Hcm Hdata Hload. unfold generateKubeconfig, GetKubeconfig, getKubeconfigFromConfigMap, try, try_wrap.
  cbn [mbind prog_bind prog_bind_ perform run]. rewrite (api_get (k:=KSecret) w _ _ tok Htok). cbn [prog_bind_ run].
  rewrite (api_get (k:=KConfigMap) w _ _ cm Hcm). cbn [prog_bind_ run]. rewrite Hdata. cbn [prog_bind_ run].
  rewrite Hload.
  cbn [ok prog_bind_ run]. fold ca token. rewrite decide_False, decide_False by done. by eexists.
Qed.

(** The tenant state is created or updated, and gets its status. *)
Lemma run_reconcileTenantState w log (config : Config) :
  (∀ m, ∃ m', setControllerReference tenant m = inr m' ∧ uid m' = uid m ∧ resourceVersion m' = resourceVersion m) →
  (∀ o, objs w KTenantState !! (tenant_ns, TenantStateName) = Some o → deletionTimestamp (tst_meta o) = None) →
  objs w KConfig !! (tr_namespace r, DefaultConfigResourceName) = Some config →
  ∃ w' log' o, run api_server (reconcileTenantState setControllerReference r tenant tenant_ns) w log = (w', log', Done (inr ())) ∧
    stores KTenantState (tenant_ns, TenantStateName) o w w' ∧
    lbst_disable (tss_loadBalancer (tst_status o)) =
      (lbs_disable (ts_loadBalancer (tn_spec tenant)) || lbs_disable (cs_loadBalancer (cf_spec config))).
Proof.
  intros Hscr Hlive Hcfg. unfold reconcileTenantState.
  set (f := own_tenant_state setControllerReference tenant).
  destruct (do_ensure_stores (k:=KTenantState) w tenant_ns TenantStateName f) as (w1 & o & Hrun & Hst & He).
  { intros o. destruct (Hscr (tst_meta o)) as (m' & Em & Hu & Hrv). exists {| tst_meta := m'; tst_status := tst_status o |}.
    split; [unfold f, own_tenant_state; by rewrite Em|done]. }
  { exact Hlive. }
  assert (obj_key (k:=KTenantState) o = (tenant_ns, TenantStateName)) as Hkey by by eapply ensured_as_key.
  pose proof (stores_lookup _ _ _ _ _ Hst) as Ho.
  unfold try. cbn [mbind prog_bind prog_bind_ perform run].
  change (api_server w (CreateOrUpdate KTenantState tenant_ns TenantStateName f)) with (do_ensure (k:=KTenantState) w tenant_ns TenantStateName f).
  rewrite Hrun. cbn [prog_bind_ run]. unfold buildTenantState, GetConfig. cbn [mbind prog_bind prog_bind_ perform run].
  change (api_server w1 Now) with (w1, 0%Z). cbn [run].
  rewrite (api_get (k:=KConfig) w1 _ _ config) by (by untouched). cbn [prog_bind_ run].
  set (disable := lbs_disable (ts_loadBalancer (tn_spec tenant)) || lbs_disable (cs_loadBalancer (cf_spec config))).
  set (st := {| tss_version := GetVersion (tr_build r); tss_lastUpdated := 0; tss_conditions := tss_conditions (tst_status o);
                tss_loadBalancer := {| lbst_disable := disable |} |}).
  match goal with |- context [run api_server ?p w1 ?l] =>
    assert (run api_server p w1 l =
      run api_server (if shouldUpdateStatus (tst_status o) st
                      then _ <-["failed to update TenantState status"] perform (StatusUpdate KTenantState (with_tst_status st o)) ;; ok ()
                      else ok ()) w1 l) as -> end.
  { unfold st, disable. by destruct (lbs_disable (ts_loadBalancer (tn_spec tenant))). }
  destruct (shouldUpdateStatus (tst_status o) st) eqn:Hs.
  - unfold try_wrap. cbn [mbind prog_bind prog_bind_ perform run].
    change (api_server w1 (StatusUpdate KTenantState (with_tst_status st o))) with (do_status_update (k:=KTenantState) w1 (with_tst_status st o)).
    destruct (do_status_update_stores (k:=KTenantState) w1 (tenant_ns, TenantStateName) o (with_tst_status st o)) as (w2 & Hr2 & Hst2);
      [done..|]. rewrite Hr2. cbn [ok prog_bind_ run].
    eexists w2, _, _. split; [done|]. split; [by eapply stores_trans|done].
  - eexists w1, _, o. split; [done|]. split; [done|].
    unfold shouldUpdateStatus in Hs. destruct (decide (tss_loadBalancer (tst_status o) = tss_loadBalancer st)) as [->|Hne]; [done|].
    by rewrite (bool_decide_true (tss_loadBalancer _ ≠ _)), orb_true_r in Hs.
Qed.
End provisioning.

(** C22: a tenant is provisioned: when nothing of it is being deleted, its token Secret
    has been filled, the cluster-info ConfigMap holds a kubeconfig and there is a Config,
    reconciling the Tenant succeeds, and the API server then has the labelled namespace
    owned by the Tenant, the service account, the role with its rules, the binding of the
    two, and the Secret with a kubeconfig made from the token, the CA certificate and the
    server of the ConfigMap; the tenant state says whether load balancers are disabled. *)
Theorem reconcile_tenant_provisions `{IPv6} load setControllerReference r tenant w
    (tok : Secret) (cm : ConfigMap) data conf (config : Config) :
  let ns := tenant_ns tenant in
  let ca := get_str (sec_data tok) ServiceAccountRootCAKey in
  let token := get_str (sec_data tok) ServiceAccountTokenKey in
  (∀ k key (o : objT k), objs w k !! key = Some o → key.1 = ns ∨ key = ("", ns) → deletionTimestamp (meta_of o) = None) →
  (∀ o, objs w KSecret !! (ns, KubeLBCCMKubeconfigSecretName) = Some o → sec_stringData o = None) →
  objs w KSecret !! (ns, ServiceAccountTokenSecretName) = Some tok → sec_stringData tok = None → ca ≠ "" → token ≠ "" →
  objs w KConfigMap !! (NamespacePublic, configMapName) = Some cm →
  contents (cm_data cm) !! "kubeconfig" = Some data → load data = inr conf →
  objs w KConfig !! (tr_namespace r, DefaultConfigResourceName) = Some config →
  (∀ m, ∃ m', setControllerReference tenant m = inr m' ∧ uid m' = uid m ∧ resourceVersion m' = resourceVersion m) →
  answer (reconcile_tenant load setControllerReference r tenant) w = Done (inr ()) ∧
  let w' := exec (reconcile_tenant load setControllerReference r tenant) w in
  provisioned tenant w' ca token (server_url r conf) ∧
  ∃ o, objs w' KTenantState !! (ns, TenantStateName) = Some o ∧
    lbst_disable (tss_loadBalancer (tst_status o)) =
      (lbs_disable (ts_loadBalancer (tn_spec tenant)) || lbs_disable (cs_loadBalancer (cf_spec config))).
Proof.
  intros ns ca token Hlive Hkc Htok Htsd Hca Ht Hcm Hdata Hload Hcfg Hscr. unfold answer, exec, reconcile_tenant.
  fold (tenant_ns tenant). fold ns.
  destruct (provision_account tenant w []) as (w4 & l4 & Hrun & o1 & o2 & o3 & o4 & w1 & w2 & w3 & S1 & S2 & S3 & S4 & Hns & Hrole & Href & Hsub);
    [exact Hlive|]. fold ns in Hrun. rewrite Hrun. clear Hrun.
  destruct (reconcilers_keep_identity (tenant_owner tenant) ns
    (kubeconfig (base64_string ca) (server_url r conf) ns token)) as (_ & _ & _ & _ & K5 & K6).
  edestruct (run_ensure (k:=KSecret) w4 l4 ns ServiceAccountTokenSecretName SecretReconciler) as (w5 & l5 & tok' & R5 & S5 & E5);
    [exact K5|untouched; intros o Ho; apply (Hlive KSecret _ _ Ho); by left|].
  rewrite (run_try_wrap _ _ _ _ _ _ _ _ _ R5). apply (ensured_token _ _ _ tok) in E5; [|by untouched|done].
  assert (ca = get_str (sec_data tok') ServiceAccountRootCAKey) as Eca by by rewrite E5.
  assert (token = get_str (sec_data tok') ServiceAccountTokenKey) as Et by by rewrite E5.
  destruct (run_generateKubeconfig load r tenant w5 l5 tok' cm data conf) as (l5' & R5');
    [by apply stores_lookup in S5|congruence|congruence|by untouched|done|done|].
  rewrite (run_try_wrap _ _ _ _ _ _ _ _ _ R5'), <- Eca, <- Et. fold ns.
  assert (∀ n, n ≠ ServiceAccountTokenSecretName → objs w5 KSecret !! (ns, n) = objs w KSecret !! (ns, n)) as Hsec.
  { intros n Hn. destruct S5 as [-> _]. rewrite lookup_insert_ne by congruence. by untouched. }
  edestruct (run_ensure (k:=KSecret) w5 l5' ns KubeLBCCMKubeconfigSecretName) as (w6 & l6 & o6 & R6 & S6 & E6);
    [exact K6|rewrite Hsec by done; intros o Ho; apply (Hlive KSecret _ _ Ho); by left|].
  rewrite (run_try_wrap _ _ _ _ _ _ _ _ _ R6).
  apply ensured_kubeconfig in E6; [|by rewrite Hsec].
  destruct (run_reconcileTenantState setControllerReference r tenant w6 l6 config) as (w7 & l7 & o7 & R7 & S7 & Hd);
    [exact Hscr|untouched; intros o Ho; apply (Hlive KTenantState _ _ Ho); by left|by untouched|].
  rewrite (run_try_wrap _ _ _ _ _ _ _ _ _ R7). cbn [ok run fst snd]. split; [done|]. cbv zeta. split; [split|].
  - exists o1. untouched. split; [by apply stores_lookup in S1|done].
  - exists o2. untouched. by apply stores_lookup in S2.
  - exists o3. untouched. split; [by apply stores_lookup in S3|done].
  - exists o4. untouched. split; [by apply stores_lookup in S4|done].
  - exists o6. untouched. split; [by apply stores_lookup in S6|done].
  - exists o7. split; [by apply stores_lookup in S7|done].
Qed.

(** A KubeLB cluster in which the token of tenant a has been issued. *)
Definition tenant_a : Tenant := with_tn_meta (with_identity "a" "" "uid-a" zero_meta) zero_tenant.
Definition token_secret : Secret :=
  {| sec_meta := with_identity ServiceAccountTokenSecretName "tenant-a" "uid-t" zero_meta; sec_immutable := None;
     sec_data := Some {[ ServiceAccountRootCAKey := "PEM"; ServiceAccountTokenKey := "JWT" ]};
     sec_stringData := None; sec_type := serviceAccountTokenType |}.
Definition cluster_info : ConfigMap :=
  {| cm_meta := with_identity configMapName NamespacePublic "uid-c" zero_meta; cm_data := Some {[ "kubeconfig" := "https://lb:6443" ]} |}.
Definition issued_world : world :=
  set_objs KSecret {[ ("tenant-a", ServiceAccountTokenSecretName) := token_secret ]}
    (set_objs KConfigMap {[ (NamespacePublic, configMapName) := cluster_info ]}
      (set_objs KConfig {[ ("kubelb", DefaultConfigResourceName) := zero_config ]} empty_world)).

Lemma issued_world_live : all_live issued_world.
Proof.
  apply all_live_set; [apply all_live_set; [apply all_live_set; [apply empty_world_live|]|]|];
    by intros key o [_ <-]%lookup_singleton_Some.
Qed.

Lemma reconcile_tenant_provisions_witness :
  let r := {| tr_host := ""; tr_namespace := "kubelb";
              tr_build := {| GitVersion := "dev"; GitCommit := "unknown"; BuildDate := "unknown" |} |} in
  answer (reconcile_tenant (H0 := λ _, None) (λ s, inr [s]) (λ _ m, inr m) r tenant_a) issued_world = Done (inr ()).
Proof.
  intros r.
  apply (@reconcile_tenant_provisions (λ _, None) (λ s, inr [s]) (λ _ m, inr m) r tenant_a issued_world
    token_secret cluster_info "https://lb:6443" ["https://lb:6443"] zero_config).
  - intros k key o Ho _. by apply issued_world_live in Ho.
  - intros o. unfold issued_world. by rewrite objs_set, lookup_singleton_ne.
  - unfold issued_world. rewrite objs_set. apply lookup_singleton_eq.
  - reflexivity.
  - vm_compute. discriminate.
  - vm_compute. discriminate.
  - unfold issued_world. rewrite objs_set_ne, objs_set by discriminate. apply lookup_singleton_eq.
  - reflexivity.
  - reflexivity.
  - unfold issued_world. rewrite objs_set_ne, objs_set_ne, objs_set by discriminate. apply lookup_singleton_eq.
  - intros m. by exists m.
Defined.
