(* ===== verification/GatewayCRDs.v ===== *)
(** * The Gateway API CRDs
    (internal/controllers/ccm/gateway_crd_controller.go, internal/resources/crds/crds.go,
     internal/resources/reconciling/zz_generated_reconcile.go)

    The CCM can install the CRDs of the Gateway API from the files built into it, and
    a controller puts them back when they are changed or deleted.  The embedded file
    system and the YAML decoder are parameters, as is the generation of an object,
    which the API server counts.  A Go map is visited in an order of the runtime's
    choosing: the order is an argument. *)
From stdpp Require Import base gmap list strings pretty.
From S2P Require Import Prelude GoStrings Api Names NetApi Effects Predicates Objects ApiServer.
Import Core.

(** ** Channels *)

Definition ChannelStandard : string := "standard".
Definition ChannelExperimental : string := "experimental".
Definition StandardGatewayAPICRDsDir : string := "gatewayapi/standard".
Definition ExperimentalGatewayAPICRDsDir : string := "gatewayapi/experimental".

(** [gwapiv1.GroupName] *)
Definition GatewayGroupName : string := "gateway.networking.k8s.io".

Definition IsValidGatewayAPICRDsChannel (channel : string) : bool :=
  if decide (channel = ChannelStandard ∨ channel = ChannelExperimental) then true else false.

Definition getGatewayAPICRDsPath (channel : string) : error + string :=
  if decide (channel = ChannelStandard) then inr StandardGatewayAPICRDsDir
  else if decide (channel = ChannelExperimental) then inr ExperimentalGatewayAPICRDsDir
  else inl (Errorf ("unsupported Gateway API channel: " +:+ channel)).

(** ** Loading *)

Abbreviation CRDMap := (gmap string CustomResourceDefinition).

Section load.
Context (ReadDir : string → error + list string) (Open : string → error + string)
  (Decode : string → error + CustomResourceDefinition).

Definition parseCRDFile (dir filename : string) : error + CustomResourceDefinition :=
  content ← Open (dir +:+ "/" +:+ filename);
  Decode content.

Fixpoint load_files (dir : string) (crdFiles : list string) (gatewayCRDs : CRDMap) : error + CRDMap :=
  match crdFiles with
  | [] => inr gatewayCRDs
  | filename :: crdFiles =>
      crd ← wrap ("failed to read CRD " +:+ filename) (parseCRDFile dir filename);
      load_files dir crdFiles (<[name (crd_meta crd) := crd]> gatewayCRDs)
  end.

Definition loadGatewayAPICRDs (channel : string) : error + CRDMap :=
  crdDir ← wrap "failed to get Gateway API CRDs directory" (getGatewayAPICRDsPath channel);
  crdFiles ← wrap "failed to read CRDs directory" (ReadDir crdDir);
  load_files crdDir crdFiles ∅.

(** ** Installing *)

Definition NoneConverter : string := "None".

(** [crd.Labels = source.Labels] and so on; the specification is copied, so the
    conversion is set in the copy. *)
Definition crd_from (source crd : CustomResourceDefinition) : CustomResourceDefinition :=
  {| crd_meta := with_annotations (annotations (crd_meta source)) (with_labels (labels (crd_meta source)) (crd_meta crd));
     crd_spec := {| crds_group := crds_group (crd_spec source);
                    crds_conversion := Some NoneConverter;
                    crds_rest := crds_rest (crd_spec source) |} |}.

Definition CustomResourceDefinitionReconciler : Type := CustomResourceDefinition → error + CustomResourceDefinition.
Definition NamedCustomResourceDefinitionReconcilerFactory : Type := string * CustomResourceDefinitionReconciler.

(** The method of the controller and the function of the installer, which agree. *)
Definition crdReconciler (n : string) (source : CustomResourceDefinition) : NamedCustomResourceDefinitionReconcilerFactory :=
  (n, λ crd, inr (crd_from source crd)).
Definition crdReconcilerFactory (n : string) (source : CustomResourceDefinition) : NamedCustomResourceDefinitionReconcilerFactory :=
  (n, λ crd, inr (crd_from source crd)).

Definition CustomResourceDefinitionObjectWrapper (reconciler : CustomResourceDefinitionReconciler)
    (existing : option CustomResourceDefinition) : error + CustomResourceDefinition :=
  match existing with
  | Some existing => reconciler existing
  | None => reconciler (zero_obj KCRD)
  end.

Fixpoint ReconcileCustomResourceDefinitions (namedFactories : list NamedCustomResourceDefinitionReconcilerFactory)
    (ns : string) : prog (outcome unit) :=
  match namedFactories with
  | [] => ok ()
  | (n, reconciler) :: namedFactories =>
      _ <-["failed to ensure CustomResourceDefinition " +:+ ns +:+ "/" +:+ n]
        ensure KCRD ns n (λ existing, CustomResourceDefinitionObjectWrapper reconciler (Some existing)) ;;
      ReconcileCustomResourceDefinitions namedFactories ns
  end.

(** [order] is the order in which the map is visited. *)
Definition InstallCRDs (order : CRDMap → list (string * CustomResourceDefinition)) (channel : string)
    : prog (outcome unit) :=
  match loadGatewayAPICRDs channel with
  | inl err => fail (Wrapf "failed to load Gateway API CRDs" err)
  | inr gatewayAPICRDs =>
      _ <-["failed to install CRDs"]
        ReconcileCustomResourceDefinitions ((λ '(n, crd), crdReconcilerFactory n crd) <$> order gatewayAPICRDs) "" ;;
      ok ()
  end.
End load.

(** ** The controller *)

Record GatewayCRDReconciler := { gcr_channel : string; gcr_crds : CRDMap }.

Definition reconcileCRD (r : GatewayCRDReconciler) (n : string) : prog (outcome unit) :=
  match gcr_crds r !! n with
  | Some crd =>
      _ <-["failed to reconcile CRD " +:+ n] ReconcileCustomResourceDefinitions [crdReconciler n crd] "" ;;
      ok ()
  | None => fail (Errorf ("CRD " +:+ n +:+ " not found in Gateway API or Envoy Gateway CRDs"))
  end.

Definition ReconcileGatewayCRD (r : GatewayCRDReconciler) (req : NamespacedName) : prog (outcome unit) :=
  _ <-! reconcileCRD r (nn_name req) ;; ok ().

Definition isRelevantGroup (group : string) : bool := bool_decide (group = GatewayGroupName).

(** The objects of the watch are CRDs, so the type assertions hold. *)
Definition resourceFilter : Funcs CustomResourceDefinition :=
  {| CreateFunc := Some (λ _, false);
     UpdateFunc := Some (λ oldCRD newCRD,
       isRelevantGroup (crds_group (crd_spec oldCRD)) && isRelevantGroup (crds_group (crd_spec newCRD)));
     DeleteFunc := Some (λ crd, isRelevantGroup (crds_group (crd_spec crd)));
     GenericFunc := None |}.

(** [predicate.GenerationChangedPredicate] *)
Definition GenerationChangedPredicate {A} (generation : A → Z) : Funcs A :=
  {| CreateFunc := None; UpdateFunc := Some (λ old new, negb (bool_decide (generation old = generation new)));
     DeleteFunc := None; GenericFunc := None |}.

Definition crd_events (generation : CustomResourceDefinition → Z) (e : watch_event CustomResourceDefinition) : bool :=
  passes_both (GenerationChangedPredicate generation) resourceFilter e.

(** What setting the controller up does: it loads the CRDs and queues a request for
    each, in the order the map is visited. *)
Definition SetupWithManager ReadDir Open Decode (order : CRDMap → list (string * CustomResourceDefinition))
    (channel : string) : error + (GatewayCRDReconciler * list NamespacedName) :=
  crdMap ← wrap ("failed to load Gateway API CRDs for channel " +:+ channel) (loadGatewayAPICRDs ReadDir Open Decode channel);
  inr ({| gcr_channel := channel; gcr_crds := crdMap |},
       (λ '(n, _), {| nn_namespace := ""; nn_name := n |}) <$> order crdMap).

(** ** What is loaded *)

Section loaded.
Context (ReadDir : string → error + list string) (Open : string → error + string)
  (Decode : string → error + CustomResourceDefinition).

Lemma load_files_spec dir files m m' :
  load_files Open Decode dir files m = inr m' →
  (∀ n crd, m' !! n = Some crd → m !! n = Some crd ∨
     name (crd_meta crd) = n ∧ ∃ f, f ∈ files ∧ parseCRDFile Open Decode dir f = inr crd) ∧
  (∀ n, is_Some (m !! n) → is_Some (m' !! n)) ∧
  (∀ f, f ∈ files → ∃ crd, parseCRDFile Open Decode dir f = inr crd ∧ is_Some (m' !! name (crd_meta crd))).
Proof.
  revert m. induction files as [|f files IH]; intros m; simpl.
  { intros [= <-]. split; [auto|]. split; [done|]. by intros f ?%elem_of_nil. }
  destruct (parseCRDFile _ _ dir f) as [|crd] eqn:Ef; simpl; [done|].
  intros (Hfrom & Hkept & Hall)%IH. split; [|split].
  - intros n c Hc. destruct (Hfrom n c Hc) as [Hm|(Hn & f' & Hf' & Hp)].
    + destruct (decide (name (crd_meta crd) = n)) as [Heq|Hne].
      * right. rewrite Heq, lookup_insert_eq in Hm. injection Hm as <-. split; [done|].
        exists f. split; [apply elem_of_cons; by left|done].
      * left. by rewrite lookup_insert_ne in Hm.
    + right. split; [done|]. exists f'. split; [apply elem_of_cons; by right|done].
  - intros n Hn. apply Hkept. rewrite lookup_insert_is_Some. destruct (decide (name (crd_meta crd) = n)); auto.
  - intros f' [->|Hf']%elem_of_cons; [|by apply Hall].
    exists crd. split; [done|]. apply Hkept. by rewrite lookup_insert_eq.
Qed.

Lemma loadGatewayAPICRDs_spec channel m :
  loadGatewayAPICRDs ReadDir Open Decode channel = inr m →
  IsValidGatewayAPICRDsChannel channel = true ∧
  ∃ dir files, getGatewayAPICRDsPath channel = inr dir ∧ ReadDir dir = inr files ∧
  (∀ n crd, m !! n = Some crd → name (crd_meta crd) = n ∧
     ∃ f, f ∈ files ∧ parseCRDFile Open Decode dir f = inr crd) ∧
  (∀ f, f ∈ files → ∃ crd, parseCRDFile Open Decode dir f = inr crd ∧ is_Some (m !! name (crd_meta crd))).
Proof.
  unfold loadGatewayAPICRDs, IsValidGatewayAPICRDsChannel.
  destruct (getGatewayAPICRDsPath channel) as [|dir] eqn:Hdir; simpl; [done|].
  destruct (ReadDir dir) as [|files] eqn:Hfiles; simpl; [done|].
  intros (Hfrom & _ & Hall)%load_files_spec. split.
  - unfold getGatewayAPICRDsPath in Hdir. repeat case_decide; naive_solver.
  - exists dir, files. do 2 (split; [done|]). split; [|done].
    intros n crd [H|H]%Hfrom; [by rewrite lookup_empty in H|done].
Qed.
End loaded.

(** ** What is installed *)

(** The cluster has the CRD of this name as the source says. *)
Definition installed (w : world) (n : string) (source : CustomResourceDefinition) : Prop :=
  ∃ o : CustomResourceDefinition, objs w KCRD !! ("", n) = Some o ∧
    labels (crd_meta o) = labels (crd_meta source) ∧ annotations (crd_meta o) = annotations (crd_meta source) ∧
    crds_group (crd_spec o) = crds_group (crd_spec source) ∧ crds_rest (crd_spec o) = crds_rest (crd_spec source) ∧
    crds_conversion (crd_spec o) = Some NoneConverter.

(** No CRD of one of these names is being deleted. *)
Definition crds_live (w : world) (names : list string) : Prop :=
  ∀ n (o : CustomResourceDefinition), n ∈ names → objs w KCRD !! ("", n) = Some o → deletionTimestamp (crd_meta o) = None.

Lemma crd_from_keeps_identity source :
  keeps_identity (k:=KCRD) (λ existing, CustomResourceDefinitionObjectWrapper (λ crd, inr (crd_from source crd)) (Some existing)).
Proof. intros o. by eexists. Qed.

Lemma run_crds (entries : list (string * CustomResourceDefinition)) w log :
  base.NoDup (entries.*1) → crds_live w (entries.*1) →
  ∃ w' log', run api_server (ReconcileCustomResourceDefinitions
      ((λ '(n, crd), crdReconcilerFactory n crd) <$> entries) "") w log = (w', log', Done (inr ())) ∧
    (∀ n source, (n, source) ∈ entries → installed w' n source) ∧
    (∀ n, n ∉ entries.*1 → objs w' KCRD !! ("", n) = objs w KCRD !! ("", n)) ∧
    (∀ k : Effects.kind, KCRD ≠ k → objs w' k = objs w k).
Proof.
  revert w log. induction entries as [|[n source] entries IH]; intros w log; simpl.
  { intros _ _. eexists _, _. split; [done|]. by split; [intros ? ? ?%elem_of_nil|]. }
  intros [Hn Hnd]%list.NoDup_cons Hlive.
  destruct (run_ensure (k:=KCRD) w log "" n _ (crd_from_keeps_identity source)) as (w1 & l1 & o & Hrun & Hst & He).
  { intros o Ho. apply (Hlive n o); [apply elem_of_cons; by left|done]. }
  destruct Hst as [Hcrd Hother].
  assert (∀ m, m ≠ n → objs w1 KCRD !! ("", m) = objs w KCRD !! ("", m)) as Hsame.
  { intros m Hm. rewrite Hcrd, lookup_insert_ne by congruence. done. }
  destruct (IH w1 l1 Hnd) as (w2 & l2 & Hrun2 & Hinst & Hrest & Hk).
  { intros m x Hm. rewrite Hsame by (intros ->; contradiction). apply Hlive. apply elem_of_cons. by right. }
  exists w2, l2. split; [exact (eq_trans (run_try_wrap _ _ _ _ _ _ _ _ _ Hrun) Hrun2)|]. split; [|split].
  - intros m s [[= -> ->]|Hin]%elem_of_cons; [|by apply Hinst].
    exists o. rewrite Hrest, Hcrd, lookup_insert_eq by done. split; [done|].
    by destruct He as [o' _ [= <-]|old o' _ [= <-]].
  - intros m Hm. rewrite Hrest, Hsame; [done|..].
    + intros ->. apply Hm. apply elem_of_cons. by left.
    + intros Hin. apply Hm. apply elem_of_cons. by right.
  - intros k Hne. by rewrite Hk, Hother.
Qed.

(** Installing the CRDs of a channel.  When the files of its directory can be
    read and no CRD of theirs is being deleted, the call succeeds in whatever order
    the map is visited; then every file has its CRD in the cluster, with the labels,
    annotations and specification of a file of that name and the conversion [None],
    and nothing else is touched. *)
Theorem InstallCRDs_installs ReadDir Open Decode order channel m w :
  loadGatewayAPICRDs ReadDir Open Decode channel = inr m →
  order m ≡ₚ map_to_list m → crds_live w ((order m).*1) →
  answer (InstallCRDs ReadDir Open Decode order channel) w = Done (inr ()) ∧
  let w' := exec (InstallCRDs ReadDir Open Decode order channel) w in
  ∃ dir files, getGatewayAPICRDsPath channel = inr dir ∧ ReadDir dir = inr files ∧
  (∀ f, f ∈ files → ∃ crd source g, parseCRDFile Open Decode dir f = inr crd ∧
     g ∈ files ∧ parseCRDFile Open Decode dir g = inr source ∧
     name (crd_meta source) = name (crd_meta crd) ∧ installed w' (name (crd_meta crd)) source) ∧
  (∀ n, m !! n = None → objs w' KCRD !! ("", n) = objs w KCRD !! ("", n)) ∧
  (∀ k : Effects.kind, KCRD ≠ k → objs w' k = objs w k).
Proof.
  intros Hload Hperm Hlive. unfold answer, exec, InstallCRDs. rewrite Hload.
  destruct (run_crds (order m) w []) as (w' & log & Hrun & Hinst & Hrest & Hk); [|done|].
  { rewrite Hperm. apply NoDup_fst_map_to_list. }
  rewrite (run_try_wrap _ _ _ _ _ _ _ _ _ Hrun). split; [done|]. simpl.
  destruct (loadGatewayAPICRDs_spec _ _ _ _ _ Hload) as (_ & dir & files & Hdir & Hfiles & Hfrom & Hall).
  exists dir, files. do 2 (split; [done|]). split; [|split; [|done]].
  - intros f Hf. destruct (Hall f Hf) as (crd & Hp & source & Hs).
    destruct (Hfrom _ _ Hs) as (Hn & g & Hg & Hpg). exists crd, source, g. repeat (split; [done|]).
    apply Hinst. rewrite Hperm. by apply elem_of_map_to_list.
  - intros n Hn. apply Hrest. rewrite Hperm. intros ([n' c] & -> & Hin)%list_elem_of_fmap.
    apply elem_of_map_to_list in Hin. simpl in Hn. congruence.
Qed.

(** the controller keeps the CRDs as they were loaded.  A change of the
    specification of one of its CRDs, or its deletion, passes the filters, and
    handling the request puts the CRD back; so do the requests queued at the
    start.  Changes of the status alone are not looked at. *)
Theorem crd_put_back generation r source (crd new : CustomResourceDefinition) e w :
  gcr_crds r !! name (crd_meta crd) = Some source →
  crds_group (crd_spec crd) = GatewayGroupName → crds_group (crd_spec new) = GatewayGroupName →
  crds_live w [name (crd_meta crd)] →
  e = DeleteEvent crd ∨ (e = UpdateEvent crd new ∧ generation crd ≠ generation new) →
  let req := {| nn_namespace := ""; nn_name := name (crd_meta crd) |} in
  crd_events generation e = true ∧
  answer (ReconcileGatewayCRD r req) w = Done (inr ()) ∧
  installed (exec (ReconcileGatewayCRD r req) w) (name (crd_meta crd)) source.
Proof.
  intros Hr Hg Hg' Hlive He req. split.
  - destruct He as [->|[-> Hgen]]; unfold crd_events, passes_both, isRelevantGroup; simpl; unfold isRelevantGroup;
      rewrite ?Hg, ?Hg'; [done|]. by rewrite bool_decide_eq_false_2.
  - destruct (run_crds [(name (crd_meta crd), source)] w []) as (w' & log & Hrun & Hinst & _); [by apply NoDup_singleton|done|].
    unfold answer, exec, ReconcileGatewayCRD, reconcileCRD. simpl nn_name. rewrite Hr.
    erewrite run_try; [|erewrite run_try_wrap; [|exact Hrun]; reflexivity].
    split; [done|]. apply Hinst. by apply list_elem_of_singleton.
Qed.

(** A small file system: two files of the standard channel. *)
Definition sample_crd (n spec : string) : CustomResourceDefinition :=
  {| crd_meta := with_labels (Some {[ "channel" := "standard" ]}) (with_identity n "" "" zero_meta);
     crd_spec := {| crds_group := GatewayGroupName; crds_conversion := None; crds_rest := spec |} |}.
Definition sample_ReadDir (dir : string) : error + list string :=
  if decide (dir = StandardGatewayAPICRDsDir) then inr ["gateways.yaml"; "httproutes.yaml"] else inl (Errorf "file does not exist").
Definition sample_Open (path : string) : error + string := inr path.
Definition sample_Decode (content : string) : error + CustomResourceDefinition :=
  if decide (content = "gatewayapi/standard/gateways.yaml") then inr (sample_crd "gateways" "v1")
  else if decide (content = "gatewayapi/standard/httproutes.yaml") then inr (sample_crd "httproutes" "v1")
  else inl (Errorf "not a CRD").

Lemma InstallCRDs_installs_witness :
  match loadGatewayAPICRDs sample_ReadDir sample_Open sample_Decode ChannelStandard with
  | inr m => size m = 2 ∧
      answer (InstallCRDs sample_ReadDir sample_Open sample_Decode map_to_list ChannelStandard) empty_world = Done (inr ())
  | inl _ => False
  end.
Proof.
  destruct (loadGatewayAPICRDs _ _ _ _) as [|m] eqn:E; [vm_compute in E; discriminate E|].
  split; [vm_compute in E; injection E as <-; reflexivity|].
  apply (InstallCRDs_installs sample_ReadDir sample_Open sample_Decode map_to_list ChannelStandard m empty_world E); [reflexivity|].
  intros n o _ Ho. simpl in Ho. rewrite lookup_empty in Ho. discriminate Ho.
Defined.

Lemma crd_put_back_witness :
  let source := sample_crd "gateways" "v1" in
  let r := {| gcr_channel := ChannelStandard; gcr_crds := {[ "gateways" := source ]} |} in
  installed (exec (ReconcileGatewayCRD r {| nn_namespace := ""; nn_name := "gateways" |}) empty_world) "gateways" source.
Proof.
  intros source r.
  apply (crd_put_back (λ _, 1%Z) r source (sample_crd "gateways" "v0") source (DeleteEvent (sample_crd "gateways" "v0")) empty_world);
    [reflexivity|reflexivity|reflexivity| |left; reflexivity].
  intros n o _ Ho. simpl in Ho. rewrite lookup_empty in Ho. discriminate Ho.
Defined.

(** A CRD of the same group that the channel does not have, such as one of the
    experimental channel, passes the filter when it changes, and handling it fails
    each time without a call. *)
Theorem foreign_crd_retried generation r (old new : CustomResourceDefinition) w :
  crds_group (crd_spec old) = GatewayGroupName → crds_group (crd_spec new) = GatewayGroupName →
  generation old ≠ generation new → gcr_crds r !! name (crd_meta new) = None →
  crd_events generation (UpdateEvent old new) = true ∧
  ∃ e, run api_server (ReconcileGatewayCRD r {| nn_namespace := ""; nn_name := name (crd_meta new) |}) w [] =
    (w, [], Done (inl e)).
Proof.
  intros Ho Hn Hg Hr. split.
  - unfold crd_events, passes_both. simpl. unfold isRelevantGroup. rewrite Ho, Hn, bool_decide_eq_false_2 by done. done.
  - unfold ReconcileGatewayCRD, reconcileCRD. simpl nn_name. rewrite Hr. by eexists.
Qed.
