(* ===== verification/CommandLine.v ===== *)
(** * The command lines (cmd/ccm/main.go, cmd/kubelb/main.go)

    The options of the two programs, their flags with the defaults, and what a command line
    makes of them.  The flags of the logger come from controller-runtime and are the class
    [ZapFlags]. *)
From stdpp Require Import base list strings.
From S2P Require Import Prelude GoStrings GoFlag.

(** The flags [zap.Options.BindFlags] adds: their names, and the values each takes. *)
Class ZapFlags := {
  zap_bools : list string;
  zap_values : list (string * (string → bool))
}.
Definition zap_flags `{ZapFlags} {O} : list (string * flag_var O) :=
  ((λ n, (n, BoolVar (λ _ o, o))) <$> zap_bools) ++
  ((λ x, (x.1, Var (λ v o, if x.2 v : bool then Some o else None))) <$> zap_values).

(** ** The CCM *)

Record ccm_options := {
  co_metricsAddr : string;
  co_probeAddr : string;
  co_enableCloudController : bool;
  co_useLoadbalancerClass : bool;
  co_enableLeaderElection : bool;
  co_leaderElectionNamespace : string;
  co_endpointAddressTypeString : string;
  co_clusterName : string;
  co_kubeLbKubeconf : string;
  co_kubeconfig : string;
  co_useIngressClass : bool;
  co_useGatewayClass : bool;
  co_disableIngressController : bool;
  co_disableGatewayController : bool;
  co_disableHTTPRouteController : bool;
  co_disableGRPCRouteController : bool;
  co_enableSecretSynchronizer : bool;
  co_enableGatewayAPI : bool;
  co_installGatewayAPICRDs : bool;
  co_gatewayAPICRDsChannel : string
}.

(** The kubeconfig of the KubeLB cluster; [home] is [os.Getenv("HOME")]. *)
Definition defaultKubeLbConf (home : string) : string := filepath_join [home; ".kube"; "kubelb"].

Module CCMFlags.
Definition set_metricsAddr (v : string) '(Build_ccm_options _ b c d e f g h i j k l m n o p q r s t) : ccm_options := Build_ccm_options v b c d e f g h i j k l m n o p q r s t.
Definition set_probeAddr (v : string) '(Build_ccm_options a _ c d e f g h i j k l m n o p q r s t) : ccm_options := Build_ccm_options a v c d e f g h i j k l m n o p q r s t.
Definition set_enableCloudController (v : bool) '(Build_ccm_options a b _ d e f g h i j k l m n o p q r s t) : ccm_options := Build_ccm_options a b v d e f g h i j k l m n o p q r s t.
Definition set_useLoadbalancerClass (v : bool) '(Build_ccm_options a b c _ e f g h i j k l m n o p q r s t) : ccm_options := Build_ccm_options a b c v e f g h i j k l m n o p q r s t.
Definition set_enableLeaderElection (v : bool) '(Build_ccm_options a b c d _ f g h i j k l m n o p q r s t) : ccm_options := Build_ccm_options a b c d v f g h i j k l m n o p q r s t.
Definition set_leaderElectionNamespace (v : string) '(Build_ccm_options a b c d e _ g h i j k l m n o p q r s t) : ccm_options := Build_ccm_options a b c d e v g h i j k l m n o p q r s t.
Definition set_endpointAddressTypeString (v : string) '(Build_ccm_options a b c d e f _ h i j k l m n o p q r s t) : ccm_options := Build_ccm_options a b c d e f v h i j k l m n o p q r s t.
Definition set_clusterName (v : string) '(Build_ccm_options a b c d e f g _ i j k l m n o p q r s t) : ccm_options := Build_ccm_options a b c d e f g v i j k l m n o p q r s t.
Definition set_kubeLbKubeconf (v : string) '(Build_ccm_options a b c d e f g h _ j k l m n o p q r s t) : ccm_options := Build_ccm_options a b c d e f g h v j k l m n o p q r s t.
Definition set_kubeconfig (v : string) '(Build_ccm_options a b c d e f g h i _ k l m n o p q r s t) : ccm_options := Build_ccm_options a b c d e f g h i v k l m n o p q r s t.
Definition set_useIngressClass (v : bool) '(Build_ccm_options a b c d e f g h i j _ l m n o p q r s t) : ccm_options := Build_ccm_options a b c d e f g h i j v l m n o p q r s t.
Definition set_useGatewayClass (v : bool) '(Build_ccm_options a b c d e f g h i j k _ m n o p q r s t) : ccm_options := Build_ccm_options a b c d e f g h i j k v m n o p q r s t.
Definition set_disableIngressController (v : bool) '(Build_ccm_options a b c d e f g h i j k l _ n o p q r s t) : ccm_options := Build_ccm_options a b c d e f g h i j k l v n o p q r s t.
Definition set_disableGatewayController (v : bool) '(Build_ccm_options a b c d e f g h i j k l m _ o p q r s t) : ccm_options := Build_ccm_options a b c d e f g h i j k l m v o p q r s t.
Definition set_disableHTTPRouteController (v : bool) '(Build_ccm_options a b c d e f g h i j k l m n _ p q r s t) : ccm_options := Build_ccm_options a b c d e f g h i j k l m n v p q r s t.
Definition set_disableGRPCRouteController (v : bool) '(Build_ccm_options a b c d e f g h i j k l m n o _ q r s t) : ccm_options := Build_ccm_options a b c d e f g h i j k l m n o v q r s t.
Definition set_enableSecretSynchronizer (v : bool) '(Build_ccm_options a b c d e f g h i j k l m n o p _ r s t) : ccm_options := Build_ccm_options a b c d e f g h i j k l m n o p v r s t.
Definition set_enableGatewayAPI (v : bool) '(Build_ccm_options a b c d e f g h i j k l m n o p q _ s t) : ccm_options := Build_ccm_options a b c d e f g h i j k l m n o p q v s t.
Definition set_installGatewayAPICRDs (v : bool) '(Build_ccm_options a b c d e f g h i j k l m n o p q r _ t) : ccm_options := Build_ccm_options a b c d e f g h i j k l m n o p q r v t.
Definition set_gatewayAPICRDsChannel (v : string) '(Build_ccm_options a b c d e f g h i j k l m n o p q r s _) : ccm_options := Build_ccm_options a b c d e f g h i j k l m n o p q r s v.

(** The flags, the one for the kubeconfig first: it is controller-runtime's or, when
    that has none, the program's own, and the option gets its value either way. *)
Definition flags `{ZapFlags} : list (string * flag_var ccm_options) :=
  [("kubeconfig", StringVar set_kubeconfig);
   ("metrics-addr", StringVar set_metricsAddr);
   ("health-probe-bind-address", StringVar set_probeAddr);
   ("enable-leader-election", BoolVar set_enableLeaderElection);
   ("leader-election-namespace", StringVar set_leaderElectionNamespace);
   ("node-address-type", StringVar set_endpointAddressTypeString);
   ("cluster-name", StringVar set_clusterName);
   ("kubelb-kubeconfig", StringVar set_kubeLbKubeconf);
   ("enable-cloud-provider", BoolVar set_enableCloudController);
   ("use-ingress-class", BoolVar set_useIngressClass);
   ("use-loadbalancer-class", BoolVar set_useLoadbalancerClass);
   ("use-gateway-class", BoolVar set_useGatewayClass);
   ("disable-ingress-controller", BoolVar set_disableIngressController);
   ("disable-gateway-controller", BoolVar set_disableGatewayController);
   ("disable-httproute-controller", BoolVar set_disableHTTPRouteController);
   ("disable-grpcroute-controller", BoolVar set_disableGRPCRouteController);
   ("enable-secret-synchronizer", BoolVar set_enableSecretSynchronizer);
   ("enable-gateway-api", BoolVar set_enableGatewayAPI);
   ("install-gateway-api-crds", BoolVar set_installGatewayAPICRDs);
   ("gateway-api-crds-channel", StringVar set_gatewayAPICRDsChannel)] ++ zap_flags.
End CCMFlags.

(** The defaults of the flags. *)
Definition ccm_defaults (home : string) : ccm_options :=
  {| co_metricsAddr := ":9445"; co_probeAddr := ":8081"; co_enableCloudController := true; co_useLoadbalancerClass := false;
     co_enableLeaderElection := true; co_leaderElectionNamespace := ""; co_endpointAddressTypeString := "ExternalIP";
     co_clusterName := ""; co_kubeLbKubeconf := defaultKubeLbConf home; co_kubeconfig := ""; co_useIngressClass := true;
     co_useGatewayClass := true; co_disableIngressController := false; co_disableGatewayController := false;
     co_disableHTTPRouteController := false; co_disableGRPCRouteController := false;
     co_enableSecretSynchronizer := false; co_enableGatewayAPI := false; co_installGatewayAPICRDs := false;
     co_gatewayAPICRDsChannel := "standard" |}.

Definition ccm_command_line `{ZapFlags} (home : string) (args : list string) : parsed ccm_options :=
  parse CCMFlags.flags args (ccm_defaults home).

(** ** The manager *)

Record kubelb_options := {
  ko_metricsAddr : string;
  ko_envoyListenAddress : string;
  ko_enableLeaderElection : bool;
  ko_probeAddr : string;
  ko_kubeconfig : string;
  ko_enableDebugMode : bool;
  ko_namespace : string;
  ko_enableTenantMigrationController : bool;
  ko_enableGatewayAPI : bool
}.

Module ManagerFlags.
Definition set_metricsAddr (v : string) '(Build_kubelb_options _ b c d e f g h i) : kubelb_options := Build_kubelb_options v b c d e f g h i.
Definition set_envoyListenAddress (v : string) '(Build_kubelb_options a _ c d e f g h i) : kubelb_options := Build_kubelb_options a v c d e f g h i.
Definition set_enableLeaderElection (v : bool) '(Build_kubelb_options a b _ d e f g h i) : kubelb_options := Build_kubelb_options a b v d e f g h i.
Definition set_probeAddr (v : string) '(Build_kubelb_options a b c _ e f g h i) : kubelb_options := Build_kubelb_options a b c v e f g h i.
Definition set_kubeconfig (v : string) '(Build_kubelb_options a b c d _ f g h i) : kubelb_options := Build_kubelb_options a b c d v f g h i.
Definition set_enableDebugMode (v : bool) '(Build_kubelb_options a b c d e _ g h i) : kubelb_options := Build_kubelb_options a b c d e v g h i.
Definition set_namespace (v : string) '(Build_kubelb_options a b c d e f _ h i) : kubelb_options := Build_kubelb_options a b c d e f v h i.
Definition set_enableTenantMigrationController (v : bool) '(Build_kubelb_options a b c d e f g _ i) : kubelb_options := Build_kubelb_options a b c d e f g v i.
Definition set_enableGatewayAPI (v : bool) '(Build_kubelb_options a b c d e f g h _) : kubelb_options := Build_kubelb_options a b c d e f g h v.

(** [registered]: controller-runtime has a flag for the kubeconfig, whose value the
    program reads before it is parsed. *)
Definition flags `{ZapFlags} (registered : bool) : list (string * flag_var kubelb_options) :=
  [("listen-address", StringVar set_envoyListenAddress);
   ("metrics-addr", StringVar set_metricsAddr);
   ("health-probe-bind-address", StringVar set_probeAddr);
   ("enable-leader-election", BoolVar set_enableLeaderElection);
   ("debug", BoolVar set_enableDebugMode);
   ("namespace", StringVar set_namespace);
   ("enable-tenant-migration", BoolVar set_enableTenantMigrationController);
   ("enable-gateway-api", BoolVar set_enableGatewayAPI);
   ("kubeconfig", if registered then StringVar (λ _ o, o) else StringVar set_kubeconfig)] ++ zap_flags.
End ManagerFlags.

(** What the options are when the flags are defined. *)
Definition kubelb_defaults : kubelb_options :=
  {| ko_metricsAddr := ":9443"; ko_envoyListenAddress := ":8001"; ko_enableLeaderElection := true; ko_probeAddr := ":8081";
     ko_kubeconfig := ""; ko_enableDebugMode := false; ko_namespace := "kubelb"; ko_enableTenantMigrationController := true;
     ko_enableGatewayAPI := false |}.

(** Defining a flag sets the option to the default, the namespace is tested, and only
    then are the flags parsed. *)
Definition kubelb_command_line `{ZapFlags} (registered : bool) (env : string → option string) (args : list string)
    : parsed kubelb_options :=
  let opt := kubelb_defaults in
  let go (opt : kubelb_options) := parse (ManagerFlags.flags registered) args (ManagerFlags.set_kubeconfig "" opt) in
  if decide (String.length (ko_namespace opt) = 0) then
    let ns := default "" (env "NAMESPACE") in
    if decide (String.length ns = 0) then Exit 1 else go (ManagerFlags.set_namespace ns opt)
  else go opt.

(** The environment variable is never looked at: the namespace is the default of the
    flag unless the command line has another. *)
Theorem namespace_variable_unused `{ZapFlags} registered env args :
  kubelb_command_line registered env args = parse (ManagerFlags.flags registered) args kubelb_defaults.
Proof. reflexivity. Qed.
