(* ===== verification/Commands.v ===== *)
(** * The commands (cmd/ccm/main.go, cmd/kubelb/main.go)

    What the two programs do before their controllers run: the options that the command
    line gave are checked, the managers are created, the controllers are set up with what
    they need, and the managers are started.  A run is a list of steps, each of which can
    fail; a failed step ends the program with [os.Exit(1)] or a panic.  Which steps succeed is a
    parameter.  Logging and signal handling are left out. *)
From stdpp Require Import base gmap list strings.
From S2P Require Import Prelude GoStrings Api Names Annotations NetApi Effects Guards Routes LBController TenantController RouteController EnvoyController Bootstrap CCMNode CCMService CCMSources SyncSecrets Permissions GatewayCRDs CommandLine.
Import Core V1alpha1.

(** ** Steps *)

(** The steps that are made: up to the first that fails, that one included. *)
Fixpoint executed {A} (succeeds : A → bool) (steps : list A) : list A :=
  match steps with
  | [] => []
  | s :: steps => s :: (if succeeds s then executed succeeds steps else [])
  end.

Lemma executed_prefix {A} (succeeds : A → bool) steps : executed succeeds steps `prefix_of` steps.
Proof.
  induction steps as [|s steps IH]; simpl; [done|]. apply prefix_cons.
  destruct (succeeds s); [done|apply prefix_nil].
Qed.

(** A step that is made comes after steps that succeeded. *)
Lemma executed_split {A} (succeeds : A → bool) l1 s l2 :
  s ∉ l1 → s ∈ executed succeeds (l1 ++ s :: l2) → Forall (λ x, succeeds x = true) l1.
Proof.
  induction l1 as [|x l1 IH]; simpl; [constructor|].
  intros [Hx Hl]%not_elem_of_cons [->|Hin]%elem_of_cons; [done|].
  destruct (succeeds x) eqn:E; [|by apply elem_of_nil in Hin]. constructor; auto.
Qed.

(** The cases of a membership in a list built from conditional parts. *)
Ltac members H :=
  rewrite ?elem_of_app in H;
  repeat match type of H with
         | _ ∨ _ => destruct H as [H|H]
         | _ ∈ (if ?b then _ else _) => let E := fresh "E" in destruct b eqn:E; [|by apply elem_of_nil in H]
         | _ ∈ _ :: _ => apply elem_of_cons in H as [H|H]
         end; try (by apply elem_of_nil in H); try done.

(** ** The CCM *)

Inductive ccm_controller :=
  | NodeController (r : KubeLBNodeReconciler)
  | ServiceController (r : KubeLBServiceReconciler)
  | IngressController (r : IngressReconciler)
  | GatewayCRDController (channel : string)
  | GatewayController (r : GatewayReconciler)
  | HTTPRouteController (r : HTTPRouteReconciler)
  | GRPCRouteController (r : GRPCRouteReconciler)
  | SecretConversionController
  | SyncSecretController (r : SyncSecrets.SyncSecretReconciler).

(** The cache of the manager for the KubeLB cluster is limited to one namespace. *)
Inductive ccm_step :=
  | CCMGatewayScheme
  | KubeLBRestConfig (path : string)
  | NewKubeLBManager (cacheNamespace : string)
  | CCMRestConfig
  | NewCCMManager (metricsAddr probeAddr : string) (leaderElection : bool) (leaderElectionNamespace : string)
  | AddKubeLBManager
  | SetupCCM (c : ccm_controller)
  | CCMHealthzCheck
  | CCMReadyzCheck
  | NewDirectClient
  | InstallGatewayCRDs (channel : string)
  | MarkConnected
  | StartCCM.

Definition setupControllers (opt : ccm_options) (clusterName endpointAddressType : string) : list ccm_controller :=
  [NodeController {| nr_clusterName := clusterName; nr_endpointAddressType := endpointAddressType |};
   ServiceController {| sr_clusterName := clusterName; sr_cloudController := co_enableCloudController opt;
                        sr_useLoadbalancerClass := co_useLoadbalancerClass opt |}] ++
  (if negb (co_disableIngressController opt) then
     [IngressController {| igr_clusterName := clusterName; igr_useIngressClass := co_useIngressClass opt |}] else []) ++
  (if co_installGatewayAPICRDs opt then [GatewayCRDController (co_gatewayAPICRDsChannel opt)] else []) ++
  (if negb (co_disableGatewayController opt) && co_enableGatewayAPI opt then
     [GatewayController {| gtr_clusterName := clusterName; gtr_useGatewayClass := co_useGatewayClass opt |}] else []) ++
  (if negb (co_disableHTTPRouteController opt) && co_enableGatewayAPI opt then
     [HTTPRouteController {| htr_clusterName := clusterName |}] else []) ++
  (if negb (co_disableGRPCRouteController opt) && co_enableGatewayAPI opt then
     [GRPCRouteController {| grr_clusterName := clusterName |}] else []) ++
  (if co_enableSecretSynchronizer opt then [SecretConversionController] else []) ++
  [SyncSecretController {| ssr_clusterName := clusterName |}].

(** The namespace of the tenant in the KubeLB cluster. *)
Definition cluster_namespace (clusterName : string) : string :=
  if negb (HasPrefix clusterName "tenant-") then "tenant-" +:+ clusterName else clusterName.

Definition node_address_type (s : string) : option string :=
  if decide (s = "InternalIP") then Some "InternalIP"
  else if decide (s = "ExternalIP") then Some "ExternalIP"
  else None.

(** [None]: the program exits before anything is contacted. *)
Definition ccm_main (opt : ccm_options) : option (list ccm_step) :=
  if decide (co_clusterName opt = "") then None
  else
    let clusterName := cluster_namespace (co_clusterName opt) in
    if negb (IsValidGatewayAPICRDsChannel (co_gatewayAPICRDsChannel opt)) then None
    else
      endpointAddressType ← node_address_type (co_endpointAddressTypeString opt);
      Some ((if co_enableGatewayAPI opt then [CCMGatewayScheme] else []) ++
            [KubeLBRestConfig (co_kubeLbKubeconf opt); NewKubeLBManager clusterName; CCMRestConfig;
             NewCCMManager (co_metricsAddr opt) (co_probeAddr opt) (co_enableLeaderElection opt) (co_leaderElectionNamespace opt);
             AddKubeLBManager] ++
            (SetupCCM <$> setupControllers opt clusterName endpointAddressType) ++
            [CCMHealthzCheck; CCMReadyzCheck] ++
            (if co_installGatewayAPICRDs opt
             then [NewDirectClient; InstallGatewayCRDs (co_gatewayAPICRDsChannel opt)] else []) ++
            [MarkConnected; StartCCM]).

(** ** The manager *)

Inductive kubelb_controller :=
  | LoadBalancerController (r : LoadBalancerReconciler)
  | EnvoyCPController (r : EnvoyCPReconciler) (disableGatewayAPI : bool)
  | RouteControllerOf (r : RouteReconciler)
  | LBSyncSecretController (ns topology : string)
  | TenantControllerOf (ns : string)
  | BridgeServiceController.

Inductive kubelb_step :=
  | ManagerGatewayScheme
  | NewManager (metricsAddr probeAddr : string) (leaderElection : bool) (leaderElectionNamespace : string)
  | NewEnvoyManager
  | LoadConfig (ns : string)
  | NewEnvoyServer (listenAddress : string) (enableAdmin : bool)
  | AddEnvoyServer
  | LoadPortState
  | Setup (c : kubelb_controller)
  | HealthzCheck
  | ReadyzCheck
  | StartEnvoyManager
  | StartManager.

(** The steps until the configuration is there, and those that follow. *)
Definition kubelb_begin (opt : kubelb_options) : list kubelb_step :=
  (if ko_enableGatewayAPI opt then [ManagerGatewayScheme] else []) ++
  [NewManager (ko_metricsAddr opt) (ko_probeAddr opt) (ko_enableLeaderElection opt) (ko_namespace opt); NewEnvoyManager;
   LoadConfig (ko_namespace opt)].

Definition kubelb_rest (opt : kubelb_options) (conf : Config) : list kubelb_step :=
  let ns := ko_namespace opt in
  let topology := ep_topology (cs_envoyProxy (cf_spec conf)) in
  let disableGatewayAPI := negb (ko_enableGatewayAPI opt) in
  [NewEnvoyServer (ko_envoyListenAddress opt) (ko_enableDebugMode opt); AddEnvoyServer; LoadPortState;
   Setup (LoadBalancerController {| lr_namespace := ns; lr_topology := topology |});
   HealthzCheck; ReadyzCheck;
   Setup (EnvoyCPController {| er_namespace := ns; er_topology := topology |} disableGatewayAPI);
   Setup (RouteControllerOf {| rr_namespace := ns; rr_topology := topology; rr_disableGatewayAPI := disableGatewayAPI |});
   Setup (LBSyncSecretController ns topology);
   Setup (TenantControllerOf ns)] ++
  (if IsGlobalTopology conf then [Setup BridgeServiceController] else []) ++
  [StartEnvoyManager; StartManager].

(** Whether the server can be made is computed: a panic ends the program as well. *)
Definition server_created (opt : kubelb_options) (conf : Config) : bool :=
  match NewServer conf (ko_envoyListenAddress opt) (ko_enableDebugMode opt) with
  | Done (inr _) => true
  | _ => false
  end.

Definition kubelb_main (succeeds : kubelb_step → bool) (opt : kubelb_options) (conf : Config) : list kubelb_step :=
  let ok s := match s with NewEnvoyServer _ _ => server_created opt conf | _ => succeeds s end in
  executed ok (kubelb_begin opt ++ kubelb_rest opt conf).

(** ** The namespace of a tenant *)

Lemma sapp_prefix_ne s t : s ≠ "" → s +:+ t ≠ t.
Proof.
  intros Hs E. apply (f_equal String.length) in E. rewrite slen_app in E. destruct s; [done|]. simpl in E. lia.
Qed.

(** The CCM and the manager agree on the namespace of a tenant, given by its name or
    by the namespace, exactly for names that do not start with [tenant-]. *)
Lemma cluster_namespace_agrees t :
  cluster_namespace (tenantNamespacePattern t) = tenantNamespacePattern t ∧
  (cluster_namespace t = tenantNamespacePattern t ↔ HasPrefix t "tenant-" = false).
Proof.
  unfold cluster_namespace, tenantNamespacePattern. split.
  - rewrite (proj2 (HasPrefix_spec _ _)) by by eexists. done.
  - destruct (HasPrefix t "tenant-") eqn:E; simpl; [|done]. split; [|done].
    intros E'. by destruct (sapp_prefix_ne "tenant-" t).
Qed.

(** ** What a CCM does before it starts *)

Definition ccm_before (opt : ccm_options) : list ccm_step :=
  (if co_enableGatewayAPI opt then [CCMGatewayScheme] else []) ++
  [KubeLBRestConfig (co_kubeLbKubeconf opt); NewKubeLBManager (cluster_namespace (co_clusterName opt)); CCMRestConfig;
   NewCCMManager (co_metricsAddr opt) (co_probeAddr opt) (co_enableLeaderElection opt) (co_leaderElectionNamespace opt);
   AddKubeLBManager].
Definition ccm_after (opt : ccm_options) : list ccm_step :=
  [CCMHealthzCheck; CCMReadyzCheck] ++
  (if co_installGatewayAPICRDs opt then [NewDirectClient; InstallGatewayCRDs (co_gatewayAPICRDsChannel opt)] else []) ++
  [MarkConnected].
Definition ccm_setup (opt : ccm_options) (addr : string) : list ccm_controller :=
  setupControllers opt (cluster_namespace (co_clusterName opt)) addr.

Lemma ccm_main_steps opt steps :
  ccm_main opt = Some steps →
  ∃ addr, steps = (ccm_before opt ++ (SetupCCM <$> ccm_setup opt addr) ++ ccm_after opt) ++ [StartCCM] ∧
    co_clusterName opt ≠ "" ∧ IsValidGatewayAPICRDsChannel (co_gatewayAPICRDsChannel opt) = true ∧
    node_address_type (co_endpointAddressTypeString opt) = Some addr.
Proof.
  unfold ccm_main. destruct (decide _); [done|]. destruct (IsValidGatewayAPICRDsChannel _); [|done].
  destruct (node_address_type _) as [addr|]; [|done]. intros [= <-]. exists addr. split; [|done].
  unfold ccm_before, ccm_after, ccm_setup. rewrite <- !app_assoc. done.
Qed.

Lemma setup_elem opt addr c :
  SetupCCM c ∈ (ccm_before opt ++ (SetupCCM <$> ccm_setup opt addr) ++ ccm_after opt) ++ [StartCCM] →
  c ∈ ccm_setup opt addr.
Proof.
  unfold ccm_before, ccm_after. intros Hin. members Hin. by apply list_elem_of_fmap in Hin as (c' & [= <-] & Hin).
Qed.

(** ** The controllers of a CCM stay within the role of its tenant *)

Section confined.
Context `{Unicode} `{Finalizers} `{SemanticDeepEqual (gomap string)} `{SemanticDeepEqual ServiceSpec} `{Scheme}
  `{SourceCodec KIngress} `{SourceCodec KGateway} `{SourceCodec KHTTPRoute} `{SourceCodec KGRPCRoute}.

(** Every call of every run of the controller, with honest answers, meets [P]. *)
Definition confined (P : call → Prop) (c : ccm_controller) : Prop :=
  match c with
  | NodeController r => honest_calls P (ReconcileNode r)
  | ServiceController r => ∀ req, honest_calls P (ReconcileService r req)
  | IngressController r => ∀ req, honest_calls P (ReconcileIngress r req)
  | GatewayCRDController _ => ∀ r req, honest_calls P (ReconcileGatewayCRD r req)
  | GatewayController r => ∀ req, honest_calls P (ReconcileGateway r req)
  | HTTPRouteController r => ∀ req, honest_calls P (ReconcileHTTPRoute r req)
  | GRPCRouteController r => ∀ req, honest_calls P (ReconcileGRPCRoute r req)
  | SecretConversionController => ∀ req, honest_calls P (ReconcileSecretConversion req)
  | SyncSecretController r => ∀ req, honest_calls P (ReconcileCCMSyncSecret r req)
  end.

Lemma gateway_crd_permitted cluster r req : honest_calls (permitted tenant_rules cluster) (ReconcileGatewayCRD r req).
Proof.
  apply honest_only. unfold ReconcileGatewayCRD, reconcileCRD.
  destruct (gcr_crds r !! nn_name req) as [source|]; simpl; by repeat (split; [done|intros [?|]]).
Qed.

Lemma setup_confined opt cluster addr c :
  c ∈ setupControllers opt cluster addr → confined (permitted tenant_rules cluster) c.
Proof.
  unfold setupControllers. intros Hc. members Hc; subst c; cbn [confined]; intros;
    first [by apply node_permitted|by apply service_permitted|by apply source_permitted|apply gateway_crd_permitted
          |apply secret_permitted|by apply sync_secret_permitted].
Qed.

(** C3: tenants are kept apart.  A CCM started for a tenant, named by itself or by
    its namespace, with any other flags: in every run of every controller it sets up, against API
    servers that answer a get with the object asked for, each call to the KubeLB
    cluster is for an object in the namespace the tenant controller made for that
    tenant, and the role in it grants the resource and the verb. *)
Theorem ccm_confined opt t steps c :
  HasPrefix t "tenant-" = false →
  co_clusterName opt = t ∨ co_clusterName opt = tenantNamespacePattern t →
  ccm_main opt = Some steps → SetupCCM c ∈ steps →
  confined (permitted tenant_rules (tenantNamespacePattern t)) c.
Proof.
  intros Ht Hname. destruct (cluster_namespace_agrees t) as [Hns Hn].
  assert (cluster_namespace (co_clusterName opt) = tenantNamespacePattern t) as Hc.
  { destruct Hname as [->| ->]; [by apply Hn|done]. }
  intros (addr & -> & _)%ccm_main_steps Hin%setup_elem. rewrite <- Hc. by eapply setup_confined.
Qed.
End confined.

(** A CCM that starts its controllers was given a tenant, a channel and an
    address type that exist; every earlier step succeeded, the installation of the
    Gateway API CRDs among them when it is asked for; and the controllers for the
    Gateway API are there only when it is enabled. *)
Theorem ccm_starts_ready succeeds opt steps :
  ccm_main opt = Some steps → StartCCM ∈ executed succeeds steps →
  co_clusterName opt ≠ "" ∧
  (co_gatewayAPICRDsChannel opt = "standard" ∨ co_gatewayAPICRDsChannel opt = "experimental") ∧
  (co_endpointAddressTypeString opt = "InternalIP" ∨ co_endpointAddressTypeString opt = "ExternalIP") ∧
  (∀ s, s ∈ steps → s ≠ StartCCM → succeeds s = true) ∧
  (co_installGatewayAPICRDs opt = true → InstallGatewayCRDs (co_gatewayAPICRDsChannel opt) ∈ steps) ∧
  (∀ r, SetupCCM (GatewayController r) ∈ steps → co_enableGatewayAPI opt = true) ∧
  (∀ r, SetupCCM (HTTPRouteController r) ∈ steps → co_enableGatewayAPI opt = true) ∧
  (∀ r, SetupCCM (GRPCRouteController r) ∈ steps → co_enableGatewayAPI opt = true).
Proof.
  intros (addr & -> & Hname & Hch & Haddr)%ccm_main_steps Hstart.
  split; [done|]. split; [unfold IsValidGatewayAPICRDsChannel in Hch; by case_decide|].
  split; [unfold node_address_type in Haddr; repeat case_decide; auto; done|]. split.
  { apply executed_split in Hstart.
    - intros s [Hs|Hs%list_elem_of_singleton]%elem_of_app Hne; [|done]. exact (proj1 (list.Forall_forall _ _) Hstart s Hs).
    - unfold ccm_before, ccm_after. intros Hs. members Hs. by apply list_elem_of_fmap in Hs as (? & ? & _). }
  split.
  { intros Hi. unfold ccm_after. rewrite Hi. set_solver. }
  split_and!; intros r Hr%setup_elem; unfold ccm_setup, setupControllers in Hr; members Hr; by apply andb_true_iff in E as [_ E].
Qed.

(** ** What the manager does before it starts *)

(** What is made before a step has succeeded, and comes before it in the program. *)
Lemma executed_app {A} (succeeds : A → bool) steps l1 s l2 :
  executed succeeds steps = l1 ++ s :: l2 →
  Forall (λ x, succeeds x = true) l1 ∧ ∃ l3, steps = l1 ++ s :: l3.
Proof.
  revert steps. induction l1 as [|x l1 IH]; intros [|y steps]; simpl; try done.
  - intros [= -> _]. split; [constructor|by eexists].
  - intros [= <- E]. destruct (succeeds y) eqn:Hy; [|by destruct l1].
    destruct (IH steps E) as [Hf [l3 ->]]. split; [by constructor|by eexists].
Qed.

(** The namespace and the topology a controller is given. *)
Definition settings_of (c : kubelb_controller) : option string * option string :=
  match c with
  | LoadBalancerController r => (Some (lr_namespace r), Some (lr_topology r))
  | EnvoyCPController r _ => (Some (er_namespace r), Some (er_topology r))
  | RouteControllerOf r => (Some (rr_namespace r), Some (rr_topology r))
  | LBSyncSecretController ns topology => (Some ns, Some topology)
  | TenantControllerOf ns => (Some ns, None)
  | BridgeServiceController => (None, None)
  end.

Lemma setup_after_load opt conf l1 c l3 :
  kubelb_begin opt ++ kubelb_rest opt conf = l1 ++ Setup c :: l3 →
  ∃ l, l1 = kubelb_begin opt ++
    [NewEnvoyServer (ko_envoyListenAddress opt) (ko_enableDebugMode opt); AddEnvoyServer; LoadPortState] ++ l.
Proof.
  unfold kubelb_begin. destruct (ko_enableGatewayAPI opt).
  - do 7 (destruct l1 as [|? l1]; [done|]). simpl. intros E. injection E as <- <- <- <- <- <- <- E. by exists l1.
  - do 6 (destruct l1 as [|? l1]; [done|]). simpl. intros E. injection E as <- <- <- <- <- <- E. by exists l1.
Qed.

(** C28: the manager sets a controller up only when the configuration was read, the
    Envoy server was made, and the port allocator has loaded the ports of the objects
    that exist, so that none is given out twice after a restart.  All controllers
    get the namespace of the flags and the topology of that configuration, and the
    one for bridge Services is there exactly in the global topology. *)
Theorem manager_sets_up_ready succeeds opt conf l1 c l2 :
  kubelb_main succeeds opt conf = l1 ++ Setup c :: l2 →
  LoadPortState ∈ l1 ∧ succeeds LoadPortState = true ∧
  LoadConfig (ko_namespace opt) ∈ l1 ∧ succeeds (LoadConfig (ko_namespace opt)) = true ∧
  (∃ s, NewServer conf (ko_envoyListenAddress opt) (ko_enableDebugMode opt) = Done (inr s)) ∧
  (∀ ns, (settings_of c).1 = Some ns → ns = ko_namespace opt) ∧
  (∀ topology, (settings_of c).2 = Some topology → topology = ep_topology (cs_envoyProxy (cf_spec conf))) ∧
  (c = BridgeServiceController → IsGlobalTopology conf = true).
Proof.
  unfold kubelb_main. intros (Hok & l3 & Hsteps)%executed_app.
  assert (Setup c ∈ kubelb_begin opt ++ kubelb_rest opt conf) as Hin by (rewrite Hsteps; set_solver).
  apply setup_after_load in Hsteps as [l ->].
  unfold kubelb_begin in *. rewrite <- app_assoc in Hok. apply Forall_app in Hok as [_ Hok]. simpl in Hok.
  rewrite !list.Forall_cons in Hok. destruct Hok as (_ & _ & Hcfg & Hsrv & _ & Hload & _).
  split; [set_solver|]. split; [done|]. split; [set_solver|]. split; [done|]. split.
  { unfold server_created in Hsrv. destruct (NewServer _ _ _) as [[e|s]|]; [done|by exists s|done]. }
  unfold kubelb_rest in Hin. members Hin; injection Hin as ->; simpl; repeat split; intros; by simplify_eq.
Qed.

Lemma manager_sets_up_ready_witness :
  let opt := ManagerFlags.set_enableGatewayAPI true kubelb_defaults in
  let conf := srv_config (plain_server false) in
  ∃ l1 l2, kubelb_main (λ _, true) opt conf = l1 ++ Setup (TenantControllerOf "kubelb") :: l2 ∧ LoadPortState ∈ l1.
Proof.
  intros opt conf. set (steps := kubelb_main (λ _, true) opt conf).
  assert (steps = take 13 steps ++ Setup (TenantControllerOf "kubelb") :: drop 14 steps) as E by (vm_compute; reflexivity).
  eexists _, _. split; [exact E|]. exact (proj1 (manager_sets_up_ready (λ _, true) opt conf _ _ _ E)).
Defined.

Definition shop_options : ccm_options :=
  CCMFlags.set_enableSecretSynchronizer true (CCMFlags.set_enableGatewayAPI true (CCMFlags.set_installGatewayAPICRDs true
    (CCMFlags.set_endpointAddressTypeString "InternalIP" (CCMFlags.set_clusterName "shop" (ccm_defaults "/home/nonroot"))))).

Lemma ccm_starts_ready_witness :
  match ccm_main shop_options with
  | Some steps => length steps = 21 ∧ InstallGatewayCRDs "standard" ∈ steps
  | None => False
  end.
Proof.
  assert (match ccm_main shop_options with
    | Some steps => length steps = 21 ∧ last (executed (λ _, true) steps) = Some StartCCM | None => False end) as Hok
    by (vm_compute; split; reflexivity).
  destruct (ccm_main shop_options) as [steps|] eqn:E; [|destruct Hok]. destruct Hok as [Hlen Hlast].
  split; [exact Hlen|].
  destruct (ccm_starts_ready (λ _, true) shop_options steps E) as (_ & _ & _ & _ & Hi & _);
    [apply last_Some_elem_of; exact Hlast|].
  apply Hi. reflexivity.
Defined.

(** A tenant whose name starts with [tenant-]: the CCM and the manager disagree on
    its namespace. *)
Example prefixed_tenant_split :
  cluster_namespace "tenant-a" = "tenant-a" ∧ tenantNamespacePattern "tenant-a" = "tenant-tenant-a".
Proof. done. Qed.

(** Decoders that fail, which is enough for the calls that are made. *)
Definition no_codec (k : Effects.kind) : SourceCodec k :=
  {| toUnstructured _ := inl (Errorf "no codec"); unmarshalStatus _ := inl (Errorf "no codec") |}.

Lemma ccm_confined_witness :
  let r := {| sr_clusterName := "tenant-shop"; sr_cloudController := true; sr_useLoadbalancerClass := false |} in
  honest_calls (permitted tenant_rules "tenant-shop")
    (ReconcileService (H := no_unicode) (H0 := list_finalizers) (H1 := semantic_by_contents) r
       {| nn_namespace := "shop"; nn_name := "web" |}).
Proof.
  intros r.
  assert (match ccm_main shop_options with Some steps => SetupCCM (ServiceController r) ∈ steps | None => False end) as Hok.
  { apply list_elem_of_lookup. exists 7. vm_compute. reflexivity. }
  destruct (ccm_main shop_options) as [steps|] eqn:E; [|destruct Hok].
  refine (ccm_confined (H := no_unicode) (H0 := list_finalizers) (H1 := semantic_by_contents) (H2 := service_spec_equality)
    (H3 := sample_scheme) (H4 := sample_codec) (H5 := no_codec KGateway) (H6 := no_codec KHTTPRoute) (H7 := no_codec KGRPCRoute)
    shop_options "shop" steps (ServiceController r) _ _ E Hok {| nn_namespace := "shop"; nn_name := "web" |}).
  - vm_compute. reflexivity.
  - left. reflexivity.
Defined.
