(* ===== verification/Lifecycle.v ===== *)
(** * The end of a tenant

    A Tenant that is being deleted goes away: the tenant controller marks the
    LoadBalancers, Routes and SyncSecrets of the namespace, their controllers clean up and
    release them, in any order and as often as it may be, and the next reconciliation of
    the Tenant removes the tenant's resources, the namespace and the Tenant. *)
From Stdlib Require Import Ascii.
From stdpp Require Import base gmap list strings pretty.
From S2P Require Import Prelude GoStrings GoEncoding Api Names Annotations LoadBalancers NetApi Effects Guards Objects Finalized ApiServer Services RouteResources LBController TenantController Routes RouteController CCMService SyncSecrets.
Import Core V1alpha1.

(** ** Programs that succeed *)

(** The program succeeds against the API server, whatever the state. *)
Definition succeeds {A} (p : prog (outcome A)) : Prop :=
  ∀ w log, ∃ w' log' a, run api_server p w log = (w', log', Done (inr a)).

Lemma succeeds_ok {A} (a : A) : succeeds (ok a).
Proof. intros w log. by eexists _, _, _. Qed.

Lemma succeeds_delete k ns n e : succeeds (delete_ignoring k ns n e).
Proof. intros w log. destruct (run_delete_ignoring k ns n e w log) as (w' & log' & E). by exists w', log', (). Qed.

Lemma succeeds_try {A B} (p : prog (outcome A)) (f : A → prog (outcome B)) :
  succeeds p → (∀ a, succeeds (f a)) → succeeds (try p f).
Proof.
  intros Hp Hf w log. destruct (Hp w log) as (w1 & l1 & a & E). rewrite (run_try _ _ _ _ _ _ _ _ E). apply Hf.
Qed.

(** A program that succeeds and does not write the kinds [ks]. *)
Lemma run_leaving {A} (p : prog (outcome A)) (ks : list Effects.kind) w log :
  succeeds p → Forall (λ k, only_calls (λ c, writes_kind k c = false) p) ks →
  ∃ w' log' a, run api_server p w log = (w', log', Done (inr a)) ∧ (∀ k, k ∈ ks → objs w' k = objs w k).
Proof.
  intros Hp Hks. destruct (Hp w log) as (w1 & l1 & a & E). exists w1, l1, a. split; [done|]. intros k Hk.
  rewrite list.Forall_forall in Hks. pose proof (run_other p k w log (Hks k Hk)) as Ho. by rewrite E in Ho.
Qed.

(** ** Objects that are going away *)

(** Marked, with finalizers that are all among [fs]. *)
Definition dying {k : Effects.kind} (fs : list string) (o : objT k) : Prop :=
  deletionTimestamp (meta_of o) ≠ None ∧ finalizers (meta_of o) ≠ [] ∧ Forall (λ f, f ∈ fs) (finalizers (meta_of o)).

(** The kinds a tenant's namespace is drained of, those their controllers read, and those
    of the tenant's own resources. *)
Definition watched : list Effects.kind :=
  [KTenant; KConfig; KLoadBalancer; KRoute; KSyncSecret; KNamespace; KServiceAccount; KRole; KRoleBinding].
Lemma watched_spec k :
  k ∈ watched ↔ k = KTenant ∨ k = KConfig ∨ k = KLoadBalancer ∨ k = KRoute ∨ k = KSyncSecret ∨ k = KNamespace ∨
    k = KServiceAccount ∨ k = KRole ∨ k = KRoleBinding.
Proof. unfold watched. rewrite !elem_of_cons, elem_of_nil. tauto. Qed.

Ltac leaves_watched :=
  apply list.Forall_forall; intros ?; rewrite watched_spec; intros Hwatched;
  repeat destruct Hwatched as [->|Hwatched]; subst; by solve_calls.

(** The end of a cleanup: without its finalizers the object is gone. *)
Lemma run_removal {k : Effects.kind} w log key (o o' : objT k) msg {A} (a : A) :
  objs w k !! key = Some o → obj_key o = key → deletionTimestamp (meta_of o) ≠ None →
  o' = set_meta (with_finalizers [] (meta_of o)) o →
  ∃ w' log', run api_server (_ <-[msg] perform (Update k o') ;; ok a) w log = (w', log', Done (inr a)) ∧
    objs w' k = delete key (objs w k) ∧ (∀ k', k ≠ k' → objs w' k' = objs w k').
Proof.
  intros Ho Hkey Hd ->. set (o' := set_meta _ o).
  destruct (do_update_removes w key o o') as (w' & Hrun & Hk & Hother); unfold o'; rewrite ?obj_key_set_meta, ?meta_of_set; try done.
  unfold try_wrap. cbn [mbind prog_bind prog_bind_ perform run]. fold o'.
  change (api_server w (Update k o')) with (do_update w o'). rewrite Hrun. cbn [ok prog_bind_ run].
  by eexists w', _.
Qed.

Lemma remove_all_finalizers `{FinalizerLaws} fs m :
  Forall (λ f, f ∈ fs) (finalizers m) → foldl RemoveFinalizer m fs = with_finalizers [] m.
Proof.
  revert m. induction fs as [|f fs IH]; intros m Hm; simpl.
  - destruct (finalizers m) as [|g gs] eqn:E; [|apply list.Forall_cons in Hm as [Hg _]; by apply elem_of_nil in Hg].
    destruct m; simpl in *. by subst.
  - rewrite IH; [by rewrite remove_finalizer|]. rewrite remove_finalizer. simpl.
    rewrite list.Forall_forall in Hm |- *. intros g Hg. apply list_elem_of_filter in Hg as [Hne Hg].
    by destruct (proj1 (elem_of_cons _ _ _) (Hm g Hg)).
Qed.

(** Where the kinds a controller writes end up. *)
Definition drops (k : Effects.kind) (key : string * string) (w w' : world) : Prop :=
  objs w' k = delete key (objs w k) ∧ ∀ k', k' ∈ watched → k ≠ k' → objs w' k' = objs w k'.

(** ** LoadBalancers *)

Definition lb_finalizers : list string := [CleanupFinalizer; envoyProxyCleanupFinalizer; hostnameCleanupFinalizer].

Section load_balancer.
Context `{Unicode} `{FinalizerLaws} `{SemanticDeepEqual (gomap string)} `{SemanticDeepEqual (list ServicePort)}
  `{SemanticDeepEqual IngressSpec} `{SemanticDeepEqual GatewayRouteSpec}
  (SetControllerReference : LoadBalancer → ObjectMeta → error + ObjectMeta) (retries : nat) (r : LoadBalancerReconciler).

Lemma dying_lb_any (lb : LoadBalancer) : dying (k:=KLoadBalancer) lb_finalizers lb → any_finalizer lb = true.
Proof.
  intros (_ & Hne & Hall). unfold any_finalizer. destruct (finalizers (lb_meta lb)) as [|f fs] eqn:E; [done|].
  assert (f ∈ finalizers (lb_meta lb)) as Hf by (rewrite E; by left).
  rewrite !orb_true_iff, !contains_finalizer. simpl in Hall. rewrite E in Hall.
  apply list.Forall_cons in Hall as [Hf' _]. unfold lb_finalizers in Hf'. rewrite !elem_of_cons, elem_of_nil in Hf'.
  destruct Hf' as [->|[->|[->|[]]]]; auto.
Qed.

Lemma run_cleanup w log ns n (lb : LoadBalancer) rns :
  filed w → objs w KLoadBalancer !! (ns, n) = Some lb → dying (k:=KLoadBalancer) lb_finalizers lb →
  ∃ w' log', run api_server (cleanup r lb rns) w log = (w', log', Done (inr ())) ∧ drops KLoadBalancer (ns, n) w w'.
Proof.
  intros Hw Hlb (Hd & _ & Hfs). unfold cleanup. cbn [mbind prog_bind prog_bind_ perform run].
  change (api_server w (DeallocateLB lb)) with (w, ()).
  destruct (run_leaving (if ContainsFinalizer (lb_meta lb) hostnameCleanupFinalizer
    then cleanupHostnameResources lb rns else ok ()) watched w (log ++ [existT (DeallocateLB lb) ()])) as (w1 & l1 & [] & R1 & E1).
  { destruct (ContainsFinalizer _ _); [|apply succeeds_ok]. apply succeeds_try; intros; apply succeeds_delete. }
  { unfold cleanupHostnameResources. destruct (ContainsFinalizer _ _); leaves_watched. }
  rewrite (run_try _ _ _ _ _ _ _ _ R1). cbv zeta.
  match goal with |- context [delete_ignoring KService rns _ ?e] =>
    destruct (run_leaving (delete_ignoring KService rns (service_name r lb) e) watched w1 l1) as (w2 & l2 & [] & R2 & E2) end.
  { apply succeeds_delete. }
  { leaves_watched. }
  rewrite (run_try _ _ _ _ _ _ _ _ R2).
  assert (∀ k, k ∈ watched → objs w2 k = objs w k) as E by (intros k Hk; by rewrite E2, E1).
  assert (KLoadBalancer ∈ watched) as Hin by by apply watched_spec; tauto.
  edestruct (run_removal (k:=KLoadBalancer) w2 l2 (ns, n) lb (without_finalizers lb)) as (w3 & l3 & Hrun & Hk & Ho).
  { by rewrite (E _ Hin). }
  { by apply (Hw KLoadBalancer). }
  { done. }
  { unfold without_finalizers. change (RemoveFinalizer _ hostnameCleanupFinalizer) with (foldl RemoveFinalizer (lb_meta lb) lb_finalizers).
    by rewrite remove_all_finalizers. }
  rewrite Hrun. exists w3, l3. split; [done|]. split; [by rewrite Hk, (E _ Hin)|].
  intros k' Hk' Hne. rewrite (Ho k' Hne). by apply E.
Qed.

Lemma lb_released w ns n (lb : LoadBalancer) :
  filed w → objs w KLoadBalancer !! (ns, n) = Some lb → dying (k:=KLoadBalancer) lb_finalizers lb →
  ls_endpoints (lb_spec lb) ≠ [] →
  drops KLoadBalancer (ns, n) w (exec (Reconcile SetControllerReference retries r {| nn_namespace := ns; nn_name := n |}) w).
Proof.
  intros Hw Hlb Hdy Hep. unfold exec, Reconcile. cbn [mbind prog_bind prog_bind_ perform run nn_namespace nn_name].
  rewrite (api_get (k:=KLoadBalancer) w _ _ lb Hlb), decide_False by done.
  set (req := {| nn_namespace := ns; nn_name := n |}). set (l := [] ++ _).
  assert (∃ l0 lbs rns, run api_server (listed_load_balancers r req) w l = (w, l0, Done (inr (lbs, rns)))) as (l0 & lbs & rns & R0).
  { unfold listed_load_balancers. case_decide; [by eexists _, _, _|]. case_decide; by eexists _, _, _. }
  rewrite (run_try _ _ _ _ _ _ _ _ R0), decide_True by apply Hdy. rewrite dying_lb_any by done.
  destruct (run_cleanup w l0 ns n lb rns) as (w1 & l1 & Hrun & Hdrop); [done..|].
  rewrite (run_try _ _ _ _ _ _ _ _ Hrun). exact Hdrop.
Qed.
End load_balancer.

(** ** Routes and SyncSecrets *)

Lemma dying_contains {k : Effects.kind} `{FinalizerLaws} f (o : objT k) : dying [f] o → ContainsFinalizer (meta_of o) f = true.
Proof.
  intros (_ & Hne & Hall). apply contains_finalizer. destruct (finalizers (meta_of o)) as [|g gs]; [done|].
  apply list.Forall_cons in Hall as [Hg _]. apply list_elem_of_singleton in Hg as ->. by left.
Qed.

Lemma delete_recorded_succeeds r route entries : succeeds (delete_recorded r route entries).
Proof.
  induction entries as [|[key value] entries IH]; [apply succeeds_ok|]. cbn [delete_recorded].
  apply succeeds_try; [apply succeeds_delete|]. by intros _.
Qed.

Lemma delete_recorded_leaves r route entries :
  Forall (λ k, only_calls (λ c, writes_kind k c = false) (delete_recorded r route entries)) watched.
Proof.
  apply list.Forall_forall. intros k Hk. induction entries as [|[key value] entries IH]; [done|]. cbn [delete_recorded].
  apply only_calls_try; [|done]. apply only_calls_delete. simpl. apply bool_decide_false. intros <-.
  apply watched_spec in Hk. by repeat destruct Hk as [?|Hk].
Qed.

Section route.
Context `{Unicode} `{FinalizerLaws} `{Scheme} `{UnstructuredConverter}
  `{SemanticDeepEqual ServiceSpec} `{SemanticDeepEqual (gomap string)} `{SemanticDeepEqual IngressSpec}
  `{SemanticDeepEqual GatewayRouteSpec} `{SemanticDeepEqual GatewaySpec}
  (error_text : error → string) (MarshalServiceStatus : Service → error + opaque) (MarshalStatus : opaque → error + opaque)
  (range : gmap string RouteServiceStatus → list (string * RouteServiceStatus)) (retries : nat) (r : RouteReconciler).

Lemma route_released w ns n (route : Route) (tenant : Tenant) (config : Config) :
  filed w → objs w KRoute !! (ns, n) = Some route → dying (k:=KRoute) [CleanupFinalizer] route →
  objs w KTenant !! ("", RemoveTenantPrefix ns) = Some tenant →
  objs w KConfig !! (rr_namespace r, DefaultConfigResourceName) = Some config →
  drops KRoute (ns, n) w
    (exec (ReconcileRoute error_text MarshalServiceStatus MarshalStatus range retries r {| nn_namespace := ns; nn_name := n |}) w).
Proof.
  intros Hw Hr Hdy Ht Hc. pose proof (Hw KRoute _ _ Hr) as Hkey. injection Hkey as Hns Hn. simpl in Hns.
  unfold exec, ReconcileRoute. cbn [mbind prog_bind prog_bind_ perform run nn_namespace nn_name].
  rewrite (api_get (k:=KRoute) w _ _ route Hr), Hns. set (l := [] ++ _).
  assert (∃ l', run api_server (GetTenantAndConfig (rr_namespace r) (RemoveTenantPrefix ns)) w l =
    (w, l', Done (inr (tenant, config)))) as (l1 & R1).
  { unfold GetTenantAndConfig, GetTenant, GetConfig, try. cbn [mbind prog_bind prog_bind_ perform run].
    rewrite (api_get (k:=KTenant) w _ _ tenant Ht). cbn [prog_bind_ run].
    rewrite (api_get (k:=KConfig) w _ _ config Hc). by eexists. }
  rewrite (run_try _ _ _ _ _ _ _ _ R1), decide_True by apply Hdy.
  pose proof (dying_contains (k:=KRoute) _ _ Hdy) as Hf. simpl in Hf. rewrite Hf.
  destruct (run_leaving (delete_recorded r route (range (contents (rrs_services (rt_status route))))) watched w l1)
    as (w2 & l2 & [] & R2 & E2); [apply delete_recorded_succeeds|apply delete_recorded_leaves|].
  assert (KRoute ∈ watched) as Hin by by apply watched_spec; tauto.
  edestruct (run_removal (k:=KRoute) w2 (l2 ++ [existT (DeallocateRoute route) ()]) (ns, n) route
    (with_rt_meta (RemoveFinalizer (rt_meta route) CleanupFinalizer) route)) as (w3 & l3 & R3 & Hk & Ho).
  { by rewrite (E2 _ Hin). }
  { by apply (Hw KRoute). }
  { apply Hdy. }
  { change (RemoveFinalizer (rt_meta route) CleanupFinalizer) with (foldl RemoveFinalizer (rt_meta route) [CleanupFinalizer]).
    rewrite remove_all_finalizers; [done|]. apply Hdy. }
  assert (run api_server (cleanupRoute range r route) w l1 = (w3, l3, Done (inr ()))) as R.
  { unfold cleanupRoute. rewrite (run_try _ _ _ _ _ _ _ _ R2). exact R3. }
  rewrite (run_try _ _ _ _ _ _ _ _ R). split; [simpl; by rewrite Hk, (E2 _ Hin)|].
  intros k' Hk' Hne. simpl. rewrite (Ho k' Hne). by apply E2.
Qed.
End route.

Lemma sync_secret_released `{FinalizerLaws} `{SemanticDeepEqual (gomap string)} w ns n (o : SyncSecret) :
  filed w → objs w KSyncSecret !! (ns, n) = Some o → dying (k:=KSyncSecret) [CleanupFinalizer] o →
  drops KSyncSecret (ns, n) w (exec (ReconcileSyncSecret {| nn_namespace := ns; nn_name := n |}) w).
Proof.
  intros Hw Ho Hdy. unfold exec, ReconcileSyncSecret, reconcile_finalized. cbn [mbind prog_bind prog_bind_ perform run nn_namespace nn_name].
  rewrite (api_get (k:=KSyncSecret) w _ _ o Ho), decide_True by apply Hdy. rewrite dying_contains by done. set (l := [] ++ _).
  unfold cleanup_secret.
  destruct (run_leaving (delete_secret o) watched w l) as (w1 & l1 & [] & R1 & E1); [apply succeeds_delete|unfold delete_secret; leaves_watched|].
  rewrite (run_try _ _ _ _ _ _ _ _ R1). unfold release.
  assert (KSyncSecret ∈ watched) as Hin by by apply watched_spec; tauto.
  edestruct (run_removal (k:=KSyncSecret) w1 l1 (ns, n) o (without_finalizer (k:=KSyncSecret) CleanupFinalizer o)) as (w2 & l2 & R2 & Hk & Hother).
  { by rewrite (E1 _ Hin). }
  { by apply (Hw KSyncSecret). }
  { apply Hdy. }
  { unfold without_finalizer. change (RemoveFinalizer ?m CleanupFinalizer) with (foldl RemoveFinalizer m [CleanupFinalizer]).
    rewrite remove_all_finalizers; [done|]. apply Hdy. }
  rewrite R2. split; [simpl; by rewrite Hk, (E1 _ Hin)|]. intros k' Hk' Hne. simpl. rewrite (Hother k' Hne). by apply E1.
Qed.

(** ** The tenant controller, on a Tenant that is being deleted *)

Section deleting.
Context (w : world) (k : Effects.kind).

Lemma do_delete_lookup ns n key :
  objs (do_delete (k:=k) w ns n).1 k !! key =
    if decide (key = (ns, n)) then objs w k !! (ns, n) ≫= after_delete w else objs w k !! key.
Proof.
  unfold do_delete. destruct (objs w k !! (ns, n)) as [o|] eqn:Ho; simpl fst.
  - change (objs (set_objs k (partial_alter (λ _, after_delete w o) (ns, n) (objs w k)) w) k !! key =
      if decide (key = (ns, n)) then Some o ≫= after_delete w else objs w k !! key). rewrite objs_set.
    case_decide as Hk; [by rewrite Hk, lookup_partial_alter_eq|by rewrite lookup_partial_alter_ne].
  - case_decide as Hk; [by rewrite Hk, Ho|done].
Qed.

Lemma do_delete_all_lookup ns key :
  objs (do_delete_all (k:=k) w ns).1 k !! key =
    if decide (key.1 = ns) then objs w k !! key ≫= after_delete w else objs w k !! key.
Proof.
  change (objs (set_objs k (map_imap (λ key o, if decide (key.1 = ns) then after_delete w o else Some o) (objs w k)) w) k !! key =
    if decide (key.1 = ns) then objs w k !! key ≫= after_delete w else objs w k !! key).
  rewrite objs_set, map_lookup_imap. case_decide; by destruct (objs w k !! key).
Qed.
End deleting.

(** An object that nothing holds back. *)
Definition free {k : Effects.kind} (o : objT k) : Prop := finalizers (meta_of o) = [].

Lemma after_delete_free w {k : Effects.kind} (o : objT k) : free o → after_delete w o = None.
Proof. unfold free, after_delete. intros Hf. by rewrite decide_True. Qed.

Lemma after_delete_marked w {k : Effects.kind} (o o' : objT k) :
  after_delete w o = Some o' →
  deletionTimestamp (meta_of o') ≠ None ∧ finalizers (meta_of o') ≠ [] ∧ finalizers (meta_of o') = finalizers (meta_of o).
Proof.
  unfold after_delete. case_decide as Hf; [done|]. intros [= <-]. unfold marked.
  destruct (deletionTimestamp (meta_of o)) as [d|] eqn:Hd; [by rewrite Hd|]. by rewrite meta_of_set.
Qed.

(** Deleting resources always succeeds and removes those that nothing holds back. *)
Lemma run_delete_resources l w log :
  ∃ w' log', run api_server (delete_resources l) w log = (w', log', Done (inr ())) ∧
    (∀ k key, (∀ o, objs w k !! key = Some o → free o) →
       (∀ o, objs w' k !! key = Some o → free o) ∧ (objs w k !! key = None → objs w' k !! key = None) ∧
       ((k, key.1, key.2) ∈ l → objs w' k !! key = None)).
Proof.
  revert w log. induction l as [|[[k0 ns0] n0] l IH]; intros w log; cbn [delete_resources].
  { exists w, log. split; [done|]. intros k key Hf. split_and!; [done|done|]. by intros ?%elem_of_nil. }
  set (w1 := (do_delete (k:=k0) w ns0 n0).1).
  assert (∃ l1, run api_server (delete_ignoring k0 ns0 n0
    (Wrapf "failed to ensure kubeLB resources are removed/not present on management cluster")) w log = (w1, l1, Done (inr ()))) as (l1 & R1).
  { unfold delete_ignoring. cbn [mbind prog_bind prog_bind_ perform run].
    change (api_server w (Delete k0 ns0 n0)) with (do_delete (k:=k0) w ns0 n0). unfold w1, do_delete.
    destruct (objs w k0 !! (ns0, n0)); by eexists. }
  rewrite (run_try _ _ _ _ _ _ _ _ R1). destruct (IH w1 l1) as (w2 & l2 & R2 & H2). exists w2, l2. split; [exact R2|].
  intros k key Hf. destruct (decide (k0 = k)) as [->|Hne].
  - assert (∀ o, objs w1 k !! key = Some o → objs w k !! key = Some o ∧ key ≠ (ns0, n0)) as Hsub.
    { intros o. unfold w1. rewrite do_delete_lookup. case_decide as E; [|done]. subst key.
      destruct (objs w k !! (ns0, n0)) as [x|] eqn:Hx; [|done]. simpl. rewrite after_delete_free; [done|]. by apply Hf. }
    destruct (H2 k key) as (Ha & Hb & Hc); [intros o Ho; apply Hf; by apply Hsub|]. split_and!; [done| |].
    + intros Hn. apply Hb. destruct (objs w1 k !! key) as [o|]; [|done]. destruct (Hsub o eq_refl) as [E _]. congruence.
    + intros [E|Hin]%elem_of_cons; [|by apply Hc]. injection E as E1 E2. apply Hb.
      destruct (objs w1 k !! key) as [o|]; [|done]. destruct (Hsub o eq_refl) as [_ []]. by destruct key; simpl in *; subst.
  - assert (objs w1 k = objs w k) as E.
    { apply (api_server_other w (Delete k0 ns0 n0) k). simpl. by apply bool_decide_false. }
    destruct (H2 k key) as (Ha & Hb & Hc); [by rewrite E|]. rewrite E in Hb. split_and!; [done|done|].
    intros [Eq|Hin]%elem_of_cons; [by injection Eq as <- _ _|by apply Hc].
Qed.

(** ** The whole tenant *)

(** What the namespace is drained of. *)
Definition drained_kinds : list Effects.kind := [KRoute; KLoadBalancer; KSyncSecret].
Lemma drained_spec k : k ∈ drained_kinds ↔ k = KRoute ∨ k = KLoadBalancer ∨ k = KSyncSecret.
Proof. unfold drained_kinds. rewrite !elem_of_cons, elem_of_nil. tauto. Qed.

(** The finalizers KubeLB puts on the objects of a kind. *)
Definition own_finalizers (k : Effects.kind) : list string :=
  match k with KLoadBalancer => lb_finalizers | _ => [CleanupFinalizer] end.

(** LoadBalancers have endpoints, as their schema demands. *)
Definition has_endpoints {k : Effects.kind} : objT k → Prop :=
  match k as k return objT k → Prop with
  | KLoadBalancer => λ lb, ls_endpoints (lb_spec lb) ≠ []
  | _ => λ _, True
  end.

Section tenant_end.
(** A tenant, its namespace, and the namespace of the Config. *)
Context (t cfgns : string).
Abbreviation ns := (tenantNamespacePattern t).

(** A Tenant is being deleted, and nothing but KubeLB's own finalizers holds its objects. *)
Record condemned (w : world) : Prop := {
  cd_filed : filed w;
  cd_tenant : ∃ o : Tenant, objs w KTenant !! ("", t) = Some o ∧ dying (k:=KTenant) [CleanupFinalizer] o;
  cd_config : is_Some (objs w KConfig !! (cfgns, DefaultConfigResourceName));
  cd_objects : ∀ k n (o : objT k), k ∈ drained_kinds → objs w k !! (ns, n) = Some o →
    has_endpoints o ∧ Forall (λ f, f ∈ own_finalizers k) (finalizers (meta_of o));
  cd_resources : ∀ k key (o : objT k), k ≠ KSecret → (k, key.1, key.2) ∈ Deletion ns → objs w k !! key = Some o → free o
}.

(** Everything in the namespace is marked. *)
Definition all_marked (w : world) : Prop :=
  ∀ k n (o : objT k), k ∈ drained_kinds → objs w k !! (ns, n) = Some o →
    deletionTimestamp (meta_of o) ≠ None ∧ finalizers (meta_of o) ≠ [].

Definition empty_namespace (w : world) : Prop := ∀ k n, k ∈ drained_kinds → objs w k !! (ns, n) = None.

(** The tenant is gone. *)
Definition ended (w : world) : Prop :=
  objs w KTenant !! ("", t) = None ∧ empty_namespace w ∧
  ∀ k key, k ≠ KSecret → (k, key.1, key.2) ∈ Deletion ns → objs w k !! key = None.

(** [w'] has no more of the drained kinds than [w]. *)
Definition shrinks (w w' : world) : Prop :=
  ∀ k n (o' : objT k), k ∈ drained_kinds → objs w' k !! (ns, n) = Some o' → is_Some (objs w k !! (ns, n)).

(** *** Marking *)

Definition mark_all (w : world) : world :=
  let w1 := (do_delete_all (k:=KRoute) w ns).1 in
  let w2 := (do_delete_all (k:=KLoadBalancer) w1 ns).1 in
  (do_delete_all (k:=KSyncSecret) w2 ns).1.

Lemma do_delete_all_other (k k' : Effects.kind) w : k ≠ k' → objs (do_delete_all (k:=k) w ns).1 k' = objs w k'.
Proof. apply tick_set_ne. Qed.

Lemma mark_all_other w k : k ∉ drained_kinds → objs (mark_all w) k = objs w k.
Proof.
  rewrite drained_spec. intros Hk. unfold mark_all. cbv zeta.
  rewrite !do_delete_all_other; [done|..]; intros <-; tauto.
Qed.

Lemma mark_all_lookup w k n (o' : objT k) :
  k ∈ drained_kinds → objs (mark_all w) k !! (ns, n) = Some o' →
  ∃ o w0, objs w k !! (ns, n) = Some o ∧ after_delete w0 o = Some o'.
Proof.
  rewrite drained_spec. unfold mark_all. cbv zeta.
  set (w1 := (do_delete_all (k:=KRoute) w ns).1). set (w2 := (do_delete_all (k:=KLoadBalancer) w1 ns).1).
  intros [->|[->| ->]].
  - assert (objs (do_delete_all (k:=KSyncSecret) w2 ns).1 KRoute = objs w1 KRoute) as ->.
    { unfold w2. by rewrite !do_delete_all_other. }
    unfold w1. rewrite do_delete_all_lookup, decide_True by done. intros (o & Ho & Hd)%bind_Some. by exists o, w.
  - assert (objs (do_delete_all (k:=KSyncSecret) w2 ns).1 KLoadBalancer = objs w2 KLoadBalancer) as ->.
    { by rewrite do_delete_all_other. }
    assert (objs w1 KLoadBalancer = objs w KLoadBalancer) as E by (unfold w1; by rewrite do_delete_all_other).
    unfold w2. rewrite do_delete_all_lookup, decide_True, E by done. intros (o & Ho & Hd)%bind_Some. by exists o, w1.
  - assert (objs w2 KSyncSecret = objs w KSyncSecret) as E by (unfold w2, w1; by rewrite !do_delete_all_other).
    rewrite do_delete_all_lookup, decide_True, E by done. intros (o & Ho & Hd)%bind_Some. by exists o, w2.
Qed.

Lemma mark_all_filed w : filed w → filed (mark_all w).
Proof.
  intros Hw. unfold mark_all.
  pose proof (api_server_filed w (DeleteAllOf KRoute ns) Hw) as H1.
  pose proof (api_server_filed _ (DeleteAllOf KLoadBalancer ns) H1) as H2.
  exact (api_server_filed _ (DeleteAllOf KSyncSecret ns) H2).
Qed.

Lemma after_delete_endpoints w {k : Effects.kind} (o o' : objT k) : after_delete w o = Some o' → has_endpoints o → has_endpoints o'.
Proof.
  unfold after_delete. case_decide; [done|]. intros [= <-]. unfold marked. destruct (deletionTimestamp _); [done|]. by destruct k.
Qed.

Lemma mark_all_condemned w : condemned w → condemned (mark_all w) ∧ all_marked (mark_all w) ∧ shrinks w (mark_all w).
Proof.
  intros Hw. split_and!.
  - split.
    + by apply mark_all_filed, Hw.
    + rewrite mark_all_other by (rewrite drained_spec; naive_solver). apply Hw.
    + rewrite mark_all_other by (rewrite drained_spec; naive_solver). apply Hw.
    + intros k n o' Hk Ho'. destruct (mark_all_lookup w k n o' Hk Ho') as (o & w0 & Ho & Hd).
      destruct (cd_objects w Hw k n o Hk Ho) as [Hep Hfs]. split; [by eapply after_delete_endpoints|].
      apply after_delete_marked in Hd as (_ & _ & ->). done.
    + intros k key o Hk Hin. rewrite mark_all_other; [by apply Hw|]. rewrite drained_spec. unfold Deletion in Hin.
      rewrite !elem_of_cons, elem_of_nil in Hin. intros Hd. naive_solver.
  - intros k n o' Hk Ho'. destruct (mark_all_lookup w k n o' Hk Ho') as (o & w0 & Ho & Hd).
    apply after_delete_marked in Hd as (? & ? & _). done.
  - intros k n o' Hk Ho'. destruct (mark_all_lookup w k n o' Hk Ho') as (o & w0 & Ho & _). by eexists.
Qed.

(** *** The tenant controller *)

Lemma do_list_empty w (k : Effects.kind) :
  filed w → do_list (k:=k) w (Some ns) ∅ = [] ↔ ∀ n, objs w k !! (ns, n) = None.
Proof.
  intros Hw. split.
  - intros E n. destruct (objs w k !! (ns, n)) as [o|] eqn:Ho; [|done]. exfalso.
    assert (o ∈ do_list (k:=k) w (Some ns) ∅) as Hin; [|rewrite E in Hin; by apply elem_of_nil in Hin].
    apply list_elem_of_filter. split.
    + unfold selected. pose proof (Hw k _ _ Ho) as Hkey. injection Hkey as Hns _.
      rewrite !bool_decide_true; [done| |done]. apply map_empty_subseteq.
    + apply list_elem_of_fmap. exists ((ns, n), o). split; [done|]. by apply elem_of_map_to_list.
  - intros Hn. destruct (do_list w (Some ns) ∅) as [|o l] eqn:E; [done|]. exfalso.
    assert (o ∈ do_list (k:=k) w (Some ns) ∅) as Hin by (rewrite E; by left).
    apply list_elem_of_filter in Hin as [Hs Hin]. apply list_elem_of_fmap in Hin as ([key o'] & -> & Hin).
    apply elem_of_map_to_list in Hin. pose proof (Hw k _ _ Hin) as Hkey. unfold selected in Hs. simpl in Hs.
    apply andb_prop_elim in Hs as [Hns _]. apply bool_decide_unpack in Hns.
    destruct key as [ns' n']. injection Hkey as E1 E2. rewrite Hns in E1. subst ns'. by rewrite Hn in Hin.
Qed.

Lemma run_delete_all k msg w log :
  ∃ log', run api_server (delete_all k ns msg) w log = ((do_delete_all (k:=k) w ns).1, log', Done (inr ())).
Proof. by eexists. Qed.

Lemma run_ensure_none k m1 m2 w log :
  ∃ log', run api_server (ensure_none k ns m1 m2) w log =
    (w, log', Done (if decide (do_list (k:=k) w (Some ns) ∅ = []) then inr () else inl (Errorf m2))).
Proof.
  unfold ensure_none, try_wrap. cbn [mbind prog_bind prog_bind_ perform run].
  change (api_server w (ListIn k (Some ns) ∅)) with (w, @inr error _ (do_list (k:=k) w (Some ns) ∅)).
  destruct (do_list w (Some ns) ∅) as [|o l]; cbn [prog_bind_ run]; by eexists.
Qed.

(** The contents are marked; when nothing is left, cleaning up goes on. *)
Lemma run_cleanupResources w log :
  filed w → ∃ log' res, run api_server (cleanupResources ns) w log = (mark_all w, log', Done res) ∧
    ((empty_namespace (mark_all w) ∧ res = inr ()) ∨ (¬ empty_namespace (mark_all w) ∧ ∃ e, res = inl e)).
Proof.
  intros Hw. apply mark_all_filed in Hw.
  assert (∀ k n o, k ∈ drained_kinds → do_list (k:=k) (mark_all w) (Some ns) ∅ = o :: n → ¬ empty_namespace (mark_all w)) as Hne.
  { intros k n o Hk E He. assert (do_list (k:=k) (mark_all w) (Some ns) ∅ = []) as E'; [|congruence].
    apply do_list_empty; [done|]. intros n'. by apply He. }
  unfold cleanupResources.
  destruct (run_delete_all KRoute "failed to delete Routes" w log) as (l1 & R1). rewrite (run_try _ _ _ _ _ _ _ _ R1).
  destruct (run_delete_all KLoadBalancer "failed to delete LoadBalancers" (do_delete_all (k:=KRoute) w ns).1 l1) as (l2 & R2).
  rewrite (run_try _ _ _ _ _ _ _ _ R2).
  destruct (run_delete_all KSyncSecret "failed to delete SyncSecrets"
    (do_delete_all (k:=KLoadBalancer) (do_delete_all (k:=KRoute) w ns).1 ns).1 l2) as (l3 & R3).
  rewrite (run_try _ _ _ _ _ _ _ _ R3). fold (mark_all w).
  destruct (run_ensure_none KRoute "failed to list HTTPRoutes" "routes still exist" (mark_all w) l3) as (l4 & R4).
  destruct (do_list (k:=KRoute) (mark_all w) (Some ns) ∅) as [|o l] eqn:E1; simpl decide in R4.
  2: { rewrite (run_try_fail _ _ _ _ _ _ _ _ R4). eexists _, _. split; [done|]. right. split; [|by eexists].
       eapply (Hne KRoute); [by apply drained_spec; tauto|done]. }
  rewrite (run_try _ _ _ _ _ _ _ _ R4).
  destruct (run_ensure_none KLoadBalancer "failed to list LoadBalancers" "loadbalancers still exist" (mark_all w) l4) as (l5 & R5).
  destruct (do_list (k:=KLoadBalancer) (mark_all w) (Some ns) ∅) as [|o l] eqn:E2; simpl decide in R5.
  2: { rewrite (run_try_fail _ _ _ _ _ _ _ _ R5). eexists _, _. split; [done|]. right. split; [|by eexists].
       eapply (Hne KLoadBalancer); [by apply drained_spec; tauto|done]. }
  rewrite (run_try _ _ _ _ _ _ _ _ R5).
  destruct (run_ensure_none KSyncSecret "failed to list SyncSecrets" "syncsecrets still exist" (mark_all w) l5) as (l6 & R6).
  rewrite R6. eexists _, _. split; [done|].
  destruct (do_list (k:=KSyncSecret) (mark_all w) (Some ns) ∅) as [|o l] eqn:E3; simpl decide.
  - left. split; [|done]. intros k n Hk. apply drained_spec in Hk. rewrite do_list_empty in E1, E2, E3 by done.
    destruct Hk as [->|[->| ->]]; auto.
  - right. split; [|by eexists]. eapply (Hne KSyncSecret); [by apply drained_spec; tauto|done].
Qed.

Lemma delete_resources_leaves_tenant : only_calls (λ c, writes_kind KTenant c = false) (delete_resources (Deletion ns)).
Proof. apply delete_resources_calls. by repeat constructor. Qed.

Lemma tenant_step `{FinalizerLaws} `{IPv6} load setControllerReference r w :
  condemned w →
  let w' := exec (ReconcileTenant load setControllerReference r {| nn_namespace := ""; nn_name := t |}) w in
  (condemned w' ∧ all_marked w' ∧ shrinks w w' ∧ ¬ empty_namespace w') ∨ ended w'.
Proof.
  intros Hw. destruct (cd_tenant w Hw) as (T & HT & Hdy). pose proof (cd_filed w Hw KTenant _ _ HT) as Hkey.
  injection Hkey as _ Hn. simpl in Hn. destruct (mark_all_condemned w Hw) as (Hc & Hm & Hs).
  unfold exec, ReconcileTenant, reconcile_finalized. cbn [mbind prog_bind prog_bind_ perform run nn_namespace nn_name].
  rewrite (api_get (k:=KTenant) w _ _ T HT), decide_True by apply Hdy. rewrite dying_contains by done. set (l := [] ++ _).
  unfold cleanup_tenant. rewrite Hn.
  destruct (run_cleanupResources w l (cd_filed w Hw)) as (l1 & res & R1 & [[He ->]|[He [e ->]]]).
  2: { left. unfold cleanup_contents.
       rewrite (run_try_fail _ _ _ _ _ _ _ _ (run_try_wrap_fail _ _ _ _ _ _ _ _ _ R1)). simpl. by split_and!. }
  right. destruct (run_delete_resources (Deletion ns) (mark_all w) l1) as (w2 & l2 & R2 & H2).
  assert (run api_server (cleanup_contents ns) w l = (w2, l2, Done (inr ()))) as R.
  { unfold cleanup_contents. by rewrite (run_try_wrap _ _ _ _ _ _ _ _ _ R1). }
  rewrite (run_try _ _ _ _ _ _ _ _ R). unfold release.
  assert (objs w2 KTenant = objs w KTenant) as ET.
  { pose proof (run_other _ KTenant (mark_all w) l1 delete_resources_leaves_tenant) as E. rewrite R2 in E. cbn [fst] in E.
    rewrite E. apply mark_all_other. rewrite drained_spec. naive_solver. }
  edestruct (run_removal (k:=KTenant) w2 l2 ("", t) T (without_finalizer (k:=KTenant) CleanupFinalizer T)) as (w3 & l3 & R3 & Hk & Ho).
  { by rewrite ET. }
  { by apply (cd_filed w Hw KTenant). }
  { apply Hdy. }
  { unfold without_finalizer. change (RemoveFinalizer ?m CleanupFinalizer) with (foldl RemoveFinalizer m [CleanupFinalizer]).
    rewrite remove_all_finalizers; [done|]. apply Hdy. }
  rewrite R3. simpl. split_and!.
  - rewrite Hk. apply lookup_delete_eq.
  - intros k n Hd. rewrite Ho by (intros <-; apply drained_spec in Hd; naive_solver).
    destruct (H2 k (ns, n)) as (_ & Hnone & _); [intros o; by rewrite He|]. by apply Hnone, He.
  - intros k key Hk' Hin. rewrite Ho by (intros <-; unfold Deletion in Hin; rewrite !elem_of_cons, elem_of_nil in Hin; naive_solver).
    apply H2; [|done]. intros o Hlook. by eapply (cd_resources _ Hc).
Qed.

(** *** One object less *)

Lemma drops_condemned w w' k n :
  k ∈ drained_kinds → condemned w → all_marked w → filed w' → drops k (ns, n) w w' →
  condemned w' ∧ all_marked w' ∧ shrinks w w' ∧ objs w' k !! (ns, n) = None.
Proof.
  intros Hk Hw Hm Hf [Ek Eo].
  assert (∀ k' n' (o : objT k'), k' ∈ drained_kinds → objs w' k' !! (ns, n') = Some o → objs w k' !! (ns, n') = Some o) as Hsub.
  { intros k' n' o Hk' Ho. destruct (decide (k = k')) as [<-|Hne].
    - rewrite Ek in Ho. by apply lookup_delete_Some in Ho as [_ Ho].
    - rewrite Eo in Ho; [done| |done]. apply watched_spec. apply drained_spec in Hk'. tauto. }
  assert (∀ k', k' ∈ watched → k' ∉ drained_kinds → objs w' k' = objs w k') as Hsame.
  { intros k' Hk' Hd. apply Eo; [done|]. by intros <-. }
  split_and!; [split| | |].
  - done.
  - rewrite Hsame; [apply Hw|by apply watched_spec; tauto|rewrite drained_spec; naive_solver].
  - rewrite Hsame; [apply Hw|by apply watched_spec; tauto|rewrite drained_spec; naive_solver].
  - intros k' n' o Hk' Ho. by eapply (cd_objects w Hw), Hsub.
  - intros k' key o Hne Hin Ho. eapply (cd_resources w Hw); [done|done|]. rewrite <- Hsame; [done|..].
    + apply watched_spec. unfold Deletion in Hin. rewrite !elem_of_cons, elem_of_nil in Hin. naive_solver.
    + rewrite drained_spec. unfold Deletion in Hin. rewrite !elem_of_cons, elem_of_nil in Hin. naive_solver.
  - intros k' n' o Hk' Ho. by eapply Hm, Hsub.
  - intros k' n' o Hk' Ho. eexists. by apply Hsub.
  - rewrite Ek. apply lookup_delete_eq.
Qed.
End tenant_end.

(** ** Schedules *)

(** Which controller runs, on which object of the tenant. *)
Inductive action := RunTenant | RunLoadBalancer (n : string) | RunRoute (n : string) | RunSyncSecret (n : string).

#[export] Instance action_eq_dec : EqDecision action.
Proof. solve_decision. Defined.

Definition run_kind (a : action) : option (Effects.kind * string) :=
  match a with
  | RunTenant => None
  | RunLoadBalancer n => Some (KLoadBalancer, n)
  | RunRoute n => Some (KRoute, n)
  | RunSyncSecret n => Some (KSyncSecret, n)
  end.

Section schedule.
Context `{Unicode} `{FinalizerLaws} `{Scheme} `{UnstructuredConverter} `{IPv6}
  `{SemanticDeepEqual ServiceSpec} `{SemanticDeepEqual (gomap string)} `{SemanticDeepEqual IngressSpec}
  `{SemanticDeepEqual GatewayRouteSpec} `{SemanticDeepEqual GatewaySpec} `{SemanticDeepEqual (list ServicePort)}
  (load : string → error + clientcmdConfig) (ownTenant : Tenant → ObjectMeta → error + ObjectMeta)
  (ownLoadBalancer : LoadBalancer → ObjectMeta → error + ObjectMeta) (error_text : error → string)
  (MarshalServiceStatus : Service → error + opaque) (MarshalStatus : opaque → error + opaque)
  (range : gmap string RouteServiceStatus → list (string * RouteServiceStatus)) (retries : nat)
  (tr : TenantReconciler) (lr : LoadBalancerReconciler) (rr : RouteReconciler) (t : string).
Abbreviation ns := (tenantNamespacePattern t).

(** The state after the controller ran once. *)
Definition act (w : world) (a : action) : world :=
  match a with
  | RunTenant => exec (ReconcileTenant load ownTenant tr {| nn_namespace := ""; nn_name := t |}) w
  | RunLoadBalancer n => exec (Reconcile ownLoadBalancer retries lr {| nn_namespace := ns; nn_name := n |}) w
  | RunRoute n => exec (ReconcileRoute error_text MarshalServiceStatus MarshalStatus range retries rr {| nn_namespace := ns; nn_name := n |}) w
  | RunSyncSecret n => exec (ReconcileSyncSecret {| nn_namespace := ns; nn_name := n |}) w
  end.

Lemma act_filed w a : filed w → filed (act w a).
Proof. destruct a; apply exec_filed. Qed.

(** A controller that does not find its object does nothing. *)
Lemma act_missing w a k n : run_kind a = Some (k, n) → objs w k !! (ns, n) = None → act w a = w.
Proof.
  intros Ha Hn. destruct a; [done|..]; injection Ha as <- <-; unfold act, exec;
    [unfold Reconcile|unfold ReconcileRoute|unfold ReconcileSyncSecret, reconcile_finalized];
    cbn [mbind prog_bind prog_bind_ perform run nn_namespace nn_name];
    [rewrite (api_get_none KLoadBalancer w _ _ Hn)|rewrite (api_get_none KRoute w _ _ Hn)|rewrite (api_get_none KSyncSecret w _ _ Hn)]; done.
Qed.

Lemma remove_tenant_prefix : RemoveTenantPrefix ns = t.
Proof.
  unfold RemoveTenantPrefix, tenantNamespacePattern. rewrite (proj2 (HasPrefix_spec _ _)) by by eexists. apply TrimPrefix_app.
Qed.

(** One that finds it removes it. *)
Lemma act_found w a k n (o : objT k) :
  run_kind a = Some (k, n) → condemned t (rr_namespace rr) w → all_marked t w → objs w k !! (ns, n) = Some o →
  drops k (ns, n) w (act w a).
Proof.
  intros Ha Hw Hm Ho. assert (k ∈ drained_kinds) as Hk by (destruct a; try done; injection Ha as <- _; apply drained_spec; tauto).
  destruct (Hm k n o Hk Ho) as [Hd Hne]. destruct (cd_objects _ _ _ Hw k n o Hk Ho) as [Hep Hfs].
  destruct (cd_tenant _ _ _ Hw) as (T & HT & _). destruct (cd_config _ _ _ Hw) as [c Hc].
  destruct a; [done|..]; injection Ha as <- <-; unfold act.
  - apply (lb_released _ _ _ w _ _ o); [apply Hw|done|by split_and!|done].
  - apply (route_released _ _ _ _ _ _ w _ _ o T c); [apply Hw|done|by split_and!|by rewrite remove_tenant_prefix|done].
  - apply (sync_secret_released w _ _ o); [apply Hw|done|by split_and!].
Qed.

Lemma ended_stays w a : ended t w → act w a = w.
Proof.
  intros (HT & He & _). destruct a as [|n|n|n].
  - unfold act, exec, ReconcileTenant, reconcile_finalized. cbn [mbind prog_bind prog_bind_ perform run nn_namespace nn_name].
    by rewrite (api_get_none KTenant w _ _ HT).
  - apply (act_missing w _ KLoadBalancer n); [done|]. apply He, drained_spec. tauto.
  - apply (act_missing w _ KRoute n); [done|]. apply He, drained_spec. tauto.
  - apply (act_missing w _ KSyncSecret n); [done|]. apply He, drained_spec. tauto.
Qed.

Lemma ended_forever w sched : ended t w → foldl act w sched = w.
Proof. intros He. induction sched as [|a sched IH]; [done|]. simpl. by rewrite ended_stays. Qed.

Lemma run_kind_drained a k n : run_kind a = Some (k, n) → k ∈ drained_kinds.
Proof. rewrite drained_spec. destruct a; naive_solver. Qed.

(** What a schedule achieves: the tenant is gone, or it is still going and every object
    whose controller ran is gone. *)
Lemma schedule_drains w sched :
  condemned t (rr_namespace rr) w → all_marked t w →
  let w' := foldl act w sched in
  ended t w' ∨
  (condemned t (rr_namespace rr) w' ∧ all_marked t w' ∧ shrinks t w w' ∧
   ∀ a k n, a ∈ sched → run_kind a = Some (k, n) → objs w' k !! (ns, n) = None).
Proof.
  revert w. induction sched as [|a sched IH]; intros w Hw Hm; cbn [foldl].
  { right. split_and!; [done|done|by intros k n o; eexists|by intros a k n ?%elem_of_nil]. }
  assert (ended t (act w a) ∨ (condemned t (rr_namespace rr) (act w a) ∧ all_marked t (act w a) ∧ shrinks t w (act w a) ∧
    ∀ k n, run_kind a = Some (k, n) → objs (act w a) k !! (ns, n) = None)) as [He|(Hw1 & Hm1 & Hs1 & Hn1)].
  { destruct (run_kind a) as [[k n]|] eqn:Ha.
    - right. pose proof (run_kind_drained a k n Ha) as Hk. destruct (objs w k !! (ns, n)) as [o|] eqn:Ho.
      + destruct (drops_condemned t (rr_namespace rr) w (act w a) k n) as (? & ? & ? & ?);
          [done|done|done|by apply act_filed, Hw|by eapply act_found|]. split_and!; [done..|]. by intros k' n' [= <- <-].
      + rewrite (act_missing w a k n) by done. split_and!; [done|done|by intros k' n' o'; eexists|]. by intros k' n' [= <- <-].
    - destruct a; [|done..]. destruct (tenant_step t (rr_namespace rr) load ownTenant tr w Hw) as [(? & ? & ? & _)|?]; [|by left].
      right. by split_and!. }
  { left. by rewrite ended_forever. }
  destruct (IH (act w a) Hw1 Hm1) as [He|(Hw2 & Hm2 & Hs2 & Hn2)]; [by left|]. right. split_and!; [done|done|..].
  - intros k n o Hk Ho. destruct (Hs2 k n o Hk Ho) as [o1 Ho1]. by eapply Hs1.
  - intros a' k n [->|Hin]%elem_of_cons Ha'; [|by eapply Hn2].
    destruct (objs (foldl act (act w a) sched) k !! (ns, n)) as [o|] eqn:Ho; [|done]. exfalso.
    apply run_kind_drained in Ha' as Hk. destruct (Hs2 k n o Hk Ho) as [o1 Ho1]. by rewrite (Hn1 k n Ha') in Ho1.
Qed.
End schedule.


(** A tenant that is being deleted, with one object of each kind. *)
Definition owned_meta (n : string) : ObjectMeta :=
  with_finalizers [CleanupFinalizer] (with_identity n "tenant-a" ("uid-" +:+ n) zero_meta).
Definition doomed_world : world :=
  set_objs KTenant {[ ("", "a") := with_tn_meta (server_meta "uid-a" "" (Some "now")
                        (with_finalizers [CleanupFinalizer] (with_identity "a" "" "" zero_meta))) zero_tenant ]}
    (set_objs KConfig {[ ("kubelb", DefaultConfigResourceName) :=
                           {| cf_meta := with_identity DefaultConfigResourceName "kubelb" "" zero_meta; cf_spec := cf_spec zero_config |} ]}
    (set_objs KLoadBalancer {[ ("tenant-a", "lb") := with_lb_meta (owned_meta "lb") two_port_lb ]}
    (set_objs KRoute {[ ("tenant-a", "route") := with_rt_meta (owned_meta "route") ApiServer.zero_route ]}
    (set_objs KSyncSecret {[ ("tenant-a", "secret") := with_syn_meta (owned_meta "secret") zero_sync_secret ]} empty_world)))).

Lemma doomed_world_condemned : condemned "a" "kubelb" doomed_world.
Proof.
  split.
  - do 5 (refine (filed_set _ _ _ _ _); [|by intros key o [<- <-]%lookup_singleton_Some]). apply empty_world_filed.
  - eexists. unfold doomed_world. rewrite objs_set, lookup_singleton_eq. split; [done|].
    split_and!; [done|done|]. repeat constructor.
  - eexists. unfold doomed_world. rewrite objs_set_ne, objs_set by done. apply lookup_singleton_eq.
  - intros k n o Hk. apply drained_spec in Hk as [->|[->| ->]]; unfold doomed_world.
    + rewrite !objs_set_ne, objs_set by done. intros [_ <-]%lookup_singleton_Some. split; [done|]. repeat constructor.
    + rewrite !objs_set_ne, objs_set by done. intros [_ <-]%lookup_singleton_Some. split; [done|]. repeat constructor.
    + rewrite !objs_set_ne, objs_set by done. intros [_ <-]%lookup_singleton_Some. split; [done|]. repeat constructor.
  - intros k key o Hne Hin. unfold Deletion in Hin. rewrite !elem_of_cons, elem_of_nil in Hin.
    assert (k = KServiceAccount ∨ k = KRole ∨ k = KRoleBinding ∨ k = KNamespace) as Hk by naive_solver.
    unfold doomed_world. rewrite !objs_set_ne by naive_solver. simpl. by rewrite lookup_empty.
Qed.

Definition eq_decided A `{EqDecision A} : SemanticDeepEqual A := λ a b, bool_decide (a = b).


(** ** What blocks the end *)

(** A LoadBalancer whose endpoints were taken away is never released: the reconciler
    returns before it looks at the deletion. *)
Theorem endless_load_balancer `{Unicode} `{Finalizers} `{SemanticDeepEqual (gomap string)} `{SemanticDeepEqual (list ServicePort)}
    `{SemanticDeepEqual IngressSpec} `{SemanticDeepEqual GatewayRouteSpec} own retries r w req (lb : LoadBalancer) :
  objs w KLoadBalancer !! (nn_namespace req, nn_name req) = Some lb → ls_endpoints (lb_spec lb) = [] →
  exec (Reconcile own retries r req) w = w ∧ answer (Reconcile own retries r req) w = Done (inr false).
Proof.
  intros Hlb Hep. unfold exec, answer, Reconcile. cbn [mbind prog_bind prog_bind_ perform run].
  rewrite (api_get (k:=KLoadBalancer) w _ _ lb Hlb), decide_True by done. done.
Qed.

(** A Route cannot be released without the Config, though its cleanup does not use it. *)
Theorem route_needs_config `{Unicode} `{Finalizers} `{Scheme} `{UnstructuredConverter}
    `{SemanticDeepEqual ServiceSpec} `{SemanticDeepEqual (gomap string)} `{SemanticDeepEqual IngressSpec}
    `{SemanticDeepEqual GatewayRouteSpec} `{SemanticDeepEqual GatewaySpec}
    error_text MarshalServiceStatus MarshalStatus range retries r w req (route : Route) (tenant : Tenant) :
  objs w KRoute !! (nn_namespace req, nn_name req) = Some route →
  objs w KTenant !! ("", RemoveTenantPrefix (namespace (rt_meta route))) = Some tenant →
  objs w KConfig !! (rr_namespace r, DefaultConfigResourceName) = None →
  exec (ReconcileRoute error_text MarshalServiceStatus MarshalStatus range retries r req) w = w ∧
  answer (ReconcileRoute error_text MarshalServiceStatus MarshalStatus range retries r req) w = Done (inl (StatusError NotFound)).
Proof.
  intros Hr Ht Hc. unfold exec, answer, ReconcileRoute, GetTenantAndConfig, GetTenant, GetConfig, try.
  cbn [mbind prog_bind prog_bind_ perform run]. rewrite (api_get (k:=KRoute) w _ _ route Hr). cbn [prog_bind_ run].
  rewrite (api_get (k:=KTenant) w _ _ tenant Ht). cbn [prog_bind_ run]. by rewrite (api_get_none KConfig w _ _ Hc).
Qed.
