(* ===== verification/ServiceLifecycle.v ===== *)
(** * A Service from beginning to end

    The Service controller of the CCM against the API servers of both clusters: a
    Service of type LoadBalancer gets its LoadBalancer in the KubeLB cluster and
    the status of that LoadBalancer, after which nothing is written any more; and when
    it is deleted, Service and LoadBalancer go away once the CCM and the manager have
    run. *)
From Stdlib Require Import Ascii.
From stdpp Require Import base gmap list strings pretty.
From S2P Require Import Prelude GoStrings Api Names Annotations LoadBalancers NetApi Effects Guards Objects ApiServer Services RouteResources LBController CCMService Lifecycle.
Import Core V1alpha1.

(** ** What the mapping looks at *)

Record same_source (s s' : Service) : Prop := {
  same_uid : uid (svc_meta s') = uid (svc_meta s);
  same_key : obj_key (k:=KService) s' = obj_key (k:=KService) s;
  same_source_annotations : annotations (svc_meta s') = annotations (svc_meta s);
  same_spec : svc_spec s' = svc_spec s
}.

Lemma same_source_trans a b c : same_source a b → same_source b c → same_source a c.
Proof. intros [] []. split; congruence. Qed.

Section sync.
Context `{Unicode} `{FinalizerLaws} `{SemanticMaps} (r : KubeLBServiceReconciler).
Context (Hcloud : sr_cloudController r = true).

Lemma endpoints_by_reference svc : getServiceEndpoints r svc = ([], true).
Proof. unfold getServiceEndpoints. by rewrite Hcloud, andb_false_r. Qed.

Lemma mapped_source s s' : same_source s s' → mapped r s' = mapped r s.
Proof.
  intros [Hu Hk Ha Hs]. unfold mapped. rewrite !endpoints_by_reference. unfold MapLoadBalancer, map_endpoints. simpl.
  injection Hk as Hns Hn. simpl in Hns, Hn. by rewrite Hu, Ha, Hs, Hns, Hn.
Qed.

Lemma should_source s s' : same_source s s' → shouldReconcileService r s' = shouldReconcileService r s.
Proof. intros [_ _ _ Hs]. unfold shouldReconcileService. by rewrite Hs. Qed.

(** ** The status *)

Lemma run_update_service_status w log (svc svc' : Service) lb :
  filed w → objs w KService !! obj_key (k:=KService) svc' = Some svc →
  ∃ w' log' s, run api_server (update_service_status svc' lb) w log = (w', log', Done (inr ())) ∧
    stores KService (obj_key (k:=KService) svc') s w w' ∧ same_source svc s ∧
    svc_ingress s = lst_ingress (lb_status lb) ∧
    finalizers (svc_meta s) = finalizers (svc_meta svc) ∧ deletionTimestamp (svc_meta s) = deletionTimestamp (svc_meta svc).
Proof.
  intros Hw Hs. unfold update_service_status, try_wrap, defaultRetry, try. cbn [retryOnConflict].
  cbn [mbind prog_bind prog_bind_ perform run]. rewrite (api_get (k:=KService) w (namespace (svc_meta svc')) (name (svc_meta svc')) svc Hs).
  set (o := with_svc_ingress _ svc).
  destruct (do_status_update_stores (k:=KService) w (obj_key (k:=KService) svc') svc o) as (w' & Hrun & Hst); [done| |done|done|].
  { change (obj_key (k:=KService) o) with (obj_key (k:=KService) svc). by apply (Hw KService). }
  cbn [prog_bind_ run]. change (api_server w (StatusUpdate KService o)) with (do_status_update (k:=KService) w o). rewrite Hrun.
  cbn [ok prog_bind_ run]. eexists w', _, _. split; [done|]. split; [exact Hst|].
  split; [by split|]. done.
Qed.

(** ** One run *)

Definition lb_key_of (svc : Service) : string * string := (sr_clusterName r, uid (svc_meta svc)).

(** What a run of the controller makes of the Service and its LoadBalancer; when
    they agreed before, nothing changed. *)
Record synced_to (w : world) (svc : Service) (w' : world) (svc' : Service) (lb' : LoadBalancer) : Prop := {
  sync_services : objs w' KService = <[obj_key (k:=KService) svc := svc']> (objs w KService);
  sync_balancers : objs w' KLoadBalancer = <[lb_key_of svc := lb']> (objs w KLoadBalancer);
  sync_others k : k ≠ KService → k ≠ KLoadBalancer → objs w' k = objs w k;
  sync_source : same_source svc svc';
  sync_finalizers : finalizers (svc_meta svc') = finalizers (svc_meta svc);
  sync_live : deletionTimestamp (svc_meta svc') = deletionTimestamp (svc_meta svc);
  sync_lb_live : deletionTimestamp (lb_meta lb') = None;
  sync_lb : same_load_balancer lb' (mapped r svc);
  sync_new : objs w KLoadBalancer !! lb_key_of svc = None → labels (lb_meta lb') = labels (lb_meta (mapped r svc));
  sync_labels lb : objs w KLoadBalancer !! lb_key_of svc = Some lb → labels (lb_meta lb') = labels (lb_meta lb);
  sync_status lb : objs w KLoadBalancer !! lb_key_of svc = Some lb →
    svc_ingress svc' = lst_ingress (lb_status lb) ∧ lb_status lb' = lb_status lb;
  sync_stable lb : objs w KLoadBalancer !! lb_key_of svc = Some lb → same_load_balancer lb (mapped r svc) →
    svc_ingress svc = lst_ingress (lb_status lb) → w' = w
}.

Lemma same_source_refl svc : same_source svc svc.
Proof. by split. Qed.

Lemma sync_creates w log req svc :
  objs w KService !! obj_key (k:=KService) svc = Some svc → objs w KLoadBalancer !! lb_key_of svc = None →
  ∃ w' log' lb', run api_server (sync_load_balancer r req svc) w log = (w', log', Done (inr false)) ∧ synced_to w svc w' svc lb'.
Proof.
  intros Hs Hlb. unfold sync_load_balancer. rewrite endpoints_by_reference.
  destruct (MapLoadBalancer svc [] true (sr_clusterName r)) as [d svc'] eqn:Hd.
  assert (mapped r svc = d) as Hm by (unfold mapped; rewrite endpoints_by_reference; cbv iota beta; by rewrite Hd).
  injection Hd as Ed _. assert (obj_key (k:=KLoadBalancer) d = lb_key_of svc) as Hkey by by subst d.
  cbn [mbind prog_bind prog_bind_ perform run].
  rewrite (api_get_none KLoadBalancer w (namespace (lb_meta d)) (name (lb_meta d))) by (rewrite <- Hlb, <- Hkey; done).
  change (IsNotFound (StatusError NotFound)) with true. cbv iota.
  unfold try, updateManagedServicesGauge. cbn [mbind prog_bind prog_bind_ perform run].
  change (api_server w (Create KLoadBalancer d)) with (do_create (k:=KLoadBalancer) w d). unfold do_create.
  rewrite Hkey, Hlb, decide_True by by subst d. cbn [ok prog_bind_ run].
  eexists _, _, _. split; [done|]. split.
  - rewrite (insert_id (objs w KService)) by exact Hs. exact (objs_set_ne KLoadBalancer KService _ w ltac:(done)).
  - exact (objs_set KLoadBalancer _ w).
  - intros k _ Hk. exact (objs_set_ne KLoadBalancer k _ w ltac:(done)).
  - apply same_source_refl.
  - done.
  - done.
  - done.
  - rewrite Hm. by apply contents_same.
  - by rewrite Hm.
  - intros lb Hl. pose proof (eq_trans (eq_sym Hlb) Hl). done.
  - intros lb Hl. pose proof (eq_trans (eq_sym Hlb) Hl). done.
  - intros lb Hl. pose proof (eq_trans (eq_sym Hlb) Hl). done.
Qed.

(** The status of the LoadBalancer reaches the Service, if it differs. *)
Lemma status_stage w log (svc svc' : Service) lb :
  filed w → objs w KService !! obj_key (k:=KService) svc = Some svc → ss_type (svc_spec svc) = ServiceTypeLoadBalancer →
  obj_key (k:=KService) svc' = obj_key (k:=KService) svc → svc_spec svc' = svc_spec svc → svc_ingress svc' = svc_ingress svc →
  ∃ w1 l1 s, run api_server
      (if bool_decide (ss_type (svc_spec svc') = ServiceTypeLoadBalancer) &&
          bool_decide (lst_ingress (lb_status lb) ≠ svc_ingress svc')
       then update_service_status svc' lb else ok ()) w log = (w1, l1, Done (inr ())) ∧
    stores KService (obj_key (k:=KService) svc) s w w1 ∧ same_source svc s ∧
    svc_ingress s = lst_ingress (lb_status lb) ∧ finalizers (svc_meta s) = finalizers (svc_meta svc) ∧
    deletionTimestamp (svc_meta s) = deletionTimestamp (svc_meta svc) ∧
    (svc_ingress svc = lst_ingress (lb_status lb) → w1 = w).
Proof.
  intros Hw Hs Ht Hk Hsp Hi. rewrite Hsp, Hi, (bool_decide_true (ss_type _ = _)) by done. cbn [andb].
  destruct (bool_decide _) eqn:Hb.
  - destruct (run_update_service_status w log svc svc' lb Hw) as (w1 & l1 & s & Hrun & Hst & Hsrc & Hing & Hf & Hd); [by rewrite Hk|].
    exists w1, l1, s. rewrite Hk in Hst. repeat (split; [done|]). apply bool_decide_eq_true in Hb. congruence.
  - apply bool_decide_eq_false, dec_stable in Hb. exists w, log, svc.
    split; [done|]. split; [by apply stores_refl|]. split; [apply same_source_refl|]. done.
Qed.

Lemma sync_updates w log req svc lb :
  filed w → objs w KService !! obj_key (k:=KService) svc = Some svc → ss_type (svc_spec svc) = ServiceTypeLoadBalancer →
  objs w KLoadBalancer !! lb_key_of svc = Some lb → deletionTimestamp (lb_meta lb) = None →
  ∃ w' log' svc' lb', run api_server (sync_load_balancer r req svc) w log = (w', log', Done (inr false)) ∧ synced_to w svc w' svc' lb'.
Proof.
  intros Hw Hs Ht Hlb Hlive. unfold sync_load_balancer. rewrite endpoints_by_reference.
  destruct (MapLoadBalancer svc [] true (sr_clusterName r)) as [d svc'] eqn:Hd.
  assert (mapped r svc = d) as Hm by (unfold mapped; rewrite endpoints_by_reference; cbv iota beta; by rewrite Hd).
  injection Hd as Ed Esvc. assert (obj_key (k:=KLoadBalancer) d = lb_key_of svc) as Hkey by by subst d.
  cbn [mbind prog_bind prog_bind_ perform run].
  rewrite (api_get (k:=KLoadBalancer) w (namespace (lb_meta d)) (name (lb_meta d)) lb)
    by (change (objs w KLoadBalancer !! obj_key (k:=KLoadBalancer) d = Some lb); by rewrite Hkey).
  destruct (status_stage w (log ++ [existT (Get KLoadBalancer (namespace (lb_meta d)) (name (lb_meta d))) (inr lb)]) svc svc' lb)
    as (w1 & l1 & svc1 & R1 & [Hw1 Ho1] & Hsrc & Hing & Hf & Hdt & Hsame); [done..|by subst svc'|by subst svc'|by subst svc'|].
  rewrite (run_try _ _ _ _ _ _ _ _ R1).
  assert (objs w1 KLoadBalancer = objs w KLoadBalancer) as Elb by by apply Ho1.
  destruct (desired_cases lb d) as [[-> Hsl]|[-> Hns]]; unfold lift, updateManagedServicesGauge;
    cbn [mbind prog_bind prog_bind_ perform run].
  - eexists _, _, svc1, lb. split; [done|]. split; try done.
    + by rewrite Elb, insert_id.
    + intros k Hk _. by apply Ho1.
    + by rewrite Hm.
    + intros Hl. pose proof (eq_trans (eq_sym Hlb) Hl). done.
    + intros lb0 Hl. by pose proof (eq_trans (eq_sym Hlb) Hl) as [= <-].
    + intros lb0 Hl. pose proof (eq_trans (eq_sym Hlb) Hl) as [= <-]. done.
    + intros lb0 Hl _ Hi. pose proof (eq_trans (eq_sym Hlb) Hl) as [= <-]. auto.
  - destruct (do_update_stores (k:=KLoadBalancer) w1 (lb_key_of svc) lb (updated_load_balancer lb d)) as (w2 & Hrun & [Hk2 Ho2]);
      [by rewrite Elb| |done|done|done|].
    { change (obj_key (k:=KLoadBalancer) lb = lb_key_of svc). exact (Hw KLoadBalancer _ _ Hlb). }
    unfold try. cbn [mbind prog_bind prog_bind_ perform run].
    change (api_server w1 (Update KLoadBalancer (updated_load_balancer lb d)))
      with (do_update (k:=KLoadBalancer) w1 (updated_load_balancer lb d)). rewrite Hrun. cbn [ok prog_bind_ run].
    eexists _, _, svc1, (updated_from (k:=KLoadBalancer) w1 lb (updated_load_balancer lb d)). split; [done|]. split; try done.
    + rewrite (Ho2 KService) by done. exact Hw1.
    + by rewrite Hk2, Elb.
    + intros k Hk Hk'. rewrite Ho2, Ho1 by done. done.
    + rewrite Hm. by apply contents_same.
    + intros Hl. pose proof (eq_trans (eq_sym Hlb) Hl). done.
    + intros lb0 Hl. by pose proof (eq_trans (eq_sym Hlb) Hl) as [= <-].
    + intros lb0 Hl. pose proof (eq_trans (eq_sym Hlb) Hl) as [= <-]. done.
    + intros lb0 Hl Hsl. pose proof (eq_trans (eq_sym Hlb) Hl) as [= <-]. rewrite Hm in Hsl. contradiction.
Qed.

(** The cleanup finalizer is there afterwards; if it was, nothing is written. *)
Lemma run_ensure_finalizer w log (svc : Service) :
  objs w KService !! obj_key (k:=KService) svc = Some svc → deletionTimestamp (svc_meta svc) = None →
  ∃ w' log' svc', run api_server (ensure_service_finalizer svc) w log = (w', log', Done (inr (Some svc'))) ∧
    stores KService (obj_key (k:=KService) svc) svc' w w' ∧ same_source svc svc' ∧
    ccmCleanupFinalizer ∈ finalizers (svc_meta svc') ∧ svc_ingress svc' = svc_ingress svc ∧
    deletionTimestamp (svc_meta svc') = None ∧ (ccmCleanupFinalizer ∈ finalizers (svc_meta svc) → w' = w ∧ svc' = svc).
Proof.
  intros Hs Hd. unfold ensure_service_finalizer. destruct (ContainsFinalizer (svc_meta svc) ccmCleanupFinalizer) eqn:Hc.
  { apply contains_finalizer in Hc. exists w, log, svc. split; [done|]. split; [by apply stores_refl|].
    split; [apply same_source_refl|]. done. }
  destruct (AddFinalizer (svc_meta svc) ccmCleanupFinalizer) as [m b] eqn:Ha.
  assert (m = with_finalizers (finalizers (svc_meta svc) ++ [ccmCleanupFinalizer]) (svc_meta svc) ∧ b = true) as [-> ->].
  { rewrite add_finalizer, Hc in Ha. by injection Ha as <- <-. }
  cbn [negb]. apply service_finalizer_added, contains_finalizer in Ha. set (m := RemoveFinalizer _ _) in *.
  assert (m = with_finalizers (finalizers m) (svc_meta svc)) as Hm by (unfold m; by rewrite remove_finalizer).
  destruct (do_update_stores (k:=KService) w (obj_key (k:=KService) svc) svc (with_svc_meta m svc)) as (w' & Hrun & Hst);
    [done|by rewrite Hm|by rewrite Hm|by rewrite Hm|done|].
  unfold try_wrap. cbn [mbind prog_bind prog_bind_ perform run].
  change (api_server w (Update KService (with_svc_meta m svc))) with (do_update (k:=KService) w (with_svc_meta m svc)). rewrite Hrun.
  cbn [ok prog_bind_ run]. eexists w', _, _. split; [done|]. split; [exact Hst|]. split; [rewrite Hm; by split|].
  split; [exact Ha|]. do 2 (split; [done|]). intros Hin. apply contains_finalizer in Hin. congruence.
Qed.

(** ** The reconciler *)

(** A Service the controller manages, that is not being deleted, nor is its
    LoadBalancer. *)
Record managed (w : world) (req : NamespacedName) (svc : Service) : Prop := {
  mg_filed : filed w;
  mg_service : objs w KService !! (nn_namespace req, nn_name req) = Some svc;
  mg_live : deletionTimestamp (svc_meta svc) = None;
  mg_should : shouldReconcileService r svc = true;
  mg_lb lb : objs w KLoadBalancer !! lb_key_of svc = Some lb → deletionTimestamp (lb_meta lb) = None
}.

Lemma managed_type svc : shouldReconcileService r svc = true → ss_type (svc_spec svc) = ServiceTypeLoadBalancer.
Proof. unfold shouldReconcileService. by case_decide. Qed.

Lemma sync_runs_to w log req svc :
  filed w → objs w KService !! obj_key (k:=KService) svc = Some svc → ss_type (svc_spec svc) = ServiceTypeLoadBalancer →
  (∀ lb, objs w KLoadBalancer !! lb_key_of svc = Some lb → deletionTimestamp (lb_meta lb) = None) →
  ∃ w' log' svc' lb', run api_server (sync_load_balancer r req svc) w log = (w', log', Done (inr false)) ∧ synced_to w svc w' svc' lb'.
Proof.
  intros Hw Hs Ht Hlb. destruct (objs w KLoadBalancer !! lb_key_of svc) as [lb|] eqn:E.
  - by apply (sync_updates w log req svc lb); [..|apply Hlb].
  - destruct (sync_creates w log req svc) as (w' & l' & lb' & ? & ?); [done..|]. by exists w', l', svc, lb'.
Qed.

(** A run, from the Service and LoadBalancer before to those after. *)
Record one_run (w : world) (req : NamespacedName) (svc : Service) (w' : world) (svc' : Service) (lb' : LoadBalancer) : Prop := {
  or_sync : ∃ w1 svc1, stores KService (nn_namespace req, nn_name req) svc1 w w1 ∧ same_source svc svc1 ∧
    svc_ingress svc1 = svc_ingress svc ∧ synced_to w1 svc1 w' svc' lb' ∧
    (ccmCleanupFinalizer ∈ finalizers (svc_meta svc) → w1 = w ∧ svc1 = svc);
  or_source : same_source svc svc';
  or_finalizer : ccmCleanupFinalizer ∈ finalizers (svc_meta svc');
  or_managed : managed w' req svc'
}.

Lemma reconciler_runs w req svc :
  managed w req svc →
  answer (ReconcileService r req) w = Done (inr false) ∧
  ∃ svc' lb', one_run w req svc (exec (ReconcileService r req) w) svc' lb'.
Proof.
  intros [Hw Hs Hd Hsh Hlb]. assert (obj_key (k:=KService) svc = (nn_namespace req, nn_name req)) as Hkey by by apply (Hw KService).
  assert (filed (exec (ReconcileService r req) w)) as Hfiled by by apply exec_filed.
  revert Hfiled. unfold answer, exec, ReconcileService. cbn [mbind prog_bind prog_bind_ perform run].
  rewrite (api_get (k:=KService) w _ _ svc Hs), decide_False by (intros []; done). rewrite Hsh. cbn [negb].
  set (l0 := [] ++ _).
  destruct (run_ensure_finalizer w l0 svc) as (w1 & l1 & svc1 & R1 & Hst & Hsrc & Hfin & Hing & Hd1 & Hsame); [by rewrite Hkey|done|].
  rewrite (run_try _ _ _ _ _ _ _ _ R1). assert (obj_key (k:=KService) svc1 = obj_key (k:=KService) svc) as Hk1 by apply Hsrc.
  assert (filed w1) as Hw1 by (pose proof (run_filed (ensure_service_finalizer svc) w l0 Hw) as F; by rewrite R1 in F).
  assert (objs w1 KService !! obj_key (k:=KService) svc1 = Some svc1) as Hs1 by (rewrite Hk1; exact (stores_lookup KService _ _ _ _ Hst)).
  assert (lb_key_of svc1 = lb_key_of svc) as Hlk by (unfold lb_key_of; by rewrite (same_uid _ _ Hsrc)).
  destruct (sync_runs_to w1 l1 req svc1) as (w2 & l2 & svc2 & lb2 & R2 & Hsync); [done|done| | |].
  { rewrite (same_spec _ _ Hsrc). by apply managed_type. }
  { rewrite Hlk, (stores_other _ _ _ _ _ KLoadBalancer Hst) by done. exact Hlb. }
  rewrite R2. intros Hfiled. split; [done|]. exists svc2, lb2. rewrite Hkey in *.
  assert (same_source svc svc2) as Hsrc2 by (eapply same_source_trans; [exact Hsrc|apply Hsync]).
  split; [by exists w1, svc1; split_and!|done| |].
  { rewrite (sync_finalizers _ _ _ _ _ Hsync). done. }
  split; [done| | | |].
  - cbn [fst]. rewrite (sync_services _ _ _ _ _ Hsync), Hk1. apply lookup_insert_eq.
  - by rewrite (sync_live _ _ _ _ _ Hsync).
  - by rewrite (should_source _ _ Hsrc2).
  - cbn [fst]. assert (lb_key_of svc2 = lb_key_of svc1) as -> by (unfold lb_key_of; by rewrite (same_uid _ _ (sync_source _ _ _ _ _ Hsync))).
    rewrite (sync_balancers _ _ _ _ _ Hsync), lookup_insert_eq. intros lb [= <-]. apply Hsync.
Qed.

(** What one run does, in terms of the state before. *)
Lemma one_run_lb w req svc w' svc' lb' :
  one_run w req svc w' svc' lb' →
  objs w' KLoadBalancer = <[lb_key_of svc := lb']> (objs w KLoadBalancer) ∧ same_load_balancer lb' (mapped r svc) ∧
  (∀ lb, objs w KLoadBalancer !! lb_key_of svc = Some lb →
     svc_ingress svc' = lst_ingress (lb_status lb) ∧ lb_status lb' = lb_status lb).
Proof.
  intros [(w1 & svc1 & Hst & Hsrc & _ & Hsync & _) _ _ _].
  assert (lb_key_of svc1 = lb_key_of svc) as Hlk by (unfold lb_key_of; by rewrite (same_uid _ _ Hsrc)).
  assert (objs w1 KLoadBalancer = objs w KLoadBalancer) as E by by apply (stores_other _ _ _ _ _ KLoadBalancer Hst).
  rewrite <- E, <- Hlk, <- (mapped_source svc svc1 Hsrc). split_and!; apply Hsync.
Qed.

Lemma one_run_kept w req svc w' svc' lb' :
  one_run w req svc w' svc' lb' →
  objs w' KService = <[(nn_namespace req, nn_name req) := svc']> (objs w KService) ∧
  (∀ k, k ≠ KService → k ≠ KLoadBalancer → objs w' k = objs w k).
Proof.
  intros [(w1 & svc1 & [E1 Ho] & Hsrc & _ & Hsync & _) _ _ Hm]. split.
  - assert (obj_key (k:=KService) svc1 = (nn_namespace req, nn_name req)) as Hk.
    { rewrite <- (same_key _ _ (sync_source _ _ _ _ _ Hsync)). exact (mg_filed _ _ _ Hm KService _ _ (mg_service _ _ _ Hm)). }
    by rewrite (sync_services _ _ _ _ _ Hsync), Hk, E1, insert_insert_eq.
  - intros k H4 H5. by rewrite (sync_others _ _ _ _ _ Hsync), Ho.
Qed.

Lemma one_run_stable w req svc w' svc' lb' lb :
  one_run w req svc w' svc' lb' → ccmCleanupFinalizer ∈ finalizers (svc_meta svc) →
  objs w KLoadBalancer !! lb_key_of svc = Some lb → same_load_balancer lb (mapped r svc) →
  svc_ingress svc = lst_ingress (lb_status lb) → w' = w.
Proof.
  intros [(w1 & svc1 & _ & _ & _ & Hsync & Hsame) _ _ _] Hf. destruct (Hsame Hf) as [-> ->]. by apply Hsync.
Qed.

(** The Service and its LoadBalancer agree. *)
Record in_sync (w : world) (req : NamespacedName) (svc : Service) : Prop := {
  is_finalizer : ccmCleanupFinalizer ∈ finalizers (svc_meta svc);
  is_service : objs w KService !! (nn_namespace req, nn_name req) = Some svc;
  is_lb : ∃ lb : LoadBalancer, objs w KLoadBalancer !! lb_key_of svc = Some lb ∧ same_load_balancer lb (mapped r svc) ∧
    svc_ingress svc = lst_ingress (lb_status lb)
}.

Lemma in_sync_stays w req svc n :
  managed w req svc → in_sync w req svc → Nat.iter n (exec (ReconcileService r req)) w = w.
Proof.
  intros Hm [Hf _ (lb & Hlb & Hs & Hi)]. destruct (reconciler_runs w req svc Hm) as (_ & svc' & lb' & Hrun).
  apply (one_run_stable _ _ _ _ _ _ lb) in Hrun; [|done..]. induction n as [|n IH]; simpl; [done|]. by rewrite IH.
Qed.

(** One run when the LoadBalancer is there. *)
Lemma run_in_sync w req svc (lb : LoadBalancer) :
  managed w req svc → objs w KLoadBalancer !! lb_key_of svc = Some lb →
  ∃ svc', same_source svc svc' ∧ managed (exec (ReconcileService r req) w) req svc' ∧
    in_sync (exec (ReconcileService r req) w) req svc'.
Proof.
  intros Hm Hlb. destruct (reconciler_runs w req svc Hm) as (_ & svc' & lb' & Hrun).
  destruct (one_run_lb _ _ _ _ _ _ Hrun) as (E & Hs & Hst). destruct (Hst lb Hlb) as [Hi Hl]. exists svc'.
  destruct Hrun as [_ Hsrc Hf Hm']. split; [done|]. split; [done|]. split; [done|apply Hm'|]. exists lb'.
  assert (lb_key_of svc' = lb_key_of svc) as -> by (unfold lb_key_of; by rewrite (same_uid _ _ Hsrc)).
  rewrite E, lookup_insert_eq, (mapped_source svc svc' Hsrc), Hl. done.
Qed.
End sync.


(** A new Service, with no LoadBalancer yet. *)
Definition new_service_world : world :=
  set_objs KService {[ ("shop", "web") := sample_user_service sample_ports None ]} empty_world.
Definition cloud_reconciler : KubeLBServiceReconciler :=
  {| sr_clusterName := "tenant-a"; sr_cloudController := true; sr_useLoadbalancerClass := false |}.
Definition web_request : NamespacedName := {| nn_namespace := "shop"; nn_name := "web" |}.


(** ** A Service that is deleted *)

Definition service_finalizers : list string := [LBFinalizerName; ccmCleanupFinalizer].

Section removal.
Context `{Unicode} `{FinalizerLaws} `{SemanticDeepEqual (gomap string)} (r : KubeLBServiceReconciler).

Lemma dying_service_any (svc : Service) :
  dying (k:=KService) service_finalizers svc →
  ContainsFinalizer (svc_meta svc) ccmCleanupFinalizer || ContainsFinalizer (svc_meta svc) LBFinalizerName = true.
Proof.
  intros (_ & Hne & Hall). change (meta_of (k:=KService) svc) with (svc_meta svc) in Hne, Hall.
  rewrite orb_true_iff, !contains_finalizer. destruct (finalizers (svc_meta svc)) as [|f fs]; [done|].
  apply list.Forall_cons in Hall as [Hf _]. unfold service_finalizers in Hf. rewrite !elem_of_cons, elem_of_nil in Hf.
  rewrite !elem_of_cons. naive_solver.
Qed.

Lemma run_deletes k ns n e w log :
  ∃ log', run api_server (delete_ignoring k ns n e) w log = ((do_delete (k:=k) w ns n).1, log', Done (inr ())).
Proof.
  unfold delete_ignoring. cbn [mbind prog_bind prog_bind_ perform run].
  change (api_server w (Delete k ns n)) with (do_delete (k:=k) w ns n). unfold do_delete.
  destruct (objs w k !! (ns, n)); by eexists.
Qed.

(** A run deletes the LoadBalancer and lets the Service go. *)
Lemma service_released w ns n (svc : Service) :
  filed w → objs w KService !! (ns, n) = Some svc → dying (k:=KService) service_finalizers svc →
  let w' := exec (ReconcileService r {| nn_namespace := ns; nn_name := n |}) w in
  objs w' KService = delete (ns, n) (objs w KService) ∧
  objs w' KLoadBalancer = objs (do_delete (k:=KLoadBalancer) w (sr_clusterName r) (uid (svc_meta svc))).1 KLoadBalancer.
Proof.
  intros Hw Hs Hdy. unfold exec, ReconcileService. cbn [mbind prog_bind prog_bind_ perform run nn_namespace nn_name].
  rewrite (api_get (k:=KService) w _ _ svc Hs), decide_True by apply Hdy. rewrite dying_service_any by done. set (l := [] ++ _).
  unfold cleanupService. edestruct (run_deletes KLoadBalancer) as [l1 R1]. rewrite (run_try _ _ _ _ _ _ _ _ R1). clear R1.
  set (w1 := (do_delete _ _ _).1). assert (objs w1 KService = objs w KService) as E.
  { exact (api_server_other w (Delete KLoadBalancer (sr_clusterName r) (uid (svc_meta svc))) KService eq_refl). }
  edestruct (run_removal (k:=KService) w1 l1 (ns, n) svc (without_service_finalizers svc)) as (w2 & l2 & R & Hk & Ho).
  { by rewrite E. }
  { by apply (Hw KService). }
  { apply Hdy. }
  { unfold without_service_finalizers. change (RemoveFinalizer _ ccmCleanupFinalizer) with (foldl RemoveFinalizer (svc_meta svc) service_finalizers).
    rewrite remove_all_finalizers; [done|apply Hdy]. }
  rewrite R. cbn [fst]. by rewrite Hk, E, (Ho KLoadBalancer).
Qed.
End removal.


(** The Service and its LoadBalancer, after they were in use and the user deletes the
    Service. *)
Definition doomed_service : Service :=
  let svc := sample_user_service sample_ports None in
  with_svc_meta (server_meta "6f3c-0001" "9" (Some "now") (with_finalizers [ccmCleanupFinalizer] (svc_meta svc))) svc.
Definition doomed_service_lb : LoadBalancer :=
  let lb := (MapLoadBalancer (H := no_unicode) (sample_user_service sample_ports None) [] true "tenant-a").1 in
  with_lb_meta (with_finalizers [CleanupFinalizer; envoyProxyCleanupFinalizer] (lb_meta lb)) lb.
Definition doomed_service_world : world :=
  set_objs KService {[ ("shop", "web") := doomed_service ]}
    (set_objs KLoadBalancer {[ ("tenant-a", "6f3c-0001") := doomed_service_lb ]} empty_world).
Lemma doomed_service_world_filed : filed doomed_service_world.
Proof.
  do 2 (refine (filed_set _ _ _ _ _); [|by intros key o [<- <-]%lookup_singleton_Some]). apply empty_world_filed.
Qed.

