(* ===== verification/Watches.v ===== *)
(** * What wakes the controllers (SetupWithManager of every controller)

    Every controller tells controller-runtime which objects it watches, which events of
    them it lets through, and which requests an event stands for.  A [Builder] is what
    the controller passes to [ctrl.NewControllerManagedBy]; the library that delivers the
    events is the class [EventSource], with its documented behaviour as [EventSourceLaws]. *)
From stdpp Require Import base gmap list strings.
From S2P Require Import Prelude GoStrings Api Names PortAllocator Annotations LoadBalancers EnvoySnapshot NetApi Effects Guards Predicates Objects Finalized ApiServer Services RouteResources LBController TenantController BridgeService Routes RouteController EnvoyController CCMNode CCMService CCMSources SyncSecrets GatewayCRDs CommandLine Commands.
Import Core V1alpha1.

(** ** Builders *)

(** [handler.EnqueueRequestForObject], [EnqueueRequestForOwner] and
    [EnqueueRequestsFromMapFunc]. *)
Inductive handler (k : Effects.kind) :=
  | ForObject
  | ForOwner (group kind : string)
  | MapFunc (f : objT k → prog (list NamespacedName)).
Arguments ForObject {k}.
Arguments ForOwner {k} group kind.
Arguments MapFunc {k} f.

Record watch := {
  wt_kind : Effects.kind;
  wt_predicates : list (watch_event (objT wt_kind) → prog bool);
  wt_handler : handler wt_kind
}.

Record Builder := { bd_name : string; bd_maxConcurrentReconciles : option Z; bd_watches : list watch }.

Definition For (k : Effects.kind) (ps : list (watch_event (objT k) → prog bool)) : watch :=
  {| wt_kind := k; wt_predicates := ps; wt_handler := ForObject |}.
Definition Owns (k : Effects.kind) (group kind : string) : watch :=
  {| wt_kind := k; wt_predicates := []; wt_handler := ForOwner group kind |}.
Definition Watches (k : Effects.kind) (f : objT k → prog (list NamespacedName)) (ps : list (watch_event (objT k) → prog bool)) : watch :=
  {| wt_kind := k; wt_predicates := ps; wt_handler := MapFunc f |}.
Definition managed_by (n : string) (ws : list watch) : Builder :=
  {| bd_name := n; bd_maxConcurrentReconciles := None; bd_watches := ws |}.

Definition event_map {A B} (f : A → B) (e : watch_event A) : watch_event B :=
  match e with
  | CreateEvent o => CreateEvent (f o)
  | UpdateEvent old new => UpdateEvent (f old) (f new)
  | DeleteEvent o => DeleteEvent (f o)
  | GenericEvent o => GenericEvent (f o)
  end.

(** A predicate on the event, and one that only looks at the metadata. *)
Definition pure (k : Effects.kind) (p : watch_event (objT k) → bool) (e : watch_event (objT k)) : prog bool := Ret (p e).
Definition on_meta {k : Effects.kind} (p : Funcs ObjectMeta) (e : watch_event (objT k)) : prog bool :=
  Ret (passes p (event_map meta_of e)).
Definition namespaceFilter {k : Effects.kind} (e : watch_event (objT k)) : prog bool :=
  ByLabelExistsOnNamespace (event_map meta_of e).

(** ** The controllers of the manager *)

Section builders.
(** [metadata.generation], which the API server counts up. *)
Context (generation : ∀ {k : Effects.kind}, objT k → Z).
Definition generation_changed {k : Effects.kind} (e : watch_event (objT k)) : prog bool :=
  Ret (passes (GenerationChangedPredicate (@generation k)) e).

Definition setup_load_balancer : Builder :=
  managed_by "loadbalancer-controller"
    [For KLoadBalancer [namespaceFilter];
     Watches KConfig (λ _, enqueueLoadBalancersForConfig) [];
     Watches KTenant enqueueLoadBalancersForTenant [];
     Watches KService (λ o, Ret (enqueueLoadBalancers o)) [namespaceFilter (k:=KService); pure KService filterServicesPredicate]].

Definition setup_envoy_cp : Builder :=
  {| bd_name := "envoy-cp-controller";
     bd_maxConcurrentReconciles := Some 1%Z;
     bd_watches :=
       [For KLoadBalancer [namespaceFilter];
        Watches KRoute (λ o, Ret (enqueueEnvoy (rt_meta o))) [namespaceFilter; generation_changed];
        Watches KAddresses (λ o, Ret (enqueueEnvoy (ad_meta o))) [namespaceFilter; generation_changed];
        Watches KConfig (λ _, enqueueAllLoadBalancers) [pure KConfig configSpecChangedPredicate];
        Watches KTenant (λ o, Ret (enqueueTenantLoadBalancers o)) [pure KTenant tenantSpecChangedPredicate]] |}.

Definition setup_route (r : RouteReconciler) : Builder :=
  managed_by "route-controller"
    ([For KRoute [generation_changed];
      Watches KConfig (λ _, enqueueRoutesForConfig) [];
      Watches KTenant enqueueRoutesForTenant [];
      Owns KIngress "kubelb.k8c.io" "Route"] ++
     (if negb (rr_disableGatewayAPI r)
      then [Owns KGateway "kubelb.k8c.io" "Route"; Owns KHTTPRoute "kubelb.k8c.io" "Route"; Owns KGRPCRoute "kubelb.k8c.io" "Route"]
      else [])).

Definition setup_tenant : Builder := managed_by "tenant-controller" [For KTenant []].
Definition setup_lb_sync_secret : Builder := managed_by "sync-secret-controller" [For KSyncSecret []].
Definition setup_bridge_service : Builder := managed_by "bridge-service-controller" [For KService [on_meta bridgePredicate]].

(** ** The controllers of the CCM *)

Definition setup_node : Builder := managed_by "node-controller" [For KNode []].
Definition setup_service (r : KubeLBServiceReconciler) : Builder :=
  managed_by "service-controller"
    [For KService []; Watches KLoadBalancer (λ lb, Ret (enqueueLoadBalancer r lb)) []].

Definition setup_ingress (r : IngressReconciler) : Builder :=
  managed_by "ingress-controller"
    [For KIngress [pure KIngress (filterIngresses r)];
     Watches KService (λ svc, enqueueIngresses r (svc_meta svc)) [];
     Watches KRoute (λ route, Ret (enqueueRoutes "Ingress.networking.k8s.io" (igr_clusterName r) route)) []].
Definition setup_gateway (r : GatewayReconciler) : Builder :=
  managed_by "gateway-controller"
    [For KGateway [pure KGateway (filterGateways r)];
     Watches KRoute (λ route, Ret (enqueueRoutes "Gateway.gateway.networking.k8s.io" (gtr_clusterName r) route)) []].
Definition setup_httproute (r : HTTPRouteReconciler) : Builder :=
  managed_by "gateway-httproute-controller"
    [For KHTTPRoute [pure KHTTPRoute filterHTTPRoutes];
     Watches KService (λ svc, enqueueHTTPRoutes (svc_meta svc)) [];
     Watches KRoute (λ route, Ret (enqueueRoutes "HTTPRoute.gateway.networking.k8s.io" (htr_clusterName r) route)) []].
Definition setup_grpcroute (r : GRPCRouteReconciler) : Builder :=
  managed_by "gateway-grpcroute-controller"
    [For KGRPCRoute [pure KGRPCRoute filterGRPCRoutes];
     Watches KService (λ svc, enqueueGRPCRoutes (svc_meta svc)) [];
     Watches KRoute (λ route, Ret (enqueueRoutes "GRPCRoute.gateway.networking.k8s.io" (grr_clusterName r) route)) []].
Definition setup_secret_conversion : Builder := managed_by "secret-conversion-controller" [For KTenantSecret [on_meta secretPredicate]].
Definition setup_ccm_sync_secret : Builder := managed_by "sync-secret-controller" [For KTenantSyncSecret []].
(** The channel of bootstrap events is [GatewayCRDs.SetupWithManager]. *)
Definition setup_gateway_crd : Builder :=
  managed_by "gateway-crd-controller"
    [For KCRD [pure KCRD (crd_events (@generation KCRD))]].

(** The builder of each controller the commands set up. *)
Definition ccm_builder (c : ccm_controller) : Builder :=
  match c with
  | NodeController _ => setup_node
  | ServiceController r => setup_service r
  | IngressController r => setup_ingress r
  | GatewayCRDController _ => setup_gateway_crd
  | GatewayController r => setup_gateway r
  | HTTPRouteController r => setup_httproute r
  | GRPCRouteController r => setup_grpcroute r
  | SecretConversionController => setup_secret_conversion
  | SyncSecretController _ => setup_ccm_sync_secret
  end.
Definition kubelb_builder (c : kubelb_controller) : Builder :=
  match c with
  | LoadBalancerController _ => setup_load_balancer
  | EnvoyCPController _ _ => setup_envoy_cp
  | RouteControllerOf r => setup_route r
  | LBSyncSecretController _ _ => setup_lb_sync_secret
  | TenantControllerOf _ => setup_tenant
  | BridgeServiceController => setup_bridge_service
  end.
End builders.

(** ** Delivering events *)

(** A change of one object, as an informer reports it. *)
Definition change : Type := {k : Effects.kind & watch_event (objT k)}.

(** The object an event is about, and all it shows. *)
Definition subject {A} (e : watch_event A) : A :=
  match e with CreateEvent o | UpdateEvent _ o | DeleteEvent o | GenericEvent o => o end.
Definition objects {A} (e : watch_event A) : list A :=
  match e with CreateEvent o | DeleteEvent o | GenericEvent o => [o] | UpdateEvent old new => [old; new] end.

Definition accepts (r : go bool) : bool := match r with Done true => true | _ => false end.
Definition returned {A} (r : go (list A)) : list A := match r with Done l => l | Panics => [] end.

Definition controlled_by (group kind : string) (ref : OwnerReference) : bool :=
  bool_decide (or_controller ref = Some true) && bool_decide (or_kind ref = kind) && HasPrefix (or_apiVersion ref) (group +:+ "/").

(** The requests an event stands for when it is let through. *)
Definition handler_requests (w : world) {k : Effects.kind} (h : handler k) (e : watch_event (objT k)) : list NamespacedName :=
  match h with
  | ForObject => [request_of (meta_of (subject e))]
  | ForOwner group kind =>
      o ← objects e;
      (λ ref, {| nn_namespace := namespace (meta_of o); nn_name := or_name ref |})
        <$> filter (λ ref, controlled_by group kind ref = true) (ownerReferences (meta_of o))
  | MapFunc f => o ← objects e; returned (answer (f o) w)
  end.

Definition watch_requests (w : world) (wt : watch) (e : watch_event (objT (wt_kind wt))) : list NamespacedName :=
  if forallb (λ p, accepts (answer (p e) w)) (wt_predicates wt) then handler_requests w (wt_handler wt) e else [].

(** The events of a change that are for a watch. *)
Definition for_watch (wt : watch) (c : change) : option (watch_event (objT (wt_kind wt))) :=
  match decide (projT1 c = wt_kind wt) with
  | left E => Some (eq_rect _ (λ k, watch_event (objT k)) (projT2 c) _ E)
  | right _ => None
  end.

Lemma for_watch_same wt (e : watch_event (objT (wt_kind wt))) : for_watch wt (existT (wt_kind wt) e) = Some e.
Proof.
  unfold for_watch. simpl. destruct (decide _) as [E|]; [|done]. by rewrite (proof_irrel E eq_refl).
Qed.

(** The requests a controller gets for a change, with the cache of its clients at [w]:
    those of every watch that lets the event through, and no others. *)
Class EventSource := enqueued : Builder → world → change → list NamespacedName.
Class EventSourceLaws `{EventSource} := {
  enqueued_spec b w c req :
    req ∈ enqueued b w c ↔ ∃ wt e, wt ∈ bd_watches b ∧ for_watch wt c = Some e ∧ req ∈ watch_requests w wt e
}.

Definition all_watches : EventSource := λ b w c,
  wt ← bd_watches b; match for_watch wt c with Some e => watch_requests w wt e | None => [] end.
Lemma all_watches_laws : @EventSourceLaws all_watches.
Proof.
  split. intros b w c req. unfold enqueued, all_watches. rewrite list_elem_of_bind. split.
  - intros (wt & Hreq & Hwt). destruct (for_watch wt c) as [e|] eqn:E; [|by apply elem_of_nil in Hreq]. by exists wt, e.
  - intros (wt & e & Hwt & E & Hreq). exists wt. by rewrite E.
Qed.

(** A watch of the kind of the change is enough. *)
Lemma enqueued_by `{EventSourceLaws} b w wt (e : watch_event (objT (wt_kind wt))) req :
  wt ∈ bd_watches b → req ∈ watch_requests w wt e → req ∈ enqueued b w (existT (wt_kind wt) e).
Proof. intros Hwt Hreq. apply enqueued_spec. exists wt, e. by rewrite for_watch_same. Qed.

(** ** Changes between two states *)

Inductive changed (w w' : world) : change → Prop :=
  | changed_create (k : Effects.kind) key (o : objT k) :
      objs w k !! key = None → objs w' k !! key = Some o → changed w w' (existT k (CreateEvent o))
  | changed_update (k : Effects.kind) key (old o : objT k) :
      objs w k !! key = Some old → objs w' k !! key = Some o → old ≠ o → changed w w' (existT k (UpdateEvent old o))
  | changed_delete (k : Effects.kind) key (o : objT k) :
      objs w k !! key = Some o → objs w' k !! key = None → changed w w' (existT k (DeleteEvent o)).

(** An object that is not as it was has an event, which shows what there was and is. *)
Record reports (w w' : world) {k : Effects.kind} (key : string * string) (e : watch_event (objT k)) : Prop := {
  rep_changed : changed w w' (existT k e);
  rep_old o : objs w k !! key = Some o → o ∈ objects e;
  rep_new o : objs w' k !! key = Some o → subject e = o;
  rep_objects o : o ∈ objects e → objs w k !! key = Some o ∨ objs w' k !! key = Some o
}.

Lemma subject_objects {A} (e : watch_event A) : subject e ∈ objects e.
Proof. destruct e; simpl; [by left|by right; left|by left|by left]. Qed.

Lemma reports_create w w' (k : Effects.kind) key (o : objT k) :
  objs w k !! key = None → objs w' k !! key = Some o → reports w w' key (CreateEvent o).
Proof.
  intros Ho Ho'. split; [by eapply changed_create|by rewrite Ho|intros x; rewrite Ho'; by intros [= <-]|].
  intros x ->%list_elem_of_singleton. by right.
Qed.
Lemma reports_update w w' (k : Effects.kind) key (o o' : objT k) :
  objs w k !! key = Some o → objs w' k !! key = Some o' → o ≠ o' → reports w w' key (UpdateEvent o o').
Proof.
  intros Ho Ho' Hne. split; [by eapply changed_update|intros x; rewrite Ho; intros [= <-]; by left|intros x; rewrite Ho'; by intros [= <-]|].
  intros x [->| ->%list_elem_of_singleton]%elem_of_cons; [by left|by right].
Qed.
Lemma reports_delete w w' (k : Effects.kind) key (o : objT k) :
  objs w k !! key = Some o → objs w' k !! key = None → reports w w' key (DeleteEvent o).
Proof.
  intros Ho Ho'. split; [by eapply changed_delete|intros x; rewrite Ho; intros [= <-]; by left|by rewrite Ho'|].
  intros x ->%list_elem_of_singleton. by left.
Qed.

Lemma change_reported w w' (k : Effects.kind) key `{∀ o o' : objT k, Decision (o = o')} :
  objs w k !! key = objs w' k !! key ∨ ∃ e : watch_event (objT k), reports w w' key e.
Proof.
  destruct (objs w k !! key) as [o|] eqn:Ho, (objs w' k !! key) as [o'|] eqn:Ho'; [| | |by left].
  - destruct (decide (o = o')) as [->|Hne]; [by left|right]. by eexists; apply reports_update.
  - right. by eexists; apply reports_delete.
  - right. by eexists; apply reports_create.
Qed.

(** ** Names *)

(** controller-runtime refuses two controllers of one name in a process. *)
Lemma ccm_names_distinct generation opt clusterName addr :
  base.NoDup (bd_name ∘ ccm_builder generation <$> setupControllers opt clusterName addr).
Proof.
  unfold setupControllers.
  destruct (negb (co_disableIngressController opt)), (co_installGatewayAPICRDs opt),
    (negb (co_disableGatewayController opt) && co_enableGatewayAPI opt),
    (negb (co_disableHTTPRouteController opt) && co_enableGatewayAPI opt),
    (negb (co_disableGRPCRouteController opt) && co_enableGatewayAPI opt), (co_enableSecretSynchronizer opt);
    apply (bool_decide_unpack _); vm_compute; exact I.
Qed.

(** ** The namespaces of tenants *)

Definition tenant_namespace (w : world) (ns : string) : bool :=
  match objs w KNamespace !! ("", ns) with
  | Some o => bool_decide (get_str (labels (nsp_meta o)) LabelManagedBy = LabelControllerName)
  | None => false
  end.

(** The namespace of the object decides, of the old one or of the new. *)
Lemma namespaceFilter_spec w {k : Effects.kind} (e : watch_event (objT k)) :
  accepts (answer (namespaceFilter e) w) =
    match e with
    | GenericEvent _ => true
    | _ => existsb (λ o, tenant_namespace w (namespace (meta_of o))) (objects e)
    end.
Proof.
  unfold namespaceFilter, ByLabelExistsOnNamespace, workqueueFilter.
  assert (∀ o log, ∃ l, run api_server (on_labelled_namespace o) w log = (w, l, Done (tenant_namespace w (namespace o)))) as E.
  { intros o log. unfold on_labelled_namespace. cbn [mbind prog_bind prog_bind_ perform run]. unfold tenant_namespace.
    destruct (objs w KNamespace !! ("", namespace o)) as [x|] eqn:Hx;
      [rewrite (api_get (k:=KNamespace) w _ _ x Hx)|rewrite (api_get_none KNamespace w _ _ Hx)]; by eexists. }
  unfold answer. destruct e as [o|old new|o|o]; cbn [event_map objects existsb]; [| | |done].
  - destruct (E (meta_of o) []) as [l ->]. cbn [snd accepts]. by destruct (tenant_namespace w _).
  - rewrite run_bind. destruct (E (meta_of old) []) as [l ->]. cbv beta iota zeta.
    destruct (tenant_namespace w (namespace (meta_of old))); [done|]. destruct (E (meta_of new) l) as [l' ->].
    cbn [snd accepts orb]. by destruct (tenant_namespace w _).
  - destruct (E (meta_of o) []) as [l ->]. cbn [snd accepts]. by destruct (tenant_namespace w _).
Qed.

(** ** The snapshot of a namespace *)

(** What mapping a snapshot reads of the Addresses. *)
Definition addresses_in (w : world) (ns n : string) : error + Addresses :=
  match objs w KAddresses !! (ns, n) with Some a => inr a | None => inl (StatusError NotFound) end.
Definition read_addresses (get : string → string → error + Addresses) (ns n : string) : error + list EndpointAddress :=
  a ← get ns n; inr (ad_addresses a).

Record same_route (r r' : Route) : Prop := {
  sr_spec : rt_spec r' = rt_spec r;
  sr_labels : labels (rt_meta r') = labels (rt_meta r);
  sr_name : name (rt_meta r') = name (rt_meta r);
  sr_namespace : namespace (rt_meta r') = namespace (rt_meta r)
}.

Section same_snapshot.
Context (get get' : string → string → error + Addresses) (ns : string) (pa : option PortAllocator).
Context (Hget : ∀ n, read_addresses get ns n = read_addresses get' ns n).

Lemma resolve_same am e : resolve_addresses get am ns e = resolve_addresses get' am ns e.
Proof.
  unfold resolve_addresses. destruct (le_addressesReference e) as [ref|]; [|done]. destruct (am !! _); [done|].
  specialize (Hget (ref_name ref)). unfold read_addresses in Hget.
  destruct (get ns (ref_name ref)), (get' ns (ref_name ref)); simpl in *; congruence.
Qed.

Lemma lb_resources_same am lb i es :
  namespace (lb_meta lb) = ns → lb_resources get pa am lb i es = lb_resources get' pa am lb i es.
Proof.
  intros Hn. revert am i. induction es as [|e es IH]; intros am i; simpl; [done|]. rewrite Hn, resolve_same.
  destruct (resolve_addresses get' _ _ e) as [|[am' e']]; simpl; [done|]. by rewrite IH.
Qed.

Lemma lbs_resources_same am lbs :
  Forall (λ lb, namespace (lb_meta lb) = ns) lbs → lbs_resources get pa am lbs = lbs_resources get' pa am lbs.
Proof.
  intros Hns. revert am. induction Hns as [|lb lbs Hlb _ IH]; intros am; simpl; [done|]. rewrite lb_resources_same by done.
  destruct (lb_resources get' _ _ _ _ _) as [|[am' rs]]; simpl; [done|]. by rewrite IH.
Qed.

Lemma resolve_all_same am es : resolve_all get am ns es = resolve_all get' am ns es.
Proof.
  revert am. induction es as [|e es IH]; intros am; simpl; [done|]. rewrite resolve_same.
  destruct (resolve_addresses get' _ _ e) as [|[am' e']]; simpl; [done|]. by rewrite IH.
Qed.

Lemma route_services_same r r' rn rk es svcs :
  same_route r r' → route_services_resources pa r rn rk es svcs = route_services_resources pa r' rn rk es svcs.
Proof.
  intros [_ _ _ Hns]. induction svcs as [|svc svcs IH]; simpl; [done|]. rewrite IH.
  assert (route_port_resource pa r rn rk es svc = route_port_resource pa r' rn rk es svc) as ->; [|done].
  unfold route_port_resource, route_endpoint_key, route_resource_key. by rewrite Hns.
Qed.

Lemma routes_resources_same am routes routes' :
  Forall2 same_route routes routes' → Forall (λ r, namespace (rt_meta r) = ns) routes →
  routes_resources get pa am routes = routes_resources get' pa am routes'.
Proof.
  intros Hr. revert am. induction Hr as [|r r' routes routes' Hs _ IH]; intros am Hns; simpl; [done|].
  apply list.Forall_cons in Hns as [Hn Hns]. pose proof Hs as [Hsp Hl Hna Hne]. rewrite Hsp.
  destruct (rsp_kubernetes (rt_spec r)) as [source|] eqn:Hk; [|by apply IH]. rewrite Hne, Hn, resolve_all_same.
  destruct (resolve_all get' _ _ _) as [|[am' es]]; [done|].
  assert (getOriginalRouteName r' = getOriginalRouteName r) as ->.
  { unfold getOriginalRouteName, originalRouteName. by rewrite Hsp, Hl, Hna. }
  assert (getRouteKind r' = getRouteKind r) as -> by (unfold getRouteKind; by rewrite Hsp, Hl).
  rewrite (route_services_same r r') by done. by rewrite IH.
Qed.

Lemma MapSnapshot_same marshal hash lbs routes routes' :
  Forall (λ lb, namespace (lb_meta lb) = ns) lbs → Forall2 same_route routes routes' →
  Forall (λ r, namespace (rt_meta r) = ns) routes →
  MapSnapshot get marshal hash lbs routes pa = MapSnapshot get' marshal hash lbs routes' pa.
Proof.
  intros Hl Hr Hn. unfold MapSnapshot. rewrite lbs_resources_same by done.
  destruct (lbs_resources get' pa ∅ lbs) as [|[am rs]]; [done|]. by rewrite (routes_resources_same am routes routes').
Qed.
End same_snapshot.

(** The live LoadBalancers and Routes of a namespace, in any order. *)
Definition listing (w : world) (ns : string) (lbs : list LoadBalancer) (routes : list Route) : Prop :=
  (∀ lb, lb ∈ lbs ↔ ∃ n, objs w KLoadBalancer !! (ns, n) = Some lb ∧ deletionTimestamp (lb_meta lb) = None) ∧
  (∀ r, r ∈ routes ↔ ∃ n, objs w KRoute !! (ns, n) = Some r ∧ deletionTimestamp (rt_meta r) = None).

(** [metadata.generation]: it stays only while the specification does and no deletion
    begins.  The labels of a Route are set when it is created. *)
Record counted (generation : ∀ k : Effects.kind, objT k → Z) (w w' : world) : Prop := {
  counted_routes key (r r' : Route) : objs w KRoute !! key = Some r → objs w' KRoute !! key = Some r' →
    generation KRoute r = generation KRoute r' → rt_spec r' = rt_spec r ∧ deletionTimestamp (rt_meta r') = deletionTimestamp (rt_meta r);
  counted_addresses key (a a' : Addresses) : objs w KAddresses !! key = Some a → objs w' KAddresses !! key = Some a' →
    generation KAddresses a = generation KAddresses a' → ad_addresses a' = ad_addresses a;
  labels_kept key (r r' : Route) : objs w KRoute !! key = Some r → objs w' KRoute !! key = Some r' →
    labels (rt_meta r') = labels (rt_meta r)
}.

Section envoy_wakes.
Context `{EventSourceLaws} (generation : ∀ k : Effects.kind, objT k → Z) (w w' : world) (ns : string).
Context (Hw : filed w) (Hw' : filed w') (Hns : tenant_namespace w' ns = true) (Hcount : counted generation w w').
Context (Hquiet : ∀ c req, changed w w' c → req ∈ enqueued (setup_envoy_cp generation) w' c → nn_namespace req ≠ ns).

Lemma reports_namespace (k : Effects.kind) n (e : watch_event (objT k)) o :
  reports w w' (ns, n) e → o ∈ objects e → namespace (meta_of o) = ns.
Proof. intros He Ho. by destruct (rep_objects _ _ _ _ He o Ho) as [E|E]; [apply Hw in E|apply Hw' in E]; injection E. Qed.

Lemma reports_accepted (k : Effects.kind) n (e : watch_event (objT k)) :
  reports w w' (ns, n) e → accepts (answer (namespaceFilter e) w') = true.
Proof.
  intros He. rewrite namespaceFilter_spec. destruct e; try done; apply existsb_exists; eexists; (split; [apply list_elem_of_In, subject_objects|]);
    by rewrite (reports_namespace _ n _ _ He (subject_objects _)).
Qed.

Lemma lb_quiet n : objs w KLoadBalancer !! (ns, n) = objs w' KLoadBalancer !! (ns, n).
Proof.
  destruct (change_reported w w' KLoadBalancer (ns, n)) as [|[e He]]; [done|]. exfalso.
  apply (Hquiet _ (request_of (lb_meta (subject e))) (rep_changed _ _ _ _ He));
    [|exact (reports_namespace KLoadBalancer n e _ He (subject_objects e))].
  apply (enqueued_by _ _ (For KLoadBalancer [namespaceFilter])); [by left|]. unfold watch_requests. cbn [wt_predicates For forallb].
  rewrite (reports_accepted KLoadBalancer n e He). by left.
Qed.

(** An event of a kind that is watched under a change of its generation cannot be. *)
Lemma generation_quiet (k : Effects.kind) (f : objT k → prog (list NamespacedName)) n (e : watch_event (objT k)) :
  Watches k f [namespaceFilter; generation_changed generation] ∈ bd_watches (setup_envoy_cp generation) →
  (∀ o, f o = Ret (enqueueEnvoy (meta_of o))) → reports w w' (ns, n) e → passes (GenerationChangedPredicate (generation k)) e = false.
Proof.
  intros Hin Hf He. destruct (passes _ e) eqn:Hp; [|done]. exfalso.
  apply (Hquiet _ {| nn_namespace := ns; nn_name := RequeueAllResources |} (rep_changed _ _ _ _ He)); [|done].
  apply (enqueued_by _ _ (Watches k f _) _ _ Hin). unfold watch_requests. cbn [wt_predicates Watches forallb].
  rewrite (reports_accepted k n e He). unfold generation_changed, answer. cbn [run snd accepts]. rewrite Hp. cbn [andb].
  unfold handler_requests. cbn [wt_handler Watches]. apply list_elem_of_bind. exists (subject e).
  split; [|apply subject_objects]. rewrite Hf. unfold answer, enqueueEnvoy. cbn [run snd returned].
  rewrite (reports_namespace k n e _ He (subject_objects e)). by left.
Qed.


Lemma routes_watched :
  Watches KRoute (λ o, Ret (enqueueEnvoy (rt_meta o))) [namespaceFilter; generation_changed generation] ∈
    bd_watches (setup_envoy_cp generation).
Proof. right. by left. Qed.
Lemma addresses_watched :
  Watches KAddresses (λ o, Ret (enqueueEnvoy (ad_meta o))) [namespaceFilter; generation_changed generation] ∈
    bd_watches (setup_envoy_cp generation).
Proof. right. right. by left. Qed.

(** The generation of an object of a watched kind is what it was, and the object is there
    if it was. *)
Section kept.
Context (k : Effects.kind) (f : objT k → prog (list NamespacedName)) (n : string).
Context (Hin : Watches k f [namespaceFilter; generation_changed generation] ∈ bd_watches (setup_envoy_cp generation)).
Context (Hf : ∀ o, f o = Ret (enqueueEnvoy (meta_of o))).

Lemma generation_kept (o o' : objT k) :
  objs w k !! (ns, n) = Some o → objs w' k !! (ns, n) = Some o' → generation k o = generation k o'.
Proof.
  intros Ho Ho'. destruct (decide (generation k o = generation k o')) as [|Hne]; [done|].
  pose proof (generation_quiet k f n _ Hin Hf (reports_update _ _ _ _ _ _ Ho Ho' ltac:(congruence))) as Hp. cbn in Hp.
  by rewrite bool_decide_false in Hp.
Qed.
Lemma object_kept (o : objT k) : objs w k !! (ns, n) = Some o → ∃ o', objs w' k !! (ns, n) = Some o'.
Proof.
  intros Ho. destruct (objs w' k !! (ns, n)) as [o'|] eqn:Ho'; [by eexists|].
  by pose proof (generation_quiet k f n _ Hin Hf (reports_delete _ _ _ _ _ Ho Ho')).
Qed.
Lemma object_kept_back (o' : objT k) : objs w' k !! (ns, n) = Some o' → ∃ o, objs w k !! (ns, n) = Some o.
Proof.
  intros Ho'. destruct (objs w k !! (ns, n)) as [o|] eqn:Ho; [by eexists|].
  by pose proof (generation_quiet k f n _ Hin Hf (reports_create _ _ _ _ _ Ho Ho')).
Qed.
End kept.

Lemma route_kept n (r r' : Route) :
  objs w KRoute !! (ns, n) = Some r → objs w' KRoute !! (ns, n) = Some r' →
  same_route r r' ∧ deletionTimestamp (rt_meta r') = deletionTimestamp (rt_meta r).
Proof.
  intros Hr Hr'. pose proof (generation_kept KRoute _ n routes_watched ltac:(done) r r' Hr Hr') as Hg.
  destruct (counted_routes _ _ _ Hcount _ _ _ Hr Hr' Hg) as [Hs Hd].
  pose proof (Hw KRoute _ _ Hr) as [= E1 E2]. pose proof (Hw' KRoute _ _ Hr') as [= E1' E2']. simpl in *.
  split; [|done]. split; [done|by apply (labels_kept _ _ _ Hcount _ _ _ Hr Hr')|congruence|congruence].
Qed.

Lemma addresses_kept n : read_addresses (addresses_in w) ns n = read_addresses (addresses_in w') ns n.
Proof.
  unfold read_addresses, addresses_in.
  destruct (objs w KAddresses !! (ns, n)) as [a|] eqn:Ha, (objs w' KAddresses !! (ns, n)) as [a'|] eqn:Ha'; [| | |done].
  - pose proof (generation_kept KAddresses _ n addresses_watched ltac:(done) a a' Ha Ha') as Hg.
    simpl. f_equal. symmetry. by apply (counted_addresses _ _ _ Hcount _ _ _ Ha Ha' Hg).
  - destruct (object_kept KAddresses _ n addresses_watched ltac:(done) a Ha) as [a' E]. by pose proof (eq_trans (eq_sym Ha') E).
  - destruct (object_kept_back KAddresses _ n addresses_watched ltac:(done) a' Ha') as [a E]. by pose proof (eq_trans (eq_sym Ha) E).
Qed.

(** The Routes as they are now. *)
Lemma routes_kept lbs routes :
  listing w ns lbs routes →
  ∃ routes', listing w' ns lbs routes' ∧ Forall2 same_route routes routes' ∧
    Forall (λ lb, namespace (lb_meta lb) = ns) lbs ∧ Forall (λ r, namespace (rt_meta r) = ns) routes.
Proof.
  intros [Hl Hr]. set (now := λ r : Route, default r (objs w' KRoute !! obj_key (k:=KRoute) r)). exists (now <$> routes).
  assert (∀ n r, objs w KRoute !! (ns, n) = Some r → objs w' KRoute !! (ns, n) = Some (now r)) as Hnow.
  { intros n r E. destruct (object_kept KRoute _ n routes_watched ltac:(done) r E) as [r' E'].
    unfold now. rewrite (Hw KRoute _ _ E). exact (eq_trans E' (f_equal (λ x : option Route, Some (default r x)) (eq_sym E'))). }
  split; [split|split; [|split]].
  - intros lb. rewrite Hl. by setoid_rewrite lb_quiet.
  - intros r'. rewrite list_elem_of_fmap. split.
    + intros (r & -> & (n & E & Hd)%Hr). exists n. split; [by apply Hnow|]. by rewrite (proj2 (route_kept n r _ E (Hnow n r E))).
    + intros (n & E' & Hd). destruct (object_kept_back KRoute _ n routes_watched ltac:(done) r' E') as [r E].
      pose proof (eq_trans (eq_sym E') (Hnow n r E)) as [= E2]. exists r. split; [done|]. apply Hr. exists n. split; [done|].
      by rewrite <- (proj2 (route_kept n r r' E E')).
  - apply Forall2_fmap_r, Forall_Forall2_diag, list.Forall_forall. intros r (n & E & _)%Hr. by apply (route_kept n r _ E (Hnow n r E)).
  - apply list.Forall_forall. intros lb (n & E & _)%Hl. by pose proof (Hw KLoadBalancer _ _ E) as [= ].
  - apply list.Forall_forall. intros r (n & E & _)%Hr. by pose proof (Hw KRoute _ _ E) as [= ].
Qed.
End envoy_wakes.

(** C10: no snapshot goes stale unnoticed.  In the shared topology the snapshot of a
    tenant's namespace is mapped from its live LoadBalancers and Routes and the Addresses
    they refer to.  Whatever changes in the cluster: when the Envoy control plane
    controller gets no request for the namespace, the snapshot it would map is the one it
    would have mapped before, from the Routes as they are now. *)
Theorem snapshot_not_stale `{EventSourceLaws} generation w w' ns marshal hash pa lbs routes :
  filed w → filed w' → tenant_namespace w' ns = true → counted generation w w' →
  (∀ c req, changed w w' c → req ∈ enqueued (setup_envoy_cp generation) w' c → nn_namespace req ≠ ns) →
  listing w ns lbs routes →
  ∃ routes', listing w' ns lbs routes' ∧
    MapSnapshot (addresses_in w') marshal hash lbs routes' pa = MapSnapshot (addresses_in w) marshal hash lbs routes pa.
Proof.
  intros Hw Hw' Hns Hc Hq Hl. destruct (routes_kept generation w w' ns Hw Hw' Hns Hc Hq lbs routes Hl) as (routes' & Hl' & Hr & H1 & H2).
  exists routes'. split; [done|]. symmetry. apply (MapSnapshot_same _ _ ns); try done.
  intros n. by apply (addresses_kept generation w w' ns Hw Hw' Hns Hc Hq).
Qed.

(** A Route whose status is written. *)
Definition quiet_route : Route := with_rt_meta (with_identity "route" "tenant-a" "uid-r" zero_meta) ApiServer.zero_route.
Definition quiet_route' : Route :=
  with_rt_status {| rrs_source := "Kubernetes"; rrs_services := None; rrs_route := zero_resource_state |} quiet_route.
Definition quiet_lb : LoadBalancer := with_lb_meta (with_identity "lb" "tenant-a" "uid-l" zero_meta) two_port_lb.
Definition quiet_base : world :=
  set_objs KNamespace {[ ("", "tenant-a") := {| nsp_meta :=
    with_labels (Some {[ LabelManagedBy := LabelControllerName ]}) (with_identity "tenant-a" "" "uid-n" zero_meta) |} ]}
    (set_objs KLoadBalancer {[ ("tenant-a", "lb") := quiet_lb ]} empty_world).
Definition quiet_world (r : Route) : world := set_objs KRoute {[ ("tenant-a", "route") := r ]} quiet_base.

Lemma quiet_filed r : obj_key (k:=KRoute) r = ("tenant-a", "route") → filed (quiet_world r).
Proof.
  intros Hr. refine (filed_set _ _ _ _ _); [|by intros key o [<- <-]%lookup_singleton_Some].
  do 2 (refine (filed_set _ _ _ _ _); [|by intros key o [<- <-]%lookup_singleton_Some]). apply empty_world_filed.
Qed.

Lemma quiet_change r r' c : changed (quiet_world r) (quiet_world r') c → c = existT KRoute (UpdateEvent r r').
Proof.
  intros Hc. destruct Hc as [k key o H1 H2|k key o o' H1 H2 Hne|k key o H1 H2]; destruct (decide (k = KRoute)) as [->|Hk];
    unfold quiet_world in H1, H2; try (rewrite objs_set_ne in H1, H2 by done; congruence); rewrite objs_set in H1, H2.
  - apply lookup_singleton_Some in H2 as [<- _]. by rewrite lookup_singleton_eq in H1.
  - apply lookup_singleton_Some in H1 as [_ <-]. by apply lookup_singleton_Some in H2 as [_ <-].
  - apply lookup_singleton_Some in H1 as [<- _]. by rewrite lookup_singleton_eq in H2.
Qed.

Lemma quiet_listing r :
  deletionTimestamp (rt_meta r) = None → listing (quiet_world r) "tenant-a" [quiet_lb] [r].
Proof.
  intros Hd. split; intros x; rewrite list_elem_of_singleton; (split; [intros ->|intros (n & E & _)]).
  - exists "lb". split; [|done]. unfold quiet_world, quiet_base. rewrite !objs_set_ne, objs_set by done. apply lookup_singleton_eq.
  - unfold quiet_world, quiet_base in E. rewrite !objs_set_ne, objs_set in E by done. by apply lookup_singleton_Some in E as [_ <-].
  - exists "route". split; [|done]. unfold quiet_world. rewrite objs_set. apply lookup_singleton_eq.
  - unfold quiet_world in E. rewrite objs_set in E. by apply lookup_singleton_Some in E as [_ <-].
Qed.

Lemma quiet_counted : counted (λ _ _, 0%Z) (quiet_world quiet_route) (quiet_world quiet_route').
Proof.
  split; intros key x y; unfold quiet_world; rewrite ?objs_set, ?objs_set_ne by done.
  - by intros [_ <-]%lookup_singleton_Some [_ <-]%lookup_singleton_Some.
  - unfold quiet_base. rewrite !objs_set_ne by done. simpl. by rewrite lookup_empty.
  - by intros [_ <-]%lookup_singleton_Some [_ <-]%lookup_singleton_Some.
Qed.

Lemma snapshot_not_stale_witness :
  quiet_world quiet_route ≠ quiet_world quiet_route' ∧
  ∃ routes', listing (quiet_world quiet_route') "tenant-a" [quiet_lb] routes' ∧
    MapSnapshot (addresses_in (quiet_world quiet_route')) (λ _, inr "") id [quiet_lb] routes' (Some (NewPortAllocator)) =
    MapSnapshot (addresses_in (quiet_world quiet_route)) (λ _, inr "") id [quiet_lb] [quiet_route] (Some NewPortAllocator).
Proof.
  split.
  - intros E. apply (f_equal (λ w, objs w KRoute !! ("tenant-a", "route"))) in E. unfold quiet_world in E. rewrite !objs_set in E.
    by rewrite !lookup_singleton_eq in E.
  - apply (snapshot_not_stale (H := all_watches) (H0 := all_watches_laws) (λ _ _, 0%Z)).
    + by apply quiet_filed.
    + by apply quiet_filed.
    + reflexivity.
    + exact quiet_counted.
    + intros c req ->%quiet_change. vm_compute. inversion 1.
    + by apply quiet_listing.
Defined.

(** ** The Service of a LoadBalancer *)

Lemma enqueueLoadBalancers_created lb svcName appName ns className a ports (svc : Service) :
  labels (svc_meta svc) = labels (svc_meta (desired_service lb svcName appName ns className a ports)) →
  enqueueLoadBalancers svc = [request_of (lb_meta lb)] ∧ (name (lb_meta lb) ≠ "" → has_lb_name svc = true).
Proof. intros E. unfold enqueueLoadBalancers, has_lb_name, get_str. rewrite E. split; [done|]. intros Hn. by apply bool_decide_eq_true. Qed.

(** The addresses a Service of the manager gets reach its LoadBalancer, in a tenant's
    namespace. *)
Theorem service_status_wakes_lb `{EventSourceLaws} w lb svcName appName ns className a ports (old new : Service) :
  labels (svc_meta new) = labels (svc_meta (desired_service lb svcName appName ns className a ports)) →
  name (lb_meta lb) ≠ "" → tenant_namespace w (namespace (svc_meta new)) = true →
  svc_ingress new ≠ svc_ingress old →
  request_of (lb_meta lb) ∈ enqueued setup_load_balancer w (existT KService (UpdateEvent old new)).
Proof.
  intros Hl Hn Hns Hi. destruct (enqueueLoadBalancers_created _ _ _ _ _ _ _ _ Hl) as [He Hb].
  apply (enqueued_by _ _ (Watches KService (λ o, Ret (enqueueLoadBalancers o)) [namespaceFilter (k:=KService); pure KService filterServicesPredicate]));
    [do 3 right; by left|].
  unfold watch_requests. cbn [wt_predicates Watches forallb]. rewrite namespaceFilter_spec. cbn [objects existsb].
  change (namespace (meta_of (k:=KService) new)) with (namespace (svc_meta new)). rewrite Hns. rewrite (orb_true_r (tenant_namespace _ _)). cbn [orb].
  unfold answer, pure. cbn [run snd accepts filterServicesPredicate]. rewrite Hb by done. rewrite bool_decide_false by (by intros []).
  cbn [andb negb]. apply list_elem_of_bind. exists new. split; [|right; by left].
  unfold answer. cbn [run snd returned]. rewrite He. by left.
Qed.

(** In the global topology the Services are in the namespace of the manager; unless that
    namespace carries the label of the tenants' namespaces, no change of such a Service
    reaches a LoadBalancer, its addresses among them. *)
Theorem global_status_unnoticed `{EventSourceLaws} r w req lbs rns (old new : Service) req' :
  lr_topology r = EnvoyProxyTopologyGlobal → answer (listed_load_balancers r req) w = Done (inr (lbs, rns)) →
  tenant_namespace w rns = false → namespace (svc_meta old) = rns → namespace (svc_meta new) = rns →
  rns = lr_namespace r ∧ req' ∉ enqueued setup_load_balancer w (existT KService (UpdateEvent old new)).
Proof.
  intros Ht Ha Hns Ho Hn. split.
  { revert Ha. unfold answer, listed_load_balancers. rewrite Ht, decide_False, decide_True by done. by intros [= _ <-]. }
  rewrite enqueued_spec. intros (wt & e & Hwt & He & Hreq). unfold setup_load_balancer, managed_by in Hwt. cbn [bd_watches] in Hwt.
  rewrite !elem_of_cons, elem_of_nil in Hwt. destruct Hwt as [->|[->|[->|[->|[]]]]]; try done.
  injection He as <-. revert Hreq. unfold watch_requests. cbn [wt_predicates Watches forallb eq_rect projT2].
  rewrite (namespaceFilter_spec w (k:=KService) (UpdateEvent old new)). cbn [objects existsb].
  change (namespace (meta_of (k:=KService) new)) with (namespace (svc_meta new)).
  change (namespace (meta_of (k:=KService) old)) with (namespace (svc_meta old)). rewrite Ho, Hn, Hns. by intros ?%elem_of_nil.
Qed.
