(* ===== verification/Rbac.v ===== *)
(** * What the controllers may do in the cluster they run in

    Every controller says in [+kubebuilder:rbac] markers which rules of RBAC it needs;
    the ClusterRole of a program is made from the markers of its controllers.  Here the
    markers are lists of rules, a call of a program is turned into the requests the client
    sends for it, and the calls of every controller of the manager, its watches included, are shown
    to be within the markers. *)
From Stdlib Require Import Ascii.
From stdpp Require Import base gmap list strings.
From S2P Require Import Prelude GoStrings GoEncoding Api Names Annotations LoadBalancers EnvoySnapshot NetApi Effects Guards Predicates Objects Finalized ApiServer Services RouteResources LBController TenantController BridgeService Routes RouteController EnvoyController CCMNode CCMService CCMSources SyncSecrets GatewayCRDs Permissions CommandLine Commands Watches.
Import Core V1alpha1.

(** ** Markers *)

(** [+kubebuilder:rbac:groups=…,resources=…,verbs=…] *)
Definition rbac (groups resources verbs : string) : PolicyRule :=
  {| pol_apiGroups := Split groups ";"; pol_resources := Split resources ";"; pol_verbs := Split verbs ";" |}.

Module Manager.
Definition loadbalancer_rules : list PolicyRule :=
  [rbac "kubelb.k8c.io" "loadbalancers" "get;list;watch;create;update;patch;delete";
   rbac "kubelb.k8c.io" "loadbalancers/status" "get;update;patch";
   rbac "kubelb.k8c.io" "configs" "get;list;watch";
   rbac "kubelb.k8c.io" "configs/status" "get;update;patch";
   rbac "kubelb.k8c.io" "addresses" "get;list;watch;create;update;patch;delete";
   rbac "kubelb.k8c.io" "addresses/status" "get";
   rbac "" "services" "get;list;watch;create;update;patch;delete";
   rbac "" "namespaces" "get;list;watch";
   rbac "apps" "deployments" "get;list;watch;create;update;patch;delete";
   rbac "apps" "daemonsets" "get;list;watch;create;update;patch;delete"].

Definition envoy_cp_rules : list PolicyRule :=
  [rbac "kubelb.k8c.io" "loadbalancers" "get;list;watch";
   rbac "kubelb.k8c.io" "loadbalancers/status" "get"].

Definition route_rules : list PolicyRule :=
  [rbac "kubelb.k8c.io" "routes" "get;list;watch;create;update;patch;delete";
   rbac "kubelb.k8c.io" "routes/status" "get;update;patch";
   rbac "networking.k8s.io" "ingresses" "get;list;watch;create;update;patch;delete";
   rbac "networking.k8s.io" "ingresses/status" "get;update;patch";
   rbac "gateway.networking.k8s.io" "gateways" "get;list;watch;create;update;patch;delete";
   rbac "gateway.networking.k8s.io" "gateways/status" "get;update;patch";
   rbac "gateway.networking.k8s.io" "httproutes" "get;list;watch;create;update;patch;delete";
   rbac "gateway.networking.k8s.io" "httproutes/status" "get;update;patch";
   rbac "gateway.networking.k8s.io" "grpcroutes" "get;list;watch;create;update;patch;delete";
   rbac "gateway.networking.k8s.io" "grpcroutes/status" "get;update;patch"].

Definition tenant_controller_rules : list PolicyRule :=
  [rbac "" "namespaces" "get;list;watch;create;update;patch;delete";
   rbac "" "serviceaccounts" "get;list;watch;create;update;patch;delete";
   rbac "" "secrets" "get;list;watch;create;update;patch;delete";
   rbac "" "configmaps" "get;list;watch";
   rbac "rbac.authorization.k8s.io" "roles" "get;list;watch;create;update;patch;delete;bind;escalate";
   rbac "rbac.authorization.k8s.io" "rolebindings" "get;list;watch;create;update;patch;delete;bind;escalate";
   rbac "kubelb.k8c.io" "tenants" "get;list;watch;create;update;patch;delete";
   rbac "kubelb.k8c.io" "tenants/status" "get;update;patch";
   rbac "kubelb.k8c.io" "routes" "get;list;deletecollection";
   rbac "kubelb.k8c.io" "loadbalancers" "get;list;deletecollection";
   rbac "kubelb.k8c.io" "syncsecrets" "get;list;deletecollection";
   rbac "kubelb.k8c.io" "tenantstates" "get;list;watch;create;update;patch;delete";
   rbac "kubelb.k8c.io" "tenantstates/status" "get;update;patch"].

Definition sync_secret_rules : list PolicyRule :=
  [rbac "kubelb.k8c.io" "syncsecrets" "get;list;watch;create;update;patch;delete";
   rbac "" "secrets" "get;list;watch;create;update;patch;delete"].

Definition bridge_service_rules : list PolicyRule :=
  [rbac "" "services" "get;list;watch;create;update;patch;delete";
   rbac "discovery.k8s.io" "endpointslices" "get;list;watch;create;update;patch;delete"].

(** The role of the manager. *)
Definition rules : list PolicyRule :=
  loadbalancer_rules ++ envoy_cp_rules ++ route_rules ++ tenant_controller_rules ++ sync_secret_rules ++ bridge_service_rules.
End Manager.

Module CCM.
Definition node_rules : list PolicyRule := [rbac "" "nodes" "list;get;watch"].

Definition service_rules : list PolicyRule :=
  [rbac "" "services" "get;list;watch;update;patch";
   rbac "" "services/status" "get;update;patch"].

Definition ingress_rules : list PolicyRule :=
  [rbac "" "services" "get;list;watch;create;patch";
   rbac "" "services/status" "get";
   rbac "kubelb.k8c.io" "routes" "get;list;watch;create;update;patch;delete";
   rbac "kubelb.k8c.io" "routes/status" "get;update;patch";
   rbac "networking.k8s.io" "ingresses" "get;list;watch;update;patch";
   rbac "networking.k8s.io" "ingresses/status" "get;update;patch"].

Definition gateway_rules : list PolicyRule :=
  [rbac "" "services" "get;list;watch;create;patch";
   rbac "" "services/status" "get";
   rbac "kubelb.k8c.io" "routes" "get;list;watch;create;update;patch;delete";
   rbac "kubelb.k8c.io" "routes/status" "get;update;patch";
   rbac "gateway.networking.k8s.io" "gateways" "get;list;watch;update;patch";
   rbac "gateway.networking.k8s.io" "gateways/status" "get;update;patch"].

Definition httproute_rules : list PolicyRule :=
  [rbac "" "services" "get;list;watch;create;patch";
   rbac "" "services/status" "get";
   rbac "kubelb.k8c.io" "routes" "get;list;watch;create;update;patch;delete";
   rbac "kubelb.k8c.io" "routes/status" "get;update;patch";
   rbac "gateway.networking.k8s.io" "httproutes" "get;list;watch;update;patch";
   rbac "gateway.networking.k8s.io" "httproutes/status" "get;update;patch"].

Definition grpcroute_rules : list PolicyRule :=
  [rbac "" "services" "get;list;watch;create;patch";
   rbac "" "services/status" "get";
   rbac "kubelb.k8c.io" "routes" "get;list;watch;create;update;patch;delete";
   rbac "kubelb.k8c.io" "routes/status" "get;update;patch";
   rbac "gateway.networking.k8s.io" "grpcroutes" "get;list;watch;update;patch";
   rbac "gateway.networking.k8s.io" "grpcroutes/status" "get;update;patch"].

Definition gateway_crd_rules : list PolicyRule :=
  [rbac "apiextensions.k8s.io" "customresourcedefinitions" "get;list;watch;create;update"].

Definition secret_conversion_rules : list PolicyRule :=
  [rbac "" "secrets" "get;list;watch;create;update;patch;delete";
   rbac "kubelb.k8c.io" "syncsecrets" "get;list;watch;create;update;patch;delete"].

Definition ccm_sync_secret_rules : list PolicyRule :=
  [rbac "kubelb.k8c.io" "syncsecrets" "get;list;watch;create;update;patch;delete"].

(** The markers of all controllers of the CCM. *)
Definition rules : list PolicyRule :=
  node_rules ++ service_rules ++ ingress_rules ++ gateway_rules ++ httproute_rules ++ grpcroute_rules ++
  gateway_crd_rules ++ secret_conversion_rules ++ ccm_sync_secret_rules.
End CCM.

(** ** Requests *)

(** What a call does at the API server, and with objects of which kind. *)
Inductive access := Reads | Lists | Creates | Updates | UpdatesStatus | PatchesStatus | Deletes | DeletesAll | Writes.

Definition api_access (c : call) : option (Effects.kind * access) :=
  match c with
  | Get k _ _ => Some (k, Reads)
  | ListIn k _ _ => Some (k, Lists)
  | Create k _ => Some (k, Creates)
  | Update k _ => Some (k, Updates)
  | StatusUpdate k _ => Some (k, UpdatesStatus)
  | StatusPatch k _ _ => Some (k, PatchesStatus)
  | Delete k _ _ => Some (k, Deletes)
  | DeleteAllOf k _ => Some (k, DeletesAll)
  | Ensure k _ _ _ | CreateOrUpdate k _ _ _ => Some (k, Writes)
  | ReadAddresses => Some (KAddresses, Reads)
  | _ => None
  end.

(** A subresource, or the resource itself, and a verb.  The client of a manager reads
    from a cache: a get or a list makes it list and watch the kind. *)
Definition access_verbs (a : access) : list (string * string) :=
  match a with
  | Reads => [("", "get"); ("", "list"); ("", "watch")]
  | Lists => [("", "list"); ("", "watch")]
  | Creates => [("", "create")]
  | Updates => [("", "update")]
  | UpdatesStatus => [("/status", "update")]
  | PatchesStatus => [("/status", "patch")]
  | Deletes => [("", "delete")]
  | DeletesAll => [("", "deletecollection")]
  | Writes => [("", "get"); ("", "list"); ("", "watch"); ("", "create"); ("", "update")]
  end.

(** Who writes a Role or a RoleBinding without the permissions in it needs these verbs too. *)
Definition writes_object (a : access) : bool :=
  match a with Creates | Updates | Writes => true | _ => false end.
Definition escalation_verbs (k : Effects.kind) (a : access) : list string :=
  match k with
  | KRole => if writes_object a then ["escalate"] else []
  | KRoleBinding => if writes_object a then ["bind"] else []
  | _ => []
  end.

(** Group and resource of the kinds in the KubeLB cluster, for the manager, and in the
    cluster of a tenant, for its CCM. *)
Definition kubelb_resource (k : Effects.kind) : option (string * string) :=
  match k with
  | KLoadBalancer => Some ("kubelb.k8c.io", "loadbalancers")
  | KService => Some ("", "services")
  | KTenant => Some ("kubelb.k8c.io", "tenants")
  | KConfig => Some ("kubelb.k8c.io", "configs")
  | KRoute => Some ("kubelb.k8c.io", "routes")
  | KIngress => Some ("networking.k8s.io", "ingresses")
  | KHTTPRoute => Some ("gateway.networking.k8s.io", "httproutes")
  | KGRPCRoute => Some ("gateway.networking.k8s.io", "grpcroutes")
  | KGateway => Some ("gateway.networking.k8s.io", "gateways")
  | KSecret => Some ("", "secrets")
  | KNamespace => Some ("", "namespaces")
  | KDeployment => Some ("apps", "deployments")
  | KDaemonSet => Some ("apps", "daemonsets")
  | KAddresses => Some ("kubelb.k8c.io", "addresses")
  | KServiceAccount => Some ("", "serviceaccounts")
  | KRole => Some ("rbac.authorization.k8s.io", "roles")
  | KRoleBinding => Some ("rbac.authorization.k8s.io", "rolebindings")
  | KConfigMap => Some ("", "configmaps")
  | KEndpointSlice => Some ("discovery.k8s.io", "endpointslices")
  | KTenantState => Some ("kubelb.k8c.io", "tenantstates")
  | KSyncSecret => Some ("kubelb.k8c.io", "syncsecrets")
  | KNode | KCRD | KTenantSecret | KTenantSyncSecret => None
  end.
Definition tenant_resource (k : Effects.kind) : option (string * string) :=
  match k with
  | KService => Some ("", "services")
  | KNode => Some ("", "nodes")
  | KIngress => Some ("networking.k8s.io", "ingresses")
  | KGateway => Some ("gateway.networking.k8s.io", "gateways")
  | KHTTPRoute => Some ("gateway.networking.k8s.io", "httproutes")
  | KGRPCRoute => Some ("gateway.networking.k8s.io", "grpcroutes")
  | KTenantSecret => Some ("", "secrets")
  | KTenantSyncSecret => Some ("kubelb.k8c.io", "syncsecrets")
  | KCRD => Some ("apiextensions.k8s.io", "customresourcedefinitions")
  | _ => None
  end.

(** ** What a role grants *)

Definition rule_grants (group resource verb : string) (rule : PolicyRule) : bool :=
  bool_decide (group ∈ pol_apiGroups rule) && bool_decide (resource ∈ pol_resources rule) && bool_decide (verb ∈ pol_verbs rule).
Definition grants (rules : list PolicyRule) (group resource verb : string) : bool :=
  existsb (rule_grants group resource verb) rules.

Definition grants_access (rules : list PolicyRule) (group resource : string) (k : Effects.kind) (a : access) : bool :=
  forallb (λ v, grants rules group (resource +:+ v.1) v.2) (access_verbs a) &&
  forallb (grants rules "rbac.authorization.k8s.io" "roles") (escalation_verbs k a).

(** The manager talks to one cluster: a kind that is not in it is not granted. *)
Definition manager_permits (rules : list PolicyRule) (c : call) : bool :=
  match api_access c with
  | None => true
  | Some (k, a) =>
      match kubelb_resource k with
      | Some (group, resource) => grants_access rules group resource k a
      | None => false
      end
  end.
(** The calls of a CCM for other kinds go to the KubeLB cluster, where [tenant_rules] holds. *)
Definition ccm_permits (rules : list PolicyRule) (c : call) : bool :=
  match api_access c with
  | None => true
  | Some (k, a) =>
      match tenant_resource k with
      | Some (group, resource) => grants_access rules group resource k a
      | None => true
      end
  end.

(** *** Rules that grant at least as much *)

Definition implies (rules rules' : list PolicyRule) : Prop :=
  ∀ group resource verb, grants rules group resource verb = true → grants rules' group resource verb = true.
#[export] Instance implies_preorder : PreOrder implies.
Proof. split; [by intros ????|]. intros l1 l2 l3 H12 H23 g res v Hg. by apply H23, H12. Qed.

Lemma implies_subset rules rules' : rules ⊆ rules' → implies rules rules'.
Proof.
  intros Hsub g res v. unfold grants. rewrite !existsb_exists. intros (x & Hx & Hg). exists x. split; [|done].
  by apply list_elem_of_In, Hsub, list_elem_of_In.
Qed.

(** Decided rule by rule. *)
Definition covered (rules rules' : list PolicyRule) : bool :=
  forallb (λ rule, forallb (λ g, forallb (λ res, forallb (grants rules' g res) (pol_verbs rule)) (pol_resources rule))
                     (pol_apiGroups rule)) rules.
Lemma implies_covered rules rules' : covered rules rules' = true → implies rules rules'.
Proof.
  unfold covered. rewrite forallb_forall. intros Hc g res v Hg. unfold grants in Hg. apply existsb_exists in Hg as (rule & Hr & Hg).
  unfold rule_grants in Hg. rewrite !andb_true_iff, !bool_decide_eq_true in Hg. destruct Hg as [[Hg Hres] Hv].
  specialize (Hc _ Hr). rewrite forallb_forall in Hc. specialize (Hc _ (proj1 (list_elem_of_In _ _) Hg)).
  rewrite forallb_forall in Hc. specialize (Hc _ (proj1 (list_elem_of_In _ _) Hres)).
  rewrite forallb_forall in Hc. exact (Hc _ (proj1 (list_elem_of_In _ _) Hv)).
Qed.

#[export] Instance grants_access_mono : Proper (implies ==> eq ==> eq ==> eq ==> eq ==> Bool.le) grants_access.
Proof.
  intros rules rules' Himp g ? <- res ? <- k ? <- a ? <-. apply Bool.le_implb, Bool.implb_true_iff. unfold grants_access.
  rewrite !andb_true_iff, !forallb_forall. intros [Ha He]. split; intros x Hx; by apply Himp; auto.
Qed.

Lemma manager_permits_implies rules rules' c :
  implies rules rules' → manager_permits rules c = true → manager_permits rules' c = true.
Proof.
  intros Himp. unfold manager_permits. destruct (api_access c) as [[k a]|]; [|done].
  destruct (kubelb_resource k) as [[g res]|]; [|done]. apply Bool.implb_true_iff, Bool.le_implb. by f_equiv.
Qed.
Lemma ccm_permits_implies rules rules' c :
  implies rules rules' → ccm_permits rules c = true → ccm_permits rules' c = true.
Proof.
  intros Himp. unfold ccm_permits. destruct (api_access c) as [[k a]|]; [|done].
  destruct (tenant_resource k) as [[g res]|]; [|done]. apply Bool.implb_true_iff, Bool.le_implb. by f_equiv.
Qed.

(** ** The manager *)

Abbreviation within rules := (λ c, manager_permits rules c = true).

(** Settles one call: its kind and its access decide. *)
Ltac permitted_call := intros; unfold manager_permits, ccm_permits; cbn [api_access]; vm_compute; reflexivity.
Ltac permitted_calls := solve_calls; permitted_call.

Section manager.
Context `{Unicode} `{Finalizers} `{Scheme} `{UnstructuredConverter} `{IPv6}.
Context `{SemanticDeepEqual (gomap string)} `{SemanticDeepEqual (list ServicePort)} `{SemanticDeepEqual ServiceSpec}.
Context `{SemanticDeepEqual IngressSpec} `{SemanticDeepEqual GatewayRouteSpec} `{SemanticDeepEqual GatewaySpec}.

Abbreviation allowed := (within Manager.rules).

Lemma redirect_tls_within ns tns tls : only_calls allowed (redirect_tls ns tns tls).
Proof. induction tls as [|t tls IH]; cbn [redirect_tls]; unfold GetSecretNameIfExists; permitted_calls. Qed.
Lemma redirect_certs_within ns tns refs : only_calls allowed (redirect_certs ns tns refs).
Proof. induction refs as [|t tls IH]; cbn [redirect_certs]; unfold GetSecretNameIfExists; permitted_calls. Qed.
Lemma redirect_listeners_within ns tns ls : only_calls allowed (redirect_listeners ns tns ls).
Proof.
  induction ls as [|l ls IH]; cbn [redirect_listeners]; solve_calls; apply redirect_certs_within.
Qed.

Section load_balancer.
Context (SetControllerReference : LoadBalancer → ObjectMeta → error + ObjectMeta) (retries : nat) (r : LoadBalancerReconciler).

Lemma cleanup_within lb ns : only_calls allowed (cleanup r lb ns).
Proof. unfold cleanup, cleanupHostnameResources. permitted_calls. Qed.

Lemma configureHostname_within lb svcName tenant config settings :
  only_calls allowed (configureHostname SetControllerReference lb svcName tenant config settings).
Proof.
  unfold configureHostname, choose_hostname, CreateHTTPRouteForHostname, CreateIngressForHostname. permitted_calls.
Qed.

Lemma updateLoadBalancerStatus_within lb service hostname :
  only_calls allowed (updateLoadBalancerStatus retries lb service hostname).
Proof. unfold updateLoadBalancerStatus, checkDNSResolution, checkTLSHealth, patch_status. permitted_calls. Qed.

Lemma Reconcile_within req : only_calls allowed (Reconcile SetControllerReference retries r req).
Proof.
  unfold Reconcile, listed_load_balancers, GetTenantAndConfig, GetTenant, GetConfig, ensure_finalizer, apply_load_balancer, reconcileService.
  solve_calls; try apply cleanup_within; try apply configureHostname_within; try apply updateLoadBalancerStatus_within;
    permitted_call.
Qed.
End load_balancer.

Section route.
Context (error_text : error → string) (MarshalServiceStatus : Service → error + opaque) (MarshalStatus : opaque → error + opaque).
Context (range : gmap string RouteServiceStatus → list (string * RouteServiceStatus)) (retries : nat) (r : RouteReconciler).

Lemma UpdateRouteStatus_within route status : only_calls allowed (UpdateRouteStatus retries route status).
Proof. unfold UpdateRouteStatus. permitted_calls. Qed.

Lemma delete_orphans_within route source entries m : only_calls allowed (delete_orphans r route source entries m).
Proof.
  revert m. induction entries as [|[key value] entries IH]; intros m; cbn [delete_orphans]; [done|].
  solve_calls; permitted_call.
Qed.

Lemma apply_route_services_within status svcs :
  only_calls allowed (apply_route_services error_text MarshalServiceStatus status svcs).
Proof.
  revert status. induction svcs as [|svc svcs IH]; intros status; cbn [apply_route_services]; [done|].
  unfold apply_service. solve_calls; permitted_call.
Qed.

Lemma manageServices_within route settings :
  only_calls allowed (manageServices error_text MarshalServiceStatus range retries r route settings).
Proof.
  unfold manageServices, cleanupOrphanedServices. solve_calls;
    first [apply delete_orphans_within|apply apply_route_services_within|apply UpdateRouteStatus_within|permitted_call].
Qed.

Lemma apply_resource_within route services config tenant settings status res :
  only_calls allowed (apply_resource error_text MarshalStatus route services config tenant settings status res).
Proof.
  unfold apply_resource, record_resource, CreateOrUpdateIngress, CreateOrUpdateGateway, CreateOrUpdateHTTPRoute, CreateOrUpdateGRPCRoute.
  solve_calls; first [apply redirect_tls_within|apply redirect_listeners_within|permitted_call].
Qed.

Lemma cleanupRoute_within route : only_calls allowed (cleanupRoute range r route).
Proof.
  unfold cleanupRoute. apply only_calls_try; [|intros ?; permitted_calls].
  generalize (range (contents (rrs_services (rt_status route)))). intros entries.
  induction entries as [|[key value] entries IH]; cbn [delete_recorded]; [done|]. solve_calls; permitted_call.
Qed.

Lemma ReconcileRoute_within req :
  only_calls allowed (ReconcileRoute error_text MarshalServiceStatus MarshalStatus range retries r req).
Proof.
  unfold ReconcileRoute, GetTenantAndConfig, GetTenant, GetConfig, reconcile, manageRoutes. solve_calls;
    first [apply cleanupRoute_within|apply manageServices_within|apply apply_resource_within|apply UpdateRouteStatus_within|permitted_call].
Qed.
End route.

Lemma ReconcileEnvoy_within GenerateBootstrap MarshalResource HashResource Consistent r req :
  only_calls allowed (ReconcileEnvoy GenerateBootstrap MarshalResource HashResource Consistent r req).
Proof.
  unfold ReconcileEnvoy, GetConfig, reconcileEnvoy, ListLoadBalancersAndRoutes, listed_all, cleanupEnvoyProxy, ensureEnvoyProxy,
    updateCache, set_snapshot. solve_calls; try destruct (ep_useDaemonset _); permitted_call.
Qed.

(** The frame around a finalizer adds a read and an update of the object. *)
Lemma reconcile_finalized_within {k : Effects.kind} (P : call → Prop) finalizer cleanup reconcile req :
  (∀ ns n, P (Get k ns n)) → (∀ o, P (Update k o)) →
  (∀ o, only_calls P (cleanup o)) → (∀ o, only_calls P (reconcile o)) →
  only_calls P (reconcile_finalized (k:=k) finalizer cleanup reconcile req).
Proof. intros. unfold reconcile_finalized. solve_calls; auto. Qed.

Lemma ReconcileTenant_within load setControllerReference r req :
  only_calls allowed (ReconcileTenant load setControllerReference r req).
Proof.
  unfold ReconcileTenant. apply reconcile_finalized_within; [permitted_call|permitted_call| |].
  - intros tenant. unfold cleanup_tenant, release. apply only_calls_try; [|intros ?; permitted_calls].
    unfold cleanup_contents, cleanupResources, delete_all, ensure_none. solve_calls; try permitted_call.
    apply delete_resources_calls. repeat constructor; permitted_call.
  - intros tenant. unfold reconcile_and_count, reconcile_tenant, ensure, generateKubeconfig, GetKubeconfig, getKubeconfigFromConfigMap,
      buildKubeconfigFromEndpoint, reconcileTenantState, buildTenantState, GetConfig. permitted_calls.
Qed.

Lemma ReconcileSyncSecret_within req : only_calls allowed (ReconcileSyncSecret req).
Proof.
  unfold ReconcileSyncSecret. apply reconcile_finalized_within; [permitted_call|permitted_call| |]; intros o;
    unfold cleanup_secret, delete_secret, release, create_secret, CreateOrUpdateSecret; permitted_calls.
Qed.

Lemma ReconcileBridgeService_within req : only_calls allowed (ReconcileBridgeService req).
Proof. unfold ReconcileBridgeService, reconcile_bridge, CreateOrUpdateEndpointSlice. permitted_calls. Qed.

(** Everything a controller of the manager does at the API server: the runs of its
    reconciler, and what its watches read: the objects, and what the predicates and map functions
    look up. *)
Definition watch_confined (P : call → Prop) (w : watch) : Prop :=
  P (ListIn (wt_kind w) None ∅) ∧
  Forall (λ p, ∀ e, only_calls P (p e)) (wt_predicates w) ∧
  match wt_handler w with MapFunc f => ∀ o, only_calls P (f o) | _ => True end.

Section controllers.
Context (generation : ∀ {k : Effects.kind}, objT k → Z).
Context (SetControllerReference : LoadBalancer → ObjectMeta → error + ObjectMeta) (retries : nat).
Context (GenerateBootstrap : Config → string) (MarshalResource : Cluster + Listener → error + string) (HashResource : string → string)
  (Consistent : Snapshot → option error).
Context (error_text : error → string) (MarshalServiceStatus : Service → error + opaque) (MarshalStatus : opaque → error + opaque)
  (range : gmap string RouteServiceStatus → list (string * RouteServiceStatus)).
Context (load : string → error + clientcmdConfig) (setControllerReference : Tenant → ObjectMeta → error + ObjectMeta).

Definition manager_confined (P : call → Prop) (c : kubelb_controller) : Prop :=
  Forall (watch_confined P) (bd_watches (kubelb_builder (@generation) c)) ∧
  ∀ req,
  match c with
  | LoadBalancerController r => only_calls P (Reconcile SetControllerReference retries r req)
  | EnvoyCPController r _ => only_calls P (ReconcileEnvoy GenerateBootstrap MarshalResource HashResource Consistent r req)
  | RouteControllerOf r => only_calls P (ReconcileRoute error_text MarshalServiceStatus MarshalStatus range retries r req)
  | LBSyncSecretController _ _ => only_calls P (ReconcileSyncSecret req)
  | TenantControllerOf _ => ∀ r, only_calls P (ReconcileTenant load setControllerReference r req)
  | BridgeServiceController => only_calls P (ReconcileBridgeService req)
  end.

Lemma namespaceFilter_within {k : Effects.kind} (e : watch_event (objT k)) : only_calls allowed (namespaceFilter e).
Proof. unfold namespaceFilter, ByLabelExistsOnNamespace, workqueueFilter, on_labelled_namespace. permitted_calls. Qed.

(** The watches of all controllers of the manager. *)
Lemma watches_within c : Forall (watch_confined allowed) (bd_watches (kubelb_builder (@generation) c)).
Proof.
  assert (∀ k (p : watch_event (objT k) → bool) e, only_calls allowed (pure k p e)) as Hpure by done.
  destruct c as [r|r d|r|ns t|ns|]; cbn [kubelb_builder setup_load_balancer setup_envoy_cp setup_lb_sync_secret setup_tenant
    setup_bridge_service setup_route managed_by bd_watches]; try destruct (rr_disableGatewayAPI r); simpl app;
    repeat (apply list.Forall_cons; split); try apply list.Forall_nil; try done;
    (split; [permitted_call|]; split;
      [cbn; repeat (apply list.Forall_cons; split); try apply list.Forall_nil; try done; intros; first [apply namespaceFilter_within|done]
      |cbn; try done; intros;
       unfold enqueueLoadBalancersForConfig, enqueueLoadBalancersForTenant, enqueueAllLoadBalancers, enqueueRoutesForConfig, enqueueRoutesForTenant;
       permitted_calls]).
Qed.

End controllers.
End manager.
