(* ===== verification/Charts.v ===== *)
(** * The Helm charts (charts/kubelb-ccm, charts/kubelb-manager)

    What the chart of the CCM renders from its values: the arguments of the container and
    the ClusterRole of its service account.  The arguments are parsed to the options the
    values stand for, and the role is enough for every controller that a CCM with those options
    sets up.  The role of the manager's chart grants what its controllers need.  Strings in the
    values are taken as plain YAML scalars. *)
From Stdlib Require Import Ascii.
From stdpp Require Import base gmap list strings.
From S2P Require Import Prelude GoStrings GoEncoding GoFlag Api Names Annotations LoadBalancers EnvoySnapshot NetApi Effects Guards Predicates Objects Finalized ApiServer Services RouteResources LBController TenantController BridgeService Routes RouteController EnvoyController Bootstrap CCMNode CCMService CCMSources SyncSecrets GatewayCRDs Permissions CommandLine Commands Watches Rbac.
Import Core V1alpha1.

(** ** The chart of the CCM *)

(** [.Values.kubelb]; a string that is not set is empty, the tenant's name may be null. *)
Record ccm_values := {
  cv_tenantName : option string;
  cv_nodeAddressType : string;
  cv_useLoadBalancerClass : bool;
  cv_enableGatewayAPI : bool;
  cv_enableSecretSynchronizer : bool;
  cv_installGatewayAPICRDs : bool;
  cv_gatewayAPICRDsChannel : string;
  cv_logLevel : string;
  cv_enableLeaderElection : bool;
  cv_useIngressClass : bool;
  cv_useGatewayClass : bool;
  cv_disableIngressController : bool;
  cv_disableGatewayController : bool;
  cv_disableHTTPRouteController : bool;
  cv_disableGRPCRouteController : bool
}.

(** values.yaml *)
Definition ccm_default_values : ccm_values :=
  {| cv_tenantName := None; cv_nodeAddressType := "ExternalIP"; cv_useLoadBalancerClass := false; cv_enableGatewayAPI := false;
     cv_enableSecretSynchronizer := false; cv_installGatewayAPICRDs := false; cv_gatewayAPICRDsChannel := "standard";
     cv_logLevel := "info"; cv_enableLeaderElection := true; cv_useIngressClass := true; cv_useGatewayClass := true;
     cv_disableIngressController := false; cv_disableGatewayController := false; cv_disableHTTPRouteController := false;
     cv_disableGRPCRouteController := false |}.

(** The functions [default] and [required] of Helm, for strings. *)
Definition helm_default (d s : string) : string := if decide (s = "") then d else s.
Definition helm_required (s : option string) : option string :=
  match s with None | Some "" => None | Some s => Some s end.
Definition when (b : bool) (arg : string) : list string := if b then [arg] else [].

(** The arguments in deployment.yaml; [None] when the chart does not render. *)
Definition ccm_chart_args (v : ccm_values) : option (list string) :=
  tenantName ← helm_required (cv_tenantName v);
  Some (["--enable-leader-election=" +:+ FormatBool (cv_enableLeaderElection v);
         "--node-address-type=" +:+ helm_default "ExternalIP" (cv_nodeAddressType v);
         "--use-loadbalancer-class=" +:+ FormatBool (cv_useLoadBalancerClass v)] ++
        when (cv_enableGatewayAPI v) "--enable-gateway-api=true" ++
        when (negb (cv_useGatewayClass v)) "--use-gateway-class=false" ++
        when (negb (cv_useIngressClass v)) "--use-ingress-class=false" ++
        when (cv_disableIngressController v) "--disable-ingress-controller=true" ++
        when (cv_disableGatewayController v) "--disable-gateway-controller=true" ++
        when (cv_disableHTTPRouteController v) "--disable-httproute-controller=true" ++
        when (cv_disableGRPCRouteController v) "--disable-grpcroute-controller=true" ++
        when (cv_enableSecretSynchronizer v) "--enable-secret-synchronizer=true" ++
        when (cv_installGatewayAPICRDs v) "--install-gateway-api-crds=true" ++
        when (bool_decide (cv_gatewayAPICRDsChannel v ≠ "")) ("--gateway-api-crds-channel=" +:+ cv_gatewayAPICRDsChannel v) ++
        ["--cluster-name=" +:+ tenantName;
         "--zap-log-level=" +:+ cv_logLevel v]).

(** The rules of the ClusterRole, by the conditions of the template. *)
Definition chart_base_rules : list PolicyRule :=
  [rbac "" "nodes" "get;list;watch";
   rbac "" "services" "create;get;list;patch;update;watch;delete";
   rbac "" "services/status" "get;patch;update"].
Definition chart_crd_rules : list PolicyRule :=
  [rbac "apiextensions.k8s.io" "customresourcedefinitions" "get;list;watch;create;update"].
Definition chart_gateway_rules : list PolicyRule :=
  [rbac "gateway.networking.k8s.io" "gateways" "get;list;watch;patch;update";
   rbac "gateway.networking.k8s.io" "gateways/status" "get;update;patch"].
Definition chart_grpcroute_rules : list PolicyRule :=
  [rbac "gateway.networking.k8s.io" "grpcroutes" "get;list;watch;patch;update";
   rbac "gateway.networking.k8s.io" "grpcroutes/status" "get;update;patch"].
Definition chart_httproute_rules : list PolicyRule :=
  [rbac "gateway.networking.k8s.io" "httproutes" "get;list;watch;patch;update";
   rbac "gateway.networking.k8s.io" "httproutes/status" "get;update;patch"].
Definition chart_ingress_rules : list PolicyRule :=
  [rbac "networking.k8s.io" "ingresses" "get;list;watch;patch;update";
   rbac "networking.k8s.io" "ingresses/status" "get;update;patch"].
Definition chart_secret_rules : list PolicyRule :=
  [rbac "" "secrets" "create;delete;get;list;patch;update;watch";
   rbac "" "secrets/finalizers" "get;update;patch"].
Definition chart_sync_secret_rules : list PolicyRule :=
  [rbac "kubelb.k8c.io" "syncsecrets" "create;delete;get;list;patch;update;watch"].

Definition ccm_chart_rules (v : ccm_values) : list PolicyRule :=
  chart_base_rules ++
  (if cv_installGatewayAPICRDs v then chart_crd_rules else []) ++
  (if cv_enableGatewayAPI v then
     (if negb (cv_disableGatewayController v) then chart_gateway_rules else []) ++
     (if negb (cv_disableGRPCRouteController v) then chart_grpcroute_rules else []) ++
     (if negb (cv_disableHTTPRouteController v) then chart_httproute_rules else [])
   else []) ++
  (if negb (cv_disableIngressController v) then chart_ingress_rules else []) ++
  (if cv_enableSecretSynchronizer v then chart_secret_rules else []) ++
  chart_sync_secret_rules.

(** ** The arguments are the options *)

(** The options the values stand for. *)
Definition chart_options (home tenantName : string) (v : ccm_values) : ccm_options :=
  {| co_metricsAddr := ":9445"; co_probeAddr := ":8081"; co_enableCloudController := true;
     co_useLoadbalancerClass := cv_useLoadBalancerClass v; co_enableLeaderElection := cv_enableLeaderElection v;
     co_leaderElectionNamespace := "";
     co_endpointAddressTypeString := (if decide (cv_nodeAddressType v = "") then "ExternalIP" else cv_nodeAddressType v);
     co_clusterName := tenantName; co_kubeLbKubeconf := defaultKubeLbConf home; co_kubeconfig := "";
     co_useIngressClass := cv_useIngressClass v; co_useGatewayClass := cv_useGatewayClass v;
     co_disableIngressController := cv_disableIngressController v;
     co_disableGatewayController := cv_disableGatewayController v;
     co_disableHTTPRouteController := cv_disableHTTPRouteController v;
     co_disableGRPCRouteController := cv_disableGRPCRouteController v;
     co_enableSecretSynchronizer := cv_enableSecretSynchronizer v; co_enableGatewayAPI := cv_enableGatewayAPI v;
     co_installGatewayAPICRDs := cv_installGatewayAPICRDs v;
     co_gatewayAPICRDsChannel := (if decide (cv_gatewayAPICRDsChannel v = "") then "standard" else cv_gatewayAPICRDsChannel v) |}.

(** The level of the logger is one of the values documented for the chart. *)
Definition log_levels : list string := ["debug"; "info"; "error"; "panic"].
Class ZapLaws `{ZapFlags} : Prop := {
  zap_log_level O : ∃ set, lookup_flag (zap_flags (O := O)) "zap-log-level" = Some (Var set) ∧
    ∀ l o, l ∈ log_levels → set l o = Some o
}.

Section parsing.
Context `{ZapLaws}.

Section arguments.
Context {O : Type} (formal : list (string * flag_var O)).

Lemma bool_argument n set b o args :
  flag_name_ok n = true → lookup_flag formal n = Some (BoolVar set) →
  parse formal (assignment (n, FormatBool b) :: args) o = parse formal args (set b o).
Proof. intros Hn Hf. eapply parse_assignment; [done..|]. simpl. by rewrite ParseBool_FormatBool. Qed.
Lemma string_argument n set v o args :
  flag_name_ok n = true → lookup_flag formal n = Some (StringVar set) →
  parse formal (assignment (n, v) :: args) o = parse formal args (set v o).
Proof. intros Hn Hf. by eapply parse_assignment. Qed.
(** Arguments that are there only when the value is not the default [d]. *)
Lemma when_argument n set (given d : bool) o args :
  flag_name_ok n = true → lookup_flag formal n = Some (BoolVar set) → set d o = o →
  parse formal (when given (assignment (n, FormatBool (negb d))) ++ args) o =
  parse formal args (set (if given then negb d else d) o).
Proof. intros Hn Hf Hd. destruct given; unfold when; simpl app; [by apply bool_argument|by rewrite Hd]. Qed.
(** The level of the logger goes to the logger. *)
Lemma level_argument level o args :
  lookup_flag formal "zap-log-level" = lookup_flag zap_flags "zap-log-level" → level ∈ log_levels →
  parse formal (assignment ("zap-log-level", level) :: args) o = parse formal args o.
Proof.
  intros Hz Hl. destruct (zap_log_level O) as (set & Hset & Hok). rewrite <- Hz in Hset.
  eapply parse_assignment; [done|exact Hset|by apply Hok].
Qed.
End arguments.

Abbreviation parse_ccm := (parse CCMFlags.flags).

(** The channel is given unless it is empty. *)
Lemma channel_argument channel o args :
  co_gatewayAPICRDsChannel o = "standard" →
  parse_ccm (when (bool_decide (channel ≠ "")) (assignment ("gateway-api-crds-channel", channel)) ++ args) o =
  parse_ccm args (CCMFlags.set_gatewayAPICRDsChannel (if decide (channel = "") then "standard" else channel) o).
Proof.
  intros Ho. case_bool_decide as Hc; unfold when; simpl app.
  - rewrite decide_False by done. by apply string_argument.
  - destruct (decide (channel = "")) as [_|?]; [|done]. destruct o; simpl in *. by subst.
Qed.

(** The argument that comes next, by the name of its flag, is parsed. *)
Ltac parsed_bool formal n b := etrans; [apply (bool_argument formal n _ b _ _ eq_refl eq_refl)|]; cbv beta iota.
Ltac parsed_string formal n v := etrans; [apply (string_argument formal n _ v _ _ eq_refl eq_refl)|]; cbv beta iota.
Ltac parsed_when formal n b d := etrans; [apply (when_argument formal n _ b d _ _ eq_refl eq_refl eq_refl)|]; cbv beta iota.
Ltac parsed_level formal l := etrans; [by apply (level_argument formal l _ _ eq_refl)|].

Lemma chart_args_parsed home v args :
  ccm_chart_args v = Some args → cv_logLevel v ∈ log_levels →
  ∃ tenantName, cv_tenantName v = Some tenantName ∧ tenantName ≠ "" ∧
    ccm_command_line home args = Parsed (chart_options home tenantName v) [].
Proof.
  unfold ccm_chart_args. destruct (helm_required (cv_tenantName v)) as [t|] eqn:Ht; [|done]. intros [= <-] Hlevel.
  exists t. assert (cv_tenantName v = Some t ∧ t ≠ "") as [-> Hne].
  { unfold helm_required in Ht. destruct (cv_tenantName v) as [[|c s]|]; [done|by injection Ht as <-|done]. }
  split; [done|]. split; [done|]. unfold ccm_command_line, ccm_defaults, chart_options, helm_default.
  destruct v as [tn addr lbclass gw secrets crds channel level leader ingress gateway di dg dh dr]; clear Ht.
  cbn [cv_tenantName cv_nodeAddressType cv_useLoadBalancerClass cv_enableGatewayAPI cv_enableSecretSynchronizer
    cv_installGatewayAPICRDs cv_gatewayAPICRDsChannel cv_logLevel cv_enableLeaderElection cv_useIngressClass cv_useGatewayClass
    cv_disableIngressController cv_disableGatewayController cv_disableHTTPRouteController cv_disableGRPCRouteController app] in *.
  parsed_bool CCMFlags.flags "enable-leader-election" leader.
  parsed_string CCMFlags.flags "node-address-type" (helm_default "ExternalIP" addr).
  parsed_bool CCMFlags.flags "use-loadbalancer-class" lbclass.
  parsed_when CCMFlags.flags "enable-gateway-api" gw false.
  parsed_when CCMFlags.flags "use-gateway-class" (negb gateway) true.
  parsed_when CCMFlags.flags "use-ingress-class" (negb ingress) true.
  parsed_when CCMFlags.flags "disable-ingress-controller" di false.
  parsed_when CCMFlags.flags "disable-gateway-controller" dg false.
  parsed_when CCMFlags.flags "disable-httproute-controller" dh false.
  parsed_when CCMFlags.flags "disable-grpcroute-controller" dr false.
  parsed_when CCMFlags.flags "enable-secret-synchronizer" secrets false.
  parsed_when CCMFlags.flags "install-gateway-api-crds" crds false.
  etrans; [by apply (channel_argument channel)|].
  parsed_string CCMFlags.flags "cluster-name" t.
  parsed_level CCMFlags.flags level.
  cbn [parse]. f_equal. unfold helm_default. cbv [CCMFlags.set_installGatewayAPICRDs CCMFlags.set_enableSecretSynchronizer
    CCMFlags.set_disableGRPCRouteController CCMFlags.set_disableHTTPRouteController CCMFlags.set_disableGatewayController
    CCMFlags.set_disableIngressController CCMFlags.set_useIngressClass CCMFlags.set_useGatewayClass CCMFlags.set_enableGatewayAPI
    CCMFlags.set_useLoadbalancerClass CCMFlags.set_endpointAddressTypeString CCMFlags.set_enableLeaderElection
    CCMFlags.set_gatewayAPICRDsChannel CCMFlags.set_clusterName].
  f_equal; [by destruct ingress|by destruct gateway|by destruct di|by destruct dg|by destruct dh|by destruct dr
    |by destruct secrets|by destruct gw|by destruct crds].
Qed.

Lemma chart_options_accepted home t v :
  t ≠ "" →
  (∃ steps, ccm_main (chart_options home t v) = Some steps) ↔
  cv_nodeAddressType v ∈ [""; "InternalIP"; "ExternalIP"] ∧ cv_gatewayAPICRDsChannel v ∈ [""; "standard"; "experimental"].
Proof.
  intros Ht. unfold ccm_main, chart_options, IsValidGatewayAPICRDsChannel, ChannelStandard, ChannelExperimental, node_address_type. simpl.
  rewrite decide_False by done. rewrite !elem_of_cons, !elem_of_nil. split.
  - intros [steps Hs]. repeat case_decide; simplify_eq/=; naive_solver.
  - intros [Ha Hc]. repeat case_decide; simplify_eq/=; naive_solver.
Qed.

(** C27: the chart of the CCM passes on what its values say.  When it renders, which needs
    the name of the tenant, the program parses the arguments to the options the values stand
    for, field by field, with the defaults for what is not set, and none is left over or
    refused; and with these options it goes on to contact the clusters exactly when the
    address type and the channel are ones the chart documents, or are left out. *)
Theorem ccm_chart_options home v :
  cv_logLevel v ∈ log_levels →
  match ccm_chart_args v with
  | None => cv_tenantName v = None ∨ cv_tenantName v = Some ""
  | Some args =>
      ∃ t, cv_tenantName v = Some t ∧ ccm_command_line home args = Parsed (chart_options home t v) [] ∧
        ((∃ steps, ccm_main (chart_options home t v) = Some steps) ↔
         cv_nodeAddressType v ∈ [""; "InternalIP"; "ExternalIP"] ∧ cv_gatewayAPICRDsChannel v ∈ [""; "standard"; "experimental"])
  end.
Proof.
  intros Hl. destruct (ccm_chart_args v) as [args|] eqn:E.
  - destruct (chart_args_parsed home v args E Hl) as (t & Ht & Hne & Hp). exists t. split; [done|]. split; [done|].
    by apply chart_options_accepted.
  - unfold ccm_chart_args, helm_required in E. destruct (cv_tenantName v) as [[|c s]|]; [by right|done|by left].
Qed.

(** *** The manager *)

(** [.Values.kubelb] of the manager's chart. *)
Record manager_values := { mv_enableLeaderElection : bool; mv_enableGatewayAPI : bool; mv_debug : bool; mv_logLevel : string }.
Definition manager_chart_args (v : manager_values) : list string :=
  ["--enable-leader-election=" +:+ FormatBool (mv_enableLeaderElection v)] ++
  when (mv_enableGatewayAPI v) "--enable-gateway-api=true" ++
  ["--debug=" +:+ FormatBool (mv_debug v);
   "--zap-log-level=" +:+ mv_logLevel v].

(** The chart gives the manager the namespace of its pod in an environment variable, but
    the manager takes the default of its flag: whatever the namespace of the release. *)
Theorem manager_chart_options registered env v :
  mv_logLevel v ∈ log_levels →
  kubelb_command_line registered env (manager_chart_args v) =
  Parsed {| ko_metricsAddr := ":9443"; ko_envoyListenAddress := ":8001"; ko_enableLeaderElection := mv_enableLeaderElection v;
            ko_probeAddr := ":8081"; ko_kubeconfig := ""; ko_enableDebugMode := mv_debug v; ko_namespace := "kubelb";
            ko_enableTenantMigrationController := true; ko_enableGatewayAPI := mv_enableGatewayAPI v |} [].
Proof.
  intros Hl. destruct v as [leader gw debug level]. cbn [mv_logLevel] in Hl.
  change (kubelb_command_line registered env (manager_chart_args (Build_manager_values leader gw debug level)))
    with (parse (ManagerFlags.flags registered) (manager_chart_args (Build_manager_values leader gw debug level)) kubelb_defaults).
  unfold manager_chart_args. cbn [mv_enableLeaderElection mv_enableGatewayAPI mv_debug mv_logLevel app].
  parsed_bool (ManagerFlags.flags registered) "enable-leader-election" leader.
  parsed_when (ManagerFlags.flags registered) "enable-gateway-api" gw false.
  parsed_bool (ManagerFlags.flags registered) "debug" debug.
  parsed_level (ManagerFlags.flags registered) level.
  by destruct gw.
Qed.
End parsing.

(** values.yaml of the manager's chart turns the debug mode on, which the flag has off: the
    Envoy proxies of a default installation have their admin interface on all addresses. *)
Definition manager_default_values : manager_values :=
  {| mv_enableLeaderElection := true; mv_enableGatewayAPI := false; mv_debug := true; mv_logLevel := "info" |}.
Theorem default_chart_exposes_admin `{ZapLaws} registered env opt rest conf s Marshal :
  kubelb_command_line registered env (manager_chart_args manager_default_values) = Parsed opt rest →
  NewServer conf (ko_envoyListenAddress opt) (ko_enableDebugMode opt) = Done (inr s) →
  ko_enableDebugMode kubelb_defaults = false ∧
  bs_admin (bootstrap_config (admin_after Marshal [s]) s) = {| sa_address := "0.0.0.0"; sa_port := 9001 |}.
Proof.
  rewrite manager_chart_options by (right; left). intros [= <- <-] Hs. split; [done|].
  assert (srv_enableAdmin s = true) as Ha.
  { unfold NewServer in Hs. simpl in Hs. repeat case_match; simplify_eq; done. }
  simpl. rewrite admin_after_spec. simpl. by rewrite Ha.
Qed.

(** ** The role is enough *)

Section ccm.
Context `{Unicode} `{Finalizers} `{SemanticDeepEqual (gomap string)} `{SemanticDeepEqual ServiceSpec} `{Scheme}
  `{SourceCodec KIngress} `{SourceCodec KGateway} `{SourceCodec KHTTPRoute} `{SourceCodec KGRPCRoute}.

Abbreviation needs rules := (λ c, ccm_permits rules c = true).

Lemma node_within r : only_calls (needs chart_base_rules) (ReconcileNode r).
Proof. unfold ReconcileNode. permitted_calls. Qed.

Lemma service_within r req : only_calls (needs chart_base_rules) (ReconcileService r req).
Proof.
  unfold ReconcileService, cleanupService, ensure_service_finalizer, sync_load_balancer, update_service_status, updateManagedServicesGauge.
  permitted_calls.
Qed.

(** The four route controllers, for rules that let them use their kind and the Services. *)
Lemma source_within {k : Effects.kind} `{RouteSource k} `{SourceCodec k} rules cluster (should : objT k → bool) req :
  (∀ a, a ∈ [Reads; Lists; Updates; PatchesStatus] → match tenant_resource k with Some (g, res) => grants_access rules g res k a = true | None => True end) →
  implies chart_base_rules rules →
  only_calls (needs rules) (ReconcileSource cluster should req).
Proof.
  intros Hk Hbase.
  assert (∀ c a, api_access c = Some (k, a) → a ∈ [Reads; Lists; Updates; PatchesStatus] → ccm_permits rules c = true) as Hc.
  { intros c a Hca Ha. unfold ccm_permits. rewrite Hca. specialize (Hk a Ha). by destruct (tenant_resource k) as [[??]|]. }
  assert (∀ c, ccm_permits chart_base_rules c = true → ccm_permits rules c = true) as Hs by (intros; by eapply ccm_permits_implies).
  unfold ReconcileSource, cleanup_source, cleanupSourceRoute, ensure_source_finalizer, reconcile_source, reconcileSourceForRoute,
    CreateRouteForResource, CreateUpdateRoute, update_source_status. solve_calls;
    first [apply delete_impacted_calls|apply NormalizeAndReplicateServices_calls|eapply Hc; [reflexivity|set_solver]|apply Hs; permitted_call];
    intros; apply Hs; permitted_call.
Qed.

Lemma crds_within rules factories ns :
  implies chart_crd_rules rules → only_calls (needs rules) (ReconcileCustomResourceDefinitions factories ns).
Proof.
  intros Himp. induction factories as [|[n f] factories IH]; cbn [ReconcileCustomResourceDefinitions]; [done|].
  unfold ensure. solve_calls. eapply ccm_permits_implies; [exact Himp|permitted_call].
Qed.

Lemma gateway_crd_within r req : only_calls (needs chart_crd_rules) (ReconcileGatewayCRD r req).
Proof.
  unfold ReconcileGatewayCRD, reconcileCRD. solve_calls. by apply crds_within.
Qed.

Lemma secret_within req : only_calls (needs (chart_secret_rules ++ chart_sync_secret_rules)) (ReconcileSecretConversion req).
Proof.
  unfold ReconcileSecretConversion. apply reconcile_finalized_within; [permitted_call|permitted_call| |]; intros o;
    unfold cleanup_converted, delete_converted, release, convert_secret, CreateOrUpdateSyncSecret; permitted_calls.
Qed.

Lemma sync_secret_within r req : only_calls (needs chart_sync_secret_rules) (ReconcileCCMSyncSecret r req).
Proof.
  unfold ReconcileCCMSyncSecret. apply reconcile_finalized_within; [permitted_call|permitted_call| |]; intros o;
    unfold cleanup_copied, delete_copied, release, copy_sync_secret, CreateOrUpdateSyncSecret; permitted_calls.
Qed.

(** The part of the role each controller uses. *)
Definition used_rules (c : ccm_controller) : list PolicyRule :=
  match c with
  | NodeController _ | ServiceController _ => chart_base_rules
  | IngressController _ => chart_base_rules ++ chart_ingress_rules
  | GatewayCRDController _ => chart_crd_rules
  | GatewayController _ => chart_base_rules ++ chart_gateway_rules
  | HTTPRouteController _ => chart_base_rules ++ chart_httproute_rules
  | GRPCRouteController _ => chart_base_rules ++ chart_grpcroute_rules
  | SecretConversionController => chart_secret_rules ++ chart_sync_secret_rules
  | SyncSecretController _ => chart_sync_secret_rules
  end.

Lemma used_rules_enough c : confined (needs (used_rules c)) c.
Proof.
  assert (∀ piece, implies chart_base_rules (chart_base_rules ++ piece)) as Hb by (intros; apply implies_subset; set_solver).
  destruct c; cbn [confined used_rules]; intros; apply honest_only;
    [apply node_within|apply service_within|apply (source_within (k:=KIngress))|apply gateway_crd_within
    |apply (source_within (k:=KGateway))|apply (source_within (k:=KHTTPRoute))|apply (source_within (k:=KGRPCRoute))
    |apply secret_within|apply sync_secret_within]; try apply Hb;
    intros a Ha; cbn [tenant_resource];
    repeat (apply elem_of_cons in Ha as [->|Ha]; [vm_compute; reflexivity|]); by apply elem_of_nil in Ha.
Qed.

Lemma used_rules_watches (generation : ∀ {k : Effects.kind}, objT k → Z) c :
  Forall (watch_confined (needs (used_rules c))) (bd_watches (ccm_builder (@generation) c)).
Proof.
  destruct c; cbn [ccm_builder used_rules setup_node setup_service setup_ingress setup_gateway_crd setup_gateway setup_httproute
    setup_grpcroute setup_secret_conversion setup_ccm_sync_secret managed_by bd_watches];
    repeat (apply list.Forall_cons; split); try apply list.Forall_nil; try done;
    (split; [permitted_call|]; split;
      [cbn [wt_predicates Watches.Watches For]; repeat (apply list.Forall_cons; split); try apply list.Forall_nil; done
      |cbn [wt_handler Watches.Watches For]; try exact I; intros; unfold enqueueIngresses, enqueueHTTPRoutes, enqueueGRPCRoutes, enqueueResources; permitted_calls]).
Qed.

(** What a controller that is set up uses is in the role. *)
Lemma used_rules_rendered home t v addr c :
  c ∈ ccm_setup (chart_options home t v) addr → implies (used_rules c) (ccm_chart_rules v).
Proof.
  unfold ccm_setup, setupControllers, chart_options. intros Hc. apply implies_subset. unfold ccm_chart_rules.
  members Hc; subst c; cbn [used_rules co_disableIngressController co_installGatewayAPICRDs co_disableGatewayController
    co_enableGatewayAPI co_disableHTTPRouteController co_disableGRPCRouteController co_enableSecretSynchronizer] in *;
    try (apply andb_true_iff in E as [E E']; rewrite E'); try rewrite E; set_solver.
Qed.

Lemma confined_mono (P Q : call → Prop) c : (∀ x, P x → Q x) → confined P c → confined Q c.
Proof. intros HPQ. destruct c; cbn [confined]; intros; by eapply honest_mono, H8. Qed.
Lemma watch_confined_mono (P Q : call → Prop) w : (∀ x, P x → Q x) → watch_confined P w → watch_confined Q w.
Proof.
  intros HPQ (Hl & Hp & Hh). split; [by apply HPQ|]. split.
  - eapply list.Forall_impl; [exact Hp|]. intros p He e. by eapply only_calls_mono, He.
  - destruct (wt_handler w); [done|done|]. intros o. by eapply only_calls_mono, Hh.
Qed.

(** The kinds whose controllers can be left out, and the controller for each. *)
Definition optional_kinds : list Effects.kind := [KIngress; KGateway; KHTTPRoute; KGRPCRoute; KTenantSecret; KCRD].
Definition controls (c : ccm_controller) (k : Effects.kind) : Prop :=
  match c, k with
  | IngressController _, KIngress | GatewayController _, KGateway | HTTPRouteController _, KHTTPRoute
  | GRPCRouteController _, KGRPCRoute | SecretConversionController, KTenantSecret | GatewayCRDController _, KCRD => True
  | _, _ => False
  end.

Definition about (g res : string) (rule : PolicyRule) : bool :=
  bool_decide (g ∈ pol_apiGroups rule) && bool_decide (res ∈ pol_resources rule).

Lemma grants_about rules g res verb : grants rules g res verb = true → ∃ rule, rule ∈ rules ∧ about g res rule = true.
Proof.
  unfold grants, rule_grants. intros (rule & Hin & [Hr _]%andb_true_iff)%existsb_exists. exists rule. split; [|done].
  by apply list_elem_of_In.
Qed.

Lemma rendered_rules_used home t v addr k g res verb :
  k ∈ optional_kinds → tenant_resource k = Some (g, res) → grants (ccm_chart_rules v) g res verb = true →
  ∃ c, c ∈ ccm_setup (chart_options home t v) addr ∧ controls c k.
Proof.
  intros Hk Hres (rule & Hin & Hab)%grants_about. unfold ccm_setup, setupControllers, chart_options.
  cbn [co_disableIngressController co_installGatewayAPICRDs co_disableGatewayController co_enableGatewayAPI
    co_disableHTTPRouteController co_disableGRPCRouteController co_enableSecretSynchronizer].
  unfold ccm_chart_rules, chart_base_rules, chart_crd_rules, chart_gateway_rules, chart_grpcroute_rules, chart_httproute_rules,
    chart_ingress_rules, chart_secret_rules, chart_sync_secret_rules in Hin.
  repeat (apply elem_of_cons in Hk as [->|Hk]); [..|by apply elem_of_nil in Hk]; injection Hres as <- <-;
    members Hin; members Hin; subst rule; try (vm_compute in Hab; discriminate Hab).
  all: simpl co_clusterName; simpl co_useIngressClass; simpl co_useGatewayClass; simpl co_gatewayAPICRDsChannel.
  - exists (IngressController {| igr_clusterName := cluster_namespace t; igr_useIngressClass := cv_useIngressClass v |}). set_solver.
  - exists (GatewayController {| gtr_clusterName := cluster_namespace t; gtr_useGatewayClass := cv_useGatewayClass v |}). set_solver.
  - exists (HTTPRouteController {| htr_clusterName := cluster_namespace t |}). set_solver.
  - exists (GRPCRouteController {| grr_clusterName := cluster_namespace t |}). set_solver.
  - exists SecretConversionController. set_solver.
  - exists (GatewayCRDController (co_gatewayAPICRDsChannel (chart_options home t v))). set_solver.
Qed.

(** C5: the ClusterRole of the chart is what a CCM with the same values needs in its own
    cluster.  For all values: in every run of every controller that a CCM started with the rendered arguments sets up,
    in their watches, and when it installs the Gateway API CRDs, each call for an object of the tenant's cluster is granted, with
    every verb the client uses; and a rule on Ingresses, Gateways, HTTPRoutes, GRPCRoutes, Secrets or
    CRDs is there only when a controller for that kind is set up. *)
Theorem ccm_chart_sufficient `{ZapLaws} (generation : ∀ {k : Effects.kind}, objT k → Z) ReadDir Open Decode order home v args opt rest steps :
  ccm_chart_args v = Some args → cv_logLevel v ∈ log_levels →
  ccm_command_line home args = Parsed opt rest → ccm_main opt = Some steps →
  (∀ c, SetupCCM c ∈ steps → confined (needs (ccm_chart_rules v)) c) ∧
  (∀ c, SetupCCM c ∈ steps → Forall (watch_confined (needs (ccm_chart_rules v))) (bd_watches (ccm_builder (@generation) c))) ∧
  (∀ channel, InstallGatewayCRDs channel ∈ steps →
    only_calls (needs (ccm_chart_rules v)) (InstallCRDs ReadDir Open Decode order channel)) ∧
  (∀ k g res verb, k ∈ optional_kinds → tenant_resource k = Some (g, res) → grants (ccm_chart_rules v) g res verb = true →
    ∃ c, SetupCCM c ∈ steps ∧ controls c k).
Proof.
  intros Hargs Hlevel Hparse Hmain.
  destruct (chart_args_parsed home v args Hargs Hlevel) as (t & _ & _ & Hp). rewrite Hp in Hparse. injection Hparse as <- <-.
  apply ccm_main_steps in Hmain as (addr & -> & _).
  assert (∀ c, SetupCCM c ∈ (ccm_before (chart_options home t v) ++ (SetupCCM <$> ccm_setup (chart_options home t v) addr) ++
      ccm_after (chart_options home t v)) ++ [StartCCM] →
    ∀ x, ccm_permits (used_rules c) x = true → ccm_permits (ccm_chart_rules v) x = true) as Himp.
  { intros c Hc%setup_elem x Hx. eapply ccm_permits_implies; [by eapply used_rules_rendered|done]. }
  split_and!.
  - intros c Hc. eapply confined_mono; [by apply Himp|apply used_rules_enough].
  - intros c Hc. eapply list.Forall_impl; [apply used_rules_watches|]. intros w. apply watch_confined_mono. by apply Himp.
  - intros channel Hin. unfold InstallCRDs. solve_calls. apply crds_within, implies_subset.
    unfold ccm_before, ccm_after, ccm_chart_rules in *. members Hin; [by apply list_elem_of_fmap in Hin as (? & ? & _)|].
    cbn [co_installGatewayAPICRDs chart_options] in E. rewrite E. set_solver.
  - intros k g res verb Hk Hres Hg. destruct (rendered_rules_used home t v addr k g res verb Hk Hres Hg) as (c & Hc & Hck).
    exists c. split; [|done]. apply elem_of_app; left. apply elem_of_app; right. apply elem_of_app; left.
    by apply list_elem_of_fmap_2.
Qed.
End ccm.

(** ** The roles of the manager and the generated roles *)

(** clusterrole.yaml of the manager's chart. *)
Definition manager_chart_rules : list PolicyRule :=
  [rbac "" "namespaces;secrets;serviceaccounts;services" "create;delete;get;list;patch;update;watch";
   rbac "" "configmaps" "get;list;watch";
   rbac "apps" "daemonsets" "create;delete;get;list;patch;update;watch";
   rbac "apps" "deployments" "create;delete;get;list;patch;update;watch";
   rbac "discovery.k8s.io" "endpointslices" "create;delete;get;list;patch;update;watch";
   rbac "gateway.networking.k8s.io" "gateways" "create;delete;get;list;patch;update;watch";
   rbac "gateway.networking.k8s.io" "gateways/status" "get;patch;update";
   rbac "gateway.networking.k8s.io" "grpcroutes" "create;delete;get;list;patch;update;watch";
   rbac "gateway.networking.k8s.io" "grpcroutes/status" "get;patch;update";
   rbac "gateway.networking.k8s.io" "httproutes" "create;delete;get;list;patch;update;watch";
   rbac "gateway.networking.k8s.io" "httproutes/status" "get;patch;update";
   rbac "kubelb.k8c.io" "configs" "get;list;watch";
   rbac "kubelb.k8c.io" "configs/status" "get;patch;update";
   rbac "kubelb.k8c.io" "routes;tenants;loadbalancers;addresses;syncsecrets;tenantstates"
     "create;delete;get;list;patch;update;watch;deletecollection";
   rbac "kubelb.k8c.io" "loadbalancers/status" "get;patch;update";
   rbac "kubelb.k8c.io" "routes/status" "get;patch;update";
   rbac "kubelb.k8c.io" "tenants/status" "get;patch;update";
   rbac "kubelb.k8c.io" "addresses/status" "get;patch;update";
   rbac "kubelb.k8c.io" "tenantstates/status" "get;patch;update";
   rbac "networking.k8s.io" "ingresses" "create;delete;get;list;patch;update;watch";
   rbac "networking.k8s.io" "ingresses/status" "get;patch;update";
   rbac "rbac.authorization.k8s.io" "rolebindings;clusterroles;roles" "bind;escalate;create;delete;get;list;patch;update;watch"].

(** config/kubelb/rbac/role.yaml *)
Definition manager_config_rules : list PolicyRule :=
  [rbac "" "configmaps" "get;list;watch";
   rbac "" "namespaces;secrets;serviceaccounts;services" "create;delete;get;list;patch;update;watch";
   rbac "apps" "daemonsets;deployments" "create;delete;get;list;patch;update;watch";
   rbac "discovery.k8s.io" "endpointslices" "create;delete;get;list;patch;update;watch";
   rbac "gateway.networking.k8s.io" "gateways;grpcroutes;httproutes" "create;delete;get;list;patch;update;watch";
   rbac "gateway.networking.k8s.io" "gateways/status;grpcroutes/status;httproutes/status" "get;patch;update";
   rbac "kubelb.k8c.io" "addresses;tenants;tenantstates" "create;delete;get;list;patch;update;watch";
   rbac "kubelb.k8c.io" "addresses/status" "get";
   rbac "kubelb.k8c.io" "configs" "get;list;watch";
   rbac "kubelb.k8c.io" "configs/status;loadbalancers/status;routes/status;tenants/status;tenantstates/status" "get;patch;update";
   rbac "kubelb.k8c.io" "loadbalancers;routes;syncsecrets" "create;delete;deletecollection;get;list;patch;update;watch";
   rbac "networking.k8s.io" "ingresses" "create;delete;get;list;patch;update;watch";
   rbac "networking.k8s.io" "ingresses/status" "get;patch;update";
   rbac "rbac.authorization.k8s.io" "rolebindings;roles" "bind;create;delete;escalate;get;list;patch;update;watch"].

(** config/ccm/rbac/role.yaml *)
Definition ccm_config_rules : list PolicyRule :=
  [rbac "" "nodes" "get;list;watch";
   rbac "" "secrets" "create;delete;get;list;patch;update;watch";
   rbac "" "services" "create;get;list;patch;update;watch";
   rbac "" "services/status" "get;patch;update";
   rbac "gateway.networking.k8s.io" "gateways;grpcroutes;httproutes" "get;list;patch;update;watch";
   rbac "gateway.networking.k8s.io" "gateways/status;grpcroutes/status;httproutes/status" "get;patch;update";
   rbac "kubelb.k8c.io" "routes;syncsecrets" "create;delete;get;list;patch;update;watch";
   rbac "kubelb.k8c.io" "routes/status" "get;patch;update";
   rbac "networking.k8s.io" "ingresses" "get;list;patch;update;watch";
   rbac "networking.k8s.io" "ingresses/status" "get;patch;update"].

(** The role of the manager's chart grants all that the markers ask for, and the
    generated one exactly that. *)
Theorem manager_roles_agree :
  implies Manager.rules manager_chart_rules ∧
  implies Manager.rules manager_config_rules ∧ implies manager_config_rules Manager.rules.
Proof. split_and!; apply implies_covered; vm_compute; reflexivity. Qed.

(** The generated role of the CCM grants no more than the markers of its controllers, but
    not all of it: the rule of the CRD controller is missing. *)
Theorem ccm_config_role_lacks_crds :
  implies ccm_config_rules CCM.rules ∧
  grants CCM.rules "apiextensions.k8s.io" "customresourcedefinitions" "get" = true ∧
  grants ccm_config_rules "apiextensions.k8s.io" "customresourcedefinitions" "get" = false.
Proof. split; [apply implies_covered; vm_compute; reflexivity|]. by vm_compute. Qed.

(** Neither do the markers let the CCM delete a Service, which the cleanup of a source
    does with the copies it made; the role of the chart does. *)
Theorem ccm_markers_lack_delete ref service :
  is_reference_to service ref = true →
  ¬ only_calls (λ c, ccm_permits CCM.rules c = true) (delete_for_references [ref] service) ∧
  only_calls (λ c, ccm_permits chart_base_rules c = true) (delete_for_references [ref] service).
Proof.
  intros Hr. cbn [delete_for_references]. rewrite Hr. split.
  - intros [Hd _]. unfold ccm_permits in Hd. cbn [api_access] in Hd. vm_compute in Hd. discriminate Hd.
  - permitted_calls.
Qed.

(** ** Examples *)

Definition sample_zap : ZapFlags :=
  {| zap_bools := ["zap-devel"];
     zap_values := [("zap-encoder", λ v, bool_decide (v ∈ ["json"; "console"])); ("zap-log-level", λ v, bool_decide (v ∈ log_levels))] |}.
Lemma sample_zap_laws : @ZapLaws sample_zap.
Proof.
  split. intros O. eexists. split; [reflexivity|]. intros l o Hl. simpl. by rewrite bool_decide_eq_true_2.
Qed.

(** A tenant with the Gateway API, without Ingresses. *)
Definition shop_values : ccm_values :=
  {| cv_tenantName := Some "shop"; cv_nodeAddressType := ""; cv_useLoadBalancerClass := true; cv_enableGatewayAPI := true;
     cv_enableSecretSynchronizer := false; cv_installGatewayAPICRDs := true; cv_gatewayAPICRDsChannel := "experimental";
     cv_logLevel := "debug"; cv_enableLeaderElection := false; cv_useIngressClass := true; cv_useGatewayClass := false;
     cv_disableIngressController := true; cv_disableGatewayController := false; cv_disableHTTPRouteController := false;
     cv_disableGRPCRouteController := true |}.

Example shop_args :
  ccm_chart_args shop_values =
  Some ["--enable-leader-election=false"; "--node-address-type=ExternalIP"; "--use-loadbalancer-class=true"; "--enable-gateway-api=true";
        "--use-gateway-class=false"; "--disable-ingress-controller=true"; "--disable-grpcroute-controller=true";
        "--install-gateway-api-crds=true"; "--gateway-api-crds-channel=experimental"; "--cluster-name=shop"; "--zap-log-level=debug"].
Proof. reflexivity. Qed.

Lemma ccm_chart_options_witness :
  match ccm_chart_args shop_values with
  | None => False
  | Some args => ∃ t, cv_tenantName shop_values = Some t ∧
      ccm_command_line (H := sample_zap) "/root" args = Parsed (chart_options "/root" t shop_values) []
  end.
Proof.
  assert (cv_logLevel shop_values ∈ log_levels) as Hl by (left).
  pose proof (ccm_chart_options (H := sample_zap) (H0 := sample_zap_laws) "/root" shop_values Hl) as H.
  assert (∃ args, ccm_chart_args shop_values = Some args) as [args E] by (eexists; reflexivity).
  rewrite E in H |- *. destruct H as (t & Ht & Hp & _). exists t. split; [exact Ht|exact Hp].
Defined.

Lemma ccm_chart_sufficient_witness :
  only_calls (λ c, ccm_permits (ccm_chart_rules shop_values) c = true)
    (InstallCRDs sample_ReadDir sample_Open sample_Decode map_to_list "experimental") ∧
  ∃ c, c ∈ ccm_setup (chart_options "/root" "shop" shop_values) "ExternalIP" ∧ controls c KGateway.
Proof.
  assert (∃ steps, ccm_main (chart_options "/root" "shop" shop_values) = Some steps) as [steps E] by (eexists; vm_compute; reflexivity).
  destruct (ccm_chart_sufficient (H := no_unicode) (H0 := list_finalizers) (H1 := semantic_by_contents) (H2 := service_spec_equality)
    (H3 := sample_scheme) (H4 := sample_codec) (H5 := no_codec KGateway) (H6 := no_codec KHTTPRoute) (H7 := no_codec KGRPCRoute)
    (H8 := sample_zap) (H9 := sample_zap_laws) (λ _ _, 0%Z) sample_ReadDir sample_Open sample_Decode map_to_list
    "/root" shop_values _ (chart_options "/root" "shop" shop_values) [] steps shop_args) as (_ & _ & Hi & Hu).
  - left.
  - vm_compute. reflexivity.
  - exact E.
  - split.
    + apply Hi. vm_compute in E. injection E as <-. apply list_elem_of_lookup. exists 15. reflexivity.
    + destruct (Hu KGateway "gateway.networking.k8s.io" "gateways" "update") as (c & Hc & Hk);
        [apply list_elem_of_lookup; exists 1; reflexivity|reflexivity|vm_compute; reflexivity|].
      exists c. split; [|exact Hk]. apply ccm_main_steps in E as (addr & -> & _ & _ & Ha).
      vm_compute in Ha. injection Ha as <-. by apply setup_elem in Hc.
Defined.
