(* ===== verification/ServiceLoop.v ===== *)
(** * The Service controller as a system that runs

    The work queue of the Service controller, the events that fill it, its runs, and
    everybody else who writes to the two clusters, as one transition system.  A Service
    whose request is not in the queue agrees with its LoadBalancer, in every state that
    can be reached. *)
From Stdlib Require Import Ascii Relations.
From stdpp Require Import base gmap list strings pretty relations.
From S2P Require Import Prelude GoStrings Api Names Annotations LoadBalancers NetApi Effects Guards Objects ApiServer Services RouteResources LBController CCMService Lifecycle ServiceLifecycle Watches.
Import Core V1alpha1.

(** ** A controller and its queue *)

Section loop.
Context `{EventSourceLaws} (b : Builder) (reconcile : NamespacedName → prog (outcome bool)).
(** What the other writers keep true. *)
Context (others : world → Prop).

Definition state : Type := world * list NamespacedName.

(** The requests for all that changed are in the queue. *)
Definition delivered (w w' : world) (Q' : list NamespacedName) : Prop :=
  ∀ c req, changed w w' c → req ∈ enqueued b w' c → req ∈ Q'.

Inductive loop_step : state → state → Prop :=
  (* a run takes its request off the queue, and puts it back if it fails or asks for it *)
  | loop_run w Q req Q' :
      req ∈ Q → (∀ q, q ∈ Q → q ≠ req → q ∈ Q') → (answer (reconcile req) w ≠ Done (inr false) → req ∈ Q') →
      delivered w (exec (reconcile req) w) Q' → loop_step (w, Q) (exec (reconcile req) w, Q')
  (* anyone else writes *)
  | loop_others w Q w' Q' :
      others w' → (∀ q, q ∈ Q → q ∈ Q') → delivered w w' Q' → loop_step (w, Q) (w', Q').

(** At the start every object there is is reported as created. *)
Definition started (s : state) : Prop :=
  others s.1 ∧ ∀ (k : Effects.kind) key (o : objT k) req, objs s.1 k !! key = Some o →
    req ∈ enqueued b s.1 (existT k (CreateEvent o)) → req ∈ s.2.
End loop.

(** An update of an object that was read stores it, or removes it if it was held back by
    nothing else. *)
Lemma do_update_any {k : Effects.kind} w key (old o : objT k) :
  objs w k !! key = Some old → obj_key o = key →
  resourceVersion (meta_of o) = resourceVersion (meta_of old) → uid (meta_of o) = uid (meta_of old) →
  ∃ w' oo, do_update w o = (w', inr (updated_from w old o)) ∧ objs w' k = partial_alter (λ _, oo) key (objs w k) ∧
    (∀ k', k ≠ k' → objs w' k' = objs w k') ∧ (oo = None ∨ oo = Some (updated_from w old o)).
Proof.
  intros Hold <- Hrv Hu. unfold do_update. rewrite Hold, precondition_same by done. simpl negb. destruct (_ && _).
  - eexists _, None. split; [done|]. split; [exact (objs_set k _ w)|]. split; [intros k' Hne; exact (objs_set_ne k k' _ w Hne)|by left].
  - eexists _, (Some _). split; [done|]. split; [exact (objs_set k _ w)|]. split; [intros k' Hne; exact (objs_set_ne k k' _ w Hne)|by right].
Qed.

(** ** What a run touches *)

Definition req_key (req : NamespacedName) : string * string := (nn_namespace req, nn_name req).

Section frame.
Context `{Unicode} `{FinalizerLaws} `{SemanticMaps} (r : KubeLBServiceReconciler).
Context (Hcloud : sr_cloudController r = true).

(** The Service and its LoadBalancer, and nothing else of their kinds; the Service keeps
    what the mapping looks at, and the labels of the LoadBalancer lead back to it. *)
Record touches (req : NamespacedName) (svc : Service) (w w' : world) : Prop := {
  tc_services : ∃ so, objs w' KService = partial_alter (λ _, so) (req_key req) (objs w KService) ∧
    ∀ s : Service, so = Some s → same_source svc s ∧ deletionTimestamp (svc_meta s) = deletionTimestamp (svc_meta svc);
  tc_balancers : ∃ lo, objs w' KLoadBalancer = partial_alter (λ _, lo) (lb_key_of r svc) (objs w KLoadBalancer) ∧
    ∀ lb : LoadBalancer, lo = Some lb → enqueueLoadBalancer r lb = [req]
}.

(** The state the other writers keep: names, UIDs of Services that are their own, and
    LoadBalancers with the labels they were created with. *)
Record orderly (w : world) : Prop := {
  od_filed : filed w;
  od_names key (s : Service) : objs w KService !! key = Some s → key.1 ≠ "" ∧ key.2 ≠ "";
  od_uids key key' (s s' : Service) : objs w KService !! key = Some s → objs w KService !! key' = Some s' →
    uid (svc_meta s) = uid (svc_meta s') → key = key';
  od_labels req (s : Service) (lb : LoadBalancer) : objs w KService !! req_key req = Some s →
    objs w KLoadBalancer !! lb_key_of r s = Some lb → enqueueLoadBalancer r lb = [req]
}.

Section touched.
Context (w : world) (req : NamespacedName) (svc : Service).
Context (Hw : orderly w) (Hs : objs w KService !! req_key req = Some svc).

Lemma touches_same : touches req svc w w.
Proof.
  split.
  - exists (objs w KService !! req_key req). split; [by rewrite partial_alter_self|].
    intros s E. pose proof (eq_trans (eq_sym Hs) E) as [= <-]. split; [apply same_source_refl|done].
  - exists (objs w KLoadBalancer !! lb_key_of r svc). split; [by rewrite partial_alter_self|].
    intros lb E. by apply (od_labels w Hw req svc).
Qed.

Lemma touches_orderly w' : filed w' → touches req svc w w' → orderly w'.
Proof.
  intros Hf [(so & Eso & Hso) (lo & Elo & Hlo)].
  assert (∀ key (s : Service), objs w' KService !! key = Some s →
    (∃ s0 : Service, objs w KService !! key = Some s0 ∧ same_source s0 s)) as Hback.
  { intros key s. rewrite Eso. destruct (decide (key = req_key req)) as [->|Hne].
    - rewrite lookup_partial_alter_eq. intros E. exists svc. split; [done|]. by apply Hso.
    - rewrite lookup_partial_alter_ne by done. intros E. exists s. split; [done|apply same_source_refl]. }
  split; [done|..].
  - intros key s (s0 & E0 & _)%Hback. by eapply (od_names w Hw).
  - intros key key' s s' (s0 & E0 & Hc)%Hback (s0' & E0' & Hc')%Hback Hu. apply (od_uids w Hw key key' s0 s0'); [done..|].
    by rewrite <- (same_uid _ _ Hc), <- (same_uid _ _ Hc').
  - intros q s lb E. destruct (Hback _ _ E) as (s0 & E0 & Hc).
    assert (lb_key_of r s = lb_key_of r s0) as -> by (unfold lb_key_of; by rewrite (same_uid _ _ Hc)).
    rewrite Elo. destruct (decide (lb_key_of r s0 = lb_key_of r svc)) as [Ek|Hne].
    + rewrite Ek, lookup_partial_alter_eq. intros El. rewrite (Hlo lb El). f_equal. injection Ek as Ek.
      pose proof (od_uids w Hw _ _ _ _ E0 Hs Ek) as Eq. destruct q, req. unfold req_key in Eq. simpl in Eq. congruence.
    + rewrite lookup_partial_alter_ne by done. by apply (od_labels w Hw q s0).
Qed.
End touched.

Lemma touches_trans req svc svc1 w w1 w2 :
  same_source svc svc1 → deletionTimestamp (svc_meta svc1) = deletionTimestamp (svc_meta svc) →
  touches req svc w w1 → touches req svc1 w1 w2 → touches req svc w w2.
Proof.
  intros Hsrc Hd [(so1 & E1 & _) (lo1 & L1 & _)] [(so & E & Hso) (lo & L & Hlo)]. split.
  - exists so. split; [by rewrite E, E1, partial_alter_partial_alter_eq|]. intros s Es. destruct (Hso s Es) as [Ha Hb].
    split; [by eapply same_source_trans|congruence].
  - exists lo. split; [|done]. assert (lb_key_of r svc1 = lb_key_of r svc) as Hk by (unfold lb_key_of; by rewrite (same_uid _ _ Hsrc)).
    by rewrite L, L1, Hk, partial_alter_partial_alter_eq.
Qed.

(** ** Every run *)

Lemma stores_touches req svc svc' w w' :
  orderly w → objs w KService !! req_key req = Some svc → stores KService (req_key req) svc' w w' → same_source svc svc' →
  deletionTimestamp (svc_meta svc') = deletionTimestamp (svc_meta svc) → touches req svc w w'.
Proof.
  intros Hw Hs [E Ho] Hsrc Hd. split.
  - exists (Some svc'). split; [exact E|]. by intros s [= <-].
  - exists (objs w KLoadBalancer !! lb_key_of r svc). split; [by rewrite partial_alter_self, Ho|].
    intros lb El. by apply (od_labels w Hw req svc).
Qed.

Lemma mapped_enqueue req svc (lb : LoadBalancer) :
  obj_key (k:=KService) svc = req_key req → req_key req = (nn_namespace req, nn_name req) → nn_namespace req ≠ "" → nn_name req ≠ "" →
  ss_type (svc_spec svc) = ServiceTypeLoadBalancer → namespace (lb_meta lb) = sr_clusterName r →
  ls_type (lb_spec lb) = ServiceTypeLoadBalancer → labels (lb_meta lb) = labels (lb_meta (mapped r svc)) →
  enqueueLoadBalancer r lb = [req].
Proof.
  intros [= Hns Hn] _ Hne1 Hne2 Ht Hc Hlt Hl. simpl in Hns, Hn. unfold enqueueLoadBalancer. rewrite Hl, Hc, Hlt.
  rewrite decide_False by tauto. rewrite decide_False by tauto. unfold mapped. rewrite endpoints_by_reference by done. simpl.
  rewrite lookup_insert_eq, lookup_insert_ne, lookup_insert_eq by done. rewrite Hns, Hn. destruct req as [ns n]. simpl in *.
  by destruct ns, n.
Qed.

Lemma labels_enqueue req (lb lb' : LoadBalancer) :
  namespace (lb_meta lb') = namespace (lb_meta lb) → ls_type (lb_spec lb') = ServiceTypeLoadBalancer →
  labels (lb_meta lb') = labels (lb_meta lb) → enqueueLoadBalancer r lb = [req] → enqueueLoadBalancer r lb' = [req].
Proof.
  unfold enqueueLoadBalancer. intros -> -> ->. case_decide; [done|]. by destruct (decide (ls_type (lb_spec lb) ≠ _)).
Qed.

Section runs.
Context (w : world) (req : NamespacedName) (svc : Service).
Context (Hw : orderly w) (Hs : objs w KService !! req_key req = Some svc).

Lemma service_key : obj_key (k:=KService) svc = req_key req.
Proof. by apply (od_filed w Hw KService). Qed.

(** A synchronisation of a Service whose LoadBalancer is not being deleted. *)
Lemma synced_touches w' svc' lb' :
  ss_type (svc_spec svc) = ServiceTypeLoadBalancer → filed w' → synced_to r w svc w' svc' lb' → touches req svc w w'.
Proof.
  intros Ht Hf Hsync. split.
  - exists (Some svc'). split; [by rewrite (sync_services _ _ _ _ _ _ Hsync), service_key|]. intros s [= <-]. split; apply Hsync.
  - exists (Some lb'). split; [apply Hsync|]. intros lb [= <-].
    assert (objs w' KLoadBalancer !! lb_key_of r svc = Some lb') as El by (rewrite (sync_balancers _ _ _ _ _ _ Hsync); apply lookup_insert_eq).
    pose proof (Hf KLoadBalancer _ _ El) as [= Ens _]. simpl in Ens.
    assert (ls_type (lb_spec lb') = ServiceTypeLoadBalancer) as Htl.
    { rewrite (same_type _ _ (sync_lb _ _ _ _ _ _ Hsync)). unfold mapped. by rewrite endpoints_by_reference. }
    destruct (objs w KLoadBalancer !! lb_key_of r svc) as [lb|] eqn:Hlb.
    + apply (labels_enqueue req lb); [|done|by apply (sync_labels _ _ _ _ _ _ Hsync)|by apply (od_labels w Hw req svc)].
      pose proof (od_filed w Hw KLoadBalancer _ _ Hlb) as [= En _]. simpl in En. congruence.
    + apply (mapped_enqueue req svc); [apply service_key|done|..]; try done; try apply (od_names w Hw _ _ Hs).
      by apply (sync_new _ _ _ _ _ _ Hsync).
Qed.

(** The LoadBalancer is being deleted: it may still be written, and stays so. *)
Lemma sync_dying log lb :
  ss_type (svc_spec svc) = ServiceTypeLoadBalancer → objs w KLoadBalancer !! lb_key_of r svc = Some lb →
  deletionTimestamp (lb_meta lb) ≠ None →
  ∃ w' log', run api_server (sync_load_balancer r req svc) w log = (w', log', Done (inr false)) ∧ touches req svc w w' ∧
    ∀ lb' : LoadBalancer, objs w' KLoadBalancer !! lb_key_of r svc = Some lb' → deletionTimestamp (lb_meta lb') ≠ None.
Proof.
  intros Ht Hlb Hdy. unfold sync_load_balancer. rewrite endpoints_by_reference by done.
  destruct (MapLoadBalancer svc [] true (sr_clusterName r)) as [d svc'] eqn:Hd.
  injection Hd as Ed Esvc. assert (obj_key (k:=KLoadBalancer) d = lb_key_of r svc) as Hkey by by subst d.
  assert (ls_type (lb_spec d) = ServiceTypeLoadBalancer) as Htd by by subst d.
  cbn [mbind prog_bind prog_bind_ perform run].
  rewrite (api_get (k:=KLoadBalancer) w (namespace (lb_meta d)) (name (lb_meta d)) lb)
    by (change (objs w KLoadBalancer !! obj_key (k:=KLoadBalancer) d = Some lb); by rewrite Hkey).
  set (l0 := log ++ _). destruct (status_stage w l0 svc svc' lb) as (w1 & l1 & svc1 & R1 & Hst & Hsrc & _ & _ & Hdt & _);
    [apply Hw|by rewrite service_key|done|by subst svc'..|].
  rewrite (run_try _ _ _ _ _ _ _ _ R1). rewrite service_key in Hst. pose proof (stores_touches req svc svc1 w w1 Hw Hs Hst Hsrc Hdt) as Htouch.
  assert (objs w1 KLoadBalancer = objs w KLoadBalancer) as Elb by by apply (stores_other _ _ _ _ _ KLoadBalancer Hst).
  destruct (desired_cases lb d) as [[-> _]|[-> _]]; unfold lift, updateManagedServicesGauge, try; cbn [mbind prog_bind prog_bind_ perform run].
  - eexists _, _. split; [done|]. split; [done|]. intros lb'. rewrite Elb. intros E. by pose proof (eq_trans (eq_sym Hlb) E) as [= <-].
  - destruct (do_update_any (k:=KLoadBalancer) w1 (lb_key_of r svc) lb (updated_load_balancer lb d)) as (w2 & oo & Hrun & Hk2 & Ho2 & Hoo);
      [by rewrite Elb|exact (od_filed w Hw KLoadBalancer _ _ Hlb)|done|done|].
    change (api_server w1 (Update KLoadBalancer (updated_load_balancer lb d)))
      with (do_update (k:=KLoadBalancer) w1 (updated_load_balancer lb d)). rewrite Hrun. cbn [ok prog_bind_ run].
    eexists _, _. split; [done|]. split.
    + split.
      * destruct Htouch as [(so & Eso & Hso) _]. exists so. split; [|done]. by rewrite (Ho2 KService) by done.
      * exists oo. split; [by rewrite Hk2, Elb|]. intros lb' ->. destruct Hoo as [?|[= ->]]; [done|].
        apply (labels_enqueue req lb); [done|exact Htd|done|by apply (od_labels w Hw req svc)].
    + intros lb'. rewrite Hk2, lookup_partial_alter_eq. intros ->. destruct Hoo as [?|[= ->]]; [done|]. exact Hdy.
Qed.

Lemma after_delete_enqueue (lb lb' : LoadBalancer) :
  after_delete (k:=KLoadBalancer) w lb = Some lb' → enqueueLoadBalancer r lb' = enqueueLoadBalancer r lb.
Proof.
  unfold after_delete, marked. case_decide; [done|]. intros [= <-]. change (meta_of (k:=KLoadBalancer) lb) with (lb_meta lb).
  by destruct (deletionTimestamp (lb_meta lb)).
Qed.

(** Cleaning up. *)
Lemma cleanup_touches log :
  ∃ w' log' o, run api_server (cleanupService r svc) w log = (w', log', Done o) ∧ touches req svc w w'.
Proof.
  unfold cleanupService. edestruct (run_deletes KLoadBalancer) as [l1 R1]. rewrite (run_try _ _ _ _ _ _ _ _ R1). clear R1.
  set (w1 := (do_delete _ _ _).1). assert (objs w1 KService = objs w KService) as E.
  { exact (api_server_other w (Delete KLoadBalancer (sr_clusterName r) (uid (svc_meta svc))) KService eq_refl). }
  assert (without_service_finalizers svc = with_svc_meta (with_finalizers (finalizers (svc_meta (without_service_finalizers svc))) (svc_meta svc)) svc) as Eo.
  { unfold without_service_finalizers. by rewrite !remove_finalizer. }
  destruct (do_update_any (k:=KService) w1 (req_key req) svc (without_service_finalizers svc)) as (w2 & oo & Hrun & Hk2 & Ho2 & Hoo);
    [by rewrite E|rewrite <- service_key; by rewrite Eo|by rewrite Eo|by rewrite Eo|].
  unfold try_wrap. cbn [mbind prog_bind prog_bind_ perform run].
  change (api_server w1 (Update KService (without_service_finalizers svc))) with (do_update (k:=KService) w1 (without_service_finalizers svc)).
  rewrite Hrun. cbn [ok prog_bind_ run]. eexists _, _, _. split; [done|]. split.
  - exists oo. split; [by rewrite Hk2, E|].
    assert (same_source svc (updated_from (k:=KService) w1 svc (without_service_finalizers svc))) as Hsrc by (rewrite Eo; by split).
    destruct Hoo as [->| ->]; [done|]. by intros s [= <-].
  - exists (objs w KLoadBalancer !! lb_key_of r svc ≫= after_delete w). split.
    + rewrite (Ho2 KLoadBalancer) by done. apply map_eq. intros key. unfold w1. rewrite do_delete_lookup. unfold lb_key_of.
      destruct (decide (key = (sr_clusterName r, uid (svc_meta svc)))) as [->|Hne]; [by rewrite lookup_partial_alter_eq|].
      by rewrite lookup_partial_alter_ne.
    + intros lb' Ea. destruct (objs w KLoadBalancer !! lb_key_of r svc) as [lb|] eqn:Hlb; [|done].
      rewrite (after_delete_enqueue lb lb' Ea). by apply (od_labels w Hw req svc).
Qed.

End runs.

Lemma lb_dying_or_not w svc :
  (∃ lb : LoadBalancer, objs w KLoadBalancer !! lb_key_of r svc = Some lb ∧ deletionTimestamp (lb_meta lb) ≠ None) ∨
  (∀ lb : LoadBalancer, objs w KLoadBalancer !! lb_key_of r svc = Some lb → deletionTimestamp (lb_meta lb) = None).
Proof.
  destruct (objs w KLoadBalancer !! lb_key_of r svc) as [lb|]; [|by right].
  destruct (deletionTimestamp (lb_meta lb)) as [d|] eqn:Hd; [left; exists lb; by rewrite Hd|right; by intros x [= <-]].
Qed.

(** Every run, on a Service that is there. *)
Lemma reconciler_touches w req svc :
  orderly w → objs w KService !! req_key req = Some svc →
  let w' := exec (ReconcileService r req) w in
  touches req svc w w' ∧
  (∀ lb : LoadBalancer, deletionTimestamp (svc_meta svc) = None → shouldReconcileService r svc = true →
     objs w KLoadBalancer !! lb_key_of r svc = Some lb → deletionTimestamp (lb_meta lb) ≠ None →
     ∀ lb' : LoadBalancer, objs w' KLoadBalancer !! lb_key_of r svc = Some lb' → deletionTimestamp (lb_meta lb') ≠ None).
Proof.
  intros Hw Hs w'. unfold w', exec, ReconcileService. cbn [mbind prog_bind prog_bind_ perform run].
  rewrite (api_get (k:=KService) w _ _ svc Hs). set (l0 := [] ++ _). destruct (decide _) as [Hd|Hd%dec_stable].
  { split; [|by intros]. destruct (_ || _); [|by apply touches_same].
    destruct (cleanup_touches w req svc Hw Hs l0) as (w1 & l1 & o & -> & Ht). exact Ht. }
  destruct (shouldReconcileService r svc) eqn:Hsh; cbn [negb]; [|split; [by apply touches_same|by intros]].
  pose proof (managed_type r svc Hsh) as Ht.
  destruct (run_ensure_finalizer w l0 svc) as (w1 & l1 & svc1 & R1 & Hst & Hsrc & _ & _ & Hd1 & _); [by rewrite (service_key w req svc Hw Hs)|done|].
  rewrite (run_try _ _ _ _ _ _ _ _ R1). rewrite (service_key w req svc Hw Hs) in Hst.
  assert (deletionTimestamp (svc_meta svc1) = deletionTimestamp (svc_meta svc)) as Hdt by by rewrite Hd1.
  pose proof (stores_touches req svc svc1 w w1 Hw Hs Hst Hsrc Hdt) as Ht1.
  assert (filed w1) as Hf1 by (pose proof (run_filed (ensure_service_finalizer svc) w l0 (od_filed w Hw)) as F; by rewrite R1 in F).
  pose proof (touches_orderly w req svc Hw Hs w1 Hf1 Ht1) as Hw1. pose proof (stores_lookup KService _ _ _ _ Hst) as Hs1.
  assert (lb_key_of r svc1 = lb_key_of r svc) as Hlk by (unfold lb_key_of; by rewrite (same_uid _ _ Hsrc)).
  assert (objs w1 KLoadBalancer = objs w KLoadBalancer) as Elb by by apply (stores_other _ _ _ _ _ KLoadBalancer Hst).
  assert (ss_type (svc_spec svc1) = ServiceTypeLoadBalancer) as Ht' by by rewrite (same_spec _ _ Hsrc).
  destruct (lb_dying_or_not w svc) as [(lb & Hlb & Hdy)|Hlive].
  - destruct (sync_dying w1 req svc1 Hw1 Hs1 l1 lb) as (w2 & l2 & -> & Ht2 & Hdy2); [done|by rewrite Hlk, Elb|done|].
    split; [by eapply touches_trans|]. intros _ _ _ _ _. by rewrite <- Hlk.
  - destruct (sync_runs_to r Hcloud w1 l1 req svc1 Hf1) as (w2 & l2 & svc2 & lb2 & R2 & Hsync); [by rewrite (service_key w1 req svc1 Hw1 Hs1)|done|..].
    { rewrite Hlk, Elb. exact Hlive. }
    rewrite R2. split; [|by intros lb ? ? Hlb%Hlive].
    eapply touches_trans; [done|done|exact Ht1|]. apply (synced_touches w1 req svc1 Hw1 Hs1 w2 svc2 lb2); [done| |done].
    pose proof (run_filed (sync_load_balancer r req svc1) w1 l1 Hf1) as F. by rewrite R2 in F.
Qed.
End frame.

(** ** The invariant *)

Section invariant.
Context `{EventSourceLaws} `{Unicode} `{FinalizerLaws} `{SemanticMaps} (r : KubeLBServiceReconciler).
Context (Hcloud : sr_cloudController r = true).

(** A managed Service agrees with its LoadBalancer, or waits in the queue. *)
Definition agrees_or_waits (s : state) : Prop :=
  orderly r s.1 ∧ ∀ req svc, managed r s.1 req svc → in_sync r s.1 req svc ∨ req ∈ s.2.

Lemma service_event_queued w w' Q' (e : watch_event Service) req :
  delivered (setup_service r) w w' Q' → changed w w' (existT KService e) → request_of (svc_meta (subject e)) = req → req ∈ Q'.
Proof.
  intros Hdel Hc <-. apply (Hdel _ _ Hc). apply (enqueued_by _ _ (For KService []) e); [by left|]. by left.
Qed.

Lemma lb_event_queued w w' Q' (e : watch_event LoadBalancer) lb req :
  delivered (setup_service r) w w' Q' → changed w w' (existT KLoadBalancer e) → lb ∈ objects e → enqueueLoadBalancer r lb = [req] → req ∈ Q'.
Proof.
  intros Hdel Hc Hlb He. apply (Hdel _ _ Hc).
  apply (enqueued_by _ _ (Watches KLoadBalancer (λ lb, Ret (enqueueLoadBalancer r lb)) []) e); [right; by left|].
  apply list_elem_of_bind. exists lb. split; [|done]. unfold answer. cbn [run snd returned]. rewrite He. by left.
Qed.

(** What the claim says of a Service only depends on it and its LoadBalancer. *)
Lemma managed_frame w w' req svc :
  filed w → objs w' KService !! req_key req = objs w KService !! req_key req →
  objs w' KLoadBalancer !! lb_key_of r svc = objs w KLoadBalancer !! lb_key_of r svc →
  managed r w' req svc → managed r w req svc ∧ (in_sync r w req svc → in_sync r w' req svc).
Proof.
  intros Hf Es El [_ Hs Hl Hsh Hlb]. split.
  - split; [done|exact (eq_trans (eq_sym Es) Hs)|done|done|]. intros lb E. apply Hlb. exact (eq_trans El E).
  - intros [Hfin Hs' (lb & E & Hx)]. split; [done|done|]. exists lb. split; [exact (eq_trans El E)|exact Hx].
Qed.

Lemma keys_differ w req req' svc svc' :
  orderly r w → objs w KService !! req_key req = Some svc → objs w KService !! req_key req' = Some svc' → req ≠ req' →
  lb_key_of r svc ≠ lb_key_of r svc'.
Proof.
  intros Hw Hs Hs' Hne [= E]. apply Hne. pose proof (od_uids r w Hw _ _ _ _ Hs Hs' E) as Ek.
  destruct req, req'. unfold req_key in Ek. simpl in Ek. congruence.
Qed.

(** The Service that was run. *)
Lemma run_own w req svc svc' Q' :
  orderly r w → objs w KService !! req_key req = Some svc →
  let w' := exec (ReconcileService r req) w in
  delivered (setup_service r) w w' Q' → managed r w' req svc' → in_sync r w' req svc' ∨ req ∈ Q'.
Proof.
  intros Hw Hs w' Hdel Hm'. destruct (reconciler_touches r Hcloud w req svc Hw Hs) as [Ht Hdying]. fold w' in Ht, Hdying.
  pose proof (touches_orderly r w req svc Hw Hs w' (mg_filed _ _ _ _ Hm') Ht) as Hw'. destruct Ht as [(so & Eso & Hso) _].
  pose proof (mg_service _ _ _ _ Hm') as Hs'. fold (req_key req) in Hs'. rewrite Eso, lookup_partial_alter_eq in Hs'.
  destruct (Hso svc' Hs') as [Hsrc Hdt].
  assert (deletionTimestamp (svc_meta svc) = None) as Hlive by (rewrite <- Hdt; apply Hm').
  assert (shouldReconcileService r svc = true) as Hsh by (rewrite <- (should_source r svc svc' Hsrc); apply Hm').
  assert (lb_key_of r svc' = lb_key_of r svc) as Hlk by (unfold lb_key_of; by rewrite (same_uid _ _ Hsrc)).
  destruct (objs w KLoadBalancer !! lb_key_of r svc) as [lb|] eqn:Hlb.
  - destruct (decide (deletionTimestamp (lb_meta lb) = None)) as [Hl|Hl].
    + assert (managed r w req svc) as Hm.
      { split; [apply Hw|done|done|done|]. intros x E. by pose proof (eq_trans (eq_sym Hlb) E) as [= <-]. }
      destruct (run_in_sync r Hcloud w req svc lb Hm Hlb) as (svc2 & _ & _ & Hin). fold w' in Hin. left.
      by pose proof (eq_trans (eq_sym (is_service _ _ _ _ Hin)) (mg_service _ _ _ _ Hm')) as [= ->].
    + right. destruct (objs w' KLoadBalancer !! lb_key_of r svc) as [lb'|] eqn:Hlb'.
      * exfalso. apply (Hdying lb Hlive Hsh eq_refl Hl lb' eq_refl). apply (mg_lb _ _ _ _ Hm'). by rewrite Hlk.
      * apply (lb_event_queued w w' Q' (DeleteEvent lb) lb); [done|by eapply (changed_delete _ _ KLoadBalancer)|by left|].
        by apply (od_labels r w Hw req svc).
  - right. assert (managed r w req svc) as Hm.
    { split; [apply Hw|done|done|done|]. intros x E. by pose proof (eq_trans (eq_sym Hlb) E). }
    destruct (reconciler_runs r Hcloud w req svc Hm) as (_ & svc2 & lb2 & Hrun). fold w' in Hrun.
    destruct (one_run_lb r Hcloud _ _ _ _ _ _ Hrun) as (El & _ & _).
    assert (objs w' KLoadBalancer !! lb_key_of r svc = Some lb2) as Hlb2 by (rewrite El; apply lookup_insert_eq).
    apply (lb_event_queued w w' Q' (CreateEvent lb2) lb2); [done|by eapply (changed_create _ _ KLoadBalancer)|by left|].
    apply (od_labels r w' Hw' req svc'); [apply Hm'|by rewrite Hlk].
Qed.

Lemma run_keeps w Q req Q' :
  agrees_or_waits (w, Q) → (∀ q, q ∈ Q → q ≠ req → q ∈ Q') → delivered (setup_service r) w (exec (ReconcileService r req) w) Q' →
  agrees_or_waits (exec (ReconcileService r req) w, Q').
Proof.
  intros [Hw Hall] HQ Hdel. simpl in Hw, Hall. set (w' := exec _ w) in *.
  destruct (objs w KService !! req_key req) as [svc|] eqn:Hs.
  2: { assert (w' = w) as ->.
       { unfold w', exec, ReconcileService. cbn [mbind prog_bind prog_bind_ perform run]. by rewrite (api_get_none KService w _ _ Hs). }
       split; [done|]. intros q svc Hm. destruct (Hall q svc Hm) as [?|Hq]; [by left|right]. apply HQ; [done|]. intros ->.
       by pose proof (eq_trans (eq_sym Hs) (mg_service _ _ _ _ Hm)). }
  pose proof (proj1 (reconciler_touches r Hcloud w req svc Hw Hs)) as Ht. fold w' in Ht.
  pose proof (touches_orderly r w req svc Hw Hs w' (exec_filed _ _ (od_filed r w Hw)) Ht) as Hw'. split; [done|]. intros q svc' Hm'. simpl.
  destruct (decide (q = req)) as [->|Hne]; [by eapply run_own|]. destruct Ht as [(so & Eso & _) (lo & Elo & _)].
  assert (objs w' KService !! req_key q = objs w KService !! req_key q) as Es.
  { rewrite Eso, lookup_partial_alter_ne; [done|]. intros E. apply Hne. destruct q, req. unfold req_key in E. simpl in E. congruence. }
  assert (objs w KService !! req_key q = Some svc') as Hsq by exact (eq_trans (eq_sym Es) (mg_service _ _ _ _ Hm')).
  pose proof (keys_differ w q req svc' svc Hw Hsq Hs Hne) as Hk.
  destruct (managed_frame w w' q svc') as [Hm Hin]; [apply Hw|done|by rewrite Elo, lookup_partial_alter_ne|done|].
  destruct (Hall q svc' Hm) as [Hi|Hq]; [left; by apply Hin|right; by apply HQ].
Qed.

Lemma others_keep w Q w' Q' :
  agrees_or_waits (w, Q) → orderly r w' → (∀ q, q ∈ Q → q ∈ Q') → delivered (setup_service r) w w' Q' → agrees_or_waits (w', Q').
Proof.
  intros [Hw Hall] Hw' HQ Hdel. simpl in Hw, Hall. split; [done|]. intros req svc Hm. simpl.
  destruct (change_reported w w' KService (req_key req)) as [Es|[e He]].
  2: { right. apply (service_event_queued w w' Q' e); [done|apply He|]. pose proof (mg_service _ _ _ _ Hm) as Hs.
       transitivity (request_of (svc_meta svc)); [exact (f_equal (λ x : Service, request_of (svc_meta x)) (rep_new _ _ _ _ He svc Hs))|].
       pose proof (od_filed r w' Hw' KService _ _ Hs) as [= E1 E2]. simpl in *.
       destruct req. unfold request_of. by rewrite E1, E2. }
  destruct (change_reported w w' KLoadBalancer (lb_key_of r svc)) as [El|[e He]].
  - destruct (managed_frame w w' req svc) as [Hm0 Hin]; [apply Hw|done|done|done|].
    destruct (Hall req svc Hm0) as [Hi|Hq]; [left; by apply Hin|right; by apply HQ].
  - right. pose proof (subject_objects e) as Hsub. apply (lb_event_queued w w' Q' e (subject e)); [done|apply He|done|].
    destruct (rep_objects _ _ _ _ He _ Hsub) as [E|E]; [apply (od_labels r w Hw req svc); [|done]|apply (od_labels r w' Hw' req svc); [apply Hm|done]].
    exact (eq_trans Es (mg_service _ _ _ _ Hm)).
Qed.

Lemma start_agrees s : started (setup_service r) (orderly r) s → agrees_or_waits s.
Proof.
  intros [Hw Hs]. split; [done|]. intros req svc Hm. right. pose proof (mg_service _ _ _ _ Hm) as E.
  apply (Hs KService _ svc req E). apply (enqueued_by _ _ (For KService []) (CreateEvent svc)); [by left|].
  apply list_elem_of_singleton. pose proof (od_filed r s.1 Hw KService _ _ E) as [= E1 E2]. simpl in *.
  destruct req. unfold request_of. by rewrite E1, E2.
Qed.

(** A run queues no other request than its own. *)
Lemma run_queues_itself w req svc c q :
  orderly r w → objs w KService !! req_key req = Some svc → changed w (exec (ReconcileService r req) w) c →
  q ∈ enqueued (setup_service r) (exec (ReconcileService r req) w) c → q = req.
Proof.
  intros Hw Hs Hc Hq. pose proof (proj1 (reconciler_touches r Hcloud w req svc Hw Hs)) as Ht. set (w' := exec _ w) in *.
  pose proof (touches_orderly r w req svc Hw Hs w' (exec_filed _ _ (od_filed r w Hw)) Ht) as Hw'.
  destruct Ht as [(so & Eso & _) (lo & Elo & Hlo)].
  assert (∀ k key (e : watch_event (objT k)), c = existT k e → (∀ o, o ∈ objects e → objs w k !! key = Some o ∨ objs w' k !! key = Some o) →
    objs w k !! key ≠ objs w' k !! key → q = req) as Hgo.
  { intros k key e -> Ho Hne. apply enqueued_spec in Hq as (wt & e' & Hwt & He & Hq). unfold setup_service, managed_by in Hwt.
    cbn [bd_watches] in Hwt. rewrite !elem_of_cons, elem_of_nil in Hwt. destruct Hwt as [->|[->|[]]].
    - unfold for_watch in He. simpl in He. destruct (decide (k = KService)) as [->|]; [|done]. injection He as <-.
      apply list_elem_of_singleton in Hq as ->. assert (key = req_key req) as ->.
      { destruct (decide (key = req_key req)); [done|]. destruct Hne. by rewrite Eso, lookup_partial_alter_ne. }
      destruct (Ho _ (subject_objects e)) as [E|E]; [apply (od_filed r w Hw KService) in E|apply Hw' in E];
        injection E as E1 E2; destruct req; unfold request_of; simpl in *; by rewrite E1, E2.
    - unfold for_watch in He. simpl in He. destruct (decide (k = KLoadBalancer)) as [->|]; [|done]. injection He as <-.
      apply list_elem_of_bind in Hq as (lb & Hq & Hlb). assert (key = lb_key_of r svc) as ->.
      { destruct (decide (key = lb_key_of r svc)); [done|]. destruct Hne. by rewrite Elo, lookup_partial_alter_ne. }
      assert (enqueueLoadBalancer r lb = [req]) as Eq.
      { destruct (Ho lb Hlb) as [E|E]; [by apply (od_labels r w Hw req svc)|]. rewrite Elo, lookup_partial_alter_eq in E. by apply Hlo. }
      unfold answer in Hq. cbn [run snd returned] in Hq. rewrite Eq in Hq. by apply list_elem_of_singleton in Hq. }
  destruct Hc as [k key o H1' H2'|k key o o' H1' H2' Hne|k key o H1' H2'].
  - apply (Hgo k key _ eq_refl); [intros x ->%list_elem_of_singleton; by right|congruence].
  - apply (Hgo k key _ eq_refl); [intros x [->| ->%list_elem_of_singleton]%elem_of_cons; auto|congruence].
  - apply (Hgo k key _ eq_refl); [intros x ->%list_elem_of_singleton; by left|congruence].
Qed.

Lemma reachable_agrees s s' :
  started (setup_service r) (orderly r) s → rtc (loop_step (setup_service r) (ReconcileService r) (orderly r)) s s' → agrees_or_waits s'.
Proof.
  intros Hs%start_agrees Hstar. induction Hstar as [|s1 s2 s3 Hstep _ IH]; [done|]. apply IH.
  destruct Hstep as [w Q req Q' _ HQ _ Hdel|w Q w' Q' Ho HQ Hdel]; [by apply (run_keeps w Q)|by apply (others_keep w Q)].
Qed.
End invariant.


(** A new Service whose LoadBalancer already has addresses. *)
Definition waiting_lb : LoadBalancer :=
  let lb := (MapLoadBalancer (H := no_unicode) (sample_user_service sample_ports None) [] true "tenant-a").1 in
  with_lb_status {| lst_ingress := Some [{| ing_ip := "203.0.113.7"; ing_hostname := ""; ing_rest := "" |}];
                    lst_ports := None; lst_hostname := None |} lb.
Definition waiting_world : world :=
  set_objs KService {[ ("shop", "web") := sample_user_service sample_ports None ]}
    (set_objs KLoadBalancer {[ ("tenant-a", "6f3c-0001") := waiting_lb ]} empty_world).

Lemma waiting_services key (s : Service) :
  objs waiting_world KService !! key = Some s → key = ("shop", "web") ∧ s = sample_user_service sample_ports None.
Proof. unfold waiting_world. rewrite objs_set. by intros [<- <-]%lookup_singleton_Some. Qed.
Lemma waiting_lbs key (lb : LoadBalancer) :
  objs waiting_world KLoadBalancer !! key = Some lb → key = ("tenant-a", "6f3c-0001") ∧ lb = waiting_lb.
Proof. unfold waiting_world. rewrite objs_set_ne, objs_set by done. by intros [<- <-]%lookup_singleton_Some. Qed.

Lemma waiting_orderly : orderly cloud_reconciler waiting_world.
Proof.
  split.
  - do 2 (refine (filed_set _ _ _ _ _); [|by intros key o [<- <-]%lookup_singleton_Some]). apply empty_world_filed.
  - by intros key s [-> _]%waiting_services.
  - by intros key key' s s' [-> _]%waiting_services [-> _]%waiting_services.
  - intros [ns n] s lb [E ->]%waiting_services [_ ->]%waiting_lbs. injection E as -> ->. reflexivity.
Qed.

Lemma waiting_started : started (H := all_watches) (setup_service cloud_reconciler) (orderly cloud_reconciler) (waiting_world, [web_request]).
Proof.
  split; [exact waiting_orderly|]. intros k key o req E Hq. simpl in E |- *.
  apply (enqueued_spec (EventSourceLaws := all_watches_laws)) in Hq as (wt & e & Hwt & He & Hq). unfold setup_service, managed_by in Hwt.
  cbn [bd_watches] in Hwt. rewrite !elem_of_cons, elem_of_nil in Hwt. destruct Hwt as [->|[->|[]]].
  - unfold for_watch in He. simpl in He. destruct (decide (k = KService)) as [->|]; [|done]. injection He as <-.
    apply waiting_services in E as [_ ->]. exact Hq.
  - unfold for_watch in He. simpl in He. destruct (decide (k = KLoadBalancer)) as [->|]; [|done]. injection He as <-.
    apply waiting_lbs in E as [_ ->]. exact Hq.
Qed.

Lemma waiting_settles :
  let step := exec (ReconcileService (H := no_unicode) (H0 := list_finalizers) (H1 := semantic_by_contents) cloud_reconciler web_request) in
  step (step waiting_world) = step waiting_world ∧
  answer (ReconcileService (H := no_unicode) (H0 := list_finalizers) (H1 := semantic_by_contents) cloud_reconciler web_request)
    (step waiting_world) = Done (inr false) ∧
  ∃ svc, managed cloud_reconciler (step waiting_world) web_request svc.
Proof.
  intros step.
  assert (managed cloud_reconciler waiting_world web_request (sample_user_service sample_ports None)) as Hm.
  { split; [apply waiting_orderly|done|done|done|]. by intros lb [_ ->]%waiting_lbs. }
  destruct (run_in_sync (H := no_unicode) (H0 := list_finalizers) (H1 := list_finalizers_laws)
    (H2 := semantic_by_contents) (H3 := semantic_by_contents_maps) cloud_reconciler eq_refl _ _ _ waiting_lb Hm eq_refl) as (svc & _ & Hm1 & Hin).
  split; [exact (in_sync_stays (H := no_unicode) (H0 := list_finalizers) (H1 := list_finalizers_laws)
    (H2 := semantic_by_contents) (H3 := semantic_by_contents_maps) cloud_reconciler eq_refl _ _ _ 1 Hm1 Hin)|]. split; [|by exists svc].
  by apply (reconciler_runs (H := no_unicode) (H0 := list_finalizers) (H1 := list_finalizers_laws)
    (H2 := semantic_by_contents) (H3 := semantic_by_contents_maps) cloud_reconciler eq_refl _ _ svc).
Qed.

