(* ===== verification/RouteLifecycle.v ===== *)
(** * A Route and its source to the end

    The four route controllers of the CCM and the Route controller of the manager against
    the API servers of both clusters: an Ingress, Gateway, HTTPRoute or GRPCRoute that is
    deleted goes away together with the Services that were made for it and with its Route. *)
From stdpp Require Import base gmap list strings.
From S2P Require Import Prelude GoStrings Api Names PortAllocator Annotations LoadBalancers NetApi Effects Guards Objects ApiServer Services RouteResources LBController Routes RouteController CCMService CCMSources Lifecycle.
Import Core V1alpha1.

(** ** The four kinds as objects of the server *)

Class SourceObject (k : Effects.kind) `{RouteSource k} : Prop := {
  src_meta_of o : src_meta o = meta_of o;
  src_set_meta m o : src_with_meta m o = set_meta m o;
  src_not_service : k ≠ KService;
  src_not_route : k ≠ KRoute;
  src_references_once f o refs : src_references = Some f → f o = Done refs → base.NoDup refs
}.
#[export] Instance ingress_object : SourceObject KIngress.
Proof.
  split; try done. intros f o refs [= <-]. unfold GetServicesFromIngress.
  destruct (go_map _ _ _) as [l|]; [|done]. intros [= <-]. apply remove_duplicates_spec.
Qed.
#[export] Instance gateway_object : SourceObject KGateway.
Proof. by split. Qed.
#[export] Instance httproute_object : SourceObject KHTTPRoute.
Proof. split; try done. intros f o refs [= <-] [= <-]. apply remove_duplicates_spec. Qed.
#[export] Instance grpcroute_object : SourceObject KGRPCRoute.
Proof. split; try done. intros f o refs [= <-] [= <-]. apply remove_duplicates_spec. Qed.

(** ** The Services made for the source *)

Section services.
Context (refs : list NamespacedName) (Hrefs : base.NoDup refs).

(** A Service that was made for one of the references. *)
Definition made_for (s : Service) : bool := existsb (is_reference_to s) refs.

Lemma reference_unique s ref ref' : is_reference_to s ref = true → is_reference_to s ref' = true → ref = ref'.
Proof.
  unfold is_reference_to. rewrite !andb_true_iff, !bool_decide_eq_true. destruct ref, ref'. simpl. intros [-> ->] [-> ->]. done.
Qed.

Lemma run_no_reference l s w log :
  existsb (is_reference_to s) l = false → run api_server (delete_for_references l s) w log = (w, log, Done (inr ())).
Proof.
  induction l as [|ref l IH]; [done|]. simpl. intros [Hr Hl]%orb_false_iff. rewrite Hr. by apply IH.
Qed.

Lemma run_delete_for_references s w log :
  objs w KService !! obj_key (k:=KService) s = Some s →
  ∃ log', run api_server (delete_for_references refs s) w log =
    (if made_for s then (do_delete (k:=KService) w (namespace (svc_meta s)) (name (svc_meta s))).1 else w, log', Done (inr ())).
Proof.
  intros Hs. unfold made_for. revert Hrefs. induction refs as [|ref l IH]; intros Hnd; [by exists log|].
  apply NoDup_cons in Hnd as [Hin Hnd]. cbn [delete_for_references existsb]. destruct (is_reference_to s ref) eqn:Hr; [|by apply IH].
  assert (existsb (is_reference_to s) l = false) as Hl.
  { apply not_true_is_false. intros (ref' & Hl & Hr')%existsb_exists. apply Hin, list_elem_of_In. by rewrite (reference_unique s ref ref'). }
  cbn [orb mbind prog_bind prog_bind_ perform run].
  change (api_server w (Delete KService ?ns ?n)) with (do_delete (k:=KService) w ns n).
  unfold do_delete. change (namespace (svc_meta s), name (svc_meta s)) with (obj_key (k:=KService) s). rewrite Hs.
  cbn [fst]. rewrite run_no_reference by done. by eexists.
Qed.

(** The Services of the list that were made for a reference are deleted, no other is. *)
Record services_deleted (listed : list Service) (w w' : world) : Prop := {
  sd_others k : k ≠ KService → objs w' k = objs w k;
  sd_kept key : (∀ s, s ∈ listed → made_for s = true → obj_key (k:=KService) s ≠ key) → objs w' KService !! key = objs w KService !! key;
  sd_gone s : s ∈ listed → made_for s = true → finalizers (svc_meta s) = [] → objs w' KService !! obj_key (k:=KService) s = None
}.

Lemma run_delete_impacted listed w log :
  base.NoDup (obj_key (k:=KService) <$> listed) → (∀ s, s ∈ listed → objs w KService !! obj_key (k:=KService) s = Some s) →
  ∃ w' log', run api_server (delete_impacted refs listed) w log = (w', log', Done (inr ())) ∧ services_deleted listed w w'.
Proof.
  revert w log. induction listed as [|s listed IH]; intros w log Hnd Hin.
  { exists w, log. split; [done|]. split; [done|done|]. intros s Hs. by apply elem_of_nil in Hs. }
  apply NoDup_cons in Hnd as [Hs Hnd]. destruct (run_delete_for_references s w log) as [l1 R1]; [apply Hin; by left|].
  set (w1 := if made_for s then _ else w) in R1.
  assert (∀ key, objs w1 KService !! key = if decide (key = obj_key (k:=KService) s ∧ made_for s = true)
    then objs w KService !! key ≫= after_delete w else objs w KService !! key) as Hw1.
  { intros key. unfold w1. destruct (made_for s); [|by rewrite decide_False by naive_solver].
    rewrite do_delete_lookup. change (namespace (svc_meta s), name (svc_meta s)) with (obj_key (k:=KService) s).
    destruct (decide (key = obj_key (k:=KService) s)) as [->|Hne]; [by rewrite decide_True|by rewrite decide_False by naive_solver]. }
  assert (∀ s', s' ∈ listed → obj_key (k:=KService) s' ≠ obj_key (k:=KService) s) as Hne.
  { intros s' Hs' E. apply Hs. rewrite <- E. by apply list_elem_of_fmap_2. }
  destruct (IH w1 l1 Hnd) as (w2 & l2 & R2 & [Ho Hk Hg]).
  { intros s' Hs'. rewrite Hw1, decide_False by (intros [E _]; by apply (Hne s')). apply Hin. by right. }
  exists w2, l2. cbn [delete_impacted]. rewrite (run_try _ _ _ _ _ _ _ _ R1), R2. split; [done|]. split.
  - intros k Hk'. rewrite Ho by done. unfold w1. destruct (made_for s); [|done].
    exact (api_server_other w (Delete KService (namespace (svc_meta s)) (name (svc_meta s))) k (bool_decide_false _ (not_eq_sym Hk'))).
  - intros key Hkey. rewrite Hk, Hw1, decide_False; [done| |].
    + intros [-> Hm]. by apply (Hkey s); [left|..].
    + intros s' Hs'. apply Hkey. by right.
  - intros s' [->|Hs']%elem_of_cons Hm Hf; [|by apply Hg]. rewrite Hk, Hw1, decide_True by (try done; intros s' Hs' _; by apply Hne).
    rewrite Hin by (by left). by apply (after_delete_free w (k:=KService)).
Qed.
End services.

Lemma NoDup_fmap_filter {A B} (f : A → B) (P : A → Prop) `{∀ x, Decision (P x)} l : base.NoDup (f <$> l) → base.NoDup (f <$> filter P l).
Proof.
  induction l as [|x l IH]; [done|]. rewrite fmap_cons, NoDup_cons. intros [Hx Hl]. rewrite filter_cons. case_decide; [|by apply IH].
  rewrite fmap_cons, NoDup_cons. split; [|by apply IH]. intros (y & E & [_ Hy]%list_elem_of_filter)%list_elem_of_fmap.
  apply Hx. rewrite E. by apply list_elem_of_fmap_2.
Qed.

(** What the server lists is there, each object once. *)
Lemma do_list_filed w {k : Effects.kind} ns selector :
  filed w → base.NoDup (obj_key (k:=k) <$> do_list w ns selector) ∧
    ∀ o : objT k, o ∈ do_list w ns selector ↔ objs w k !! obj_key o = Some o ∧ selected ns selector o = true.
Proof.
  intros Hw. unfold do_list.
  assert (obj_key <$> (map_to_list (objs w k)).*2 = (map_to_list (objs w k)).*1) as E.
  { rewrite <- list_fmap_compose. apply list_fmap_ext. intros i [key o] Hi. apply (Hw k).
    apply elem_of_map_to_list. by eapply list_elem_of_lookup_2. }
  split.
  - apply NoDup_fmap_filter. rewrite E. apply NoDup_fst_map_to_list.
  - intros o. rewrite list_elem_of_filter, list_elem_of_fmap. rewrite Is_true_true. split.
    + intros [Hs ([key o'] & -> & Hin%elem_of_map_to_list)]. simpl in *. by rewrite (Hw k key o' Hin).
    + intros [Hin Hs]. split; [done|]. exists (obj_key o, o). split; [done|]. by apply elem_of_map_to_list.
Qed.

(** ** The run of the CCM *)

Lemma run_cleanupSourceRoute u ns w log :
  filed w → ∃ log', run api_server (cleanupSourceRoute u ns) w log = ((do_delete (k:=KRoute) w ns u).1, log', Done (inr ())).
Proof.
  intros Hw. unfold cleanupSourceRoute. cbn [mbind prog_bind prog_bind_ perform run].
  destruct (objs w KRoute !! (ns, u)) as [route|] eqn:Hr.
  - rewrite (api_get (k:=KRoute) w ns u route Hr). cbn [mbind prog_bind prog_bind_ perform run].
    change (api_server w (Delete KRoute ?a ?b)) with (do_delete (k:=KRoute) w a b).
    pose proof (Hw KRoute _ _ Hr) as [= -> ->]. unfold do_delete. rewrite Hr. by eexists.
  - rewrite (api_get_none KRoute w ns u Hr). unfold do_delete. rewrite Hr. by eexists.
Qed.

Section release.
Context {k : Effects.kind} `{SourceObject k} `{SourceCodec k} `{Scheme} `{FinalizerLaws}
  `{SemanticDeepEqual ServiceSpec} `{SemanticDeepEqual (gomap string)} (cluster : string) (should : objT k → bool).

(** The references of an object, where the code finds them. *)
Definition refers (resource : objT k) (refs : list NamespacedName) : Prop :=
  match src_references with Some f => f resource = Done refs | None => refs = [] end.
(** The Services of its namespace that the CCM made. *)
Definition made_services (w : world) (ns : string) : list Service :=
  do_list (k:=KService) w (Some ns) {[ LabelManagedBy := LabelControllerName ]}.

Lemma run_cleanup_services w log (resource : objT k) refs :
  filed w → refers resource refs →
  ∃ w' log', run api_server
      match src_references with
      | None => ok ()
      | Some f =>
          impactedServices ← lift (f resource);
          services <-["failed to list services"]
            perform (ListIn KService (Some (namespace (src_meta resource))) {[ LabelManagedBy := LabelControllerName ]}) ;;
          delete_impacted impactedServices services
      end w log = (w', log', Done (inr ())) ∧
    services_deleted refs (made_services w (namespace (src_meta resource))) w w'.
Proof.
  intros Hw. unfold refers. destruct src_references as [f|] eqn:Hf.
  - intros Hrefs. pose proof (src_references_once f resource refs Hf Hrefs) as Hnd. rewrite Hrefs.
    unfold lift, try_wrap. cbn [mbind prog_bind prog_bind_ perform run].
    change (api_server w (ListIn KService ?a ?b)) with (w, inr (do_list (k:=KService) w a b) : error + list Service).
    destruct (do_list_filed w (k:=KService) (Some (namespace (src_meta resource))) {[ LabelManagedBy := LabelControllerName ]} Hw) as [Hk Hin].
    apply run_delete_impacted; [done|done|]. intros s Hs. by apply Hin.
  - intros ->. exists w, log. split; [done|]. split; [done|done|]. intros s _ [=].
Qed.

(** The run removes the object, the Services made for it, and deletes its Route. *)
Lemma source_released w ns n (resource : objT k) refs :
  filed w → objs w k !! (ns, n) = Some resource → dying [ccmCleanupFinalizer] resource → refers resource refs →
  let w' := exec (ReconcileSource cluster should {| nn_namespace := ns; nn_name := n |}) w in
  ∃ w1, services_deleted refs (made_services w ns) w w1 ∧
    objs w' k = delete (ns, n) (objs w k) ∧
    objs w' KRoute = objs (do_delete (k:=KRoute) w1 cluster (uid (meta_of resource))).1 KRoute ∧
    objs w' KService = objs w1 KService ∧
    (∀ k', k' ≠ k → k' ≠ KRoute → k' ≠ KService → objs w' k' = objs w k').
Proof.
  intros Hw Hr Hdy Hrefs. pose proof (Hw k _ _ Hr) as Hkey. unfold exec, ReconcileSource.
  cbn [mbind prog_bind prog_bind_ perform run nn_namespace nn_name]. rewrite (api_get (k:=k) w _ _ resource Hr), src_meta_of.
  rewrite decide_True by apply Hdy. rewrite dying_contains by done. set (l := [] ++ _). unfold cleanup_source.
  destruct (run_cleanup_services w l resource refs Hw Hrefs) as (w1 & l1 & R1 & Hsd). rewrite (run_try _ _ _ _ _ _ _ _ R1).
  assert (namespace (src_meta resource) = ns) as Hns by (rewrite src_meta_of; by injection Hkey). rewrite Hns in Hsd.
  assert (filed w1) as Hw1 by (pose proof (f_equal (λ x, x.1.1) R1) as E1; cbn [fst] in E1; rewrite <- E1; by apply run_filed).
  destruct (run_cleanupSourceRoute (uid (src_meta resource)) cluster w1 l1 Hw1) as [l2 R2].
  rewrite (run_try_wrap _ _ _ _ _ _ _ _ _ R2), src_meta_of. set (w2 := (do_delete _ _ _).1).
  pose proof src_not_service as Hns1. pose proof src_not_route as Hns2.
  assert (∀ k', k' ≠ KRoute → objs w2 k' = objs w1 k') as E2.
  { intros k' Hk'. exact (api_server_other w1 (Delete KRoute cluster (uid (meta_of resource))) k' (bool_decide_false _ (not_eq_sym Hk'))). }
  assert (objs w2 k = objs w k) as Ek by (rewrite E2 by done; by apply Hsd).
  edestruct (run_removal (k:=k) w2 l2 (ns, n) resource (without_source_finalizer resource)) as (w3 & l3 & R3 & Hk3 & Ho3).
  { by rewrite Ek. }
  { done. }
  { apply Hdy. }
  { unfold without_source_finalizer. rewrite src_set_meta, src_meta_of.
    change (RemoveFinalizer (meta_of resource) ccmCleanupFinalizer) with (foldl RemoveFinalizer (meta_of resource) [ccmCleanupFinalizer]).
    rewrite remove_all_finalizers; [done|apply Hdy]. }
  rewrite R3. cbn [fst]. exists w1. split; [done|]. rewrite Hk3, Ek, (Ho3 KRoute), (Ho3 KService) by done.
  split; [done|]. split; [done|]. split; [by apply E2|]. intros k' ???. rewrite Ho3 by done. rewrite E2 by done. by apply Hsd.
Qed.
End release.


(** ** What stays behind *)

(** Services of another namespace than the object's are not looked at: the copy the CCM
    made for a reference of an HTTPRoute or GRPCRoute to another namespace stays. *)
Theorem foreign_service_stays {k} `{SourceObject k} `{SourceCodec k} `{Scheme} `{FinalizerLaws}
    `{SemanticDeepEqual ServiceSpec} `{SemanticDeepEqual (gomap string)} cluster (should : objT k → bool) w ns n resource refs (s : Service) :
  filed w → objs w k !! (ns, n) = Some resource → dying [ccmCleanupFinalizer] resource → refers resource refs →
  objs w KService !! obj_key (k:=KService) s = Some s → namespace (svc_meta s) ≠ ns → made_for refs s = true →
  objs (exec (ReconcileSource cluster should {| nn_namespace := ns; nn_name := n |}) w) KService !! obj_key (k:=KService) s = Some s.
Proof.
  intros Hw Hr Hdy Hrefs Hs Hns _. destruct (source_released cluster should w ns n resource refs Hw Hr Hdy Hrefs) as (w1 & Hsd & _ & _ & -> & _).
  rewrite (sd_kept _ _ _ _ Hsd); [done|]. intros s' Hs' _ [= E _]. apply Hns. rewrite <- E.
  apply (do_list_filed w (k:=KService) _ _ Hw) in Hs' as [_ Hsel]. unfold selected in Hsel. apply andb_true_iff in Hsel as [Hn _].
  by apply bool_decide_eq_true in Hn.
Qed.

(** ** An instance *)

(** An Ingress with a default backend, the NodePort copy of its Service and its Route,
    after the user deleted it. *)
Definition doomed_ingress : Ingress :=
  {| in_type := {| apiVersion := "networking.k8s.io/v1"; Core.kind := "Ingress" |};
     in_meta := server_meta "uid-1" "9" (Some "now") (with_finalizers [ccmCleanupFinalizer] (with_identity "web" "shop" "uid-1" zero_meta));
     in_spec := {| isp_className := None;
                   isp_defaultBackend := Some {| ib_service := Some {| isb_name := "api"; isb_port := 80; isb_portName := "" |}; ib_resource := None |};
                   isp_tls := []; isp_rules := [] |};
     in_status := "" |}.
Definition doomed_copy : Service := nodeport_service (with_svc_meta (with_identity "api" "shop" "uid-2" zero_meta) zero_service).
Definition doomed_route : Route := with_rt_meta (with_finalizers [CleanupFinalizer] (with_identity "uid-1" "tenant-a" "uid-3" zero_meta)) ApiServer.zero_route.
Definition doomed_ingress_world : world :=
  set_objs KIngress {[ ("shop", "web") := doomed_ingress ]}
    (set_objs KService {[ ("shop", "api-nodeport") := doomed_copy ]}
    (set_objs KRoute {[ ("tenant-a", "uid-1") := doomed_route ]}
    (set_objs KTenant {[ ("", "a") := with_tn_meta (with_identity "a" "" "" zero_meta) zero_tenant ]}
    (set_objs KConfig {[ ("kubelb", DefaultConfigResourceName) :=
                           {| cf_meta := with_identity DefaultConfigResourceName "kubelb" "" zero_meta; cf_spec := cf_spec zero_config |} ]}
    empty_world)))).
Lemma doomed_ingress_world_filed : filed doomed_ingress_world.
Proof.
  do 5 (refine (filed_set _ _ _ _ _); [|by intros key o [<- <-]%lookup_singleton_Some]). apply empty_world_filed.
Qed.

