(* ===== verification/EndToEnd.v ===== *)
(** * From the Services and nodes of a tenant to the listeners of Envoy

    The CCM and the manager put together: the node controller publishes the addresses
    of the ready nodes, the Service controller maps a Service to a LoadBalancer, and
    the manager allocates ports, creates its Service and builds the Envoy snapshot. *)
From stdpp Require Import base gmap sets list strings pretty sorting.
From S2P Require Import Prelude GoStrings Api Names PortAllocator PortAllocatorSpec Annotations GoSort LoadBalancers EnvoySnapshot DataPath NetApi Effects CCMNode CCMService.
Import Core V1alpha1.

(** C1: the data path.  A tenant's CCM with the cloud controller maps a Service with
    distinct port names to a LoadBalancer and publishes the addresses of the nodes; the
    manager allocates the ports of any set of load balancers with the stored object of
    that one, creates its Service and builds the Envoy snapshot.  Then every TCP or UDP
    port of the tenant's Service is a port of the created Service whose target is the
    port of a listener of the snapshot, and that listener forwards to a cluster whose
    hosts are exactly the ready nodes of the tenant, each at the node port of the
    original port. *)
Theorem end_to_end `{Unicode} get marshal hash src fuel lbs routes pa pos pa' pos' s
    (r : KubeLBServiceReconciler) (nr : KubeLBNodeReconciler) svc nodes published ad lb existing p :
  sr_cloudController r = true →
  GenerateAddresses nr nodes = inr published →
  get (sr_clusterName r) DefaultAddressName = inr ad → ad_addresses ad = ad_addresses published →
  stored_as lb (mapped r svc) →
  wf pa → identified lbs → lb ∈ lbs →
  (∀ lb, lb ∈ lbs → default_refs (ls_endpoints (lb_spec lb))) →
  base.NoDup (port_name <$> ss_ports (svc_spec svc)) →
  AllocatePortsForLoadBalancers src fuel pa pos lbs = Some (pa', pos') →
  MapSnapshot get marshal hash lbs routes (Some pa') = Done (inr s) →
  p ∈ ss_ports (svc_spec svc) → sp_protocol p = ProtocolTCP ∨ sp_protocol p = ProtocolUDP →
  ∃ ports q l c,
    CreateServicePorts (H := allocator_lookup pa') lb existing = Done ports ∧
    q ∈ ports ∧ sp_port q = sp_port p ∧ sp_protocol q = sp_protocol p ∧
    l ∈ sn_listeners s ∧ sp_targetPort q = FromInt (li_port l) ∧
    c ∈ sn_clusters s ∧ forwards_to (li_filter l) = cl_name c ∧
    cl_endpoints c ≡ₚ (λ ip, makeEndpoint ip (uint32 (sp_nodePort p))) <$> ready_addresses nr nodes.
Proof.
  intros Hcc Hgen Hget Had Hst Hwf Hid Hin Hdef Hnd Halloc Hsnap Hp Hproto.
  apply GenerateAddresses_published in Hgen as [_ Hperm _].
  assert (mapped r svc = (MapLoadBalancer svc [] true (sr_clusterName r)).1) as Hm.
  { unfold mapped, getServiceEndpoints. by rewrite Hcc, andb_false_r. }
  rewrite Hm in Hst.
  destruct (data_path get marshal hash src fuel lbs routes pa pos pa' pos' s lb svc [] true (sr_clusterName r)
    existing p Hst Hwf Hid Hin Hdef Hnd Halloc Hsnap Hp Hproto)
    as (ports & q & l & c & H1 & H2 & H3 & H4 & H5 & H6 & H7 & H8 & H9).
  exists ports, q, l, c. repeat (split; [done|]).
  rewrite H9, Hget, Had, Hperm, <- list_fmap_compose. done.
Qed.

Definition sample_cloud_reconciler : KubeLBServiceReconciler :=
  {| sr_clusterName := "tenant-a"; sr_cloudController := true; sr_useLoadbalancerClass := false |}.

(** Two ready nodes and one that is not. *)
Definition sample_nodes : list Node :=
  [sample_node "10.1.0.2" "True"; sample_node "10.1.0.3" "False"; sample_node "10.1.0.1" "True"].

Lemma end_to_end_witness :
  let svc := sample_user_service sample_ports None in
  let lb := mapped (H := no_unicode) sample_cloud_reconciler svc in
  let lbs := sample_lb "tenant-b" "uid-2 xxx" [sample_endpoint [http_port]] [] :: [lb] in
  ∃ pa' s ports q l c,
    CreateServicePorts (H := allocator_lookup pa') lb zero_service = Done ports ∧ q ∈ ports ∧
    l ∈ sn_listeners s ∧ c ∈ sn_clusters s ∧
    sp_targetPort q = FromInt (li_port l) ∧ forwards_to (li_filter l) = cl_name c ∧
    cl_endpoints c ≡ₚ [makeEndpoint "10.1.0.2" 30080; makeEndpoint "10.1.0.1" 30080].
Proof.
  intros svc lb lbs.
  assert (match AllocatePortsForLoadBalancers Z.of_nat 9 NewPortAllocator 0 lbs with
    | Some (pa', _) => match MapSnapshot sample_addresses sample_marshal id lbs [] (Some pa') with
                       | Done (inr _) => True | _ => False end
    | None => False end) as Hok by (vm_compute; exact I).
  destruct (AllocatePortsForLoadBalancers Z.of_nat 9 NewPortAllocator 0 lbs) as [[pa' pos']|] eqn:Ea;
    [|destruct Hok].
  destruct (MapSnapshot sample_addresses sample_marshal id lbs [] (Some pa')) as [[|s]|] eqn:Es;
    [destruct Hok| |destruct Hok].
  destruct (sample_addresses "tenant-a" DefaultAddressName) as [|ad] eqn:Ead; [discriminate|].
  destruct (GenerateAddresses sample_node_reconciler sample_nodes) as [|gen] eqn:Egen; [discriminate|].
  destruct (end_to_end (H := no_unicode) sample_addresses sample_marshal id Z.of_nat 9 lbs []
    NewPortAllocator 0 pa' pos' s sample_cloud_reconciler sample_node_reconciler svc sample_nodes gen ad lb
    zero_service (sample_port "Web" 80 30080))
    as (ports & q & l & c & H1 & H2 & _ & _ & H3 & H4 & H5 & H6 & H7).
  - reflexivity.
  - exact Egen.
  - exact Ead.
  - injection Ead as <-. injection Egen as <-. vm_compute. reflexivity.
  - apply stored_as_refl.
  - apply New_wf.
  - split; [computed|]. exists 9. by repeat constructor.
  - apply elem_of_cons. right. apply list_elem_of_singleton. reflexivity.
  - intros x [->| ->%list_elem_of_singleton]%elem_of_cons e ref ->%list_elem_of_singleton; [done|].
    intros [= <-]. reflexivity.
  - computed.
  - exact Ea.
  - exact Es.
  - apply elem_of_cons. left. reflexivity.
  - left. reflexivity.
  - exists pa', s, ports, q, l, c. repeat (split; [assumption|]). exact H7.
Defined.
