(* ===== verification/DeepCopy.v ===== *)
(** * Deep copies (zz_generated.deepcopy.go of both editions of the API)

    Controllers read objects from a cache that all of them share and change copies of
    them.  This file models the memory a copy is about: Go types, values with pointers,
    slices and maps into a heap, the statements the generated copy functions are made of,
    and what makes a copy deep: it looks like the original and shares no memory with it.
    The files ApiTypesCE and ApiTypesEE hold the types and the functions. *)
From stdpp Require Import base gmap sets list strings.
From S2P Require Import Prelude.

(** ** Types, values and memory *)

(** A field has a name, the tag of its JSON name, and a type; strings, numbers and
    Booleans are [Basic], and [Interface] is an interface of any methods. *)
Inductive gotype :=
  | Basic
  | Pointer (t : gotype)
  | Slice (t : gotype)
  | Map (t : gotype)
  | Interface
  | Struct (fields : list (string * string * gotype)).

Abbreviation loc := positive (only parsing).

(** A slice is a window of an array; a value in an interface has its type with it. *)
Inductive value :=
  | VBasic (s : string)
  | VNil
  | VPtr (l : loc)
  | VSlice (l : loc) (offset len : nat)
  | VMap (l : loc)
  | VDyn (t : gotype) (v : value)
  | VStruct (fields : gmap string value).

Inductive cell :=
  | Single (v : value)
  | Array (vs : list value)
  | Dict (m : gmap string value).

Abbreviation heap := (gmap loc cell).

Definition field_name (f : string * string * gotype) : string := f.1.1.
Definition window (offset len : nat) (vs : list value) : list value := take len (drop offset vs).

(** A value of a type, with all it refers to in the heap. *)
Inductive typed (h : heap) : gotype → value → Prop :=
  | typed_basic s : typed h Basic (VBasic s)
  | typed_nil_pointer t : typed h (Pointer t) VNil
  | typed_nil_slice t : typed h (Slice t) VNil
  | typed_nil_map t : typed h (Map t) VNil
  | typed_nil_interface : typed h Interface VNil
  | typed_pointer t l v : h !! l = Some (Single v) → typed h t v → typed h (Pointer t) (VPtr l)
  | typed_slice t l o n vs :
      h !! l = Some (Array vs) → o + n ≤ length vs → (∀ i v, window o n vs !! i = Some v → typed h t v) →
      typed h (Slice t) (VSlice l o n)
  | typed_map t l m : h !! l = Some (Dict m) → (∀ k v, m !! k = Some v → typed h t v) → typed h (Map t) (VMap l)
  | typed_interface t v : typed h t v → typed h Interface (VDyn t v)
  | typed_struct fs m :
      (∀ x, is_Some (m !! x) ↔ x ∈ field_name <$> fs) →
      (∀ f v, f ∈ fs → m !! field_name f = Some v → typed h f.2 v) → typed h (Struct fs) (VStruct m).

(** The locations a value leads to. *)
Inductive reach (h : heap) : value → loc → Prop :=
  | reach_pointer l : reach h (VPtr l) l
  | reach_slice l o n : reach h (VSlice l o n) l
  | reach_map l : reach h (VMap l) l
  | reach_target l v l' : h !! l = Some (Single v) → reach h v l' → reach h (VPtr l) l'
  | reach_element l o n vs i v l' : h !! l = Some (Array vs) → window o n vs !! i = Some v → reach h v l' → reach h (VSlice l o n) l'
  | reach_entry l m k v l' : h !! l = Some (Dict m) → m !! k = Some v → reach h v l' → reach h (VMap l) l'
  | reach_dynamic t v l : reach h v l → reach h (VDyn t v) l
  | reach_field m x v l' : m !! x = Some v → reach h v l' → reach h (VStruct m) l'.

(** Two values look the same: equal up to the locations. *)
Inductive same (h : heap) : value → value → Prop :=
  | same_basic s : same h (VBasic s) (VBasic s)
  | same_nil : same h VNil VNil
  | same_pointer l v l' v' : h !! l = Some (Single v) → h !! l' = Some (Single v') → same h v v' → same h (VPtr l) (VPtr l')
  | same_slice l o n vs l' o' vs' :
      h !! l = Some (Array vs) → h !! l' = Some (Array vs') → length (window o n vs) = length (window o' n vs') →
      (∀ i v v', window o n vs !! i = Some v → window o' n vs' !! i = Some v' → same h v v') →
      same h (VSlice l o n) (VSlice l' o' n)
  | same_map l m l' m' :
      h !! l = Some (Dict m) → h !! l' = Some (Dict m') → dom m = dom m' →
      (∀ k v v', m !! k = Some v → m' !! k = Some v' → same h v v') → same h (VMap l) (VMap l')
  | same_dynamic t v v' : same h v v' → same h (VDyn t v) (VDyn t v')
  | same_struct m m' :
      dom m = dom m' → (∀ x v v', m !! x = Some v → m' !! x = Some v' → same h v v') → same h (VStruct m) (VStruct m').

(** ** The statements of the copy functions *)

(** What copies a value: it may take memory. *)
Definition copier : Type := heap → value → go (heap * value).

(** A map is visited in some order. *)
Class MapRange := {
  range : gmap string value → list (string * value);
  range_perm m : range m ≡ₚ map_to_list m
}.

Definition alloc (c : cell) (h : heap) : heap * loc := let l := fresh (dom h) in (<[l := c]> h, l).

(** [out.X = in.X], or the value that [*out = *in] has put there. *)
Definition assign : copier := λ h v, Done (h, v).

(** [if in.X != nil { … }] *)
Definition if_set (c : copier) : copier := λ h v, match v with VNil => Done (h, v) | _ => c h v end.

(** [new(T)] for the pointer, filled by [DeepCopyInto] or [**out = **in]. *)
Definition new_copy (c : copier) : copier := λ h v,
  match v with
  | VPtr l =>
      match h !! l with
      | Some (Single x) => '(h, x) ← c h x; let '(h, l) := alloc (Single x) h in Done (h, VPtr l)
      | _ => Panics
      end
  | _ => Panics
  end.

(** The loop over the indices. *)
Fixpoint copy_elements (c : copier) (h : heap) (vs : list value) : go (heap * list value) :=
  match vs with
  | [] => Done (h, [])
  | v :: vs => '(h, v) ← c h v; '(h, vs) ← copy_elements c h vs; Done (h, v :: vs)
  end.
(** [make] of a slice of the same length with a loop over the indices; [copy] is the loop with an
    assignment. *)
Definition make_slice (c : copier) : copier := λ h v,
  match v with
  | VNil => let '(h, l) := alloc (Array []) h in Done (h, VSlice l 0 0)
  | VSlice l o n =>
      match h !! l with
      | Some (Array vs) =>
          '(h, vs) ← copy_elements c h (window o n vs);
          let '(h, l) := alloc (Array vs) h in Done (h, VSlice l 0 (length vs))
      | _ => Panics
      end
  | _ => Panics
  end.

(** The loop over the entries. *)
Fixpoint copy_entries (c : copier) (h : heap) (es : list (string * value)) (out : gmap string value) : go (heap * gmap string value) :=
  match es with
  | [] => Done (h, out)
  | (k, v) :: es => '(h, v) ← c h v; copy_entries c h es (<[k := v]> out)
  end.
(** [make] of a map with a loop over the entries. *)
Definition make_map `{MapRange} (c : copier) : copier := λ h v,
  match v with
  | VNil => let '(h, l) := alloc (Dict ∅) h in Done (h, VMap l)
  | VMap l =>
      match h !! l with
      | Some (Dict m) => '(h, m) ← copy_entries c h (range m) ∅; let '(h, l) := alloc (Dict m) h in Done (h, VMap l)
      | _ => Panics
      end
  | _ => Panics
  end.

(** The statements for the fields, which replace what [*out = *in] has put there. *)
Fixpoint copy_fields (statements : list (string * copier)) (h : heap) (m out : gmap string value) : go (heap * gmap string value) :=
  match statements with
  | [] => Done (h, out)
  | (x, c) :: statements =>
      match m !! x with
      | Some v => '(h, v) ← c h v; copy_fields statements h m (<[x := v]> out)
      | None => Panics
      end
  end.
(** [*out = *in] and the statements. *)
Definition copy_struct (statements : list (string * copier)) : copier := λ h v,
  match v with
  | VStruct m => '(h, out) ← copy_fields statements h m m; Done (h, VStruct out)
  | _ => Panics
  end.

(** [DeepCopy] of a pointer receiver, [DeepCopyObject], which returns an interface that
    is nil when there is nothing to copy, and [*val.DeepCopy()] of a value. *)
Definition DeepCopy_of (into : copier) : copier := if_set (new_copy into).
Definition DeepCopyObject_of (into : copier) : heap → value → go (heap * option value) := λ h v,
  '(h, c) ← DeepCopy_of into h v; Done (h, match c with VNil => None | _ => Some c end).
Definition copied_value (into : copier) : copier := λ h v,
  '(h, v) ← into h v; let '(h, _) := alloc (Single v) h in Done (h, v).

(** The functions of a type; only the root types are objects. *)
Record Copies := { DeepCopyInto : copier; DeepCopy : copier; DeepCopyObject : option (heap → value → go (heap * option value)) }.
Definition copies (into : copier) : Copies := {| DeepCopyInto := into; DeepCopy := DeepCopy_of into; DeepCopyObject := None |}.
Definition object_copies (into : copier) : Copies :=
  {| DeepCopyInto := into; DeepCopy := DeepCopy_of into; DeepCopyObject := Some (DeepCopyObject_of into) |}.

(** ** Deep copies *)

Create HintDb deepcopy.
#[export] Hint Constructors typed reach same : deepcopy.

(** No references in values of the type. *)
Fixpoint plain (t : gotype) : bool :=
  match t with
  | Basic => true
  | Struct fs => forallb (λ '(_, t), plain t) fs
  | _ => false
  end.

(** [v'], made when the memory was [h], is a deep copy of [v] in [h']: a value of the type
    that looks like the original and leads to new memory only. *)
Record deep_copy (h h' : heap) (t : gotype) (v v' : value) : Prop := {
  dc_typed : typed h' t v';
  dc_same : same h' v v';
  dc_fresh l : reach h' v' l → h !! l = None
}.

(** What a copier of a type is to do with a value: it succeeds, leaves the memory there
    was alone, and returns a deep copy. *)
Definition copied (h : heap) (t : gotype) (v : value) (r : go (heap * value)) : Prop :=
  ∃ h' v', r = Done (h', v') ∧ h ⊆ h' ∧ deep_copy h h' t v v'.
Definition deep (t : gotype) (c : copier) : Prop := ∀ h v, typed h t v → copied h t v (c h v).

Section memory.
Implicit Types (h : heap) (t : gotype) (fs : list (string * string * gotype)) (ss : list (string * copier)).

Lemma typed_mono h h' t v : typed h t v → h ⊆ h' → typed h' t v.
Proof. intros Ht Hsub. induction Ht; eauto using lookup_weaken with deepcopy. Qed.
Lemma same_mono h h' v v' : same h v v' → h ⊆ h' → same h' v v'.
Proof. intros Hs Hsub. induction Hs; eauto using lookup_weaken with deepcopy. Qed.
Lemma reach_mono h h' v l : reach h v l → h ⊆ h' → reach h' v l.
Proof. intros Hr Hsub. induction Hr; eauto using lookup_weaken with deepcopy. Qed.

Lemma struct_field (fs : list (string * string * gotype)) (m : gmap string value) x v :
  (∀ x, is_Some (m !! x) ↔ x ∈ field_name <$> fs) → m !! x = Some v → ∃ f, f ∈ fs ∧ field_name f = x.
Proof. intros Hdom Hx. destruct (proj1 (list_elem_of_fmap _ _ _) (proj1 (Hdom x) (ex_intro _ v Hx))) as (f & -> & Hf). by exists f. Qed.

Lemma same_refl h t v : typed h t v → same h v v.
Proof.
  intros Ht. induction Ht as [| | | | | | | | |fs m Hdom Hfs IH]; eauto with deepcopy.
  - eapply same_slice; eauto. intros i v v' Hv Hv'. simplify_eq. eauto.
  - eapply same_map; eauto. intros k v v' Hv Hv'. simplify_eq. eauto.
  - eapply same_struct; eauto. intros x v v' Hv Hv'. simplify_eq. destruct (struct_field _ _ _ _ Hdom Hv) as (f & Hf & <-). eauto.
Qed.

(** What a value of a type leads to is there, also when memory is added. *)
Lemma reach_back h h' t v l : typed h t v → h ⊆ h' → reach h' v l → reach h v l ∧ is_Some (h !! l).
Proof.
  intros Ht Hsub. revert l. induction Ht as [| | | | |t l0 v Hl Ht IH|t l0 o n vs Hl Hlen Ht IH|t l0 m Hl Ht IH|t v Ht IH|fs m Hdom Hfs IH]; intros l Hr;
    inversion Hr; subst; try (split; [by constructor|by eexists]).
  - assert (v0 = v) as -> by (pose proof (lookup_weaken _ _ _ _ Hl Hsub); congruence). edestruct IH; eauto with deepcopy.
  - assert (vs0 = vs) as -> by (pose proof (lookup_weaken _ _ _ _ Hl Hsub); congruence). edestruct IH; eauto with deepcopy.
  - assert (m0 = m) as -> by (pose proof (lookup_weaken _ _ _ _ Hl Hsub); congruence). edestruct IH; eauto with deepcopy.
  - edestruct IH; eauto with deepcopy.
  - edestruct (struct_field fs m x v) as (f & Hf & <-); [done..|]. edestruct IH; eauto with deepcopy.
Qed.

Lemma plain_reach h t v l : typed h t v → plain t = true → reach h v l → False.
Proof.
  intros Ht. revert l. induction Ht as [| | | | | | | | |fs m Hdom Hfs IH]; intros l' Hp Hr; simpl in Hp; try done; inversion Hr; subst.
  edestruct (struct_field fs m x v) as (f & Hf & <-); [done..|]. eapply (IH f v); eauto.
  apply list_elem_of_In in Hf. pose proof (proj1 (forallb_forall _ _) Hp f Hf). by destruct f as [[] ?].
Qed.

(** A fresh cell. *)
Lemma alloc_spec c h : ∃ h' l, alloc c h = (h', l) ∧ h ⊆ h' ∧ h' !! l = Some c ∧ h !! l = None.
Proof.
  unfold alloc. do 2 eexists. split; [done|]. assert (h !! fresh (dom h) = None) as Hf by (apply not_elem_of_dom, is_fresh).
  split; [by apply insert_subseteq|]. by rewrite lookup_insert_eq.
Qed.

Lemma deep_copy_mono h0 h h1 h2 t v v' : deep_copy h h1 t v v' → h0 ⊆ h → h1 ⊆ h2 → deep_copy h0 h2 t v v'.
Proof.
  intros [Ht Hs Hf] H0 H2. split; eauto using typed_mono, same_mono.
  intros l Hr. eapply lookup_weaken_None; [|exact H0]. by apply Hf, (reach_back h1 h2 t v' l).
Qed.

(** ** The statements make deep copies *)

Lemma deep_assign t : plain t = true → deep t assign.
Proof.
  intros Hp h v Ht. exists h, v. split; [done|]. split; [done|]. split; [done|by eapply same_refl|].
  intros l Hr. by destruct (plain_reach h t v l).
Qed.

Lemma deep_if_set t c : (∀ h v, v ≠ VNil → typed h t v → copied h t v (c h v)) → deep t (if_set c).
Proof.
  intros Hc h v Ht. destruct v; try (by apply Hc). exists h, VNil. split; [done|]. split; [done|].
  split; [done|constructor|]. intros l Hr. inversion Hr.
Qed.

Lemma deep_new_copy t c : deep t c → deep (Pointer t) (if_set (new_copy c)).
Proof.
  intros Hc. apply deep_if_set. intros h v Hv Ht. inversion Ht as [| | | | |t' l x Hl Hx| | | |]; subst; [done|].
  destruct (Hc h x Hx) as (h1 & x' & Hrun & Hsub & Hcopy). destruct (alloc_spec (Single x') h1) as (h2 & l2 & Ha & Hsub2 & Hl2 & Hf2).
  destruct (deep_copy_mono _ h _ _ _ _ _ Hcopy (reflexivity h) Hsub2) as [Ht' Hs' Hr'].
  exists h2, (VPtr l2). unfold new_copy. rewrite Hl, Hrun. cbn [mbind go_bind]. rewrite Ha.
  split; [done|]. split; [by transitivity h1|]. split; [eauto with deepcopy| |].
  - eapply same_pointer; eauto. eapply lookup_weaken; [exact Hl|by transitivity h1].
  - intros l' Hr. inversion Hr; subst; [exact (lookup_weaken_None _ _ _ Hf2 Hsub)|]. simplify_eq. eauto.
Qed.

Lemma copy_elements_spec t c vs h :
  deep t c → (∀ i v, vs !! i = Some v → typed h t v) →
  ∃ h' vs', copy_elements c h vs = Done (h', vs') ∧ h ⊆ h' ∧ length vs' = length vs ∧
    ∀ i v v', vs !! i = Some v → vs' !! i = Some v' → deep_copy h h' t v v'.
Proof.
  intros Hc. revert h. induction vs as [|v vs IH]; intros h Ht; [by exists h, []|].
  destruct (Hc h v (Ht 0 v eq_refl)) as (h1 & v' & Hrun & Hsub & Hcopy).
  destruct (IH h1) as (h2 & vs' & Hrun2 & Hsub2 & Hlen & Hall); [intros i x Hx; eapply typed_mono; [by apply (Ht (S i))|done]|].
  exists h2, (v' :: vs'). simpl. rewrite Hrun. cbn [mbind go_bind]. rewrite Hrun2. split; [done|]. split; [by transitivity h1|].
  split; [by rewrite Hlen|]. intros [|i] x x' Hx Hx'; simplify_eq/=; eauto using deep_copy_mono.
Qed.

Lemma deep_make_slice t c : deep t c → deep (Slice t) (if_set (make_slice c)).
Proof.
  intros Hc. apply deep_if_set. intros h v Hv Ht. inversion Ht as [| | | | | |t' l o n vs Hl Hlen Hx| | |]; subst; [done|].
  destruct (copy_elements_spec t c (window o n vs) h Hc Hx) as (h1 & vs' & Hrun & Hsub & Hlen' & Hcopy).
  destruct (alloc_spec (Array vs') h1) as (h2 & l2 & Ha & Hsub2 & Hl2 & Hf2).
  assert (length vs' = n) as Hn by (rewrite Hlen'; unfold window; rewrite length_take, length_drop; lia).
  assert (window 0 n vs' = vs') as Hw by (unfold window; rewrite drop_0, <- Hn; apply take_ge; lia).
  assert (∀ i v v', window o n vs !! i = Some v → vs' !! i = Some v' → deep_copy h h2 t v v') as Hcopy2 by eauto using deep_copy_mono.
  assert (∀ i v', vs' !! i = Some v' → ∃ v, window o n vs !! i = Some v) as Hback.
  { intros i v' Hi. apply lookup_lt_is_Some. rewrite <- Hlen'. by apply lookup_lt_Some in Hi. }
  exists h2, (VSlice l2 0 n). unfold make_slice. rewrite Hl, Hrun. cbn [mbind go_bind]. rewrite Ha, Hn.
  split; [done|]. split; [by transitivity h1|]. split.
  - eapply typed_slice; [exact Hl2|lia|]. rewrite Hw. intros i v' Hi. destruct (Hback i v' Hi) as [v Hv']. by destruct (Hcopy2 i v v').
  - eapply same_slice; [eapply lookup_weaken; [exact Hl|by transitivity h1]|exact Hl2|by rewrite Hw|].
    rewrite Hw. intros i v v' Hi Hi'. by destruct (Hcopy2 i v v').
  - intros l' Hr. inversion Hr as [| | | |? ? ? ? i v' ? Hl3 Hi Hr'| | |]; subst; [exact (lookup_weaken_None _ _ _ Hf2 Hsub)|].
    rewrite Hl2 in Hl3. injection Hl3 as <-. rewrite Hw in Hi. destruct (Hback i v' Hi) as [v Hv']. by destruct (Hcopy2 i v v'); eauto.
Qed.

(** The entries of the copy: the copies of the entries visited, and what was there. *)
Lemma copy_entries_spec t c es h out :
  deep t c → base.NoDup es.*1 → (∀ k v, (k, v) ∈ es → typed h t v) →
  ∃ h' out', copy_entries c h es out = Done (h', out') ∧ h ⊆ h' ∧
    (∀ k, k ∉ es.*1 → out' !! k = out !! k) ∧
    ∀ k v, (k, v) ∈ es → ∃ v', out' !! k = Some v' ∧ deep_copy h h' t v v'.
Proof.
  intros Hc. revert h out. induction es as [|[k v] es IH]; intros h out Hnd Ht.
  { exists h, out. split; [done|]. split; [done|]. split; [done|]. intros k v Hin. by apply elem_of_nil in Hin. }
  apply NoDup_cons in Hnd as [Hk Hnd]. destruct (Hc h v) as (h1 & v' & Hrun & Hsub & Hcopy); [apply (Ht k); by left|].
  destruct (IH h1 (<[k := v']> out) Hnd) as (h2 & out' & Hrun2 & Hsub2 & Hkeep & Hall).
  { intros k' x Hin. eapply typed_mono; [apply (Ht k'); by right|done]. }
  exists h2, out'. simpl. rewrite Hrun. cbn [mbind go_bind]. split; [done|]. split; [by transitivity h1|]. split.
  - intros k' Hk'. simpl in Hk'. apply not_elem_of_cons in Hk' as [Hne Hk']. rewrite Hkeep by done. by apply lookup_insert_ne.
  - intros k' x [[= -> ->]|Hin]%elem_of_cons.
    + exists v'. rewrite Hkeep by done. rewrite lookup_insert_eq. eauto using deep_copy_mono.
    + destruct (Hall k' x Hin) as (x' & Hx' & Hcopy'). eauto using deep_copy_mono.
Qed.

Lemma deep_make_map `{MapRange} t c : deep t c → deep (Map t) (if_set (make_map c)).
Proof.
  intros Hc. apply deep_if_set. intros h v Hv Ht. inversion Ht as [| | | | | | |t' l m Hl Hx| |]; subst; [done|].
  assert (∀ k v, (k, v) ∈ range m ↔ m !! k = Some v) as Hrange by (intros; by rewrite range_perm, elem_of_map_to_list).
  destruct (copy_entries_spec t c (range m) h ∅ Hc) as (h1 & m' & Hrun & Hsub & Hkeep & Hall).
  { rewrite range_perm. apply NoDup_fst_map_to_list. }
  { intros k v Hin%Hrange. by apply (Hx k). }
  destruct (alloc_spec (Dict m') h1) as (h2 & l2 & Ha & Hsub2 & Hl2 & Hf2).
  assert (∀ k v v', m !! k = Some v → m' !! k = Some v' → deep_copy h h2 t v v') as Hcopy.
  { intros k v v' Hk Hk'. destruct (Hall k v) as (v2 & Hk2 & Hd); [by apply Hrange|]. rewrite Hk' in Hk2. simplify_eq. eauto using deep_copy_mono. }
  assert (∀ k v', m' !! k = Some v' → ∃ v, m !! k = Some v) as Hback.
  { intros k v' Hk'. destruct (m !! k) as [v|] eqn:Hk; [by exists v|]. rewrite Hkeep in Hk'; [done|].
    intros ([k' v] & -> & Hin%Hrange)%list_elem_of_fmap. simpl in *. congruence. }
  exists h2, (VMap l2). unfold make_map. rewrite Hl, Hrun. cbn [mbind go_bind]. rewrite Ha.
  split; [done|]. split; [by transitivity h1|]. split.
  - eapply typed_map; [exact Hl2|]. intros k v' Hk'. destruct (Hback k v' Hk') as [v Hk]. by destruct (Hcopy k v v').
  - eapply same_map; [eapply lookup_weaken; [exact Hl|by transitivity h1]|exact Hl2| |].
    + apply set_eq. intros k. rewrite !elem_of_dom. split; [intros [v Hk]|intros [v' Hk']; destruct (Hback k v' Hk') as [v ->]; by eexists].
      destruct (Hall k v) as (v' & Hk' & _); [by apply Hrange|by exists v'].
    + intros k v v' Hk Hk'. by destruct (Hcopy k v v').
  - intros l' Hr. inversion Hr as [| | | | |? ? k v' ? Hl3 Hk' Hr'| |]; subst; [exact (lookup_weaken_None _ _ _ Hf2 Hsub)|].
    rewrite Hl2 in Hl3. injection Hl3 as <-. destruct (Hback k v' Hk') as [v Hk]. by destruct (Hcopy k v v'); eauto.
Qed.

(** The statement for a field. *)
Fixpoint statement (x : string) (ss : list (string * copier)) : option copier :=
  match ss with
  | [] => None
  | (y, c) :: ss => if String.eqb y x then Some c else statement x ss
  end.
(** Every field has a statement at most, and every statement a field. *)
Definition statements_ok (fs : list (string * string * gotype)) (ss : list (string * copier)) : bool :=
  bool_decide (base.NoDup ss.*1) && forallb (λ x, bool_decide (x ∈ field_name <$> fs)) ss.*1.

Lemma statement_none x ss : statement x ss = None → x ∉ ss.*1.
Proof.
  induction ss as [|[y c] ss IH]; simpl; intros Hs Hin; [by apply elem_of_nil in Hin|]. destruct (String.eqb_spec y x) as [->|Hne]; [done|].
  apply elem_of_cons in Hin as [->|Hin]; [done|by apply IH].
Qed.
Lemma statement_some x ss c : statement x ss = Some c → (x, c) ∈ ss.
Proof.
  induction ss as [|[y c'] ss IH]; simpl; [done|]. destruct (String.eqb_spec y x) as [->|Hne]; [intros [= ->]; by left|]. right. by apply IH.
Qed.
Lemma statement_unique x ss c : base.NoDup ss.*1 → (x, c) ∈ ss → statement x ss = Some c.
Proof.
  induction ss as [|[y c'] ss IH]; intros Hnd Hin; [by apply elem_of_nil in Hin|]. apply NoDup_cons in Hnd as [Hy Hnd].
  simpl. apply elem_of_cons in Hin as [[= -> ->]|Hin]; [by rewrite String.eqb_refl|].
  destruct (String.eqb_spec y x) as [->|Hne]; [|by apply IH]. destruct Hy. by apply (list_elem_of_fmap_2 fst _ (x, c)).
Qed.

(** The fields after the statements. *)
Lemma copy_fields_spec fs ss h (m out : gmap string value) :
  base.NoDup ss.*1 → (∀ x c, (x, c) ∈ ss → ∃ f v, f ∈ fs ∧ field_name f = x ∧ m !! x = Some v) →
  (∀ c f, (field_name f, c) ∈ ss → f ∈ fs → deep f.2 c) →
  (∀ f v, f ∈ fs → m !! field_name f = Some v → typed h f.2 v) →
  ∃ h' out', copy_fields ss h m out = Done (h', out') ∧ h ⊆ h' ∧ (∀ x, x ∉ ss.*1 → out' !! x = out !! x) ∧
    ∀ c f v, (field_name f, c) ∈ ss → f ∈ fs → m !! field_name f = Some v →
      ∃ v', out' !! field_name f = Some v' ∧ deep_copy h h' f.2 v v'.
Proof.
  revert h out. induction ss as [|[x c] ss IH]; intros h out Hnd Hfield Hdeep Ht.
  { exists h, out. split; [done|]. split; [done|]. split; [done|]. intros c f v Hin. by apply elem_of_nil in Hin. }
  apply NoDup_cons in Hnd as [Hx Hnd]. destruct (Hfield x c) as (f0 & v & Hf0 & Hname & Hv); [by left|]. rewrite <- Hname in Hv.
  assert (deep f0.2 c) as Hd0 by (apply Hdeep; [rewrite Hname; by left|done]).
  destruct (Hd0 h v) as (h1 & v' & Hrun & Hsub & _); [by apply Ht|].
  destruct (IH h1 (<[x := v']> out) Hnd) as (h2 & out' & Hrun2 & Hsub2 & Hkeep & Hall).
  { intros y c' Hin. apply (Hfield y c'). by right. }
  { intros c' f Hin. apply Hdeep. by right. }
  { intros f y Hf Hy. eapply typed_mono; [by apply Ht|done]. }
  exists h2, out'. simpl. rewrite Hname in Hv. rewrite Hv, Hrun. cbn [mbind go_bind]. split; [done|]. split; [by transitivity h1|]. split.
  - intros y Hy. simpl in Hy. apply not_elem_of_cons in Hy as [Hne Hy]. rewrite Hkeep by done. by apply lookup_insert_ne.
  - intros c' f y [[= <- ->]|Hin]%elem_of_cons Hf Hy.
    + rewrite Hkeep, lookup_insert_eq by done. exists v'. split; [done|]. simplify_eq.
      destruct (Hdeep c f) with (h := h) (v := v) as (h3 & v3 & Hrun3 & _ & Hcopy); [by left|done|by apply Ht|].
      rewrite Hrun in Hrun3. simplify_eq. eauto using deep_copy_mono.
    + destruct (Hall c' f y Hin Hf Hy) as (y' & Hy' & Hcopy'). eauto using deep_copy_mono.
Qed.

Lemma deep_copy_struct fs ss :
  statements_ok fs ss = true →
  Forall (λ f, match statement (field_name f) ss with Some c => deep f.2 c | None => plain f.2 = true end) fs →
  deep (Struct fs) (copy_struct ss).
Proof.
  intros [Hnd%bool_decide_eq_true Hsub]%andb_true_iff Hall h v Ht. rewrite list.Forall_forall in Hall.
  inversion Ht as [| | | | | | | | |fs' m Hdom Hfs]; subst.
  destruct (copy_fields_spec fs ss h m m Hnd) as (h' & out & Hrun & Hh & Hkeep & Hset).
  { intros x c Hin. pose proof (proj1 (forallb_forall _ _) Hsub x) as Hx.
    assert (x ∈ field_name <$> fs) as Hf by (eapply bool_decide_eq_true, Hx, list_elem_of_In; by apply (list_elem_of_fmap_2 fst _ (x, c))).
    destruct (proj2 (Hdom x) Hf) as [v Hv]. apply list_elem_of_fmap in Hf as (f & -> & Hf). by exists f, v. }
  { intros c f Hin Hf. specialize (Hall f Hf). by rewrite (statement_unique _ _ _ Hnd Hin) in Hall. }
  { exact Hfs. }
  assert (∀ f v, f ∈ fs → m !! field_name f = Some v → ∃ v', out !! field_name f = Some v' ∧ deep_copy h h' f.2 v v') as Hcopy.
  { intros f v Hf Hv. specialize (Hall f Hf). destruct (statement (field_name f) ss) as [c|] eqn:Hs.
    - apply statement_some in Hs. by apply (Hset c).
    - apply statement_none in Hs. exists v. rewrite Hkeep by done. split; [done|].
      destruct (deep_assign _ Hall h v (Hfs f v Hf Hv)) as (? & ? & [= <- <-] & _ & Hd). eauto using deep_copy_mono. }
  assert (∀ x, is_Some (out !! x) ↔ is_Some (m !! x)) as Hiff.
  { intros x. destruct (m !! x) as [v|] eqn:Hv.
    - destruct (struct_field fs m x v Hdom Hv) as (f & Hf & <-). destruct (Hcopy f v Hf Hv) as (v' & -> & _). by split; intros; eexists.
    - rewrite Hkeep; [by rewrite Hv|]. intros Hin. pose proof (proj1 (forallb_forall _ _) Hsub x) as Hx.
      destruct (proj2 (Hdom x)) as [v Hv']; [|congruence]. by eapply bool_decide_eq_true, Hx, list_elem_of_In. }
  assert (∀ f v', f ∈ fs → out !! field_name f = Some v' → ∃ v, m !! field_name f = Some v ∧ deep_copy h h' f.2 v v') as Hback.
  { intros f v' Hf Hv'. destruct (proj1 (Hiff (field_name f))) as [v Hv]; [by eexists|]. exists v. split; [done|].
    destruct (Hcopy f v Hf Hv) as (v2 & Hv2 & Hd). by simplify_eq. }
  exists h', (VStruct out). unfold copy_struct. rewrite Hrun. split; [done|]. split; [done|]. split.
  - constructor; [intros x; by rewrite Hiff|]. intros f v' Hf Hv'. destruct (Hback f v' Hf Hv') as (v & _ & Hd). apply Hd.
  - constructor; [apply set_eq; intros x; by rewrite !elem_of_dom, Hiff|]. intros x v v' Hv Hv'.
    destruct (struct_field fs m x v Hdom Hv) as (f & Hf & <-). destruct (Hback f v' Hf Hv') as (v2 & Hv2 & Hd). simplify_eq. apply Hd.
  - intros l Hr. inversion Hr as [| | | | | | |? x v' ? Hv' Hr']; subst. destruct (proj1 (Hiff x)) as [v Hv]; [by eexists|].
    destruct (struct_field fs m x v Hdom Hv) as (f & Hf & <-). destruct (Hback f v' Hf Hv') as (v2 & Hv2 & Hd). by apply Hd.
Qed.

Lemma deep_copied_value t c : deep t c → deep t (copied_value c).
Proof.
  intros Hc h v Ht. destruct (Hc h v Ht) as (h1 & v' & Hrun & Hsub & Hcopy). destruct (alloc_spec (Single v') h1) as (h2 & l2 & Ha & Hsub2 & _).
  exists h2, v'. unfold copied_value. rewrite Hrun. cbn [mbind go_bind]. rewrite Ha. split; [done|]. split; [by transitivity h1|].
  eauto using deep_copy_mono.
Qed.

(** [DeepCopyObject] returns the copy, or the nil interface for a nil pointer. *)
Lemma DeepCopyObject_spec t c h v : deep t c → typed h (Pointer t) v →
  ∃ h' v', DeepCopyObject_of c h v = Done (h', match v with VNil => None | _ => Some v' end) ∧ h ⊆ h' ∧ deep_copy h h' (Pointer t) v v'.
Proof.
  intros Hc Ht. destruct (deep_new_copy t c Hc h v Ht) as (h' & v' & Hrun & Hsub & Hcopy). exists h', v'. unfold DeepCopyObject_of, DeepCopy_of.
  rewrite Hrun. cbn [mbind go_bind]. split; [|done]. by destruct (dc_same _ _ _ _ _ Hcopy).
Qed.

(** Writing to what a deep copy leads to does not change what the original leads to. *)
Lemma deep_copy_isolated h h' t v v' l c :
  typed h t v → h ⊆ h' → deep_copy h h' t v v' → reach h' v' l →
  (∀ l', reach h' v l' → <[l := c]> h' !! l' = h' !! l') ∧ typed (<[l := c]> h') t v.
Proof.
  intros Ht Hsub [_ _ Hf] Hr. apply Hf in Hr. split.
  - intros l' Hl'. apply lookup_insert_ne. intros <-. destruct (reach_back h h' t v l Ht Hsub Hl') as [_ [? ?]]. congruence.
  - apply (typed_mono h); [done|]. transitivity (<[l := c]> h); [by apply insert_subseteq|by apply insert_mono].
Qed.
End memory.

(** ** Types of other packages *)

(** The types of other packages by name, and their [DeepCopyInto]. *)
Class External := { ext : string → gotype; ext_into : string → copier }.
(** Their functions make deep copies, and these types have no references. *)
Class ExternalLaws `{External} := {
  ext_deep n : deep (ext n) (ext_into n);
  ext_plain : Forall (λ n, plain (ext n) = true)
    ["metav1.TypeMeta"; "metav1.Duration"; "corev1.ObjectReference"; "corev1.Protocol"; "corev1.SecretType"; "corev1.ServiceType"]
}.

Lemma plain_external `{ExternalLaws} n :
  n ∈ ["metav1.TypeMeta"; "metav1.Duration"; "corev1.ObjectReference"; "corev1.Protocol"; "corev1.SecretType"; "corev1.ServiceType"] →
  plain (ext n) = true.
Proof. intros Hn. pose proof ext_plain as Hp. rewrite list.Forall_forall in Hp. by apply Hp. Qed.

(** The functions of the types are told apart by their names. *)
#[export] Hint Constants Opaque : deepcopy.

(** A type without references: what is left are types of other packages. *)
Ltac plain_type :=
  first [ reflexivity | apply plain_external; repeat constructor; fail
        | cbn -[ext]; rewrite ?plain_external by (repeat constructor); reflexivity ].
(** A statement, by the lemmas and the functions that were shown to be deep. *)
Ltac deep_statement :=
  first
    [ solve [eauto 1 with deepcopy] | apply ext_deep
    | apply deep_new_copy; deep_statement | apply deep_make_slice; deep_statement | apply deep_make_map; deep_statement
    | apply deep_copied_value; deep_statement | apply deep_assign; plain_type ].
(** A struct, field by field. *)
Ltac deep_struct :=
  apply deep_copy_struct; [reflexivity|];
  repeat (apply list.Forall_cons; split;
    [cbn [statement field_name fst snd String.eqb Ascii.eqb Bool.eqb]; first [plain_type | deep_statement]|]);
  apply list.Forall_nil; exact I.
(** The next function of a list. *)
Ltac next H := apply list.Forall_cons; split; [exact H|].
