(* ===== verification/ApiTypesCE.v ===== *)
(** * The API types of the community edition and their deep copies

    The types of api/ce/kubelb.k8c.io/v1alpha1, field by field with their JSON tags, and the
    functions of its zz_generated.deepcopy.go; every [DeepCopyInto] makes deep copies. *)
From stdpp Require Import base list strings.
From S2P Require Import Prelude DeepCopy.

Module CE.
Section types.
Context `{External} `{MapRange}.

(** ** Types *)

Definition Annotations : gotype := Map Basic.
Definition AnnotatedResource : gotype := Basic.
Definition EnvoyProxyTopology : gotype := Basic.
Definition ConditionType : gotype := Basic.
Definition EndpointAddress : gotype :=
  Struct
    [("IP", "ip", Basic);
     ("Hostname", "hostname,omitempty", Basic)].
Definition AddressesSpec : gotype :=
  Struct
    [("Addresses", "addresses,omitempty", Slice EndpointAddress)].
Definition AddressesStatus : gotype := Struct [].
Definition Addresses : gotype :=
  Struct
    [("TypeMeta", ",inline", ext "metav1.TypeMeta");
     ("ObjectMeta", "metadata,omitempty", ext "metav1.ObjectMeta");
     ("Spec", "spec,omitempty", AddressesSpec);
     ("Status", "status,omitempty", AddressesStatus)].
Definition AddressesList : gotype :=
  Struct
    [("TypeMeta", ",inline", ext "metav1.TypeMeta");
     ("ListMeta", "metadata,omitempty", ext "metav1.ListMeta");
     ("Items", "items", Slice Addresses)].
Definition EndpointPort : gotype :=
  Struct
    [("Name", "name,omitempty", Basic);
     ("Port", "port", Basic);
     ("Protocol", "protocol,omitempty", ext "corev1.Protocol")].
Definition LoadBalancerEndpoints : gotype :=
  Struct
    [("Name", "name,omitempty", Basic);
     ("Addresses", "addresses,omitempty", Slice EndpointAddress);
     ("AddressesReference", "addressesReference,omitempty", Pointer (ext "corev1.ObjectReference"));
     ("Ports", "ports,omitempty", Slice EndpointPort)].
Definition AnnotationSettings : gotype :=
  Struct
    [("PropagatedAnnotations", "propagatedAnnotations,omitempty", Pointer (Map Basic));
     ("PropagateAllAnnotations", "propagateAllAnnotations,omitempty", Pointer Basic);
     ("DefaultAnnotations", "defaultAnnotations,omitempty", Map Annotations)].
Definition CertificatesSettings : gotype :=
  Struct
    [("DefaultClusterIssuer", "defaultClusterIssuer,omitempty", Pointer Basic)].
Definition ConfigDNSSettings : gotype :=
  Struct
    [("WildcardDomain", "wildcardDomain,omitempty", Basic);
     ("AllowExplicitHostnames", "allowExplicitHostnames,omitempty", Basic);
     ("UseDNSAnnotations", "useDNSAnnotations,omitempty", Basic);
     ("UseCertificateAnnotations", "useCertificateAnnotations,omitempty", Basic)].
Definition EnvoyProxyGracefulShutdown : gotype :=
  Struct
    [("Disabled", "disabled,omitempty", Basic);
     ("DrainTimeout", "drainTimeout,omitempty", Pointer (ext "metav1.Duration"));
     ("MinDrainDuration", "minDrainDuration,omitempty", Pointer (ext "metav1.Duration"));
     ("TerminationGracePeriodSeconds", "terminationGracePeriodSeconds,omitempty", Pointer Basic);
     ("ShutdownManagerImage", "shutdownManagerImage,omitempty", Basic)].
Definition EnvoyProxyOverloadManager : gotype :=
  Struct
    [("Enabled", "enabled,omitempty", Basic);
     ("MaxActiveDownstreamConnections", "maxActiveDownstreamConnections,omitempty", Basic);
     ("MaxHeapSizeBytes", "maxHeapSizeBytes,omitempty", Basic)].
Definition EnvoyProxy : gotype :=
  Struct
    [("Topology", "topology,omitempty", EnvoyProxyTopology);
     ("UseDaemonset", "useDaemonset,omitempty", Basic);
     ("Replicas", "replicas,omitempty", Basic);
     ("SinglePodPerNode", "singlePodPerNode,omitempty", Basic);
     ("NodeSelector", "nodeSelector,omitempty", Map Basic);
     ("Tolerations", "tolerations,omitempty", Slice (ext "corev1.Toleration"));
     ("Resources", "resources,omitempty", Pointer (ext "corev1.ResourceRequirements"));
     ("Affinity", "affinity,omitempty", Pointer (ext "corev1.Affinity"));
     ("Image", "image,omitempty", Basic);
     ("GracefulShutdown", "gracefulShutdown,omitempty", Pointer EnvoyProxyGracefulShutdown);
     ("OverloadManager", "overloadManager,omitempty", Pointer EnvoyProxyOverloadManager)].
Definition GatewayAPISettings : gotype :=
  Struct
    [("Class", "class,omitempty", Pointer Basic);
     ("DefaultGateway", "defaultGateway,omitempty", Pointer (ext "corev1.ObjectReference"));
     ("Disable", "disable,omitempty", Basic)].
Definition IngressSettings : gotype :=
  Struct
    [("Class", "class,omitempty", Pointer Basic);
     ("Disable", "disable,omitempty", Basic)].
Definition LoadBalancerSettings : gotype :=
  Struct
    [("Class", "class,omitempty", Pointer Basic);
     ("Disable", "disable,omitempty", Basic)].
Definition ConfigSpec : gotype :=
  Struct
    [("AnnotationSettings", ",inline", AnnotationSettings);
     ("EnvoyProxy", "envoyProxy,omitempty", EnvoyProxy);
     ("LoadBalancer", "loadBalancer,omitempty", LoadBalancerSettings);
     ("Ingress", "ingress,omitempty", IngressSettings);
     ("GatewayAPI", "gatewayAPI,omitempty", GatewayAPISettings);
     ("DNS", "dns,omitempty", ConfigDNSSettings);
     ("Certificates", "certificates,omitempty", CertificatesSettings)].
Definition Config : gotype :=
  Struct
    [("TypeMeta", ",inline", ext "metav1.TypeMeta");
     ("ObjectMeta", "metadata,omitempty", ext "metav1.ObjectMeta");
     ("Spec", "spec,omitempty", ConfigSpec)].
Definition ConfigList : gotype :=
  Struct
    [("TypeMeta", ",inline", ext "metav1.TypeMeta");
     ("ListMeta", "metadata,omitempty", ext "metav1.ListMeta");
     ("Items", "items", Slice Config)].
Definition HostnameStatus : gotype :=
  Struct
    [("Hostname", "hostname,omitempty", Basic);
     ("TLSEnabled", "tlsEnabled,omitempty", Basic);
     ("DNSRecordCreated", "dnsRecordCreated,omitempty", Basic)].
Definition ServicePort : gotype :=
  Struct
    [("ServicePort", ",inline", ext "corev1.ServicePort");
     ("UpstreamTargetPort", "upstreamTargetPort", Basic)].
Definition ServiceStatus : gotype :=
  Struct
    [("Ports", "ports,omitempty", Slice ServicePort)].
Definition LoadBalancerStatus : gotype :=
  Struct
    [("LoadBalancer", "loadBalancer,omitempty", ext "corev1.LoadBalancerStatus");
     ("Service", "service,omitempty", ServiceStatus);
     ("Hostname", "hostname,omitempty", Pointer HostnameStatus)].
Definition LoadBalancerPort : gotype :=
  Struct
    [("Name", "name,omitempty", Basic);
     ("Protocol", "protocol,omitempty", ext "corev1.Protocol");
     ("Port", "port", Basic)].
Definition LoadBalancerSpec : gotype :=
  Struct
    [("Endpoints", "endpoints,omitempty", Slice LoadBalancerEndpoints);
     ("Ports", "ports,omitempty", Slice LoadBalancerPort);
     ("Hostname", "hostname,omitempty", Basic);
     ("Type", "type,omitempty", ext "corev1.ServiceType")].
Definition LoadBalancer : gotype :=
  Struct
    [("TypeMeta", ",inline", ext "metav1.TypeMeta");
     ("ObjectMeta", "metadata,omitempty", ext "metav1.ObjectMeta");
     ("Spec", "spec,omitempty", LoadBalancerSpec);
     ("Status", "status,omitempty", LoadBalancerStatus)].
Definition LoadBalancerList : gotype :=
  Struct
    [("TypeMeta", ",inline", ext "metav1.TypeMeta");
     ("ListMeta", "metadata,omitempty", ext "metav1.ListMeta");
     ("Items", "items", Slice LoadBalancer)].
Definition UpstreamService : gotype :=
  Struct
    [("Service", ",inline", ext "corev1.Service")].
Definition KubernetesSource : gotype :=
  Struct
    [("Route", "resource,omitempty", ext "unstructured.Unstructured");
     ("Services", "services,omitempty", Slice UpstreamService)].
Definition RouteSource : gotype :=
  Struct
    [("Kubernetes", "kubernetes,omitempty", Pointer KubernetesSource)].
Definition RouteSpec : gotype :=
  Struct
    [("Endpoints", "endpoints,omitempty", Slice LoadBalancerEndpoints);
     ("Source", "source,omitempty", RouteSource)].
Definition ResourceState : gotype :=
  Struct
    [("APIVersion", "apiVersion,omitempty", Basic);
     ("Kind", "kind,omitempty", Basic);
     ("Name", "name,omitempty", Basic);
     ("Namespace", "namespace,omitempty", Basic);
     ("GeneratedName", "generatedName,omitempty", Basic);
     ("Status", "status,omitempty", ext "runtime.RawExtension");
     ("Conditions", "conditions,omitempty", Slice (ext "metav1.Condition"))].
Definition RouteServiceStatus : gotype :=
  Struct
    [("ResourceState", ",inline", ResourceState);
     ("Ports", "ports,omitempty", Slice (ext "corev1.ServicePort"))].
Definition RouteResourcesStatus : gotype :=
  Struct
    [("Source", "source,omitempty", Basic);
     ("Services", "services,omitempty", Map RouteServiceStatus);
     ("Route", "route,omitempty", ResourceState)].
Definition RouteStatus : gotype :=
  Struct
    [("Resources", "resources,omitempty", RouteResourcesStatus)].
Definition Route : gotype :=
  Struct
    [("TypeMeta", ",inline", ext "metav1.TypeMeta");
     ("ObjectMeta", "metadata,omitempty", ext "metav1.ObjectMeta");
     ("Spec", "spec,omitempty", RouteSpec);
     ("Status", "status,omitempty", RouteStatus)].
Definition RouteList : gotype :=
  Struct
    [("TypeMeta", ",inline", ext "metav1.TypeMeta");
     ("ListMeta", "metadata,omitempty", ext "metav1.ListMeta");
     ("Items", "items", Slice Route)].
Definition SyncSecret : gotype :=
  Struct
    [("TypeMeta", ",inline", ext "metav1.TypeMeta");
     ("ObjectMeta", "metadata,omitempty", ext "metav1.ObjectMeta");
     ("Immutable", "immutable,omitempty", Pointer Basic);
     ("Data", "data,omitempty", Map (Slice Basic));
     ("StringData", "stringData,omitempty", Map Basic);
     ("Type", "type,omitempty", ext "corev1.SecretType")].
Definition SyncSecretList : gotype :=
  Struct
    [("TypeMeta", ",inline", ext "metav1.TypeMeta");
     ("ListMeta", "metadata,omitempty", ext "metav1.ListMeta");
     ("Items", "items", Slice SyncSecret)].
Definition TenantStateSpec : gotype := Struct [].
Definition LoadBalancerState : gotype :=
  Struct
    [("Disable", "disable,omitempty", Basic)].
Definition Version : gotype :=
  Struct
    [("GitVersion", "gitVersion,omitempty", Basic);
     ("GitCommit", "gitCommit,omitempty", Basic);
     ("BuildDate", "buildDate,omitempty", Basic);
     ("Edition", "edition,omitempty", Basic)].
Definition TenantStateStatus : gotype :=
  Struct
    [("Version", "version,omitempty", Version);
     ("LastUpdated", "lastUpdated,omitempty", ext "metav1.Time");
     ("Conditions", "conditions,omitempty", Slice (ext "metav1.Condition"));
     ("LoadBalancer", "loadBalancer,omitempty", LoadBalancerState)].
Definition TenantState : gotype :=
  Struct
    [("TypeMeta", ",inline", ext "metav1.TypeMeta");
     ("ObjectMeta", "metadata,omitempty", ext "metav1.ObjectMeta");
     ("Spec", "spec,omitempty", TenantStateSpec);
     ("Status", "status,omitempty", TenantStateStatus)].
Definition TenantStateList : gotype :=
  Struct
    [("TypeMeta", ",inline", ext "metav1.TypeMeta");
     ("ListMeta", "metadata,omitempty", ext "metav1.ListMeta");
     ("Items", "items", Slice TenantState)].
Definition DNSSettings : gotype :=
  Struct
    [("WildcardDomain", "wildcardDomain,omitempty", Pointer Basic);
     ("AllowExplicitHostnames", "allowExplicitHostnames,omitempty", Pointer Basic);
     ("UseDNSAnnotations", "useDNSAnnotations,omitempty", Pointer Basic);
     ("UseCertificateAnnotations", "useCertificateAnnotations,omitempty", Pointer Basic)].
Definition TenantSpec : gotype :=
  Struct
    [("AnnotationSettings", ",inline", AnnotationSettings);
     ("LoadBalancer", "loadBalancer,omitempty", LoadBalancerSettings);
     ("Ingress", "ingress,omitempty", IngressSettings);
     ("GatewayAPI", "gatewayAPI,omitempty", GatewayAPISettings);
     ("DNS", "dns,omitempty", DNSSettings);
     ("Certificates", "certificates,omitempty", CertificatesSettings)].
Definition TenantStatus : gotype := Struct [].
Definition Tenant : gotype :=
  Struct
    [("TypeMeta", ",inline", ext "metav1.TypeMeta");
     ("ObjectMeta", "metadata,omitempty", ext "metav1.ObjectMeta");
     ("Spec", "spec,omitempty", TenantSpec);
     ("Status", "status,omitempty", TenantStatus)].
Definition TenantList : gotype :=
  Struct
    [("TypeMeta", ",inline", ext "metav1.TypeMeta");
     ("ListMeta", "metadata,omitempty", ext "metav1.ListMeta");
     ("Items", "items", Slice Tenant)].

(** ** Copy functions *)

Definition Annotations_copies : Copies :=
  {| DeepCopyInto := make_map assign; DeepCopy := if_set (copied_value (make_map assign)); DeepCopyObject := None |}.
Definition EndpointAddress_copies : Copies := copies (copy_struct []).
Definition AddressesSpec_copies : Copies :=
  copies (copy_struct
    [("Addresses", if_set (make_slice assign))]).
Definition AddressesStatus_copies : Copies := copies (copy_struct []).
Definition Addresses_copies : Copies :=
  object_copies (copy_struct
    [("TypeMeta", assign);
     ("ObjectMeta", ext_into "metav1.ObjectMeta");
     ("Spec", DeepCopyInto AddressesSpec_copies);
     ("Status", assign)]).
Definition AddressesList_copies : Copies :=
  object_copies (copy_struct
    [("TypeMeta", assign);
     ("ListMeta", ext_into "metav1.ListMeta");
     ("Items", if_set (make_slice (DeepCopyInto Addresses_copies)))]).
Definition EndpointPort_copies : Copies := copies (copy_struct []).
Definition LoadBalancerEndpoints_copies : Copies :=
  copies (copy_struct
    [("Addresses", if_set (make_slice assign));
     ("AddressesReference", if_set (new_copy assign));
     ("Ports", if_set (make_slice assign))]).
Definition AnnotationSettings_copies : Copies :=
  copies (copy_struct
    [("PropagatedAnnotations", if_set (new_copy (if_set (make_map assign))));
     ("PropagateAllAnnotations", if_set (new_copy assign));
     ("DefaultAnnotations", if_set (make_map (if_set (make_map assign))))]).
Definition CertificatesSettings_copies : Copies :=
  copies (copy_struct
    [("DefaultClusterIssuer", if_set (new_copy assign))]).
Definition ConfigDNSSettings_copies : Copies := copies (copy_struct []).
Definition EnvoyProxyGracefulShutdown_copies : Copies :=
  copies (copy_struct
    [("DrainTimeout", if_set (new_copy assign));
     ("MinDrainDuration", if_set (new_copy assign));
     ("TerminationGracePeriodSeconds", if_set (new_copy assign))]).
Definition EnvoyProxyOverloadManager_copies : Copies := copies (copy_struct []).
Definition EnvoyProxy_copies : Copies :=
  copies (copy_struct
    [("NodeSelector", if_set (make_map assign));
     ("Tolerations", if_set (make_slice (ext_into "corev1.Toleration")));
     ("Resources", if_set (new_copy (ext_into "corev1.ResourceRequirements")));
     ("Affinity", if_set (new_copy (ext_into "corev1.Affinity")));
     ("GracefulShutdown", if_set (new_copy (DeepCopyInto EnvoyProxyGracefulShutdown_copies)));
     ("OverloadManager", if_set (new_copy assign))]).
Definition GatewayAPISettings_copies : Copies :=
  copies (copy_struct
    [("Class", if_set (new_copy assign));
     ("DefaultGateway", if_set (new_copy assign))]).
Definition IngressSettings_copies : Copies :=
  copies (copy_struct
    [("Class", if_set (new_copy assign))]).
Definition LoadBalancerSettings_copies : Copies :=
  copies (copy_struct
    [("Class", if_set (new_copy assign))]).
Definition ConfigSpec_copies : Copies :=
  copies (copy_struct
    [("AnnotationSettings", DeepCopyInto AnnotationSettings_copies);
     ("EnvoyProxy", DeepCopyInto EnvoyProxy_copies);
     ("LoadBalancer", DeepCopyInto LoadBalancerSettings_copies);
     ("Ingress", DeepCopyInto IngressSettings_copies);
     ("GatewayAPI", DeepCopyInto GatewayAPISettings_copies);
     ("DNS", assign);
     ("Certificates", DeepCopyInto CertificatesSettings_copies)]).
Definition Config_copies : Copies :=
  object_copies (copy_struct
    [("TypeMeta", assign);
     ("ObjectMeta", ext_into "metav1.ObjectMeta");
     ("Spec", DeepCopyInto ConfigSpec_copies)]).
Definition ConfigList_copies : Copies :=
  object_copies (copy_struct
    [("TypeMeta", assign);
     ("ListMeta", ext_into "metav1.ListMeta");
     ("Items", if_set (make_slice (DeepCopyInto Config_copies)))]).
Definition HostnameStatus_copies : Copies := copies (copy_struct []).
Definition ServicePort_copies : Copies :=
  copies (copy_struct
    [("ServicePort", ext_into "corev1.ServicePort")]).
Definition ServiceStatus_copies : Copies :=
  copies (copy_struct
    [("Ports", if_set (make_slice (DeepCopyInto ServicePort_copies)))]).
Definition LoadBalancerStatus_copies : Copies :=
  copies (copy_struct
    [("LoadBalancer", ext_into "corev1.LoadBalancerStatus");
     ("Service", DeepCopyInto ServiceStatus_copies);
     ("Hostname", if_set (new_copy assign))]).
Definition LoadBalancerPort_copies : Copies := copies (copy_struct []).
Definition LoadBalancerSpec_copies : Copies :=
  copies (copy_struct
    [("Endpoints", if_set (make_slice (DeepCopyInto LoadBalancerEndpoints_copies)));
     ("Ports", if_set (make_slice assign))]).
Definition LoadBalancer_copies : Copies :=
  object_copies (copy_struct
    [("TypeMeta", assign);
     ("ObjectMeta", ext_into "metav1.ObjectMeta");
     ("Spec", DeepCopyInto LoadBalancerSpec_copies);
     ("Status", DeepCopyInto LoadBalancerStatus_copies)]).
Definition LoadBalancerList_copies : Copies :=
  object_copies (copy_struct
    [("TypeMeta", assign);
     ("ListMeta", ext_into "metav1.ListMeta");
     ("Items", if_set (make_slice (DeepCopyInto LoadBalancer_copies)))]).
Definition UpstreamService_copies : Copies :=
  copies (copy_struct
    [("Service", ext_into "corev1.Service")]).
Definition KubernetesSource_copies : Copies :=
  copies (copy_struct
    [("Route", ext_into "unstructured.Unstructured");
     ("Services", if_set (make_slice (DeepCopyInto UpstreamService_copies)))]).
Definition RouteSource_copies : Copies :=
  copies (copy_struct
    [("Kubernetes", if_set (new_copy (DeepCopyInto KubernetesSource_copies)))]).
Definition RouteSpec_copies : Copies :=
  copies (copy_struct
    [("Endpoints", if_set (make_slice (DeepCopyInto LoadBalancerEndpoints_copies)));
     ("Source", DeepCopyInto RouteSource_copies)]).
Definition ResourceState_copies : Copies :=
  copies (copy_struct
    [("Status", ext_into "runtime.RawExtension");
     ("Conditions", if_set (make_slice (ext_into "metav1.Condition")))]).
Definition RouteServiceStatus_copies : Copies :=
  copies (copy_struct
    [("ResourceState", DeepCopyInto ResourceState_copies);
     ("Ports", if_set (make_slice (ext_into "corev1.ServicePort")))]).
Definition RouteResourcesStatus_copies : Copies :=
  copies (copy_struct
    [("Services", if_set (make_map (copied_value (DeepCopyInto RouteServiceStatus_copies))));
     ("Route", DeepCopyInto ResourceState_copies)]).
Definition RouteStatus_copies : Copies :=
  copies (copy_struct
    [("Resources", DeepCopyInto RouteResourcesStatus_copies)]).
Definition Route_copies : Copies :=
  object_copies (copy_struct
    [("TypeMeta", assign);
     ("ObjectMeta", ext_into "metav1.ObjectMeta");
     ("Spec", DeepCopyInto RouteSpec_copies);
     ("Status", DeepCopyInto RouteStatus_copies)]).
Definition RouteList_copies : Copies :=
  object_copies (copy_struct
    [("TypeMeta", assign);
     ("ListMeta", ext_into "metav1.ListMeta");
     ("Items", if_set (make_slice (DeepCopyInto Route_copies)))]).
Definition SyncSecret_copies : Copies :=
  object_copies (copy_struct
    [("TypeMeta", assign);
     ("ObjectMeta", ext_into "metav1.ObjectMeta");
     ("Immutable", if_set (new_copy assign));
     ("Data", if_set (make_map (if_set (make_slice assign))));
     ("StringData", if_set (make_map assign))]).
Definition SyncSecretList_copies : Copies :=
  object_copies (copy_struct
    [("TypeMeta", assign);
     ("ListMeta", ext_into "metav1.ListMeta");
     ("Items", if_set (make_slice (DeepCopyInto SyncSecret_copies)))]).
Definition TenantStateSpec_copies : Copies := copies (copy_struct []).
Definition LoadBalancerState_copies : Copies := copies (copy_struct []).
Definition Version_copies : Copies := copies (copy_struct []).
Definition TenantStateStatus_copies : Copies :=
  copies (copy_struct
    [("Version", assign);
     ("LastUpdated", ext_into "metav1.Time");
     ("Conditions", if_set (make_slice (ext_into "metav1.Condition")));
     ("LoadBalancer", assign)]).
Definition TenantState_copies : Copies :=
  object_copies (copy_struct
    [("TypeMeta", assign);
     ("ObjectMeta", ext_into "metav1.ObjectMeta");
     ("Spec", assign);
     ("Status", DeepCopyInto TenantStateStatus_copies)]).
Definition TenantStateList_copies : Copies :=
  object_copies (copy_struct
    [("TypeMeta", assign);
     ("ListMeta", ext_into "metav1.ListMeta");
     ("Items", if_set (make_slice (DeepCopyInto TenantState_copies)))]).
Definition DNSSettings_copies : Copies :=
  copies (copy_struct
    [("WildcardDomain", if_set (new_copy assign));
     ("AllowExplicitHostnames", if_set (new_copy assign));
     ("UseDNSAnnotations", if_set (new_copy assign));
     ("UseCertificateAnnotations", if_set (new_copy assign))]).
Definition TenantSpec_copies : Copies :=
  copies (copy_struct
    [("AnnotationSettings", DeepCopyInto AnnotationSettings_copies);
     ("LoadBalancer", DeepCopyInto LoadBalancerSettings_copies);
     ("Ingress", DeepCopyInto IngressSettings_copies);
     ("GatewayAPI", DeepCopyInto GatewayAPISettings_copies);
     ("DNS", DeepCopyInto DNSSettings_copies);
     ("Certificates", DeepCopyInto CertificatesSettings_copies)]).
Definition TenantStatus_copies : Copies := copies (copy_struct []).
Definition Tenant_copies : Copies :=
  object_copies (copy_struct
    [("TypeMeta", assign);
     ("ObjectMeta", ext_into "metav1.ObjectMeta");
     ("Spec", DeepCopyInto TenantSpec_copies);
     ("Status", assign)]).
Definition TenantList_copies : Copies :=
  object_copies (copy_struct
    [("TypeMeta", assign);
     ("ListMeta", ext_into "metav1.ListMeta");
     ("Items", if_set (make_slice (DeepCopyInto Tenant_copies)))]).

(** The types with functions for pointers. *)
Definition functions : list (string * gotype * Copies) :=
  [("EndpointAddress", EndpointAddress, EndpointAddress_copies);
   ("AddressesSpec", AddressesSpec, AddressesSpec_copies);
   ("AddressesStatus", AddressesStatus, AddressesStatus_copies);
   ("Addresses", Addresses, Addresses_copies);
   ("AddressesList", AddressesList, AddressesList_copies);
   ("EndpointPort", EndpointPort, EndpointPort_copies);
   ("LoadBalancerEndpoints", LoadBalancerEndpoints, LoadBalancerEndpoints_copies);
   ("AnnotationSettings", AnnotationSettings, AnnotationSettings_copies);
   ("CertificatesSettings", CertificatesSettings, CertificatesSettings_copies);
   ("ConfigDNSSettings", ConfigDNSSettings, ConfigDNSSettings_copies);
   ("EnvoyProxyGracefulShutdown", EnvoyProxyGracefulShutdown, EnvoyProxyGracefulShutdown_copies);
   ("EnvoyProxyOverloadManager", EnvoyProxyOverloadManager, EnvoyProxyOverloadManager_copies);
   ("EnvoyProxy", EnvoyProxy, EnvoyProxy_copies);
   ("GatewayAPISettings", GatewayAPISettings, GatewayAPISettings_copies);
   ("IngressSettings", IngressSettings, IngressSettings_copies);
   ("LoadBalancerSettings", LoadBalancerSettings, LoadBalancerSettings_copies);
   ("ConfigSpec", ConfigSpec, ConfigSpec_copies);
   ("Config", Config, Config_copies);
   ("ConfigList", ConfigList, ConfigList_copies);
   ("HostnameStatus", HostnameStatus, HostnameStatus_copies);
   ("ServicePort", ServicePort, ServicePort_copies);
   ("ServiceStatus", ServiceStatus, ServiceStatus_copies);
   ("LoadBalancerStatus", LoadBalancerStatus, LoadBalancerStatus_copies);
   ("LoadBalancerPort", LoadBalancerPort, LoadBalancerPort_copies);
   ("LoadBalancerSpec", LoadBalancerSpec, LoadBalancerSpec_copies);
   ("LoadBalancer", LoadBalancer, LoadBalancer_copies);
   ("LoadBalancerList", LoadBalancerList, LoadBalancerList_copies);
   ("UpstreamService", UpstreamService, UpstreamService_copies);
   ("KubernetesSource", KubernetesSource, KubernetesSource_copies);
   ("RouteSource", RouteSource, RouteSource_copies);
   ("RouteSpec", RouteSpec, RouteSpec_copies);
   ("ResourceState", ResourceState, ResourceState_copies);
   ("RouteServiceStatus", RouteServiceStatus, RouteServiceStatus_copies);
   ("RouteResourcesStatus", RouteResourcesStatus, RouteResourcesStatus_copies);
   ("RouteStatus", RouteStatus, RouteStatus_copies);
   ("Route", Route, Route_copies);
   ("RouteList", RouteList, RouteList_copies);
   ("SyncSecret", SyncSecret, SyncSecret_copies);
   ("SyncSecretList", SyncSecretList, SyncSecretList_copies);
   ("TenantStateSpec", TenantStateSpec, TenantStateSpec_copies);
   ("LoadBalancerState", LoadBalancerState, LoadBalancerState_copies);
   ("Version", Version, Version_copies);
   ("TenantStateStatus", TenantStateStatus, TenantStateStatus_copies);
   ("TenantState", TenantState, TenantState_copies);
   ("TenantStateList", TenantStateList, TenantStateList_copies);
   ("DNSSettings", DNSSettings, DNSSettings_copies);
   ("TenantSpec", TenantSpec, TenantSpec_copies);
   ("TenantStatus", TenantStatus, TenantStatus_copies);
   ("Tenant", Tenant, Tenant_copies);
   ("TenantList", TenantList, TenantList_copies)].
End types.

(** ** Every function makes deep copies *)

Section deep.
Context `{ExternalLaws} `{MapRange}.

Lemma ce_EndpointAddress_deep : deep EndpointAddress (DeepCopyInto EndpointAddress_copies).
Proof. deep_struct. Qed.
#[local] Hint Resolve ce_EndpointAddress_deep : deepcopy.
Lemma ce_AddressesSpec_deep : deep AddressesSpec (DeepCopyInto AddressesSpec_copies).
Proof. deep_struct. Qed.
#[local] Hint Resolve ce_AddressesSpec_deep : deepcopy.
Lemma ce_AddressesStatus_deep : deep AddressesStatus (DeepCopyInto AddressesStatus_copies).
Proof. deep_struct. Qed.
#[local] Hint Resolve ce_AddressesStatus_deep : deepcopy.
Lemma ce_Addresses_deep : deep Addresses (DeepCopyInto Addresses_copies).
Proof. deep_struct. Qed.
#[local] Hint Resolve ce_Addresses_deep : deepcopy.
Lemma ce_AddressesList_deep : deep AddressesList (DeepCopyInto AddressesList_copies).
Proof. deep_struct. Qed.
#[local] Hint Resolve ce_AddressesList_deep : deepcopy.
Lemma ce_EndpointPort_deep : deep EndpointPort (DeepCopyInto EndpointPort_copies).
Proof. deep_struct. Qed.
#[local] Hint Resolve ce_EndpointPort_deep : deepcopy.
Lemma ce_LoadBalancerEndpoints_deep : deep LoadBalancerEndpoints (DeepCopyInto LoadBalancerEndpoints_copies).
Proof. deep_struct. Qed.
#[local] Hint Resolve ce_LoadBalancerEndpoints_deep : deepcopy.
Lemma ce_AnnotationSettings_deep : deep AnnotationSettings (DeepCopyInto AnnotationSettings_copies).
Proof. deep_struct. Qed.
#[local] Hint Resolve ce_AnnotationSettings_deep : deepcopy.
Lemma ce_CertificatesSettings_deep : deep CertificatesSettings (DeepCopyInto CertificatesSettings_copies).
Proof. deep_struct. Qed.
#[local] Hint Resolve ce_CertificatesSettings_deep : deepcopy.
Lemma ce_ConfigDNSSettings_deep : deep ConfigDNSSettings (DeepCopyInto ConfigDNSSettings_copies).
Proof. deep_struct. Qed.
#[local] Hint Resolve ce_ConfigDNSSettings_deep : deepcopy.
Lemma ce_EnvoyProxyGracefulShutdown_deep : deep EnvoyProxyGracefulShutdown (DeepCopyInto EnvoyProxyGracefulShutdown_copies).
Proof. deep_struct. Qed.
#[local] Hint Resolve ce_EnvoyProxyGracefulShutdown_deep : deepcopy.
Lemma ce_EnvoyProxyOverloadManager_deep : deep EnvoyProxyOverloadManager (DeepCopyInto EnvoyProxyOverloadManager_copies).
Proof. deep_struct. Qed.
#[local] Hint Resolve ce_EnvoyProxyOverloadManager_deep : deepcopy.
Lemma ce_EnvoyProxy_deep : deep EnvoyProxy (DeepCopyInto EnvoyProxy_copies).
Proof. deep_struct. Qed.
#[local] Hint Resolve ce_EnvoyProxy_deep : deepcopy.
Lemma ce_GatewayAPISettings_deep : deep GatewayAPISettings (DeepCopyInto GatewayAPISettings_copies).
Proof. deep_struct. Qed.
#[local] Hint Resolve ce_GatewayAPISettings_deep : deepcopy.
Lemma ce_IngressSettings_deep : deep IngressSettings (DeepCopyInto IngressSettings_copies).
Proof. deep_struct. Qed.
#[local] Hint Resolve ce_IngressSettings_deep : deepcopy.
Lemma ce_LoadBalancerSettings_deep : deep LoadBalancerSettings (DeepCopyInto LoadBalancerSettings_copies).
Proof. deep_struct. Qed.
#[local] Hint Resolve ce_LoadBalancerSettings_deep : deepcopy.
Lemma ce_ConfigSpec_deep : deep ConfigSpec (DeepCopyInto ConfigSpec_copies).
Proof. deep_struct. Qed.
#[local] Hint Resolve ce_ConfigSpec_deep : deepcopy.
Lemma ce_Config_deep : deep Config (DeepCopyInto Config_copies).
Proof. deep_struct. Qed.
#[local] Hint Resolve ce_Config_deep : deepcopy.
Lemma ce_ConfigList_deep : deep ConfigList (DeepCopyInto ConfigList_copies).
Proof. deep_struct. Qed.
#[local] Hint Resolve ce_ConfigList_deep : deepcopy.
Lemma ce_HostnameStatus_deep : deep HostnameStatus (DeepCopyInto HostnameStatus_copies).
Proof. deep_struct. Qed.
#[local] Hint Resolve ce_HostnameStatus_deep : deepcopy.
Lemma ce_ServicePort_deep : deep ServicePort (DeepCopyInto ServicePort_copies).
Proof. deep_struct. Qed.
#[local] Hint Resolve ce_ServicePort_deep : deepcopy.
Lemma ce_ServiceStatus_deep : deep ServiceStatus (DeepCopyInto ServiceStatus_copies).
Proof. deep_struct. Qed.
#[local] Hint Resolve ce_ServiceStatus_deep : deepcopy.
Lemma ce_LoadBalancerStatus_deep : deep LoadBalancerStatus (DeepCopyInto LoadBalancerStatus_copies).
Proof. deep_struct. Qed.
#[local] Hint Resolve ce_LoadBalancerStatus_deep : deepcopy.
Lemma ce_LoadBalancerPort_deep : deep LoadBalancerPort (DeepCopyInto LoadBalancerPort_copies).
Proof. deep_struct. Qed.
#[local] Hint Resolve ce_LoadBalancerPort_deep : deepcopy.
Lemma ce_LoadBalancerSpec_deep : deep LoadBalancerSpec (DeepCopyInto LoadBalancerSpec_copies).
Proof. deep_struct. Qed.
#[local] Hint Resolve ce_LoadBalancerSpec_deep : deepcopy.
Lemma ce_LoadBalancer_deep : deep LoadBalancer (DeepCopyInto LoadBalancer_copies).
Proof. deep_struct. Qed.
#[local] Hint Resolve ce_LoadBalancer_deep : deepcopy.
Lemma ce_LoadBalancerList_deep : deep LoadBalancerList (DeepCopyInto LoadBalancerList_copies).
Proof. deep_struct. Qed.
#[local] Hint Resolve ce_LoadBalancerList_deep : deepcopy.
Lemma ce_UpstreamService_deep : deep UpstreamService (DeepCopyInto UpstreamService_copies).
Proof. deep_struct. Qed.
#[local] Hint Resolve ce_UpstreamService_deep : deepcopy.
Lemma ce_KubernetesSource_deep : deep KubernetesSource (DeepCopyInto KubernetesSource_copies).
Proof. deep_struct. Qed.
#[local] Hint Resolve ce_KubernetesSource_deep : deepcopy.
Lemma ce_RouteSource_deep : deep RouteSource (DeepCopyInto RouteSource_copies).
Proof. deep_struct. Qed.
#[local] Hint Resolve ce_RouteSource_deep : deepcopy.
Lemma ce_RouteSpec_deep : deep RouteSpec (DeepCopyInto RouteSpec_copies).
Proof. deep_struct. Qed.
#[local] Hint Resolve ce_RouteSpec_deep : deepcopy.
Lemma ce_ResourceState_deep : deep ResourceState (DeepCopyInto ResourceState_copies).
Proof. deep_struct. Qed.
#[local] Hint Resolve ce_ResourceState_deep : deepcopy.
Lemma ce_RouteServiceStatus_deep : deep RouteServiceStatus (DeepCopyInto RouteServiceStatus_copies).
Proof. deep_struct. Qed.
#[local] Hint Resolve ce_RouteServiceStatus_deep : deepcopy.
Lemma ce_RouteResourcesStatus_deep : deep RouteResourcesStatus (DeepCopyInto RouteResourcesStatus_copies).
Proof. deep_struct. Qed.
#[local] Hint Resolve ce_RouteResourcesStatus_deep : deepcopy.
Lemma ce_RouteStatus_deep : deep RouteStatus (DeepCopyInto RouteStatus_copies).
Proof. deep_struct. Qed.
#[local] Hint Resolve ce_RouteStatus_deep : deepcopy.
Lemma ce_Route_deep : deep Route (DeepCopyInto Route_copies).
Proof. deep_struct. Qed.
#[local] Hint Resolve ce_Route_deep : deepcopy.
Lemma ce_RouteList_deep : deep RouteList (DeepCopyInto RouteList_copies).
Proof. deep_struct. Qed.
#[local] Hint Resolve ce_RouteList_deep : deepcopy.
Lemma ce_SyncSecret_deep : deep SyncSecret (DeepCopyInto SyncSecret_copies).
Proof. deep_struct. Qed.
#[local] Hint Resolve ce_SyncSecret_deep : deepcopy.
Lemma ce_SyncSecretList_deep : deep SyncSecretList (DeepCopyInto SyncSecretList_copies).
Proof. deep_struct. Qed.
#[local] Hint Resolve ce_SyncSecretList_deep : deepcopy.
Lemma ce_TenantStateSpec_deep : deep TenantStateSpec (DeepCopyInto TenantStateSpec_copies).
Proof. deep_struct. Qed.
#[local] Hint Resolve ce_TenantStateSpec_deep : deepcopy.
Lemma ce_LoadBalancerState_deep : deep LoadBalancerState (DeepCopyInto LoadBalancerState_copies).
Proof. deep_struct. Qed.
#[local] Hint Resolve ce_LoadBalancerState_deep : deepcopy.
Lemma ce_Version_deep : deep Version (DeepCopyInto Version_copies).
Proof. deep_struct. Qed.
#[local] Hint Resolve ce_Version_deep : deepcopy.
Lemma ce_TenantStateStatus_deep : deep TenantStateStatus (DeepCopyInto TenantStateStatus_copies).
Proof. deep_struct. Qed.
#[local] Hint Resolve ce_TenantStateStatus_deep : deepcopy.
Lemma ce_TenantState_deep : deep TenantState (DeepCopyInto TenantState_copies).
Proof. deep_struct. Qed.
#[local] Hint Resolve ce_TenantState_deep : deepcopy.
Lemma ce_TenantStateList_deep : deep TenantStateList (DeepCopyInto TenantStateList_copies).
Proof. deep_struct. Qed.
#[local] Hint Resolve ce_TenantStateList_deep : deepcopy.
Lemma ce_DNSSettings_deep : deep DNSSettings (DeepCopyInto DNSSettings_copies).
Proof. deep_struct. Qed.
#[local] Hint Resolve ce_DNSSettings_deep : deepcopy.
Lemma ce_TenantSpec_deep : deep TenantSpec (DeepCopyInto TenantSpec_copies).
Proof. deep_struct. Qed.
#[local] Hint Resolve ce_TenantSpec_deep : deepcopy.
Lemma ce_TenantStatus_deep : deep TenantStatus (DeepCopyInto TenantStatus_copies).
Proof. deep_struct. Qed.
#[local] Hint Resolve ce_TenantStatus_deep : deepcopy.
Lemma ce_Tenant_deep : deep Tenant (DeepCopyInto Tenant_copies).
Proof. deep_struct. Qed.
#[local] Hint Resolve ce_Tenant_deep : deepcopy.
Lemma ce_TenantList_deep : deep TenantList (DeepCopyInto TenantList_copies).
Proof. deep_struct. Qed.
#[local] Hint Resolve ce_TenantList_deep : deepcopy.

Lemma ce_functions_deep : Forall (λ f, deep f.1.2 (DeepCopyInto f.2)) functions.
Proof.
  unfold functions. next ce_EndpointAddress_deep. next ce_AddressesSpec_deep. next ce_AddressesStatus_deep. next
  ce_Addresses_deep. next ce_AddressesList_deep. next ce_EndpointPort_deep. next
  ce_LoadBalancerEndpoints_deep. next ce_AnnotationSettings_deep. next ce_CertificatesSettings_deep. next
  ce_ConfigDNSSettings_deep. next ce_EnvoyProxyGracefulShutdown_deep. next ce_EnvoyProxyOverloadManager_deep.
  next ce_EnvoyProxy_deep. next ce_GatewayAPISettings_deep. next ce_IngressSettings_deep. next
  ce_LoadBalancerSettings_deep. next ce_ConfigSpec_deep. next ce_Config_deep. next ce_ConfigList_deep. next
  ce_HostnameStatus_deep. next ce_ServicePort_deep. next ce_ServiceStatus_deep. next
  ce_LoadBalancerStatus_deep. next ce_LoadBalancerPort_deep. next ce_LoadBalancerSpec_deep. next
  ce_LoadBalancer_deep. next ce_LoadBalancerList_deep. next ce_UpstreamService_deep. next
  ce_KubernetesSource_deep. next ce_RouteSource_deep. next ce_RouteSpec_deep. next ce_ResourceState_deep. next
  ce_RouteServiceStatus_deep. next ce_RouteResourcesStatus_deep. next ce_RouteStatus_deep. next ce_Route_deep.
  next ce_RouteList_deep. next ce_SyncSecret_deep. next ce_SyncSecretList_deep. next ce_TenantStateSpec_deep.
  next ce_LoadBalancerState_deep. next ce_Version_deep. next ce_TenantStateStatus_deep. next
  ce_TenantState_deep. next ce_TenantStateList_deep. next ce_DNSSettings_deep. next ce_TenantSpec_deep. next
  ce_TenantStatus_deep. next ce_Tenant_deep. next ce_TenantList_deep. by apply list.Forall_nil.
Qed.
End deep.
End CE.
