(* ===== verification/ApiTypesEE.v ===== *)
(** * The API types of the enterprise edition and their deep copies

    The types of api/ee/kubelb.k8c.io/v1alpha1, field by field with their JSON tags, and the
    functions of its zz_generated.deepcopy.go; every [DeepCopyInto] makes deep copies. *)
From stdpp Require Import base list strings.
From S2P Require Import Prelude DeepCopy.

Module EE.
Section types.
Context `{External} `{MapRange}.

(** ** Types *)

Definition Annotations : gotype := Map Basic.
Definition AnnotatedResource : gotype := Basic.
Definition EnvoyProxyTopology : gotype := Basic.
Definition ConditionType : gotype := Basic.
Definition TunnelPhase : gotype := Basic.
Definition WAFFailureMode : gotype := Basic.
Definition EndpointAddress : gotype :=
  Struct
    [("IP", "ip", Basic);
     ("Hostname", "hostname,omitempty", Basic)].
Definition AddressesSpec : gotype :=
  Struct
    [("Addresses", "addresses,omitempty", Slice EndpointAddress)].
Definition AddressesStatus : gotype := Struct [].
Definition Addresses : gotype :=
  Struct
    [("TypeMeta", ",inline", ext "metav1.TypeMeta");
     ("ObjectMeta", "metadata,omitempty", ext "metav1.ObjectMeta");
     ("Spec", "spec,omitempty", AddressesSpec);
     ("Status", "status,omitempty", AddressesStatus)].
Definition AddressesList : gotype :=
  Struct
    [("TypeMeta", ",inline", ext "metav1.TypeMeta");
     ("ListMeta", "metadata,omitempty", ext "metav1.ListMeta");
     ("Items", "items", Slice Addresses)].
Definition EndpointPort : gotype :=
  Struct
    [("Name", "name,omitempty", Basic);
     ("Port", "port", Basic);
     ("Protocol", "protocol,omitempty", ext "corev1.Protocol")].
Definition LoadBalancerEndpoints : gotype :=
  Struct
    [("Name", "name,omitempty", Basic);
     ("Addresses", "addresses,omitempty", Slice EndpointAddress);
     ("AddressesReference", "addressesReference,omitempty", Pointer (ext "corev1.ObjectReference"));
     ("Ports", "ports,omitempty", Slice EndpointPort)].
Definition AnnotationSettings : gotype :=
  Struct
    [("PropagatedAnnotations", "propagatedAnnotations,omitempty", Pointer (Map Basic));
     ("PropagateAllAnnotations", "propagateAllAnnotations,omitempty", Pointer Basic);
     ("DefaultAnnotations", "defaultAnnotations,omitempty", Map Annotations)].
Definition PerEndpointCircuitBreaker : gotype :=
  Struct
    [("MaxConnections", "maxConnections,omitempty", Pointer Basic)].
Definition CircuitBreaker : gotype :=
  Struct
    [("MaxConnections", "maxConnections,omitempty", Pointer Basic);
     ("MaxPendingRequests", "maxPendingRequests,omitempty", Pointer Basic);
     ("MaxParallelRequests", "maxParallelRequests,omitempty", Pointer Basic);
     ("MaxParallelRetries", "maxParallelRetries,omitempty", Pointer Basic);
     ("MaxRequestsPerConnection", "maxRequestsPerConnection,omitempty", Pointer Basic);
     ("PerEndpoint", "perEndpoint,omitempty", Pointer PerEndpointCircuitBreaker)].
Definition ConfigCertificatesSettings : gotype :=
  Struct
    [("Disable", "disable,omitempty", Basic);
     ("DefaultClusterIssuer", "defaultClusterIssuer,omitempty", Pointer Basic)].
Definition ConfigDNSSettings : gotype :=
  Struct
    [("Disable", "disable,omitempty", Basic);
     ("WildcardDomain", "wildcardDomain,omitempty", Basic);
     ("AllowExplicitHostnames", "allowExplicitHostnames,omitempty", Basic);
     ("UseDNSAnnotations", "useDNSAnnotations,omitempty", Basic);
     ("UseCertificateAnnotations", "useCertificateAnnotations,omitempty", Basic)].
Definition EnvoyProxyGracefulShutdown : gotype :=
  Struct
    [("Disabled", "disabled,omitempty", Basic);
     ("DrainTimeout", "drainTimeout,omitempty", Pointer (ext "metav1.Duration"));
     ("MinDrainDuration", "minDrainDuration,omitempty", Pointer (ext "metav1.Duration"));
     ("TerminationGracePeriodSeconds", "terminationGracePeriodSeconds,omitempty", Pointer Basic);
     ("ShutdownManagerImage", "shutdownManagerImage,omitempty", Basic)].
Definition EnvoyProxyOverloadManager : gotype :=
  Struct
    [("Enabled", "enabled,omitempty", Basic);
     ("MaxActiveDownstreamConnections", "maxActiveDownstreamConnections,omitempty", Basic);
     ("MaxHeapSizeBytes", "maxHeapSizeBytes,omitempty", Basic)].
Definition EnvoyProxy : gotype :=
  Struct
    [("Topology", "topology,omitempty", EnvoyProxyTopology);
     ("UseDaemonset", "useDaemonset,omitempty", Basic);
     ("Replicas", "replicas,omitempty", Basic);
     ("SinglePodPerNode", "singlePodPerNode,omitempty", Basic);
     ("NodeSelector", "nodeSelector,omitempty", Map Basic);
     ("Tolerations", "tolerations,omitempty", Slice (ext "corev1.Toleration"));
     ("Resources", "resources,omitempty", Pointer (ext "corev1.ResourceRequirements"));
     ("Affinity", "affinity,omitempty", Pointer (ext "corev1.Affinity"));
     ("Image", "image,omitempty", Basic);
     ("GracefulShutdown", "gracefulShutdown,omitempty", Pointer EnvoyProxyGracefulShutdown);
     ("OverloadManager", "overloadManager,omitempty", Pointer EnvoyProxyOverloadManager)].
Definition GatewayAPIsSettings : gotype :=
  Struct
    [("DisableHTTPRoute", "disableHTTPRoute,omitempty", Basic);
     ("DisableGRPCRoute", "disableGRPCRoute,omitempty", Basic);
     ("DisableTCPRoute", "disableTCPRoute,omitempty", Basic);
     ("DisableUDPRoute", "disableUDPRoute,omitempty", Basic);
     ("DisableTLSRoute", "disableTLSRoute,omitempty", Basic);
     ("DisableBackendTrafficPolicy", "disableBackendTrafficPolicy,omitempty", Basic);
     ("DisableClientTrafficPolicy", "disableClientTrafficPolicy,omitempty", Basic)].
Definition GatewaySettings : gotype :=
  Struct
    [("Limit", "limit,omitempty", Pointer Basic)].
Definition GatewayAPISettings : gotype :=
  Struct
    [("Class", "class,omitempty", Pointer Basic);
     ("Disable", "disable,omitempty", Basic);
     ("DefaultGateway", "defaultGateway,omitempty", Pointer (ext "corev1.ObjectReference"));
     ("GatewaySettings", "gateway,omitempty", GatewaySettings);
     ("GatewayAPIsSettings", ",inline", GatewayAPIsSettings)].
Definition IngressSettings : gotype :=
  Struct
    [("Class", "class,omitempty", Pointer Basic);
     ("Disable", "disable,omitempty", Basic)].
Definition LoadBalancerSettings : gotype :=
  Struct
    [("Class", "class,omitempty", Pointer Basic);
     ("Limit", "limit,omitempty", Pointer Basic);
     ("Disable", "disable,omitempty", Basic)].
Definition TunnelSettings : gotype :=
  Struct
    [("Limit", "limit,omitempty", Pointer Basic);
     ("ConnectionManagerURL", "connectionManagerURL,omitempty", Basic);
     ("Disable", "disable,omitempty", Basic)].
Definition WAFSettings : gotype :=
  Struct
    [("WASMInitContainerImage", "wasmInitContainerImage,omitempty", Basic);
     ("SkipValidation", "skipValidation,omitempty", Basic)].
Definition ConfigSpec : gotype :=
  Struct
    [("AnnotationSettings", ",inline", AnnotationSettings);
     ("EnvoyProxy", "envoyProxy,omitempty", EnvoyProxy);
     ("LoadBalancer", "loadBalancer,omitempty", LoadBalancerSettings);
     ("Ingress", "ingress,omitempty", IngressSettings);
     ("GatewayAPI", "gatewayAPI,omitempty", GatewayAPISettings);
     ("DNS", "dns,omitempty", ConfigDNSSettings);
     ("Certificates", "certificates,omitempty", ConfigCertificatesSettings);
     ("Tunnel", "tunnel,omitempty", TunnelSettings);
     ("CircuitBreaker", "circuitBreaker,omitempty", Pointer CircuitBreaker);
     ("WAF", "waf,omitempty", WAFSettings)].
Definition Config : gotype :=
  Struct
    [("TypeMeta", ",inline", ext "metav1.TypeMeta");
     ("ObjectMeta", "metadata,omitempty", ext "metav1.ObjectMeta");
     ("Spec", "spec,omitempty", ConfigSpec)].
Definition ConfigList : gotype :=
  Struct
    [("TypeMeta", ",inline", ext "metav1.TypeMeta");
     ("ListMeta", "metadata,omitempty", ext "metav1.ListMeta");
     ("Items", "items", Slice Config)].
Definition HostnameStatus : gotype :=
  Struct
    [("Hostname", "hostname,omitempty", Basic);
     ("TLSEnabled", "tlsEnabled,omitempty", Basic);
     ("DNSRecordCreated", "dnsRecordCreated,omitempty", Basic)].
Definition ServicePort : gotype :=
  Struct
    [("ServicePort", ",inline", ext "corev1.ServicePort");
     ("UpstreamTargetPort", "upstreamTargetPort", Basic)].
Definition ServiceStatus : gotype :=
  Struct
    [("Ports", "ports,omitempty", Slice ServicePort)].
Definition LoadBalancerStatus : gotype :=
  Struct
    [("LoadBalancer", "loadBalancer,omitempty", ext "corev1.LoadBalancerStatus");
     ("Service", "service,omitempty", ServiceStatus);
     ("Hostname", "hostname,omitempty", Pointer HostnameStatus)].
Definition LoadBalancerPort : gotype :=
  Struct
    [("Name", "name,omitempty", Basic);
     ("Protocol", "protocol,omitempty", ext "corev1.Protocol");
     ("Port", "port", Basic)].
Definition LoadBalancerSpec : gotype :=
  Struct
    [("Endpoints", "endpoints,omitempty", Slice LoadBalancerEndpoints);
     ("Ports", "ports,omitempty", Slice LoadBalancerPort);
     ("Hostname", "hostname,omitempty", Basic);
     ("Type", "type,omitempty", ext "corev1.ServiceType")].
Definition LoadBalancer : gotype :=
  Struct
    [("TypeMeta", ",inline", ext "metav1.TypeMeta");
     ("ObjectMeta", "metadata,omitempty", ext "metav1.ObjectMeta");
     ("Spec", "spec,omitempty", LoadBalancerSpec);
     ("Status", "status,omitempty", LoadBalancerStatus)].
Definition LoadBalancerList : gotype :=
  Struct
    [("TypeMeta", ",inline", ext "metav1.TypeMeta");
     ("ListMeta", "metadata,omitempty", ext "metav1.ListMeta");
     ("Items", "items", Slice LoadBalancer)].
Definition UpstreamService : gotype :=
  Struct
    [("Service", ",inline", ext "corev1.Service")].
Definition KubernetesSource : gotype :=
  Struct
    [("Route", "resource,omitempty", ext "unstructured.Unstructured");
     ("Services", "services,omitempty", Slice UpstreamService)].
Definition RouteSource : gotype :=
  Struct
    [("Kubernetes", "kubernetes,omitempty", Pointer KubernetesSource)].
Definition RouteSpec : gotype :=
  Struct
    [("Endpoints", "endpoints,omitempty", Slice LoadBalancerEndpoints);
     ("Source", "source,omitempty", RouteSource)].
Definition ResourceState : gotype :=
  Struct
    [("APIVersion", "apiVersion,omitempty", Basic);
     ("Kind", "kind,omitempty", Basic);
     ("Name", "name,omitempty", Basic);
     ("Namespace", "namespace,omitempty", Basic);
     ("GeneratedName", "generatedName,omitempty", Basic);
     ("Status", "status,omitempty", ext "runtime.RawExtension");
     ("Conditions", "conditions,omitempty", Slice (ext "metav1.Condition"))].
Definition RouteServiceStatus : gotype :=
  Struct
    [("ResourceState", ",inline", ResourceState);
     ("Ports", "ports,omitempty", Slice (ext "corev1.ServicePort"))].
Definition RouteResourcesStatus : gotype :=
  Struct
    [("Source", "source,omitempty", Basic);
     ("Services", "services,omitempty", Map RouteServiceStatus);
     ("Route", "route,omitempty", ResourceState)].
Definition RouteStatus : gotype :=
  Struct
    [("Resources", "resources,omitempty", RouteResourcesStatus)].
Definition Route : gotype :=
  Struct
    [("TypeMeta", ",inline", ext "metav1.TypeMeta");
     ("ObjectMeta", "metadata,omitempty", ext "metav1.ObjectMeta");
     ("Spec", "spec,omitempty", RouteSpec);
     ("Status", "status,omitempty", RouteStatus)].
Definition RouteList : gotype :=
  Struct
    [("TypeMeta", ",inline", ext "metav1.TypeMeta");
     ("ListMeta", "metadata,omitempty", ext "metav1.ListMeta");
     ("Items", "items", Slice Route)].
Definition SyncSecret : gotype :=
  Struct
    [("TypeMeta", ",inline", ext "metav1.TypeMeta");
     ("ObjectMeta", "metadata,omitempty", ext "metav1.ObjectMeta");
     ("Immutable", "immutable,omitempty", Pointer Basic);
     ("Data", "data,omitempty", Map (Slice Basic));
     ("StringData", "stringData,omitempty", Map Basic);
     ("Type", "type,omitempty", ext "corev1.SecretType")].
Definition SyncSecretList : gotype :=
  Struct
    [("TypeMeta", ",inline", ext "metav1.TypeMeta");
     ("ListMeta", "metadata,omitempty", ext "metav1.ListMeta");
     ("Items", "items", Slice SyncSecret)].
Definition TenantStateSpec : gotype := Struct [].
Definition LoadBalancerState : gotype :=
  Struct
    [("Disable", "disable,omitempty", Basic);
     ("Limit", "limit,omitempty", Basic)].
Definition TunnelState : gotype :=
  Struct
    [("Disable", "disable,omitempty", Basic);
     ("Limit", "limit,omitempty", Basic);
     ("ConnectionManagerURL", "connectionManagerURL,omitempty", Basic)].
Definition Version : gotype :=
  Struct
    [("GitVersion", "gitVersion,omitempty", Basic);
     ("GitCommit", "gitCommit,omitempty", Basic);
     ("BuildDate", "buildDate,omitempty", Basic);
     ("Edition", "edition,omitempty", Basic)].
Definition TenantStateStatus : gotype :=
  Struct
    [("Version", "version,omitempty", Version);
     ("LastUpdated", "lastUpdated,omitempty", ext "metav1.Time");
     ("Conditions", "conditions,omitempty", Slice (ext "metav1.Condition"));
     ("Tunnel", "tunnel,omitempty", TunnelState);
     ("LoadBalancer", "loadBalancer,omitempty", LoadBalancerState);
     ("AllowedDomains", "allowedDomains,omitempty", Slice Basic)].
Definition TenantState : gotype :=
  Struct
    [("TypeMeta", ",inline", ext "metav1.TypeMeta");
     ("ObjectMeta", "metadata,omitempty", ext "metav1.ObjectMeta");
     ("Spec", "spec,omitempty", TenantStateSpec);
     ("Status", "status,omitempty", TenantStateStatus)].
Definition TenantStateList : gotype :=
  Struct
    [("TypeMeta", ",inline", ext "metav1.TypeMeta");
     ("ListMeta", "metadata,omitempty", ext "metav1.ListMeta");
     ("Items", "items", Slice TenantState)].
Definition CertificatesSettings : gotype :=
  Struct
    [("Disable", "disable,omitempty", Basic);
     ("DefaultClusterIssuer", "defaultClusterIssuer,omitempty", Pointer Basic);
     ("AllowedDomains", "allowedDomains,omitempty", Slice Basic)].
Definition DNSSettings : gotype :=
  Struct
    [("Disable", "disable,omitempty", Basic);
     ("AllowedDomains", "allowedDomains,omitempty", Slice Basic);
     ("WildcardDomain", "wildcardDomain,omitempty", Pointer Basic);
     ("AllowExplicitHostnames", "allowExplicitHostnames,omitempty", Pointer Basic);
     ("UseDNSAnnotations", "useDNSAnnotations,omitempty", Pointer Basic);
     ("UseCertificateAnnotations", "useCertificateAnnotations,omitempty", Pointer Basic)].
Definition TenantTunnelSettings : gotype :=
  Struct
    [("Limit", "limit,omitempty", Pointer Basic);
     ("Disable", "disable,omitempty", Basic)].
Definition TenantSpec : gotype :=
  Struct
    [("AnnotationSettings", ",inline", AnnotationSettings);
     ("LoadBalancer", "loadBalancer,omitempty", LoadBalancerSettings);
     ("Ingress", "ingress,omitempty", IngressSettings);
     ("GatewayAPI", "gatewayAPI,omitempty", GatewayAPISettings);
     ("DNS", "dns,omitempty", DNSSettings);
     ("Certificates", "certificates,omitempty", CertificatesSettings);
     ("Tunnel", "tunnel,omitempty", TenantTunnelSettings);
     ("CircuitBreaker", "circuitBreaker,omitempty", Pointer CircuitBreaker);
     ("AllowedDomains", "allowedDomains,omitempty", Slice Basic)].
Definition TenantStatus : gotype := Struct [].
Definition Tenant : gotype :=
  Struct
    [("TypeMeta", ",inline", ext "metav1.TypeMeta");
     ("ObjectMeta", "metadata,omitempty", ext "metav1.ObjectMeta");
     ("Spec", "spec,omitempty", TenantSpec);
     ("Status", "status,omitempty", TenantStatus)].
Definition TenantList : gotype :=
  Struct
    [("TypeMeta", ",inline", ext "metav1.TypeMeta");
     ("ListMeta", "metadata,omitempty", ext "metav1.ListMeta");
     ("Items", "items", Slice Tenant)].
Definition TunnelSpec : gotype :=
  Struct
    [("Hostname", "hostname,omitempty", Basic)].
Definition TunnelResources : gotype :=
  Struct
    [("ServiceName", "serviceName,omitempty", Basic);
     ("RouteRef", "routeRef,omitempty", Pointer (ext "corev1.ObjectReference"))].
Definition TunnelStatus : gotype :=
  Struct
    [("Hostname", "hostname,omitempty", Basic);
     ("URL", "url,omitempty", Basic);
     ("ConnectionManagerURL", "connectionManagerURL,omitempty", Basic);
     ("Phase", "phase,omitempty", TunnelPhase);
     ("Resources", "resources,omitempty", TunnelResources);
     ("Conditions", "conditions,omitempty", Slice (ext "metav1.Condition"))].
Definition Tunnel : gotype :=
  Struct
    [("TypeMeta", ",inline", ext "metav1.TypeMeta");
     ("ObjectMeta", "metadata,omitempty", ext "metav1.ObjectMeta");
     ("Spec", "spec,omitempty", TunnelSpec);
     ("Status", "status,omitempty", TunnelStatus)].
Definition TunnelList : gotype :=
  Struct
    [("TypeMeta", ",inline", ext "metav1.TypeMeta");
     ("ListMeta", "metadata,omitempty", ext "metav1.ListMeta");
     ("Items", "items", Slice Tunnel)].
Definition WAFTargetRef : gotype :=
  Struct
    [("Group", "group,omitempty", Basic);
     ("Kind", "kind", Basic);
     ("Namespace", "namespace,omitempty", Basic);
     ("Name", "name", Basic)].
Definition WAFPolicySpec : gotype :=
  Struct
    [("TargetRef", "targetRef,omitempty", Pointer WAFTargetRef);
     ("TargetSelector", "targetSelector,omitempty", Pointer (ext "metav1.LabelSelector"));
     ("Directives", "directives,omitempty", Slice Basic);
     ("FailureMode", "failureMode,omitempty", WAFFailureMode)].
Definition WAFPolicyStatus : gotype :=
  Struct
    [("Conditions", "conditions,omitempty", Slice (ext "metav1.Condition"))].
Definition WAFPolicy : gotype :=
  Struct
    [("TypeMeta", ",inline", ext "metav1.TypeMeta");
     ("ObjectMeta", "metadata,omitempty", ext "metav1.ObjectMeta");
     ("Spec", "spec,omitempty", WAFPolicySpec);
     ("Status", "status,omitempty", WAFPolicyStatus)].
Definition WAFPolicyList : gotype :=
  Struct
    [("TypeMeta", ",inline", ext "metav1.TypeMeta");
     ("ListMeta", "metadata,omitempty", ext "metav1.ListMeta");
     ("Items", "items", Slice WAFPolicy)].

(** ** Copy functions *)

Definition Annotations_copies : Copies :=
  {| DeepCopyInto := make_map assign; DeepCopy := if_set (copied_value (make_map assign)); DeepCopyObject := None |}.
Definition EndpointAddress_copies : Copies := copies (copy_struct []).
Definition AddressesSpec_copies : Copies :=
  copies (copy_struct
    [("Addresses", if_set (make_slice assign))]).
Definition AddressesStatus_copies : Copies := copies (copy_struct []).
Definition Addresses_copies : Copies :=
  object_copies (copy_struct
    [("TypeMeta", assign);
     ("ObjectMeta", ext_into "metav1.ObjectMeta");
     ("Spec", DeepCopyInto AddressesSpec_copies);
     ("Status", assign)]).
Definition AddressesList_copies : Copies :=
  object_copies (copy_struct
    [("TypeMeta", assign);
     ("ListMeta", ext_into "metav1.ListMeta");
     ("Items", if_set (make_slice (DeepCopyInto Addresses_copies)))]).
Definition EndpointPort_copies : Copies := copies (copy_struct []).
Definition LoadBalancerEndpoints_copies : Copies :=
  copies (copy_struct
    [("Addresses", if_set (make_slice assign));
     ("AddressesReference", if_set (new_copy assign));
     ("Ports", if_set (make_slice assign))]).
Definition AnnotationSettings_copies : Copies :=
  copies (copy_struct
    [("PropagatedAnnotations", if_set (new_copy (if_set (make_map assign))));
     ("PropagateAllAnnotations", if_set (new_copy assign));
     ("DefaultAnnotations", if_set (make_map (if_set (make_map assign))))]).
Definition PerEndpointCircuitBreaker_copies : Copies :=
  copies (copy_struct
    [("MaxConnections", if_set (new_copy assign))]).
Definition CircuitBreaker_copies : Copies :=
  copies (copy_struct
    [("MaxConnections", if_set (new_copy assign));
     ("MaxPendingRequests", if_set (new_copy assign));
     ("MaxParallelRequests", if_set (new_copy assign));
     ("MaxParallelRetries", if_set (new_copy assign));
     ("MaxRequestsPerConnection", if_set (new_copy assign));
     ("PerEndpoint", if_set (new_copy (DeepCopyInto PerEndpointCircuitBreaker_copies)))]).
Definition ConfigCertificatesSettings_copies : Copies :=
  copies (copy_struct
    [("DefaultClusterIssuer", if_set (new_copy assign))]).
Definition ConfigDNSSettings_copies : Copies := copies (copy_struct []).
Definition EnvoyProxyGracefulShutdown_copies : Copies :=
  copies (copy_struct
    [("DrainTimeout", if_set (new_copy assign));
     ("MinDrainDuration", if_set (new_copy assign));
     ("TerminationGracePeriodSeconds", if_set (new_copy assign))]).
Definition EnvoyProxyOverloadManager_copies : Copies := copies (copy_struct []).
Definition EnvoyProxy_copies : Copies :=
  copies (copy_struct
    [("NodeSelector", if_set (make_map assign));
     ("Tolerations", if_set (make_slice (ext_into "corev1.Toleration")));
     ("Resources", if_set (new_copy (ext_into "corev1.ResourceRequirements")));
     ("Affinity", if_set (new_copy (ext_into "corev1.Affinity")));
     ("GracefulShutdown", if_set (new_copy (DeepCopyInto EnvoyProxyGracefulShutdown_copies)));
     ("OverloadManager", if_set (new_copy assign))]).
Definition GatewayAPIsSettings_copies : Copies := copies (copy_struct []).
Definition GatewaySettings_copies : Copies :=
  copies (copy_struct
    [("Limit", if_set (new_copy assign))]).
Definition GatewayAPISettings_copies : Copies :=
  copies (copy_struct
    [("Class", if_set (new_copy assign));
     ("DefaultGateway", if_set (new_copy assign));
     ("GatewaySettings", DeepCopyInto GatewaySettings_copies);
     ("GatewayAPIsSettings", assign)]).
Definition IngressSettings_copies : Copies :=
  copies (copy_struct
    [("Class", if_set (new_copy assign))]).
Definition LoadBalancerSettings_copies : Copies :=
  copies (copy_struct
    [("Class", if_set (new_copy assign));
     ("Limit", if_set (new_copy assign))]).
Definition TunnelSettings_copies : Copies :=
  copies (copy_struct
    [("Limit", if_set (new_copy assign))]).
Definition WAFSettings_copies : Copies := copies (copy_struct []).
Definition ConfigSpec_copies : Copies :=
  copies (copy_struct
    [("AnnotationSettings", DeepCopyInto AnnotationSettings_copies);
     ("EnvoyProxy", DeepCopyInto EnvoyProxy_copies);
     ("LoadBalancer", DeepCopyInto LoadBalancerSettings_copies);
     ("Ingress", DeepCopyInto IngressSettings_copies);
     ("GatewayAPI", DeepCopyInto GatewayAPISettings_copies);
     ("DNS", assign);
     ("Certificates", DeepCopyInto ConfigCertificatesSettings_copies);
     ("Tunnel", DeepCopyInto TunnelSettings_copies);
     ("CircuitBreaker", if_set (new_copy (DeepCopyInto CircuitBreaker_copies)));
     ("WAF", assign)]).
Definition Config_copies : Copies :=
  object_copies (copy_struct
    [("TypeMeta", assign);
     ("ObjectMeta", ext_into "metav1.ObjectMeta");
     ("Spec", DeepCopyInto ConfigSpec_copies)]).
Definition ConfigList_copies : Copies :=
  object_copies (copy_struct
    [("TypeMeta", assign);
     ("ListMeta", ext_into "metav1.ListMeta");
     ("Items", if_set (make_slice (DeepCopyInto Config_copies)))]).
Definition HostnameStatus_copies : Copies := copies (copy_struct []).
Definition ServicePort_copies : Copies :=
  copies (copy_struct
    [("ServicePort", ext_into "corev1.ServicePort")]).
Definition ServiceStatus_copies : Copies :=
  copies (copy_struct
    [("Ports", if_set (make_slice (DeepCopyInto ServicePort_copies)))]).
Definition LoadBalancerStatus_copies : Copies :=
  copies (copy_struct
    [("LoadBalancer", ext_into "corev1.LoadBalancerStatus");
     ("Service", DeepCopyInto ServiceStatus_copies);
     ("Hostname", if_set (new_copy assign))]).
Definition LoadBalancerPort_copies : Copies := copies (copy_struct []).
Definition LoadBalancerSpec_copies : Copies :=
  copies (copy_struct
    [("Endpoints", if_set (make_slice (DeepCopyInto LoadBalancerEndpoints_copies)));
     ("Ports", if_set (make_slice assign))]).
Definition LoadBalancer_copies : Copies :=
  object_copies (copy_struct
    [("TypeMeta", assign);
     ("ObjectMeta", ext_into "metav1.ObjectMeta");
     ("Spec", DeepCopyInto LoadBalancerSpec_copies);
     ("Status", DeepCopyInto LoadBalancerStatus_copies)]).
Definition LoadBalancerList_copies : Copies :=
  object_copies (copy_struct
    [("TypeMeta", assign);
     ("ListMeta", ext_into "metav1.ListMeta");
     ("Items", if_set (make_slice (DeepCopyInto LoadBalancer_copies)))]).
Definition UpstreamService_copies : Copies :=
  copies (copy_struct
    [("Service", ext_into "corev1.Service")]).
Definition KubernetesSource_copies : Copies :=
  copies (copy_struct
    [("Route", ext_into "unstructured.Unstructured");
     ("Services", if_set (make_slice (DeepCopyInto UpstreamService_copies)))]).
Definition RouteSource_copies : Copies :=
  copies (copy_struct
    [("Kubernetes", if_set (new_copy (DeepCopyInto KubernetesSource_copies)))]).
Definition RouteSpec_copies : Copies :=
  copies (copy_struct
    [("Endpoints", if_set (make_slice (DeepCopyInto LoadBalancerEndpoints_copies)));
     ("Source", DeepCopyInto RouteSource_copies)]).
Definition ResourceState_copies : Copies :=
  copies (copy_struct
    [("Status", ext_into "runtime.RawExtension");
     ("Conditions", if_set (make_slice (ext_into "metav1.Condition")))]).
Definition RouteServiceStatus_copies : Copies :=
  copies (copy_struct
    [("ResourceState", DeepCopyInto ResourceState_copies);
     ("Ports", if_set (make_slice (ext_into "corev1.ServicePort")))]).
Definition RouteResourcesStatus_copies : Copies :=
  copies (copy_struct
    [("Services", if_set (make_map (copied_value (DeepCopyInto RouteServiceStatus_copies))));
     ("Route", DeepCopyInto ResourceState_copies)]).
Definition RouteStatus_copies : Copies :=
  copies (copy_struct
    [("Resources", DeepCopyInto RouteResourcesStatus_copies)]).
Definition Route_copies : Copies :=
  object_copies (copy_struct
    [("TypeMeta", assign);
     ("ObjectMeta", ext_into "metav1.ObjectMeta");
     ("Spec", DeepCopyInto RouteSpec_copies);
     ("Status", DeepCopyInto RouteStatus_copies)]).
Definition RouteList_copies : Copies :=
  object_copies (copy_struct
    [("TypeMeta", assign);
     ("ListMeta", ext_into "metav1.ListMeta");
     ("Items", if_set (make_slice (DeepCopyInto Route_copies)))]).
Definition SyncSecret_copies : Copies :=
  object_copies (copy_struct
    [("TypeMeta", assign);
     ("ObjectMeta", ext_into "metav1.ObjectMeta");
     ("Immutable", if_set (new_copy assign));
     ("Data", if_set (make_map (if_set (make_slice assign))));
     ("StringData", if_set (make_map assign))]).
Definition SyncSecretList_copies : Copies :=
  object_copies (copy_struct
    [("TypeMeta", assign);
     ("ListMeta", ext_into "metav1.ListMeta");
     ("Items", if_set (make_slice (DeepCopyInto SyncSecret_copies)))]).
Definition TenantStateSpec_copies : Copies := copies (copy_struct []).
Definition LoadBalancerState_copies : Copies := copies (copy_struct []).
Definition TunnelState_copies : Copies := copies (copy_struct []).
Definition Version_copies : Copies := copies (copy_struct []).
Definition TenantStateStatus_copies : Copies :=
  copies (copy_struct
    [("Version", assign);
     ("LastUpdated", ext_into "metav1.Time");
     ("Conditions", if_set (make_slice (ext_into "metav1.Condition")));
     ("Tunnel", assign);
     ("LoadBalancer", assign);
     ("AllowedDomains", if_set (make_slice assign))]).
Definition TenantState_copies : Copies :=
  object_copies (copy_struct
    [("TypeMeta", assign);
     ("ObjectMeta", ext_into "metav1.ObjectMeta");
     ("Spec", assign);
     ("Status", DeepCopyInto TenantStateStatus_copies)]).
Definition TenantStateList_copies : Copies :=
  object_copies (copy_struct
    [("TypeMeta", assign);
     ("ListMeta", ext_into "metav1.ListMeta");
     ("Items", if_set (make_slice (DeepCopyInto TenantState_copies)))]).
Definition CertificatesSettings_copies : Copies :=
  copies (copy_struct
    [("DefaultClusterIssuer", if_set (new_copy assign));
     ("AllowedDomains", if_set (make_slice assign))]).
Definition DNSSettings_copies : Copies :=
  copies (copy_struct
    [("AllowedDomains", if_set (make_slice assign));
     ("WildcardDomain", if_set (new_copy assign));
     ("AllowExplicitHostnames", if_set (new_copy assign));
     ("UseDNSAnnotations", if_set (new_copy assign));
     ("UseCertificateAnnotations", if_set (new_copy assign))]).
Definition TenantTunnelSettings_copies : Copies :=
  copies (copy_struct
    [("Limit", if_set (new_copy assign))]).
Definition TenantSpec_copies : Copies :=
  copies (copy_struct
    [("AnnotationSettings", DeepCopyInto AnnotationSettings_copies);
     ("LoadBalancer", DeepCopyInto LoadBalancerSettings_copies);
     ("Ingress", DeepCopyInto IngressSettings_copies);
     ("GatewayAPI", DeepCopyInto GatewayAPISettings_copies);
     ("DNS", DeepCopyInto DNSSettings_copies);
     ("Certificates", DeepCopyInto CertificatesSettings_copies);
     ("Tunnel", DeepCopyInto TenantTunnelSettings_copies);
     ("CircuitBreaker", if_set (new_copy (DeepCopyInto CircuitBreaker_copies)));
     ("AllowedDomains", if_set (make_slice assign))]).
Definition TenantStatus_copies : Copies := copies (copy_struct []).
Definition Tenant_copies : Copies :=
  object_copies (copy_struct
    [("TypeMeta", assign);
     ("ObjectMeta", ext_into "metav1.ObjectMeta");
     ("Spec", DeepCopyInto TenantSpec_copies);
     ("Status", assign)]).
Definition TenantList_copies : Copies :=
  object_copies (copy_struct
    [("TypeMeta", assign);
     ("ListMeta", ext_into "metav1.ListMeta");
     ("Items", if_set (make_slice (DeepCopyInto Tenant_copies)))]).
Definition TunnelSpec_copies : Copies := copies (copy_struct []).
Definition TunnelResources_copies : Copies :=
  copies (copy_struct
    [("RouteRef", if_set (new_copy assign))]).
Definition TunnelStatus_copies : Copies :=
  copies (copy_struct
    [("Resources", DeepCopyInto TunnelResources_copies);
     ("Conditions", if_set (make_slice (ext_into "metav1.Condition")))]).
Definition Tunnel_copies : Copies :=
  object_copies (copy_struct
    [("TypeMeta", assign);
     ("ObjectMeta", ext_into "metav1.ObjectMeta");
     ("Spec", assign);
     ("Status", DeepCopyInto TunnelStatus_copies)]).
Definition TunnelList_copies : Copies :=
  object_copies (copy_struct
    [("TypeMeta", assign);
     ("ListMeta", ext_into "metav1.ListMeta");
     ("Items", if_set (make_slice (DeepCopyInto Tunnel_copies)))]).
Definition WAFTargetRef_copies : Copies := copies (copy_struct []).
Definition WAFPolicySpec_copies : Copies :=
  copies (copy_struct
    [("TargetRef", if_set (new_copy assign));
     ("TargetSelector", if_set (new_copy (ext_into "metav1.LabelSelector")));
     ("Directives", if_set (make_slice assign))]).
Definition WAFPolicyStatus_copies : Copies :=
  copies (copy_struct
    [("Conditions", if_set (make_slice (ext_into "metav1.Condition")))]).
Definition WAFPolicy_copies : Copies :=
  object_copies (copy_struct
    [("TypeMeta", assign);
     ("ObjectMeta", ext_into "metav1.ObjectMeta");
     ("Spec", DeepCopyInto WAFPolicySpec_copies);
     ("Status", DeepCopyInto WAFPolicyStatus_copies)]).
Definition WAFPolicyList_copies : Copies :=
  object_copies (copy_struct
    [("TypeMeta", assign);
     ("ListMeta", ext_into "metav1.ListMeta");
     ("Items", if_set (make_slice (DeepCopyInto WAFPolicy_copies)))]).

(** The types with functions for pointers. *)
Definition functions : list (string * gotype * Copies) :=
  [("EndpointAddress", EndpointAddress, EndpointAddress_copies);
   ("AddressesSpec", AddressesSpec, AddressesSpec_copies);
   ("AddressesStatus", AddressesStatus, AddressesStatus_copies);
   ("Addresses", Addresses, Addresses_copies);
   ("AddressesList", AddressesList, AddressesList_copies);
   ("EndpointPort", EndpointPort, EndpointPort_copies);
   ("LoadBalancerEndpoints", LoadBalancerEndpoints, LoadBalancerEndpoints_copies);
   ("AnnotationSettings", AnnotationSettings, AnnotationSettings_copies);
   ("PerEndpointCircuitBreaker", PerEndpointCircuitBreaker, PerEndpointCircuitBreaker_copies);
   ("CircuitBreaker", CircuitBreaker, CircuitBreaker_copies);
   ("ConfigCertificatesSettings", ConfigCertificatesSettings, ConfigCertificatesSettings_copies);
   ("ConfigDNSSettings", ConfigDNSSettings, ConfigDNSSettings_copies);
   ("EnvoyProxyGracefulShutdown", EnvoyProxyGracefulShutdown, EnvoyProxyGracefulShutdown_copies);
   ("EnvoyProxyOverloadManager", EnvoyProxyOverloadManager, EnvoyProxyOverloadManager_copies);
   ("EnvoyProxy", EnvoyProxy, EnvoyProxy_copies);
   ("GatewayAPIsSettings", GatewayAPIsSettings, GatewayAPIsSettings_copies);
   ("GatewaySettings", GatewaySettings, GatewaySettings_copies);
   ("GatewayAPISettings", GatewayAPISettings, GatewayAPISettings_copies);
   ("IngressSettings", IngressSettings, IngressSettings_copies);
   ("LoadBalancerSettings", LoadBalancerSettings, LoadBalancerSettings_copies);
   ("TunnelSettings", TunnelSettings, TunnelSettings_copies);
   ("WAFSettings", WAFSettings, WAFSettings_copies);
   ("ConfigSpec", ConfigSpec, ConfigSpec_copies);
   ("Config", Config, Config_copies);
   ("ConfigList", ConfigList, ConfigList_copies);
   ("HostnameStatus", HostnameStatus, HostnameStatus_copies);
   ("ServicePort", ServicePort, ServicePort_copies);
   ("ServiceStatus", ServiceStatus, ServiceStatus_copies);
   ("LoadBalancerStatus", LoadBalancerStatus, LoadBalancerStatus_copies);
   ("LoadBalancerPort", LoadBalancerPort, LoadBalancerPort_copies);
   ("LoadBalancerSpec", LoadBalancerSpec, LoadBalancerSpec_copies);
   ("LoadBalancer", LoadBalancer, LoadBalancer_copies);
   ("LoadBalancerList", LoadBalancerList, LoadBalancerList_copies);
   ("UpstreamService", UpstreamService, UpstreamService_copies);
   ("KubernetesSource", KubernetesSource, KubernetesSource_copies);
   ("RouteSource", RouteSource, RouteSource_copies);
   ("RouteSpec", RouteSpec, RouteSpec_copies);
   ("ResourceState", ResourceState, ResourceState_copies);
   ("RouteServiceStatus", RouteServiceStatus, RouteServiceStatus_copies);
   ("RouteResourcesStatus", RouteResourcesStatus, RouteResourcesStatus_copies);
   ("RouteStatus", RouteStatus, RouteStatus_copies);
   ("Route", Route, Route_copies);
   ("RouteList", RouteList, RouteList_copies);
   ("SyncSecret", SyncSecret, SyncSecret_copies);
   ("SyncSecretList", SyncSecretList, SyncSecretList_copies);
   ("TenantStateSpec", TenantStateSpec, TenantStateSpec_copies);
   ("LoadBalancerState", LoadBalancerState, LoadBalancerState_copies);
   ("TunnelState", TunnelState, TunnelState_copies);
   ("Version", Version, Version_copies);
   ("TenantStateStatus", TenantStateStatus, TenantStateStatus_copies);
   ("TenantState", TenantState, TenantState_copies);
   ("TenantStateList", TenantStateList, TenantStateList_copies);
   ("CertificatesSettings", CertificatesSettings, CertificatesSettings_copies);
   ("DNSSettings", DNSSettings, DNSSettings_copies);
   ("TenantTunnelSettings", TenantTunnelSettings, TenantTunnelSettings_copies);
   ("TenantSpec", TenantSpec, TenantSpec_copies);
   ("TenantStatus", TenantStatus, TenantStatus_copies);
   ("Tenant", Tenant, Tenant_copies);
   ("TenantList", TenantList, TenantList_copies);
   ("TunnelSpec", TunnelSpec, TunnelSpec_copies);
   ("TunnelResources", TunnelResources, TunnelResources_copies);
   ("TunnelStatus", TunnelStatus, TunnelStatus_copies);
   ("Tunnel", Tunnel, Tunnel_copies);
   ("TunnelList", TunnelList, TunnelList_copies);
   ("WAFTargetRef", WAFTargetRef, WAFTargetRef_copies);
   ("WAFPolicySpec", WAFPolicySpec, WAFPolicySpec_copies);
   ("WAFPolicyStatus", WAFPolicyStatus, WAFPolicyStatus_copies);
   ("WAFPolicy", WAFPolicy, WAFPolicy_copies);
   ("WAFPolicyList", WAFPolicyList, WAFPolicyList_copies)].
End types.

(** ** Every function makes deep copies *)

Section deep.
Context `{ExternalLaws} `{MapRange}.

Lemma ee_EndpointAddress_deep : deep EndpointAddress (DeepCopyInto EndpointAddress_copies).
Proof. deep_struct. Qed.
#[local] Hint Resolve ee_EndpointAddress_deep : deepcopy.
Lemma ee_AddressesSpec_deep : deep AddressesSpec (DeepCopyInto AddressesSpec_copies).
Proof. deep_struct. Qed.
#[local] Hint Resolve ee_AddressesSpec_deep : deepcopy.
Lemma ee_AddressesStatus_deep : deep AddressesStatus (DeepCopyInto AddressesStatus_copies).
Proof. deep_struct. Qed.
#[local] Hint Resolve ee_AddressesStatus_deep : deepcopy.
Lemma ee_Addresses_deep : deep Addresses (DeepCopyInto Addresses_copies).
Proof. deep_struct. Qed.
#[local] Hint Resolve ee_Addresses_deep : deepcopy.
Lemma ee_AddressesList_deep : deep AddressesList (DeepCopyInto AddressesList_copies).
Proof. deep_struct. Qed.
#[local] Hint Resolve ee_AddressesList_deep : deepcopy.
Lemma ee_EndpointPort_deep : deep EndpointPort (DeepCopyInto EndpointPort_copies).
Proof. deep_struct. Qed.
#[local] Hint Resolve ee_EndpointPort_deep : deepcopy.
Lemma ee_LoadBalancerEndpoints_deep : deep LoadBalancerEndpoints (DeepCopyInto LoadBalancerEndpoints_copies).
Proof. deep_struct. Qed.
#[local] Hint Resolve ee_LoadBalancerEndpoints_deep : deepcopy.
Lemma ee_AnnotationSettings_deep : deep AnnotationSettings (DeepCopyInto AnnotationSettings_copies).
Proof. deep_struct. Qed.
#[local] Hint Resolve ee_AnnotationSettings_deep : deepcopy.
Lemma ee_PerEndpointCircuitBreaker_deep : deep PerEndpointCircuitBreaker (DeepCopyInto PerEndpointCircuitBreaker_copies).
Proof. deep_struct. Qed.
#[local] Hint Resolve ee_PerEndpointCircuitBreaker_deep : deepcopy.
Lemma ee_CircuitBreaker_deep : deep CircuitBreaker (DeepCopyInto CircuitBreaker_copies).
Proof. deep_struct. Qed.
#[local] Hint Resolve ee_CircuitBreaker_deep : deepcopy.
Lemma ee_ConfigCertificatesSettings_deep : deep ConfigCertificatesSettings (DeepCopyInto ConfigCertificatesSettings_copies).
Proof. deep_struct. Qed.
#[local] Hint Resolve ee_ConfigCertificatesSettings_deep : deepcopy.
Lemma ee_ConfigDNSSettings_deep : deep ConfigDNSSettings (DeepCopyInto ConfigDNSSettings_copies).
Proof. deep_struct. Qed.
#[local] Hint Resolve ee_ConfigDNSSettings_deep : deepcopy.
Lemma ee_EnvoyProxyGracefulShutdown_deep : deep EnvoyProxyGracefulShutdown (DeepCopyInto EnvoyProxyGracefulShutdown_copies).
Proof. deep_struct. Qed.
#[local] Hint Resolve ee_EnvoyProxyGracefulShutdown_deep : deepcopy.
Lemma ee_EnvoyProxyOverloadManager_deep : deep EnvoyProxyOverloadManager (DeepCopyInto EnvoyProxyOverloadManager_copies).
Proof. deep_struct. Qed.
#[local] Hint Resolve ee_EnvoyProxyOverloadManager_deep : deepcopy.
Lemma ee_EnvoyProxy_deep : deep EnvoyProxy (DeepCopyInto EnvoyProxy_copies).
Proof. deep_struct. Qed.
#[local] Hint Resolve ee_EnvoyProxy_deep : deepcopy.
Lemma ee_GatewayAPIsSettings_deep : deep GatewayAPIsSettings (DeepCopyInto GatewayAPIsSettings_copies).
Proof. deep_struct. Qed.
#[local] Hint Resolve ee_GatewayAPIsSettings_deep : deepcopy.
Lemma ee_GatewaySettings_deep : deep GatewaySettings (DeepCopyInto GatewaySettings_copies).
Proof. deep_struct. Qed.
#[local] Hint Resolve ee_GatewaySettings_deep : deepcopy.
Lemma ee_GatewayAPISettings_deep : deep GatewayAPISettings (DeepCopyInto GatewayAPISettings_copies).
Proof. deep_struct. Qed.
#[local] Hint Resolve ee_GatewayAPISettings_deep : deepcopy.
Lemma ee_IngressSettings_deep : deep IngressSettings (DeepCopyInto IngressSettings_copies).
Proof. deep_struct. Qed.
#[local] Hint Resolve ee_IngressSettings_deep : deepcopy.
Lemma ee_LoadBalancerSettings_deep : deep LoadBalancerSettings (DeepCopyInto LoadBalancerSettings_copies).
Proof. deep_struct. Qed.
#[local] Hint Resolve ee_LoadBalancerSettings_deep : deepcopy.
Lemma ee_TunnelSettings_deep : deep TunnelSettings (DeepCopyInto TunnelSettings_copies).
Proof. deep_struct. Qed.
#[local] Hint Resolve ee_TunnelSettings_deep : deepcopy.
Lemma ee_WAFSettings_deep : deep WAFSettings (DeepCopyInto WAFSettings_copies).
Proof. deep_struct. Qed.
#[local] Hint Resolve ee_WAFSettings_deep : deepcopy.
Lemma ee_ConfigSpec_deep : deep ConfigSpec (DeepCopyInto ConfigSpec_copies).
Proof. deep_struct. Qed.
#[local] Hint Resolve ee_ConfigSpec_deep : deepcopy.
Lemma ee_Config_deep : deep Config (DeepCopyInto Config_copies).
Proof. deep_struct. Qed.
#[local] Hint Resolve ee_Config_deep : deepcopy.
Lemma ee_ConfigList_deep : deep ConfigList (DeepCopyInto ConfigList_copies).
Proof. deep_struct. Qed.
#[local] Hint Resolve ee_ConfigList_deep : deepcopy.
Lemma ee_HostnameStatus_deep : deep HostnameStatus (DeepCopyInto HostnameStatus_copies).
Proof. deep_struct. Qed.
#[local] Hint Resolve ee_HostnameStatus_deep : deepcopy.
Lemma ee_ServicePort_deep : deep ServicePort (DeepCopyInto ServicePort_copies).
Proof. deep_struct. Qed.
#[local] Hint Resolve ee_ServicePort_deep : deepcopy.
Lemma ee_ServiceStatus_deep : deep ServiceStatus (DeepCopyInto ServiceStatus_copies).
Proof. deep_struct. Qed.
#[local] Hint Resolve ee_ServiceStatus_deep : deepcopy.
Lemma ee_LoadBalancerStatus_deep : deep LoadBalancerStatus (DeepCopyInto LoadBalancerStatus_copies).
Proof. deep_struct. Qed.
#[local] Hint Resolve ee_LoadBalancerStatus_deep : deepcopy.
Lemma ee_LoadBalancerPort_deep : deep LoadBalancerPort (DeepCopyInto LoadBalancerPort_copies).
Proof. deep_struct. Qed.
#[local] Hint Resolve ee_LoadBalancerPort_deep : deepcopy.
Lemma ee_LoadBalancerSpec_deep : deep LoadBalancerSpec (DeepCopyInto LoadBalancerSpec_copies).
Proof. deep_struct. Qed.
#[local] Hint Resolve ee_LoadBalancerSpec_deep : deepcopy.
Lemma ee_LoadBalancer_deep : deep LoadBalancer (DeepCopyInto LoadBalancer_copies).
Proof. deep_struct. Qed.
#[local] Hint Resolve ee_LoadBalancer_deep : deepcopy.
Lemma ee_LoadBalancerList_deep : deep LoadBalancerList (DeepCopyInto LoadBalancerList_copies).
Proof. deep_struct. Qed.
#[local] Hint Resolve ee_LoadBalancerList_deep : deepcopy.
Lemma ee_UpstreamService_deep : deep UpstreamService (DeepCopyInto UpstreamService_copies).
Proof. deep_struct. Qed.
#[local] Hint Resolve ee_UpstreamService_deep : deepcopy.
Lemma ee_KubernetesSource_deep : deep KubernetesSource (DeepCopyInto KubernetesSource_copies).
Proof. deep_struct. Qed.
#[local] Hint Resolve ee_KubernetesSource_deep : deepcopy.
Lemma ee_RouteSource_deep : deep RouteSource (DeepCopyInto RouteSource_copies).
Proof. deep_struct. Qed.
#[local] Hint Resolve ee_RouteSource_deep : deepcopy.
Lemma ee_RouteSpec_deep : deep RouteSpec (DeepCopyInto RouteSpec_copies).
Proof. deep_struct. Qed.
#[local] Hint Resolve ee_RouteSpec_deep : deepcopy.
Lemma ee_ResourceState_deep : deep ResourceState (DeepCopyInto ResourceState_copies).
Proof. deep_struct. Qed.
#[local] Hint Resolve ee_ResourceState_deep : deepcopy.
Lemma ee_RouteServiceStatus_deep : deep RouteServiceStatus (DeepCopyInto RouteServiceStatus_copies).
Proof. deep_struct. Qed.
#[local] Hint Resolve ee_RouteServiceStatus_deep : deepcopy.
Lemma ee_RouteResourcesStatus_deep : deep RouteResourcesStatus (DeepCopyInto RouteResourcesStatus_copies).
Proof. deep_struct. Qed.
#[local] Hint Resolve ee_RouteResourcesStatus_deep : deepcopy.
Lemma ee_RouteStatus_deep : deep RouteStatus (DeepCopyInto RouteStatus_copies).
Proof. deep_struct. Qed.
#[local] Hint Resolve ee_RouteStatus_deep : deepcopy.
Lemma ee_Route_deep : deep Route (DeepCopyInto Route_copies).
Proof. deep_struct. Qed.
#[local] Hint Resolve ee_Route_deep : deepcopy.
Lemma ee_RouteList_deep : deep RouteList (DeepCopyInto RouteList_copies).
Proof. deep_struct. Qed.
#[local] Hint Resolve ee_RouteList_deep : deepcopy.
Lemma ee_SyncSecret_deep : deep SyncSecret (DeepCopyInto SyncSecret_copies).
Proof. deep_struct. Qed.
#[local] Hint Resolve ee_SyncSecret_deep : deepcopy.
Lemma ee_SyncSecretList_deep : deep SyncSecretList (DeepCopyInto SyncSecretList_copies).
Proof. deep_struct. Qed.
#[local] Hint Resolve ee_SyncSecretList_deep : deepcopy.
Lemma ee_TenantStateSpec_deep : deep TenantStateSpec (DeepCopyInto TenantStateSpec_copies).
Proof. deep_struct. Qed.
#[local] Hint Resolve ee_TenantStateSpec_deep : deepcopy.
Lemma ee_LoadBalancerState_deep : deep LoadBalancerState (DeepCopyInto LoadBalancerState_copies).
Proof. deep_struct. Qed.
#[local] Hint Resolve ee_LoadBalancerState_deep : deepcopy.
Lemma ee_TunnelState_deep : deep TunnelState (DeepCopyInto TunnelState_copies).
Proof. deep_struct. Qed.
#[local] Hint Resolve ee_TunnelState_deep : deepcopy.
Lemma ee_Version_deep : deep Version (DeepCopyInto Version_copies).
Proof. deep_struct. Qed.
#[local] Hint Resolve ee_Version_deep : deepcopy.
Lemma ee_TenantStateStatus_deep : deep TenantStateStatus (DeepCopyInto TenantStateStatus_copies).
Proof. deep_struct. Qed.
#[local] Hint Resolve ee_TenantStateStatus_deep : deepcopy.
Lemma ee_TenantState_deep : deep TenantState (DeepCopyInto TenantState_copies).
Proof. deep_struct. Qed.
#[local] Hint Resolve ee_TenantState_deep : deepcopy.
Lemma ee_TenantStateList_deep : deep TenantStateList (DeepCopyInto TenantStateList_copies).
Proof. deep_struct. Qed.
#[local] Hint Resolve ee_TenantStateList_deep : deepcopy.
Lemma ee_CertificatesSettings_deep : deep CertificatesSettings (DeepCopyInto CertificatesSettings_copies).
Proof. deep_struct. Qed.
#[local] Hint Resolve ee_CertificatesSettings_deep : deepcopy.
Lemma ee_DNSSettings_deep : deep DNSSettings (DeepCopyInto DNSSettings_copies).
Proof. deep_struct. Qed.
#[local] Hint Resolve ee_DNSSettings_deep : deepcopy.
Lemma ee_TenantTunnelSettings_deep : deep TenantTunnelSettings (DeepCopyInto TenantTunnelSettings_copies).
Proof. deep_struct. Qed.
#[local] Hint Resolve ee_TenantTunnelSettings_deep : deepcopy.
Lemma ee_TenantSpec_deep : deep TenantSpec (DeepCopyInto TenantSpec_copies).
Proof. deep_struct. Qed.
#[local] Hint Resolve ee_TenantSpec_deep : deepcopy.
Lemma ee_TenantStatus_deep : deep TenantStatus (DeepCopyInto TenantStatus_copies).
Proof. deep_struct. Qed.
#[local] Hint Resolve ee_TenantStatus_deep : deepcopy.
Lemma ee_Tenant_deep : deep Tenant (DeepCopyInto Tenant_copies).
Proof. deep_struct. Qed.
#[local] Hint Resolve ee_Tenant_deep : deepcopy.
Lemma ee_TenantList_deep : deep TenantList (DeepCopyInto TenantList_copies).
Proof. deep_struct. Qed.
#[local] Hint Resolve ee_TenantList_deep : deepcopy.
Lemma ee_TunnelSpec_deep : deep TunnelSpec (DeepCopyInto TunnelSpec_copies).
Proof. deep_struct. Qed.
#[local] Hint Resolve ee_TunnelSpec_deep : deepcopy.
Lemma ee_TunnelResources_deep : deep TunnelResources (DeepCopyInto TunnelResources_copies).
Proof. deep_struct. Qed.
#[local] Hint Resolve ee_TunnelResources_deep : deepcopy.
Lemma ee_TunnelStatus_deep : deep TunnelStatus (DeepCopyInto TunnelStatus_copies).
Proof. deep_struct. Qed.
#[local] Hint Resolve ee_TunnelStatus_deep : deepcopy.
Lemma ee_Tunnel_deep : deep Tunnel (DeepCopyInto Tunnel_copies).
Proof. deep_struct. Qed.
#[local] Hint Resolve ee_Tunnel_deep : deepcopy.
Lemma ee_TunnelList_deep : deep TunnelList (DeepCopyInto TunnelList_copies).
Proof. deep_struct. Qed.
#[local] Hint Resolve ee_TunnelList_deep : deepcopy.
Lemma ee_WAFTargetRef_deep : deep WAFTargetRef (DeepCopyInto WAFTargetRef_copies).
Proof. deep_struct. Qed.
#[local] Hint Resolve ee_WAFTargetRef_deep : deepcopy.
Lemma ee_WAFPolicySpec_deep : deep WAFPolicySpec (DeepCopyInto WAFPolicySpec_copies).
Proof. deep_struct. Qed.
#[local] Hint Resolve ee_WAFPolicySpec_deep : deepcopy.
Lemma ee_WAFPolicyStatus_deep : deep WAFPolicyStatus (DeepCopyInto WAFPolicyStatus_copies).
Proof. deep_struct. Qed.
#[local] Hint Resolve ee_WAFPolicyStatus_deep : deepcopy.
Lemma ee_WAFPolicy_deep : deep WAFPolicy (DeepCopyInto WAFPolicy_copies).
Proof. deep_struct. Qed.
#[local] Hint Resolve ee_WAFPolicy_deep : deepcopy.
Lemma ee_WAFPolicyList_deep : deep WAFPolicyList (DeepCopyInto WAFPolicyList_copies).
Proof. deep_struct. Qed.
#[local] Hint Resolve ee_WAFPolicyList_deep : deepcopy.

Lemma ee_functions_deep : Forall (λ f, deep f.1.2 (DeepCopyInto f.2)) functions.
Proof.
  unfold functions. next ee_EndpointAddress_deep. next ee_AddressesSpec_deep. next ee_AddressesStatus_deep. next
  ee_Addresses_deep. next ee_AddressesList_deep. next ee_EndpointPort_deep. next
  ee_LoadBalancerEndpoints_deep. next ee_AnnotationSettings_deep. next ee_PerEndpointCircuitBreaker_deep. next
  ee_CircuitBreaker_deep. next ee_ConfigCertificatesSettings_deep. next ee_ConfigDNSSettings_deep. next
  ee_EnvoyProxyGracefulShutdown_deep. next ee_EnvoyProxyOverloadManager_deep. next ee_EnvoyProxy_deep. next
  ee_GatewayAPIsSettings_deep. next ee_GatewaySettings_deep. next ee_GatewayAPISettings_deep. next
  ee_IngressSettings_deep. next ee_LoadBalancerSettings_deep. next ee_TunnelSettings_deep. next
  ee_WAFSettings_deep. next ee_ConfigSpec_deep. next ee_Config_deep. next ee_ConfigList_deep. next
  ee_HostnameStatus_deep. next ee_ServicePort_deep. next ee_ServiceStatus_deep. next
  ee_LoadBalancerStatus_deep. next ee_LoadBalancerPort_deep. next ee_LoadBalancerSpec_deep. next
  ee_LoadBalancer_deep. next ee_LoadBalancerList_deep. next ee_UpstreamService_deep. next
  ee_KubernetesSource_deep. next ee_RouteSource_deep. next ee_RouteSpec_deep. next ee_ResourceState_deep. next
  ee_RouteServiceStatus_deep. next ee_RouteResourcesStatus_deep. next ee_RouteStatus_deep. next ee_Route_deep.
  next ee_RouteList_deep. next ee_SyncSecret_deep. next ee_SyncSecretList_deep. next ee_TenantStateSpec_deep.
  next ee_LoadBalancerState_deep. next ee_TunnelState_deep. next ee_Version_deep. next
  ee_TenantStateStatus_deep. next ee_TenantState_deep. next ee_TenantStateList_deep. next
  ee_CertificatesSettings_deep. next ee_DNSSettings_deep. next ee_TenantTunnelSettings_deep. next
  ee_TenantSpec_deep. next ee_TenantStatus_deep. next ee_Tenant_deep. next ee_TenantList_deep. next
  ee_TunnelSpec_deep. next ee_TunnelResources_deep. next ee_TunnelStatus_deep. next ee_Tunnel_deep. next
  ee_TunnelList_deep. next ee_WAFTargetRef_deep. next ee_WAFPolicySpec_deep. next ee_WAFPolicyStatus_deep.
  next ee_WAFPolicy_deep. next ee_WAFPolicyList_deep. by apply list.Forall_nil.
Qed.
End deep.
End EE.
