(* ===== verification/Copies.v ===== *)
(** * The deep copies of the API objects are sound

    The claim about the functions of ApiTypesCE and ApiTypesEE, an instance of the
    assumptions on other packages, and the one function that is not nil-preserving. *)
From stdpp Require Import base gmap list strings.
From S2P Require Import Prelude DeepCopy ApiTypesCE ApiTypesEE.

Section sound.
Context `{ExternalLaws} `{MapRange}.

Definition api_functions : list (string * gotype * Copies) := CE.functions ++ EE.functions.

(** The shape of the functions of a type. *)
Lemma api_functions_shape :
  Forall (λ f, f.2 = copies (DeepCopyInto f.2) ∨ f.2 = object_copies (DeepCopyInto f.2)) api_functions.
Proof.
  apply Forall_app_2; [unfold CE.functions|unfold EE.functions];
    repeat (apply list.Forall_cons; split; [first [left; reflexivity|right; reflexivity]|]); by apply list.Forall_nil.
Qed.
Lemma api_functions_deep : Forall (λ f, deep f.1.2 (DeepCopyInto f.2)) api_functions.
Proof. apply Forall_app_2; [apply CE.ce_functions_deep|apply EE.ee_functions_deep]. Qed.

(** C11: the copy functions of all API types are sound, in both editions.  [DeepCopy] of a
    pointer, nil included, never panics, changes no memory there was, and returns a pointer
    of the type whose target looks like the original: equal up to addresses, nil slices and
    maps apart from empty ones.  Original and copy have no memory in common, so no write
    through one is seen through the other.  [DeepCopyObject] returns the same copy, and
    the nil interface for nil. *)
Theorem deep_copies_sound name t f h v :
  (name, t, f) ∈ api_functions → typed h (Pointer t) v →
  ∃ h' v', DeepCopy f h v = Done (h', v') ∧ h ⊆ h' ∧ typed h' (Pointer t) v' ∧ same h' v v' ∧
    (∀ l, reach h' v l → reach h' v' l → False) ∧
    ∀ object, DeepCopyObject f = Some object → object h v = Done (h', match v with VNil => None | _ => Some v' end).
Proof.
  intros Hf Ht. pose proof api_functions_deep as Hdeep. pose proof api_functions_shape as Hshape. rewrite list.Forall_forall in Hdeep, Hshape.
  specialize (Hdeep _ Hf). specialize (Hshape _ Hf). simpl in Hdeep, Hshape.
  destruct (DeepCopyObject_spec t (DeepCopyInto f) h v Hdeep Ht) as (h2 & v2 & Hobj & _).
  destruct (deep_new_copy t (DeepCopyInto f) Hdeep h v Ht) as (h' & v' & Hrun & Hsub & Hcopy).
  exists h', v'. split; [by destruct Hshape as [->| ->]|]. split; [done|]. split; [apply Hcopy|]. split; [apply Hcopy|]. split.
  - intros l Hl Hl'. apply Hcopy in Hl'. destruct (reach_back h h' _ v l Ht Hsub Hl) as [_ [? ?]]. congruence.
  - intros object Ho. destruct Hshape as [Hs|Hs]; rewrite Hs in Ho; [done|]. injection Ho as <-.
    unfold DeepCopyObject_of, DeepCopy_of. rewrite Hrun. cbn [mbind go_bind]. by destruct (dc_same _ _ _ _ _ Hcopy).
Qed.

(** [Annotations] is a map and copied as one; [DeepCopyInto] of a nil map, which its
    comment excludes, would make an empty one. *)
Lemma annotations_copied h v : typed h CE.Annotations v → copied h CE.Annotations v (DeepCopy CE.Annotations_copies h v).
Proof.
  intros Ht. destruct v; try (by inversion Ht).
  - exists h, VNil. split; [done|]. split; [done|]. split; [done|constructor|]. intros l Hr. inversion Hr.
  - assert (deep CE.Annotations (if_set (copied_value (make_map assign)))) as Hd; [|by apply Hd].
    intros h2 v2 Ht2. pose proof (deep_copied_value _ _ (deep_make_map Basic assign (deep_assign Basic eq_refl)) h2 v2 Ht2) as Hc.
    destruct v2; try exact Hc. exists h2, VNil. split; [done|]. split; [done|]. split; [done|constructor|]. intros l' Hr. inversion Hr.
Qed.
Lemma nil_annotations_filled h : ∃ h' l, DeepCopyInto CE.Annotations_copies h VNil = Done (h', VMap l).
Proof. by do 2 eexists. Qed.
End sound.

(** ** An instance *)

(** Types of other packages with a map, and with plain fields only. *)
Definition plain_struct : gotype := Struct [("Kind", "kind", Basic)].
Definition meta_struct : gotype := Struct [("Name", "name", Basic); ("Labels", "labels", Map Basic)].
Definition is_plain (n : string) : bool :=
  bool_decide (n ∈ ["metav1.TypeMeta"; "metav1.Duration"; "corev1.ObjectReference"; "corev1.Protocol"; "corev1.SecretType"; "corev1.ServiceType"]).
#[local] Instance in_order : MapRange := {| range := map_to_list; range_perm := λ _, reflexivity _ |}.
Definition sample_external : External :=
  {| ext n := if is_plain n then plain_struct else meta_struct;
     ext_into n := if is_plain n then assign else copy_struct [("Labels", if_set (make_map assign))] |}.
Lemma sample_external_laws : @ExternalLaws sample_external.
Proof.
  split; [|repeat constructor]. intros n. simpl. destruct (is_plain n); [by apply deep_assign|]. apply deep_copy_struct; [done|].
  repeat constructor. by apply deep_make_map, deep_assign.
Qed.

(** A struct from the values of its fields. *)
Definition struct_of (fs : list (string * string * gotype)) (vs : list value) : value := VStruct (list_to_map (zip (field_name <$> fs) vs)).
Lemma typed_struct_of h fs vs :
  base.NoDup (field_name <$> fs) → Forall2 (λ f v, typed h f.2 v) fs vs → typed h (Struct fs) (struct_of fs vs).
Proof.
  intros Hnd Hvs. pose proof (Forall2_length _ _ _ Hvs) as Hlen.
  assert ((zip (field_name <$> fs) vs).*1 = field_name <$> fs) as Hfst by (apply fst_zip; rewrite length_fmap; lia).
  constructor.
  - intros x. rewrite <- elem_of_dom, dom_list_to_map, Hfst. apply elem_of_list_to_set.
  - intros f v Hf Hv. apply elem_of_list_to_map_2, list_elem_of_lookup in Hv as [i Hi].
    apply lookup_zip_with_Some in Hi as (x & v' & [= <- <-] & Hx & Hv). apply list_elem_of_lookup in Hf as [j Hj].
    assert (i = j) as -> by (eapply (NoDup_lookup _ _ _ _ Hnd Hx); by rewrite list_lookup_fmap, Hj).
    exact (Forall2_lookup_lr _ _ _ _ _ _ Hvs Hj Hv).
Qed.

(** The Addresses of a tenant with an address and a label. *)
Definition sample_heap : heap :=
  {[ 1%positive := Single (struct_of
       [("TypeMeta", ",inline", plain_struct); ("ObjectMeta", "metadata,omitempty", meta_struct);
        ("Spec", "spec,omitempty", CE.AddressesSpec); ("Status", "status,omitempty", CE.AddressesStatus)]
       [struct_of [("Kind", "kind", Basic)] [VBasic "Addresses"];
        struct_of [("Name", "name", Basic); ("Labels", "labels", Map Basic)] [VBasic "default"; VMap 2];
        struct_of [("Addresses", "addresses,omitempty", Slice CE.EndpointAddress)] [VSlice 3 0 1];
        struct_of [] []]);
     2%positive := Dict {[ "a" := VBasic "b" ]};
     3%positive := Array [struct_of [("IP", "ip", Basic); ("Hostname", "hostname,omitempty", Basic)] [VBasic "192.0.2.1"; VBasic ""]] ]}.
Ltac typed_sample :=
  cbn [snd];
  first
    [ apply typed_basic
    | apply typed_struct_of; [apply (bool_decide_unpack _); vm_compute; exact I|repeat (apply Forall2_cons_2; [typed_sample|]); apply Forall2_nil_2] ].
Lemma sample_typed : typed sample_heap (Pointer (@CE.Addresses sample_external)) (VPtr 1).
Proof.
  assert (typed sample_heap (Map Basic) (VMap 2)) as H2.
  { eapply typed_map; [reflexivity|]. intros k v [_ <-]%lookup_singleton_Some. constructor. }
  assert (typed sample_heap (Slice CE.EndpointAddress) (VSlice 3 0 1)) as H3.
  { eapply typed_slice; [reflexivity|simpl; lia|]. intros [|[|i]] v [= <-]. typed_sample. }
  eapply typed_pointer; [reflexivity|]. apply typed_struct_of; [apply (bool_decide_unpack _); vm_compute; exact I|].
  repeat (apply Forall2_cons_2; [apply typed_struct_of; [apply (bool_decide_unpack _); vm_compute; exact I|]|]); try apply Forall2_nil_2;
    repeat (apply Forall2_cons_2; [first [assumption|typed_sample]|]); apply Forall2_nil_2.
Qed.

(** The Addresses and their copy: the list of addresses has moved. *)
Lemma deep_copies_sound_witness :
  ∃ h' v', DeepCopy (@CE.Addresses_copies sample_external) sample_heap (VPtr 1) = Done (h', v') ∧ sample_heap ⊆ h' ∧
    same h' (VPtr 1) v' ∧ ∀ l, reach h' (VPtr 1) l → reach h' v' l → False.
Proof.
  destruct (deep_copies_sound (H := sample_external) (H0 := sample_external_laws) (H1 := in_order) "Addresses" (CE.Addresses (H := sample_external)) (CE.Addresses_copies (H := sample_external))
    sample_heap (VPtr 1)) as (h' & v' & Hrun & Hsub & _ & Hsame & Hsep & _); [|exact sample_typed|by exists h', v'].
  apply list_elem_of_In. do 3 right. left. reflexivity.
Defined.
