(* ===== verification/Registration.v ===== *)
(** * Which types the clients know (api/*/kubelb.k8c.io/v1alpha1, the [init] functions of the commands)

    Every API type registers itself with the [SchemeBuilder] of its package; the commands put
    the types they use into the scheme of their clients.  The registered types are the
    ones that can be objects, and a manager knows all kinds its controllers use when the
    Gateway API is enabled.  When it is not, the client fails for HTTPRoutes, which keeps
    LoadBalancers with a hostname from being deleted.  The scheme is a library
    ([runtime.Scheme]), the class [RuntimeScheme]. *)
From stdpp Require Import base gmap list strings.
From S2P Require Import Prelude GoStrings Api Names Annotations LoadBalancers NetApi Effects Guards Objects Services RouteResources LBController TenantController Permissions CommandLine Commands Rbac DeepCopy ApiTypesCE ApiTypesEE Copies.
Import Core V1alpha1.

(** ** Schemes *)

Record GroupVersion := { gv_group : string; gv_version : string }.
Record GroupVersionKind := { gvk_version : GroupVersion; gvk_kind : string }.

#[export] Instance GroupVersion_eq_dec : EqDecision GroupVersion.
Proof. solve_decision. Defined.
#[export] Instance GroupVersionKind_eq_dec : EqDecision GroupVersionKind.
Proof. solve_decision. Defined.

(** [runtime.Scheme], the [scheme.Builder] of controller-runtime, and the packages whose types
    the commands add. *)
Class RuntimeScheme := {
  rscheme : Type;
  NewScheme : rscheme;
  Recognizes : rscheme → GroupVersionKind → bool;
  AddKnownTypes : GroupVersion → list string → rscheme → rscheme;
  clientgo_AddToScheme : rscheme → rscheme;
  gwapiv1_Install : rscheme → rscheme;
  apiextensions_AddToScheme : rscheme → rscheme
}.

(** A function that adds kinds of some groups: these are known then, as is what was known, and
    nothing is added to other groups. *)
Record adds `{RuntimeScheme} (f : rscheme → rscheme) (kinds : list GroupVersionKind) (groups : list string) : Prop := {
  adds_kinds s x : x ∈ kinds → Recognizes (f s) x = true;
  adds_keeps s x : Recognizes s x = true → Recognizes (f s) x = true;
  adds_others s x : gv_group (gvk_version x) ∉ groups → Recognizes (f s) x = Recognizes s x
}.

Definition kind_of (group version k : string) : GroupVersionKind :=
  {| gvk_version := {| gv_group := group; gv_version := version |}; gvk_kind := k |}.
Definition builtin_kinds : list GroupVersionKind :=
  (kind_of "" "v1" <$> ["Service"; "Secret"; "Namespace"; "Node"; "ServiceAccount"; "ConfigMap"]) ++
  (kind_of "apps" "v1" <$> ["Deployment"; "DaemonSet"]) ++ [kind_of "networking.k8s.io" "v1" "Ingress"] ++
  (kind_of "rbac.authorization.k8s.io" "v1" <$> ["Role"; "RoleBinding"]) ++ [kind_of "discovery.k8s.io" "v1" "EndpointSlice"].
Definition gateway_kinds : list GroupVersionKind :=
  kind_of "gateway.networking.k8s.io" "v1" <$> ["Gateway"; "HTTPRoute"; "GRPCRoute"].
(** client-go knows more groups, but not these. *)
Definition own_groups : list string := ["kubelb.k8c.io"; "gateway.networking.k8s.io"; "apiextensions.k8s.io"].

Class SchemeLaws `{RuntimeScheme} : Prop := {
  new_knows_nothing x : Recognizes NewScheme x = false;
  known_types_added gv ts : adds (AddKnownTypes gv ts) ((λ k, {| gvk_version := gv; gvk_kind := k |}) <$> ts) [gv_group gv];
  clientgo_kinds s x : x ∈ builtin_kinds → Recognizes (clientgo_AddToScheme s) x = true;
  clientgo_others s x : gv_group (gvk_version x) ∈ own_groups → Recognizes (clientgo_AddToScheme s) x = Recognizes s x;
  gateway_added : adds gwapiv1_Install gateway_kinds ["gateway.networking.k8s.io"];
  apiextensions_added :
    adds apiextensions_AddToScheme [kind_of "apiextensions.k8s.io" "v1" "CustomResourceDefinition"] ["apiextensions.k8s.io"]
}.

(** ** The packages of the API *)

Definition GroupVersion_v1alpha1 : GroupVersion := {| gv_group := "kubelb.k8c.io"; gv_version := "v1alpha1" |}.
(** [Resource] *)
Definition Resource (resource : string) : string * string := (gv_group GroupVersion_v1alpha1, resource).

(** What the [init] function of each file registers; files are initialised by name. *)
Module CERegistration.
Definition addresses : list string := ["Addresses"; "AddressesList"].
Definition config : list string := ["Config"; "ConfigList"].
Definition loadbalancer : list string := ["LoadBalancer"; "LoadBalancerList"].
Definition route : list string := ["Route"; "RouteList"].
Definition sync_secret : list string := ["SyncSecret"; "SyncSecretList"].
Definition tenant_state : list string := ["TenantState"; "TenantStateList"].
Definition tenant : list string := ["Tenant"; "TenantList"].
Definition SchemeBuilder : list (list string) := [addresses; config; loadbalancer; route; sync_secret; tenant_state; tenant].
End CERegistration.
Module EERegistration.
Definition addresses : list string := ["Addresses"; "AddressesList"].
Definition config : list string := ["Config"; "ConfigList"].
Definition loadbalancer : list string := ["LoadBalancer"; "LoadBalancerList"].
Definition route : list string := ["Route"; "RouteList"].
Definition sync_secret : list string := ["SyncSecret"; "SyncSecretList"].
Definition tenant_state : list string := ["TenantState"; "TenantStateList"].
Definition tenant : list string := ["Tenant"; "TenantList"].
Definition tunnel : list string := ["Tunnel"; "TunnelList"].
Definition waf_policy : list string := ["WAFPolicy"; "WAFPolicyList"].
Definition SchemeBuilder : list (list string) :=
  [addresses; config; loadbalancer; route; sync_secret; tenant_state; tenant; tunnel; waf_policy].
End EERegistration.

Section schemes.
Context `{RuntimeScheme}.

Definition AddToScheme (builder : list (list string)) (s : rscheme) : rscheme :=
  foldl (λ s ts, AddKnownTypes GroupVersion_v1alpha1 ts s) s builder.

(** The schemes of the clients: [init], then [main]. *)
Definition manager_init_scheme : rscheme := AddToScheme CERegistration.SchemeBuilder (clientgo_AddToScheme NewScheme).
Definition manager_scheme (opt : kubelb_options) : rscheme :=
  if ko_enableGatewayAPI opt then gwapiv1_Install manager_init_scheme else manager_init_scheme.
Definition ccm_init_scheme : rscheme :=
  apiextensions_AddToScheme (AddToScheme CERegistration.SchemeBuilder (clientgo_AddToScheme NewScheme)).
Definition ccm_scheme (opt : ccm_options) : rscheme :=
  if co_enableGatewayAPI opt then gwapiv1_Install ccm_init_scheme else ccm_init_scheme.
End schemes.

(** The kinds as the clients name them. *)
Definition gvk_of (k : Effects.kind) : GroupVersionKind :=
  match k with
  | KLoadBalancer => kind_of "kubelb.k8c.io" "v1alpha1" "LoadBalancer"
  | KService => kind_of "" "v1" "Service"
  | KTenant => kind_of "kubelb.k8c.io" "v1alpha1" "Tenant"
  | KConfig => kind_of "kubelb.k8c.io" "v1alpha1" "Config"
  | KRoute => kind_of "kubelb.k8c.io" "v1alpha1" "Route"
  | KIngress => kind_of "networking.k8s.io" "v1" "Ingress"
  | KHTTPRoute => kind_of "gateway.networking.k8s.io" "v1" "HTTPRoute"
  | KGRPCRoute => kind_of "gateway.networking.k8s.io" "v1" "GRPCRoute"
  | KGateway => kind_of "gateway.networking.k8s.io" "v1" "Gateway"
  | KSecret | KTenantSecret => kind_of "" "v1" "Secret"
  | KNamespace => kind_of "" "v1" "Namespace"
  | KDeployment => kind_of "apps" "v1" "Deployment"
  | KDaemonSet => kind_of "apps" "v1" "DaemonSet"
  | KNode => kind_of "" "v1" "Node"
  | KAddresses => kind_of "kubelb.k8c.io" "v1alpha1" "Addresses"
  | KServiceAccount => kind_of "" "v1" "ServiceAccount"
  | KRole => kind_of "rbac.authorization.k8s.io" "v1" "Role"
  | KRoleBinding => kind_of "rbac.authorization.k8s.io" "v1" "RoleBinding"
  | KConfigMap => kind_of "" "v1" "ConfigMap"
  | KEndpointSlice => kind_of "discovery.k8s.io" "v1" "EndpointSlice"
  | KTenantState => kind_of "kubelb.k8c.io" "v1alpha1" "TenantState"
  | KCRD => kind_of "apiextensions.k8s.io" "v1" "CustomResourceDefinition"
  | KSyncSecret | KTenantSyncSecret => kind_of "kubelb.k8c.io" "v1alpha1" "SyncSecret"
  end.

Definition is_gateway_kind (k : Effects.kind) : bool :=
  match k with KGateway | KHTTPRoute | KGRPCRoute => true | _ => false end.

(** ** What is known *)

Section known.
Context `{SchemeLaws}.

Lemma AddToScheme_adds builder :
  adds (AddToScheme builder) ((λ k, {| gvk_version := GroupVersion_v1alpha1; gvk_kind := k |}) <$> concat builder) ["kubelb.k8c.io"].
Proof.
  unfold AddToScheme. induction builder as [|ts builder IH]; simpl.
  { split; [intros s x Hx; by apply elem_of_nil in Hx|done|done]. }
  destruct (known_types_added GroupVersion_v1alpha1 ts) as [Hk Hkeep Ho]. destruct IH as [IHk IHkeep IHo]. split.
  - intros s x. rewrite fmap_app, elem_of_app. intros [Hx|Hx]; [|by apply IHk]. apply IHkeep. by apply Hk.
  - intros s x Hx. by apply IHkeep, Hkeep.
  - intros s x Hx. rewrite IHo by done. by apply Ho.
Qed.

Lemma base_knows k :
  Recognizes (AddToScheme CERegistration.SchemeBuilder (clientgo_AddToScheme NewScheme)) (gvk_of k) =
  negb (is_gateway_kind k) && match k with KCRD => false | _ => true end.
Proof.
  destruct (AddToScheme_adds CERegistration.SchemeBuilder) as [Hk Hkeep Ho].
  assert (∀ x, x ∈ builtin_kinds → Recognizes (AddToScheme CERegistration.SchemeBuilder (clientgo_AddToScheme NewScheme)) x = true) as Hb.
  { intros x Hx. by apply Hkeep, clientgo_kinds. }
  assert (∀ x, gv_group (gvk_version x) ∈ own_groups → gv_group (gvk_version x) ∉ ["kubelb.k8c.io"] →
    Recognizes (AddToScheme CERegistration.SchemeBuilder (clientgo_AddToScheme NewScheme)) x = false) as Hn.
  { intros x Hx Hx'. rewrite Ho, clientgo_others by done. apply new_knows_nothing. }
  destruct k; cbn [gvk_of is_gateway_kind negb andb];
    first [apply Hk; computed
          |apply Hb; computed
          |apply Hn; [computed|computed]].
Qed.

Lemma with_gateway_knows s k :
  Recognizes (gwapiv1_Install s) (gvk_of k) = is_gateway_kind k || Recognizes s (gvk_of k).
Proof.
  destruct gateway_added as [Hk _ Ho]. destruct (is_gateway_kind k) eqn:E; simpl.
  - apply Hk. destruct k; try discriminate E; computed.
  - apply Ho. destruct k; try discriminate E; computed.
Qed.
Lemma with_crds_knows s k :
  Recognizes (apiextensions_AddToScheme s) (gvk_of k) = match k with KCRD => true | _ => Recognizes s (gvk_of k) end.
Proof.
  destruct apiextensions_added as [Hk _ Ho].
  destruct k; try (apply Ho; computed). apply Hk. by left.
Qed.

(** The manager knows the kinds of the KubeLB cluster, the CCM all kinds, those of the
    Gateway API exactly when it is enabled. *)
Lemma manager_knows opt k :
  kubelb_resource k ≠ None → Recognizes (manager_scheme opt) (gvk_of k) = negb (is_gateway_kind k) || ko_enableGatewayAPI opt.
Proof.
  intros Hk. unfold manager_scheme, manager_init_scheme.
  destruct (ko_enableGatewayAPI opt); rewrite ?with_gateway_knows, base_knows; by destruct k.
Qed.
Lemma ccm_knows opt k :
  Recognizes (ccm_scheme opt) (gvk_of k) = negb (is_gateway_kind k) || co_enableGatewayAPI opt.
Proof.
  unfold ccm_scheme, ccm_init_scheme.
  destruct (co_enableGatewayAPI opt); rewrite ?with_gateway_knows, with_crds_knows, base_knows; by destruct k.
Qed.
End known.

(** *** The registered types *)

Section types.
Context `{External} `{MapRange}.

Definition is_object (f : Copies) : bool := match DeepCopyObject f with Some _ => true | None => false end.
(** The types of a package that implement [runtime.Object]. *)
Definition objects_of (functions : list (string * gotype * Copies)) : list string :=
  (λ f, f.1.1) <$> filter (λ f, is_object f.2 = true) functions.

Lemma objects_of_elem functions n :
  n ∈ objects_of functions ↔ ∃ t f, (n, t, f) ∈ functions ∧ DeepCopyObject f ≠ None.
Proof.
  unfold objects_of. rewrite list_elem_of_fmap. split.
  - intros ([[n' t] f] & -> & Hf). apply list_elem_of_filter in Hf as [Ho Hf]. exists t, f. split; [done|].
    unfold is_object in Ho. simpl in Ho. by destruct (DeepCopyObject f).
  - intros (t & f & Hf & Ho). exists (n, t, f). split; [done|]. apply list_elem_of_filter. split; [|done].
    unfold is_object. simpl. by destruct (DeepCopyObject f).
Qed.

Definition same_names (l1 l2 : list string) : bool :=
  forallb (λ n, bool_decide (n ∈ l2)) l1 && forallb (λ n, bool_decide (n ∈ l1)) l2.
Lemma same_names_elem l1 l2 n : same_names l1 l2 = true → n ∈ l1 ↔ n ∈ l2.
Proof.
  unfold same_names. rewrite andb_true_iff, !forallb_forall. intros [H1 H2].
  split; intros Hn%list_elem_of_In; [apply H1 in Hn|apply H2 in Hn]; by apply bool_decide_eq_true in Hn.
Qed.
Lemma registered_ce : same_names (concat CERegistration.SchemeBuilder) (objects_of CE.functions) = true.
Proof. vm_compute. reflexivity. Qed.
Lemma registered_ee : same_names (concat EERegistration.SchemeBuilder) (objects_of EE.functions) = true.
Proof. vm_compute. reflexivity. Qed.

(** C12: the clients know the types they are used with.  In both editions a package registers
    exactly its types that are objects, those with a [DeepCopyObject], each with its list; the scheme of
    the manager has every kind of the KubeLB cluster that its controllers use, and that of a CCM every kind of both clusters,
    those of the Gateway API exactly when it is enabled on the command line. *)
Theorem types_registered `{SchemeLaws} :
  (∀ n, n ∈ concat CERegistration.SchemeBuilder ↔ ∃ t f, (n, t, f) ∈ CE.functions ∧ DeepCopyObject f ≠ None) ∧
  (∀ n, n ∈ concat EERegistration.SchemeBuilder ↔ ∃ t f, (n, t, f) ∈ EE.functions ∧ DeepCopyObject f ≠ None) ∧
  (∀ opt k, kubelb_resource k ≠ None →
    (Recognizes (manager_scheme opt) (gvk_of k) = true ↔ (is_gateway_kind k = true → ko_enableGatewayAPI opt = true))) ∧
  (∀ opt k, Recognizes (ccm_scheme opt) (gvk_of k) = true ↔ (is_gateway_kind k = true → co_enableGatewayAPI opt = true)).
Proof.
  split_and!.
  - intros n. rewrite (same_names_elem _ _ n registered_ce). apply objects_of_elem.
  - intros n. rewrite (same_names_elem _ _ n registered_ee). apply objects_of_elem.
  - intros opt k Hk. rewrite manager_knows by done. destruct (is_gateway_kind k), (ko_enableGatewayAPI opt); naive_solver.
  - intros opt k. rewrite ccm_knows. destruct (is_gateway_kind k), (co_enableGatewayAPI opt); naive_solver.
Qed.
End types.

(** ** Kinds that are not known *)

(** The error of a call that failed. *)
Definition failure (e : event) : option error :=
  match e with
  | existT (Get _ _ _) (inl e) | existT (ListIn _ _ _) (inl e) | existT (Create _ _) (inl e) | existT (Update _ _) (inl e)
  | existT (StatusUpdate _ _) (inl e) | existT (StatusPatch _ _ _) (inl e) | existT (CreateOrUpdate _ _ _ _) (inl e)
  | existT (Delete _ _ _) (Some e) | existT (DeleteAllOf _ _) (Some e) | existT (Ensure _ _ _ _) (Some e) => Some e
  | _ => None
  end.

(** The client with this scheme: a call for a kind it does not know fails before anything is
    sent, with an error that is not a status of the API server ([runtime.notRegisteredErr]). *)
Definition client_answers `{RuntimeScheme} (s : rscheme) (e : event) : Prop :=
  ∀ k a, api_access (projT1 e) = Some (k, a) → Recognizes s (gvk_of k) = false →
    ∃ err, failure e = Some err ∧ IsNotFound err = false.

Section stuck.
Context `{SchemeLaws} `{Unicode} `{Finalizers}.
Context `{SemanticDeepEqual (gomap string)} `{SemanticDeepEqual (list ServicePort)}.
Context `{SemanticDeepEqual IngressSpec} `{SemanticDeepEqual GatewayRouteSpec}.
Context (SetControllerReference : LoadBalancer → ObjectMeta → error + ObjectMeta) (retries : nat) (r : LoadBalancerReconciler).

Lemma unknown_not_gone s k ns n log :
  Recognizes s (gvk_of k) = false → Forall (client_answers s) log → ¬ gone k ns n log.
Proof.
  intros Hk Hlog. rewrite list.Forall_forall in Hlog.
  intros [Hd|(e & He & Hd)]; destruct (Hlog _ Hd k Deletes eq_refl Hk) as (err & Hf & Herr); simpl in Hf; congruence.
Qed.

(** A log only grows. *)
Lemma all_runs_grow {A} (p : prog A) log : all_runs p (λ log' _, ∃ l, log' = log ++ l) log.
Proof.
  assert (only_calls (λ _, True) p) as Hp by (induction p; simpl; auto).
  eapply all_runs_mono; [|exact (only_calls_runs _ p log Hp)]. intros log' res (l & -> & _). by exists l.
Qed.

(** Cleaning up a LoadBalancer with the finalizer for its hostname updates it only when
    the HTTPRoute is gone. *)
Lemma cleanup_hostname_runs lb ns log :
  ContainsFinalizer (lb_meta lb) hostnameCleanupFinalizer = true → no_lb_update log →
  all_runs (cleanup r lb ns) (λ log' _, no_lb_update log' ∨ ∃ n, gone KHTTPRoute ns n log') log.
Proof.
  intros Hf Hno. unfold cleanup. apply all_runs_perform. intros []. rewrite Hf. apply all_runs_try.
  eapply all_runs_mono; [|apply cleanupHostnameResources_runs; apply Forall_app; split; [done|by repeat constructor]].
  intros log1 res (Hno1 & _ & [(-> & _ & Hg)|[e ->]]); [|by left].
  eapply all_runs_mono; [|apply all_runs_grow]. intros log2 res2 [l ->]. right. eexists. by apply gone_app.
Qed.

(** The LoadBalancer a call read. *)
Definition read_lb (e : event) : option LoadBalancer :=
  match e with existT (Get KLoadBalancer _ _) (inr lb) => Some lb | _ => None end.

Lemma listed_no_update req log :
  no_lb_update log → all_runs (listed_load_balancers r req) (λ log' _, no_lb_update log') log.
Proof.
  intros Hno. assert (∀ e : event, lb_update e = None → no_lb_update (log ++ [e])) as Hs.
  { intros e He. apply Forall_app. split; [done|]. by constructor. }
  unfold listed_load_balancers. repeat case_decide; [| |done]; intros [e|lbs]; by apply Hs.
Qed.

(** C39: a LoadBalancer with a hostname cannot be deleted while the manager runs without the
    Gateway API, which is the default.  Its cleanup deletes the HTTPRoute of the hostname,
    whether there was one or not; the client does not know the kind, fails with an error other than
    NotFound, and no run of the reconciler updates the LoadBalancer, so that its finalizers stay. *)
Theorem hostname_cleanup_stuck opt req :
  ko_enableGatewayAPI opt = false →
  all_runs (Reconcile SetControllerReference retries r req)
    (λ log _, Forall (client_answers (manager_scheme opt)) log →
       ∀ lb, head log = Some (existT (Get KLoadBalancer (nn_namespace req) (nn_name req)) (inr lb)) →
         deletionTimestamp (lb_meta lb) ≠ None → ContainsFinalizer (lb_meta lb) hostnameCleanupFinalizer = true →
         no_lb_update log) [].
Proof.
  intros Hopt.
  assert (Recognizes (manager_scheme opt) (gvk_of KHTTPRoute) = false) as Hunknown by (rewrite manager_knows by done; by rewrite Hopt).
  unfold Reconcile. apply all_runs_perform. intros got. simpl app. set (e0 := existT _ got : event).
  assert (no_lb_update [e0]) as Hno by by repeat constructor.
  destruct got as [e|lb]; [intros _ lb Hlb; by apply (f_equal (λ x, x ≫= read_lb)) in Hlb|].
  destruct (decide (deletionTimestamp (lb_meta lb) ≠ None ∧ ContainsFinalizer (lb_meta lb) hostnameCleanupFinalizer = true)) as [[Hd Hf]|Hn].
  2: { eapply all_runs_mono; [|apply all_runs_grow]. intros log res [l ->] _ lb' Hlb Hd Hf. exfalso. apply Hn.
       apply (f_equal (λ x, x ≫= read_lb)) in Hlb. injection Hlb as ->. by split. }
  eapply (all_runs_mono _ (λ log' _, no_lb_update log' ∨ ∃ ns n, gone KHTTPRoute ns n log')).
  { intros log _ [Hlog|(ns & n & Hg)] Hall; [done|]. by destruct (unknown_not_gone _ _ ns n _ Hunknown Hall). }
  destruct (decide (ls_endpoints (lb_spec lb) = [])); [by left|].
  apply all_runs_try. eapply all_runs_mono; [|apply (listed_no_update req [e0] Hno)].
  intros log1 res1 Hno1. destruct res1 as [[e|[lbs ns]]|]; [by left|..|by left].
  rewrite decide_True by done. destruct (any_finalizer lb); [|by left].
  apply all_runs_try. eapply all_runs_mono; [|by apply (cleanup_hostname_runs lb ns)].
  intros log2 res2 Hres. assert (no_lb_update log2 ∨ ∃ ns n, gone KHTTPRoute ns n log2) as Hq by naive_solver.
  by destruct res2 as [[e|[]]|].
Qed.
End stuck.

(** ** An instance *)

(** A scheme as the list of what it has. *)
Definition listed_scheme : RuntimeScheme :=
  {| rscheme := list GroupVersionKind; NewScheme := []; Recognizes s x := bool_decide (x ∈ s);
     AddKnownTypes gv ts s := ((λ k, {| gvk_version := gv; gvk_kind := k |}) <$> ts) ++ s;
     clientgo_AddToScheme s := builtin_kinds ++ s; gwapiv1_Install s := gateway_kinds ++ s;
     apiextensions_AddToScheme s := kind_of "apiextensions.k8s.io" "v1" "CustomResourceDefinition" :: s |}.

Lemma listed_adds ks groups :
  Forall (λ x, gv_group (gvk_version x) ∈ groups) ks → @adds listed_scheme (λ s, ks ++ s) ks groups.
Proof.
  intros Hks. rewrite list.Forall_forall in Hks. split; simpl; intros s x.
  - intros Hx. apply bool_decide_eq_true. set_solver.
  - rewrite !bool_decide_eq_true. set_solver.
  - intros Hx. apply bool_decide_ext. rewrite elem_of_app. naive_solver.
Qed.
Lemma listed_scheme_laws : @SchemeLaws listed_scheme.
Proof.
  split.
  - done.
  - intros gv ts. apply listed_adds. apply Forall_fmap, Forall_true. intros k. by left.
  - intros s x Hx. change (bool_decide (x ∈ builtin_kinds ++ s) = true). apply bool_decide_eq_true, elem_of_app. by left.
  - intros s x Hx. change (bool_decide (x ∈ builtin_kinds ++ s) = bool_decide (x ∈ s)). apply bool_decide_ext. rewrite elem_of_app. split; [|by right]. intros [Hb|?]; [exfalso|done].
    assert (forallb (λ x, bool_decide (gv_group (gvk_version x) ∉ own_groups)) builtin_kinds = true) as Hall by (vm_compute; reflexivity).
    rewrite forallb_forall in Hall. by apply list_elem_of_In, Hall, bool_decide_eq_true in Hb.
  - apply (listed_adds gateway_kinds). repeat constructor.
  - apply (listed_adds [_]). repeat constructor.
Qed.

Lemma types_registered_witness :
  ("Route" ∈ concat CERegistration.SchemeBuilder) ∧
  @Recognizes listed_scheme (@manager_scheme listed_scheme kubelb_defaults) (gvk_of KRoute) = true.
Proof.
  destruct (types_registered (H := sample_external) (H0 := in_order) (H1 := listed_scheme) (H2 := listed_scheme_laws))
    as (_ & _ & Hm & _).
  split; [computed|]. apply Hm; discriminate.
Defined.

(** A LoadBalancer with a hostname that is being deleted, an API server that has it and the
    client of a manager without the Gateway API. *)
Definition hostname_lb : LoadBalancer :=
  with_lb_meta {| name := "web"; namespace := "tenant-a"; uid := "uid-0001"; resourceVersion := "7"; labels := None; annotations := None;
                  finalizers := [CleanupFinalizer; hostnameCleanupFinalizer]; deletionTimestamp := Some "now"; ownerReferences := [] |}
    two_port_lb.
Definition without_gateway_api (s : unit) (c : call) : unit * resp c :=
  (s, match c as c return resp c with
      | Get KLoadBalancer _ _ => inr hostname_lb
      | ListIn KLoadBalancer _ _ => inr [hostname_lb]
      | Delete KHTTPRoute _ _ => Some (Errorf "no kind is registered for the type v1.HTTPRoute")
      | c => default_resp c
      end).

Lemma hostname_cleanup_stuck_witness :
  let p := Reconcile (H := no_unicode) (H0 := list_finalizers) (H1 := semantic_by_contents)
             (H2 := λ a b, bool_decide (a = b)) (H3 := λ a b, bool_decide (a = b)) (H4 := spec_equality)
             (λ _ m, inr m) 4 {| lr_namespace := "kubelb"; lr_topology := EnvoyProxyTopologyShared |}
             {| nn_namespace := "tenant-a"; nn_name := "web" |} in
  let '(_, log, res) := run without_gateway_api p () [] in
  no_lb_update log ∧ ∃ e, res = Done (inl e).
Proof.
  intros p.
  pose proof (all_runs_sound without_gateway_api p _ () [] (hostname_cleanup_stuck (H := listed_scheme) (H0 := listed_scheme_laws)
    (H1 := no_unicode) (H2 := list_finalizers) (H3 := semantic_by_contents) (H4 := λ a b, bool_decide (a = b))
    (H5 := λ a b, bool_decide (a = b)) (H6 := spec_equality) (λ _ m, inr m) 4
    {| lr_namespace := "kubelb"; lr_topology := EnvoyProxyTopologyShared |} kubelb_defaults
    {| nn_namespace := "tenant-a"; nn_name := "web" |} eq_refl)) as Hrun.
  assert (∃ e, (run without_gateway_api p () []).2 = Done (inl e)) as He by (eexists; reflexivity).
  assert (∃ l2, (run without_gateway_api p () []).1.2 =
     [existT (Get KLoadBalancer "tenant-a" "web") (inr hostname_lb); existT (ListIn KLoadBalancer (Some "tenant-a") ∅) (inr [hostname_lb]);
      existT (DeallocateLB hostname_lb) (); existT (Delete KIngress "tenant-a" "web-ingress") None] ++
      l2 ∧ l2 = [existT (Delete KHTTPRoute "tenant-a" "web-httproute") (Some (Errorf "no kind is registered for the type v1.HTTPRoute"))])
    as (l2 & Hlog & ->) by (eexists; split; reflexivity).
  destruct (run without_gateway_api p () []) as [[u log] res]. simpl in He, Hlog. subst log. split; [|exact He].
  apply (Hrun) with hostname_lb; [|reflexivity|discriminate|reflexivity].
  repeat (apply list.Forall_cons; split); try (by apply list.Forall_nil); intros k a Ha Hk; try discriminate Ha;
    injection Ha as <- <-; try (vm_compute in Hk; discriminate Hk). eexists. split; reflexivity.
Defined.
